(* ===== verification/_CoqProject ===== *)
-Q . S2P
Prelude.v
Interleave.v
Crc.v
Frame.v
Ring.v
Board.v
SpiProtocol.v
SpiInvariant.v
SpiTx.v
SpiReach.v
Preempt.v
SpiTypes.v
SpiRefine.v
Spi0Isr.v
IsrPreempt.v
SdrDma.v
DmaPreempt.v
Watchdog.v
SleepWake.v
Battery.v
PeriphPower.v
Kernel.v
ApexDev.v
SgEngine.v
SgRace.v
ApexBridge.v
DriverThreads.v
ApexSysfs.v
SpiSlave.v
Cc1101.v
St25r3916.v
Lms7002m.v
RegisterMaps.v
AdcCal.v
Libapex.v
System.v
WireLayout.v
SysfsSystem.v
Pyapex.v
PyapexSafety.v
PyapexSystem.v
MainLoop.v
SocInit.v
SpiMmio.v
Firmware.v
ApexProbe.v
UnitTests.v
