(* ===== verification/Prelude.v ===== *)
(** * GhostBlade (project NullSpectre): a verification of its core

    The program is a handheld radio device in three layers and a binding, and
    this library follows a command through all of them:

    - pyapex.c is libapex for Python;
    - libapex (src/software/libapex) turns calls into ioctls of a Linux device;
    - the kernel driver (src/software/linux-drivers) turns ioctls into frames
      on an SPI bus and frames that come back into telemetry;
    - the firmware of the RP2350B coprocessor (src/firmware/rp2350b) receives
      the frames, runs the radios (CC1101, LMS7002M, ST25R3916), watches the
      battery and the rails, and sends telemetry.

    ** Files

    Shared: Prelude (record update, machine integers, byte lists, options),
    Interleave (a routine in single accesses, interrupts between them, and when
    the whole is atomic), Crc (spi_protocol.c, its copy in rp2350b_init.c and
    apex_bridge.c: the CRC implementations), Frame
    (the frame layout and the interface [FrameCrc]), Ring (byte rings as
    queues), Board (the hardware access functions of rp2350b_init.c).

    The protocol handler, spi_protocol.c: SpiProtocol has its state (record
    [fw]: assembly context, counters, device flags, both rings, the calls made
    to the hardware) and every function; SpiInvariant the memory and hardware
    safety invariant; SpiTx the transmit side; SpiReach the step relation of
    interrupts and entry points; SpiTypes the widths of the fields; SpiRefine
    the refinement of the six-state assembly to a parser over byte streams.
    Spi0Isr is the other receive path, spi0_isr.c.

    Concurrency.  The files above take each entry point and each interrupt as
    one step.  Preempt splits spi_protocol_process into its accesses to the
    ring, IsrPreempt spi0_rx_release_frame into its stores, DmaPreempt
    sdr_dma_release_block into its accesses, with the interrupt between any
    two, and shows when that makes no difference and what goes wrong where it
    does; DriverThreads does the same for the threads of the driver around
    rx_lock, and SgRace for its scatter-gather worker, the controller and the
    calls that start, stop and map the engine.  Accesses are taken in the order of the source, which volatile
    and the barriers of the code keep on this core; a memcpy is byte by byte;
    the handler runs to its end, as nothing preempts it.  The flag bits of the
    driver are atomic operations of the kernel and change in one step.

    The rest of the firmware: SdrDma (sdr_dma.c), Watchdog (watchdog.c),
    SleepWake (sleep_wake.c), Battery (battery_monitor.c), PeriphPower
    (peripheral_power.c), AdcCal (adc_calibration.c), SocInit (the
    initialisation in rp2350b_init.c), MainLoop (the loop of main.c and what
    is linked), Firmware (main.c whole: boot, both cores, the loop with its
    readings, over the models of the other files).
    The radios: SpiSlave is a chip on a bus as a driver sees it, with logics
    for the traffic and for the chip; Cc1101 (cc1101_init.c) and St25r3916
    (st25r3916_init.c) are computations over it; SpiMmio has the bus accesses
    of rp2350b_init.c as programs over registers, and that they implement
    those of SpiSlave; Lms7002m (lms7002m_driver.c) has a platform of its own.
    RegisterMaps has the tables of pins, registers and bits of the headers.

    The host: Kernel (what the driver uses of Linux), ApexDev (framing and
    reception in apex_bridge.c), SgEngine (its scatter-gather engine),
    ApexBridge (its file operations), ApexSysfs (its attributes), ApexProbe
    (its probe and remove with their error paths and races), Libapex
    (libapex.c), and System, which composes library, driver and firmware, as
    SysfsSystem does for the attributes.  WireLayout has the C structures and
    constants that firmware, driver and library each declare for themselves.
    Pyapex is pyapex.c over libapex, PyapexSafety what any Python program can
    do with it, PyapexSystem Python calls down to the firmware.

    UnitTests has the copies of firmware logic that the tests in src/tests
    check in place of it, and how they compare.

    A definition has the name of the C function it translates.  C state is a
    record per file; a [uintN_t] is a [Z] with its wrap-around written out;
    [None] is undefined behaviour, an access out of bounds, or a wait that has
    not come to an end, as the file says.  Code that is not in the repository
    is a class: [Kfifo], [IoctlAbi], [Posix], [PyArg], [SpiSlave],
    [SpiController], [LmsPlatform], [PicoSdk], [Soc], [Multicore],
    [BatteryMonitor], [CaptureLoop]; its documented behaviour is in laws, and each has a
    concrete instance on which the witnesses compute.

    ** What the theorems show

    The link.  spi_protocol_process implements a parser of the byte stream,
    events and effects in order ([process_refines_deframe]); no byte sequence
    and no interleaving makes it write out of its arrays, the stack array of
    the response builder included, or leave the radios' register ranges
    ([reachable_memory_safe], [reachable_hw_safe]); frames of the driver are
    delivered once and in order ([host_frames_delivered]), a frame hit on the
    link is dropped at either end and costs nothing but itself
    ([corrupted_frame_dropped], [driver_drops_corrupted_frames]); both CRC codes agree
    ([host_mcu_crc_agree]), and the driver's frame functions are the
    reference's ([driver_builds_reference_frame],
    [driver_accepts_wire_frames]).  The transmit ring has no consumer
    ([telemetry_saturates]).  None of this depends on where the receive
    interrupt falls ([preempted_loop_atomic], [preempted_drain_exact]), and a
    frame handed out by the other path is not touched before it is released
    ([ready_frame_owned]); a response queued over a pending one is torn
    ([second_response_torn]).

    The layers together.  A library call has the firmware's effect for that
    command ([library_commands_reach_firmware]); telemetry arrives as it was
    cached, but the driver reads its flags by a wrong mask
    ([telemetry_end_to_end]), and is what the attribute files show
    ([sysfs_shows_firmware]); the record has the layout of all five
    declarations of it ([wire_structs_read_back]), and the constants agree,
    though some of them stand for nothing ([wire_constants_shared]); the calls for CC1101 and NFC are refused
    ([libapex_radio_calls_refused]).  In the firmware as CMake links it no
    command arrives at all ([linked_link_is_dead]).

    The firmware.  It reaches its loop from power-on whatever it finds
    ([firmware_boots]), core 1 launched or not ([core1_launch_terminates]);
    its iterations come to an end and are those of the abstract loop
    ([firmware_refines_loop]); what was not found at boot is left alone
    ([missing_sensor_untouched]).  The radio buses are what the drivers take
    them for, over controllers whose FIFOs are only written and read as their
    status flags allow ([cc1101_bus_refined]), except that the NFC chip is never
    selected ([nfc_chip_never_selected]).

    Python.  However a program nests its calls, the descriptor is used
    correctly ([python_handle_discipline]) and the driver is open while an
    object holds it ([python_object_owns_device]); values reach and leave the
    device as stated ([python_telemetry_end_to_end],
    [python_reads_are_the_fifo], [python_tune_sends_frame]).

    The driver.  Each ioctl sends nothing or one frame, and an error changes
    nothing but what a failed transfer counts ([ioctl_sends_one_command]); the
    invariant of its state over any history ([driver_invariant]); its lock
    sections exclude each other and, until the device is closed, act as wholes
    ([lock_sections_atomic]), its readers share one stream, of which a fault
    loses the piece in hand ([readers_share_stream]), and two accesses are
    outside the lock ([reader_sees_end_of_file], [wipe_tears_snapshot]); its
    worker stays in its buffers whatever the controller does, and is a ring of
    the last frames while no transfer times out
    ([sg_worker_fills_round_robin], [timed_out_frames_misplaced]); stop frees the buffers when the worker and
    the controller have left them, and waits for no more than one transfer
    ([sg_stop_safe], [sg_stop_returns]), unless a wait times out or has no
    limit ([late_completion_faults], [stop_waits_for_controller]), and mmap
    trusts a state that stop and the worker change under it
    ([error_after_stop], [map_races_stop]); what the sessions leak
    ([sg_sessions_accounting]); what probe and remove hold
    ([probe_unwinds]) and when the work item outlives the device, which
    suspending it first prevents ([remove_race_window]).

    The modules.  Queues: the capture ring drops its oldest block on an
    overrun and then announces one too many ([capture_ring_is_queue],
    [overrun_exposes_block_in_progress]); its release is atomic as long as the
    writer does not catch up ([release_atomic], [release_overtaken]).  Timing: the watchdog resets
    exactly the loops that are too slow ([watchdog_guards_loop]).  State
    machines: sleep, power and rails ([sleep_clock_follows_state],
    [power_shutdown_exact], [rails_follow_pins]).  Initialisation: what
    rp2350b_init leaves and what it does not set up
    ([rp2350b_init_completes], [gpio_init_asserts_before_release]).  Radios:
    every wait ends ([cc1101_init_terminates], [nfc_transact_terminates],
    [lms_waits_terminate]); what their drivers fail to do on the documented
    chips ([cc1101_init_undone], [nfc_response_reported_timeout],
    [lms_never_initialized]); the numbers ([band_tables_tuned],
    [pll_params_exact_below_half]); and the calibration record that does not
    survive a reboot ([calibration_lost_at_reboot]).

    ** Bounds and fuel

    [process_loop] runs on the ring size, 8192, which no ring content exceeds
    ([rx_fuel]); [wait_for_bitmask] on one poll per millisecond of its timeout
    and one more, enough for a clock that advances with the delays;
    [wait_until] and [drain_fifo] of SocInit and SpiMmio take their fuel as an
    argument, and [patience] or [sc_patience] of it is enough; [await_core1]
    a million rounds, as the timer moves in each.  All other recursion is structural, on the
    loop counters of the code.

    ** Not modelled

    Busy-wait delays (a wait that only spends time has no effect in any of
    these states) and console output.  The bark handler of main.c has a
    definition, but no run takes it, as nothing installs it.  battery_monitor.h
    and sdr_dma.h declare functions main.c calls and no file defines; they are
    classes, or their results are inputs.  The registers of the processor are
    one state in SocInit and SpiMmio and separate records in the models of the
    peripherals (watchdog, capture DMA, SPI0), so that two files touching one
    register do not see each other, the output word apart.  CPython's
    conversion of arguments, which is [PyArg].  The kernel's registration
    tables, but for the list of attributes.  The test cases of the unit
    tests.  Of the concurrency of the firmware: the reordering of accesses by
    compiler or memory, and the transmit path between its entry points and the
    interrupt beyond the copy of a response; of that of the driver: the
    transfer mutex, under which a transfer is one step, and the callback of a
    transfer, which is one step too. *)

From stdpp Require Export base list numbers option relations gmap.
From Stdlib Require Export ZArith Lia.

#[export] Set Default Goal Selector "!".

Open Scope Z_scope.

(** ** Record update

    The C code assigns fields of [static struct]s.  [r <| f := v |>] is the
    record [r] with field [f] replaced; [Eta R] carries the eta expansion of
    [R] through its projections, from which the update of any one field is
    derived by abstracting that projection. *)

Class Eta (R : Type) := eta_of : R -> R.
Class Update {R E : Type} (proj : R -> E) := update : (E -> E) -> R -> R.

Definition eta_ap {R A B : Type} (m : R -> A -> B) (p : R -> A) : R -> B :=
  fun r => m r (p r).

Notation "'eta!' C < f ; .. ; g >" :=
  (eta_ap .. (eta_ap (fun _ => C) f) .. g)
  (at level 0, C at level 9, f at level 9, g at level 9, only parsing).

Ltac derive_update proj :=
  lazymatch type of proj with
  | ?R -> ?E =>
      let i := constr:(_ : Eta R) in
      let h := eval hnf in i in
      exact (fun (f : E -> E) (r : R) =>
        ltac:(let b := eval cbv beta delta [eta_ap] in (h r) in
              let p := eval pattern (proj r) in b in
              lazymatch p with ?k _ =>
                let t := eval cbv beta in (k (f (proj r))) in exact t end))
  end.

#[export] Hint Extern 1 (Update ?p) => derive_update p : typeclass_instances.

Declare Scope upd_scope.
Open Scope upd_scope.
Notation "r <| p := v |>" := (update (proj:=p) (fun _ => v) r)
  (at level 1, p at level 9, v at level 200, left associativity) : upd_scope.
Notation "r <| p ::= f |>" := (update (proj:=p) f r)
  (at level 1, p at level 9, f at level 200, left associativity) : upd_scope.


(** ** Machine integers

    A [uintN_t] value is the [Z] in [0, 2^N); arithmetic that leaves the range
    is brought back by [uN].  [sN] reads the low [N] bits as two's
    complement, as a C cast to [intN_t] does on the targets of this code. *)

Definition u8 (x : Z) : Z := x mod 256.
Definition u16 (x : Z) : Z := x mod 65536.
Definition u32 (x : Z) : Z := x mod 4294967296.
Definition u64 (x : Z) : Z := x mod 18446744073709551616.

Definition s16 (x : Z) : Z :=
  let y := u16 x in if y <? 32768 then y else y - 65536.

Definition s32_ok (x : Z) : Prop := -2147483648 <= x < 2147483648.

Lemma u8_range x : 0 <= u8 x < 256.
Proof. by apply Z.mod_pos_bound. Qed.
Lemma u16_range x : 0 <= u16 x < 65536.
Proof. by apply Z.mod_pos_bound. Qed.
Lemma u32_range x : 0 <= u32 x < 4294967296.
Proof. by apply Z.mod_pos_bound. Qed.
Lemma u64_range x : 0 <= u64 x < 18446744073709551616.
Proof. by apply Z.mod_pos_bound. Qed.

Lemma u8_small x : 0 <= x < 256 -> u8 x = x.
Proof. apply Z.mod_small. Qed.
Lemma u16_small x : 0 <= x < 65536 -> u16 x = x.
Proof. apply Z.mod_small. Qed.
Lemma u32_small x : 0 <= x < 4294967296 -> u32 x = x.
Proof. apply Z.mod_small. Qed.
Lemma u64_small x : 0 <= x < 18446744073709551616 -> u64 x = x.
Proof. apply Z.mod_small. Qed.

Lemma s16_range x : -32768 <= s16 x < 32768.
Proof. unfold s16. pose proof (u16_range x). destruct (_ <? _) eqn:?; lia. Qed.

Lemma s16_u16 x : -32768 <= x < 32768 -> s16 (u16 x) = x.
Proof.
  intros H. unfold s16, u16. rewrite Z.mod_mod by lia.
  destruct (Z.ltb_spec (x mod 65536) 32768);
    destruct (Z.ltb_spec x 0).
  all: try (replace (x mod 65536) with (x + 65536) in *
              by (rewrite <- (Z_mod_plus_full x 1); symmetry; apply Z.mod_small; lia)).
  all: try rewrite (Z.mod_small x) in * by lia; lia.
Qed.

Lemma u16_s16 x : u16 (s16 x) = u16 x.
Proof.
  unfold s16. destruct (_ <? _); unfold u16.
  - apply Z.mod_mod; lia.
  - rewrite Zminus_mod_idemp_l, <- (Z_mod_plus_full (x - 65536) 1).
    f_equal; lia.
Qed.

Create HintDb mint.
Create Rewrite HintDb mint.
#[export] Hint Resolve u8_range u16_range u32_range u64_range s16_range : mint.
#[export] Hint Rewrite u8_small u16_small u32_small u64_small using lia : mint.

(** [++] on a [uint32_t] counter. *)
Definition incr32 (x : Z) : Z := u32 (x + 1).

(** ** Bit masks: [x & (1 << n)] and [BIT(n)] tests *)

Definition BIT (n : Z) : Z := Z.shiftl 1 n.
Definition has_bits (x mask : Z) : bool := negb (Z.land x mask =? 0).

Lemma has_BIT x n : 0 <= n -> has_bits x (BIT n) = Z.testbit x n.
Proof.
  intros Hn. unfold has_bits, BIT. rewrite Z.shiftl_1_l.
  destruct (Z.testbit x n) eqn:E.
  - destruct (Z.eqb_spec (Z.land x (2 ^ n)) 0) as [H|]; [|done].
    apply (f_equal (fun z => Z.testbit z n)) in H.
    rewrite Z.land_spec, Z.pow2_bits_true, E, Z.bits_0 in H by lia. done.
  - destruct (Z.eqb_spec (Z.land x (2 ^ n)) 0) as [|H]; [done|].
    exfalso. apply H, Z.bits_inj'. intros m Hm.
    rewrite Z.land_spec, Z.bits_0, Z.pow2_bits_eqb by lia.
    destruct (Z.eqb_spec n m) as [->|]; [by rewrite E|apply andb_false_r].
Qed.

#[global] Arguments u8 : simpl never.
#[global] Arguments u16 : simpl never.
#[global] Arguments u32 : simpl never.
#[global] Arguments u64 : simpl never.
#[global] Arguments s16 : simpl never.
#[global] Arguments BIT : simpl never.
#[global] Arguments has_bits : simpl never.
#[global] Arguments Z.testbit : simpl never.
#[global] Arguments Z.land : simpl never.
#[global] Arguments Z.lor : simpl never.
#[global] Arguments Z.ldiff : simpl never.
#[global] Arguments Z.shiftr : simpl never.
#[global] Arguments Z.shiftl : simpl never.
#[global] Arguments Z.modulo : simpl never.
#[global] Arguments Z.div : simpl never.

(** ** Bytes and fixed-size buffers

    A C array of [n] bytes is a list of length [n].  A write at a computed
    index is [None] outside the array: the C program would be undefined
    there, and the components prove it does not happen. *)

Definition byte (b : Z) : Prop := 0 <= b < 256.
Definition bytes (l : list Z) : Prop := Forall byte l.

Definition byte_at (l : list Z) (i : nat) : Z := nth i l 0.

Definition buf_set (l : list Z) (i v : Z) : option (list Z) :=
  if (0 <=? i) && (i <? Z.of_nat (length l))
  then Some (<[Z.to_nat i := v]> l) else None.

(** [memcpy]/[secure_wipe] of the first [n] bytes of an array *)
Definition overwrite (src dst : list Z) : list Z := src ++ drop (length src) dst.
Definition secure_wipe (n : nat) (l : list Z) : list Z :=
  overwrite (replicate (Nat.min n (length l)) 0) l.

Definition slice (off n : nat) (l : list Z) : list Z := take n (drop off l).

Lemma buf_set_ok l i v :
  0 <= i < Z.of_nat (length l) -> buf_set l i v = Some (<[Z.to_nat i := v]> l).
Proof.
  intros H. unfold buf_set.
  by replace ((0 <=? i) && (i <? Z.of_nat (length l))) with true by lia.
Qed.

Lemma buf_set_length l i v l' : buf_set l i v = Some l' -> length l' = length l.
Proof.
  unfold buf_set. destruct (_ && _); [|done].
  intros [= <-]. apply length_insert.
Qed.

Lemma overwrite_length src dst :
  (length src <= length dst)%nat -> length (overwrite src dst) = length dst.
Proof. intros. unfold overwrite. rewrite length_app, length_drop. lia. Qed.

Lemma secure_wipe_length n l : length (secure_wipe n l) = length l.
Proof. apply overwrite_length. rewrite length_replicate. lia. Qed.

Lemma secure_wipe_zero n l i :
  (i < n)%nat -> (i < length l)%nat -> secure_wipe n l !! i = Some 0.
Proof.
  intros. unfold secure_wipe, overwrite.
  rewrite lookup_app_l by (rewrite length_replicate; lia).
  apply lookup_replicate. lia.
Qed.

(** write [src] at offset [off] of a buffer *)
Definition write_at (off : nat) (src dst : list Z) : list Z :=
  take off dst ++ src ++ drop (off + length src) dst.

(** The same on an array of the program: a store that does not fit, and a
    [memcpy] from beyond the end of its source, are undefined. *)
Definition store_at (off : nat) (src dst : list Z) : option (list Z) :=
  if (off + length src <=? length dst)%nat then Some (write_at off src dst) else None.
Definition load_at (off n : nat) (src : list Z) : option (list Z) :=
  if (off + n <=? length src)%nat then Some (slice off n src) else None.

Lemma slice_length off n l :
  (off + n <= length l)%nat -> length (slice off n l) = n.
Proof. intros. unfold slice. rewrite length_take, length_drop. lia. Qed.

Lemma bytes_app l k : bytes (l ++ k) <-> bytes l /\ bytes k.
Proof. apply Forall_app. Qed.
Lemma bytes_take n l : bytes l -> bytes (take n l).
Proof. apply Forall_take. Qed.
Lemma bytes_drop n l : bytes l -> bytes (drop n l).
Proof. apply Forall_drop. Qed.
Lemma bytes_slice o n l : bytes l -> bytes (slice o n l).
Proof. intros. by apply bytes_take, bytes_drop. Qed.
Lemma bytes_insert l i b : bytes l -> byte b -> bytes (<[i:=b]> l).
Proof. intros. by apply Forall_insert. Qed.
Lemma bytes_replicate n b : byte b -> bytes (replicate n b).
Proof. intros. by apply Forall_replicate. Qed.
Lemma byte_0 : byte 0.
Proof. unfold byte; lia. Qed.

Definition bytesb (l : list Z) : bool := forallb (fun b => (0 <=? b) && (b <? 256)) l.

Lemma bytesb_bytes l : bytesb l = true -> bytes l.
Proof.
  unfold bytesb. induction l as [|b l IH]; simpl; intros H; [constructor|].
  apply andb_true_iff in H as [Hb Hl]. constructor; [unfold byte; lia|by apply IH].
Qed.

Lemma write_at_length off src dst :
  (off + length src <= length dst)%nat -> length (write_at off src dst) = length dst.
Proof. intros. unfold write_at. rewrite !length_app, length_take, length_drop. lia. Qed.

Lemma write_at_app off src a d :
  length a = off -> write_at off src (a ++ d) = a ++ src ++ drop (length src) d.
Proof.
  intros <-. unfold write_at. rewrite take_app_length. f_equal. f_equal.
  rewrite <- drop_drop. by rewrite drop_app_length.
Qed.

(** successive writes fill a buffer from the front *)
Lemma write_at_next k src a buf :
  length a = k -> write_at k src (a ++ drop k buf) = (a ++ src) ++ drop (k + length src) buf.
Proof. intros Hk. by rewrite write_at_app, drop_drop, <- app_assoc by done. Qed.

Lemma write_at_bytes off src dst : bytes src -> bytes dst -> bytes (write_at off src dst).
Proof. intros. unfold write_at. rewrite !bytes_app. auto using bytes_take, bytes_drop. Qed.

Lemma store_at_next k j src a buf :
  length a = k -> (k + length src)%nat = j -> (j <= length buf)%nat ->
  store_at k src (a ++ drop k buf) = Some ((a ++ src) ++ drop j buf).
Proof.
  intros Hk <- Hl. unfold store_at. rewrite length_app, length_drop, Hk.
  rewrite (proj2 (Nat.leb_le _ _)) by lia. by rewrite write_at_next.
Qed.

Lemma load_at_ok off n src :
  (off + n <= length src)%nat -> load_at off n src = Some (slice off n src).
Proof. intros. unfold load_at. by rewrite (proj2 (Nat.leb_le _ _)). Qed.

Lemma byte_at_byte l i : bytes l -> byte (byte_at l i).
Proof.
  unfold byte_at. intros H. revert i.
  induction H; intros [|i]; simpl; auto using byte_0.
Qed.

Lemma byte_at_lookup l i b : l !! i = Some b -> byte_at l i = b.
Proof. intros. unfold byte_at. by apply nth_lookup_Some. Qed.

Lemma byte_at_take n l i : (i < n)%nat -> byte_at (take n l) i = byte_at l i.
Proof. intros. unfold byte_at. rewrite !nth_lookup. by rewrite lookup_take_lt. Qed.
Lemma byte_at_drop n l i : byte_at (drop n l) i = byte_at l (n + i).
Proof. unfold byte_at. by rewrite !nth_lookup, lookup_drop. Qed.

Lemma byte_at_app l l' i : (i < length l)%nat -> byte_at (l ++ l') i = byte_at l i.
Proof. intros. unfold byte_at. rewrite !nth_lookup. by rewrite lookup_app_l. Qed.

Lemma slice_byte_at o n l :
  (o + n <= length l)%nat -> slice o n l = byte_at l <$> seq o n.
Proof.
  intros Hl. apply list_eq. intros i. unfold slice.
  destruct (decide (i < n)%nat) as [Hi|Hi].
  - rewrite lookup_take_lt, lookup_drop, list_lookup_fmap, lookup_seq_lt by done.
    destruct (lookup_lt_is_Some_2 l (o + i)) as [x Ex]; [lia|].
    simpl. by rewrite Ex, (byte_at_lookup _ _ _ Ex).
  - rewrite lookup_take_ge by lia. symmetry. apply lookup_ge_None.
    rewrite length_fmap, length_seq. lia.
Qed.

Lemma take_insert_snoc (l : list Z) n b :
  (n < length l)%nat -> take (S n) (<[n := b]> l) = take n l ++ [b].
Proof.
  intros Hl. rewrite (take_S_r _ _ b) by (by apply list_lookup_insert_eq).
  by rewrite take_insert_ge by lia.
Qed.

Lemma take_S_byte (l : list Z) k : (k < length l)%nat -> take (S k) l = take k l ++ [byte_at l k].
Proof.
  intros Hk. destruct (lookup_lt_is_Some_2 l k Hk) as [b Eb].
  by rewrite (take_S_r _ _ b) by done; rewrite (byte_at_lookup _ _ _ Eb).
Qed.

(** one more byte of a copy of [p] over [l] *)
Lemma copy_step (p l : list Z) i :
  (i < length p)%nat -> length p = length l ->
  <[i := byte_at p i]> (take i p ++ drop i l) = take (S i) p ++ drop (S i) l.
Proof.
  intros Hi Hl. rewrite take_S_byte by done.
  rewrite insert_app_r_alt by (rewrite length_take; lia).
  rewrite length_take, Nat.min_l, Nat.sub_diag by lia.
  destruct (lookup_lt_is_Some_2 l i) as [b Eb]; [lia|].
  rewrite (drop_S l b i Eb). by rewrite <- app_assoc.
Qed.

(** ** Little-endian integers *)

Fixpoint le_value (l : list Z) : Z :=
  match l with [] => 0 | b :: t => b + 256 * le_value t end.

Fixpoint le_bytes (n : nat) (v : Z) : list Z :=
  match n with O => [] | S k => u8 v :: le_bytes k (v / 256) end.

Lemma le_bytes_length n v : length (le_bytes n v) = n.
Proof. revert v. induction n; simpl; auto. Qed.

Lemma le_bytes_bytes n v : bytes (le_bytes n v).
Proof.
  revert v. induction n; intros; simpl; [constructor|].
  constructor; [apply u8_range|apply IHn].
Qed.

Lemma le_value_bound l : bytes l -> 0 <= le_value l < 2 ^ (8 * Z.of_nat (length l)).
Proof.
  induction 1 as [|b l Hb _ IH]; [done|].
  cbn [le_value length]. unfold byte in Hb.
  replace (8 * Z.of_nat (S (length l))) with (8 + 8 * Z.of_nat (length l)) by lia.
  rewrite Z.pow_add_r by lia. change (2 ^ 8) with 256. lia.
Qed.

Lemma le_value_le_bytes n v :
  0 <= v < 2 ^ (8 * Z.of_nat n) -> le_value (le_bytes n v) = v.
Proof.
  revert v. induction n as [|n IH]; intros v Hv.
  - change (2 ^ _) with 1 in Hv. simpl. lia.
  - cbn [le_bytes le_value]. rewrite IH.
    + unfold u8. pose proof (Z.div_mod v 256). lia.
    + replace (8 * Z.of_nat (S n)) with (8 + 8 * Z.of_nat n) in Hv by lia.
      rewrite Z.pow_add_r in Hv by lia. change (2 ^ 8) with 256 in Hv.
      split; [apply Z.div_pos; lia|apply Z.div_lt_upper_bound; lia].
Qed.

Lemma le_bytes_le_value l : bytes l -> le_bytes (length l) (le_value l) = l.
Proof.
  induction 1 as [|b l Hb _ IH]; [done|].
  unfold byte in Hb. cbn [le_value length le_bytes]. unfold u8.
  replace (b + 256 * le_value l) with (b + le_value l * 256) by lia.
  rewrite Z_mod_plus_full, Z.mod_small, Z.div_add by lia.
  rewrite (Z.div_small b), Z.add_0_l by lia. by rewrite IH.
Qed.

Lemma le_value_inj l k :
  bytes l -> bytes k -> length l = length k -> le_value l = le_value k -> l = k.
Proof.
  intros Hl Hk E V. rewrite <- (le_bytes_le_value l), <- (le_bytes_le_value k) by done.
  by rewrite E, V.
Qed.

Create HintDb bytes.
Create Rewrite HintDb len.
#[export] Hint Resolve bytes_take bytes_drop bytes_slice bytes_insert
  bytes_replicate le_bytes_bytes byte_0 byte_at_byte : bytes.
#[export] Hint Rewrite le_bytes_length @length_insert @length_app @length_take @length_drop
  @length_replicate secure_wipe_length : len.

(** The C idiom [lo | (hi << 8)] adds. *)
Lemma lor_shiftl_add b y n :
  0 <= n -> 0 <= b < 2 ^ n -> Z.lor b (Z.shiftl y n) = b + 2 ^ n * y.
Proof.
  intros Hn Hb. rewrite Z.lor_comm, (Z.shiftl_mul_pow2 y) by done.
  pose proof (Z.add_lor_land (y * 2 ^ n) b) as E.
  enough (Z.land (y * 2 ^ n) b = 0) by lia. apply Z.bits_inj'. intros m Hm.
  rewrite Z.land_spec, Z.bits_0. destruct (Z.ltb_spec m n).
  - by rewrite Z.mul_pow2_bits_low.
  - rewrite <- (Z.mod_small b (2 ^ n)), Z.mod_pow2_bits_high by lia.
    apply andb_false_r.
Qed.

(** Appending in place: writing [x] at index [length k] of an array whose
    first bytes are [k]. *)
Lemma insert_snoc (k rest : list Z) (y x : Z) :
  <[length k := x]> (k ++ y :: rest) = (k ++ [x]) ++ rest.
Proof.
  rewrite insert_app_r_alt by lia.
  rewrite Nat.sub_diag. simpl. by rewrite <- app_assoc.
Qed.

(** ** Tactics *)

(** Split every [if] of the goal, remembering the test. *)
Ltac cases_if :=
  repeat match goal with
  | |- context [if ?b then _ else _] => destruct b eqn:?; simpl
  end.

(** Same in a hypothesis, discarding contradictory branches. *)
Ltac cases_if_in H :=
  repeat match type of H with
  | context [if ?b then _ else _] => destruct b eqn:?; simpl in H; try done
  end.

(** Discharge the goals left by record invariants: unfold nothing, split the
    conjunctions and call the solvers. *)
Ltac solve_inv :=
  repeat match goal with |- _ /\ _ => split end;
  autorewrite with len; eauto with bytes mint; try lia.
