(* ===== verification/Interleave.v ===== *)
(** * A main loop preempted by interrupt handlers

    The shared part of the preemption arguments.  The main loop is a program
    counter and a step function, one step per access to shared memory; a
    handler runs to its end between two steps.  A schedule lists whose turn it
    is.  If every step of the main loop may be moved behind the interrupts
    that follow it, a preempted run does what an undisturbed one does: some of
    the interrupts come before it, the others after it. *)

From S2P Require Import Prelude.

Inductive event (Ev : Type) := EvMain | EvIrq (e : Ev).
Arguments EvMain {Ev}.
Arguments EvIrq {Ev} e.

Section Schedule.
Context {PC St Ev : Type}.
Variable step : PC -> St -> option (PC * St).
Variable irq : Ev -> St -> option St.

Definition exec (e : event Ev) (pc : PC) (s : St) : option (PC * St) :=
  match e with
  | EvMain => step pc s
  | EvIrq e => s ← irq e s; Some (pc, s)
  end.

Fixpoint run_schedule (l : list (event Ev)) (pc : PC) (s : St) : option (PC * St) :=
  match l with
  | [] => Some (pc, s)
  | e :: l => '(pc, s) ← exec e pc s; run_schedule l pc s
  end.

Fixpoint irqs (l : list Ev) (s : St) : option St :=
  match l with
  | [] => Some s
  | e :: l => s' ← irq e s; irqs l s'
  end.

Fixpoint received (l : list (event Ev)) : list Ev :=
  match l with
  | [] => []
  | EvMain :: l => received l
  | EvIrq e :: l => e :: received l
  end.
Fixpoint main_steps (l : list (event Ev)) : nat :=
  match l with
  | [] => 0
  | EvMain :: l => S (main_steps l)
  | EvIrq _ :: l => main_steps l
  end.

Lemma irqs_app l1 l2 s : irqs (l1 ++ l2) s = s' ← irqs l1 s; irqs l2 s'.
Proof.
  revert s. induction l1 as [|e l1 IH]; simpl; intros s; [done|].
  destruct (irq e s); [apply IH|done].
Qed.

(** [alone pc s r]: without interrupts, the main loop gets from [pc] and [s] to
    its end [r]. *)
Variable finished : PC -> Prop.
Inductive alone : PC -> St -> PC * St -> Prop :=
| alone_end pc s : finished pc -> alone pc s (pc, s)
| alone_step pc s pc' s' r :
    ~ finished pc -> step pc s = Some (pc', s') -> alone pc' s' r -> alone pc s r.

Lemma alone_det pc s r r' : alone pc s r -> alone pc s r' -> r = r'.
Proof.
  intros H. revert r'. induction H as [pc s Hf|pc s pc1 s1 r Hf E H IH];
    intros r' H'; inversion H'; simplify_eq; auto; done.
Qed.

(** [ok l pc s]: the main loop may stand at [pc] in state [s] with the
    interrupts [l] to come; [work]: how many steps it has left at most, to
    which an interrupt may add [cost]. *)
Variable ok : list Ev -> PC -> St -> Prop.
Variable work : PC -> St -> Z.
Variable cost : Z.

Record linearizable : Prop := {
  finished_dec pc : finished pc \/ ~ finished pc;
  finished_stays pc s : finished pc -> step pc s = Some (pc, s);
  ok_irq e l pc s : ok (e :: l) pc s ->
    exists s', irq e s = Some s' /\ ok l pc s' /\ work pc s' <= work pc s + cost;
  ok_step l pc s : ok l pc s ->
    exists pc' s', step pc s = Some (pc', s') /\ ok l pc' s' /\
      (finished pc \/ work pc' s' <= work pc s - 1);
  ok_done l pc s : ok l pc s -> work pc s <= 0 -> finished pc;
  (* an access that does not end the run may be moved behind the interrupt
     that follows it *)
  step_later e l pc s pc' s' s1 :
    ok (e :: l) pc s -> ~ finished pc' -> step pc s = Some (pc', s') -> irq e s = Some s1 ->
    exists u, irq e s' = Some u /\ step pc s1 = Some (pc', u);
}.

Hypothesis L : linearizable.

Lemma run_finished l pc s pc' t :
  finished pc -> run_schedule l pc s = Some (pc', t) -> pc' = pc.
Proof.
  intros Hf. revert s. induction l as [|[|e] l IH]; simpl; intros s E; [by simplify_eq| |].
  - rewrite (finished_stays L _ _ Hf) in E. by eapply IH.
  - destruct (irq e s); simpl in E; [|done]. by eapply IH.
Qed.

(** No schedule gets stuck, and enough turns of the main loop end it. *)
Lemma run_schedule_total l pc s :
  ok (received l) pc s ->
  exists pc' t, run_schedule l pc s = Some (pc', t) /\ ok [] pc' t /\
    (work pc s + cost * Z.of_nat (length (received l)) <= Z.of_nat (main_steps l) ->
     finished pc').
Proof.
  revert pc s. induction l as [|[|e] l IH]; simpl; intros pc s Hok.
  - exists pc, s. split_and!; [done..|]. intros. apply (ok_done L [] pc s); [done|lia].
  - destruct (ok_step L _ _ _ Hok) as (pc1 & s1 & E & Hok1 & Hw). rewrite E. simpl.
    destruct (IH pc1 s1 Hok1) as (pc' & t & Er & Ht & Hd). exists pc', t.
    split_and!; [done..|]. intros Hle. destruct Hw as [Hf|Hw]; [|apply Hd; lia].
    rewrite (finished_stays L _ _ Hf) in E. simplify_eq.
    by rewrite (run_finished _ _ _ _ _ Hf Er).
  - destruct (ok_irq L _ _ _ _ Hok) as (s1 & -> & Hok1 & Hw). simpl.
    destruct (IH pc s1 Hok1) as (pc' & t & Er & Ht & Hd). exists pc', t.
    split_and!; [done..|]. intros Hle. apply Hd. lia.
Qed.

Lemma step_later_all l1 l2 pc s pc' s' u :
  ok (l1 ++ l2) pc s -> ~ finished pc' -> step pc s = Some (pc', s') -> irqs l1 s' = Some u ->
  exists u0, irqs l1 s = Some u0 /\ step pc u0 = Some (pc', u).
Proof.
  intros Hok Hnf. revert s s' Hok. induction l1 as [|e l1 IH]; simpl; intros s s' Hok E Eu.
  - simplify_eq. eauto.
  - destruct (ok_irq L _ _ _ _ Hok) as (s1 & E1 & Hok1 & _). rewrite E1. simpl.
    destruct (step_later L _ _ _ _ _ _ _ Hok Hnf E E1) as (v & Ev' & Es).
    rewrite Ev' in Eu. simpl in Eu. by apply (IH s1 v).
Qed.

(** A run that ends is an undisturbed run between two groups of interrupts. *)
Lemma run_schedule_linear l pc s pcf t :
  run_schedule l pc s = Some (pcf, t) -> finished pcf -> ok (received l) pc s ->
  exists before after s1 s2, received l = before ++ after /\ irqs before s = Some s1 /\
    alone pc s1 (pcf, s2) /\ irqs after s2 = Some t.
Proof.
  intros E Hfin. revert pc s E. induction l as [|[|e] l IH]; simpl; intros pc s E Hok.
  - simplify_eq. exists [], [], t, t. split_and!; [done..| |done]. by constructor.
  - destruct (finished_dec L pc) as [Hf|Hnf].
    { rewrite (finished_stays L _ _ Hf) in E. by apply IH. }
    destruct (ok_step L _ _ _ Hok) as (pc1 & s1 & E1 & Hok1 & _). rewrite E1 in E. simpl in E.
    destruct (IH pc1 s1 E Hok1) as (l1 & l2 & u1 & u2 & El & Ei & Ha & Et).
    rewrite El in Hok. destruct (finished_dec L pc1) as [Hf1|Hnf1].
    + inversion Ha; subst; [|done]. exists [], (l1 ++ l2), s, s1.
      split_and!; [done..|econstructor; [done..|by constructor]|by rewrite irqs_app, Ei].
    + destruct (step_later_all _ _ _ _ _ _ _ Hok Hnf1 E1 Ei) as (u0 & E0 & Es).
      exists l1, l2, u0, u2. split_and!; [done..| |done]. by econstructor.
  - destruct (ok_irq L _ _ _ _ Hok) as (s1 & E1 & Hok1 & _). rewrite E1 in E. simpl in E.
    destruct (IH pc s1 E Hok1) as (l1 & l2 & u1 & u2 & El & Ei & Hf & Et).
    exists (e :: l1), l2, u1, u2. simpl. by rewrite El, E1.
Qed.
End Schedule.
