(* ===== verification/Crc.v ===== *)
(** * CRC-64 and CRC-32 of the SPI bridge

    The firmware computes both checksums with 256-entry tables
    (spi_protocol.c, and a copy in rp2350b_init.c); the kernel driver computes
    them bit by bit (apex_bridge.c).  The bitwise step is the reference; the
    table-driven loop is proved equal to it, so that host and MCU agree. *)

From S2P Require Import Prelude.

(** ** The generic reflected CRC register *)

Section Generic.
Variable poly : Z.

(** one iteration of the inner loop:
    [if (crc & 1) crc = (crc >> 1) ^ poly; else crc >>= 1;] *)
Definition crc_bit (crc : Z) : Z :=
  if Z.testbit crc 0 then Z.lxor (Z.shiftr crc 1) poly else Z.shiftr crc 1.

Fixpoint crc_bits (n : nat) (crc : Z) : Z :=
  match n with O => crc | S k => crc_bits k (crc_bit crc) end.

(** the 256-entry table built by the [_init] functions *)
Definition crc_table : list Z :=
  (fun i => crc_bits 8 (Z.of_nat i)) <$> seq 0 256.

(** [crc = table[(crc ^ data[i]) & 0xFF] ^ (crc >> 8)] *)
Definition table_step (table : list Z) (crc b : Z) : Z :=
  Z.lxor (byte_at table (Z.to_nat (Z.land (Z.lxor crc b) 255)))
         (Z.shiftr crc 8).

(** [crc ^= data[i]; for (j = 0; j < 8; j++) ...] *)
Definition bitwise_step (crc b : Z) : Z := crc_bits 8 (Z.lxor crc b).

Hypothesis poly_nonneg : 0 <= poly.

Lemma crc_bit_nonneg x : 0 <= x -> 0 <= crc_bit x.
Proof.
  intros. unfold crc_bit. destruct (Z.testbit x 0).
  - apply Z.lxor_nonneg. split; intros; [done|by apply Z.shiftr_nonneg].
  - by apply Z.shiftr_nonneg.
Qed.

Lemma crc_bits_nonneg n x : 0 <= x -> 0 <= crc_bits n x.
Proof. revert x. induction n; simpl; auto using crc_bit_nonneg. Qed.

(** The register update is linear over exclusive or. *)
Lemma crc_bit_lxor x y : crc_bit (Z.lxor x y) = Z.lxor (crc_bit x) (crc_bit y).
Proof.
  unfold crc_bit. rewrite Z.lxor_spec, Z.shiftr_lxor.
  destruct (Z.testbit x 0), (Z.testbit y 0); simpl.
  - rewrite Z.lxor_assoc, <- (Z.lxor_assoc poly), (Z.lxor_comm poly).
    rewrite (Z.lxor_assoc _ poly), Z.lxor_nilpotent, Z.lxor_0_r. done.
  - by rewrite !Z.lxor_assoc, (Z.lxor_comm poly).
  - by rewrite Z.lxor_assoc.
  - done.
Qed.

Lemma crc_bits_lxor n x y :
  crc_bits n (Z.lxor x y) = Z.lxor (crc_bits n x) (crc_bits n y).
Proof.
  revert x y. induction n as [|n IH]; intros; simpl; [done|].
  by rewrite crc_bit_lxor, IH.
Qed.

Lemma crc_bits_add m n x : crc_bits (m + n) x = crc_bits n (crc_bits m x).
Proof. revert x. induction m; simpl; auto. Qed.

(** Zero low bits are shifted out without touching the polynomial. *)
Lemma crc_bits_shiftl n y : crc_bits n (Z.shiftl y (Z.of_nat n)) = y.
Proof.
  induction n as [|n IH]; [by apply Z.shiftl_0_r|].
  cbn [crc_bits]. rewrite Nat2Z.inj_succ. unfold crc_bit.
  rewrite Z.shiftl_spec_low by lia.
  rewrite Z.shiftr_shiftl_l by lia.
  by replace (Z.succ (Z.of_nat n) - 1) with (Z.of_nat n) by lia.
Qed.

Lemma low_high_split x :
  0 <= x -> x = Z.lxor (Z.land x 255) (Z.shiftl (Z.shiftr x 8) 8).
Proof.
  intros Hx. apply Z.bits_inj'. intros n Hn.
  rewrite Z.lxor_spec, Z.land_spec. change 255 with (Z.ones 8).
  rewrite Z.testbit_ones_nonneg, Z.shiftl_spec by lia.
  destruct (Z.ltb_spec n 8).
  - rewrite andb_true_r, (Z.testbit_neg_r _ (n - 8)) by lia. by destruct (Z.testbit x n).
  - rewrite andb_false_r, Z.shiftr_spec by lia.
    by replace (n - 8 + 8) with n by lia.
Qed.

Lemma crc_table_lookup i :
  0 <= i < 256 -> byte_at crc_table (Z.to_nat i) = crc_bits 8 i.
Proof.
  intros H. unfold crc_table. apply byte_at_lookup.
  rewrite list_lookup_fmap, lookup_seq_lt by lia. simpl.
  by rewrite Z2Nat.id by lia.
Qed.

Lemma land_255_range x : 0 <= Z.land x 255 < 256.
Proof.
  change 255 with (Z.ones 8). rewrite Z.land_ones by lia.
  by apply Z.mod_pos_bound.
Qed.

Lemma shiftr8_byte b : byte b -> Z.shiftr b 8 = 0.
Proof. intros [? ?]. rewrite Z.shiftr_div_pow2 by lia. by apply Z.div_small. Qed.

(** One table lookup does the work of eight bit steps. *)
Lemma table_step_bitwise crc b :
  0 <= crc -> byte b -> table_step crc_table crc b = bitwise_step crc b.
Proof.
  intros Hc Hb. unfold table_step, bitwise_step.
  assert (Hx : 0 <= Z.lxor crc b).
  { apply Z.lxor_nonneg. split; intros; [apply Hb|done]. }
  rewrite crc_table_lookup by apply land_255_range.
  rewrite (low_high_split (Z.lxor crc b)) at 2 by done.
  rewrite crc_bits_lxor.
  pose proof (crc_bits_shiftl 8 (Z.shiftr (Z.lxor crc b) 8)) as Hs.
  change (Z.of_nat 8) with 8 in Hs. rewrite Hs.
  rewrite Z.shiftr_lxor, (shiftr8_byte b), Z.lxor_0_r by done. done.
Qed.

Lemma bitwise_step_nonneg crc b : 0 <= crc -> byte b -> 0 <= bitwise_step crc b.
Proof.
  intros ? [? ?]. apply crc_bits_nonneg, Z.lxor_nonneg. split; intros; lia.
Qed.

Lemma fold_table_bitwise data crc :
  0 <= crc -> bytes data ->
  foldl (table_step crc_table) crc data = foldl bitwise_step crc data.
Proof.
  intros Hc Hd. revert crc Hc. induction Hd as [|b l Hb _ IH]; intros; simpl; [done|].
  rewrite table_step_bitwise by done.
  apply IH. by apply bitwise_step_nonneg.
Qed.
End Generic.

(** ** Range: a register of [w] bits stays in its width *)

Section Range.
Variables poly w : Z.
Hypothesis w_pos : 0 < w.
Hypothesis poly_range : 0 <= poly < 2 ^ w.

Lemma shiftr1_range x : 0 <= x < 2 ^ w -> 0 <= Z.shiftr x 1 < 2 ^ (w - 1).
Proof.
  intros Hx. rewrite Z.shiftr_div_pow2 by lia. change (2 ^ 1) with 2.
  split; [apply Z.div_pos; lia|]. apply Z.div_lt_upper_bound; [lia|].
  rewrite <- Z.pow_succ_r by lia.
  replace (Z.succ (w - 1)) with w by lia. lia.
Qed.

Lemma lxor_range x y :
  0 <= x < 2 ^ w -> 0 <= y < 2 ^ w -> 0 <= Z.lxor x y < 2 ^ w.
Proof.
  intros Hx Hy.
  assert (0 <= Z.lxor x y) by (apply Z.lxor_nonneg; lia).
  split; [done|].
  rewrite <- (Z.mod_small x (2 ^ w)), <- (Z.mod_small y (2 ^ w)) by done.
  rewrite <- !Z.land_ones by lia.
  replace (Z.lxor _ _) with (Z.land (Z.lxor x y) (Z.ones w)).
  - rewrite Z.land_ones by lia. apply Z.mod_pos_bound, Z.pow_pos_nonneg; lia.
  - apply Z.bits_inj'. intros n Hn.
    rewrite !Z.land_spec, !Z.lxor_spec, !Z.land_spec.
    by destruct (Z.testbit x n), (Z.testbit y n), (Z.testbit (Z.ones w) n).
Qed.

Lemma crc_bit_range x : 0 <= x < 2 ^ w -> 0 <= crc_bit poly x < 2 ^ w.
Proof.
  intros Hx. pose proof (shiftr1_range x Hx).
  assert (2 ^ (w - 1) < 2 ^ w) by (apply Z.pow_lt_mono_r; lia).
  unfold crc_bit. destruct (Z.testbit x 0); [|lia].
  apply lxor_range; lia.
Qed.

Lemma crc_bits_range n x : 0 <= x < 2 ^ w -> 0 <= crc_bits poly n x < 2 ^ w.
Proof. revert x. induction n; simpl; auto using crc_bit_range. Qed.

Lemma foldl_bitwise_range data s :
  8 <= w -> 0 <= s < 2 ^ w -> bytes data ->
  0 <= foldl (bitwise_step poly) s data < 2 ^ w.
Proof.
  intros Hw Hs Hd. revert s Hs. induction Hd as [|b l Hb _ IH]; intros s Hs; [done|].
  apply IH, crc_bits_range, lxor_range; [done|].
  unfold byte in Hb. assert (2 ^ 8 <= 2 ^ w) by (apply Z.pow_le_mono_r; lia). lia.
Qed.
End Range.

(** ** Width: a register of [w] bits whose polynomial has its top bit set *)

Section Width.
Variables poly w : Z.
Hypothesis w_pos : 0 < w.
Hypothesis poly_top : 2 ^ (w - 1) <= poly < 2 ^ w.

Lemma poly_nonneg_w : 0 <= poly.
Proof. pose proof (Z.pow_pos_nonneg 2 (w - 1)). lia. Qed.

Lemma poly_range_w : 0 <= poly < 2 ^ w.
Proof. pose proof poly_nonneg_w. lia. Qed.

(** No non-zero register value is sent to zero, so distinct values stay
    distinct. *)
Lemma crc_bit_zero x : 0 <= x < 2 ^ w -> crc_bit poly x = 0 -> x = 0.
Proof.
  intros Hx. pose proof (shiftr1_range w w_pos x Hx). unfold crc_bit.
  destruct (Z.testbit x 0) eqn:E; intros H0.
  - apply Z.lxor_eq in H0. lia.
  - rewrite Z.shiftr_div_pow2 in H0 by lia. change (2 ^ 1) with 2 in H0.
    rewrite Z.bit0_odd, Zodd_mod in E. apply Z.eqb_neq in E.
    pose proof (Z.div_mod x 2). pose proof (Z.mod_pos_bound x 2). lia.
Qed.

Lemma crc_bits_zero n x : 0 <= x < 2 ^ w -> crc_bits poly n x = 0 -> x = 0.
Proof.
  revert x. induction n as [|n IH]; simpl; intros x Hx H0; [done|].
  apply crc_bit_zero; [done|]. apply IH; [|done].
  apply crc_bit_range; auto using poly_range_w.
Qed.

Lemma lxor_byte_shift b y :
  byte b -> 0 <= y -> b + 256 * y = Z.lxor b (Z.shiftl y 8).
Proof.
  intros Hb Hy. unfold byte in Hb.
  assert (Z.shiftr (b + 256 * y) 8 = y) as Hs.
  { rewrite Z.shiftr_div_pow2 by lia. change (2 ^ 8) with 256.
    rewrite (Z.mul_comm 256), Z.div_add, Z.div_small by lia. lia. }
  assert (Z.land (b + 256 * y) 255 = b) as Hl.
  { change 255 with (Z.ones 8). rewrite Z.land_ones by lia.
    change (2 ^ 8) with 256. rewrite (Z.mul_comm 256), Z_mod_plus_full.
    by apply Z.mod_small. }
  rewrite (low_high_split (b + 256 * y)) at 1 by lia. by rewrite Hs, Hl.
Qed.

(** Absorbing a run of bytes is one long shift of the register xored with
    their little-endian value. *)
Lemma foldl_bitwise_crc_bits data s :
  bytes data ->
  foldl (bitwise_step poly) s data =
  crc_bits poly (8 * length data) (Z.lxor s (le_value data)).
Proof.
  intros Hd. revert s. induction Hd as [|b l Hb Hl IH]; intros s.
  - simpl. by rewrite Z.lxor_0_r.
  - cbn [foldl le_value length].
    pose proof (le_value_bound l Hl).
    rewrite IH, lxor_byte_shift by (done || lia).
    replace (8 * S (length l))%nat with (8 + 8 * length l)%nat by lia.
    rewrite crc_bits_add. unfold bitwise_step.
    rewrite <- Z.lxor_assoc, (crc_bits_lxor poly 8 (Z.lxor s b)).
    pose proof (crc_bits_shiftl poly 8 (le_value l)) as E.
    change (Z.of_nat 8) with 8 in E. by rewrite E.
Qed.

Lemma foldl_bitwise_diff data s t :
  foldl (bitwise_step poly) s data = foldl (bitwise_step poly) t data ->
  0 <= Z.lxor s t < 2 ^ w -> s = t.
Proof.
  revert s t. induction data as [|b l IH]; intros s t; simpl; [done|].
  intros E Hr.
  assert (Z.lxor (bitwise_step poly s b) (bitwise_step poly t b)
          = crc_bits poly 8 (Z.lxor s t)) as Hd.
  { unfold bitwise_step. rewrite <- crc_bits_lxor. f_equal.
    rewrite (Z.lxor_comm s b), Z.lxor_assoc, <- (Z.lxor_assoc s t b).
    rewrite (Z.lxor_comm _ b), <- (Z.lxor_assoc b b), Z.lxor_nilpotent.
    apply Z.lxor_0_l. }
  apply IH in E.
  - rewrite E, Z.lxor_nilpotent in Hd. symmetry in Hd.
    apply crc_bits_zero in Hd; [|done]. by apply Z.lxor_eq.
  - rewrite Hd. apply crc_bits_range; auto using poly_range_w.
Qed.

(** A corruption confined to a run of bytes no wider than the register
    changes the register. *)
Lemma burst_detected s pre a b suf :
  bytes a -> bytes b -> length a = length b ->
  8 * Z.of_nat (length a) <= w -> a <> b ->
  foldl (bitwise_step poly) s (pre ++ a ++ suf)
  <> foldl (bitwise_step poly) s (pre ++ b ++ suf).
Proof.
  intros Ha Hb Hlen Hw Hne. rewrite !foldl_app.
  set (s' := foldl _ s pre). intros E. apply Hne.
  assert (Hr : 0 <= Z.lxor (le_value a) (le_value b) < 2 ^ w).
  { apply (lxor_range w w_pos).
    - pose proof (le_value_bound a Ha) as B.
      assert (2 ^ (8 * Z.of_nat (length a)) <= 2 ^ w)
        by (apply Z.pow_le_mono_r; lia). lia.
    - pose proof (le_value_bound b Hb) as B. rewrite <- Hlen in B.
      assert (2 ^ (8 * Z.of_nat (length a)) <= 2 ^ w)
        by (apply Z.pow_le_mono_r; lia). lia. }
  assert (Hx : forall x y, Z.lxor (Z.lxor s' x) (Z.lxor s' y) = Z.lxor x y).
  { intros x y. rewrite (Z.lxor_comm s' x), Z.lxor_assoc, <- (Z.lxor_assoc s').
    by rewrite Z.lxor_nilpotent, Z.lxor_0_l. }
  apply foldl_bitwise_diff in E; rewrite !foldl_bitwise_crc_bits in * by done;
    rewrite <- Hlen in *.
  - apply le_value_inj; [done..|]. apply Z.lxor_eq.
    apply (crc_bits_zero (8 * length a)); [done|].
    rewrite <- Hx, crc_bits_lxor, E. apply Z.lxor_nilpotent.
  - rewrite <- crc_bits_lxor, Hx. apply crc_bits_range; auto using poly_range_w.
Qed.
End Width.

(** ** The two checksums of the bridge *)

Definition CRC64_POLY : Z := 0x42F0E1EBA9EA3693.
Definition CRC32_POLY : Z := 0xEDB88320.
Definition ONES64 : Z := 0xFFFFFFFFFFFFFFFF.
Definition ONES32 : Z := 0xFFFFFFFF.

(** *** Kernel driver: bit by bit *)

Definition apex_crc64 (data : list Z) : Z :=
  Z.lxor (foldl (bitwise_step CRC64_POLY) ONES64 data) ONES64.

Definition apex_crc32 (data : list Z) : Z :=
  Z.lxor (foldl (bitwise_step CRC32_POLY) ONES32 data) ONES32.

(** *** Firmware: static tables filled on first use *)

Record crc_tables := {
  crc64_table : list Z;
  crc64_initialized : bool;
  crc32_table : list Z;
  crc32_initialized : bool;
}.
#[export] Instance eta_crc_tables : Eta crc_tables :=
  eta! Build_crc_tables < crc64_table ; crc64_initialized ;
                          crc32_table ; crc32_initialized >.

(** the tables as the loader leaves them: zero-filled, not initialised *)
Definition crc_tables_bss : crc_tables := {|
  crc64_table := replicate 256 0; crc64_initialized := false;
  crc32_table := replicate 256 0; crc32_initialized := false |}.

Definition crc64_init (t : crc_tables) : crc_tables :=
  t <| crc64_table := crc_table CRC64_POLY |> <| crc64_initialized := true |>.

Definition crc32_init (t : crc_tables) : crc_tables :=
  t <| crc32_table := crc_table CRC32_POLY |> <| crc32_initialized := true |>.

Definition crc64_compute (data : list Z) (t : crc_tables) : Z * crc_tables :=
  let t := if crc64_initialized t then t else crc64_init t in
  (Z.lxor (foldl (table_step (crc64_table t)) ONES64 data) ONES64, t).

Definition crc32_compute (data : list Z) (t : crc_tables) : Z * crc_tables :=
  let t := if crc32_initialized t then t else crc32_init t in
  (Z.lxor (foldl (table_step (crc32_table t)) ONES32 data) ONES32, t).

(** The invariant of the lazy initialisation: a raised flag means a filled
    table. *)
Definition crc_tables_ok (t : crc_tables) : Prop :=
  (crc64_initialized t = true -> crc64_table t = crc_table CRC64_POLY) /\
  (crc32_initialized t = true -> crc32_table t = crc_table CRC32_POLY).

Lemma crc_tables_bss_ok : crc_tables_ok crc_tables_bss.
Proof. split; discriminate. Qed.

Lemma crc64_init_ok t : crc_tables_ok t -> crc_tables_ok (crc64_init t).
Proof. intros [_ H]. split; simpl; auto. Qed.

Lemma crc32_init_ok t : crc_tables_ok t -> crc_tables_ok (crc32_init t).
Proof. intros [H _]. split; simpl; auto. Qed.

(** The value the firmware computes, whatever the initialisation state. *)
Definition mcu_crc64 (data : list Z) : Z := fst (crc64_compute data crc_tables_bss).
Definition mcu_crc32 (data : list Z) : Z := fst (crc32_compute data crc_tables_bss).
#[global] Arguments mcu_crc64 : simpl never.
#[global] Arguments mcu_crc32 : simpl never.
#[global] Arguments apex_crc64 : simpl never.
#[global] Arguments apex_crc32 : simpl never.

Lemma crc64_compute_bitwise data t :
  crc_tables_ok t -> bytes data -> fst (crc64_compute data t) = apex_crc64 data.
Proof.
  intros [H _] Hd. unfold crc64_compute, apex_crc64. cbn [fst].
  f_equal. destruct (crc64_initialized t); [rewrite H by done|];
    by apply fold_table_bitwise.
Qed.

Lemma crc32_compute_bitwise data t :
  crc_tables_ok t -> bytes data -> fst (crc32_compute data t) = apex_crc32 data.
Proof.
  intros [_ H] Hd. unfold crc32_compute, apex_crc32. cbn [fst].
  f_equal. destruct (crc32_initialized t); [rewrite H by done|];
    by apply fold_table_bitwise.
Qed.

Lemma mcu_crc64_apex data : bytes data -> mcu_crc64 data = apex_crc64 data.
Proof. apply crc64_compute_bitwise, crc_tables_bss_ok. Qed.
Lemma mcu_crc32_apex data : bytes data -> mcu_crc32 data = apex_crc32 data.
Proof. apply crc32_compute_bitwise, crc_tables_bss_ok. Qed.

(** rp2350b_init.c has the tables and the four functions again, with file
    scope: rp2350b_init fills its tables and nothing reads them, the protocol
    fills its own. *)
Definition board_crc64_init (t : crc_tables) : crc_tables :=
  t <| crc64_table := crc_table 0x42F0E1EBA9EA3693 |> <| crc64_initialized := true |>.
Definition board_crc32_init (t : crc_tables) : crc_tables :=
  t <| crc32_table := crc_table 0xEDB88320 |> <| crc32_initialized := true |>.
Definition board_crc64_compute (data : list Z) (t : crc_tables) : Z * crc_tables :=
  let t := if crc64_initialized t then t else board_crc64_init t in
  (Z.lxor (foldl (table_step (crc64_table t)) ONES64 data) ONES64, t).
Definition board_crc32_compute (data : list Z) (t : crc_tables) : Z * crc_tables :=
  let t := if crc32_initialized t then t else board_crc32_init t in
  (Z.lxor (foldl (table_step (crc32_table t)) ONES32 data) ONES32, t).

(** the copies compute what the driver's functions compute *)
Lemma board_crcs_agree data t : crc_tables_ok t -> bytes data ->
  fst (board_crc64_compute data t) = apex_crc64 data /\ fst (board_crc32_compute data t) = apex_crc32 data.
Proof.
  intros H Hd. split; [exact (crc64_compute_bitwise data t H Hd)|].
  exact (crc32_compute_bitwise data t H Hd).
Qed.

Lemma crc_out_range poly w ones data :
  8 <= w -> 0 <= poly < 2 ^ w -> 0 <= ones < 2 ^ w -> bytes data ->
  0 <= Z.lxor (foldl (bitwise_step poly) ones data) ones < 2 ^ w.
Proof.
  intros. apply lxor_range; [lia| |done]. apply foldl_bitwise_range; auto; lia.
Qed.

Lemma apex_crc64_range data : bytes data -> 0 <= apex_crc64 data < 2 ^ 64.
Proof. by apply crc_out_range. Qed.
Lemma apex_crc32_range data : bytes data -> 0 <= apex_crc32 data < 2 ^ 32.
Proof. by apply crc_out_range. Qed.

Lemma lxor_cancel_r x y m : Z.lxor x m = Z.lxor y m -> x = y.
Proof.
  intros E. apply (f_equal (fun z => Z.lxor z m)) in E.
  by rewrite !Z.lxor_assoc, Z.lxor_nilpotent, !Z.lxor_0_r in E.
Qed.

Lemma apex_crc64_burst pre a b suf :
  bytes a -> bytes b -> length a = length b -> a <> b -> (length a <= 7)%nat ->
  apex_crc64 (pre ++ a ++ suf) <> apex_crc64 (pre ++ b ++ suf).
Proof.
  intros ? ? ? ? Hl E. apply lxor_cancel_r in E. revert E.
  apply (burst_detected CRC64_POLY 63); [lia|by vm_compute|done..|lia|done].
Qed.

Lemma apex_crc32_burst pre a b suf :
  bytes a -> bytes b -> length a = length b -> a <> b -> (length a <= 4)%nat ->
  apex_crc32 (pre ++ a ++ suf) <> apex_crc32 (pre ++ b ++ suf).
Proof.
  intros ? ? ? ? Hl E. apply lxor_cancel_r in E. revert E.
  apply (burst_detected CRC32_POLY 32); [lia|by vm_compute|done..|lia|done].
Qed.

(** *** Properties *)

(** C22: the firmware's table-driven checksums and the driver's bitwise ones
    are the same functions of the data, on any buffer of bytes and whatever
    the state of the lazily filled tables. *)
Theorem host_mcu_crc_agree (t : crc_tables) (data : list Z)
    (Ht : crc_tables_ok t) (Hd : bytes data) :
  fst (crc64_compute data t) = apex_crc64 data /\
  fst (crc32_compute data t) = apex_crc32 data /\
  crc_tables_ok (snd (crc64_compute data t)) /\
  crc_tables_ok (snd (crc32_compute data t)).
Proof.
  split; [by apply crc64_compute_bitwise|].
  split; [by apply crc32_compute_bitwise|].
  split; cbn; destruct (_ : bool); auto using crc64_init_ok, crc32_init_ok.
Qed.

Lemma host_mcu_crc_agree_witness :
  fst (crc64_compute [0xAA; 0xFF; 0; 0; 0; 0; 0; 0] crc_tables_bss)
    = 12756825651070465054 /\
  fst (crc64_compute [0xAA; 0xFF; 0; 0; 0; 0; 0; 0] crc_tables_bss)
    = apex_crc64 [0xAA; 0xFF; 0; 0; 0; 0; 0; 0].
Proof.
  split; [vm_compute; reflexivity|].
  apply (host_mcu_crc_agree crc_tables_bss [0xAA; 0xFF; 0; 0; 0; 0; 0; 0]).
  - apply crc_tables_bss_ok.
  - repeat (constructor; [unfold byte; lia|]). constructor.
Defined.

(** A corruption confined to at most seven consecutive bytes changes the
    CRC-64, and one confined to at most four consecutive bytes changes the
    CRC-32. *)
Theorem crc_bursts_detected (pre a b suf : list Z)
    (Ha : bytes a) (Hb : bytes b) (Hlen : length a = length b) (Hne : a <> b) :
  ((length a <= 7)%nat ->
     apex_crc64 (pre ++ a ++ suf) <> apex_crc64 (pre ++ b ++ suf)) /\
  ((length a <= 4)%nat ->
     apex_crc32 (pre ++ a ++ suf) <> apex_crc32 (pre ++ b ++ suf)).
Proof.
  split; intros Hl; [by apply apex_crc64_burst|by apply apex_crc32_burst].
Qed.

Lemma crc_bursts_detected_witness :
  apex_crc32 ([1] ++ [2; 3] ++ [4]) <> apex_crc32 ([1] ++ [9; 3] ++ [4]).
Proof.
  apply (crc_bursts_detected [1] [2; 3] [9; 3] [4]).
  - repeat (constructor; [unfold byte; lia|]). constructor.
  - repeat (constructor; [unfold byte; lia|]). constructor.
  - reflexivity.
  - discriminate.
  - simpl. lia.
Defined.

(** The register loses its top bit with the first byte: the polynomial, used
    by a right-shifting loop without being bit-reflected, has bit 63 clear. *)
Lemma crc64_bit_bound x : 0 <= x < 2 ^ 64 -> 0 <= crc_bit CRC64_POLY x < 2 ^ 63.
Proof.
  intros Hx. pose proof (shiftr1_range 64 ltac:(lia) x Hx) as Hs.
  unfold crc_bit. destruct (Z.testbit x 0); [|done].
  apply (lxor_range 63 ltac:(lia)); [done|by vm_compute].
Qed.

(** Every CRC-64 of a non-empty buffer has its most significant bit set,
    so the header check has 63 significant bits, not 64. *)
Theorem crc64_top_bit_set (b : Z) (data : list Z) (Hd : bytes (b :: data)) :
  Z.testbit (apex_crc64 (b :: data)) 63 = true.
Proof.
  unfold apex_crc64. rewrite Z.lxor_spec. cbn [foldl].
  inversion Hd as [|? ? Hb Hl]; subst.
  assert (0 <= foldl (bitwise_step CRC64_POLY)
                 (bitwise_step CRC64_POLY ONES64 b) data < 2 ^ 63) as Hr.
  { apply foldl_bitwise_range; [lia|by vm_compute|lia| |done].
    unfold bitwise_step. cbn [crc_bits].
    change (0 <= crc_bits CRC64_POLY 7 (crc_bit CRC64_POLY (Z.lxor ONES64 b)) < 2 ^ 63).
    apply crc_bits_range; [lia|by vm_compute|]. apply crc64_bit_bound.
    apply lxor_range; [lia|by vm_compute|]. unfold byte in Hb. lia. }
  rewrite <- (Z.mod_small _ _ Hr), Z.mod_pow2_bits_high by lia. done.
Qed.

Lemma crc64_top_bit_set_witness : Z.testbit (apex_crc64 [0xAA]) 63 = true.
Proof.
  apply (crc64_top_bit_set 0xAA []). constructor; [unfold byte; lia|constructor].
Defined.
