(* ===== verification/Frame.v ===== *)
(** * The frame format of the SPI bridge

    Constants, the little-endian accessors of spi_protocol.c, the layout of a
    frame, and the interface [FrameCrc] through which the two ends use their
    own checksum code.  [encode_frame] is the reference against which the
    firmware's [build_response_frame], the driver's [apex_build_frame] and the
    three frame parsers are proved. *)

From S2P Require Import Prelude Crc.

(** ** Constants (spi_protocol.h, apex_bridge_regs.h) *)

Definition SPI_SYNC_BYTE : Z := 0xAA.
Definition SPI_MAX_PAYLOAD : Z := 4092.
Definition SPI_HDR_SIZE : Z := 16.
Definition SPI_CRC32_SIZE : Z := 4.
Definition SPI_FRAME_SIZE_MAX : Z := SPI_HDR_SIZE + SPI_MAX_PAYLOAD + SPI_CRC32_SIZE.

Definition CMD_NOP : Z := 0xFF.
Definition CMD_SDR_TUNE : Z := 0x01.
Definition CMD_SDR_STREAM : Z := 0x02.
Definition CMD_ANT_SELECT : Z := 0x03.
Definition CMD_CC1101_CFG : Z := 0x04.
Definition CMD_NFC_TRANSACT : Z := 0x05.
Definition CMD_TELEMETRY : Z := 0x81.
Definition CMD_SDR_IQ_CHUNK : Z := 0x82.

(** ** Unaligned little-endian access *)

Definition read_le16 (p : list Z) : Z :=
  Z.lor (byte_at p 0) (Z.shiftl (byte_at p 1) 8).

Definition read_le32 (p : list Z) : Z :=
  Z.lor (Z.lor (Z.lor (byte_at p 0) (Z.shiftl (byte_at p 1) 8))
               (Z.shiftl (byte_at p 2) 16))
        (Z.shiftl (byte_at p 3) 24).

(** [for (i = 7; i >= 0; i--) v = (v << 8) | p[i];] *)
Definition read_le64 (p : list Z) : Z :=
  foldr (fun i v => Z.lor (u64 (Z.shiftl v 8)) (byte_at p i)) 0 (seq 0 8).

Definition write_le16 (v : Z) : list Z :=
  [Z.land v 0xFF; Z.land (Z.shiftr v 8) 0xFF].

Definition write_le32 (v : Z) : list Z :=
  [Z.land v 0xFF; Z.land (Z.shiftr v 8) 0xFF;
   Z.land (Z.shiftr v 16) 0xFF; Z.land (Z.shiftr v 24) 0xFF].

(** [for (i = 0; i < n; i++) { p[i] = v & 0xFF; v >>= 8; }] *)
Fixpoint write_le_loop (n : nat) (v : Z) : list Z :=
  match n with
  | O => []
  | S k => Z.land v 0xFF :: write_le_loop k (Z.shiftr v 8)
  end.
Definition write_le64 (v : Z) : list Z := write_le_loop 8 v.

Lemma land_ff v : Z.land v 0xFF = u8 v.
Proof. change 0xFF with (Z.ones 8). by rewrite Z.land_ones by lia. Qed.

Lemma write_le_loop_bytes n v : write_le_loop n v = le_bytes n v.
Proof.
  revert v. induction n as [|n IH]; intros v; simpl; [done|].
  rewrite land_ff, IH. do 2 f_equal. by rewrite Z.shiftr_div_pow2 by lia.
Qed.

Lemma write_le16_bytes v : write_le16 v = le_bytes 2 v.
Proof. by rewrite <- write_le_loop_bytes. Qed.
Lemma write_le32_bytes v : write_le32 v = le_bytes 4 v.
Proof.
  rewrite <- write_le_loop_bytes. unfold write_le32. simpl.
  by rewrite !Z.shiftr_shiftr by lia.
Qed.
Lemma write_le64_bytes v : write_le64 v = le_bytes 8 v.
Proof. apply write_le_loop_bytes. Qed.

Lemma read_le16_value a b l : byte a -> read_le16 (a :: b :: l) = le_value [a; b].
Proof.
  intros Ha. unfold byte in Ha. unfold read_le16, byte_at. cbn [nth le_value].
  rewrite lor_shiftl_add by lia. change (2 ^ 8) with 256. lia.
Qed.

Lemma read_le32_value a b c d l :
  byte a -> byte b -> byte c -> byte d ->
  read_le32 (a :: b :: c :: d :: l) = le_value [a; b; c; d].
Proof.
  unfold byte. intros. unfold read_le32, byte_at. cbn [nth le_value].
  change (2 ^ 8) with 256 in *.
  rewrite (lor_shiftl_add a), (lor_shiftl_add (a + 2 ^ 8 * b)), lor_shiftl_add;
    change (2 ^ 8) with 256; change (2 ^ 16) with 65536;
    change (2 ^ 24) with 16777216; lia.
Qed.

Lemma lor_step v b : 0 <= v < 2 ^ 56 -> byte b ->
  Z.lor (u64 (Z.shiftl v 8)) b = b + 256 * v.
Proof.
  intros Hv Hb. unfold byte in Hb. rewrite u64_small.
  - rewrite Z.lor_comm, lor_shiftl_add by (change (2 ^ 8) with 256; lia).
    by change (2 ^ 8) with 256.
  - rewrite Z.shiftl_mul_pow2 by lia. change (2 ^ 8) with 256.
    change (2 ^ 56) with 72057594037927936 in Hv. lia.
Qed.

Lemma foldr_le64 l :
  bytes l -> (length l <= 8)%nat ->
  foldr (fun b v => Z.lor (u64 (Z.shiftl v 8)) b) 0 l = le_value l.
Proof.
  induction 1 as [|b l Hb Hl IH]; cbn [length foldr le_value]; intros; [done|].
  rewrite IH by lia. apply lor_step; [|done].
  pose proof (le_value_bound l Hl).
  assert (2 ^ (8 * Z.of_nat (length l)) <= 2 ^ 56) by (apply Z.pow_le_mono_r; lia).
  lia.
Qed.

Lemma read_le64_value a b c d e f g h l :
  bytes [a; b; c; d; e; f; g; h] ->
  read_le64 (a :: b :: c :: d :: e :: f :: g :: h :: l) = le_value [a; b; c; d; e; f; g; h].
Proof. intros Hb. by rewrite <- foldr_le64 by (done || simpl; lia). Qed.

(** Reading back what was written. *)
Lemma read_write_le16 v l : 0 <= v < 65536 -> read_le16 (write_le16 v ++ l) = v.
Proof.
  intros. rewrite write_le16_bytes. cbn [le_bytes app].
  rewrite read_le16_value by apply u8_range.
  by apply (le_value_le_bytes 2).
Qed.

Lemma read_write_le32 v l :
  0 <= v < 4294967296 -> read_le32 (write_le32 v ++ l) = v.
Proof.
  intros. rewrite write_le32_bytes. cbn [le_bytes app].
  rewrite read_le32_value by apply u8_range.
  by apply (le_value_le_bytes 4).
Qed.

Lemma read_write_le64 v l :
  0 <= v < 18446744073709551616 -> read_le64 (write_le64 v ++ l) = v.
Proof.
  intros. rewrite write_le64_bytes. cbn [le_bytes app].
  rewrite read_le64_value.
  - by apply (le_value_le_bytes 8).
  - apply (le_bytes_bytes 8).
Qed.

Lemma read_le16_range p : bytes p -> 0 <= read_le16 p < 65536.
Proof.
  intros Hp. pose proof (byte_at_byte p 0 Hp). pose proof (byte_at_byte p 1 Hp).
  unfold read_le16, byte in *. rewrite lor_shiftl_add by lia.
  change (2 ^ 8) with 256. lia.
Qed.

Lemma read_le64_inj f g :
  bytes f -> bytes g -> length f = 8%nat -> length g = 8%nat ->
  read_le64 f = read_le64 g -> f = g.
Proof.
  intros Hf Hg Lf Lg. do 9 (destruct f as [|? f]; try done). do 9 (destruct g as [|? g]; try done).
  rewrite !read_le64_value by done. by apply le_value_inj.
Qed.

Lemma read_le32_inj f g :
  bytes f -> bytes g -> length f = 4%nat -> length g = 4%nat ->
  read_le32 f = read_le32 g -> f = g.
Proof.
  intros Hf Hg Lf Lg. do 5 (destruct f as [|? f]; try done). do 5 (destruct g as [|? g]; try done).
  unfold bytes in Hf, Hg. rewrite !Forall_cons in Hf, Hg.
  rewrite !read_le32_value by tauto. apply le_value_inj; [| |done]; unfold bytes;
    rewrite !Forall_cons; tauto.
Qed.

Lemma write_read_le64 l : bytes l -> length l = 8%nat -> write_le64 (read_le64 l) = l.
Proof.
  intros Hl L. do 9 (destruct l as [|? l]; try done).
  rewrite read_le64_value, write_le64_bytes by done. by apply (le_bytes_le_value [_;_;_;_;_;_;_;_]).
Qed.

Lemma write_read_le32 l : bytes l -> length l = 4%nat -> write_le32 (read_le32 l) = l.
Proof.
  intros Hl L. do 5 (destruct l as [|? l]; try done). pose proof Hl as Hb.
  unfold bytes in Hb. rewrite !Forall_cons in Hb.
  rewrite read_le32_value, write_le32_bytes by tauto. by apply (le_bytes_le_value [_;_;_;_]).
Qed.

Lemma write_read_le16 a b : byte a -> byte b -> write_le16 (Z.lor a (Z.shiftl b 8)) = [a; b].
Proof.
  intros Ha Hb. pose proof (read_le16_value a b [] Ha) as E.
  unfold read_le16, byte_at in E. cbn [nth] in E. rewrite E, write_le16_bytes.
  apply (le_bytes_le_value [a; b]). by repeat (apply Forall_cons; split).
Qed.

(** ** Frame layout *)

(** what each end provides to the framing code *)
Class FrameCrc := {
  frame_crc64 : list Z -> Z;
  frame_crc32 : list Z -> Z;
  frame_crc64_range : forall d, bytes d -> 0 <= frame_crc64 d < 18446744073709551616;
  frame_crc32_range : forall d, bytes d -> 0 <= frame_crc32 d < 4294967296;
  (** a burst shorter than the checksum is detected *)
  frame_crc64_burst : forall pre a b suf,
    bytes (pre ++ a ++ suf) -> bytes (pre ++ b ++ suf) ->
    length a = length b -> a <> b -> (length a <= 7)%nat ->
    frame_crc64 (pre ++ a ++ suf) <> frame_crc64 (pre ++ b ++ suf);
  frame_crc32_burst : forall pre a b suf,
    bytes (pre ++ a ++ suf) -> bytes (pre ++ b ++ suf) ->
    length a = length b -> a <> b -> (length a <= 4)%nat ->
    frame_crc32 (pre ++ a ++ suf) <> frame_crc32 (pre ++ b ++ suf);
}.

Program Definition apex_frame_crc : FrameCrc :=
  {| frame_crc64 := apex_crc64; frame_crc32 := apex_crc32 |}.
Next Obligation. apply apex_crc64_range. Qed.
Next Obligation. apply apex_crc32_range. Qed.
Next Obligation. intros *. rewrite !bytes_app. intros. apply apex_crc64_burst; tauto. Qed.
Next Obligation. intros *. rewrite !bytes_app. intros. apply apex_crc32_burst; tauto. Qed.

Program Definition mcu_frame_crc : FrameCrc :=
  {| frame_crc64 := mcu_crc64; frame_crc32 := mcu_crc32 |}.
Next Obligation. intros. rewrite mcu_crc64_apex by done. by apply apex_crc64_range. Qed.
Next Obligation. intros. rewrite mcu_crc32_apex by done. by apply apex_crc32_range. Qed.
Next Obligation.
  intros * ? ?. rewrite !mcu_crc64_apex by done. rewrite !bytes_app in *.
  intros. apply apex_crc64_burst; tauto.
Qed.
Next Obligation.
  intros * ? ?. rewrite !mcu_crc32_apex by done. rewrite !bytes_app in *.
  intros. apply apex_crc32_burst; tauto.
Qed.

(** bytes 0-7: sync, command, length, reserved *)
Definition header_head (cmd len : Z) : list Z :=
  [SPI_SYNC_BYTE; cmd] ++ write_le16 len ++ write_le32 0.

Section Encode.
Context {crc : FrameCrc}.

(** struct spi_frame_header, 16 bytes *)
Definition encode_header (cmd len : Z) : list Z :=
  header_head cmd len ++ write_le64 (frame_crc64 (header_head cmd len)).

Definition encode_frame (cmd : Z) (payload : list Z) : list Z :=
  encode_header cmd (Z.of_nat (length payload)) ++ payload ++
  write_le32 (frame_crc32 payload).

Lemma header_head_length cmd len : length (header_head cmd len) = 8%nat.
Proof. done. Qed.

Lemma header_head_bytes cmd len : byte cmd -> bytes (header_head cmd len).
Proof.
  intros. unfold header_head. rewrite write_le16_bytes, write_le32_bytes.
  rewrite !bytes_app. split; [|split; apply le_bytes_bytes].
  repeat constructor; done || apply H.
Qed.

Lemma encode_header_length cmd len : length (encode_header cmd len) = 16%nat.
Proof. done. Qed.

Lemma encode_header_bytes cmd len : byte cmd -> bytes (encode_header cmd len).
Proof.
  intros. unfold encode_header. rewrite write_le64_bytes.
  apply bytes_app. auto using header_head_bytes, le_bytes_bytes.
Qed.

Lemma encode_frame_length cmd payload :
  length (encode_frame cmd payload) = (20 + length payload)%nat.
Proof.
  unfold encode_frame. rewrite !length_app, encode_header_length.
  rewrite write_le32_bytes, le_bytes_length. lia.
Qed.

Lemma encode_frame_bytes cmd payload :
  byte cmd -> bytes payload -> bytes (encode_frame cmd payload).
Proof.
  intros. unfold encode_frame. rewrite write_le32_bytes.
  rewrite !bytes_app. auto using encode_header_bytes, le_bytes_bytes.
Qed.

(** The header CRC read back from an encoded header is the one computed over
    its first eight bytes. *)
Lemma encode_header_crc cmd len :
  byte cmd ->
  read_le64 (drop 8 (encode_header cmd len)) = frame_crc64 (header_head cmd len).
Proof.
  intros. unfold encode_header.
  rewrite drop_app_length' by done. rewrite <- (app_nil_r (write_le64 _)).
  apply read_write_le64, frame_crc64_range. by apply header_head_bytes.
Qed.

(** ** Frames hit by an error on the link *)

(** up to seven consecutive header bytes changed, or any of the header CRC *)
Inductive corrupted_header (cmd len : Z) : list Z -> Prop :=
| head_burst pre a b suf :
    header_head cmd len = pre ++ a ++ suf -> bytes b ->
    length a = length b -> a <> b -> (length a <= 7)%nat ->
    corrupted_header cmd len ((pre ++ b ++ suf) ++ drop 8 (encode_header cmd len))
| head_crc_hit f :
    bytes f -> length f = 8%nat -> f <> drop 8 (encode_header cmd len) ->
    corrupted_header cmd len (header_head cmd len ++ f).

(** up to four consecutive payload bytes changed, or any of a payload's CRC *)
Inductive corrupted_body (p : list Z) : list Z -> list Z -> Prop :=
| body_burst pre a b suf :
    p = pre ++ a ++ suf -> bytes b ->
    length a = length b -> a <> b -> (length a <= 4)%nat ->
    corrupted_body p (pre ++ b ++ suf) (write_le32 (frame_crc32 p))
| body_crc_hit g :
    p <> [] -> bytes g -> length g = 4%nat -> g <> write_le32 (frame_crc32 p) ->
    corrupted_body p p g.

(** the bytes received in place of the frame of [cmd] and [p]; behind a hit
    header nothing is known to be a frame *)
Inductive corrupted_frame (cmd : Z) (p : list Z) : list Z -> Prop :=
| hit_header h :
    corrupted_header cmd (Z.of_nat (length p)) h -> corrupted_frame cmd p h
| hit_body q c :
    corrupted_body p q c ->
    corrupted_frame cmd p (encode_header cmd (Z.of_nat (length p)) ++ q ++ c).

Lemma corrupted_header_detected cmd len h :
  byte cmd -> corrupted_header cmd len h ->
  length h = 16%nat /\ bytes h /\ read_le64 (drop 8 h) <> frame_crc64 (take 8 h).
Proof.
  intros Hc. pose proof (header_head_bytes cmd len Hc) as Bh.
  pose proof (encode_header_crc cmd len Hc) as Ec.
  pose proof (encode_header_bytes cmd len Hc) as Be.
  intros [pre a b suf E Hb Hl Hne Hn|f Hf Lf Hne].
  - assert (length (pre ++ b ++ suf) = 8%nat) as L8.
    { rewrite !length_app, <- Hl, <- !length_app, <- E. done. }
    assert (bytes (pre ++ b ++ suf)) as Bb.
    { rewrite E in Bh. rewrite !bytes_app in *. tauto. }
    split; [by rewrite length_app, L8|]. split; [apply bytes_app; auto with bytes|].
    rewrite take_app_length', drop_app_length', Ec, E by done.
    rewrite E in Bh. by apply frame_crc64_burst.
  - split; [by rewrite length_app, Lf|]. split; [by apply bytes_app|].
    rewrite take_app_length', drop_app_length' by done. intros Eq. apply Hne.
    apply read_le64_inj; [done|by apply bytes_drop|done|done|]. by rewrite Eq, Ec.
Qed.

Lemma corrupted_body_detected p q c :
  bytes p -> corrupted_body p q c ->
  length q = length p /\ length c = 4%nat /\ bytes q /\ bytes c /\ q <> [] /\
  read_le32 c <> frame_crc32 q.
Proof.
  intros Hp. pose proof (frame_crc32_range p Hp) as Hr.
  assert (read_le32 (write_le32 (frame_crc32 p)) = frame_crc32 p) as Er
    by (rewrite <- (app_nil_r (write_le32 _)); by apply read_write_le32).
  assert (bytes (write_le32 (frame_crc32 p))) as Bw
    by (rewrite write_le32_bytes; apply le_bytes_bytes).
  intros [pre a b suf E Hb Hl Hne Hn|g Hp0 Hg Lg Hne].
  - assert (bytes (pre ++ b ++ suf)) as Bb by (rewrite E in Hp; rewrite !bytes_app in *; tauto).
    split_and!; [by rewrite E, !length_app, Hl|done..| |].
    + intros [_ [-> _]%app_eq_nil]%app_eq_nil. apply Hne. by apply nil_length_inv.
    + rewrite Er, E. rewrite E in Hp. by apply frame_crc32_burst.
  - split_and!; [done..|]. intros Eq. apply Hne.
    apply read_le32_inj; [done..|]. by rewrite Er, Eq.
Qed.
End Encode.

Lemma encode_frame_agree cmd payload :
  byte cmd -> bytes payload ->
  encode_frame (crc:=mcu_frame_crc) cmd payload =
  encode_frame (crc:=apex_frame_crc) cmd payload.
Proof.
  intros. unfold encode_frame, encode_header. cbn [frame_crc64 frame_crc32 mcu_frame_crc apex_frame_crc].
  rewrite mcu_crc64_apex by (by apply header_head_bytes).
  by rewrite mcu_crc32_apex by done.
Qed.
