(* ===== verification/Ring.v ===== *)
(** * Byte rings indexed by a head and a tail

    Three rings of the firmware share this shape: the SPI0 receive ring filled
    by the fallback interrupt handler of rp2350b_init.c and drained by
    spi_protocol_process, and the transmit ring of spi_protocol.c.  One slot is
    always left empty, so [head = tail] means empty.  [ring_contents] is the
    abstract queue; pushing and popping are proved to append to it and to take
    its first element. *)

From S2P Require Import Prelude.

Record ring := { ring_buf : list Z; ring_head : Z; ring_tail : Z }.
#[export] Instance eta_ring : Eta ring :=
  eta! Build_ring < ring_buf ; ring_head ; ring_tail >.

Definition ring_init (size : Z) : ring :=
  {| ring_buf := replicate (Z.to_nat size) 0; ring_head := 0; ring_tail := 0 |}.

Section Ring.
Variable k : Z.
Hypothesis k_pos : 0 < k.
Local Abbreviation size := (2 ^ k).

(** [(i + 1) & (SIZE - 1)] *)
Definition ring_next (i : Z) : Z := Z.land (i + 1) (size - 1).

(** [(head - tail) & (SIZE - 1)], on [uint32_t] *)
Definition ring_used (r : ring) : Z :=
  Z.land (u32 (ring_head r - ring_tail r)) (size - 1).

Definition ring_wf (r : ring) : Prop :=
  length (ring_buf r) = Z.to_nat size /\ bytes (ring_buf r) /\
  0 <= ring_head r < size /\ 0 <= ring_tail r < size.

(** [buf[head] = b; head = next(head);] *)
Definition ring_put (b : Z) (r : ring) : option ring :=
  buf ← buf_set (ring_buf r) (ring_head r) b;
  Some (r <| ring_buf := buf |> <| ring_head := ring_next (ring_head r) |>).

(** [b = buf[tail]; tail = next(tail);] *)
Definition ring_get (r : ring) : option (Z * ring) :=
  b ← ring_buf r !! Z.to_nat (ring_tail r);
  Some (b, r <| ring_tail := ring_next (ring_tail r) |>).

Definition ring_contents (r : ring) : list Z :=
  (fun i => byte_at (ring_buf r) (Z.to_nat ((ring_tail r + i) mod size)))
    <$> seqZ 0 ((ring_head r - ring_tail r) mod size).

Lemma size_pos : 2 <= size.
Proof.
  change 2 with (2 ^ 1) at 1. apply Z.pow_le_mono_r; lia.
Qed.

Lemma land_size x : Z.land x (size - 1) = x mod size.
Proof.
  replace (size - 1) with (Z.ones k) by (rewrite Z.ones_equiv; lia).
  apply Z.land_ones. lia.
Qed.

Lemma ring_next_mod i : ring_next i = (i + 1) mod size.
Proof. apply land_size. Qed.

Lemma ring_next_range i : 0 <= ring_next i < size.
Proof. rewrite ring_next_mod. apply Z.mod_pos_bound. pose proof size_pos. lia. Qed.

Lemma ring_init_wf : ring_wf (ring_init size).
Proof.
  pose proof size_pos. unfold ring_wf. simpl.
  rewrite length_replicate. split_and!; try lia. apply bytes_replicate, byte_0.
Qed.

Lemma ring_init_contents : ring_contents (ring_init size) = [].
Proof. done. Qed.

(** For the sums and differences of two indices, [mod] by the ring size is
    one conditional addition or subtraction. *)
Lemma mod_size_cases x : - size <= x < 2 * size ->
  (0 <= x < size /\ x mod size = x) \/
  (x < 0 /\ x mod size = x + size) \/ (size <= x /\ x mod size = x - size).
Proof.
  pose proof size_pos. intros Hx.
  destruct (Z.ltb_spec x 0); [|destruct (Z.ltb_spec x size)].
  - right; left. split; [done|]. symmetry. apply (Z.mod_unique_pos x size (-1)); lia.
  - left. split; [lia|]. apply Z.mod_small. lia.
  - right; right. split; [done|]. symmetry. apply (Z.mod_unique_pos x size 1); lia.
Qed.

Ltac elim_mod x :=
  let E := fresh "E" in
  destruct (mod_size_cases x ltac:(lia)) as [[? E]|[[? E]|[? E]]];
  rewrite ?E in *.

Lemma ring_used_contents r :
  ring_wf r -> k <= 32 -> ring_used r = Z.of_nat (length (ring_contents r)).
Proof.
  intros (_ & _ & Hh & Ht) Hk. pose proof size_pos.
  unfold ring_used, ring_contents.
  rewrite length_fmap, length_seqZ, land_size.
  rewrite Z2Nat.id by (apply Z.mod_pos_bound; lia).
  unfold u32. change 4294967296 with (2 ^ 32).
  apply Z.mod_mod_divide.
  exists (2 ^ (32 - k)). rewrite <- Z.pow_add_r by lia. f_equal. lia.
Qed.

Lemma ring_contents_bound r : Z.of_nat (length (ring_contents r)) < size.
Proof.
  pose proof size_pos. unfold ring_contents. rewrite length_fmap, length_seqZ.
  pose proof (Z.mod_pos_bound (ring_head r - ring_tail r) size). lia.
Qed.

(** A push into a ring that is not full appends to the queue. *)
Lemma ring_put_spec b r :
  ring_wf r -> byte b -> ring_next (ring_head r) <> ring_tail r ->
  exists r', ring_put b r = Some r' /\ ring_wf r' /\
    ring_contents r' = ring_contents r ++ [b] /\
    ring_head r' = ring_next (ring_head r) /\ ring_tail r' = ring_tail r.
Proof.
  intros (Hlen & Hb & Hh & Ht) Hbyte Hfull. pose proof size_pos.
  unfold ring_put. rewrite buf_set_ok by lia.
  eexists. split; [reflexivity|]. cbn [ring_head ring_tail ring_buf update].
  pose proof (ring_next_range (ring_head r)) as Hn.
  split; [unfold ring_wf; simpl; rewrite length_insert; split_and!; try lia;
          by apply bytes_insert|].
  split; [|done]. unfold ring_contents. cbn [update ring_head ring_tail ring_buf].
  rewrite ring_next_mod in *.
  set (h := ring_head r) in *. set (t := ring_tail r) in *.
  assert (E : ((h + 1) mod size - t) mod size = (h - t) mod size + 1).
  { elim_mod (h + 1); elim_mod (h - t); [elim_mod (h + 1 - t)|elim_mod (h + 1 - t)
    |elim_mod (h + 1 - size - t)..]; lia. }
  rewrite E. pose proof (Z.mod_pos_bound (h - t) size).
  rewrite seqZ_app, fmap_app by lia. f_equal.
  - apply list_fmap_ext. intros i x Hi. apply lookup_seqZ in Hi.
    unfold byte_at. rewrite !nth_lookup. f_equal.
    rewrite list_lookup_insert_ne; [done|].
    intros Eq. apply Z2Nat.inj in Eq; [|lia|apply Z.mod_pos_bound; lia].
    destruct Hi as [-> Hi]. elim_mod (h - t); elim_mod (t + (0 + Z.of_nat i)); lia.
  - simpl. f_equal. apply byte_at_lookup.
    match goal with |- _ !! Z.to_nat (?x mod _) = _ =>
      replace x with (t + (h - t) mod size) by lia end.
    replace ((t + (h - t) mod size) mod size) with h.
    + apply list_lookup_insert_eq. lia.
    + elim_mod (h - t); [elim_mod (t + (h - t))|elim_mod (t + (h - t + size))|]; lia.
Qed.

(** A pop takes the first element of the queue. *)
Lemma ring_get_spec r :
  ring_wf r -> ring_head r <> ring_tail r ->
  exists b r', ring_get r = Some (b, r') /\ ring_wf r' /\ byte b /\
    ring_contents r = b :: ring_contents r' /\ ring_head r' = ring_head r.
Proof.
  intros (Hlen & Hb & Hh & Ht) Hne. pose proof size_pos.
  unfold ring_get.
  destruct (lookup_lt_is_Some_2 (ring_buf r) (Z.to_nat (ring_tail r))) as [b Eb]; [lia|].
  rewrite Eb. simpl. exists b. eexists. split; [reflexivity|].
  pose proof (ring_next_range (ring_tail r)).
  split; [unfold ring_wf; simpl; split_and!; auto; lia|].
  split; [by eapply (Forall_lookup_1 byte)|].
  split; [|done]. unfold ring_contents. cbn [ring_head ring_tail ring_buf update].
  rewrite ring_next_mod. set (h := ring_head r) in *. set (t := ring_tail r) in *.
  assert (E : (h - t) mod size = Z.succ ((h - (t + 1) mod size) mod size)).
  { elim_mod (h - t); elim_mod (t + 1);
      try elim_mod (h - (t + 1)); try elim_mod (h - (t + 1 - size)); lia. }
  rewrite E. pose proof (Z.mod_pos_bound (h - (t + 1) mod size) size).
  rewrite seqZ_cons by lia. cbn [fmap list_fmap]. f_equal.
  - rewrite Z.add_0_r, Z.mod_small by lia. by apply byte_at_lookup.
  - rewrite Z.pred_succ. change (Z.succ 0) with (1 + 0).
    rewrite <- fmap_add_seqZ, <- list_fmap_compose.
    apply list_fmap_ext. intros i x Hi. unfold compose. do 2 f_equal.
    rewrite Zplus_mod_idemp_l. f_equal. lia.
Qed.

Lemma ring_empty r : ring_wf r -> ring_contents r = [] <-> ring_head r = ring_tail r.
Proof.
  intros W. split; intros E.
  - destruct (decide (ring_head r = ring_tail r)); [done|].
    destruct (ring_get_spec r W) as (b & r' & _ & _ & _ & Ec & _); [done|]. congruence.
  - unfold ring_contents. rewrite E, Z.sub_diag, Z.mod_0_l; [done|].
    pose proof size_pos. lia.
Qed.

(** A ring that reports itself full holds [size - 1] bytes. *)
Lemma ring_full r :
  ring_wf r -> ring_next (ring_head r) = ring_tail r <->
  Z.of_nat (length (ring_contents r)) = size - 1.
Proof.
  intros (_ & _ & Hh & Ht). pose proof size_pos.
  unfold ring_contents. rewrite length_fmap, length_seqZ.
  rewrite Z2Nat.id by (apply Z.mod_pos_bound; lia).
  rewrite ring_next_mod.
  elim_mod (ring_head r + 1); elim_mod (ring_head r - ring_tail r); lia.
Qed.
End Ring.
