(* ===== verification/Board.v ===== *)
(** * Hardware access functions of the RP2350B (rp2350b_init.c)

    spi_protocol.c drives the radio front end through a few functions of
    rp2350b_init.c.  A call is a value of [hw_call], so that the protocol
    handler's model records the ordered calls it makes, and [run_hw] gives
    each call its effect on the registers.  GPIO_OUT is the SIO output
    register, [pio0_r10] the word at offset 0x10 of PIO0, and [spi1_bus] what
    the CC1101 sees on its bus.  [1UL << n] is undefined in C for [n >= 32]
    on a target whose unsigned long has 32 bits; [shl1] is [None] there. *)

From S2P Require Import Prelude.

Inductive hw_call :=
| HwIntReqAssert
| HwIntReqDeassert
| HwAntennaSelect (ant_id : Z)
| HwSdrRxEnable (enable : bool)
| HwSdrLnaEnable (enable : bool)
| HwCc1101WriteBurst (addr : Z) (data : list Z).

#[export] Instance hw_call_eq_dec : EqDecision hw_call.
Proof. solve_decision. Defined.

(** edges of the chip select and bytes clocked out *)
Inductive bus_event := CsLow | CsHigh | BusTx (b : Z).

Record board := { gpio_out : Z; pio0_r10 : Z; spi1_bus : list bus_event }.
#[export] Instance eta_board : Eta board :=
  eta! Build_board < gpio_out ; pio0_r10 ; spi1_bus >.

Definition PIN_INT_REQ : Z := 20.
Definition PIN_SDR_RESET : Z := 31.
Definition PIN_SDR_GPIO0 : Z := 32.
Definition PIN_SDR_GPIO1 : Z := 33.
Definition PIN_SDR_LNA_EN : Z := 34.
Definition PIN_CC_SPI_CSN : Z := 10.

Definition shl1 (n : Z) : option Z :=
  if (0 <=? n) && (n <? 32) then Some (BIT n) else None.

(** [*gpio_out |= (1UL << n)] and [*gpio_out &= ~(1UL << n)] *)
Definition gpio_set (n : Z) (b : board) : option board :=
  m ← shl1 n; Some (b <| gpio_out ::= fun g => Z.lor g m |>).
Definition gpio_clear (n : Z) (b : board) : option board :=
  m ← shl1 n; Some (b <| gpio_out ::= fun g => Z.ldiff g m |>).

Definition int_req_assert (b : board) : option board := gpio_clear PIN_INT_REQ b.
Definition int_req_deassert (b : board) : option board := gpio_set PIN_INT_REQ b.

(** [pio[0x10 / 4] |= (1 << 0)], the last step of pio0_ant_switch_init *)
Definition pio0_sm0_enable (b : board) : board := b <| pio0_r10 ::= fun r => Z.lor r 1 |>.

(** [pio[0x10 / 4] = ant_id & 0x03] *)
Definition apex_antenna_select (ant_id : Z) (b : board) : board :=
  b <| pio0_r10 := Z.land ant_id 0x03 |>.

Definition apex_sdr_reset_assert (b : board) : option board := gpio_clear PIN_SDR_RESET b.
Definition apex_sdr_reset_release (b : board) : option board := gpio_set PIN_SDR_RESET b.

Definition apex_sdr_tx_enable (enable : bool) (b : board) : option board :=
  if enable then gpio_set PIN_SDR_GPIO0 b else gpio_clear PIN_SDR_GPIO0 b.
Definition apex_sdr_rx_enable (enable : bool) (b : board) : option board :=
  if enable then gpio_set PIN_SDR_GPIO1 b else gpio_clear PIN_SDR_GPIO1 b.
Definition apex_sdr_lna_enable (enable : bool) (b : board) : option board :=
  if enable then gpio_set PIN_SDR_LNA_EN b else gpio_clear PIN_SDR_LNA_EN b.

Definition apex_cc1101_cs_assert (b : board) : option board :=
  b' ← gpio_clear PIN_CC_SPI_CSN b; Some (b' <| spi1_bus ::= fun t => t ++ [CsLow] |>).
Definition apex_cc1101_cs_release (b : board) : option board :=
  b' ← gpio_set PIN_CC_SPI_CSN b; Some (b' <| spi1_bus ::= fun t => t ++ [CsHigh] |>).
Definition apex_cc1101_spi_xfer (tx_byte : Z) (b : board) : board :=
  b <| spi1_bus ::= fun t => t ++ [BusTx (u8 tx_byte)] |>.

Definition apex_cc1101_write_burst (addr : Z) (data : list Z) (b : board) : option board :=
  b ← apex_cc1101_cs_assert b;
  let b := apex_cc1101_spi_xfer (Z.lor addr 0x40) b in
  let b := foldl (fun b d => apex_cc1101_spi_xfer d b) b data in
  apex_cc1101_cs_release b.

Definition run_hw (c : hw_call) (b : board) : option board :=
  match c with
  | HwIntReqAssert => int_req_assert b
  | HwIntReqDeassert => int_req_deassert b
  | HwAntennaSelect a => Some (apex_antenna_select a b)
  | HwSdrRxEnable e => apex_sdr_rx_enable e b
  | HwSdrLnaEnable e => apex_sdr_lna_enable e b
  | HwCc1101WriteBurst a d => apex_cc1101_write_burst a d b
  end.

Fixpoint run_hws (cs : list hw_call) (b : board) : option board :=
  match cs with
  | [] => Some b
  | c :: cs => b' ← run_hw c b; run_hws cs b'
  end.

(** the INT_REQ line, active low *)
Definition int_req_low (b : board) : bool := negb (Z.testbit (gpio_out b) PIN_INT_REQ).

(** ** Lemmas *)

Lemma run_hws_app cs ds b :
  run_hws (cs ++ ds) b = b' ← run_hws cs b; run_hws ds b'.
Proof.
  revert b. induction cs as [|c cs IH]; intros b; simpl; [done|].
  destruct (run_hw c b); simpl; [apply IH|done].
Qed.

Lemma foldl_xfer data b :
  foldl (fun b d => apex_cc1101_spi_xfer d b) b data =
  b <| spi1_bus ::= fun t => t ++ ((fun d => BusTx (u8 d)) <$> data) |>.
Proof.
  revert b. induction data as [|d data IH]; intros [g p t]; cbn [foldl].
  - unfold update. cbn. by rewrite app_nil_r.
  - rewrite IH. unfold update, apex_cc1101_spi_xfer, update. cbn.
    by rewrite <- app_assoc.
Qed.

Lemma testbit_clear g n : 0 <= n -> Z.testbit (Z.ldiff g (BIT n)) n = false.
Proof.
  intros. unfold BIT. rewrite Z.ldiff_spec, Z.shiftl_1_l, Z.pow2_bits_true by done.
  apply andb_false_r.
Qed.
Lemma testbit_set g n : 0 <= n -> Z.testbit (Z.lor g (BIT n)) n = true.
Proof.
  intros. unfold BIT. rewrite Z.lor_spec, Z.shiftl_1_l, Z.pow2_bits_true by done.
  apply orb_true_r.
Qed.
Lemma testbit_clear_ne g n m : 0 <= n -> 0 <= m -> n <> m ->
  Z.testbit (Z.ldiff g (BIT n)) m = Z.testbit g m.
Proof.
  intros. unfold BIT. rewrite Z.ldiff_spec, Z.shiftl_1_l, Z.pow2_bits_false by done.
  apply andb_true_r.
Qed.
Lemma testbit_set_ne g n m : 0 <= n -> 0 <= m -> n <> m ->
  Z.testbit (Z.lor g (BIT n)) m = Z.testbit g m.
Proof.
  intros. unfold BIT. rewrite Z.lor_spec, Z.shiftl_1_l, Z.pow2_bits_false by done.
  apply orb_false_r.
Qed.

Lemma write_burst_bus addr data b :
  exists b', apex_cc1101_write_burst addr data b = Some b' /\
    spi1_bus b' = spi1_bus b ++ CsLow :: BusTx (u8 (Z.lor addr 0x40)) ::
                  ((fun d => BusTx (u8 d)) <$> data) ++ [CsHigh] /\
    int_req_low b' = int_req_low b /\
    Z.testbit (gpio_out b') PIN_CC_SPI_CSN = true.
Proof.
  unfold apex_cc1101_write_burst, apex_cc1101_cs_assert, apex_cc1101_cs_release,
    gpio_clear, gpio_set, shl1. simpl. rewrite foldl_xfer. simpl.
  eexists. split; [reflexivity|]. simpl. split_and!.
  - by rewrite <- !app_assoc.
  - unfold int_req_low. simpl.
    by rewrite testbit_set_ne, testbit_clear_ne by (unfold PIN_CC_SPI_CSN, PIN_INT_REQ; lia).
  - by apply testbit_set.
Qed.

(** Which recorded calls have defined behaviour. *)
Definition hw_call_defined (c : hw_call) : bool :=
  match c with HwSdrRxEnable _ | HwSdrLnaEnable _ => false | _ => true end.

Lemma run_hw_defined c b : is_Some (run_hw c b) <-> hw_call_defined c = true.
Proof.
  destruct c as [| |a|[]|[]|a d]; simpl.
  all: try (split; [by intros [? H]|done]).
  all: try (split; [done|intros _; eexists; reflexivity]).
Qed.
