(* ===== verification/SpiProtocol.v ===== *)
(** * The SPI0 protocol handler of the firmware (spi_protocol.c)

    State, frame assembly, validation, command dispatch, and the response
    builder, as the file has them.  The receive ring is filled by the fallback
    interrupt handler of rp2350b_init.c ([rx_isr_byte]).  A write at a computed
    index is [None] outside its array, so totality theorems are memory-safety
    theorems. *)

From S2P Require Import Prelude Crc Frame Ring Board.

#[local] Existing Instance mcu_frame_crc.

(** ** State *)

Inductive rx_state :=
| RX_STATE_IDLE | RX_STATE_HEADER | RX_STATE_PAYLOAD | RX_STATE_CRC32
| RX_STATE_COMPLETE | RX_STATE_ERROR.
#[export] Instance rx_state_eq_dec : EqDecision rx_state.
Proof. solve_decision. Defined.

Record rx_context := {
  state : rx_state;
  hdr_buf : list Z;               (* uint8_t[16] *)
  payload_buf : list Z;           (* uint8_t[4092] *)
  crc32_buf : list Z;             (* uint8_t[4] *)
  hdr_idx : Z; payload_idx : Z; crc32_idx : Z;
  expected_payload_len : Z;
  frames_received : Z; frames_crc_error : Z;
  frames_sync_error : Z; frames_dispatched : Z;
}.
#[export] Instance eta_rx_context : Eta rx_context :=
  eta! Build_rx_context < state ; hdr_buf ; payload_buf ; crc32_buf ; hdr_idx ;
    payload_idx ; crc32_idx ; expected_payload_len ; frames_received ;
    frames_crc_error ; frames_sync_error ; frames_dispatched >.

Record proto_statistics := {
  cmd_nop_rx : Z; cmd_sdr_tune_rx : Z; cmd_sdr_stream_rx : Z;
  cmd_ant_select_rx : Z; cmd_cc1101_cfg_rx : Z; cmd_nfc_transact_rx : Z;
  telemetry_sent : Z; iq_chunks_sent : Z; tx_overruns : Z;
}.
#[export] Instance eta_proto_statistics : Eta proto_statistics :=
  eta! Build_proto_statistics < cmd_nop_rx ; cmd_sdr_tune_rx ; cmd_sdr_stream_rx ;
    cmd_ant_select_rx ; cmd_cc1101_cfg_rx ; cmd_nfc_transact_rx ;
    telemetry_sent ; iq_chunks_sent ; tx_overruns >.

Record device := {
  sdr_streaming : bool; sdr_tx_enabled : bool; sdr_rx_enabled : bool;
  cc1101_rx_active : bool; cc1101_tx_active : bool;
  nfc_active : bool; nfc_tag_present : bool; brownout_active : bool;
  uptime_ms : Z;                  (* uint32_t *)
  last_rssi_dbm_x10 : Z;          (* int16_t *)
  last_vbat_mv : Z;               (* uint16_t *)
  last_temp_c_x10 : Z;            (* int16_t *)
  last_cc_rssi_x10 : Z;           (* int16_t *)
  last_nfc_field_mv : Z;          (* uint16_t *)
}.
#[export] Instance eta_device : Eta device :=
  eta! Build_device < sdr_streaming ; sdr_tx_enabled ; sdr_rx_enabled ;
    cc1101_rx_active ; cc1101_tx_active ; nfc_active ; nfc_tag_present ;
    brownout_active ; uptime_ms ; last_rssi_dbm_x10 ; last_vbat_mv ;
    last_temp_c_x10 ; last_cc_rssi_x10 ; last_nfc_field_mv >.

(** [hw] lists the hardware calls made so far, oldest first. *)
Record fw := {
  rx_ctx : rx_context;
  proto_stats : proto_statistics;
  device_state : device;
  tx_ring : ring;                 (* tx_ring[4096], tx_head, tx_tail *)
  rx_ring : ring;                 (* spi_rx_buf[8192], spi_rx_head, spi_rx_tail *)
  spi_rx_overrun : Z;
  hw : list hw_call;
}.
#[export] Instance eta_fw : Eta fw :=
  eta! Build_fw < rx_ctx ; proto_stats ; device_state ; tx_ring ; rx_ring ;
    spi_rx_overrun ; hw >.

Definition TX_RING_BITS : Z := 12.
Definition TX_RING_SIZE : Z := 4096.
Definition RX_RING_BITS : Z := 13.
Definition SPI_RX_BUF_SIZE : Z := 8192.

Definition rx_context_zero : rx_context := {|
  state := RX_STATE_IDLE; hdr_buf := replicate 16 0;
  payload_buf := replicate 4092 0; crc32_buf := replicate 4 0;
  hdr_idx := 0; payload_idx := 0; crc32_idx := 0; expected_payload_len := 0;
  frames_received := 0; frames_crc_error := 0; frames_sync_error := 0;
  frames_dispatched := 0 |}.
Definition proto_statistics_zero : proto_statistics :=
  Build_proto_statistics 0 0 0 0 0 0 0 0 0.
Definition device_zero : device :=
  Build_device false false false false false false false false 0 0 0 0 0 0.

Definition call (c : hw_call) (s : fw) : fw := s <| hw ::= fun t => t ++ [c] |>.

(** ** Initialisation: memset of the statics, empty TX ring, INT_REQ released *)

Definition spi_protocol_init (s : fw) : fw :=
  let s := s <| rx_ctx := rx_context_zero |> in
  let s := s <| tx_ring ::= fun r => r <| ring_head := 0 |> <| ring_tail := 0 |> |> in
  let s := s <| proto_stats := proto_statistics_zero |> in
  let s := s <| device_state := device_zero |> in
  call HwIntReqDeassert s.

(** the statics as the loader leaves them *)
Definition fw_bss : fw := {|
  rx_ctx := rx_context_zero; proto_stats := proto_statistics_zero;
  device_state := device_zero;
  tx_ring := ring_init TX_RING_SIZE; rx_ring := ring_init SPI_RX_BUF_SIZE;
  spi_rx_overrun := 0; hw := [] |}.

Definition fw_init : fw := spi_protocol_init fw_bss.

(** ** Response frames *)

(** the copy loop into the TX ring *)
Fixpoint tx_copy (frame : list Z) (r : ring) : option ring :=
  match frame with
  | [] => Some r
  | b :: l => r' ← ring_put TX_RING_BITS b r; tx_copy l r'
  end.

(** The stores that fill the array [uint8_t frame[SPI_FRAME_SIZE_MAX]]:
    [None] is a store outside it, or a read beyond the caller's [payload]. *)
Definition fill_response_frame (cmd : Z) (payload : list Z) (payload_len : Z)
    (frame : list Z) : option (list Z) :=
  let n := Z.to_nat payload_len in
  frame ← buf_set frame 0 SPI_SYNC_BYTE;
  frame ← buf_set frame 1 cmd;
  frame ← store_at 2 (write_le16 payload_len) frame;
  frame ← store_at 4 (write_le32 0) frame;
  let crc64_val := mcu_crc64 (take 8 frame) in
  frame ← store_at 8 (write_le64 crc64_val) frame;
  frame ← (if 0 <? payload_len then data ← load_at 0 n payload; store_at 16 data frame
           else Some frame);
  data ← load_at 16 n frame;
  let crc32_val := mcu_crc32 data in
  store_at (16 + n) (write_le32 crc32_val) frame.

(** The array on the stack.  Its content is indeterminate; by
    [fill_response_frame_spec] of SpiTx.v nothing that is sent depends on it. *)
Definition stack_frame : list Z := replicate (Z.to_nat SPI_FRAME_SIZE_MAX) 0.

(** [payload] is the caller's buffer; no caller passes NULL *)
Definition build_response_frame (cmd : Z) (payload : list Z) (payload_len : Z)
    (s : fw) : option (Z * fw) :=
  if SPI_MAX_PAYLOAD <? payload_len then Some (-1, s) else
  frame ← fill_response_frame cmd payload payload_len stack_frame;
  let total_len := SPI_HDR_SIZE + payload_len + SPI_CRC32_SIZE in
  let used := ring_used TX_RING_BITS (tx_ring s) in
  let avail := u32 (TX_RING_SIZE - used - 1) in
  if avail <? u32 total_len then
    Some (-1, s <| proto_stats ::= fun p => p <| tx_overruns ::= incr32 |> |>)
  else
    bs ← load_at 0 (Z.to_nat total_len) frame;
    r ← tx_copy bs (tx_ring s);
    Some (0, call HwIntReqAssert (s <| tx_ring := r |>)).

(** ** Command handlers: [payload] is the payload buffer, [len] the length
    of the received payload *)

Definition bump (f : proto_statistics -> proto_statistics) (s : fw) : fw :=
  s <| proto_stats ::= f |>.
Definition set_device (f : device -> device) (s : fw) : fw :=
  s <| device_state ::= f |>.

Definition handle_cmd_nop (s : fw) : fw :=
  bump (fun p => p <| cmd_nop_rx ::= incr32 |>) s.

(** the validated parameters are stored nowhere yet: both branches of the
    range check leave the state as it is *)
Definition handle_cmd_sdr_tune (payload : list Z) (len : Z) (s : fw) : fw :=
  let s := bump (fun p => p <| cmd_sdr_tune_rx ::= incr32 |>) s in
  if len <? 8 then s else
  let freq_hz := read_le32 payload in
  if (freq_hz <? 100000) || (3800000000 <? freq_hz) then s else s.

Definition handle_cmd_sdr_stream (payload : list Z) (len : Z) (s : fw) : fw :=
  let s := bump (fun p => p <| cmd_sdr_stream_rx ::= incr32 |>) s in
  if len <? 1 then s else
  let enable := negb (byte_at payload 0 =? 0) in
  if enable && negb (sdr_streaming (device_state s)) then
    let s := set_device (fun d => d <| sdr_streaming := true |>
                                    <| sdr_rx_enabled := true |>) s in
    call (HwSdrLnaEnable true) (call (HwSdrRxEnable true) s)
  else if negb enable && sdr_streaming (device_state s) then
    let s := set_device (fun d => d <| sdr_streaming := false |>
                                    <| sdr_rx_enabled := false |>) s in
    call (HwSdrLnaEnable false) (call (HwSdrRxEnable false) s)
  else s.

Definition handle_cmd_ant_select (payload : list Z) (len : Z) (s : fw) : fw :=
  let s := bump (fun p => p <| cmd_ant_select_rx ::= incr32 |>) s in
  if len <? 1 then s else
  let ant_id := byte_at payload 0 in
  if 3 <? ant_id then s else call (HwAntennaSelect ant_id) s.

Definition handle_cmd_cc1101_cfg (payload : list Z) (len : Z) (s : fw) : fw :=
  let s := bump (fun p => p <| cmd_cc1101_cfg_rx ::= incr32 |>) s in
  if len <? 2 then s else
  let reg_addr := byte_at payload 0 in
  let reg_len := byte_at payload 1 in
  if (0x3D <? reg_addr) || (reg_addr =? 0x2F) then s else
  if len <? u16 (2 + reg_len) then s else
  if (reg_addr <=? 0x2E) && (0x2F <? reg_addr + reg_len) then s else
  if (0x30 <=? reg_addr) && (0x3E <? reg_addr + reg_len) then s else
  call (HwCc1101WriteBurst reg_addr (slice 2 (Z.to_nat reg_len) payload)) s.

Definition handle_cmd_nfc_transact (payload : list Z) (len : Z) (s : fw) : fw :=
  let s := bump (fun p => p <| cmd_nfc_transact_rx ::= incr32 |>) s in
  if len <? 4 then s else
  let data_len := read_le16 (drop 2 payload) in
  if 256 <? data_len then s else
  if len <? u16 (4 + data_len) then s else
  set_device (fun d => d <| nfc_active := true |>) s.

(** ** Validation *)

Definition validate_frame_header (r : rx_context) : Z * rx_context :=
  if negb (byte_at (hdr_buf r) 0 =? SPI_SYNC_BYTE) then
    (-2, r <| frames_sync_error ::= incr32 |>)
  else if negb (read_le32 (drop 4 (hdr_buf r)) =? 0) then
    (-3, r <| frames_crc_error ::= incr32 |>)
  else
    let expected_crc := read_le64 (drop 8 (hdr_buf r)) in
    let actual_crc := mcu_crc64 (take 8 (hdr_buf r)) in
    if negb (expected_crc =? actual_crc) then
      (-1, r <| frames_crc_error ::= incr32 |>)
    else (0, r).

Definition validate_frame_payload (r : rx_context) : Z * rx_context :=
  if expected_payload_len r =? 0 then (0, r) else
  let expected_crc := read_le32 (crc32_buf r) in
  let actual_crc :=
    mcu_crc32 (take (Z.to_nat (expected_payload_len r)) (payload_buf r)) in
  if negb (expected_crc =? actual_crc) then
    (-1, r <| frames_crc_error ::= incr32 |>)
  else (0, r).

(** ** Dispatch *)

Definition dispatch_command (cmd : Z) (payload : list Z) (len : Z) (s : fw) : fw :=
  if cmd =? CMD_NOP then handle_cmd_nop s
  else if cmd =? CMD_SDR_TUNE then handle_cmd_sdr_tune payload len s
  else if cmd =? CMD_SDR_STREAM then handle_cmd_sdr_stream payload len s
  else if cmd =? CMD_ANT_SELECT then handle_cmd_ant_select payload len s
  else if cmd =? CMD_CC1101_CFG then handle_cmd_cc1101_cfg payload len s
  else if cmd =? CMD_NFC_TRANSACT then handle_cmd_nfc_transact payload len s
  else s.

Definition dispatch_frame (s : fw) : fw :=
  let cmd := byte_at (hdr_buf (rx_ctx s)) 1 in
  let len := expected_payload_len (rx_ctx s) in
  let s := s <| rx_ctx ::= fun r => r <| frames_dispatched ::= incr32 |> |> in
  let s := dispatch_command cmd (payload_buf (rx_ctx s)) len s in
  if 0 <? len then
    s <| rx_ctx ::= fun r => r <| payload_buf ::= secure_wipe (Z.to_nat len) |> |>
  else s.

(** ** Frame assembly: one byte through the switch of spi_protocol_process;
    the integer is the increment of [frames_processed] *)

Definition process_byte (b : Z) (s : fw) : option (Z * fw) :=
  let r := rx_ctx s in
  match state r with
  | RX_STATE_IDLE =>
      if b =? SPI_SYNC_BYTE then
        h ← buf_set (hdr_buf r) 0 b;
        Some (0, s <| rx_ctx := r <| hdr_buf := h |> <| hdr_idx := 1 |>
                                  <| state := RX_STATE_HEADER |> |>)
      else Some (0, s)
  | RX_STATE_HEADER =>
      h ← buf_set (hdr_buf r) (hdr_idx r) b;
      let r := r <| hdr_buf := h |> <| hdr_idx ::= incr32 |> in
      if SPI_HDR_SIZE <=? hdr_idx r then
        let (ret, r) := validate_frame_header r in
        if ret =? 0 then
          let r := r <| expected_payload_len := read_le16 (drop 2 (hdr_buf r)) |> in
          if SPI_MAX_PAYLOAD <? expected_payload_len r then
            Some (0, s <| rx_ctx := r <| state := RX_STATE_IDLE |>
                                      <| frames_crc_error ::= incr32 |> |>)
          else if 0 <? expected_payload_len r then
            Some (0, s <| rx_ctx := r <| payload_idx := 0 |>
                                      <| state := RX_STATE_PAYLOAD |> |>)
          else
            Some (0, s <| rx_ctx := r <| crc32_idx := 0 |>
                                      <| state := RX_STATE_CRC32 |> |>)
        else Some (0, s <| rx_ctx := r <| state := RX_STATE_IDLE |> |>)
      else Some (0, s <| rx_ctx := r |>)
  | RX_STATE_PAYLOAD =>
      p ← buf_set (payload_buf r) (payload_idx r) b;
      let r := r <| payload_buf := p |> <| payload_idx ::= incr32 |> in
      if expected_payload_len r <=? payload_idx r then
        Some (0, s <| rx_ctx := r <| crc32_idx := 0 |>
                                  <| state := RX_STATE_CRC32 |> |>)
      else Some (0, s <| rx_ctx := r |>)
  | RX_STATE_CRC32 =>
      c ← buf_set (crc32_buf r) (crc32_idx r) b;
      let r := r <| crc32_buf := c |> <| crc32_idx ::= incr32 |> in
      if SPI_CRC32_SIZE <=? crc32_idx r then
        let r := r <| frames_received ::= incr32 |> in
        let (ret, r) := validate_frame_payload r in
        let s := s <| rx_ctx := r |> in
        let s' := if ret =? 0 then dispatch_frame s else s in
        Some (if ret =? 0 then 1 else 0,
              s' <| rx_ctx ::= fun r => r <| state := RX_STATE_IDLE |> |>)
      else Some (0, s <| rx_ctx := r |>)
  | RX_STATE_COMPLETE | RX_STATE_ERROR =>
      Some (0, s <| rx_ctx := r <| state := RX_STATE_IDLE |> |>)
  end.

(** The loop [while (spi_rx_head != spi_rx_tail)]; [fuel] bounds the number of
    iterations, and [spi_protocol_process] passes the ring size. *)
Fixpoint process_loop (fuel : nat) (frames : Z) (s : fw) : option (Z * fw) :=
  if ring_head (rx_ring s) =? ring_tail (rx_ring s) then Some (frames, s) else
  match fuel with
  | O => None
  | S k =>
      '(b, r) ← ring_get RX_RING_BITS (rx_ring s);
      '(n, s) ← process_byte b (s <| rx_ring := r |>);
      process_loop k (frames + n) s
  end.

Definition spi_protocol_process (s : fw) : option (Z * fw) :=
  process_loop (Z.to_nat SPI_RX_BUF_SIZE) 0 s.

(** ** Interrupt side: one byte of the SPI0 RX FIFO (weak spi0_handler) *)

Definition rx_isr_byte (b : Z) (s : fw) : option fw :=
  let next_head := (ring_head (rx_ring s) + 1) mod SPI_RX_BUF_SIZE in
  if negb (next_head =? ring_tail (rx_ring s)) then
    buf ← buf_set (ring_buf (rx_ring s)) (ring_head (rx_ring s)) b;
    Some (s <| rx_ring ::= fun r => r <| ring_buf := buf |>
                                      <| ring_head := next_head |> |>)
  else Some (s <| spi_rx_overrun ::= incr32 |>).

(** spi0_handler: the bytes the FIFO held when the interrupt was taken *)
Fixpoint rx_isr (l : list Z) (s : fw) : option fw :=
  match l with
  | [] => Some s
  | b :: l => s' ← rx_isr_byte b s; rx_isr l s'
  end.

(** ** Telemetry and the other entry points *)

Definition TELEM_FLAG_SDR_RX_ACTIVE : Z := BIT 0.
Definition TELEM_FLAG_SDR_TX_ACTIVE : Z := BIT 1.
Definition TELEM_FLAG_CC1101_RX : Z := BIT 2.
Definition TELEM_FLAG_CC1101_TX : Z := BIT 3.
Definition TELEM_FLAG_NFC_ACTIVE : Z := BIT 4.
Definition TELEM_FLAG_NFC_TAG_PRESENT : Z := BIT 5.
Definition TELEM_FLAG_LOW_BATTERY : Z := BIT 7.

Definition flag_if (b : bool) (m f : Z) : Z := if b then Z.lor f m else f.

Definition telem_flags (d : device) : Z :=
  let f := flag_if (sdr_rx_enabled d) TELEM_FLAG_SDR_RX_ACTIVE 0 in
  let f := flag_if (sdr_tx_enabled d) TELEM_FLAG_SDR_TX_ACTIVE f in
  let f := flag_if (cc1101_rx_active d) TELEM_FLAG_CC1101_RX f in
  let f := flag_if (cc1101_tx_active d) TELEM_FLAG_CC1101_TX f in
  let f := flag_if (nfc_active d) TELEM_FLAG_NFC_ACTIVE f in
  let f := flag_if (nfc_tag_present d) TELEM_FLAG_NFC_TAG_PRESENT f in
  flag_if (brownout_active d) TELEM_FLAG_LOW_BATTERY f.

(** struct telemetry_payload in memory on the little-endian MCU *)
Definition telemetry_payload (d : device) : list Z :=
  write_le16 (u16 (last_rssi_dbm_x10 d)) ++ write_le16 (u16 (last_temp_c_x10 d)) ++
  write_le16 (last_vbat_mv d) ++ write_le16 (u16 (last_cc_rssi_x10 d)) ++
  write_le16 (last_nfc_field_mv d) ++ write_le16 (telem_flags d) ++
  write_le32 (uptime_ms d).

Definition spi_protocol_send_telemetry (s : fw) : option fw :=
  '(_, s) ← build_response_frame CMD_TELEMETRY (telemetry_payload (device_state s)) 16 s;
  Some (bump (fun p => p <| telemetry_sent ::= incr32 |>) s).

Definition spi_protocol_send_iq_chunk (data : list Z) (len : Z) (s : fw) : option fw :=
  if negb (sdr_streaming (device_state s)) then Some s else
  let len := if SPI_MAX_PAYLOAD <? len then SPI_MAX_PAYLOAD else len in
  '(_, s) ← build_response_frame CMD_SDR_IQ_CHUNK data len s;
  Some (bump (fun p => p <| iq_chunks_sent ::= incr32 |>) s).

(** the parameters are uint16_t and three of the fields int16_t *)
Definition spi_protocol_update_telemetry (rssi temp vbat cc_rssi nfc : Z) (s : fw) : fw :=
  set_device (fun d => d <| last_rssi_dbm_x10 := s16 rssi |>
                         <| last_temp_c_x10 := s16 temp |>
                         <| last_vbat_mv := vbat |>
                         <| last_cc_rssi_x10 := s16 cc_rssi |>
                         <| last_nfc_field_mv := nfc |>) s.

Definition spi_protocol_tick (s : fw) : fw :=
  set_device (fun d => d <| uptime_ms ::= incr32 |>) s.

Definition spi_protocol_set_brownout (active : bool) (s : fw) : fw :=
  set_device (fun d => d <| brownout_active := active |>) s.

Record proto_stats_report := {
  rep_frames_received : Z; rep_frames_crc_error : Z; rep_frames_sync_error : Z;
  rep_frames_dispatched : Z; rep_stats : proto_statistics
}.
Definition spi_protocol_get_stats (s : fw) : proto_stats_report := {|
  rep_frames_received := frames_received (rx_ctx s);
  rep_frames_crc_error := frames_crc_error (rx_ctx s);
  rep_frames_sync_error := frames_sync_error (rx_ctx s);
  rep_frames_dispatched := frames_dispatched (rx_ctx s);
  rep_stats := proto_stats s |}.
