(* ===== verification/SpiInvariant.v ===== *)
(** * Memory safety and hardware safety of the SPI0 protocol handler

    The invariant of the firmware state ([fw_wf]): array lengths, the index
    bounds of each assembly state, the two rings, and the fact that every
    hardware call made so far stays inside the antenna and CC1101 register
    ranges.  Every operation keeps it and none of them writes out of bounds;
    SpiReach closes the operations, byte interrupts included, under arbitrary
    interleaving. *)

From S2P Require Import Prelude Crc Frame Ring Board SpiProtocol.

(** ** The invariant *)

(** One byte has been stored when the HEADER state is entered, and the index
    leaves a state before it reaches the end of its array. *)
Definition rx_state_wf (r : rx_context) : Prop :=
  match state r with
  | RX_STATE_IDLE => True
  | RX_STATE_HEADER => 1 <= hdr_idx r < 16 /\ byte_at (hdr_buf r) 0 = SPI_SYNC_BYTE
  | RX_STATE_PAYLOAD =>
      0 <= payload_idx r < expected_payload_len r /\ expected_payload_len r <= 4092
  | RX_STATE_CRC32 => 0 <= crc32_idx r < 4 /\ 0 <= expected_payload_len r <= 4092
  | RX_STATE_COMPLETE | RX_STATE_ERROR => False
  end.

Record rx_wf (r : rx_context) : Prop := {
  wf_hdr_len : length (hdr_buf r) = 16%nat;
  wf_payload_len : length (payload_buf r) = 4092%nat;
  wf_crc_len : length (crc32_buf r) = 4%nat;
  wf_hdr : bytes (hdr_buf r);
  wf_payload : bytes (payload_buf r);
  wf_crc : bytes (crc32_buf r);
  wf_state : rx_state_wf r;
  wf_sync : frames_sync_error r = 0;
}.

(** What the front end may be asked to do: one of four antenna paths, and
    CC1101 bursts that stay inside the configuration registers 0x00-0x2E or
    inside 0x30-0x3D. *)
Definition hw_call_safe (c : hw_call) : Prop :=
  match c with
  | HwAntennaSelect a => 0 <= a <= 3
  | HwCc1101WriteBurst a d =>
      (0 <= a <= 0x2E /\ a + Z.of_nat (length d) <= 0x2F) \/
      (0x30 <= a <= 0x3D /\ a + Z.of_nat (length d) <= 0x3E)
  | _ => True
  end.

Record fw_wf (s : fw) : Prop := {
  wf_rx : rx_wf (rx_ctx s);
  wf_rx_ring : ring_wf RX_RING_BITS (rx_ring s);
  wf_tx_ring : ring_wf TX_RING_BITS (tx_ring s);
  wf_hw : Forall hw_call_safe (hw s);
}.

(** ** Frame conditions: what the handlers leave alone *)

(** A handler touches the statistics, the device flags and the call trace. *)
Record same_io (s s' : fw) : Prop := {
  io_rx : rx_ctx s' = rx_ctx s;
  io_rx_ring : rx_ring s' = rx_ring s;
  io_tx_ring : tx_ring s' = tx_ring s;
  io_overrun : spi_rx_overrun s' = spi_rx_overrun s;
}.

Ltac unfold_cmds :=
  unfold dispatch_command, handle_cmd_nop, handle_cmd_sdr_tune, handle_cmd_sdr_stream,
    handle_cmd_ant_select, handle_cmd_cc1101_cfg, handle_cmd_nfc_transact.

Lemma dispatch_command_io cmd p len s : same_io s (dispatch_command cmd p len s).
Proof. unfold_cmds. repeat case_match; by constructor. Qed.

Lemma hw_snoc s c :
  Forall hw_call_safe (hw s) -> hw_call_safe c -> Forall hw_call_safe (hw (call c s)).
Proof. intros. apply Forall_app. by repeat constructor. Qed.

Lemma dispatch_command_hw cmd p len s :
  bytes p -> len <= Z.of_nat (length p) ->
  Forall hw_call_safe (hw s) -> Forall hw_call_safe (hw (dispatch_command cmd p len s)).
Proof.
  intros Hp Hlen Hs. unfold_cmds.
  pose proof (byte_at_byte p 0 Hp) as H0. pose proof (byte_at_byte p 1 Hp) as H1.
  unfold byte in *.
  repeat case_match; try done; repeat apply hw_snoc; try done; simpl; [lia|].
  rewrite slice_length by (rewrite u16_small in * by lia; lia). lia.
Qed.

Lemma fw_wf_io s s' :
  same_io s s' -> Forall hw_call_safe (hw s') -> fw_wf s -> fw_wf s'.
Proof. intros [E1 E2 E3 _] Hh [? ? ? _]. constructor; congruence. Qed.

(** ** Frame assembly *)

Lemma validate_frame_header_cases r ret r' :
  byte_at (hdr_buf r) 0 = SPI_SYNC_BYTE -> validate_frame_header r = (ret, r') ->
  (ret = 0 /\ r' = r) \/ (ret <> 0 /\ r' = r <| frames_crc_error ::= incr32 |>).
Proof.
  unfold validate_frame_header. intros -> E. rewrite Z.eqb_refl in E. cbn [negb] in E.
  repeat case_match; simplify_eq; auto.
Qed.

Lemma validate_frame_payload_cases r ret r' :
  validate_frame_payload r = (ret, r') ->
  (ret = 0 /\ r' = r) \/ (ret <> 0 /\ r' = r <| frames_crc_error ::= incr32 |>).
Proof. unfold validate_frame_payload. intros. repeat case_match; simplify_eq; auto. Qed.

Ltac upd := unfold update in *; cbn in *.

Lemma dispatch_frame_wf s :
  0 <= expected_payload_len (rx_ctx s) <= 4092 ->
  fw_wf (s <| rx_ctx ::= fun r => r <| state := RX_STATE_IDLE |> |>) ->
  fw_wf ((dispatch_frame s) <| rx_ctx ::= fun r => r <| state := RX_STATE_IDLE |> |>).
Proof.
  intros Hlen [[] ? ? Hh]. upd. unfold dispatch_frame. cbv zeta.
  set (s1 := s <| rx_ctx ::= fun r => r <| frames_dispatched ::= incr32 |> |>).
  set (cmd := byte_at _ _). set (p := payload_buf _).
  destruct (dispatch_command_io cmd p (expected_payload_len (rx_ctx s)) s1) as [E1 E2 E3 _].
  pose proof (dispatch_command_hw cmd p (expected_payload_len (rx_ctx s)) s1) as Hh'.
  ospecialize (Hh' _ _ _); [done|subst p s1; upd; lia|done|].
  revert E1 E2 E3 Hh'. generalize (dispatch_command cmd p (expected_payload_len (rx_ctx s)) s1).
  intros s2 E1 E2 E3 Hh'. subst s1. upd.
  destruct (0 <? _); constructor; upd; rewrite ?E1, ?E2, ?E3; try done;
    constructor; upd; try done.
  - by rewrite secure_wipe_length.
  - unfold secure_wipe, overwrite. apply bytes_app. auto with bytes.
Qed.

Ltac stepped := eexists _, _; split; [reflexivity|split; [|lia]].

(** Rebuild the invariant after field updates; what is left are the
    conjuncts that changed. *)
Ltac rebuild := constructor; upd; try done; constructor; upd;
  rewrite ?length_insert; try done; try (by apply bytes_insert);
  unfold rx_state_wf, incr32, SPI_CRC32_SIZE in *; upd;
  try match goal with E : state _ = _ |- _ => rewrite E end;
  rewrite ?u32_small in * by lia; try lia; try done.

Lemma process_byte_wf b s :
  byte b -> fw_wf s ->
  exists n s', process_byte b s = Some (n, s') /\ fw_wf s' /\ 0 <= n <= 1.
Proof.
  intros Hb W. pose proof W as [[Hh Hp Hc Bh Bp Bc Hst Hsync] ? ? ?].
  unfold process_byte. unfold rx_state_wf in Hst. destruct (state (rx_ctx s)) eqn:Est; cbv zeta.
  - destruct (Z.eqb_spec b SPI_SYNC_BYTE) as [->|].
    + rewrite buf_set_ok by lia. simpl. stepped. rebuild.
      split; [lia|]. by destruct (hdr_buf (rx_ctx s)).
    + stepped. done.
  - destruct Hst as [Hidx H0]. rewrite buf_set_ok by lia. cbn [mbind option_bind].
    set (r := _ <| hdr_idx ::= incr32 |>).
    assert (byte_at (hdr_buf r) 0 = SPI_SYNC_BYTE) as H0'.
    { subst r. upd. unfold byte_at. rewrite nth_lookup, list_lookup_insert_ne by lia.
      by rewrite <- nth_lookup. }
    assert (hdr_idx r = hdr_idx (rx_ctx s) + 1) as Ei by (subst r; upd; unfold incr32; by rewrite u32_small by lia).
    destruct (Z.leb_spec SPI_HDR_SIZE (hdr_idx r)) as [Hend|Hend]; unfold SPI_HDR_SIZE in *.
    + destruct (validate_frame_header r) as [ret r'] eqn:Ev.
      apply validate_frame_header_cases in Ev; [|done].
      assert (bytes (hdr_buf r)) as Br by (subst r; upd; by apply bytes_insert).
      pose proof (read_le16_range (drop 2 (hdr_buf r)) (bytes_drop _ _ Br)) as Hl.
      destruct Ev as [[-> ->]|[Hne ->]]; [rewrite Z.eqb_refl|rewrite (proj2 (Z.eqb_neq _ _) Hne)].
      * cbv zeta. simpl expected_payload_len. unfold SPI_MAX_PAYLOAD.
        repeat case_match; stepped; subst r; rebuild.
      * stepped. subst r. rebuild.
    + stepped. constructor; try done. constructor; try done; try (subst r; upd; rewrite ?length_insert; by auto using bytes_insert).
      enough (1 <= hdr_idx r < 16) by (unfold rx_state_wf; simpl; by rewrite Est). lia.
  - destruct Hst as [Hidx Hle]. rewrite buf_set_ok by lia. cbn [mbind option_bind].
    case_match eqn:E; stepped; rebuild.
  - destruct Hst as [Hidx Hle]. rewrite buf_set_ok by lia. cbn [mbind option_bind].
    case_match eqn:E.
    + destruct (validate_frame_payload _) as [ret r'] eqn:Ev.
      apply validate_frame_payload_cases in Ev.
      destruct Ev as [[-> ->]|[Hne ->]]; [rewrite Z.eqb_refl|rewrite (proj2 (Z.eqb_neq _ _) Hne)]; stepped.
      * apply dispatch_frame_wf; [done|]. rebuild.
      * rebuild.
    + stepped; rebuild.
  - done.
  - done.
Qed.

(** Assembling bytes does not touch the rings. *)
Record same_rings (s s' : fw) : Prop := {
  rings_rx : rx_ring s' = rx_ring s;
  rings_tx : tx_ring s' = tx_ring s;
}.

Lemma dispatch_frame_rings s : same_rings s (dispatch_frame s).
Proof.
  unfold dispatch_frame. cbv zeta.
  match goal with |- context [dispatch_command ?c ?p ?n ?s1] =>
    destruct (dispatch_command_io c p n s1) as [_ E1 E2 _] end.
  case_match; constructor; upd; done.
Qed.

Lemma process_byte_rings b s n s' : process_byte b s = Some (n, s') -> same_rings s s'.
Proof.
  unfold process_byte. cbv zeta. intros E.
  destruct (state (rx_ctx s)); try destruct (buf_set _ _ _); cbn [mbind option_bind] in E;
    repeat case_match; simplify_eq; try by constructor.
  all: match goal with |- context [dispatch_frame ?s1] =>
    destruct (dispatch_frame_rings s1); by constructor end.
Qed.

(** ** Draining the receive ring *)

Lemma process_loop_wf fuel frames s :
  fw_wf s -> (length (ring_contents RX_RING_BITS (rx_ring s)) <= fuel)%nat ->
  exists n s', process_loop fuel frames s = Some (n, s') /\ fw_wf s' /\
    ring_contents RX_RING_BITS (rx_ring s') = [] /\ tx_ring s' = tx_ring s /\
    frames <= n <= frames + Z.of_nat (length (ring_contents RX_RING_BITS (rx_ring s))).
Proof.
  assert (0 < RX_RING_BITS) as Hk by done.
  revert frames s. induction fuel as [|fuel IH]; intros frames s W Hf; cbn [process_loop];
    pose proof (wf_rx_ring s W) as Wr;
    destruct (Z.eqb_spec (ring_head (rx_ring s)) (ring_tail (rx_ring s))) as [E|E];
    try (apply (ring_empty _ Hk _ Wr) in E; exists frames, s; rewrite E; split_and!; done || simpl; lia);
    destruct (ring_get_spec _ Hk _ Wr E) as (b & r & Eg & Wr' & Hb & Ec & _);
    rewrite Ec in *; [simpl in Hf; lia|].
  rewrite Eg. cbn [mbind option_bind].
  destruct (process_byte_wf b (s <| rx_ring := r |>)) as (n & s' & Ep & W' & Hn);
    [done|by destruct W|].
  rewrite Ep. cbn [mbind option_bind].
  destruct (process_byte_rings _ _ _ _ Ep) as [Er Et]. upd.
  destruct (IH (frames + n) s' W') as (n' & s'' & -> & W'' & He & Et' & Hn');
    rewrite Er in *; [lia|].
  exists n', s''. split_and!; try done || lia. congruence.
Qed.

(** ** The other entry points *)

Lemma rx_isr_byte_wf b s :
  byte b -> fw_wf s -> exists s', rx_isr_byte b s = Some s' /\ fw_wf s'.
Proof.
  intros Hb W. pose proof (wf_rx_ring s W) as Wr.
  unfold rx_isr_byte. case_match eqn:E.
  - apply negb_true_iff, Z.eqb_neq in E.
    destruct (ring_put_spec RX_RING_BITS eq_refl b (rx_ring s)) as (r & Ep & Wr' & _);
      [done|done|by rewrite ring_next_mod|].
    unfold ring_put in Ep. destruct (buf_set _ _ _) as [buf|]; [|done].
    simplify_option_eq. simpl. eexists. split; [done|].
    rewrite ring_next_mod in Wr' by done. by destruct W.
  - eexists. split; [done|]. by destruct W.
Qed.

Lemma rx_isr_wf l s :
  bytes l -> fw_wf s -> exists s', rx_isr l s = Some s' /\ fw_wf s'.
Proof.
  intros Hl. revert s. induction Hl as [|b l Hb Hl IH]; intros s W; simpl; [by eauto|].
  destruct (rx_isr_byte_wf b s Hb W) as (s1 & -> & W1). simpl. auto.
Qed.
