(* ===== verification/SpiTx.v ===== *)
(** * The transmit side of the SPI0 protocol handler

    [build_response_frame] appends one encoded frame to the transmit ring or
    refuses it whole; what the two senders built on it (telemetry and IQ
    chunks) do when the ring is full; and the telemetry payload read back by
    its reader. *)

From S2P Require Import Prelude Crc Frame Ring Board SpiProtocol SpiInvariant.

#[local] Existing Instance mcu_frame_crc.
#[local] Opaque mcu_crc64 mcu_crc32 write_le64 write_le32 write_le16.

(** the stores and loads of the frame buffer are within bounds *)
#[local] Ltac store_len :=
  rewrite ?length_app, ?write_le16_bytes, ?write_le32_bytes, ?write_le64_bytes, ?le_bytes_length;
  cbn [length app]; lia.

(** the bytes queued for the host *)
Definition tx_queue (s : fw) : list Z := ring_contents TX_RING_BITS (tx_ring s).
(** one slot of the ring stays empty *)
Definition tx_free (s : fw) : Z := TX_RING_SIZE - 1 - Z.of_nat (length (tx_queue s)).

Lemma tx_copy_spec l r :
  ring_wf TX_RING_BITS r -> bytes l ->
  (length (ring_contents TX_RING_BITS r) + length l <= 4095)%nat ->
  exists r', tx_copy l r = Some r' /\ ring_wf TX_RING_BITS r' /\
    ring_contents TX_RING_BITS r' = ring_contents TX_RING_BITS r ++ l.
Proof.
  intros W Hl. revert r W.
  induction Hl as [|b l Hb Hl IH]; intros r W Hlen; cbn [tx_copy].
  - exists r. by rewrite app_nil_r.
  - destruct (ring_put_spec TX_RING_BITS eq_refl b r W Hb) as (r1 & -> & W1 & Ec & _).
    + rewrite (ring_full TX_RING_BITS eq_refl r W). simpl in Hlen. change (2 ^ _) with 4096. lia.
    + cbn [mbind option_bind].
      destruct (IH r1 W1) as (r' & -> & W' & Ec'); [rewrite Ec, length_app; simpl in *; lia|].
      exists r'. by rewrite Ec', Ec, <- app_assoc.
Qed.

Lemma tx_free_avail s :
  fw_wf s -> u32 (TX_RING_SIZE - ring_used TX_RING_BITS (tx_ring s) - 1) = tx_free s /\
  0 <= tx_free s <= 4095.
Proof.
  intros W. pose proof (wf_tx_ring s W) as Wt.
  rewrite (ring_used_contents TX_RING_BITS eq_refl _ Wt) by done.
  unfold tx_free, tx_queue, TX_RING_SIZE in *. destruct Wt as (_ & _ & Hh & Ht).
  assert (0 <= Z.of_nat (length (ring_contents TX_RING_BITS (tx_ring s))) < 4096).
  { unfold ring_contents. rewrite length_fmap, length_seqZ.
    change (2 ^ TX_RING_BITS) with 4096 in *.
    pose proof (Z.mod_pos_bound (ring_head (tx_ring s) - ring_tail (tx_ring s)) 4096). lia. }
  rewrite u32_small by lia. lia.
Qed.

Inductive build_result (cmd : Z) (data : list Z) (s : fw) : Z -> fw -> Prop :=
| build_queued r :
    Z.of_nat (length data) + 20 <= tx_free s ->
    ring_wf TX_RING_BITS r ->
    ring_contents TX_RING_BITS r = tx_queue s ++ encode_frame cmd data ->
    build_result cmd data s 0 (call HwIntReqAssert (s <| tx_ring := r |>))
| build_refused :
    tx_free s < Z.of_nat (length data) + 20 ->
    build_result cmd data s (-1)
      (s <| proto_stats ::= fun p => p <| tx_overruns ::= incr32 |> |>).

(** the array is filled from the front, whatever the stack held *)
Lemma fill_response_frame_spec cmd payload n frame :
  length frame = 4112%nat -> (n <= 4092)%nat -> (n <= length payload)%nat ->
  fill_response_frame cmd payload (Z.of_nat n) frame =
    Some (encode_frame cmd (take n payload) ++ drop (20 + n) frame).
Proof.
  intros Lf Hn Hp. unfold fill_response_frame. cbv zeta. rewrite !Nat2Z.id.
  rewrite buf_set_ok by lia. cbn [mbind option_bind].
  rewrite buf_set_ok by (rewrite length_insert; lia). cbn [mbind option_bind].
  assert (<[Z.to_nat 1:=cmd]> (<[Z.to_nat 0:=SPI_SYNC_BYTE]> frame) =
    [SPI_SYNC_BYTE; cmd] ++ drop 2 frame) as -> by by destruct frame as [|? [|? ?]].
  rewrite (store_at_next 2 4) by (done || store_len). cbn [mbind option_bind].
  rewrite (store_at_next 4 8) by store_len. cbn [mbind option_bind].
  rewrite (take_app_length' (_ ++ write_le32 0)) by store_len.
  rewrite (store_at_next 8 16) by store_len. cbn [mbind option_bind].
  rewrite <- (app_assoc [_; _]). fold (header_head cmd (Z.of_nat n)).
  fold (encode_header cmd (Z.of_nat n)).
  set (data := take n payload).
  assert (length data = n) as Hd by (subst data; rewrite length_take; lia).
  replace (if 0 <? Z.of_nat n then _ else _) with
    (Some ((encode_header cmd (Z.of_nat n) ++ data) ++ drop (16 + n) frame)).
  2: { destruct (Z.ltb_spec 0 (Z.of_nat n)).
       - rewrite load_at_ok by lia. cbn [mbind option_bind]. unfold slice. rewrite drop_0. fold data.
         by rewrite (store_at_next 16 (16 + n)) by (done || lia).
       - assert (n = 0%nat) as Hz by lia. by rewrite (nil_length_inv data), app_nil_r, Hz by lia. }
  cbn [mbind option_bind].
  rewrite load_at_ok by (rewrite !length_app, length_drop, encode_header_length; lia).
  cbn [mbind option_bind].
  replace (slice 16 n _) with data.
  2: { unfold slice. rewrite <- app_assoc, (drop_app_length' (encode_header _ _)) by done.
       by rewrite take_app_length'. }
  rewrite (store_at_next (16 + n) (20 + n)) by (rewrite ?length_app, ?encode_header_length; store_len).
  unfold encode_frame. by rewrite Hd, <- !app_assoc.
Qed.

(** proofs reason about the array by this lemma, not by its 4112 elements *)
#[global] Opaque stack_frame.

(** a length the frame cannot hold is refused before anything is stored *)
Lemma build_response_frame_long cmd payload n s :
  4092 < n -> build_response_frame cmd payload n s = Some (-1, s).
Proof. intros Hn. unfold build_response_frame. by rewrite (proj2 (Z.ltb_lt _ _)). Qed.

(** The builder's contract: the frame is queued whole and INT_REQ asserted,
    or the state is as it was but for the overrun counter. *)
Lemma build_response_frame_spec cmd payload n s :
  fw_wf s -> byte cmd -> bytes payload -> 0 <= n <= 4092 ->
  n <= Z.of_nat (length payload) ->
  exists ret s', build_response_frame cmd payload n s = Some (ret, s') /\
    build_result cmd (take (Z.to_nat n) payload) s ret s'.
Proof.
  intros W Hc Hp Hn Hl. unfold build_response_frame.
  destruct (Z.ltb_spec SPI_MAX_PAYLOAD n); [unfold SPI_MAX_PAYLOAD in *; lia|].
  set (data := take (Z.to_nat n) payload).
  assert (length data = Z.to_nat n) as Ed by (subst data; rewrite length_take; lia).
  pose proof (fill_response_frame_spec cmd payload (Z.to_nat n) stack_frame
    (length_replicate _ _)) as Ef.
  rewrite Z2Nat.id in Ef by lia. rewrite Ef by lia. cbn [mbind option_bind]. fold data. cbv zeta.
  destruct (tx_free_avail s W) as [-> Hf].
  rewrite u32_small by (unfold SPI_HDR_SIZE, SPI_CRC32_SIZE; lia).
  unfold SPI_HDR_SIZE, SPI_CRC32_SIZE.
  destruct (Z.ltb_spec (tx_free s) (16 + n + 4)) as [Hlt|Hle].
  { do 2 eexists. split; [done|]. apply build_refused. lia. }
  assert (length (encode_frame cmd data) = Z.to_nat (16 + n + 4)) as Lf
    by (rewrite encode_frame_length; lia).
  rewrite load_at_ok by (rewrite length_app; lia). cbn [mbind option_bind].
  unfold slice. rewrite drop_0, (take_app_length' (encode_frame cmd data)) by done.
  destruct (tx_copy_spec (encode_frame cmd data) (tx_ring s)) as (r & -> & Wr & Ec);
    [by apply wf_tx_ring|apply encode_frame_bytes; subst data; auto with bytes| |].
  - unfold tx_free, tx_queue, TX_RING_SIZE in *. lia.
  - do 2 eexists. split; [done|]. apply build_queued; [lia|done..].
Qed.

(** whatever its arguments, the builder stays inside its array and the ring *)
Lemma build_response_frame_defined cmd payload n s :
  fw_wf s -> byte cmd -> bytes payload -> 0 <= n <= Z.of_nat (length payload) ->
  is_Some (build_response_frame cmd payload n s).
Proof.
  intros W Hc Hp Hn. destruct (Z.ltb_spec 4092 n).
  - rewrite build_response_frame_long by done. done.
  - destruct (build_response_frame_spec cmd payload n s) as (? & ? & -> & _); done || lia.
Qed.

Lemma build_result_wf cmd data s ret s' :
  fw_wf s -> build_result cmd data s ret s' -> fw_wf s'.
Proof. intros [] []; constructor; try done. by apply hw_snoc. Qed.

Lemma telemetry_payload_length d : length (telemetry_payload d) = 16%nat.
Proof. done. Qed.

Lemma telemetry_payload_bytes d : bytes (telemetry_payload d).
Proof.
  unfold telemetry_payload. rewrite !write_le16_bytes, write_le32_bytes, !bytes_app.
  auto 10 with bytes.
Qed.

Lemma send_telemetry_spec s :
  fw_wf s -> exists ret s1,
    build_result CMD_TELEMETRY (telemetry_payload (device_state s)) s ret s1 /\
    spi_protocol_send_telemetry s = Some (bump (fun p => p <| telemetry_sent ::= incr32 |>) s1).
Proof.
  intros W. unfold spi_protocol_send_telemetry.
  destruct (build_response_frame_spec CMD_TELEMETRY (telemetry_payload (device_state s)) 16 s)
    as (ret & s1 & -> & Hb); [done|done|apply telemetry_payload_bytes|lia|done|].
  exists ret, s1. done.
Qed.

Lemma send_iq_chunk_spec data len s :
  fw_wf s -> bytes data -> 0 <= len <= Z.of_nat (length data) ->
  sdr_streaming (device_state s) = true ->
  exists ret s1,
    build_result CMD_SDR_IQ_CHUNK (take (Z.to_nat (Z.min len 4092)) data) s ret s1 /\
    spi_protocol_send_iq_chunk data len s =
      Some (bump (fun p => p <| iq_chunks_sent ::= incr32 |>) s1).
Proof.
  intros W Hd Hl Hs. unfold spi_protocol_send_iq_chunk. rewrite Hs. simpl.
  replace (if _ <? len then _ else len) with (Z.min len 4092)
    by (unfold SPI_MAX_PAYLOAD; case_match; lia).
  destruct (build_response_frame_spec CMD_SDR_IQ_CHUNK data (Z.min len 4092) s)
    as (ret & s1 & -> & Hb); [done..|lia|lia|].
  exists ret, s1. done.
Qed.

(** the senders leave the receive side alone *)
(** the builder changes the transmit ring, the overrun counter and INT_REQ only *)
Inductive build_change (s : fw) : fw -> Prop :=
| change_none : build_change s s
| change_refused : build_change s (s <| proto_stats ::= fun p => p <| tx_overruns ::= incr32 |> |>)
| change_queued r : build_change s (call HwIntReqAssert (s <| tx_ring := r |>)).

Lemma build_response_frame_change cmd p n s ret s' :
  build_response_frame cmd p n s = Some (ret, s') -> build_change s s'.
Proof.
  unfold build_response_frame. intros E. case_match; [simplify_eq; constructor|].
  destruct (fill_response_frame _ _ _ _) as [f|]; [|done]. cbn in E.
  case_match; [simplify_eq; constructor|].
  destruct (load_at _ _ _) as [bs|]; [|done]. cbn in E.
  destruct (tx_copy _ _); [|done]. cbn in E. simplify_eq. constructor.
Qed.

Lemma build_response_frame_rx cmd p n s ret s' :
  build_response_frame cmd p n s = Some (ret, s') -> rx_ctx s' = rx_ctx s.
Proof. by intros []%build_response_frame_change. Qed.

Lemma send_telemetry_rx s s' :
  spi_protocol_send_telemetry s = Some s' -> rx_ctx s' = rx_ctx s.
Proof.
  unfold spi_protocol_send_telemetry.
  destruct (build_response_frame _ _ _ _) as [[ret s1]|] eqn:E; [|done].
  intros [= <-]. by apply build_response_frame_rx in E.
Qed.

Lemma send_iq_chunk_rx data len s s' :
  spi_protocol_send_iq_chunk data len s = Some s' -> rx_ctx s' = rx_ctx s.
Proof.
  unfold spi_protocol_send_iq_chunk. case_match; [by intros [= <-]|]. cbv zeta.
  destruct (build_response_frame _ _ _ _) as [[ret s1]|] eqn:E; [|done].
  intros [= <-]. by apply build_response_frame_rx in E.
Qed.
