(* ===== verification/SpiReach.v ===== *)
(** * Reachable states of the SPI0 protocol handler

    The entry points of spi_protocol.c, the receive interrupt and one round of
    the drain loop are the steps of a transition system, so that interrupts
    may fall between any two bytes of the main loop.  The invariant of
    SpiInvariant holds at every reachable state, and three facts about the
    transmit ring follow from the fact that no step removes a byte from it. *)

From S2P Require Import Prelude Crc Frame Ring Board SpiProtocol SpiInvariant SpiTx.

(** one round of the [while] loop of spi_protocol_process *)
Definition process_round (s : fw) : option fw :=
  '(b, r) ← ring_get RX_RING_BITS (rx_ring s);
  '(_, s) ← process_byte b (s <| rx_ring := r |>);
  Some s.

Inductive fw_step (s : fw) : fw -> Prop :=
| step_rx_interrupt b s' : byte b -> rx_isr_byte b s = Some s' -> fw_step s s'
| step_process s' :
    ring_head (rx_ring s) <> ring_tail (rx_ring s) -> process_round s = Some s' -> fw_step s s'
| step_send_telemetry s' : spi_protocol_send_telemetry s = Some s' -> fw_step s s'
| step_send_iq_chunk data len s' :
    bytes data -> 0 <= len <= Z.of_nat (length data) ->
    spi_protocol_send_iq_chunk data len s = Some s' -> fw_step s s'
| step_update_telemetry rssi temp vbat cc_rssi nfc :
    0 <= vbat < 65536 -> 0 <= nfc < 65536 ->   (* uint16_t, stored as they are *)
    fw_step s (spi_protocol_update_telemetry rssi temp vbat cc_rssi nfc s)
| step_tick : fw_step s (spi_protocol_tick s)
| step_set_brownout active : fw_step s (spi_protocol_set_brownout active s).

Definition reachable (s : fw) : Prop := rtc fw_step fw_init s.

(** ** The invariant at reachable states *)

Lemma fw_init_wf : fw_wf fw_init.
Proof.
  constructor; [constructor; try done; apply bytes_replicate, byte_0| | |by repeat constructor].
  - apply (ring_init_wf RX_RING_BITS); done.
  - apply (ring_init_wf TX_RING_BITS); done.
Qed.

Lemma set_device_wf f s : fw_wf s -> fw_wf (set_device f s).
Proof. intros []. by constructor. Qed.

Lemma bump_wf f s : fw_wf s -> fw_wf (bump f s).
Proof. intros []. by constructor. Qed.

Lemma process_round_wf s :
  fw_wf s -> ring_head (rx_ring s) <> ring_tail (rx_ring s) ->
  exists s', process_round s = Some s' /\ fw_wf s' /\ tx_ring s' = tx_ring s.
Proof.
  intros W E. unfold process_round.
  destruct (ring_get_spec RX_RING_BITS eq_refl _ (wf_rx_ring s W) E)
    as (b & r & -> & Wr & Hb & _). cbn [mbind option_bind].
  destruct (process_byte_wf b (s <| rx_ring := r |>)) as (n & s' & Ep & W' & _);
    [done|by destruct W|].
  rewrite Ep. exists s'. split; [done|]. split; [done|].
  by destruct (process_byte_rings _ _ _ _ Ep).
Qed.

Lemma rx_isr_byte_tx b s s' : rx_isr_byte b s = Some s' -> tx_ring s' = tx_ring s.
Proof. unfold rx_isr_byte. intros. by repeat case_match; simplify_option_eq. Qed.

Lemma build_result_tx cmd data s ret s' :
  build_result cmd data s ret s' -> tx_queue s `prefix_of` tx_queue s'.
Proof. intros [r ? ? Ec|?]; unfold tx_queue; simpl; [rewrite Ec; by eexists|done]. Qed.

Lemma fw_step_inv s s' :
  fw_wf s -> fw_step s s' -> fw_wf s' /\ tx_queue s `prefix_of` tx_queue s'.
Proof.
  intros W [b s1 Hb E|s1 Hne E|s1 E|data len s1 Hd Hl E|? ? ? ? ? _ _| |?].
  - destruct (rx_isr_byte_wf b s Hb W) as (s2 & E2 & W2). simplify_eq.
    split; [done|]. unfold tx_queue. by rewrite (rx_isr_byte_tx b s s1).
  - destruct (process_round_wf s W Hne) as (s2 & E2 & W2 & Et). simplify_eq.
    split; [done|]. unfold tx_queue. by rewrite Et.
  - destruct (send_telemetry_spec s W) as (ret & s2 & Hb & E2). simplify_eq.
    split; [apply bump_wf; exact (build_result_wf _ _ _ _ _ W Hb)|].
    by apply build_result_tx in Hb.
  - unfold spi_protocol_send_iq_chunk in E.
    destruct (sdr_streaming (device_state s)) eqn:Es; simpl in E; [|by simplify_eq].
    destruct (send_iq_chunk_spec data len s W Hd Hl Es) as (ret & s2 & Hb & E2).
    unfold spi_protocol_send_iq_chunk in E2. rewrite Es in E2. simpl in E2. simplify_eq.
    split; [apply bump_wf; exact (build_result_wf _ _ _ _ _ W Hb)|].
    by apply build_result_tx in Hb.
  - split; [by apply set_device_wf|done].
  - split; [by apply set_device_wf|done].
  - split; [by apply set_device_wf|done].
Qed.

Lemma steps_inv s s' :
  fw_wf s -> rtc fw_step s s' -> fw_wf s' /\ tx_queue s `prefix_of` tx_queue s'.
Proof.
  intros W Hr. revert W. induction Hr as [s|s s1 s2 Hs Hr IH]; intros W; [done|].
  destruct (fw_step_inv _ _ W Hs) as [W1 P1]. destruct (IH W1) as [W2 P2].
  split; [done|]. by etrans.
Qed.

Lemma reachable_wf s : reachable s -> fw_wf s.
Proof. intros H. by destruct (steps_inv _ _ fw_init_wf H). Qed.

(** Executable runs: the interrupt delivers [l], then the main loop handles
    as many bytes. *)
Fixpoint process_rounds (n : nat) (s : fw) : option fw :=
  match n with
  | O => Some s
  | S n => if ring_head (rx_ring s) =? ring_tail (rx_ring s) then Some s
           else s' ← process_round s; process_rounds n s'
  end.

Definition receive (l : list Z) (s : fw) : option fw :=
  if bytesb l
  then s' ← rx_isr l s; process_rounds (length l) s' else None.

Lemma rx_isr_steps l s s' : bytes l -> rx_isr l s = Some s' -> rtc fw_step s s'.
Proof.
  intros Hl. revert s. induction Hl as [|b l Hb Hl IH]; simpl; intros s E; [by simplify_eq|].
  destruct (rx_isr_byte b s) as [s1|] eqn:E1; [|done].
  eapply rtc_l; [by eapply step_rx_interrupt|]. by apply IH.
Qed.

Lemma process_rounds_steps n s s' : process_rounds n s = Some s' -> rtc fw_step s s'.
Proof.
  revert s. induction n as [|n IH]; simpl; intros s E; [by simplify_eq|].
  case_match eqn:En; [by simplify_eq|]. apply Z.eqb_neq in En.
  destruct (process_round s) as [s1|] eqn:E1; [|done].
  eapply rtc_l; [by eapply step_process|]. by apply IH.
Qed.

Lemma receive_reachable l s s' : reachable s -> receive l s = Some s' -> reachable s'.
Proof.
  intros Hs E. unfold receive in E. case_match eqn:Hb; [|done].
  apply bytesb_bytes in Hb. destruct (rx_isr l s) as [s1|] eqn:E1; [|done].
  unfold reachable. etrans; [exact Hs|]. etrans; [by eapply rx_isr_steps|].
  by eapply process_rounds_steps.
Qed.

(** two runs used by the witnesses below: a host frame is received and handled *)
Definition fw_after (cmd : Z) (payload : list Z) : fw :=
  default fw_init (receive (encode_frame (crc:=mcu_frame_crc) cmd payload) fw_init).

Lemma fw_after_reachable cmd payload : reachable (fw_after cmd payload).
Proof.
  unfold fw_after. destruct (receive _ _) as [s|] eqn:E; simpl; [|apply rtc_refl].
  eapply receive_reachable; [apply rtc_refl|exact E].
Qed.

Lemma rx_fuel r :
  (length (ring_contents RX_RING_BITS r) <= Z.to_nat SPI_RX_BUF_SIZE)%nat.
Proof.
  pose proof (ring_contents_bound RX_RING_BITS eq_refl r) as H.
  change (2 ^ RX_RING_BITS) with SPI_RX_BUF_SIZE in H. lia.
Qed.

(** ** Properties *)

(** C2: at every reachable state, whatever the interleaving of receive
    interrupts with the main loop, the next byte interrupt, the next drain of
    the receive ring and the next telemetry frame are all within their arrays
    (none is the undefined out-of-bounds access), the drain terminates with the
    receive ring empty, and its result counts at most one frame per byte.  The
    response builder stays inside its 4112-byte stack array, the caller's
    payload and the transmit ring for every command and length. *)
Theorem reachable_memory_safe (s : fw) (Hs : reachable s) :
  (forall b, byte b -> is_Some (rx_isr_byte b s)) /\
  (exists n s', spi_protocol_process s = Some (n, s') /\
     ring_contents RX_RING_BITS (rx_ring s') = [] /\
     0 <= n <= Z.of_nat (length (ring_contents RX_RING_BITS (rx_ring s)))) /\
  is_Some (spi_protocol_send_telemetry s) /\
  (forall data len, bytes data -> 0 <= len <= Z.of_nat (length data) ->
     is_Some (spi_protocol_send_iq_chunk data len s)) /\
  (forall cmd payload len, byte cmd -> bytes payload -> 0 <= len <= Z.of_nat (length payload) ->
     is_Some (build_response_frame cmd payload len s)).
Proof.
  apply reachable_wf in Hs as W. split_and!.
  - intros b Hb. destruct (rx_isr_byte_wf b s Hb W) as (s' & -> & _). done.
  - destruct (process_loop_wf (Z.to_nat SPI_RX_BUF_SIZE) 0 s W) as (n & s' & E & _ & Er & _ & Hn).
    + apply rx_fuel.
    + exists n, s'. split; [exact E|]. split; [exact Er|exact Hn].
  - destruct (send_telemetry_spec s W) as (? & ? & _ & ->). done.
  - intros data len Hd Hl. destruct (sdr_streaming (device_state s)) eqn:Es.
    + destruct (send_iq_chunk_spec data len s W Hd Hl Es) as (? & ? & _ & ->). done.
    + unfold spi_protocol_send_iq_chunk. by rewrite Es.
  - intros cmd payload len Hc Hp Hl. by apply build_response_frame_defined.
Qed.

Lemma reachable_memory_safe_witness : is_Some (spi_protocol_send_telemetry fw_init).
Proof.
  destruct (reachable_memory_safe fw_init (rtc_refl _ _)) as (_ & _ & H & _). exact H.
Defined.

(** C11: whatever bytes arrive, every hardware call the firmware has made at a
    reachable state selects one of the four antenna paths or writes a CC1101
    burst that stays inside 0x00-0x2E or inside 0x30-0x3D; the reserved
    address 0x2F is never written and no burst wraps. The sync-error counter
    is still 0: a header buffer always starts with the sync byte, so the
    sync test of validate_frame_header never fires. *)
Theorem reachable_hw_safe (s : fw) (Hs : reachable s) :
  Forall hw_call_safe (hw s) /\ frames_sync_error (rx_ctx s) = 0.
Proof. apply reachable_wf in Hs as [[] ? ? ?]. done. Qed.

Lemma reachable_hw_safe_witness :
  hw (fw_after CMD_CC1101_CFG [0x2D; 2; 7; 8]) =
    [HwIntReqDeassert; HwCc1101WriteBurst 0x2D [7; 8]] /\
  Forall hw_call_safe (hw (fw_after CMD_CC1101_CFG [0x2D; 2; 7; 8])).
Proof.
  split; [vm_compute; reflexivity|].
  apply (reachable_hw_safe (fw_after CMD_CC1101_CFG [0x2D; 2; 7; 8])).
  apply fw_after_reachable.
Defined.

(** No entry point takes a byte out of the transmit ring: in every run the
    bytes queued for the host only grow, and never exceed 4095. *)
Theorem tx_ring_never_drained (s s' : fw) (Hs : reachable s) (Hr : rtc fw_step s s') :
  tx_queue s `prefix_of` tx_queue s' /\ (length (tx_queue s') <= 4095)%nat.
Proof.
  apply reachable_wf in Hs as W. destruct (steps_inv _ _ W Hr) as [W' P].
  split; [done|]. destruct (tx_free_avail s' W') as [_ H].
  unfold tx_free, TX_RING_SIZE in H. lia.
Qed.

Lemma tx_ring_never_drained_witness :
  tx_queue fw_init `prefix_of` tx_queue (fw_after CMD_NOP []).
Proof.
  apply (tx_ring_never_drained fw_init (fw_after CMD_NOP [])).
  - apply rtc_refl.
  - apply fw_after_reachable.
Defined.

(** A maximum-size IQ chunk (and any of more than 4075 bytes) never reaches the
    host: the 4112-byte frame does not fit the 4096-byte transmit ring even
    when it is empty, so in any reachable streaming state the call leaves the
    ring as it is, counts an overrun, and still counts the chunk as sent. *)
Theorem large_iq_chunk_dropped (s : fw) (data : list Z) (len : Z)
    (Hs : reachable s) (Hstream : sdr_streaming (device_state s) = true)
    (Hd : bytes data) (Hlen : 4075 < len <= Z.of_nat (length data)) :
  spi_protocol_send_iq_chunk data len s =
    Some (bump (fun p => p <| tx_overruns ::= incr32 |> <| iq_chunks_sent ::= incr32 |>) s).
Proof.
  apply reachable_wf in Hs as W.
  destruct (send_iq_chunk_spec data len s W Hd ltac:(lia) Hstream) as (ret & s1 & Hb & ->).
  destruct (tx_free_avail s W) as [_ Hf].
  inversion Hb as [r Hfit|Hno]; [|done].
  rewrite length_take in Hfit. lia.
Qed.

Lemma large_iq_chunk_dropped_witness :
  spi_protocol_send_iq_chunk (replicate 4092 7) 4092 (fw_after CMD_SDR_STREAM [1]) =
    Some (bump (fun p => p <| tx_overruns ::= incr32 |> <| iq_chunks_sent ::= incr32 |>)
               (fw_after CMD_SDR_STREAM [1])).
Proof.
  apply (large_iq_chunk_dropped (fw_after CMD_SDR_STREAM [1]) (replicate 4092 7) 4092).
  - apply fw_after_reachable.
  - vm_compute. reflexivity.
  - apply bytes_replicate. unfold byte. lia.
  - vm_compute. split; [reflexivity|discriminate].
Defined.

(** [n] telemetry periods of the main loop *)
Fixpoint send_telemetry_n (n : nat) (s : fw) : option fw :=
  match n with
  | O => Some s
  | S n => s' ← spi_protocol_send_telemetry s; send_telemetry_n n s'
  end.

Lemma send_telemetry_n_S n s :
  send_telemetry_n (S n) s = s' ← send_telemetry_n n s; spi_protocol_send_telemetry s'.
Proof.
  revert s. induction n as [|n IH]; intros s.
  { simpl. by destruct (spi_protocol_send_telemetry s). }
  change (send_telemetry_n (S (S n)) s) with
    (s1 ← spi_protocol_send_telemetry s; send_telemetry_n (S n) s1).
  change (send_telemetry_n (S n) s) with (s1 ← spi_protocol_send_telemetry s; send_telemetry_n n s1).
  destruct (spi_protocol_send_telemetry s); [apply IH|done].
Qed.

(** Only the first 113 telemetry frames after boot are ever queued.  After
    [n] periods the transmit ring holds [min n 113] frames of 36 bytes, every
    later frame is refused and counted as an overrun, and telemetry_sent counts
    all [n] as sent. *)
Theorem telemetry_saturates (n : nat) :
  exists s, send_telemetry_n n fw_init = Some s /\
    length (tx_queue s) = (36 * Nat.min n 113)%nat /\
    tx_overruns (proto_stats s) = u32 (Z.of_nat (n - 113)) /\
    telemetry_sent (proto_stats s) = u32 (Z.of_nat n).
Proof.
  enough (exists s, send_telemetry_n n fw_init = Some s /\ fw_wf s /\
    length (tx_queue s) = (36 * Nat.min n 113)%nat /\
    tx_overruns (proto_stats s) = u32 (Z.of_nat (n - 113)) /\
    telemetry_sent (proto_stats s) = u32 (Z.of_nat n)) as (s & ? & _ & ?) by eauto.
  induction n as [|n (s & E & W & Hq & Ho & Ht)].
  - exists fw_init. split; [done|]. split; [apply fw_init_wf|done].
  - rewrite send_telemetry_n_S, E. cbn [mbind option_bind].
    destruct (send_telemetry_spec s W) as (ret & s1 & Hb & ->).
    eexists. split; [reflexivity|]. split; [apply bump_wf; exact (build_result_wf _ _ _ _ _ W Hb)|].
    assert (Hcount : forall m, incr32 (u32 (Z.of_nat m)) = u32 (Z.of_nat (S m))).
    { intros m. unfold incr32, u32. rewrite Zplus_mod_idemp_l. f_equal. lia. }
    assert (Htc : telemetry_sent (proto_stats s1) = telemetry_sent (proto_stats s)) by by destruct Hb.
    assert (Hlen : forall r, ring_contents TX_RING_BITS r =
        tx_queue s ++ encode_frame (crc:=mcu_frame_crc) CMD_TELEMETRY (telemetry_payload (device_state s)) ->
        length (ring_contents TX_RING_BITS r) = (length (tx_queue s) + 36)%nat).
    { intros r Er. by rewrite Er, length_app, encode_frame_length, telemetry_payload_length. }
    unfold bump. simpl. rewrite Htc, Ht, Hcount.
    inversion Hb as [r Hfit Wr Ec|Hno]; subst; unfold tx_free, TX_RING_SIZE in *;
      rewrite telemetry_payload_length in *; unfold tx_queue at 1; simpl.
    + rewrite (Hlen r Ec), Ho. split_and!; [lia| |done]. do 2 f_equal. lia.
    + rewrite Ho, Hcount. change (ring_contents _ _) with (tx_queue s).
      split_and!; [lia| |done]. do 2 f_equal. lia.
Qed.
