(* ===== verification/Preempt.v ===== *)
(** * The receive drain, preempted between its loads and stores

    SpiReach lets the receive interrupt fall between two rounds of the loop of
    spi_protocol_process.  On the MCU it may fall anywhere: between the test
    [spi_rx_head != spi_rx_tail] and the load of the byte, between the load
    and the store of spi_rx_tail, while the byte is handled.  Here a round is
    the four accesses it consists of, and the interrupt handler (which the main
    loop never preempts) may run before each of them.  The handler writes only
    the head, free slots of the buffer and the overrun counter; the main loop
    writes only the tail: every preempted run is one of the atomic system, and
    a preempted drain computes what an undisturbed one computes on the bytes
    that arrived. *)

From S2P Require Import Prelude Interleave Crc Frame Ring Board SpiProtocol SpiInvariant SpiTx SpiReach.

(** ** Micro-steps of spi_protocol_process *)

(** where the main loop stands, with [frames_processed] and the loaded byte *)
Inductive drain_pc :=
| PcTest (frames : Z)                 (* while (spi_rx_head != spi_rx_tail) *)
| PcLoad (frames : Z)                 (* byte = spi_rx_buf[spi_rx_tail] *)
| PcAdvance (frames : Z) (b : Z)      (* spi_rx_tail = (spi_rx_tail + 1) & ... *)
| PcHandle (frames : Z) (b : Z)       (* switch (rx_ctx.state) *)
| PcReturn (frames : Z).
#[export] Instance drain_pc_eq_dec : EqDecision drain_pc.
Proof. solve_decision. Defined.

Definition advance_tail (s : fw) : fw :=
  s <| rx_ring ::= fun r => r <| ring_tail := ring_next RX_RING_BITS (ring_tail r) |> |>.

(** [None] is a read outside the buffer; a drain that has returned stays so. *)
Definition drain_step (pc : drain_pc) (s : fw) : option (drain_pc * fw) :=
  match pc with
  | PcTest n =>
      if ring_head (rx_ring s) =? ring_tail (rx_ring s) then Some (PcReturn n, s)
      else Some (PcLoad n, s)
  | PcLoad n =>
      b ← ring_buf (rx_ring s) !! Z.to_nat (ring_tail (rx_ring s));
      Some (PcAdvance n b, s)
  | PcAdvance n b => Some (PcHandle n b, advance_tail s)
  | PcHandle n b => '(k, s) ← process_byte b s; Some (PcTest (n + k), s)
  | PcReturn n => Some (PcReturn n, s)
  end.

(** an interrupt of a schedule is the byte the handler finds in the FIFO *)
Abbreviation run := (run_schedule drain_step rx_isr_byte).

Lemma rx_isr_irqs : rx_isr = irqs rx_isr_byte.
Proof. reflexivity. Qed.

(** ** What the interrupt handler may change *)

Definition set_rx (r : ring) (o : Z) (s : fw) : fw :=
  s <| rx_ring := r |> <| spi_rx_overrun := o |>.

Lemma set_rx_id s : set_rx (rx_ring s) (spi_rx_overrun s) s = s.
Proof. by destruct s. Qed.

(** Handling a byte neither reads nor writes the receive ring: every branch
    gives the same result whatever the ring holds. *)
Lemma dispatch_command_set_rx cmd p len r o s :
  dispatch_command cmd p len (set_rx r o s) = set_rx r o (dispatch_command cmd p len s).
Proof.
  unfold_cmds. unfold set_rx, bump, set_device, call. destruct s as [? ? d ? ? ? ?].
  cbn -[read_le32 read_le16 byte_at u16 Z.ltb Z.eqb].
  repeat case_match; done.
Qed.

Lemma dispatch_frame_set_rx r o s :
  dispatch_frame (set_rx r o s) = set_rx r o (dispatch_frame s).
Proof.
  unfold dispatch_frame. cbv zeta.
  change ((set_rx r o s) <| rx_ctx ::= fun c => c <| frames_dispatched ::= incr32 |> |>)
    with (set_rx r o (s <| rx_ctx ::= fun c => c <| frames_dispatched ::= incr32 |> |>)).
  rewrite dispatch_command_set_rx. by destruct (0 <? _).
Qed.

Lemma process_byte_set_rx b r o s :
  process_byte b (set_rx r o s) =
    '(k, s') ← process_byte b s; Some (k, set_rx r o s').
Proof.
  unfold process_byte. cbv zeta. change (rx_ctx (set_rx r o s)) with (rx_ctx s).
  destruct (state (rx_ctx s)); try destruct (buf_set _ _ _); cbn [mbind option_bind];
    repeat case_match; try done.
  match goal with |- context [dispatch_frame ((set_rx r o s) <| rx_ctx := ?c |>)] =>
    change ((set_rx r o s) <| rx_ctx := c |>) with (set_rx r o (s <| rx_ctx := c |>)) end.
  by rewrite dispatch_frame_set_rx.
Qed.

(** the handler as a function of the ring and the overrun counter alone *)
Definition isr_ring (b : Z) (r : ring) (o : Z) : option (ring * Z) :=
  let next_head := (ring_head r + 1) mod SPI_RX_BUF_SIZE in
  if negb (next_head =? ring_tail r) then
    buf ← buf_set (ring_buf r) (ring_head r) b;
    Some (r <| ring_buf := buf |> <| ring_head := next_head |>, o)
  else Some (r, incr32 o).

Lemma rx_isr_byte_ring b s :
  rx_isr_byte b s = '(r, o) ← isr_ring b (rx_ring s) (spi_rx_overrun s); Some (set_rx r o s).
Proof.
  unfold rx_isr_byte, isr_ring, set_rx. destruct s as [? ? ? ? r o ?].
  cbn [rx_ring spi_rx_overrun]. case_match; [|done]. by destruct (buf_set _ _ _).
Qed.

(** Handling a byte commutes with the interrupt. *)
Lemma process_byte_isr c k s s' b t :
  process_byte c s = Some (k, s') -> rx_isr_byte b s = Some t ->
  exists u, process_byte c t = Some (k, u) /\ rx_isr_byte b s' = Some u.
Proof.
  intros E. pose proof (process_byte_set_rx c (rx_ring s) (spi_rx_overrun s) s) as Es.
  rewrite set_rx_id, E in Es. cbn [mbind option_bind] in Es. injection Es as Es.
  rewrite !rx_isr_byte_ring.
  replace (rx_ring s') with (rx_ring s) by by rewrite Es.
  replace (spi_rx_overrun s') with (spi_rx_overrun s) by by rewrite Es.
  destruct (isr_ring _ _ _) as [[r o]|]; [|done]. cbn [mbind option_bind]. intros [= <-].
  exists (set_rx r o s'). by rewrite process_byte_set_rx, E.
Qed.

(** ** The ring while the main loop is between two accesses *)

Definition queued (s : fw) : Z := Z.of_nat (length (ring_contents RX_RING_BITS (rx_ring s))).
Definition rx_nonempty (s : fw) : Prop := ring_head (rx_ring s) <> ring_tail (rx_ring s).

(** An interrupt leaves the tail and the byte there alone, and a non-empty
    ring stays non-empty. *)
Lemma rx_isr_byte_keeps b c s t :
  fw_wf s -> byte b -> rx_isr_byte b s = Some t -> rx_nonempty s ->
  ring_buf (rx_ring s) !! Z.to_nat (ring_tail (rx_ring s)) = Some c ->
  rx_nonempty t /\ ring_buf (rx_ring t) !! Z.to_nat (ring_tail (rx_ring t)) = Some c.
Proof.
  intros W Hb. pose proof (wf_rx_ring s W) as (Hl & _ & Hh & Ht).
  change (2 ^ RX_RING_BITS) with 8192 in *.
  unfold rx_isr_byte, rx_nonempty. case_match eqn:E; intros Eq Hne Hc.
  - rewrite buf_set_ok in Eq by lia. cbn [mbind option_bind] in Eq. simplify_eq. simpl.
    apply negb_true_iff, Z.eqb_neq in E. split; [done|].
    rewrite list_lookup_insert_ne; [done|]. intros X. apply Z2Nat.inj in X; lia.
  - by simplify_eq.
Qed.

Lemma advance_tail_wf s : fw_wf s -> rx_nonempty s ->
  fw_wf (advance_tail s) /\ queued s = queued (advance_tail s) + 1.
Proof.
  intros W Hne. destruct (ring_get_spec RX_RING_BITS eq_refl _ (wf_rx_ring s W) Hne)
    as (b & r & Eg & Wr & _ & Hc & _).
  unfold ring_get in Eg. destruct (_ !! _) in Eg; [|done]. cbn [mbind option_bind] in Eg.
  injection Eg as _ <-. split; [by destruct W|].
  unfold queued. rewrite Hc. simpl length. unfold advance_tail. simpl. lia.
Qed.

(** A byte is taken with or without room elsewhere alike, as long as there is
    room for it now. *)
Lemma rx_isr_byte_room b s :
  fw_wf s -> byte b -> queued s < 8191 ->
  exists t, rx_isr_byte b s = Some t /\ fw_wf t /\ queued t = queued s + 1 /\
    t = set_rx ((rx_ring s) <| ring_buf := <[Z.to_nat (ring_head (rx_ring s)) := b]> (ring_buf (rx_ring s)) |>
                  <| ring_head := (ring_head (rx_ring s) + 1) mod SPI_RX_BUF_SIZE |>)
               (spi_rx_overrun s) s.
Proof.
  intros W Hb Hq. destruct (rx_isr_byte_wf b s Hb W) as (t & Et & Wt).
  pose proof (wf_rx_ring s W) as Wr. pose proof Wr as (Hl & _ & Hh & Ht).
  assert (Hnf : ring_next RX_RING_BITS (ring_head (rx_ring s)) <> ring_tail (rx_ring s)).
  { intros E. apply (ring_full RX_RING_BITS eq_refl _ Wr) in E. unfold queued in Hq.
    change (2 ^ RX_RING_BITS) with 8192 in E. lia. }
  exists t. split; [done|]. split; [done|].
  destruct (ring_put_spec RX_RING_BITS eq_refl b _ Wr Hb Hnf) as (r & Ep & _ & Hc & _).
  unfold ring_put in Ep. change (2 ^ RX_RING_BITS) with 8192 in *.
  rewrite rx_isr_byte_ring in Et. unfold isr_ring in Et.
  rewrite buf_set_ok in Ep, Et by lia. cbn [mbind option_bind] in Ep.
  rewrite ring_next_mod in Hnf, Ep by done. change (2 ^ RX_RING_BITS) with SPI_RX_BUF_SIZE in *.
  rewrite (proj2 (Z.eqb_neq _ _) Hnf) in Et. cbn [negb mbind option_bind] in Et.
  simplify_eq. split; [|done]. unfold queued. simpl. rewrite Hc, length_app. simpl. lia.
Qed.

(** So the store of the tail commutes with an interrupt that finds room. *)
Lemma advance_tail_isr b s t :
  fw_wf s -> byte b -> rx_nonempty s -> queued s < 8191 ->
  rx_isr_byte b s = Some t -> rx_isr_byte b (advance_tail s) = Some (advance_tail t).
Proof.
  intros W Hb Hne Hq E. destruct (advance_tail_wf s W Hne) as [Wa Hqa].
  destruct (rx_isr_byte_room b s W Hb) as (s1 & E1 & _ & _ & Es1); [lia|].
  destruct (rx_isr_byte_room b (advance_tail s) Wa Hb) as (s2 & -> & _ & _ & ->); [lia|].
  rewrite E1 in E. injection E as <-. by rewrite Es1.
Qed.

(** ** Every access is defined *)

Definition pc_ok (pc : drain_pc) (s : fw) : Prop :=
  match pc with
  | PcLoad _ => rx_nonempty s
  | PcAdvance _ b =>
      rx_nonempty s /\ ring_buf (rx_ring s) !! Z.to_nat (ring_tail (rx_ring s)) = Some b
  | PcHandle _ b => byte b
  | PcTest _ | PcReturn _ => True
  end.

Lemma nonempty_byte s : fw_wf s -> rx_nonempty s ->
  exists b, byte b /\ ring_buf (rx_ring s) !! Z.to_nat (ring_tail (rx_ring s)) = Some b.
Proof.
  intros W Hne. destruct (ring_get_spec RX_RING_BITS eq_refl _ (wf_rx_ring s W) Hne)
    as (b & r & Eg & _ & Hb & _).
  unfold ring_get in Eg. destruct (_ !! _) as [c|]; [|done].
  cbn [mbind option_bind] in Eg. simplify_eq. eauto.
Qed.

(** the accesses left before the drain returns, if no byte arrives *)
Definition work (pc : drain_pc) (s : fw) : Z :=
  match pc with
  | PcTest _ => 4 * queued s + 1
  | PcLoad _ => 4 * queued s
  | PcAdvance _ _ => 4 * queued s - 1
  | PcHandle _ _ => 4 * queued s + 2
  | PcReturn _ => 0
  end.

Lemma queued_nonneg s : 0 <= queued s. Proof. unfold queued. lia. Qed.
Lemma queued_nonempty s : fw_wf s -> rx_nonempty s -> 1 <= queued s.
Proof. intros W Hne. destruct (advance_tail_wf s W Hne). pose proof (queued_nonneg (advance_tail s)). lia. Qed.

Lemma drain_step_ok pc s :
  fw_wf s -> pc_ok pc s ->
  exists pc' s', drain_step pc s = Some (pc', s') /\ fw_wf s' /\ pc_ok pc' s' /\
    work pc' s' <= Z.max 0 (work pc s - 1) /\ queued s' <= queued s.
Proof.
  intros W Hpc. pose proof (queued_nonneg s) as Hq. destruct pc as [n|n|n b|n b|n]; simpl in Hpc |- *.
  - case_match eqn:E; eexists _, _; (split; [reflexivity|]); simpl; split_and!; try done || lia.
    unfold rx_nonempty. by apply Z.eqb_neq.
  - destruct (nonempty_byte s W Hpc) as (b & Hb & Eb). rewrite Eb.
    pose proof (queued_nonempty s W Hpc). exists (PcAdvance n b), s. simpl.
    split_and!; done || lia.
  - destruct Hpc as [Hne Eb]. destruct (advance_tail_wf s W Hne) as [Wa Ha].
    exists (PcHandle n b), (advance_tail s). cbn [work pc_ok].
    pose proof (queued_nonneg (advance_tail s)). split_and!; [done|done| |lia|lia].
    destruct (nonempty_byte s W Hne) as (c & Hc & Ec). by simplify_eq.
  - destruct (process_byte_wf b s Hpc W) as (k & s' & E & W' & _). rewrite E.
    assert (queued s' = queued s) as Eq
      by (unfold queued; by rewrite (rings_rx _ _ (process_byte_rings _ _ _ _ E))).
    exists (PcTest (n + k)), s'. cbn [work pc_ok]. split_and!; done || lia.
  - exists (PcReturn n), s. cbn [work pc_ok]. split_and!; done || lia.
Qed.

Lemma rx_isr_byte_ok pc b s :
  fw_wf s -> byte b -> pc_ok pc s ->
  exists t, rx_isr_byte b s = Some t /\ fw_wf t /\ pc_ok pc t /\ queued t <= queued s + 1.
Proof.
  intros W Hb Hpc. destruct (rx_isr_byte_wf b s Hb W) as (t & E & Wt).
  exists t. split_and!; [done..| |].
  - destruct pc as [n|n|n c|n c|n]; simpl in *; try done.
    + destruct (nonempty_byte s W Hpc) as (c & _ & Ec).
      by destruct (rx_isr_byte_keeps b c s t W Hb E Hpc Ec).
    + destruct Hpc. by apply (rx_isr_byte_keeps b c s t).
  - pose proof (ring_contents_bound RX_RING_BITS eq_refl (rx_ring t)) as Hbd.
    change (2 ^ RX_RING_BITS) with 8192 in Hbd. fold (queued t) in Hbd.
    destruct (Z.lt_ge_cases (queued s) 8191); [|lia].
    destruct (rx_isr_byte_room b s W Hb) as (t' & E' & _ & Hq & _); [done|]. simplify_eq. lia.
Qed.

Lemma work_pos pc s : fw_wf s -> pc_ok pc s -> work pc s <= 0 -> exists n, pc = PcReturn n.
Proof.
  intros W Hpc. pose proof (queued_nonneg s). destruct pc; simpl in *; try lia; [| |by eauto].
  - pose proof (queued_nonempty s W Hpc). lia.
  - pose proof (queued_nonempty s W (proj1 Hpc)). lia.
Qed.

(** ** What a preempted drain computes *)

Definition returned (pc : drain_pc) : Prop :=
  match pc with PcReturn _ => True | _ => False end.

(** handling [b], then the rest of the loop *)
Definition handle_then (n b : Z) (s : fw) (r : Z * fw) : Prop :=
  exists k s1 fuel, process_byte b s = Some (k, s1) /\ process_loop fuel (n + k) s1 = Some r.

Definition finish (pc : drain_pc) (s : fw) (r : Z * fw) : Prop :=
  match pc with
  | PcTest n => exists fuel, process_loop fuel n s = Some r
  | PcLoad n => exists b, ring_buf (rx_ring s) !! Z.to_nat (ring_tail (rx_ring s)) = Some b /\
      handle_then n b (advance_tail s) r
  | PcAdvance n b => handle_then n b (advance_tail s) r
  | PcHandle n b => handle_then n b s r
  | PcReturn n => r = (n, s)
  end.

(** The accesses one after another are the loop of SpiProtocol. *)
Lemma alone_finish pc s m s' :
  alone drain_step returned pc s (PcReturn m, s') -> finish pc s (m, s').
Proof.
  remember (PcReturn m, s') as r eqn:Er. intros H.
  induction H as [pc s Hf|pc s pc1 s1 r Hf E H IH]; [by simplify_eq|].
  specialize (IH Er). subst r. destruct pc as [n|n|n b|n b|n]; simpl in E, Hf |- *; try done.
  - case_match eqn:Ee; simplify_eq; simpl in IH.
    + simplify_eq. exists O. cbn [process_loop]. by rewrite Ee.
    + destruct IH as (b & Eb & k & s2 & fuel & Ep & El). exists (S fuel).
      cbn [process_loop]. rewrite Ee. unfold ring_get. rewrite Eb. cbn [mbind option_bind].
      change (s1 <| rx_ring := (rx_ring s1) <| ring_tail := ring_next RX_RING_BITS (ring_tail (rx_ring s1)) |> |>)
        with (advance_tail s1). rewrite Ep. exact El.
  - destruct (_ !! _) as [b|]; [|done]. cbn [mbind option_bind] in E. simplify_eq.
    exists b. by split.
  - by simplify_eq.
  - destruct (process_byte b s) as [[k s2]|] eqn:Ep; [|done]. cbn [mbind option_bind] in E.
    simplify_eq. destruct IH as [fuel El]. by exists k, s1, fuel.
Qed.

Definition drain_ok (l : list Z) (pc : drain_pc) (s : fw) : Prop :=
  fw_wf s /\ pc_ok pc s /\ bytes l /\ queued s + Z.of_nat (length l) <= 8191.

(** An access of the main loop may be moved behind the interrupt that follows
    it, except the last, unsuccessful test. *)
Lemma drain_step_later b l pc s pc' s' s1 :
  drain_ok (b :: l) pc s -> ~ returned pc' -> drain_step pc s = Some (pc', s') ->
  rx_isr_byte b s = Some s1 ->
  exists u, rx_isr_byte b s' = Some u /\ drain_step pc s1 = Some (pc', u).
Proof.
  intros (W & Hpc & Hl & Hq) Hnf E E1. apply Forall_cons in Hl as [Hb Hl].
  cbn [length] in Hq. destruct pc as [n|n|n c|n c|n]; simpl in E, Hpc |- *.
  - case_match eqn:Ee; simplify_eq; [done|]. apply Z.eqb_neq in Ee.
    destruct (rx_isr_byte_ok (PcLoad n) b s' W Hb Ee) as (t & Et & _ & Hne & _).
    rewrite E1 in Et. injection Et as <-. exists s1. split; [done|].
    by rewrite (proj2 (Z.eqb_neq _ _) Hne).
  - destruct (_ !! _) as [c|] eqn:Ec; [|done]. cbn [mbind option_bind] in E. simplify_eq.
    exists s1. by destruct (rx_isr_byte_keeps b c s' s1 W Hb E1 Hpc Ec) as [_ ->].
  - simplify_eq. destruct Hpc as [Hne Eb]. exists (advance_tail s1). split; [|done].
    by apply advance_tail_isr; [| | |lia|].
  - destruct (process_byte c s) as [[k s2]|] eqn:Ec; [|done]. cbn [mbind option_bind] in E.
    simplify_eq. destruct (process_byte_isr c k s s' b s1 Ec E1) as (t & -> & Et). eauto.
  - by simplify_eq.
Qed.

Lemma drain_linearizable : linearizable drain_step rx_isr_byte returned drain_ok work 4.
Proof.
  constructor.
  - intros []; simpl; auto.
  - by intros [] s Hf.
  - intros b l pc s (W & Hpc & Hl & Hq). apply Forall_cons in Hl as [Hb Hl]. cbn [length] in Hq.
    destruct (rx_isr_byte_ok pc b s W Hb Hpc) as (t & E & Wt & Ht & Hqt).
    exists t. split; [done|]. split; [split; [|split; [|split; [|lia]]]; done|].
    destruct pc; simpl; lia.
  - intros l pc s (W & Hpc & Hl & Hq).
    destruct (drain_step_ok pc s W Hpc) as (pc' & s' & E & W' & Hpc' & Hw & Hq').
    exists pc', s'. split; [done|]. split; [split; [|split; [|split; [|lia]]]; done|].
    destruct (Z.le_gt_cases (work pc s) 0) as [H|H]; [left|right; lia].
    by destruct (work_pos pc s W Hpc H) as [n ->].
  - intros l pc s (W & Hpc & _) H. by destruct (work_pos pc s W Hpc H) as [n ->].
  - apply drain_step_later.
Qed.

Lemma process_loop_det f f' n s r r' :
  process_loop f n s = Some r -> process_loop f' n s = Some r' -> r = r'.
Proof.
  revert f' n s. induction f as [|f IH]; intros f' n s E E'; destruct f' as [|f'];
    cbn [process_loop] in E, E'; case_match; try done; try by simplify_eq.
  destruct (ring_get _ _) as [[b g]|]; [|done]. cbn [mbind option_bind] in E, E'.
  destruct (process_byte _ _) as [[k s1]|]; [|done]. cbn [mbind option_bind] in E, E'.
  by eapply IH.
Qed.

(** ** The whole main loop, preempted *)

(** Between two calls the main loop runs the other entry points.  They share no
    variable with the interrupt handler ([main_entry_isr]), so each is one
    step. *)
Inductive main_entry (s : fw) : fw -> Prop :=
| entry_telemetry s' : spi_protocol_send_telemetry s = Some s' -> main_entry s s'
| entry_iq_chunk data len s' :
    bytes data -> 0 <= len <= Z.of_nat (length data) ->
    spi_protocol_send_iq_chunk data len s = Some s' -> main_entry s s'
| entry_update rssi temp vbat cc_rssi nfc :
    0 <= vbat < 65536 -> 0 <= nfc < 65536 ->
    main_entry s (spi_protocol_update_telemetry rssi temp vbat cc_rssi nfc s)
| entry_tick : main_entry s (spi_protocol_tick s)
| entry_brownout active : main_entry s (spi_protocol_set_brownout active s).

Inductive main_pc := AtLoop | InDrain (pc : drain_pc).

Inductive mcu_step : main_pc * fw -> main_pc * fw -> Prop :=
| mcu_entry s s' : main_entry s s' -> mcu_step (AtLoop, s) (AtLoop, s')
| mcu_call s : mcu_step (AtLoop, s) (InDrain (PcTest 0), s)
| mcu_access pc s pc' s' :
    drain_step pc s = Some (pc', s') -> mcu_step (InDrain pc, s) (InDrain pc', s')
| mcu_return n s : mcu_step (InDrain (PcReturn n), s) (AtLoop, s)
| mcu_irq mpc b s s' :
    byte b -> rx_isr_byte b s = Some s' -> mcu_step (mpc, s) (mpc, s').

Lemma main_entry_step s s' : main_entry s s' -> fw_step s s'.
Proof.
  intros []; [by apply step_send_telemetry|by eapply step_send_iq_chunk|by apply step_update_telemetry
    |apply step_tick|apply step_set_brownout].
Qed.

Lemma build_response_frame_set_rx cmd p n r o s :
  build_response_frame cmd p n (set_rx r o s) =
    '(k, s') ← build_response_frame cmd p n s; Some (k, set_rx r o s').
Proof.
  unfold build_response_frame. cbv zeta. change (tx_ring (set_rx r o s)) with (tx_ring s).
  destruct (SPI_MAX_PAYLOAD <? n); [done|].
  generalize (fill_response_frame cmd p n stack_frame). intros [frame|]; [|done].
  cbn [mbind option_bind]. destruct (_ <? _); [done|].
  destruct (load_at _ _ frame) as [bs|]; [|done]. cbn [mbind option_bind].
  by destruct (tx_copy _ _).
Qed.

(** a computation on which the ring and the counter have no bearing *)
Definition rx_free (f : fw -> option fw) : Prop :=
  forall r o s, f (set_rx r o s) = set_rx r o <$> f s.

Lemma rx_free_inv f s s' : rx_free f -> f s = Some s' ->
  rx_ring s' = rx_ring s /\ spi_rx_overrun s' = spi_rx_overrun s /\
  forall r o, f (set_rx r o s) = Some (set_rx r o s').
Proof.
  intros Hf E. pose proof (Hf (rx_ring s) (spi_rx_overrun s) s) as Es.
  rewrite set_rx_id, E in Es. injection Es as Es.
  split_and!; [by rewrite Es..|]. intros r o. by rewrite Hf, E.
Qed.

Lemma send_telemetry_rx_free : rx_free spi_protocol_send_telemetry.
Proof.
  intros r o s. unfold spi_protocol_send_telemetry.
  rewrite build_response_frame_set_rx. by destruct (build_response_frame _ _ _ _) as [[? ?]|].
Qed.

Lemma send_iq_chunk_rx_free data len : rx_free (spi_protocol_send_iq_chunk data len).
Proof.
  intros r o s. unfold spi_protocol_send_iq_chunk.
  change (device_state (set_rx r o s)) with (device_state s). destruct (negb _); [done|].
  rewrite build_response_frame_set_rx. by destruct (build_response_frame _ _ _ _) as [[? ?]|].
Qed.

(** The other entry points commute with the interrupts. *)
Lemma main_entry_isr b s s' t :
  main_entry s s' -> rx_isr_byte b s = Some t ->
  exists t', main_entry t t' /\ rx_isr_byte b s' = Some t'.
Proof.
  intros He. rewrite !rx_isr_byte_ring.
  enough (rx_ring s' = rx_ring s /\ spi_rx_overrun s' = spi_rx_overrun s /\
    forall r o, main_entry (set_rx r o s) (set_rx r o s')) as (-> & -> & H).
  { destruct (isr_ring _ _ _) as [[r o]|]; [|done]. cbn [mbind option_bind]. intros [= <-].
    eauto. }
  destruct He as [s' E|data len s' Hd Hl E|? ? ? ? ? Hv Hn| |a].
  - destruct (rx_free_inv _ _ _ send_telemetry_rx_free E) as (? & ? & H).
    split_and!; [done..|]. intros r o. by constructor.
  - destruct (rx_free_inv _ _ _ (send_iq_chunk_rx_free data len) E) as (? & ? & H).
    split_and!; [done..|]. intros r o. by apply (entry_iq_chunk _ data len).
  - split_and!; [done..|]. intros r o. by apply (entry_update (set_rx r o s)).
  - split_and!; [done..|]. intros r o. apply (entry_tick (set_rx r o s)).
  - split_and!; [done..|]. intros r o. apply (entry_brownout (set_rx r o s)).
Qed.

(** ** The simulation *)

(** the atomic state that stands for a preempted one: once the tail is
    stored, the round counts as done *)
Definition abstracts (mpc : main_pc) (s a : fw) : Prop :=
  match mpc with
  | InDrain (PcHandle n b) => exists k, process_byte b s = Some (k, a)
  | _ => a = s
  end.

Definition mpc_ok (mpc : main_pc) (s : fw) : Prop :=
  match mpc with AtLoop => True | InDrain pc => pc_ok pc s end.

(** Stores of the tail are rounds, interrupts are interrupts, entry points are
    entry points; the other accesses stutter. *)
Lemma mcu_step_simulated c c' a :
  mcu_step c c' -> fw_wf (snd c) -> mpc_ok (fst c) (snd c) -> abstracts (fst c) (snd c) a ->
  fw_wf (snd c') /\ mpc_ok (fst c') (snd c') /\
  exists a', rtc fw_step a a' /\ abstracts (fst c') (snd c') a'.
Proof.
  intros H W Hpc Ha. destruct H as [s s' He|s|pc s pc' s' E|n s|mpc b s s' Hb E];
    cbn [fst snd] in *.
  - simpl in Ha. subst a. apply main_entry_step in He.
    split; [by destruct (fw_step_inv s s' W He)|]. split; [done|]. exists s'. split; [by apply rtc_once|done].
  - split_and!; [done..|]. exists a. split; [apply rtc_refl|done].
  - destruct (drain_step_ok pc s W Hpc) as (pc1 & s1 & E1 & W1 & Hpc1 & _). simplify_eq.
    split_and!; [done..|]. destruct pc as [n|n|n b|n b|n]; simpl in E, Ha; try subst a.
    + exists s. case_match; simplify_eq; by split; [apply rtc_refl|].
    + destruct (_ !! _); [|done]. simpl in E. simplify_eq. eexists. by split; [apply rtc_refl|].
    + simplify_eq. destruct Hpc as [Hne Eb].
      destruct (process_byte_wf b (advance_tail s) Hpc1 W1) as (k & s2 & E2 & _).
      exists s2. split; [|by exists k]. apply rtc_once, step_process; [done|].
      unfold process_round, ring_get. rewrite Eb. cbn [mbind option_bind].
      change (s <| rx_ring := (rx_ring s) <| ring_tail := ring_next RX_RING_BITS (ring_tail (rx_ring s)) |> |>)
        with (advance_tail s). by rewrite E2.
    + destruct Ha as [k Ha]. rewrite Ha in E. simpl in E. simplify_eq.
      eexists. by split; [apply rtc_refl|].
    + simplify_eq. eexists. by split; [apply rtc_refl|].
  - simpl in Ha. subst a. split_and!; [done..|]. exists s. by split; [apply rtc_refl|].
  - assert (fw_wf s' /\ mpc_ok mpc s') as [W' Hpc'].
    { destruct mpc as [|pc].
      - destruct (rx_isr_byte_wf b s Hb W) as (t & Et & Wt). by simplify_eq.
      - destruct (rx_isr_byte_ok pc b s W Hb Hpc) as (t & Et & Wt & Ht & _). by simplify_eq. }
    split_and!; [done..|].
    destruct mpc as [|[n|n|n c|n c|n]]; simpl in Ha;
      try (subst a; exists s'; split; [by eapply rtc_once, step_rx_interrupt|done]).
    destruct Ha as [k Ek]. destruct (process_byte_isr _ _ _ _ b s' Ek E) as (t & Et & Ei).
    exists t. split; [|by exists k]. by apply rtc_once, (step_rx_interrupt _ b).
Qed.

Definition preempted_run : main_pc * fw -> Prop := rtc mcu_step (AtLoop, fw_init).

Lemma preempted_run_inv c :
  preempted_run c ->
  fw_wf (snd c) /\ mpc_ok (fst c) (snd c) /\ exists a, reachable a /\ abstracts (fst c) (snd c) a.
Proof.
  intros H. apply (rtc_ind_r (R:=mcu_step) (fun c => fw_wf (snd c) /\ mpc_ok (fst c) (snd c) /\
    exists a, reachable a /\ abstracts (fst c) (snd c) a) (AtLoop, fw_init)); [| |done].
  - split_and!; [apply fw_init_wf|done|]. exists fw_init. split; [apply rtc_refl|done].
  - intros c1 c2 _ Hs (W & Hpc & a & Hr & Ha).
    destruct (mcu_step_simulated c1 c2 a Hs W Hpc Ha) as (W' & Hpc' & a' & Hr' & Ha').
    split_and!; [done..|]. exists a'. split; [unfold reachable in *; by etrans|done].
Qed.

(** ** Properties *)

(** C3: atomicity of the main loop. Whatever accesses of spi_protocol_process
    the receive interrupt falls between, the next access of the main loop and
    the next interrupt are within the ring buffer, and whenever the main loop
    is not about to handle a byte it has taken from the ring the state is one
    the atomic system reaches; while it is, the state after handling the byte
    is. *)
Theorem preempted_loop_atomic (pc : drain_pc) (s : fw)
    (H : preempted_run (InDrain pc, s)) :
  is_Some (drain_step pc s) /\
  (forall b, byte b -> is_Some (rx_isr_byte b s)) /\
  match pc with
  | PcHandle _ b => exists k s', process_byte b s = Some (k, s') /\ reachable s'
  | _ => reachable s
  end.
Proof.
  destruct (preempted_run_inv _ H) as (W & Hpc & a & Hr & Ha). cbn [fst snd] in *.
  split; [by destruct (drain_step_ok pc s W Hpc) as (? & ? & -> & _)|].
  split; [intros b Hb; by destruct (rx_isr_byte_wf b s Hb W) as (? & -> & _)|].
  destruct pc as [n|n|n b|n b|n]; simpl in Ha; try congruence.
  destruct Ha as [k Ek]. by exists k, a.
Qed.

Lemma run_schedule_steps l pc s pc' s' :
  bytes (received l) -> run l pc s = Some (pc', s') ->
  rtc mcu_step (InDrain pc, s) (InDrain pc', s').
Proof.
  revert pc s. induction l as [|[|b] l IH]; simpl; intros pc s Hl E.
  - simplify_eq. apply rtc_refl.
  - destruct (drain_step pc s) as [[pc1 s1]|] eqn:E1; [|done]. simpl in E.
    eapply rtc_l; [by apply mcu_access|]. by apply IH.
  - inversion Hl; subst. destruct (rx_isr_byte b s) as [s1|] eqn:E1; [|done]. simpl in E.
    eapply rtc_l; [by eapply mcu_irq|]. by apply IH.
Qed.

Lemma preempted_loop_atomic_witness :
  exists s, run [EvIrq 0xAA; EvMain; EvIrq 7; EvMain] (PcTest 0) fw_init =
      Some (PcAdvance 0 0xAA, s) /\ reachable s.
Proof.
  destruct (run [EvIrq 0xAA; EvMain; EvIrq 7; EvMain] (PcTest 0) fw_init)
    as [[pc s]|] eqn:E.
  - assert (fst <$> run [EvIrq 0xAA; EvMain; EvIrq 7; EvMain] (PcTest 0) fw_init =
      Some (PcAdvance 0 0xAA)) as Ep by (vm_compute; reflexivity).
    rewrite E in Ep. injection Ep as ->. exists s. split; [done|].
    apply (preempted_loop_atomic (PcAdvance 0 0xAA) s).
    eapply rtc_l; [apply mcu_call|]. eapply run_schedule_steps; [|exact E].
    repeat constructor; done.
  - exfalso. destruct (run_schedule_total _ _ _ _ _ _ drain_linearizable
      [EvIrq 0xAA; EvMain; EvIrq 7; EvMain] (PcTest 0) fw_init) as (? & ? & E' & _).
    { split_and!; [apply fw_init_wf|done|repeat constructor; done|vm_compute; discriminate]. }
    congruence.
Defined.

(** C4: a preempted drain computes what an undisturbed one does. From a
    reachable state, under any schedule that delivers no more bytes than the
    ring has room for and gives the main loop four accesses for each byte and
    one more, spi_protocol_process returns; its result, and the state, are
    those of delivering the bytes that arrived before its last test first,
    running the drain without interruption, and delivering the rest after. *)
Theorem preempted_drain_exact (l : list (event Z)) (s : fw)
    (Hs : reachable s) (Hl : bytes (received l))
    (Hroom : queued s + Z.of_nat (length (received l)) <= 8191)
    (Hturns : 4 * (queued s + Z.of_nat (length (received l))) + 1 <= Z.of_nat (main_steps l)) :
  exists n t before after s1 s2,
    run l (PcTest 0) s = Some (PcReturn n, t) /\
    received l = before ++ after /\ rx_isr before s = Some s1 /\
    spi_protocol_process s1 = Some (n, s2) /\ rx_isr after s2 = Some t.
Proof.
  apply reachable_wf in Hs as W.
  assert (drain_ok (received l) (PcTest 0) s) as Hok by by split_and!.
  destruct (run_schedule_total _ _ _ _ _ _ drain_linearizable l (PcTest 0) s Hok)
    as (pc & t & Er & _ & Hd).
  destruct pc as [| | | |n]; try (destruct Hd; simpl; lia).
  destruct (run_schedule_linear _ _ _ _ _ _ drain_linearizable l (PcTest 0) s _ t Er I Hok)
    as (l1 & l2 & s1 & s2 & El & E1 & Ha & E2).
  destruct (alone_finish _ _ _ _ Ha) as [fuel Ef].
  exists n, t, l1, l2, s1, s2. split_and!; [done..| |done].
  rewrite El in Hl. apply Forall_app in Hl as [Hl1 _].
  destruct (rx_isr_wf l1 s Hl1 W) as (u & Eu & W1). rewrite rx_isr_irqs, E1 in Eu. injection Eu as <-.
  destruct (process_loop_wf (Z.to_nat SPI_RX_BUF_SIZE) 0 s1 W1 (rx_fuel _)) as (m & v & Ep & _).
  unfold spi_protocol_process. rewrite Ep. f_equal. by eapply process_loop_det.
Qed.

Definition busy_schedule : list (event Z) :=
  EvIrq 0xAA :: EvMain :: EvMain :: EvIrq 7 :: replicate 9 EvMain.

Lemma preempted_drain_exact_witness :
  fst <$> run busy_schedule (PcTest 0) (fw_after CMD_NOP []) = Some (PcReturn 0) /\
  exists n t before after s1 s2,
    run busy_schedule (PcTest 0) (fw_after CMD_NOP []) = Some (PcReturn n, t) /\
    received busy_schedule = before ++ after /\ rx_isr before (fw_after CMD_NOP []) = Some s1 /\
    spi_protocol_process s1 = Some (n, s2) /\ rx_isr after s2 = Some t.
Proof.
  split; [vm_compute; reflexivity|].
  apply (preempted_drain_exact busy_schedule (fw_after CMD_NOP [])).
  - apply fw_after_reachable.
  - repeat constructor; done.
  - vm_compute. discriminate.
  - vm_compute. discriminate.
Defined.
