(* ===== verification/SpiTypes.v ===== *)
(** * Widths of the protocol handler's fields

    Every counter and every cached reading of spi_protocol.c stays within its C
    type at every reachable state: the type invariant behind the telemetry
    payload's round trip. *)

From S2P Require Import Prelude Crc Frame Ring Board SpiProtocol SpiInvariant SpiTx SpiReach.

#[local] Existing Instance mcu_frame_crc.
#[local] Opaque mcu_crc64 mcu_crc32.

(** the C types of the cached values *)
Definition device_typed (dv : device) : Prop :=
  -32768 <= last_rssi_dbm_x10 dv < 32768 /\ -32768 <= last_temp_c_x10 dv < 32768 /\
  0 <= last_vbat_mv dv < 65536 /\ -32768 <= last_cc_rssi_x10 dv < 32768 /\
  0 <= last_nfc_field_mv dv < 65536 /\ 0 <= uptime_ms dv < 4294967296.

Definition is_u32 (x : Z) : Prop := 0 <= x < 4294967296.
Definition rx_counters (r : rx_context) : list Z :=
  [frames_received r; frames_crc_error r; frames_sync_error r; frames_dispatched r].
Definition stat_counters (p : proto_statistics) : list Z :=
  [cmd_nop_rx p; cmd_sdr_tune_rx p; cmd_sdr_stream_rx p; cmd_ant_select_rx p;
   cmd_cc1101_cfg_rx p; cmd_nfc_transact_rx p; telemetry_sent p; iq_chunks_sent p; tx_overruns p].

Record fw_typed (s : fw) : Prop := {
  ty_rx : Forall is_u32 (rx_counters (rx_ctx s));
  ty_stats : Forall is_u32 (stat_counters (proto_stats s));
  ty_overrun : is_u32 (spi_rx_overrun s);
  ty_device : device_typed (device_state s) }.

Lemma incr32_typed x : is_u32 (incr32 x).
Proof. apply u32_range. Qed.
#[local] Hint Resolve incr32_typed : core.

(** the goal is the invariant after some counters were incremented *)
Ltac typed := constructor; unfold rx_counters, stat_counters, device_typed in *; cbn in *;
  try done; split_and?; repeat (apply Forall_cons; split); try apply Forall_nil_2;
  first [apply incr32_typed | apply s16_range | tauto | idtac].

Ltac each_counter := repeat match goal with K : Forall is_u32 (_ :: _) |- _ =>
  apply Forall_cons in K as [? K] end.

Ltac open_typed H := let H1 := fresh in let H2 := fresh in
  destruct H as [H1 H2 ? ?]; unfold rx_counters in H1; unfold stat_counters in H2;
  each_counter.

Lemma fw_typed_init : fw_typed fw_init.
Proof. constructor; try (repeat constructor; done). Qed.

Lemma dispatch_command_typed cmd p len s : fw_typed s -> fw_typed (dispatch_command cmd p len s).
Proof. intros H. unfold_cmds. repeat case_match; open_typed H; typed. Qed.

Lemma dispatch_frame_typed s : fw_typed s -> fw_typed (dispatch_frame s).
Proof.
  intros H. unfold dispatch_frame. cbv zeta.
  match goal with |- context [dispatch_command ?c ?p ?n ?s1] =>
    assert (fw_typed (dispatch_command c p n s1)) as H2; [apply dispatch_command_typed|
    revert H2; generalize (dispatch_command c p n s1)] end.
  - open_typed H. typed.
  - intros s2 H2. case_match; [|done]. open_typed H2. typed.
Qed.

(** Replacing the assembly context keeps the rest. *)
Lemma rx_replace s r : fw_typed s -> Forall is_u32 (rx_counters r) -> fw_typed (s <| rx_ctx := r |>).
Proof. intros [] H. by constructor. Qed.

Lemma header_counters r ret r' :
  Forall is_u32 (rx_counters r) -> validate_frame_header r = (ret, r') ->
  Forall is_u32 (rx_counters r').
Proof.
  intros H E. unfold validate_frame_header in E. unfold rx_counters in *. each_counter.
  repeat case_match; simplify_eq; cbn; auto 10.
Qed.

Lemma payload_counters r ret r' :
  Forall is_u32 (rx_counters r) -> validate_frame_payload r = (ret, r') ->
  Forall is_u32 (rx_counters r').
Proof.
  intros H [[_ ->]|[_ ->]]%validate_frame_payload_cases; [done|]. unfold rx_counters in *. each_counter.
  cbn; auto 10.
Qed.

Lemma process_byte_typed b s n s' :
  process_byte b s = Some (n, s') -> fw_typed s -> fw_typed s'.
Proof.
  unfold process_byte. cbv zeta. intros E H. pose proof (ty_rx _ H) as Hr.
  destruct (state (rx_ctx s)).
  - case_match; [destruct (buf_set _ _ _); [|done]|]; cbn [mbind option_bind] in E; simplify_eq; [|done].
    by apply rx_replace.
  - destruct (buf_set _ _ _) as [h|]; [|done]; cbn [mbind option_bind] in E.
    case_match; [|simplify_eq; by apply rx_replace].
    destruct (validate_frame_header _) as [ret r'] eqn:Ev. apply header_counters in Ev; [|done].
    repeat case_match; simplify_eq; apply rx_replace; try done.
    unfold rx_counters in *. each_counter.
    cbn; auto 10.
  - destruct (buf_set _ _ _); [|done]; cbn [mbind option_bind] in E.
    case_match; simplify_eq; by apply rx_replace.
  - destruct (buf_set _ _ _); [|done]; cbn [mbind option_bind] in E.
    case_match; [|simplify_eq; by apply rx_replace].
    destruct (validate_frame_payload _) as [ret r'] eqn:Ev. apply payload_counters in Ev.
    2: { unfold rx_counters in *. each_counter.
      cbn; auto 10. }
    assert (fw_typed (s <| rx_ctx := r' |>)) as H1 by by apply rx_replace.
    assert (forall t, fw_typed t -> fw_typed (t <| rx_ctx ::= fun r => r <| state := RX_STATE_IDLE |> |>))
      as Hi by (intros t []; by constructor).
    simplify_eq. apply Hi. case_match; [by apply dispatch_frame_typed|done].
  - simplify_eq. by apply rx_replace.
  - simplify_eq. by apply rx_replace.
Qed.

Lemma build_response_frame_typed cmd p n s ret s' :
  build_response_frame cmd p n s = Some (ret, s') -> fw_typed s -> fw_typed s'.
Proof.
  intros []%build_response_frame_change H; [done| |by destruct H].
  open_typed H. typed.
Qed.

Lemma fw_step_typed s s' : fw_step s s' -> fw_typed s -> fw_typed s'.
Proof.
  intros [b s1 Hb E|s1 Hne E|s1 E|data len s1 Hd Hl E|rssi temp vbat cc nfc Hv Hn| |?] H.
  - unfold rx_isr_byte in E. case_match; [|simplify_eq; open_typed H; typed].
    destruct (buf_set _ _ _); [|done]. cbn in E. simplify_eq. by destruct H.
  - unfold process_round in E. destruct (ring_get _ _) as [[b r]|]; [|done]. cbn [mbind option_bind] in E.
    destruct (process_byte _ _) as [[n s2]|] eqn:Ep; [|done]. cbn in E. simplify_eq.
    apply process_byte_typed in Ep; [done|]. by destruct H.
  - unfold spi_protocol_send_telemetry in E.
    destruct (build_response_frame _ _ _ _) as [[ret s2]|] eqn:Eb; [|done]. cbn in E. simplify_eq.
    apply build_response_frame_typed in Eb; [|done]. open_typed Eb. typed.
  - unfold spi_protocol_send_iq_chunk in E. case_match; [by simplify_eq|]. cbv zeta in E.
    destruct (build_response_frame _ _ _ _) as [[ret s2]|] eqn:Eb; [|done]. cbn in E. simplify_eq.
    apply build_response_frame_typed in Eb; [|done]. open_typed Eb. typed.
  - open_typed H. typed.
  - open_typed H. typed.
  - open_typed H. typed.
Qed.

(** ** Properties *)

(** The types of the program's data are respected.  At every reachable
    state each statistics counter, frame counter and overrun counter is a
    uint32_t, the cached readings are within the int16_t and uint16_t they are
    declared with and the uptime within uint32_t, so that nothing the
    telemetry frame carries is cut off. *)
Theorem reachable_fields_typed (s : fw) (Hs : reachable s) :
  Forall is_u32 (rx_counters (rx_ctx s)) /\ Forall is_u32 (stat_counters (proto_stats s)) /\
  is_u32 (spi_rx_overrun s) /\ device_typed (device_state s).
Proof.
  enough (fw_typed s) as [] by done.
  revert Hs. unfold reachable. generalize fw_typed_init. generalize fw_init.
  intros s0 H0 Hr. induction Hr; [done|]. eauto using fw_step_typed.
Qed.

Lemma reachable_fields_typed_witness :
  let s := spi_protocol_update_telemetry 65000 64000 3700 1 5 fw_init in
  device_typed (device_state s) /\ last_rssi_dbm_x10 (device_state s) = -536.
Proof.
  intros s. assert (reachable s) as Hs.
  { eapply rtc_l; [|apply rtc_refl]. by constructor. }
  split; [apply (reachable_fields_typed s Hs)|reflexivity].
Defined.
