(* ===== verification/SpiRefine.v ===== *)
(** * Frame assembly refines a stream parser

    The six-state machine of spi_protocol_process, with its three buffers and
    indices, implements [deframe]: a parser whose only state is the list of
    bytes of the frame in progress, and which emits one event per finished
    frame.  The correspondence is [assembling]; two firmware states that differ
    only in the assembly buffers and the receive ring are [obs_eq]. *)

From S2P Require Import Prelude Crc Frame Ring Board SpiProtocol SpiInvariant SpiTx SpiReach.

#[local] Existing Instance mcu_frame_crc.
#[local] Opaque mcu_crc64 mcu_crc32 write_le64 write_le32 write_le16.

(** ** The specification *)

Inductive rx_event :=
| EvBadHeader
| EvBadLength
| EvBadPayload
| EvFrame (cmd : Z) (payload : list Z).

Definition header_ok (h : list Z) : bool :=
  (byte_at h 0 =? SPI_SYNC_BYTE) && (read_le32 (drop 4 h) =? 0) &&
  (read_le64 (drop 8 h) =? frame_crc64 (take 8 h)).

Definition header_len (h : list Z) : Z := read_le16 (drop 2 h).

(** the CRC-32 is not looked at when there is no payload *)
Definition payload_ok (p c : list Z) : bool :=
  match p with [] => true | _ => read_le32 c =? frame_crc32 p end.

(** [k] holds the bytes of the frame in progress, [b] included. *)
Definition deframe_step (k : list Z) : list rx_event * list Z :=
  let n := Z.to_nat (header_len k) in
  if (length k <? 16)%nat then ([], k)
  else if (length k =? 16)%nat then
    if negb (header_ok k) then ([EvBadHeader], [])
    else if SPI_MAX_PAYLOAD <? header_len k then ([EvBadLength], [])
    else ([], k)
  else if (length k <? 20 + n)%nat then ([], k)
  else if payload_ok (slice 16 n k) (drop (16 + n) k)
  then ([EvFrame (byte_at k 1) (slice 16 n k)], []) else ([EvBadPayload], []).

Definition deframe_byte (k : list Z) (b : Z) : list rx_event * list Z :=
  match k with
  | [] => if b =? SPI_SYNC_BYTE then ([], [b]) else ([], [])
  | _ => deframe_step (k ++ [b])
  end.

Fixpoint deframe (k l : list Z) : list rx_event * list Z :=
  match l with
  | [] => ([], k)
  | b :: l => let (e, k) := deframe_byte k b in
              let (es, k) := deframe k l in (e ++ es, k)
  end.

(** what an event does to the firmware *)
Definition count (f : rx_context -> rx_context) (s : fw) : fw := s <| rx_ctx ::= f |>.
Definition count_crc_error := count (fun r => r <| frames_crc_error ::= incr32 |>).
Definition count_received := count (fun r => r <| frames_received ::= incr32 |>).
Definition count_dispatched := count (fun r => r <| frames_dispatched ::= incr32 |>).

Definition apply_event (s : fw) (e : rx_event) : fw :=
  match e with
  | EvBadHeader | EvBadLength => count_crc_error s
  | EvBadPayload => count_crc_error (count_received s)
  | EvFrame cmd p =>
      dispatch_command cmd p (Z.of_nat (length p)) (count_dispatched (count_received s))
  end.

Definition is_frame (e : rx_event) : bool := match e with EvFrame _ _ => true | _ => false end.
Definition frames_in (es : list rx_event) : Z := Z.of_nat (length (filter is_frame es)).

(** ** Observational equality *)

Definition counters_only (r : rx_context) : rx_context :=
  Build_rx_context RX_STATE_IDLE [] [] [] 0 0 0 0 (frames_received r) (frames_crc_error r)
    (frames_sync_error r) (frames_dispatched r).
Definition observe (s : fw) : fw :=
  s <| rx_ctx ::= counters_only |> <| rx_ring := Build_ring [] 0 0 |>.

Definition obs_eq (s s' : fw) : Prop := observe s = observe s'.
Infix "≈" := obs_eq (at level 70).

#[export] Instance obs_eq_equiv : Equivalence obs_eq.
Proof. split; unfold obs_eq; [done|congruence|congruence]. Qed.

Lemma observe_dispatch cmd p n s :
  observe (dispatch_command cmd p n s) = dispatch_command cmd p n (observe s).
Proof.
  unfold dispatch_command. repeat case_match; try done;
    [unfold handle_cmd_sdr_tune|unfold handle_cmd_sdr_stream|unfold handle_cmd_ant_select
    |unfold handle_cmd_cc1101_cfg|unfold handle_cmd_nfc_transact]; cbv zeta.
  all: cbn [observe bump set_device update device_state].
  all: repeat (case_match; try reflexivity).
Qed.

#[export] Instance dispatch_command_proper cmd p n :
  Proper (obs_eq ==> obs_eq) (dispatch_command cmd p n).
Proof. intros s s' E. unfold obs_eq in *. by rewrite !observe_dispatch, E. Qed.

Lemma obs_eq_fields s s' : s ≈ s' ->
  frames_received (rx_ctx s) = frames_received (rx_ctx s') /\
  frames_crc_error (rx_ctx s) = frames_crc_error (rx_ctx s') /\
  frames_sync_error (rx_ctx s) = frames_sync_error (rx_ctx s') /\
  frames_dispatched (rx_ctx s) = frames_dispatched (rx_ctx s') /\
  proto_stats s = proto_stats s' /\ device_state s = device_state s' /\
  tx_ring s = tx_ring s' /\ spi_rx_overrun s = spi_rx_overrun s' /\ hw s = hw s'.
Proof. unfold obs_eq, observe, update. cbn. intros [=]. by split_and!. Qed.

Lemma obs_eq_intro s s' :
  frames_received (rx_ctx s) = frames_received (rx_ctx s') ->
  frames_crc_error (rx_ctx s) = frames_crc_error (rx_ctx s') ->
  frames_sync_error (rx_ctx s) = frames_sync_error (rx_ctx s') ->
  frames_dispatched (rx_ctx s) = frames_dispatched (rx_ctx s') ->
  proto_stats s = proto_stats s' -> device_state s = device_state s' ->
  tx_ring s = tx_ring s' -> spi_rx_overrun s = spi_rx_overrun s' -> hw s = hw s' ->
  s ≈ s'.
Proof. intros. unfold obs_eq, observe, counters_only, update. cbn. congruence. Qed.

#[export] Instance apply_event_proper : Proper (obs_eq ==> eq ==> obs_eq) apply_event.
Proof.
  intros s s' E e _ <-. apply obs_eq_fields in E as (? & ? & ? & ? & ? & ? & ? & ? & ?).
  destruct e; simpl; [..|apply dispatch_command_proper];
    apply obs_eq_intro; unfold count_crc_error, count_received, count_dispatched, count;
    upd; congruence.
Qed.

#[export] Instance apply_events_proper : Proper (obs_eq ==> eq ==> obs_eq) (foldl apply_event).
Proof.
  intros s s' E es _ <-. revert s s' E. induction es as [|e es IH]; intros s s' E; [done|].
  cbn [foldl]. apply IH. by rewrite E.
Qed.

(** ** A handler reads only the received payload *)

Lemma slice_take o m n l : (o + m <= n)%nat -> slice o m (take n l) = slice o m l.
Proof. intros. unfold slice. rewrite skipn_firstn_comm, take_take. f_equal. lia. Qed.

Lemma read_le16_take n l i : (i + 2 <= n)%nat ->
  read_le16 (drop i (take n l)) = read_le16 (drop i l).
Proof. intros. unfold read_le16. rewrite !byte_at_drop, !byte_at_take by lia. done. Qed.

Lemma dispatch_command_take cmd buf n s :
  bytes buf -> 0 <= n <= 4092 ->
  dispatch_command cmd (take (Z.to_nat n) buf) n s = dispatch_command cmd buf n s.
Proof.
  intros Hb Hn. unfold dispatch_command.
  repeat case_match; try done; cbv zeta.
  - unfold handle_cmd_sdr_tune. cbv zeta. by repeat case_match.
  - unfold handle_cmd_sdr_stream. cbv zeta. destruct (Z.ltb_spec n 1); [done|].
    by rewrite byte_at_take by lia.
  - unfold handle_cmd_ant_select. cbv zeta. destruct (Z.ltb_spec n 1); [done|].
    by rewrite byte_at_take by lia.
  - unfold handle_cmd_cc1101_cfg. cbv zeta. destruct (Z.ltb_spec n 2); [done|].
    rewrite !byte_at_take by lia. pose proof (byte_at_byte buf 1 Hb) as Hb1. unfold byte in Hb1.
    case_match; [done|]. destruct (Z.ltb_spec n (u16 (2 + byte_at buf 1))) as [|Hfit]; [done|].
    rewrite u16_small in Hfit by lia. by rewrite slice_take by lia.
  - unfold handle_cmd_nfc_transact. cbv zeta. destruct (Z.ltb_spec n 4); [done|].
    by rewrite read_le16_take by lia.
Qed.

(** ** The simulation *)

(** [buf] starts with [l] *)
Definition starts (buf l : list Z) : Prop := take (length l) buf = l.

Definition header_done (h : list Z) (r : rx_context) : Prop :=
  hdr_buf r = h /\ length h = 16%nat /\ header_ok h = true /\
  expected_payload_len r = header_len h.

(** [k] is the frame in progress of the state [r]. *)
Inductive assembling (r : rx_context) : list Z -> Prop :=
| asm_idle : state r = RX_STATE_IDLE -> assembling r []
| asm_header h :
    state r = RX_STATE_HEADER -> (0 < length h < 16)%nat ->
    hdr_idx r = Z.of_nat (length h) -> starts (hdr_buf r) h -> assembling r h
| asm_payload h p :
    state r = RX_STATE_PAYLOAD -> header_done h r ->
    payload_idx r = Z.of_nat (length p) -> payload_idx r < header_len h <= 4092 ->
    starts (payload_buf r) p -> assembling r (h ++ p)
| asm_crc h p c :
    state r = RX_STATE_CRC32 -> header_done h r ->
    Z.of_nat (length p) = header_len h -> header_len h <= 4092 ->
    starts (payload_buf r) p ->
    crc32_idx r = Z.of_nat (length c) -> (length c < 4)%nat ->
    starts (crc32_buf r) c -> assembling r (h ++ p ++ c).

Lemma assembling_eq r k k' : assembling r k -> k = k' -> assembling r k'.
Proof. by intros ? <-. Qed.

Lemma starts_nil buf : starts buf [].
Proof. done. Qed.

Lemma starts_snoc buf l b :
  starts buf l -> (length l < length buf)%nat ->
  starts (<[length l := b]> buf) (l ++ [b]).
Proof.
  unfold starts. intros Hs Hl. rewrite length_app. simpl.
  replace (length l + 1)%nat with (S (length l)) by lia.
  rewrite (take_S_r _ _ b) by (by apply list_lookup_insert_eq).
  rewrite take_insert_ge by lia. by rewrite Hs.
Qed.

(** One byte: the state machine makes the parser's step. *)
Definition simulates (k : list Z) (b : Z) (s : fw) : Prop :=
  forall n s', process_byte b s = Some (n, s') ->
  s' ≈ foldl apply_event s (fst (deframe_byte k b)) /\
  assembling (rx_ctx s') (snd (deframe_byte k b)) /\
  n = frames_in (fst (deframe_byte k b)).

Lemma simulates_idle b s :
  fw_wf s -> state (rx_ctx s) = RX_STATE_IDLE -> simulates [] b s.
Proof.
  intros [[]] Es n s' E. unfold process_byte in E. cbv zeta in E. rewrite Es in E.
  cbn [deframe_byte]. destruct (b =? SPI_SYNC_BYTE).
  - rewrite buf_set_ok in E by lia. simpl in E. simplify_eq. split_and!; [done| |done].
    apply asm_header; simpl; try done || lia. by destruct (hdr_buf (rx_ctx s)).
  - simplify_eq. split_and!; [done|by apply asm_idle|done].
Qed.

Lemma deframe_byte_step k b : k <> [] -> deframe_byte k b = deframe_step (k ++ [b]).
Proof. by destruct k. Qed.

Lemma validate_frame_header_ok r :
  byte_at (hdr_buf r) 0 = SPI_SYNC_BYTE ->
  if header_ok (hdr_buf r) then validate_frame_header r = (0, r)
  else exists ret, ret <> 0 /\
    validate_frame_header r = (ret, r <| frames_crc_error ::= incr32 |>).
Proof.
  intros H0. unfold header_ok, validate_frame_header. rewrite H0, Z.eqb_refl.
  cbn [negb andb frame_crc64 mcu_frame_crc].
  destruct (read_le32 _ =? 0); cbn [negb andb]; [|by exists (-3)].
  destruct (read_le64 _ =? _); cbn [negb]; [done|by exists (-1)].
Qed.

Lemma starts_full buf l : starts buf l -> length buf = length l -> buf = l.
Proof. unfold starts. intros H E. by rewrite take_ge in H by lia. Qed.

Lemma starts_head buf l : starts buf l -> l <> [] -> byte_at l 0 = byte_at buf 0.
Proof. unfold starts. intros <- Hl. apply byte_at_take. by destruct l; simpl; [|lia]. Qed.

Lemma frames_in_nil : frames_in [] = 0.
Proof. done. Qed.

Ltac obs_reflexivity := apply obs_eq_intro; reflexivity.

Lemma simulates_header h b s :
  fw_wf s -> byte b -> state (rx_ctx s) = RX_STATE_HEADER -> (0 < length h < 16)%nat ->
  hdr_idx (rx_ctx s) = Z.of_nat (length h) -> starts (hdr_buf (rx_ctx s)) h ->
  simulates h b s.
Proof.
  intros [[Lh _ _ Bh _ _ Hst _] _ _ _] Hb Es Hlen Hi Hs n s' E.
  unfold rx_state_wf in Hst. rewrite Es in Hst. destruct Hst as [_ H0].
  unfold process_byte in E. cbv zeta in E. rewrite Es in E.
  rewrite buf_set_ok in E by lia. cbn [mbind option_bind] in E.
  rewrite Hi, Nat2Z.id in E.
  pose proof (starts_snoc (hdr_buf (rx_ctx s)) h b Hs ltac:(lia)) as Hs'.
  rewrite deframe_byte_step by (by destruct h; simpl in *; [lia|]).
  unfold deframe_step. rewrite length_app. cbn [length].
  set (buf := <[length h := b]> (hdr_buf (rx_ctx s))) in *.
  assert (length buf = 16%nat) as Lb by (subst buf; by rewrite length_insert).
  assert (bytes buf) as Bb by (subst buf; by apply bytes_insert).
  set (r1 := (rx_ctx s) <| hdr_buf := buf |> <| hdr_idx ::= incr32 |>) in E.
  assert (hdr_idx r1 = Z.of_nat (length h) + 1) as Hi1
    by (subst r1; simpl; rewrite Hi; unfold incr32; by rewrite u32_small by lia).
  rewrite Hi1 in E. unfold SPI_HDR_SIZE in E.
  destruct (Z.leb_spec 16 (Z.of_nat (length h) + 1)) as [Hd|Hd].
  - replace (length h + 1 <? 16)%nat with false by (symmetry; apply Nat.ltb_ge; lia).
    replace (length h + 1 =? 16)%nat with true by (symmetry; apply Nat.eqb_eq; lia).
    assert (buf = h ++ [b]) as Eb by (apply starts_full; [done|rewrite length_app; simpl; lia]).
    rewrite <- Eb. clear Eb. pose proof (validate_frame_header_ok r1) as Hv.
    change (hdr_buf r1) with buf in *.
    assert (byte_at buf 0 = SPI_SYNC_BYTE) as Hb0.
    { rewrite <- H0. subst buf. unfold byte_at.
      rewrite !nth_lookup, list_lookup_insert_ne by lia. done. }
    specialize (Hv Hb0). fold (header_len buf) in E.
    pose proof (read_le16_range (drop 2 buf) (bytes_drop _ _ Bb)) as Hr.
    fold (header_len buf) in Hr.
    destruct (header_ok buf) eqn:Hok; [|destruct Hv as (ret & Hne & Hv)]; rewrite Hv in E.
    + cbv beta iota zeta in E. rewrite Z.eqb_refl in E.
      change (read_le16 (drop 2 (hdr_buf r1))) with (header_len buf) in E.
      change (expected_payload_len (r1 <| expected_payload_len := header_len buf |>))
        with (header_len buf) in E. cbn [negb].
      destruct (Z.ltb_spec SPI_MAX_PAYLOAD (header_len buf)); unfold SPI_MAX_PAYLOAD in *.
      { simplify_eq. split_and!; [obs_reflexivity|by apply asm_idle|done]. }
      assert (header_done buf (r1 <| expected_payload_len := header_len buf |>)) by done.
      destruct (Z.ltb_spec 0 (header_len buf)); simplify_eq;
        (split_and!; [obs_reflexivity| |done]); cbn [snd].
      * eapply assembling_eq; [apply (asm_payload _ buf []); try done; simpl; lia|apply app_nil_r].
      * eapply assembling_eq; [apply (asm_crc _ buf [] []); try done; simpl; lia|apply app_nil_r].
    + cbv beta iota zeta in E. rewrite (proj2 (Z.eqb_neq ret 0) Hne) in E. simplify_eq.
      split_and!; [obs_reflexivity|by apply asm_idle|done].
  - replace (length h + 1 <? 16)%nat with true by (symmetry; apply Nat.ltb_lt; lia).
    simplify_eq. split_and!; [obs_reflexivity| |done]. cbn [snd].
    apply asm_header; [done| |rewrite length_app; simpl length..|done].
    + rewrite length_app. simpl. lia.
    + change (hdr_idx r1 = Z.of_nat (length h + 1)). lia.
Qed.

Lemma header_len_app h l : length h = 16%nat -> header_len (h ++ l) = header_len h.
Proof.
  intros. unfold header_len, read_le16. rewrite !byte_at_drop, !byte_at_app by lia. done.
Qed.

Lemma header_len_nonneg h : bytes h -> 0 <= header_len h < 65536.
Proof. intros. by apply read_le16_range, bytes_drop. Qed.

(** past the header the parser only waits for the announced length *)
Lemma deframe_step_wait h l :
  length h = 16%nat -> (0 < length l)%nat -> (length l < 4 + Z.to_nat (header_len h))%nat ->
  deframe_step (h ++ l) = ([], h ++ l).
Proof.
  intros Hh Hl Hn. unfold deframe_step. rewrite header_len_app, length_app, Hh by done.
  replace (16 + length l <? 16)%nat with false by (symmetry; apply Nat.ltb_ge; lia).
  replace (16 + length l =? 16)%nat with false by (symmetry; apply Nat.eqb_neq; lia).
  by replace (_ <? _)%nat with true by (symmetry; apply Nat.ltb_lt; lia).
Qed.

Lemma deframe_step_end h p c :
  length h = 16%nat -> Z.of_nat (length p) = header_len h -> length c = 4%nat ->
  deframe_step (h ++ p ++ c) =
    if payload_ok p c then ([EvFrame (byte_at h 1) p], []) else ([EvBadPayload], []).
Proof.
  intros Hh Hp Hc. unfold deframe_step. rewrite header_len_app, <- Hp, Nat2Z.id by done.
  rewrite !length_app, Hh, Hc.
  replace (16 + (length p + 4) <? 16)%nat with false by (symmetry; apply Nat.ltb_ge; lia).
  replace (16 + (length p + 4) =? 16)%nat with false by (symmetry; apply Nat.eqb_neq; lia).
  replace (16 + (length p + 4) <? _)%nat with false by (symmetry; apply Nat.ltb_ge; lia).
  rewrite byte_at_app by lia. unfold slice.
  rewrite <- drop_drop, (drop_app_length' h) by done.
  by rewrite take_app_length, drop_app_length.
Qed.

Lemma simulates_payload h p b s :
  fw_wf s -> byte b -> state (rx_ctx s) = RX_STATE_PAYLOAD -> header_done h (rx_ctx s) ->
  payload_idx (rx_ctx s) = Z.of_nat (length p) ->
  payload_idx (rx_ctx s) < header_len h <= 4092 -> starts (payload_buf (rx_ctx s)) p ->
  simulates (h ++ p) b s.
Proof.
  intros [[_ Lp _ _ Bp _ _ _] _ _ _] Hb Es (Eh & Hh & Hok & Hel) Hi Hle Hs n s' E.
  unfold process_byte in E. cbv zeta in E. rewrite Es in E.
  rewrite buf_set_ok in E by lia. cbn [mbind option_bind] in E.
  rewrite Hi, Nat2Z.id in E.
  pose proof (starts_snoc _ p b Hs ltac:(lia)) as Hs'.
  rewrite deframe_byte_step by (by destruct h; simpl in *; [lia|]).
  rewrite <- app_assoc, deframe_step_wait by (rewrite ?length_app; simpl; lia).
  set (buf := <[length p := b]> (payload_buf (rx_ctx s))) in *.
  set (r1 := (rx_ctx s) <| payload_buf := buf |> <| payload_idx ::= incr32 |>) in E.
  assert (payload_idx r1 = Z.of_nat (length p) + 1) as Hi1
    by (subst r1; simpl; rewrite Hi; unfold incr32; by rewrite u32_small by lia).
  assert (header_done h r1) as Hd by done.
  change (expected_payload_len r1) with (expected_payload_len (rx_ctx s)) in E.
  rewrite Hi1, Hel in E. cbn [fst snd].
  destruct (Z.leb_spec (header_len h) (Z.of_nat (length p) + 1)) as [Hlast|Hmore]; injection E as <- <-;
    (split_and!; [obs_reflexivity| |done]).
  - eapply assembling_eq; [apply (asm_crc _ h (p ++ [b]) []); try done|by rewrite app_nil_r].
    + rewrite length_app. simpl. lia.
    + lia.
    + simpl. lia.
  - apply asm_payload; [done|done| | |done].
    + change (payload_idx r1 = Z.of_nat (length (p ++ [b]))). rewrite length_app. simpl length. lia.
    + change (payload_idx r1 < header_len h <= 4092). lia.
Qed.

Lemma validate_frame_payload_ok r p :
  Z.of_nat (length p) = expected_payload_len r -> starts (payload_buf r) p ->
  if payload_ok p (crc32_buf r) then validate_frame_payload r = (0, r)
  else exists ret, ret <> 0 /\
    validate_frame_payload r = (ret, r <| frames_crc_error ::= incr32 |>).
Proof.
  intros Hl Hs. unfold validate_frame_payload. rewrite <- Hl, Nat2Z.id, Hs.
  cbn [frame_crc32 mcu_frame_crc]. destruct p as [|x p]; [done|].
  cbn [payload_ok frame_crc32 mcu_frame_crc].
  replace (Z.of_nat (length (x :: p)) =? 0) with false by (symmetry; apply Z.eqb_neq; simpl; lia).
  cbv zeta. destruct (_ =? _); cbn [negb]; [done|by exists (-1)].
Qed.

Lemma dispatch_frame_obs s p :
  bytes (payload_buf (rx_ctx s)) -> Z.of_nat (length p) = expected_payload_len (rx_ctx s) ->
  (length p <= 4092)%nat -> starts (payload_buf (rx_ctx s)) p ->
  dispatch_frame s ≈ dispatch_command (byte_at (hdr_buf (rx_ctx s)) 1) p
                       (Z.of_nat (length p)) (count_dispatched s).
Proof.
  intros Hb Hl Hle Hs. unfold dispatch_frame. cbv zeta.
  change (payload_buf (rx_ctx (s <| rx_ctx ::= fun r => r <| frames_dispatched ::= incr32 |> |>)))
    with (payload_buf (rx_ctx s)).
  change (s <| rx_ctx ::= fun r => r <| frames_dispatched ::= incr32 |> |>)
    with (count_dispatched s).
  rewrite <- Hl. rewrite <- (dispatch_command_take _ (payload_buf (rx_ctx s))) by (done || lia).
  rewrite Nat2Z.id, Hs. case_match; [obs_reflexivity|done].
Qed.

Lemma set_state_obs s q : (s <| rx_ctx ::= fun r => r <| state := q |> |>) ≈ s.
Proof. obs_reflexivity. Qed.

Lemma simulates_crc h p c b s :
  fw_wf s -> byte b -> state (rx_ctx s) = RX_STATE_CRC32 -> header_done h (rx_ctx s) ->
  Z.of_nat (length p) = header_len h -> header_len h <= 4092 ->
  starts (payload_buf (rx_ctx s)) p -> crc32_idx (rx_ctx s) = Z.of_nat (length c) ->
  (length c < 4)%nat -> starts (crc32_buf (rx_ctx s)) c ->
  simulates (h ++ p ++ c) b s.
Proof.
  intros [[_ Lp Lc _ Bp _ _ _] _ _ _] Hb Es (Eh & Hh & Hok & Hel) Hp Hle Hs Hi Hc Hcs n s' E.
  unfold process_byte in E. cbv zeta in E. rewrite Es in E.
  rewrite buf_set_ok in E by lia. cbn [mbind option_bind] in E.
  rewrite Hi, Nat2Z.id in E.
  pose proof (starts_snoc _ c b Hcs ltac:(lia)) as Hs'.
  rewrite deframe_byte_step by (by destruct h; simpl in *; [lia|]).
  replace ((h ++ p ++ c) ++ [b]) with (h ++ p ++ (c ++ [b])) by by rewrite <- !app_assoc.
  set (buf := <[length c := b]> (crc32_buf (rx_ctx s))) in *.
  set (r1 := (rx_ctx s) <| crc32_buf := buf |> <| crc32_idx ::= incr32 |>) in E.
  assert (crc32_idx r1 = Z.of_nat (length c) + 1) as Hi1
    by (subst r1; simpl; rewrite Hi; unfold incr32; by rewrite u32_small by lia).
  rewrite Hi1 in E. unfold SPI_CRC32_SIZE in E.
  destruct (Z.leb_spec 4 (Z.of_nat (length c) + 1)) as [Hlast|Hmore].
  - assert (length (c ++ [b]) = 4%nat) as Hc4 by (rewrite length_app; simpl; lia).
    assert (buf = c ++ [b]) as Ebuf.
    { apply starts_full; [done|]. subst buf. rewrite length_insert. lia. }
    rewrite deframe_step_end by done. rewrite <- Ebuf in *. clear Ebuf Hs'.
    set (r2 := r1 <| frames_received ::= incr32 |>) in E.
    pose proof (validate_frame_payload_ok r2 p ltac:(by rewrite Hp) Hs) as Hv.
    change (crc32_buf r2) with buf in Hv.
    destruct (payload_ok p buf); [|destruct Hv as (ret & Hne & Hv)];
      rewrite Hv in E; cbv beta iota zeta in E; injection E as <- <-; cbn [fst snd foldl].
    + change (0 =? 0) with true. cbv iota.
      split; [|split; [by apply asm_idle|done]].
      rewrite set_state_obs, (dispatch_frame_obs (s <| rx_ctx := r2 |>) p); try done || lia.
      * subst r2 r1. cbn [apply_event]. rewrite <- Eh. apply dispatch_command_proper.
        obs_reflexivity.
      * change (Z.of_nat (length p) = expected_payload_len (rx_ctx s)). lia.
    + rewrite (proj2 (Z.eqb_neq ret 0) Hne).
      split; [obs_reflexivity|split; [by apply asm_idle|done]].
  - rewrite deframe_step_wait by (rewrite ?length_app; simpl; lia).
    injection E as <- <-. split_and!; [obs_reflexivity| |done]. cbn [snd].
    apply asm_crc; try done.
    + change (crc32_idx r1 = Z.of_nat (length (c ++ [b]))). rewrite length_app. simpl length. lia.
    + rewrite length_app. simpl. lia.
Qed.

Lemma simulates_any k b s :
  fw_wf s -> byte b -> assembling (rx_ctx s) k -> simulates k b s.
Proof.
  intros W Hb []; [by apply simulates_idle|by apply simulates_header
    |by apply simulates_payload|by apply simulates_crc].
Qed.

(** ** The whole drain *)

Lemma deframe_app k l1 l2 :
  deframe k (l1 ++ l2) =
    let (e1, k1) := deframe k l1 in let (e2, k2) := deframe k1 l2 in (e1 ++ e2, k2).
Proof.
  revert k. induction l1 as [|b l1 IH]; intros k; simpl; [by destruct (deframe k l2)|].
  destruct (deframe_byte k b) as [e k1]. rewrite IH.
  destruct (deframe k1 l1) as [e1 k2]. destruct (deframe k2 l2) as [e2 k3].
  by rewrite app_assoc.
Qed.

Lemma frames_in_app e1 e2 : frames_in (e1 ++ e2) = frames_in e1 + frames_in e2.
Proof. unfold frames_in. rewrite filter_app, length_app. lia. Qed.

Lemma process_loop_refines fuel frames s k :
  fw_wf s -> (length (ring_contents RX_RING_BITS (rx_ring s)) <= fuel)%nat ->
  assembling (rx_ctx s) k ->
  exists s', let (es, k') := deframe k (ring_contents RX_RING_BITS (rx_ring s)) in
    process_loop fuel frames s = Some (frames + frames_in es, s') /\
    s' ≈ foldl apply_event s es /\ assembling (rx_ctx s') k'.
Proof.
  assert (0 < RX_RING_BITS) as Hk by done.
  revert frames s k. induction fuel as [|fuel IH]; intros frames s k W Hf Ha;
    cbn [process_loop]; pose proof (wf_rx_ring s W) as Wr;
    destruct (Z.eqb_spec (ring_head (rx_ring s)) (ring_tail (rx_ring s))) as [E|E];
    try (apply (ring_empty _ Hk _ Wr) in E; exists s; rewrite E; cbn [deframe];
         rewrite frames_in_nil, Z.add_0_r; split_and!; done);
    destruct (ring_get_spec _ Hk _ Wr E) as (b & r & Eg & Wr' & Hb & Ec & _);
    rewrite Ec in *; [simpl in Hf; lia|].
  rewrite Eg. cbn [mbind option_bind].
  assert (fw_wf (s <| rx_ring := r |>)) as W1 by by destruct W.
  destruct (process_byte_wf b _ Hb W1) as (n & s1 & Ep & W' & _).
  rewrite Ep. cbn [mbind option_bind deframe].
  destruct (process_byte_rings _ _ _ _ Ep) as [Er _].
  destruct (simulates_any k b (s <| rx_ring := r |>) W1 Hb Ha n s1 Ep) as (Eo & Ha1 & ->).
  destruct (deframe_byte k b) as [e k1]. cbn [fst snd] in *.
  destruct (IH (frames + frames_in e) s1 k1 W') as (s' & Hs'); [rewrite Er|done|].
  { simpl in Hf. simpl. lia. }
  rewrite Er in Hs'. change (rx_ring (s <| rx_ring := r |>)) with r in Hs'.
  exists s'. destruct (deframe k1 _) as [es k']. destruct Hs' as (El & Eo' & Ha').
  rewrite frames_in_app, Z.add_assoc. split_and!; [done| |done].
  rewrite foldl_app, Eo', Eo. apply apply_events_proper; [|done].
  apply apply_events_proper; [obs_reflexivity|done].
Qed.

(** every reachable state is assembling something *)
Lemma steps_assembling s s' k :
  fw_wf s -> assembling (rx_ctx s) k -> rtc fw_step s s' ->
  exists k', assembling (rx_ctx s') k'.
Proof.
  intros W Ha Hr. revert k W Ha.
  induction Hr as [s|s s1 s2 Hstep Hr IH]; intros k W Ha; [by exists k|].
  destruct (fw_step_inv _ _ W Hstep) as [W1 _].
  enough (exists k1, assembling (rx_ctx s1) k1) as [k1 Ha1] by by eapply IH.
  destruct Hstep as [b s1 Hb E|s1 Hne E|s1 E|data len s1 Hd Hl E|? ? ? ? ?| |?];
    [| | | |exists k; done..].
  - exists k. by replace (rx_ctx s1) with (rx_ctx s)
      by (unfold rx_isr_byte in E; repeat case_match; simplify_option_eq; done).
  - unfold process_round in E.
    destruct (ring_get_spec RX_RING_BITS eq_refl _ (wf_rx_ring s W) Hne)
      as (b & r & Eg & Wr & Hb & _). rewrite Eg in E. cbn [mbind option_bind] in E.
    destruct (process_byte b (s <| rx_ring := r |>)) as [[n s3]|] eqn:Ep; [|done].
    cbn in E. simplify_eq.
    destruct (simulates_any k b (s <| rx_ring := r |>)) with n s1 as (_ & Ha1 & _); eauto.
    by destruct W.
  - exists k. by rewrite (send_telemetry_rx _ _ E).
  - exists k. by rewrite (send_iq_chunk_rx _ _ _ _ E).
Qed.

(** ** Encoded frames through the parser *)

Lemma deframe_pending k l :
  k <> [] -> (length k + length l < 16)%nat -> deframe k l = ([], k ++ l).
Proof.
  revert k. induction l as [|b l IH]; intros k Hk Hl; [by rewrite app_nil_r|].
  simpl in Hl. cbn [deframe]. rewrite deframe_byte_step by done. unfold deframe_step.
  rewrite length_app. simpl length.
  replace (length k + 1 <? 16)%nat with true by (symmetry; apply Nat.ltb_lt; lia).
  rewrite IH by (rewrite ?length_app; simpl; (by destruct k) || lia).
  by rewrite <- app_assoc.
Qed.

(** a run of 16 bytes that begins with the sync byte is judged as a header *)
Lemma deframe_header h :
  length h = 16%nat -> byte_at h 0 = SPI_SYNC_BYTE ->
  deframe [] h =
    if negb (header_ok h) then ([EvBadHeader], [])
    else if SPI_MAX_PAYLOAD <? header_len h then ([EvBadLength], []) else ([], h).
Proof.
  intros Hh H0. destruct h as [|b0 h]; [done|]. unfold byte_at in H0. simpl in H0. subst b0.
  destruct (exists_last (l:=h)) as (l & b & ->); [by intros ->|].
  cbn [deframe deframe_byte]. rewrite Z.eqb_refl. cbn [app] in *.
  simpl in Hh. rewrite length_app in Hh. simpl in Hh.
  rewrite deframe_app, deframe_pending by (simpl; done || lia). cbn [deframe].
  rewrite deframe_byte_step by done. cbn [app].
  change (SPI_SYNC_BYTE :: l ++ [b]) with ((SPI_SYNC_BYTE :: l) ++ [b]).
  unfold deframe_step. rewrite length_app. simpl length.
  replace (S (length l) + 1 <? 16)%nat with false by (symmetry; apply Nat.ltb_ge; lia).
  replace (S (length l) + 1 =? 16)%nat with true by (symmetry; apply Nat.eqb_eq; lia).
  by repeat case_match; simplify_eq.
Qed.

Lemma deframe_wait h k l :
  length h = 16%nat -> (length k + length l < 4 + Z.to_nat (header_len h))%nat ->
  deframe (h ++ k) l = ([], h ++ k ++ l).
Proof.
  intros Hh. revert k. induction l as [|b l IH]; intros k Hl; [by rewrite app_nil_r|].
  simpl in Hl. cbn [deframe]. rewrite deframe_byte_step by (destruct h; done).
  rewrite <- app_assoc, deframe_step_wait by (rewrite ?length_app; simpl; lia).
  rewrite IH by (rewrite length_app; simpl; lia). by rewrite <- !app_assoc.
Qed.

Lemma deframe_body h p c :
  length h = 16%nat -> Z.of_nat (length p) = header_len h -> length c = 4%nat ->
  deframe h (p ++ c) =
    if payload_ok p c then ([EvFrame (byte_at h 1) p], []) else ([EvBadPayload], []).
Proof.
  intros Hh Hp Hc. destruct (exists_last (l:=c)) as (c' & b & ->); [by intros ->|].
  rewrite length_app in Hc. simpl in Hc.
  rewrite app_assoc, deframe_app. rewrite <- (app_nil_r h) at 1.
  rewrite deframe_wait by (rewrite ?length_app; simpl; lia). cbn [deframe app].
  rewrite deframe_byte_step by (destruct h; done).
  replace ((h ++ p ++ c') ++ [b]) with (h ++ p ++ (c' ++ [b])) by by rewrite <- !app_assoc.
  rewrite deframe_step_end by (rewrite ?length_app; simpl; lia).
  by destruct (payload_ok p (c' ++ [b])).
Qed.

Lemma header_ok_encode cmd len : byte cmd -> header_ok (encode_header cmd len) = true.
Proof.
  intros Hc. unfold header_ok. rewrite encode_header_crc by done.
  rewrite !andb_true_iff. split_and!; [done| |apply Z.eqb_refl].
  apply Z.eqb_eq. unfold encode_header, header_head.
  change (drop 4 _) with (write_le32 0 ++ write_le64 (frame_crc64 (header_head cmd len))).
  by apply read_write_le32.
Qed.

Lemma header_len_encode cmd len : 0 <= len < 65536 -> header_len (encode_header cmd len) = len.
Proof.
  intros Hl. unfold header_len, encode_header, header_head.
  change (drop 2 _) with (write_le16 len ++ write_le32 0 ++ write_le64 (frame_crc64 (header_head cmd len))).
  by apply read_write_le16.
Qed.

Lemma payload_ok_encode p : bytes p -> payload_ok p (write_le32 (frame_crc32 p)) = true.
Proof.
  intros Hp. destruct p as [|b p]; [done|]. apply Z.eqb_eq.
  rewrite <- (app_nil_r (write_le32 _)). by apply read_write_le32, frame_crc32_range.
Qed.

Lemma deframe_encode cmd p :
  byte cmd -> bytes p -> (length p <= 4092)%nat ->
  deframe [] (encode_frame cmd p) = ([EvFrame cmd p], []).
Proof.
  intros Hc Hp Hl. unfold encode_frame.
  rewrite deframe_app, deframe_header by done.
  rewrite header_ok_encode, header_len_encode by (done || lia). cbn [negb].
  replace (SPI_MAX_PAYLOAD <? _) with false by (unfold SPI_MAX_PAYLOAD; symmetry; lia).
  rewrite deframe_body; [|done|by rewrite header_len_encode by lia|done].
  by rewrite payload_ok_encode.
Qed.

Lemma deframe_garbage g :
  Forall (fun b => b <> SPI_SYNC_BYTE) g -> deframe [] g = ([], []).
Proof.
  induction 1 as [|b g Hb Hg IH]; [done|]. cbn [deframe deframe_byte].
  rewrite (proj2 (Z.eqb_neq b SPI_SYNC_BYTE) Hb). by rewrite IH.
Qed.

(** ** Properties *)

(** C1: draining the receive ring refines the stream parser: started in any state
    that is assembling the bytes [k], spi_protocol_process turns the contents
    of the ring into the parser's events, applies them in order to the
    statistics, the device state and the hardware, returns the number of
    valid frames, and is left assembling what the parser still holds. *)
Theorem process_refines_deframe (s : fw) (k : list Z)
    (W : fw_wf s) (Ha : assembling (rx_ctx s) k) :
  let (es, k') := deframe k (ring_contents RX_RING_BITS (rx_ring s)) in
  exists s', spi_protocol_process s = Some (frames_in es, s') /\
    s' ≈ foldl apply_event s es /\ assembling (rx_ctx s') k'.
Proof.
  destruct (process_loop_refines (Z.to_nat SPI_RX_BUF_SIZE) 0 s k W (rx_fuel _) Ha) as [s' H].
  destruct (deframe k _) as [es k']. exists s'. exact H.
Qed.

Definition fw_ring_of (l : list Z) : fw := default fw_init (rx_isr l fw_init).

Lemma fw_ring_of_wf l : bytesb l = true -> fw_wf (fw_ring_of l).
Proof.
  intros Hl. destruct (rx_isr_wf l fw_init) as (s & E & W);
    [by apply bytesb_bytes|apply fw_init_wf|]. unfold fw_ring_of. by rewrite E.
Qed.

Lemma process_refines_deframe_witness :
  ring_contents RX_RING_BITS (rx_ring (fw_ring_of [0x55; 0xAA; 0x01])) = [0x55; 0xAA; 0x01] /\
  exists s', spi_protocol_process (fw_ring_of [0x55; 0xAA; 0x01]) = Some (0, s') /\
    assembling (rx_ctx s') [0xAA; 0x01].
Proof.
  split; [vm_compute; reflexivity|].
  pose proof (process_refines_deframe (fw_ring_of [0x55; 0xAA; 0x01]) []
    (fw_ring_of_wf [0x55; 0xAA; 0x01] eq_refl)) as H.
  assert (ring_contents RX_RING_BITS (rx_ring (fw_ring_of [0x55; 0xAA; 0x01])) = [0x55; 0xAA; 0x01])
    as E by (vm_compute; reflexivity).
  rewrite E in H. destruct H as (s' & E1 & _ & Ha); [apply asm_idle; vm_compute; reflexivity|].
  exists s'. split; [exact E1|exact Ha].
Defined.

(** the host's frames, with idle bytes between them *)
Definition host_stream (fs : list (list Z * (Z * list Z))) : list Z :=
  concat ((fun f => fst f ++ encode_frame (crc:=apex_frame_crc) (fst (snd f)) (snd (snd f))) <$> fs).

Definition sendable (f : list Z * (Z * list Z)) : Prop :=
  Forall (fun b => b <> SPI_SYNC_BYTE) (fst f) /\ byte (fst (snd f)) /\
  bytes (snd (snd f)) /\ (length (snd (snd f)) <= 4092)%nat.

Definition sendableb (f : list Z * (Z * list Z)) : bool :=
  forallb (fun b => negb (b =? SPI_SYNC_BYTE)) (fst f) && bytesb [fst (snd f)] &&
  bytesb (snd (snd f)) && (length (snd (snd f)) <=? 4092)%nat.

Lemma sendableb_ok fs : forallb sendableb fs = true -> Forall sendable fs.
Proof.
  induction fs as [|[g [c p]] fs IH]; cbn [forallb]; intros H; [constructor|].
  apply andb_true_iff in H as [H Hfs]. constructor; [|by apply IH].
  unfold sendableb in H. cbn [fst snd] in H. rewrite !andb_true_iff in H.
  destruct H as [[[Hg Hc] Hp] Hl]. unfold sendable. cbn [fst snd].
  split_and!; [|by apply bytesb_bytes in Hc; inversion Hc|by apply bytesb_bytes|by apply Nat.leb_le].
  induction g as [|b g IHg]; [constructor|]. cbn [forallb] in Hg.
  apply andb_true_iff in Hg as [Hb Hg]. constructor; [|by apply IHg].
  by apply Z.eqb_neq, negb_true_iff.
Qed.

Lemma deframe_host_stream fs :
  Forall sendable fs ->
  deframe [] (host_stream fs) = ((fun f => EvFrame (fst (snd f)) (snd (snd f))) <$> fs, []).
Proof.
  unfold host_stream. induction 1 as [|[g [cmd p]] fs (Hg & Hc & Hp & Hl) _ IH]; [done|].
  cbn [fst snd] in *. cbn [fmap list_fmap concat fst snd].
  rewrite <- app_assoc, deframe_app, deframe_garbage by done.
  rewrite <- encode_frame_agree, deframe_app, deframe_encode by done.
  cbn [fmap list_fmap] in IH. by rewrite IH.
Qed.

Lemma frames_in_all (fs : list (list Z * (Z * list Z))) :
  frames_in ((fun f => EvFrame (fst (snd f)) (snd (snd f))) <$> fs) = Z.of_nat (length fs).
Proof.
  unfold frames_in. induction fs as [|f fs IH]; [done|].
  cbn [fmap list_fmap]. rewrite filter_cons_True by done. simpl length in *. lia.
Qed.

(** the handlers run for the commands of [fs], in order *)
Definition handle_frames (fs : list (list Z * (Z * list Z))) (s : fw) : fw :=
  foldl (fun s f => dispatch_command (fst (snd f)) (snd (snd f))
                      (Z.of_nat (length (snd (snd f))))
                      (count_dispatched (count_received s))) s fs.

Lemma assembling_nil r : assembling r [] -> state r = RX_STATE_IDLE.
Proof.
  assert (forall k, assembling r k -> k = [] -> state r = RX_STATE_IDLE) as H; [|by intros; eapply H].
  intros k [?|h ? Hh|h p ? (_ & Hh & _)|h p c ? (_ & Hh & _)] Ek; [done|subst h; simpl in Hh; lia|..];
    by destruct h.
Qed.

(** C5: every frame the driver encodes is delivered exactly once and unchanged.
    If the ring holds frames encoded with the driver's checksums, with any
    non-sync bytes between them, and no frame is in progress, the firmware
    handles exactly those commands with exactly those payloads, in order,
    returns their number, and is idle again. *)
Theorem host_frames_delivered (s : fw) (fs : list (list Z * (Z * list Z)))
    (W : fw_wf s) (Hidle : state (rx_ctx s) = RX_STATE_IDLE) (Hfs : Forall sendable fs)
    (Hring : ring_contents RX_RING_BITS (rx_ring s) = host_stream fs) :
  exists s', spi_protocol_process s = Some (Z.of_nat (length fs), s') /\
    s' ≈ foldl (fun s f => dispatch_command (fst (snd f)) (snd (snd f))
                             (Z.of_nat (length (snd (snd f))))
                             (count_dispatched (count_received s))) s fs /\
    assembling (rx_ctx s') [].
Proof.
  destruct (process_loop_refines (Z.to_nat SPI_RX_BUF_SIZE) 0 s [] W (rx_fuel _)) as [s' H];
    [by apply asm_idle|].
  rewrite Hring, deframe_host_stream, frames_in_all, foldl_fmap in H by done.
  exists s'. exact H.
Qed.

Definition demo_stream : list (list Z * (Z * list Z)) :=
  [([0; 1], (CMD_ANT_SELECT, [2])); ([], (CMD_NOP, []))].

Lemma host_frames_delivered_witness :
  exists s', spi_protocol_process (fw_ring_of (host_stream demo_stream)) = Some (2, s') /\
    hw s' = [HwIntReqDeassert; HwAntennaSelect 2].
Proof.
  destruct (host_frames_delivered (fw_ring_of (host_stream demo_stream)) demo_stream)
    as (s' & E & Eo & _).
  - apply fw_ring_of_wf. vm_compute. reflexivity.
  - vm_compute. reflexivity.
  - apply sendableb_ok. vm_compute. reflexivity.
  - vm_compute. reflexivity.
  - exists s'. split; [exact E|]. apply obs_eq_fields in Eo as (_ & _ & _ & _ & _ & _ & _ & _ & ->).
    vm_compute. reflexivity.
Defined.

(** after the events [es] of a bad frame the next frames are delivered *)
Lemma process_bad_then_stream s bad es fs :
  fw_wf s -> state (rx_ctx s) = RX_STATE_IDLE -> Forall sendable fs ->
  ring_contents RX_RING_BITS (rx_ring s) = bad ++ host_stream fs ->
  deframe [] bad = (es, []) -> frames_in es = 0 ->
  exists s', spi_protocol_process s = Some (Z.of_nat (length fs), s') /\
    s' ≈ handle_frames fs (foldl apply_event s es) /\ state (rx_ctx s') = RX_STATE_IDLE.
Proof.
  intros W Hidle Hfs Hring Hbad H0.
  destruct (process_loop_refines (Z.to_nat SPI_RX_BUF_SIZE) 0 s [] W (rx_fuel _)) as [s' H];
    [by apply asm_idle|].
  rewrite Hring, deframe_app, Hbad, deframe_host_stream in H by done.
  rewrite frames_in_app, H0, frames_in_all, foldl_app, foldl_fmap in H.
  exists s'. destruct H as (? & ? & Ha). split_and!; [done..|].
  by apply assembling_nil.
Qed.

Lemma deframe_bad_header cmd len h :
  byte cmd -> corrupted_header cmd len h -> byte_at h 0 = SPI_SYNC_BYTE ->
  deframe [] h = ([EvBadHeader], []).
Proof.
  intros Hc Hh H0. destruct (corrupted_header_detected _ _ _ Hc Hh) as (L & _ & Hbad).
  rewrite deframe_header by done.
  assert (header_ok h = false) as -> by (apply andb_false_iff; right; by apply Z.eqb_neq). done.
Qed.

Lemma deframe_bad_body cmd p q c :
  byte cmd -> bytes p -> (length p <= 4092)%nat -> corrupted_body p q c ->
  deframe [] (encode_header cmd (Z.of_nat (length p)) ++ q ++ c) = ([EvBadPayload], []).
Proof.
  intros Hc Hp Hl Hb. destruct (corrupted_body_detected _ _ _ Hp Hb) as (Lq & Lc & _ & _ & Hq & Hbad).
  rewrite deframe_app, deframe_header by done.
  rewrite header_ok_encode, header_len_encode by (done || lia). cbn [negb].
  replace (SPI_MAX_PAYLOAD <? _) with false by (unfold SPI_MAX_PAYLOAD; symmetry; lia).
  rewrite deframe_body by (done || (rewrite header_len_encode, Lq; lia)).
  destruct q as [|x q]; [done|]. unfold payload_ok. by rewrite (proj2 (Z.eqb_neq _ _)).
Qed.


(** an antenna frame whose payload byte changed, then the one sent again *)
Definition demo_hit : list Z :=
  (encode_header CMD_ANT_SELECT 1 ++ [3] ++ write_le32 (frame_crc32 [2])) ++
  host_stream [([], (CMD_ANT_SELECT, [2]))].


(** the buffers hold the same received payload of [n] bytes *)
Definition same_payload (n : Z) (buf buf' : list Z) : Prop :=
  take (Z.to_nat n) buf = take (Z.to_nat n) buf'.

(** The command handlers depend on nothing but the received payload: two
    payload buffers that agree on the first [n] bytes give the same state,
    whatever an earlier frame left behind them. *)
Theorem dispatch_ignores_stale_bytes (cmd n : Z) (buf buf' : list Z) (s : fw)
    (Hb : bytes buf) (Hb' : bytes buf') (Hn : 0 <= n <= 4092)
    (Heq : same_payload n buf buf') :
  dispatch_command cmd buf n s = dispatch_command cmd buf' n s.
Proof.
  rewrite <- (dispatch_command_take cmd buf) by done.
  unfold same_payload in Heq. rewrite Heq. by apply dispatch_command_take.
Qed.

Lemma dispatch_ignores_stale_bytes_witness :
  dispatch_command CMD_ANT_SELECT [2; 9; 9] 1 fw_init = dispatch_command CMD_ANT_SELECT [2; 4; 4] 1 fw_init.
Proof.
  apply (dispatch_ignores_stale_bytes CMD_ANT_SELECT 1 [2; 9; 9] [2; 4; 4] fw_init).
  - by apply bytesb_bytes.
  - by apply bytesb_bytes.
  - lia.
  - reflexivity.
Defined.

Lemma dispatch_frame_wipes s i :
  Z.of_nat i < expected_payload_len (rx_ctx s) <= 4092 ->
  length (payload_buf (rx_ctx s)) = 4092%nat ->
  payload_buf (rx_ctx (dispatch_frame s)) !! i = Some 0.
Proof.
  intros Hi Lp. unfold dispatch_frame. cbv zeta.
  match goal with |- context [dispatch_command ?c ?p ?n ?s1] =>
    destruct (dispatch_command_io c p n s1) as [Er _ _ _] end.
  rewrite (proj2 (Z.ltb_lt 0 _)) by lia. unfold update at 1 2. cbn [rx_ctx payload_buf].
  rewrite Er. apply secure_wipe_zero; cbn [payload_buf update rx_ctx]; simpl; lia.
Qed.

(** No received payload survives its handling: after the byte that
    completes a valid frame, all bytes of that frame's payload in the assembly
    buffer are zero. *)
Theorem payload_wiped_after_dispatch (b : Z) (s s' : fw)
    (W : fw_wf s) (E : process_byte b s = Some (1, s')) (i : nat)
    (Hi : Z.of_nat i < expected_payload_len (rx_ctx s)) :
  assembling (rx_ctx s') [] /\ payload_buf (rx_ctx s') !! i = Some 0.
Proof.
  unfold process_byte in E. cbv zeta in E.
  destruct W as [[_ Lp _ _ _ _ Hst _] _ _ _]. unfold rx_state_wf in Hst.
  destruct (state (rx_ctx s)); try destruct (buf_set _ _ _); cbn [mbind option_bind] in E;
    repeat case_match; simplify_eq; (split; [by apply asm_idle|]).
  match goal with H : validate_frame_payload _ = _ |- _ =>
    apply validate_frame_payload_cases in H as [[_ ->]|[Hn _]] end;
    [|by apply Z.eqb_neq in Hn; congruence].
  apply (dispatch_frame_wipes (s <| rx_ctx := _ |>)); [|exact Lp].
  split; [exact Hi|exact (proj2 (proj2 Hst))].
Qed.

Definition demo_frame : list Z := encode_frame (crc:=mcu_frame_crc) CMD_ANT_SELECT [2].
Definition fw_before_last : fw := default fw_init (receive (take 20 demo_frame) fw_init).
Definition fw_after_last : fw :=
  match process_byte (byte_at demo_frame 20) fw_before_last with
  | Some (_, s) => s | None => fw_init end.

Lemma payload_wiped_after_dispatch_witness :
  byte_at (payload_buf (rx_ctx fw_before_last)) 0 = 2 /\
  payload_buf (rx_ctx fw_after_last) !! 0%nat = Some 0.
Proof.
  split; [vm_compute; reflexivity|].
  apply (payload_wiped_after_dispatch (byte_at demo_frame 20) fw_before_last fw_after_last).
  - apply reachable_wf. unfold fw_before_last.
    destruct (receive _ _) as [s|] eqn:E; cbn [default]; [|apply rtc_refl].
    eapply receive_reachable; [apply rtc_refl|exact E].
  - unfold fw_after_last. vm_compute. reflexivity.
  - vm_compute. reflexivity.
Defined.
