(* ===== verification/Spi0Isr.v ===== *)
(** * The frame-assembly interrupt handler (spi0_isr.c)

    A linear 4112-byte buffer filled byte by byte from the SPI0 receive FIFO,
    handed to the main loop as a whole frame, and a response buffer emptied
    into the transmit FIFO.  A receive FIFO is the list of bytes the handler
    finds while it runs, a transmit FIFO the list of the bytes waiting in it. *)

From S2P Require Import Prelude Crc Frame Board.

#[local] Existing Instance mcu_frame_crc.
#[local] Opaque mcu_crc64 mcu_crc32 write_le64 write_le32 write_le16.

Definition SPI_FRAME_BUF_SIZE : Z := SPI_HDR_SIZE + SPI_MAX_PAYLOAD + SPI_CRC32_SIZE.

#[global] Arguments SPI_FRAME_BUF_SIZE : simpl never.

Inductive frame_state :=
| FRAME_STATE_IDLE | FRAME_STATE_HEADER | FRAME_STATE_PAYLOAD
| FRAME_STATE_COMPLETE | FRAME_STATE_ERROR.
#[export] Instance frame_state_eq_dec : EqDecision frame_state.
Proof. solve_decision. Defined.

(** static structs spi0_rx, spi0_tx and spi0_stats, and the SIO output word *)
Record isr := {
  rx_buf : list Z; rx_pos : Z; rx_st : frame_state; rx_payload_len : Z; frame_ready : bool;
  tx_buf : list Z; tx_len : Z; response_pending : bool;
  st_frames_received : Z; st_frames_validated : Z; st_rejected_sync : Z;
  st_rejected_hdr_crc : Z; st_rejected_pay_crc : Z; st_rejected_len : Z;
  st_rx_overflows : Z; st_bytes_received : Z;
  isr_gpio : Z;
}.
#[export] Instance eta_isr : Eta isr :=
  eta! Build_isr < rx_buf ; rx_pos ; rx_st ; rx_payload_len ; frame_ready ;
    tx_buf ; tx_len ; response_pending ;
    st_frames_received ; st_frames_validated ; st_rejected_sync ;
    st_rejected_hdr_crc ; st_rejected_pay_crc ; st_rejected_len ;
    st_rx_overflows ; st_bytes_received ; isr_gpio >.

Definition isr_bss (gpio : Z) : isr := {|
  rx_buf := replicate (Z.to_nat SPI_FRAME_BUF_SIZE) 0; rx_pos := 0;
  rx_st := FRAME_STATE_IDLE; rx_payload_len := 0; frame_ready := false;
  tx_buf := replicate (Z.to_nat SPI_FRAME_BUF_SIZE) 0; tx_len := 0;
  response_pending := false;
  st_frames_received := 0; st_frames_validated := 0; st_rejected_sync := 0;
  st_rejected_hdr_crc := 0; st_rejected_pay_crc := 0; st_rejected_len := 0;
  st_rx_overflows := 0; st_bytes_received := 0; isr_gpio := gpio |}.

Definition spi0_assert_int_req (s : isr) : isr :=
  s <| isr_gpio ::= fun g => Z.ldiff g (BIT PIN_INT_REQ) |>.
Definition spi0_deassert_int_req (s : isr) : isr :=
  s <| isr_gpio ::= fun g => Z.lor g (BIT PIN_INT_REQ) |>.
Definition isr_int_req_low (s : isr) : bool := negb (Z.testbit (isr_gpio s) PIN_INT_REQ).

(** ** Validation helpers *)

Definition validate_sync_byte (b : Z) : bool := b =? SPI_SYNC_BYTE.

Definition validate_header_crc64 (buf : list Z) : bool :=
  let computed := mcu_crc64 (take 8 buf) in
  let at_ i := byte_at buf i in
  let expected :=
    Z.lor (Z.lor (Z.lor (Z.lor (Z.lor (Z.lor (Z.lor (at_ 8%nat)
      (Z.shiftl (at_ 9%nat) 8)) (Z.shiftl (at_ 10%nat) 16)) (Z.shiftl (at_ 11%nat) 24))
      (Z.shiftl (at_ 12%nat) 32)) (Z.shiftl (at_ 13%nat) 40)) (Z.shiftl (at_ 14%nat) 48))
      (Z.shiftl (at_ 15%nat) 56) in
  computed =? expected.

Definition validate_payload_crc32 (buf : list Z) (payload_len : Z) : bool :=
  let computed := if payload_len =? 0 then mcu_crc32 []
                  else mcu_crc32 (slice 16 (Z.to_nat payload_len) buf) in
  let expected := read_le32 (drop (Z.to_nat (SPI_HDR_SIZE + payload_len)) buf) in
  computed =? expected.

Definition extract_payload_length (buf : list Z) : Z :=
  Z.lor (byte_at buf 2) (Z.shiftl (byte_at buf 3) 8).

(** ** One received byte; [None] would be a write outside the buffer *)

Definition start_frame (b : Z) (s : isr) : option isr :=
  buf ← buf_set (rx_buf s) 0 b;
  Some (s <| rx_buf := buf |> <| rx_pos := 1 |> <| rx_st := FRAME_STATE_HEADER |>).

Definition spi0_process_byte (b : Z) (s : isr) : option isr :=
  let s := s <| st_bytes_received ::= incr32 |> in
  match rx_st s with
  | FRAME_STATE_IDLE =>
      if validate_sync_byte b then start_frame b s
      else Some (s <| st_rejected_sync ::= incr32 |>)
  | FRAME_STATE_HEADER =>
      if rx_pos s <? SPI_HDR_SIZE then
        buf ← buf_set (rx_buf s) (rx_pos s) b;
        let s := s <| rx_buf := buf |> <| rx_pos ::= fun p => u16 (p + 1) |> in
        if rx_pos s =? SPI_HDR_SIZE then
          if negb (validate_header_crc64 (rx_buf s)) then
            Some (s <| st_rejected_hdr_crc ::= incr32 |> <| rx_st := FRAME_STATE_ERROR |>)
          else
            let s := s <| rx_payload_len := extract_payload_length (rx_buf s) |> in
            if SPI_MAX_PAYLOAD <? rx_payload_len s then
              Some (s <| st_rejected_len ::= incr32 |> <| rx_st := FRAME_STATE_ERROR |>)
            else Some (s <| rx_st := FRAME_STATE_PAYLOAD |>)
        else Some s
      else Some s
  | FRAME_STATE_PAYLOAD =>
      let total := SPI_HDR_SIZE + rx_payload_len s + SPI_CRC32_SIZE in
      if rx_pos s <? total then
        buf ← buf_set (rx_buf s) (rx_pos s) b;
        let s := s <| rx_buf := buf |> <| rx_pos ::= fun p => u16 (p + 1) |> in
        if rx_pos s =? total then
          if validate_payload_crc32 (rx_buf s) (rx_payload_len s) then
            Some (s <| st_frames_validated ::= incr32 |> <| st_frames_received ::= incr32 |>
                    <| rx_st := FRAME_STATE_COMPLETE |> <| frame_ready := true |>)
          else
            Some (s <| st_rejected_pay_crc ::= incr32 |> <| rx_st := FRAME_STATE_ERROR |>)
        else Some s
      else Some (s <| rx_st := FRAME_STATE_ERROR |>)
  | FRAME_STATE_COMPLETE => Some (s <| st_rx_overflows ::= incr32 |>)
  | FRAME_STATE_ERROR => if validate_sync_byte b then start_frame b s else Some s
  end.

(** ** The interrupt handler *)

(** [while (SSPSR & RNE)] with the counter [max_iterations]; the result is the
    state and what is left in the receive FIFO *)
Fixpoint drain_rx (max_iterations : nat) (fifo : list Z) (s : isr) : option (isr * list Z) :=
  match fifo with
  | [] => Some (s, [])
  | b :: fifo =>
      s ← spi0_process_byte b s;
      match max_iterations with
      | O | 1%nat => Some (s, fifo)
      | S m => drain_rx m fifo s
      end
  end.

Definition TX_FIFO_DEPTH : nat := 16.

(** [while (tx_pos < len && tx_pos < 16 && (SSPSR & TNF))]; [n] is [16 - tx_pos] *)
Fixpoint load_tx (n : nat) (tx_pos : nat) (s : isr) (fifo : list Z) : nat * list Z :=
  match n with
  | O => (tx_pos, fifo)
  | S n => if (Z.of_nat tx_pos <? tx_len s) && (length fifo <? TX_FIFO_DEPTH)%nat
           then load_tx n (S tx_pos) s (fifo ++ [byte_at (tx_buf s) tx_pos])
           else (tx_pos, fifo)
  end.

(** the FIFO of bytes received, the FIFO of bytes to send *)
Definition spi0_handler (rx tx : list Z) (s : isr) : option (isr * list Z * list Z) :=
  '(s, rx) ← drain_rx 256 rx s;
  if response_pending s then
    let (tx_pos, tx) := load_tx 16 0 s tx in
    if tx_len s <=? Z.of_nat tx_pos then
      Some (spi0_deassert_int_req (s <| response_pending := false |>), rx, tx)
    else Some (s, rx, tx)
  else Some (s, rx, tx).

(** ** Main-loop side *)

Definition spi0_rx_get_frame (s : isr) : option (list Z * Z) :=
  if negb (frame_ready s) then None else Some (rx_buf s, rx_pos s).

Definition spi0_rx_release_frame (s : isr) : isr :=
  s <| rx_buf := secure_wipe (Z.to_nat (rx_pos s)) (rx_buf s) |>
    <| frame_ready := false |> <| rx_pos := 0 |> <| rx_payload_len := 0 |>
    <| rx_st := FRAME_STATE_IDLE |>.

(** [frame] is the caller's buffer of at least [len] bytes *)
Definition spi0_tx_queue_response (frame : list Z) (len : Z) (s : isr) : isr :=
  if SPI_FRAME_BUF_SIZE <? len then s else
  spi0_assert_int_req
    (s <| tx_buf := overwrite (take (Z.to_nat len) frame) (tx_buf s) |>
       <| tx_len := len |> <| response_pending := true |>).

Definition spi0_rx_reset (s : isr) : isr :=
  s <| rx_buf := replicate (Z.to_nat SPI_FRAME_BUF_SIZE) 0 |> <| rx_pos := 0 |>
    <| rx_payload_len := 0 |> <| frame_ready := false |> <| rx_st := FRAME_STATE_IDLE |>.

Definition spi0_tx_reset (s : isr) : isr :=
  spi0_deassert_int_req
    (s <| tx_buf := replicate (Z.to_nat SPI_FRAME_BUF_SIZE) 0 |> <| tx_len := 0 |>
       <| response_pending := false |>).

Definition spi0_get_stats (s : isr) : list Z :=
  [st_frames_received s; st_frames_validated s; st_rejected_sync s; st_rejected_hdr_crc s;
   st_rejected_pay_crc s; st_rejected_len s; st_rx_overflows s; st_bytes_received s].

(** ** Reading back a validated frame *)

(** what the handler accepts as a frame: the reserved field is not looked at *)
Definition isr_frame_with (cmd : Z) (reserved p : list Z) : list Z :=
  let head := [SPI_SYNC_BYTE; cmd] ++ write_le16 (Z.of_nat (length p)) ++ reserved in
  head ++ write_le64 (mcu_crc64 head) ++ p ++ write_le32 (mcu_crc32 p).

Lemma isr_frame_with_zero cmd p : isr_frame_with cmd (write_le32 0) p = encode_frame cmd p.
Proof.
  unfold isr_frame_with, encode_frame, encode_header, header_head.
  by rewrite <- !app_assoc.
Qed.

Ltac pow2s := change (2 ^ 8) with 256; change (2 ^ 16) with 65536;
  change (2 ^ 24) with 16777216; change (2 ^ 32) with 4294967296;
  change (2 ^ 40) with 1099511627776; change (2 ^ 48) with 281474976710656;
  change (2 ^ 56) with 72057594037927936.

Lemma header_crc_field buf :
  bytes buf -> (16 <= length buf)%nat ->
  validate_header_crc64 buf = (mcu_crc64 (take 8 buf) =? read_le64 (slice 8 8 buf)).
Proof.
  intros Hb Hl. unfold validate_header_crc64. f_equal.
  rewrite slice_byte_at by lia. cbn [seq fmap list_fmap Nat.add].
  rewrite read_le64_value by (repeat constructor; apply byte_at_byte; done).
  assert (forall i, 0 <= byte_at buf i < 256) as B by (intros; by apply byte_at_byte).
  pose proof (B 8%nat). pose proof (B 9%nat). pose proof (B 10%nat). pose proof (B 11%nat).
  pose proof (B 12%nat). pose proof (B 13%nat). pose proof (B 14%nat). pose proof (B 15%nat).
  rewrite (lor_shiftl_add _ (byte_at buf 9)) by (pow2s; lia).
  rewrite (lor_shiftl_add _ (byte_at buf 10)) by (pow2s; lia).
  rewrite (lor_shiftl_add _ (byte_at buf 11)) by (pow2s; lia).
  rewrite (lor_shiftl_add _ (byte_at buf 12)) by (pow2s; lia).
  rewrite (lor_shiftl_add _ (byte_at buf 13)) by (pow2s; lia).
  rewrite (lor_shiftl_add _ (byte_at buf 14)) by (pow2s; lia).
  rewrite (lor_shiftl_add _ (byte_at buf 15)) by (pow2s; lia).
  cbn [le_value]. pow2s. lia.
Qed.

(** ** The invariant *)

Definition hdr_valid (buf : list Z) (n : Z) : Prop :=
  byte_at buf 0 = SPI_SYNC_BYTE /\ validate_header_crc64 buf = true /\
  extract_payload_length buf = n /\ n <= 4092.

Definition rx_progress (s : isr) : Prop :=
  match rx_st s with
  | FRAME_STATE_IDLE | FRAME_STATE_ERROR => frame_ready s = false
  | FRAME_STATE_HEADER =>
      frame_ready s = false /\ 1 <= rx_pos s < 16 /\ byte_at (rx_buf s) 0 = SPI_SYNC_BYTE
  | FRAME_STATE_PAYLOAD =>
      frame_ready s = false /\ hdr_valid (rx_buf s) (rx_payload_len s) /\
      16 <= rx_pos s < 20 + rx_payload_len s
  | FRAME_STATE_COMPLETE =>
      frame_ready s = true /\ hdr_valid (rx_buf s) (rx_payload_len s) /\
      rx_pos s = 20 + rx_payload_len s /\
      validate_payload_crc32 (rx_buf s) (rx_payload_len s) = true
  end.

Record isr_wf (s : isr) : Prop := {
  iw_rx_len : length (rx_buf s) = 4112%nat;
  iw_rx_bytes : bytes (rx_buf s);
  iw_tx_len : length (tx_buf s) = 4112%nat;
  iw_tx_fits : 0 <= tx_len s <= 4112;
  iw_progress : rx_progress s;
}.

Lemma byte_at_insert_ne l i j b : i <> j -> byte_at (<[i := b]> l) j = byte_at l j.
Proof.
  intros. unfold byte_at. rewrite !nth_lookup. by rewrite list_lookup_insert_ne.
Qed.
Lemma byte_at_insert_0 l b : (0 < length l)%nat -> byte_at (<[0%nat := b]> l) 0 = b.
Proof. by destruct l; simpl; [lia|]. Qed.

Lemma hdr_valid_insert buf n i b :
  (16 <= i)%nat -> hdr_valid buf n -> hdr_valid (<[i := b]> buf) n.
Proof.
  intros Hi. unfold hdr_valid, validate_header_crc64, extract_payload_length.
  rewrite !byte_at_insert_ne by lia. by rewrite take_insert_ge by lia.
Qed.

Lemma isr_wf_bss gpio : isr_wf (isr_bss gpio).
Proof. constructor; try done. apply bytes_replicate, byte_0. Qed.

Lemma extract_payload_length_range buf : bytes buf -> 0 <= extract_payload_length buf < 65536.
Proof.
  intros Hb. unfold extract_payload_length.
  pose proof (byte_at_byte buf 2 Hb). pose proof (byte_at_byte buf 3 Hb). unfold byte in *.
  rewrite lor_shiftl_add by (pow2s; lia). pow2s. lia.
Qed.

Ltac isr_cbn := simpl.

Lemma start_frame_wf b s :
  byte b -> b = SPI_SYNC_BYTE -> frame_ready s = false -> isr_wf s ->
  exists s', start_frame b s = Some s' /\ isr_wf s'.
Proof.
  intros Hb -> Hf [Lr Br Lt Ft _]. unfold start_frame. rewrite buf_set_ok by lia.
  eexists. split; [reflexivity|]. constructor; isr_cbn; try done.
  - by rewrite length_insert.
  - by apply bytes_insert.
  - unfold rx_progress. isr_cbn. split_and!; [done|lia..|]. apply byte_at_insert_0. lia.
Qed.

(** One byte never writes outside the buffer and keeps the invariant. *)
Lemma spi0_process_byte_wf b s :
  byte b -> isr_wf s -> exists s', spi0_process_byte b s = Some s' /\ isr_wf s'.
Proof.
  intros Hb W. unfold spi0_process_byte. cbv zeta.
  assert (isr_wf (s <| st_bytes_received ::= incr32 |>)) as W0 by by destruct W.
  revert W0. generalize (s <| st_bytes_received ::= incr32 |>). clear s W.
  intros s W. pose proof W as [Lr Br Lt Ft P]. unfold rx_progress in P.
  unfold validate_sync_byte.
  destruct (rx_st s) eqn:Es.
  - destruct (Z.eqb_spec b SPI_SYNC_BYTE); [by apply start_frame_wf|].
    eexists. split; [reflexivity|]. constructor; isr_cbn; try done. unfold rx_progress; isr_cbn.
    by rewrite Es.
  - destruct P as (Hf & Hp & H0).
    replace (rx_pos s <? SPI_HDR_SIZE) with true by (unfold SPI_HDR_SIZE; symmetry; lia).
    rewrite buf_set_ok by lia. cbn [mbind option_bind].
    set (buf := <[Z.to_nat (rx_pos s) := b]> (rx_buf s)).
    assert (bytes buf) as Bb by (subst buf; by apply bytes_insert).
    assert (length buf = 4112%nat) as Lb by (subst buf; by rewrite length_insert).
    assert (byte_at buf 0 = SPI_SYNC_BYTE) as Hb0 by (subst buf; by rewrite byte_at_insert_ne by lia).
    clearbody buf. isr_cbn. assert (u16 (rx_pos s + 1) = rx_pos s + 1) as Hu by (apply u16_small; lia). rewrite Hu. unfold SPI_HDR_SIZE.
    pose proof (extract_payload_length_range buf Bb).
    repeat case_match; eexists; (split; [reflexivity|]); constructor; isr_cbn; try done;
      unfold rx_progress, SPI_MAX_PAYLOAD in *; isr_cbn; rewrite ?Es, ?Hu; try done.
    + unfold hdr_valid. split_and!; try done; try lia. by apply negb_false_iff.
    + split_and!; [done|lia..|done].
  - destruct P as (Hf & Hh & Hp). pose proof Hh as (_ & _ & _ & Hle). unfold SPI_HDR_SIZE, SPI_CRC32_SIZE.
    replace (rx_pos s <? _) with true by (symmetry; lia).
    rewrite buf_set_ok by lia. cbn [mbind option_bind].
    set (buf := <[Z.to_nat (rx_pos s) := b]> (rx_buf s)).
    assert (bytes buf) as Bb by (subst buf; by apply bytes_insert).
    assert (length buf = 4112%nat) as Lb by (subst buf; by rewrite length_insert).
    assert (hdr_valid buf (rx_payload_len s)) as Hh' by (apply hdr_valid_insert; [lia|done]).
    clearbody buf. isr_cbn. assert (u16 (rx_pos s + 1) = rx_pos s + 1) as Hu by (apply u16_small; lia). rewrite Hu.
    repeat case_match; eexists; (split; [reflexivity|]); constructor; isr_cbn; try done;
      unfold rx_progress in *; isr_cbn; rewrite ?Es, ?Hu; try done; split_and!; try done; lia.
  - eexists. split; [reflexivity|]. constructor; isr_cbn; try done.
    unfold rx_progress; isr_cbn. by rewrite Es.
  - destruct (Z.eqb_spec b SPI_SYNC_BYTE); [by apply start_frame_wf|].
    eexists. split; [reflexivity|done].
Qed.

Lemma drain_rx_cons n b fifo s :
  drain_rx n (b :: fifo) s =
    s1 ← spi0_process_byte b s;
    match n with O | 1%nat => Some (s1, fifo) | S m => drain_rx m fifo s1 end.
Proof. by destruct n. Qed.

Lemma drain_rx_wf n fifo s :
  bytes fifo -> isr_wf s ->
  exists s' rest, drain_rx n fifo s = Some (s', rest) /\ isr_wf s' /\ rest `suffix_of` fifo.
Proof.
  intros Hb. revert n s. induction Hb as [|b fifo Hb Hf IH]; intros n s W.
  { exists s, []. split_and!; [by destruct n|done|by exists []]. }
  destruct (spi0_process_byte_wf b s Hb W) as (s1 & E1 & W1).
  rewrite drain_rx_cons, E1. cbn [mbind option_bind].
  destruct n as [|[|n]]; [exists s1, fifo; split_and!; [done|done|by exists [b]]..|].
  destruct (IH (S n) s1 W1) as (s' & rest & E & W' & Hs). exists s', rest.
  split_and!; [done|done|]. by apply suffix_cons_r.
Qed.

(** what is loaded is a piece of the response, at most 16 bytes of it *)
Lemma load_tx_spec n pos s tx :
  (pos <= Z.to_nat (tx_len s))%nat ->
  let (pos', tx') := load_tx n pos s tx in
  (pos <= pos' <= pos + n)%nat /\ (pos' <= Z.to_nat (tx_len s))%nat /\
  tx' = tx ++ (byte_at (tx_buf s) <$> seq pos (pos' - pos)).
Proof.
  revert pos tx. induction n as [|n IH]; intros pos tx Hp; cbn [load_tx].
  - rewrite Nat.sub_diag. simpl. rewrite app_nil_r. split_and!; done || lia.
  - destruct ((Z.of_nat pos <? tx_len s) && (length tx <? TX_FIFO_DEPTH)%nat) eqn:E.
    + apply andb_true_iff in E as [E _].
      specialize (IH (S pos) (tx ++ [byte_at (tx_buf s) pos]) ltac:(lia)).
      destruct (load_tx n (S pos) s _) as [pos' tx']. destruct IH as (H1 & H2 & ->).
      split_and!; [lia..|]. rewrite <- app_assoc.
      replace (pos' - pos)%nat with (S (pos' - S pos)) by lia. done.
    + rewrite Nat.sub_diag. simpl. rewrite app_nil_r. split_and!; done || lia.
Qed.

Lemma spi0_handler_wf rx tx s :
  bytes rx -> isr_wf s ->
  exists s' rx' tx', spi0_handler rx tx s = Some (s', rx', tx') /\ isr_wf s'.
Proof.
  intros Hb W. unfold spi0_handler.
  destruct (drain_rx_wf 256 rx s Hb W) as (s1 & rest & -> & W1 & _). cbn [mbind option_bind].
  destruct (response_pending s1); [|by eauto 10].
  destruct (load_tx 16 0 s1 tx) as [pos tx']. case_match; [|by eauto 10].
  do 3 eexists. split; [reflexivity|]. by destruct W1.
Qed.

(** ** Reachable states *)

Inductive isr_step (s : isr) : isr -> Prop :=
| isr_interrupt rx tx s' rx' tx' :
    bytes rx -> spi0_handler rx tx s = Some (s', rx', tx') -> isr_step s s'
| isr_release : isr_step s (spi0_rx_release_frame s)
| isr_queue frame len :
    0 <= len <= Z.of_nat (length frame) -> isr_step s (spi0_tx_queue_response frame len s)
| isr_rx_reset : isr_step s (spi0_rx_reset s)
| isr_tx_reset : isr_step s (spi0_tx_reset s).

Definition isr_reachable (s : isr) : Prop := exists gpio, rtc isr_step (isr_bss gpio) s.

Lemma isr_step_wf s s' : isr_wf s -> isr_step s s' -> isr_wf s'.
Proof.
  intros W [rx tx s1 rx' tx' Hb E| |frame len Hl| |].
  - destruct (spi0_handler_wf rx tx s Hb W) as (? & ? & ? & E' & ?). by simplify_eq.
  - destruct W. constructor; simpl; try done.
    + by rewrite secure_wipe_length.
    + unfold secure_wipe, overwrite. apply bytes_app. auto with bytes.
  - unfold spi0_tx_queue_response. case_match eqn:E; [done|].
    unfold SPI_FRAME_BUF_SIZE, SPI_HDR_SIZE, SPI_MAX_PAYLOAD, SPI_CRC32_SIZE in E.
    destruct W as [? ? Lt ? ?]. constructor; simpl; try done; [|lia].
    by rewrite overwrite_length by (rewrite length_take; lia).
  - destruct W. constructor; [done|apply bytes_replicate, byte_0|done..].
  - destruct W. by constructor.
Qed.

Lemma isr_steps_wf s s' : isr_wf s -> rtc isr_step s s' -> isr_wf s'.
Proof. intros W H. revert W. induction H; eauto using isr_step_wf. Qed.

Lemma isr_reachable_wf s : isr_reachable s -> isr_wf s.
Proof. intros [gpio H]. eapply isr_steps_wf; [apply isr_wf_bss|exact H]. Qed.

(** ** Frames that come out *)

Lemma slices buf n :
  (20 + n <= length buf)%nat ->
  take (20 + n) buf = take 8 buf ++ slice 8 8 buf ++ slice 16 n buf ++ take 4 (drop (16 + n) buf).
Proof.
  intros Hl. unfold slice. rewrite <- (take_drop 8 (take (20 + n) buf)).
  rewrite take_take, Nat.min_l by lia. f_equal.
  rewrite skipn_firstn_comm. rewrite <- (take_drop 8 (take (20 + n - 8) (drop 8 buf))).
  rewrite take_take, Nat.min_l by lia. f_equal.
  rewrite skipn_firstn_comm, drop_drop. change (8 + 8)%nat with 16%nat.
  rewrite <- (take_drop n (take (20 + n - 8 - 8) (drop 16 buf))).
  rewrite take_take, Nat.min_l by lia. f_equal.
  rewrite skipn_firstn_comm, drop_drop. f_equal. lia.
Qed.

Lemma take_8_head buf :
  (8 <= length buf)%nat ->
  take 8 buf = [byte_at buf 0; byte_at buf 1] ++ [byte_at buf 2; byte_at buf 3] ++ slice 4 4 buf.
Proof.
  intros Hl. rewrite slice_byte_at by lia. change (take 8 buf) with (slice 0 8 buf).
  by rewrite slice_byte_at by lia.
Qed.

Lemma complete_frame buf n :
  bytes buf -> length buf = 4112%nat -> hdr_valid buf n ->
  validate_payload_crc32 buf n = true ->
  exists cmd reserved p, byte cmd /\ bytes reserved /\ length reserved = 4%nat /\
    bytes p /\ n = Z.of_nat (length p) /\ (length p <= 4092)%nat /\
    take (Z.to_nat (20 + n)) buf = isr_frame_with cmd reserved p.
Proof.
  intros Hb Hl (H0 & Hcrc & Hn & Hle) Hp.
  pose proof (extract_payload_length_range buf Hb) as Hr. rewrite Hn in Hr.
  set (m := Z.to_nat n). set (p := slice 16 m buf).
  assert (length p = m) as Lp by (apply slice_length; lia).
  exists (byte_at buf 1), (slice 4 4 buf), p.
  split_and!; [by apply byte_at_byte|by apply bytes_slice|apply slice_length; lia
              |by apply bytes_slice|lia..|].
  replace (Z.to_nat (20 + n)) with (20 + m)%nat by lia. rewrite slices by lia.
  unfold isr_frame_with. cbv zeta. fold p.
  assert (Hhead : take 8 buf = [SPI_SYNC_BYTE; byte_at buf 1] ++
            write_le16 (Z.of_nat (length p)) ++ slice 4 4 buf).
  { rewrite take_8_head, H0 by lia. do 2 f_equal. rewrite Lp. unfold m. rewrite Z2Nat.id by lia.
    rewrite <- Hn. unfold extract_payload_length. f_equal. symmetry.
    apply write_read_le16; by apply byte_at_byte. }
  rewrite <- Hhead. f_equal. f_equal.
  - rewrite header_crc_field in Hcrc by (done || lia). apply Z.eqb_eq in Hcrc. rewrite Hcrc.
    symmetry. apply write_read_le64; [by apply bytes_slice|apply slice_length; lia].
  - f_equal. unfold validate_payload_crc32 in Hp. apply Z.eqb_eq in Hp.
    assert (mcu_crc32 p = read_le32 (take 4 (drop (16 + m) buf))) as ->.
    { transitivity (read_le32 (drop (Z.to_nat (SPI_HDR_SIZE + n)) buf)).
      - rewrite <- Hp. destruct (Z.eqb_spec n 0) as [->|]; [|done]. done.
      - replace (Z.to_nat (SPI_HDR_SIZE + n)) with (16 + m)%nat by (unfold SPI_HDR_SIZE; lia).
        unfold read_le32. by rewrite !byte_at_take by lia. }
    symmetry. apply write_read_le32; [by apply bytes_take, bytes_drop|].
    rewrite length_take, length_drop. lia.
Qed.

(** ** Frames that go in *)

Fixpoint feed (l : list Z) (s : isr) : option isr :=
  match l with [] => Some s | b :: l => s ← spi0_process_byte b s; feed l s end.

Lemma feed_app l1 l2 s : feed (l1 ++ l2) s = s ← feed l1 s; feed l2 s.
Proof.
  revert s. induction l1 as [|b l1 IH]; intros s; [done|]. simpl.
  destruct (spi0_process_byte b s); simpl; [apply IH|done].
Qed.

(** the handler feeds at most 256 bytes of the FIFO *)
Lemma drain_rx_feed n fifo s :
  (0 < n)%nat -> drain_rx n fifo s = s ← feed (take n fifo) s; Some (s, drop n fifo).
Proof.
  revert n s. induction fifo as [|b fifo IH]; intros n s Hn; [by destruct n|].
  rewrite drain_rx_cons. destruct n as [|n]; [lia|]. cbn [take drop feed].
  destruct (spi0_process_byte b s) as [s1|]; cbn [mbind option_bind]; [|done].
  destruct n as [|n]; [done|]. apply IH. lia.
Qed.

Lemma validate_header_crc64_take buf :
  validate_header_crc64 buf = validate_header_crc64 (take 16 buf).
Proof. unfold validate_header_crc64. by rewrite !byte_at_take, take_take by lia. Qed.

Lemma extract_payload_length_take buf :
  extract_payload_length buf = extract_payload_length (take 16 buf).
Proof. unfold extract_payload_length. by rewrite !byte_at_take by lia. Qed.

Section Deliver.
Context (cmd : Z) (reserved p : list Z).
Hypothesis Hcmd : byte cmd.
Hypothesis Hres : bytes reserved.
Hypothesis Hres4 : length reserved = 4%nat.
Hypothesis Hp : bytes p.
Hypothesis Hlen : (length p <= 4092)%nat.
Local Abbreviation f := (isr_frame_with cmd reserved p).
Local Abbreviation head := ([SPI_SYNC_BYTE; cmd] ++ write_le16 (Z.of_nat (length p)) ++ reserved).

Lemma f_shape : f = (head ++ write_le64 (mcu_crc64 head)) ++ p ++ write_le32 (mcu_crc32 p).
Proof. unfold isr_frame_with. by rewrite <- !app_assoc. Qed.

Lemma head_bytes : bytes head.
Proof.
  rewrite write_le16_bytes, !bytes_app. split; [|by split; [apply le_bytes_bytes|]].
  by repeat (apply Forall_cons; split).
Qed.

Lemma head_length : length head = 8%nat.
Proof. rewrite write_le16_bytes, !length_app, le_bytes_length, Hres4. done. Qed.

Lemma f_bytes : bytes f.
Proof.
  rewrite f_shape, write_le64_bytes, write_le32_bytes.
  apply bytes_app; split; [apply bytes_app; split|apply bytes_app; split; [done|]];
    [apply head_bytes|apply le_bytes_bytes..].
Qed.

Lemma f_length : length f = (20 + length p)%nat.
Proof.
  rewrite f_shape, write_le64_bytes, write_le32_bytes, !(length_app), !le_bytes_length.
  pose proof head_length as H. rewrite !length_app in H. lia.
Qed.

Lemma f_header : take 16 f = head ++ write_le64 (mcu_crc64 head).
Proof.
  rewrite f_shape, write_le64_bytes. apply take_app_length'.
  rewrite length_app, le_bytes_length. pose proof head_length as H. rewrite H. done.
Qed.

Lemma f_header_valid : validate_header_crc64 (take 16 f) = true.
Proof.
  rewrite header_crc_field.
  - rewrite f_header, take_app_length' by (symmetry; apply head_length). apply Z.eqb_eq.
    unfold slice. rewrite drop_app_length' by (symmetry; apply head_length).
    rewrite take_ge by (rewrite write_le64_bytes, le_bytes_length; lia).
    rewrite <- (app_nil_r (write_le64 _)). symmetry. apply read_write_le64.
    pose proof (frame_crc64_range head head_bytes) as R. cbn in R. exact R.
  - apply bytes_take, f_bytes.
  - rewrite length_take, f_length. lia.
Qed.

Lemma f_payload_len : extract_payload_length (take 16 f) = Z.of_nat (length p).
Proof.
  rewrite <- extract_payload_length_take, f_shape.
  change (read_le16 (write_le16 (Z.of_nat (length p)) ++
    ((reserved ++ write_le64 (mcu_crc64 head)) ++ p ++ write_le32 (mcu_crc32 p))) =
    Z.of_nat (length p)).
  apply read_write_le16. lia.
Qed.

Lemma f_payload_valid buf :
  take (20 + length p) buf = f -> validate_payload_crc32 buf (Z.of_nat (length p)) = true.
Proof.
  intros E. unfold validate_payload_crc32. apply Z.eqb_eq.
  assert (Hcrc : read_le32 (drop (16 + length p) buf) = mcu_crc32 p).
  { transitivity (read_le32 (take 4 (drop (16 + length p) buf)));
      [unfold read_le32; by rewrite !byte_at_take by lia|].
    replace (take 4 (drop (16 + length p) buf)) with (drop (16 + length p) f).
    - rewrite f_shape, app_assoc, drop_app_length'.
      + rewrite <- (app_nil_r (write_le32 _)). apply read_write_le32.
        pose proof (frame_crc32_range p Hp) as R. cbn in R. exact R.
      + rewrite length_app. rewrite <- f_header, length_take, f_length. lia.
    - rewrite <- E, skipn_firstn_comm. f_equal. lia. }
  replace (Z.to_nat (SPI_HDR_SIZE + Z.of_nat (length p))) with (16 + length p)%nat
    by (unfold SPI_HDR_SIZE; lia).
  rewrite Hcrc. destruct (Z.eqb_spec (Z.of_nat (length p)) 0) as [E0|E0].
  - by destruct p.
  - f_equal. rewrite Nat2Z.id. unfold slice.
    rewrite <- (take_app_length p (write_le32 (mcu_crc32 p))) at 2.
    rewrite <- (drop_app_length' (take 16 f) (p ++ write_le32 (mcu_crc32 p)) 16)
      by (rewrite length_take, f_length; lia).
    rewrite f_header, <- f_shape, <- E. rewrite skipn_firstn_comm, take_take. f_equal. lia.
Qed.
(** after [k] bytes of the frame, [0 < k < length f] *)
Definition collecting (k : nat) (s : isr) : Prop :=
  isr_wf s /\ rx_pos s = Z.of_nat k /\ take k (rx_buf s) = take k f /\
  rx_st s = (if (k <? 16)%nat then FRAME_STATE_HEADER else FRAME_STATE_PAYLOAD) /\
  ((16 <= k)%nat -> rx_payload_len s = Z.of_nat (length p)).

Lemma take_le_eq (a b : list Z) n m :
  (n <= m)%nat -> take m a = take m b -> take n a = take n b.
Proof.
  intros Hn E. rewrite <- (Nat.min_l n m Hn), <- (take_take a), <- (take_take b). by rewrite E.
Qed.

Lemma collecting_step k s :
  (0 < k)%nat -> (S k < length f)%nat -> collecting k s ->
  exists s', spi0_process_byte (byte_at f k) s = Some s' /\ collecting (S k) s' /\
    st_frames_validated s' = st_frames_validated s.
Proof.
  intros Hk HS (W & Epos & Etake & Est & Epl). rewrite f_length in HS.
  assert (byte (byte_at f k)) as Hb by apply byte_at_byte, f_bytes.
  destruct (spi0_process_byte_wf (byte_at f k) s Hb W) as (s' & E & W').
  exists s'. split; [done|]. pose proof W as [Lr Br _ _ P].
  unfold spi0_process_byte in E. simpl in E. rewrite Est in E.
  assert (Hu : u16 (rx_pos s + 1) = Z.of_nat (S k)) by (rewrite Epos, u16_small by lia; lia).
  assert (Hbuf : take (S k) (<[k := byte_at f k]> (rx_buf s)) = take (S k) f).
  { rewrite take_insert_snoc, Etake by lia. rewrite take_S_byte; [done|]. rewrite f_length. lia. }
  destruct (Nat.ltb_spec k 16) as [Hh|Hh].
  - replace (rx_pos s <? SPI_HDR_SIZE) with true in E by (unfold SPI_HDR_SIZE; symmetry; lia).
    rewrite buf_set_ok in E by lia. simpl in E. rewrite Epos, Nat2Z.id in E.
    rewrite <- Epos, Hu in E.
    destruct (Z.eqb_spec (Z.of_nat (S k)) SPI_HDR_SIZE) as [E16|E16]; unfold SPI_HDR_SIZE in *.
    + assert (S k = 16%nat) as Sk by lia. rewrite Sk in *.
      rewrite validate_header_crc64_take, Hbuf, f_header_valid in E. simpl in E.
      rewrite extract_payload_length_take, Hbuf, f_payload_len in E.
      replace (SPI_MAX_PAYLOAD <? Z.of_nat (length p)) with false in E
        by (unfold SPI_MAX_PAYLOAD; symmetry; lia).
      injection E as <-. split; [|done]. split_and!; [done|simpl; lia|done|done|done].
    + injection E as <-. split; [|done]. split_and!; [done|simpl; lia|done| |simpl; lia].
      replace (S k <? 16)%nat with true by (symmetry; apply Nat.ltb_lt; lia). done.
  - rewrite Epl in E by lia. unfold SPI_HDR_SIZE, SPI_CRC32_SIZE in E.
    replace (rx_pos s <? _) with true in E by (symmetry; lia).
    rewrite buf_set_ok in E by lia. simpl in E. rewrite Epos, Nat2Z.id in E.
    rewrite <- Epos, Hu in E.
    rewrite (proj2 (Z.eqb_neq (Z.of_nat (S k)) _)) in E by lia.
    injection E as <-. split; [|done]. split_and!; [done|simpl; lia|done| |simpl; intros; by apply Epl].
    replace (S k <? 16)%nat with false by (symmetry; apply Nat.ltb_ge; lia). done.
Qed.

Lemma collecting_feed n k s :
  (0 < k)%nat -> (k + n < length f)%nat -> collecting k s ->
  exists s', feed (slice k n f) s = Some s' /\ collecting (k + n) s' /\
    st_frames_validated s' = st_frames_validated s.
Proof.
  revert k s. induction n as [|n IH]; intros k s Hk Hn Hc.
  - exists s. by rewrite Nat.add_0_r.
  - destruct (collecting_step k s Hk ltac:(lia) Hc) as (s1 & E1 & Hc1 & Ev1).
    destruct (IH (S k) s1 ltac:(lia) ltac:(lia) Hc1) as (s2 & E2 & Hc2 & Ev2).
    exists s2. rewrite slice_byte_at in * by lia. cbn [seq fmap list_fmap feed].
    rewrite E1. cbn [mbind option_bind]. rewrite <- Nat.add_succ_comm.
    split_and!; [exact E2|done|congruence].
Qed.

(** the whole frame, from a state that is looking for a sync byte *)
Lemma feed_frame s :
  isr_wf s -> rx_st s = FRAME_STATE_IDLE \/ rx_st s = FRAME_STATE_ERROR ->
  exists s', feed f s = Some s' /\ isr_wf s' /\ rx_st s' = FRAME_STATE_COMPLETE /\
    frame_ready s' = true /\ rx_pos s' = 20 + Z.of_nat (length p) /\
    take (20 + length p) (rx_buf s') = f /\
    st_frames_validated s' = incr32 (st_frames_validated s).
Proof.
  intros W Hst. pose proof f_length as Lf.
  assert (H0 : byte_at f 0 = SPI_SYNC_BYTE) by done.
  (* the sync byte *)
  assert (exists s1, spi0_process_byte SPI_SYNC_BYTE s = Some s1 /\ collecting 1 s1 /\
    st_frames_validated s1 = st_frames_validated s) as (s1 & E1 & Hc1 & Ev1).
  { destruct (spi0_process_byte_wf SPI_SYNC_BYTE s ltac:(done) W) as (s1 & E1 & W1).
    exists s1. split; [done|]. unfold spi0_process_byte in E1. simpl in E1.
    pose proof (iw_rx_len s W) as Lr.
    destruct Hst as [Hst|Hst]; rewrite Hst in E1; simpl in E1; unfold start_frame in E1;
      rewrite buf_set_ok in E1 by (simpl; lia); simpl in E1; injection E1 as <-;
      (split; [split_and!; try done|done]); simpl; try lia;
      (rewrite take_insert_snoc by lia; done). }
  (* all but the last byte *)
  destruct (collecting_feed (18 + length p) 1 s1 ltac:(lia) ltac:(lia) Hc1)
    as (s2 & E2 & (W2 & Epos & Etake & Est & Epl) & Ev2).
  (* the last one *)
  set (b := byte_at f (19 + length p)).
  assert (byte b) as Hb by apply byte_at_byte, f_bytes.
  destruct (spi0_process_byte_wf b s2 Hb W2) as (s3 & E3 & W3).
  exists s3. split.
  { rewrite <- (take_drop 1 f), feed_app. cbn [take feed].
    assert (drop 1 f = slice 1 (18 + length p) f ++ [b]) as ->.
    { unfold slice. rewrite <- (take_drop (18 + length p) (drop 1 f)) at 1. f_equal.
      rewrite drop_drop. change (1 + (18 + length p))%nat with (19 + length p)%nat.
      pose proof (slice_byte_at (19 + length p) 1 f ltac:(lia)) as Es.
      unfold slice in Es. rewrite take_ge in Es by (rewrite length_drop; lia). exact Es. }
    change (take 1 f) with [SPI_SYNC_BYTE]. cbn [feed]. rewrite E1. cbn [mbind option_bind].
    rewrite feed_app, E2. cbn [mbind option_bind feed]. by rewrite E3. }
  pose proof (iw_rx_len s2 W2) as Lr.
  unfold spi0_process_byte in E3. simpl in E3.
  replace (1 + (18 + length p) <? 16)%nat with false in Est by (symmetry; apply Nat.ltb_ge; lia).
  rewrite Est in E3. rewrite Epl in E3 by lia. unfold SPI_HDR_SIZE, SPI_CRC32_SIZE in E3.
  replace (rx_pos s2 <? _) with true in E3 by (symmetry; lia).
  rewrite buf_set_ok in E3 by lia. cbn [mbind option_bind] in E3.
  replace (Z.to_nat (rx_pos s2)) with (19 + length p)%nat in E3 by lia.
  assert (Hu : u16 (rx_pos s2 + 1) = 16 + Z.of_nat (length p) + 4)
    by (rewrite u16_small by lia; lia).
  simpl in E3. rewrite Hu, Z.eqb_refl in E3.
  assert (Hbuf : take (20 + length p) (<[(19 + length p)%nat := b]> (rx_buf s2)) = f).
  { change (20 + length p)%nat with (S (19 + length p)).
    rewrite take_insert_snoc by lia.
    change (1 + (18 + length p))%nat with (19 + length p)%nat in Etake. rewrite Etake.
    subst b. rewrite <- take_S_byte by lia. apply take_ge. lia. }
  rewrite f_payload_valid in E3 by done. injection E3 as <-. simpl.
  split_and!; [done..|lia|done|]. by rewrite Ev2, Ev1.
Qed.
End Deliver.

(** ** The rest of the handler *)

Record same_tx (s s' : isr) : Prop := {
  tx_same_buf : tx_buf s' = tx_buf s;
  tx_same_len : tx_len s' = tx_len s;
  tx_same_pending : response_pending s' = response_pending s;
  tx_same_gpio : isr_gpio s' = isr_gpio s;
}.

Lemma spi0_process_byte_tx b s s' : spi0_process_byte b s = Some s' -> same_tx s s'.
Proof.
  unfold spi0_process_byte, start_frame. cbv zeta. intros E.
  destruct (rx_st _); repeat case_match; try destruct (buf_set _ _ _); simpl in E;
    repeat case_match; simplify_eq; by constructor.
Qed.

Lemma drain_rx_tx n fifo s s' rest : drain_rx n fifo s = Some (s', rest) -> same_tx s s'.
Proof.
  revert n s. induction fifo as [|b fifo IH]; intros n s E.
  - destruct n; simpl in E; by simplify_eq.
  - rewrite drain_rx_cons in E. destruct (spi0_process_byte b s) as [s1|] eqn:E1; [|done].
    cbn [mbind option_bind] in E. apply spi0_process_byte_tx in E1 as [].
    destruct n as [|[|n]]; [by simplify_eq..|]. apply IH in E as []. constructor; congruence.
Qed.

(** a byte that arrives while a frame waits is dropped and counted *)
Lemma feed_complete l s :
  rx_st s = FRAME_STATE_COMPLETE ->
  exists s', feed l s = Some s' /\ rx_buf s' = rx_buf s /\ rx_pos s' = rx_pos s /\
    rx_st s' = FRAME_STATE_COMPLETE /\ frame_ready s' = frame_ready s.
Proof.
  revert s. induction l as [|b l IH]; intros s Hst; [by exists s|].
  cbn [feed]. unfold spi0_process_byte. simpl. rewrite Hst. cbn [mbind option_bind].
  match goal with |- context [feed l ?s1] => destruct (IH s1 Hst) as (s' & -> & ? & ? & ? & ?) end.
  by exists s'.
Qed.

(** ** Properties *)

(** C19: in every run of the interrupt handler and the main-loop calls, the handler never
    writes outside its buffer, and whatever spi0_rx_get_frame returns is a
    frame: its first bytes are the sync byte, a command, the payload length,
    four reserved bytes, the CRC-64 of those eight, the payload, and the
    payload's CRC-32. *)
Theorem isr_frames_checked (s : isr) (Hs : isr_reachable s) :
  (forall b, byte b -> is_Some (spi0_process_byte b s)) /\
  (forall buf len, spi0_rx_get_frame s = Some (buf, len) ->
     exists cmd reserved p, byte cmd /\ length reserved = 4%nat /\
       len = 20 + Z.of_nat (length p) /\ (length p <= 4092)%nat /\
       take (Z.to_nat len) buf = isr_frame_with cmd reserved p).
Proof.
  apply isr_reachable_wf in Hs as W. split.
  - intros b Hb. by destruct (spi0_process_byte_wf b s Hb W) as (? & -> & _).
  - intros buf len E. unfold spi0_rx_get_frame in E. case_match eqn:Ef; simplify_eq.
    apply negb_false_iff in Ef. destruct W as [Lr Br _ _ P]. unfold rx_progress in P.
    destruct (rx_st s); [congruence|destruct P; congruence..| |congruence].
    destruct P as (_ & Hh & Epos & Hp).
    destruct (complete_frame _ _ Br Lr Hh Hp) as (cmd & res & p & ? & ? & ? & ? & En & ? & Et).
    exists cmd, res, p. rewrite Epos, Et, En. split_and!; done || lia.
Qed.

(** a frame with a nonzero reserved field, in chunks as the FIFO delivers them *)
Definition demo_isr_frame : list Z := isr_frame_with CMD_ANT_SELECT [1; 0; 0; 0] [2].
Definition isr_demo : isr :=
  match spi0_handler demo_isr_frame [] (isr_bss 0) with Some (s, _, _) => s | None => isr_bss 0 end.

Lemma isr_demo_reachable : isr_reachable isr_demo.
Proof.
  exists 0. unfold isr_demo. destruct (spi0_handler _ _ _) as [[[s rx] tx]|] eqn:E; [|apply rtc_refl].
  apply rtc_once. eapply isr_interrupt; [|exact E]. apply bytesb_bytes. vm_compute. reflexivity.
Qed.

Lemma isr_frames_checked_witness :
  (fun r => snd r) <$> spi0_rx_get_frame isr_demo = Some 21 /\
  forall buf len, spi0_rx_get_frame isr_demo = Some (buf, len) ->
     exists cmd reserved p, byte cmd /\ length reserved = 4%nat /\
       len = 20 + Z.of_nat (length p) /\ (length p <= 4092)%nat /\
       take (Z.to_nat len) buf = isr_frame_with cmd reserved p.
Proof.
  split; [vm_compute; reflexivity|].
  apply (isr_frames_checked isr_demo). apply isr_demo_reachable.
Defined.

(** C20: a frame from the driver is handed over intact: fed to the handler while it looks for a
    sync byte, it becomes available with exactly its bytes and length, counts
    as validated once, and stays unchanged however many bytes [l] arrive before
    the main loop releases it; the release zeroes every one of its bytes and
    returns the handler to idle. *)
Theorem isr_delivers_frame (s : isr) (cmd : Z) (p l : list Z)
    (W : isr_wf s) (Hst : rx_st s = FRAME_STATE_IDLE \/ rx_st s = FRAME_STATE_ERROR)
    (Hcmd : byte cmd) (Hp : bytes p) (Hlen : (length p <= 4092)%nat) :
  let f := encode_frame (crc:=apex_frame_crc) cmd p in
  exists s', feed (f ++ l) s = Some s' /\
    (exists buf, spi0_rx_get_frame s' = Some (buf, 20 + Z.of_nat (length p)) /\
       take (length f) buf = f) /\
    (l = [] -> st_frames_validated s' = incr32 (st_frames_validated s)) /\
    let r := spi0_rx_release_frame s' in
    rx_st r = FRAME_STATE_IDLE /\ spi0_rx_get_frame r = None /\
    forall i, (i < length f)%nat -> rx_buf r !! i = Some 0.
Proof.
  intros f. subst f. rewrite <- encode_frame_agree, <- isr_frame_with_zero by done.
  assert (bytes (write_le32 0)) as Hres by (rewrite write_le32_bytes; apply le_bytes_bytes).
  assert (length (write_le32 0) = 4%nat) as Hres4
    by (rewrite write_le32_bytes; apply le_bytes_length).
  rewrite (f_length cmd (write_le32 0) p) by done.
  destruct (feed_frame cmd (write_le32 0) p Hcmd Hres Hres4 Hp Hlen s W Hst)
    as (s1 & E1 & W1 & Est & Ef & Epos & Et & Ev).
  destruct (feed_complete l s1 Est) as (s' & E' & Eb & Ep & Est' & Ef').
  exists s'. rewrite feed_app, E1. cbn [mbind option_bind]. split; [done|].
  split; [|split; [|split_and!; [done|done|]]].
  - exists (rx_buf s'). unfold spi0_rx_get_frame. rewrite Ef', Ef, Ep, Epos, Eb. done.
  - intros ->. simpl in E'. by simplify_eq.
  - intros i Hi. simpl. apply secure_wipe_zero; [rewrite Ep, Epos; lia|].
    rewrite Eb, (iw_rx_len _ W1). lia.
Qed.

Lemma isr_delivers_frame_witness :
  exists s', feed (encode_frame (crc:=apex_frame_crc) CMD_NOP [] ++ [0xAA]) (isr_bss 0) = Some s' /\
    rx_st (spi0_rx_release_frame s') = FRAME_STATE_IDLE.
Proof.
  destruct (isr_delivers_frame (isr_bss 0) CMD_NOP [] [0xAA]) as (s' & E & _ & _ & R & _ & _).
  - apply isr_wf_bss.
  - by left.
  - unfold byte, CMD_NOP. lia.
  - apply Forall_nil. exact I.
  - simpl. lia.
  - exists s'. split; [exact E|exact R].
Defined.

(** interrupts only, in any number *)
Inductive isr_interrupted (s : isr) : isr -> Prop :=
| isr_interrupted_intro rx tx s' rx' tx' :
    bytes rx -> spi0_handler rx tx s = Some (s', rx', tx') -> isr_interrupted s s'.

Lemma byte_at_seq_take (l : list Z) n :
  (n <= length l)%nat -> byte_at l <$> seq 0 n = take n l.
Proof. intros. by rewrite <- (slice_byte_at 0 n l) by lia. Qed.

(** one interrupt while a response of more than 16 bytes waits *)
Lemma handler_long_response rx tx s s' rx' tx' :
  response_pending s = true -> 16 < tx_len s ->
  spi0_handler rx tx s = Some (s', rx', tx') ->
  same_tx s s' /\ exists n, (n <= 16)%nat /\ tx' = tx ++ (byte_at (tx_buf s) <$> seq 0 n).
Proof.
  intros Hpend Hlong E. unfold spi0_handler in E.
  destruct (drain_rx 256 rx s) as [[s1 rest]|] eqn:Ed; [|done]. cbn [mbind option_bind] in E.
  apply drain_rx_tx in Ed as [Eb El Ep Eg]. rewrite Ep, Hpend in E.
  pose proof (load_tx_spec 16 0 s1 tx ltac:(lia)) as Hl.
  destruct (load_tx 16 0 s1 tx) as [pos tx1]. destruct Hl as (H1 & _ & ->).
  rewrite (proj2 (Z.leb_gt _ _)) in E by lia. simplify_eq.
  split; [by constructor|]. exists pos. split; [lia|]. by rewrite Eb, Nat.sub_0_r.
Qed.

(** A response frame never reaches the host whole.  The position in the
    response buffer restarts at 0 in every interrupt and at most 16 bytes are
    loaded, while the shortest frame has 20; so after a frame is queued,
    however many interrupts follow, the response stays pending, INT_REQ stays
    asserted, and each interrupt loads again a prefix of the first 16 bytes. *)
Theorem queued_frame_never_completes (s s' : isr) (cmd : Z) (p : list Z)
    (Hs : isr_reachable s) (Hlen : (length p <= 4092)%nat)
    (Hr : rtc isr_interrupted
       (spi0_tx_queue_response (encode_frame cmd p) (20 + Z.of_nat (length p)) s) s') :
  response_pending s' = true /\ isr_int_req_low s' = true /\
  forall rx tx s'' rx' tx', spi0_handler rx tx s' = Some (s'', rx', tx') ->
    exists n, (n <= 16)%nat /\ tx' = tx ++ take n (encode_frame cmd p).
Proof.
  set (q := spi0_tx_queue_response _ _ s) in Hr.
  assert (Hq : response_pending q = true /\ tx_len q = 20 + Z.of_nat (length p) /\
    isr_int_req_low q = true /\ take 20 (tx_buf q) = take 20 (encode_frame cmd p) /\
    length (tx_buf q) = 4112%nat).
  { apply isr_reachable_wf in Hs as [_ _ Lt _ _]. subst q. unfold spi0_tx_queue_response.
    replace (SPI_FRAME_BUF_SIZE <? _) with false
      by (unfold SPI_FRAME_BUF_SIZE, SPI_HDR_SIZE, SPI_MAX_PAYLOAD, SPI_CRC32_SIZE; symmetry; lia).
    pose proof (encode_frame_length cmd p) as Lf.
    revert Lf. generalize (encode_frame cmd p). intros fr Lf.
    rewrite (take_ge fr) by lia. split_and!; [done|done| | |].
    - unfold isr_int_req_low. simpl. by rewrite testbit_clear by done.
    - simpl tx_buf. unfold overwrite. by rewrite take_app_le by lia.
    - simpl tx_buf. by rewrite overwrite_length by lia. }
  clearbody q. destruct Hq as (Hp & Hl & Hi & Hb & Lb).
  assert (same_tx q s') as [Eb El Ep Eg].
  { clear Hi. induction Hr as [q|q q1 s' [rx tx q2 rx' tx' Hrx E] Hr IH]; [by constructor|].
    destruct (handler_long_response _ _ _ _ _ _ Hp ltac:(lia) E) as [[Eb El Ep Eg] _].
    rewrite Ep, El, Eb in IH. destruct (IH Hp Hl Hb Lb) as [E1 E2 E3 E4].
    constructor; [by rewrite E1|by rewrite E2|by rewrite E3|by rewrite E4]. }
  split; [by rewrite Ep|]. split; [unfold isr_int_req_low in *; by rewrite Eg|].
  intros rx tx s'' rx' tx' E.
  destruct (handler_long_response _ _ _ _ _ _ ltac:(by rewrite Ep) ltac:(lia) E) as [_ (n & Hn & ->)].
  exists n. split; [done|]. f_equal. rewrite Eb, byte_at_seq_take by lia.
  apply (take_le_eq _ _ n 20); [lia|done].
Qed.

Lemma queued_frame_never_completes_witness :
  response_pending (spi0_tx_queue_response (encode_frame CMD_TELEMETRY []) 20 (isr_bss 0)) = true.
Proof.
  destruct (queued_frame_never_completes (isr_bss 0)
    (spi0_tx_queue_response (encode_frame CMD_TELEMETRY []) 20 (isr_bss 0)) CMD_TELEMETRY [])
    as (H & _ & _).
  - exists 0. apply rtc_refl.
  - simpl. lia.
  - apply rtc_refl.
  - exact H.
Defined.
