(* ===== verification/IsrPreempt.v ===== *)
(** * Handing a received frame over, preempted by the SPI0 interrupt

    spi0_rx_get_frame gives the main loop a pointer into the buffer the
    interrupt handler assembles frames in, and spi0_rx_release_frame wipes the
    buffer and then stores four fields, while the handler may run before each
    of these stores.  What keeps the two apart is the assembly state: while it
    is COMPLETE the handler drops every byte, and the release stores it last. *)

From S2P Require Import Prelude Interleave Crc Frame Board Spi0Isr.

(** ** Micro-steps of spi0_rx_release_frame *)

Inductive release_pc :=
| RelWipe (i : nat)   (* for (i = 0; i < spi0_rx.pos; i++) p[i] = 0 *)
| RelReady            (* spi0_rx.frame_ready = false *)
| RelPos              (* spi0_rx.pos = 0 *)
| RelLen              (* spi0_rx.payload_len = 0 *)
| RelState            (* spi0_rx.state = FRAME_STATE_IDLE *)
| RelDone.
#[export] Instance release_pc_eq_dec : EqDecision release_pc.
Proof. solve_decision. Defined.

Definition release_step (pc : release_pc) (s : isr) : option (release_pc * isr) :=
  match pc with
  | RelWipe i =>
      if Z.of_nat i <? rx_pos s then
        buf ← buf_set (rx_buf s) (Z.of_nat i) 0;
        Some (RelWipe (S i), s <| rx_buf := buf |>)
      else Some (RelReady, s)
  | RelReady => Some (RelPos, s <| frame_ready := false |>)
  | RelPos => Some (RelLen, s <| rx_pos := 0 |>)
  | RelLen => Some (RelState, s <| rx_payload_len := 0 |>)
  | RelState => Some (RelDone, s <| rx_st := FRAME_STATE_IDLE |>)
  | RelDone => Some (RelDone, s)
  end.

(** one run of the handler, on what the two FIFOs hold *)
Definition handler_irq (fifos : list Z * list Z) (s : isr) : option isr :=
  '(s, _, _) ← spi0_handler (fst fifos) (snd fifos) s; Some s.

Definition released (pc : release_pc) : Prop :=
  match pc with RelDone => True | _ => False end.

(** ** The handler while a frame waits *)

(** the part of the receive state the release stores before the last *)
Definition set_rx_frame (buf : list Z) (pos len : Z) (ready : bool) (s : isr) : isr :=
  s <| rx_buf := buf |> <| rx_pos := pos |> <| rx_payload_len := len |> <| frame_ready := ready |>.

Lemma set_rx_frame_id s :
  set_rx_frame (rx_buf s) (rx_pos s) (rx_payload_len s) (frame_ready s) s = s.
Proof. by destruct s. Qed.

Lemma drain_rx_complete n fifo buf pos len rdy s :
  rx_st s = FRAME_STATE_COMPLETE ->
  exists s' rest, drain_rx n fifo s = Some (s', rest) /\ rx_st s' = FRAME_STATE_COMPLETE /\
    drain_rx n fifo (set_rx_frame buf pos len rdy s) = Some (set_rx_frame buf pos len rdy s', rest).
Proof.
  revert n s. induction fifo as [|b fifo IH]; intros n s Hst.
  { exists s, []. by destruct n. }
  rewrite !drain_rx_cons. unfold spi0_process_byte. simpl. rewrite Hst. cbn [mbind option_bind].
  destruct n as [|[|n]]; [eexists _, _; (split; [reflexivity|]); by split..|].
  replace ((set_rx_frame buf pos len rdy s) <| st_bytes_received ::= incr32 |>
      <| st_rx_overflows ::= incr32 |>)
    with (set_rx_frame buf pos len rdy
      (s <| st_bytes_received ::= incr32 |> <| st_rx_overflows ::= incr32 |>))
    by by destruct s.
  by apply (IH (S n)).
Qed.

(** While the state is COMPLETE the handler neither reads nor writes the frame. *)
Lemma handler_complete fifos buf pos len rdy s :
  rx_st s = FRAME_STATE_COMPLETE ->
  exists s', handler_irq fifos s = Some s' /\ rx_st s' = FRAME_STATE_COMPLETE /\
    handler_irq fifos (set_rx_frame buf pos len rdy s) = Some (set_rx_frame buf pos len rdy s').
Proof.
  intros Hst. unfold handler_irq, spi0_handler.
  destruct (drain_rx_complete 256 (fst fifos) buf pos len rdy s Hst)
    as (s1 & rest & -> & Hst1 & ->). cbn [mbind option_bind].
  change (response_pending (set_rx_frame buf pos len rdy s1)) with (response_pending s1).
  destruct (response_pending s1); [|by exists s1].
  assert (forall n p tx, load_tx n p (set_rx_frame buf pos len rdy s1) tx = load_tx n p s1 tx) as ->.
  { induction n as [|n IH]; intros p tx; [done|]. cbn [load_tx].
    change (tx_len (set_rx_frame buf pos len rdy s1)) with (tx_len s1).
    change (tx_buf (set_rx_frame buf pos len rdy s1)) with (tx_buf s1). by rewrite IH. }
  destruct (load_tx _ _ _ _) as [p tx].
  change (tx_len (set_rx_frame buf pos len rdy s1)) with (tx_len s1).
  destruct (_ <=? _); eexists; by split.
Qed.

(** in particular the frame is what it was *)
Lemma handler_keeps_frame fifos s s' :
  rx_st s = FRAME_STATE_COMPLETE -> handler_irq fifos s = Some s' ->
  rx_st s' = FRAME_STATE_COMPLETE /\
  s' = set_rx_frame (rx_buf s) (rx_pos s) (rx_payload_len s) (frame_ready s) s'.
Proof.
  intros Hst E. destruct (handler_complete fifos (rx_buf s) (rx_pos s) (rx_payload_len s)
    (frame_ready s) s Hst) as (t & E1 & Ht & E2).
  rewrite set_rx_frame_id, E1 in E2. rewrite E1 in E. by simplify_eq.
Qed.

(** ** The release *)

Record bufs_ok (s : isr) : Prop := {
  bo_rx_len : length (rx_buf s) = 4112%nat;
  bo_rx_bytes : bytes (rx_buf s);
  bo_tx_len : length (tx_buf s) = 4112%nat;
  bo_tx_fits : 0 <= tx_len s <= 4112;
}.

Definition release_at (pc : release_pc) (s : isr) : Prop :=
  match pc with
  | RelWipe i => rx_st s = FRAME_STATE_COMPLETE /\ Z.of_nat i <= rx_pos s <= 4112
  | RelReady => rx_st s = FRAME_STATE_COMPLETE
  | RelPos | RelLen | RelState => rx_st s = FRAME_STATE_COMPLETE /\ frame_ready s = false
  | RelDone => rx_progress s
  end.

Definition release_ok (l : list (list Z * list Z)) (pc : release_pc) (s : isr) : Prop :=
  Forall (fun f => bytes (fst f)) l /\ bufs_ok s /\ release_at pc s.

Definition release_work (pc : release_pc) (s : isr) : Z :=
  match pc with
  | RelWipe i => rx_pos s - Z.of_nat i + 5
  | RelReady => 4 | RelPos => 3 | RelLen => 2 | RelState => 1 | RelDone => 0
  end.

Lemma handler_irq_wf fifos s :
  isr_wf s -> bytes (fst fifos) -> exists s', handler_irq fifos s = Some s' /\ isr_wf s'.
Proof.
  intros W Hb. unfold handler_irq.
  destruct (spi0_handler_wf (fst fifos) (snd fifos) s Hb W) as (s1 & ? & ? & -> & W1).
  by exists s1.
Qed.

(** the transmit buffer and its length are the main loop's *)
Lemma handler_irq_tx fifos s s' :
  handler_irq fifos s = Some s' -> tx_buf s' = tx_buf s /\ tx_len s' = tx_len s.
Proof.
  unfold handler_irq, spi0_handler. destruct (drain_rx _ _ _) as [[s1 rest]|] eqn:Ed; [|done].
  apply drain_rx_tx in Ed as [Eb El _ _]. cbn [mbind option_bind].
  destruct (response_pending s1); [destruct (load_tx _ _ _ _); case_match|];
    intros [= <-]; simpl; by rewrite Eb, El.
Qed.

Lemma release_at_complete pc s :
  release_at pc s -> pc = RelDone \/ (pc <> RelDone /\ rx_st s = FRAME_STATE_COMPLETE).
Proof. destruct pc; simpl; intuition congruence. Qed.

Lemma release_ok_irq fifos l pc s :
  release_ok (fifos :: l) pc s ->
  exists s', handler_irq fifos s = Some s' /\ release_ok l pc s' /\
    release_work pc s' <= release_work pc s + 0.
Proof.
  intros (Hl & Bo & Hpc). apply Forall_cons in Hl as [Hf Hl].
  destruct (release_at_complete _ _ Hpc) as [->|[Hne Hc]].
  { destruct Bo. destruct (handler_irq_wf fifos s) as (s' & E & []); [by constructor|done|].
    by exists s'. }
  destruct (handler_complete fifos (rx_buf s) (rx_pos s) (rx_payload_len s) (frame_ready s) s Hc)
    as (s' & E & Hc' & _).
  destruct (handler_keeps_frame _ _ _ Hc E) as [_ Es].
  destruct (handler_irq_tx _ _ _ E) as [Etb Etl].
  assert (rx_buf s' = rx_buf s /\ rx_pos s' = rx_pos s /\ frame_ready s' = frame_ready s)
    as (Eb & Ep & Er) by by rewrite Es.
  exists s'. split; [done|]. split; [split; [done|split]|].
  - destruct Bo. constructor; congruence.
  - destruct pc; simpl in *; rewrite ?Ep, ?Er, ?Hc'; tauto.
  - destruct pc; simpl; rewrite ?Ep; lia.
Qed.

Lemma release_ok_step l pc s :
  release_ok l pc s ->
  exists pc' s', release_step pc s = Some (pc', s') /\ release_ok l pc' s' /\
    (released pc \/ release_work pc' s' <= release_work pc s - 1).
Proof.
  intros (Hl & Bo & Hpc). pose proof Bo as [Lr Br Lt Ft].
  destruct pc as [i| | | | |]; simpl in Hpc |- *.
  - destruct Hpc as [Hc Hi]. case_match eqn:E.
    + rewrite buf_set_ok by lia. cbn [mbind option_bind].
      eexists _, _. split; [reflexivity|]. split; [split; [done|split]|simpl; lia].
      * constructor; simpl; try done; [by rewrite length_insert|by apply bytes_insert].
      * simpl. split; [done|lia].
    + exists RelReady, s. split; [done|]. split; [by split|simpl; lia].
  - eexists _, _. split; [reflexivity|]. split; [split; [done|split; [by constructor|done]]|simpl; lia].
  - eexists _, _. split; [reflexivity|]. split; [split; [done|split; [by constructor|done]]|simpl; lia].
  - eexists _, _. split; [reflexivity|]. split; [split; [done|split; [by constructor|done]]|simpl; lia].
  - eexists _, _. split; [reflexivity|]. split; [split; [done|split; [by constructor|]]|simpl; lia].
    apply Hpc.
  - exists RelDone, s. split; [done|]. split; [by split|by left].
Qed.

(** Every store but the last may be moved behind the interrupt that follows. *)
Lemma release_step_later fifos l pc s pc' s' s1 :
  release_ok (fifos :: l) pc s -> ~ released pc' -> release_step pc s = Some (pc', s') ->
  handler_irq fifos s = Some s1 ->
  exists u, handler_irq fifos s' = Some u /\ release_step pc s1 = Some (pc', u).
Proof.
  intros (_ & _ & Hpc) Hnf E E1.
  destruct (release_at_complete _ _ Hpc) as [->|[_ Hc]]; [by simplify_eq/=|].
  destruct (handler_keeps_frame _ _ _ Hc E1) as [Hc1 Es].
  assert (rx_buf s1 = rx_buf s /\ rx_pos s1 = rx_pos s /\ frame_ready s1 = frame_ready s /\
    rx_payload_len s1 = rx_payload_len s) as (Eb & Ep & Er & El) by by rewrite Es.
  assert (forall buf pos len rdy, s' = set_rx_frame buf pos len rdy s ->
    handler_irq fifos s' = Some (set_rx_frame buf pos len rdy s1)) as Hcomm.
  { intros buf pos len rdy ->.
    destruct (handler_complete fifos buf pos len rdy s Hc) as (t & Et & _ & Et').
    rewrite E1 in Et. by injection Et as <-. }
  destruct pc as [i| | | | |]; simpl in E |- *; try by simplify_eq.
  - rewrite Eb, Ep. case_match; simplify_eq; [|by exists s1].
    destruct (buf_set _ _ _) as [buf|]; [|done]. cbn [mbind option_bind] in *. simplify_eq.
    eexists. split; [apply (Hcomm buf (rx_pos s) (rx_payload_len s) (frame_ready s)); by destruct s|].
    rewrite <- Ep, <- Er, <- El. by destruct s1.
  - simplify_eq. eexists. split; [apply (Hcomm (rx_buf s) (rx_pos s) (rx_payload_len s) false); by destruct s|].
    rewrite <- Ep, <- Eb, <- El. by destruct s1.
  - simplify_eq. eexists. split; [apply (Hcomm (rx_buf s) 0 (rx_payload_len s) (frame_ready s)); by destruct s|].
    rewrite <- Er, <- Eb, <- El. by destruct s1.
  - simplify_eq. eexists. split; [apply (Hcomm (rx_buf s) (rx_pos s) 0 (frame_ready s)); by destruct s|].
    rewrite <- Er, <- Eb, <- Ep. by destruct s1.
Qed.

Lemma release_linearizable :
  linearizable release_step handler_irq released release_ok release_work 0.
Proof.
  constructor.
  - intros []; simpl; auto.
  - by intros [] s Hf.
  - apply release_ok_irq.
  - apply release_ok_step.
  - intros l [] s (_ & _ & Hpc) Hw; simpl in *; done || lia.
  - apply release_step_later.
Qed.

(** Alone, the stores are spi0_rx_release_frame. *)
Lemma secure_wipe_step i l :
  (i < length l)%nat -> buf_set (secure_wipe i l) (Z.of_nat i) 0 = Some (secure_wipe (S i) l).
Proof.
  intros Hi. rewrite buf_set_ok by (rewrite secure_wipe_length; lia). f_equal.
  rewrite Nat2Z.id. unfold secure_wipe, overwrite. rewrite !length_replicate.
  rewrite (Nat.min_l i), (Nat.min_l (S i)) by lia.
  rewrite insert_app_r_alt by (rewrite length_replicate; lia).
  rewrite length_replicate, Nat.sub_diag.
  destruct (lookup_lt_is_Some_2 l i Hi) as [b Eb].
  rewrite (drop_S l b i Eb). simpl.
  by rewrite app_comm_cons, replicate_cons_app, <- app_assoc.
Qed.

Lemma release_alone s :
  length (rx_buf s) = 4112%nat -> 0 <= rx_pos s <= 4112 ->
  alone release_step released (RelWipe 0) s (RelDone, spi0_rx_release_frame s).
Proof.
  intros Lr Hp.
  enough (forall k i, (i + k)%nat = Z.to_nat (rx_pos s) ->
    alone release_step released (RelWipe i) (s <| rx_buf := secure_wipe i (rx_buf s) |>)
      (RelDone, spi0_rx_release_frame s)) as H.
  { specialize (H (Z.to_nat (rx_pos s)) O eq_refl). by destruct s. }
  induction k as [|k IH]; intros i Hi.
  - eapply alone_step; [by intros []|simpl; by rewrite (proj2 (Z.ltb_ge _ _)) by lia|].
    do 4 (eapply alone_step; [by intros []|reflexivity|]).
    replace (spi0_rx_release_frame s) with
      ((s <| rx_buf := secure_wipe i (rx_buf s) |> <| frame_ready := false |> <| rx_pos := 0 |>)
         <| rx_payload_len := 0 |> <| rx_st := FRAME_STATE_IDLE |>); [by constructor|].
    unfold spi0_rx_release_frame. by replace i with (Z.to_nat (rx_pos s)) by lia.
  - eapply alone_step; [by intros []| |apply (IH (S i)); lia].
    simpl. rewrite (proj2 (Z.ltb_lt _ _)) by lia. by rewrite secure_wipe_step by lia.
Qed.

(** ** Properties *)

(** C21: the main loop owns a ready frame until it has released it. Under any
    schedule of interrupts that gives spi0_rx_release_frame its turns it
    returns, and the outcome is that of some of the interrupts before the
    whole release and the rest after it; through those before, the frame that
    spi0_rx_get_frame hands out stays what it was, byte for byte. *)
Theorem ready_frame_owned (l : list (event (list Z * list Z))) (s : isr) (buf : list Z) (len : Z)
    (Hs : isr_reachable s) (Hget : spi0_rx_get_frame s = Some (buf, len))
    (Hl : Forall (fun f => bytes (fst f)) (received l))
    (Hturns : len + 5 <= Z.of_nat (main_steps l)) :
  exists t before after s1,
    run_schedule release_step handler_irq l (RelWipe 0) s = Some (RelDone, t) /\
    received l = before ++ after /\ irqs handler_irq before s = Some s1 /\
    spi0_rx_get_frame s1 = Some (buf, len) /\
    irqs handler_irq after (spi0_rx_release_frame s1) = Some t.
Proof.
  apply isr_reachable_wf in Hs as W. pose proof W as [Lr Br Lt Ft P].
  unfold spi0_rx_get_frame in Hget. case_match eqn:Ef; simplify_eq.
  apply negb_false_iff in Ef. unfold rx_progress in P.
  destruct (rx_st s) eqn:Est; [congruence|destruct P; congruence..| |congruence].
  destruct P as (_ & (_ & _ & Hlen & Hle) & Hpos & _).
  pose proof (extract_payload_length_range _ Br) as Hr.
  assert (Hok : release_ok (received l) (RelWipe 0) s).
  { split; [done|]. split; [by constructor|]. simpl. split; [done|lia]. }
  destruct (run_schedule_total _ _ _ _ _ _ release_linearizable l _ _ Hok)
    as (pc & t & Er & _ & Hd).
  destruct pc; try (destruct Hd; simpl; lia).
  destruct (run_schedule_linear _ _ _ _ _ _ release_linearizable l _ _ _ _ Er I Hok)
    as (l1 & l2 & s1 & s2 & El & E1 & Ha & E2).
  exists t, l1, l2, s1.
  assert (rx_buf s1 = rx_buf s /\ rx_pos s1 = rx_pos s /\ frame_ready s1 = frame_ready s)
    as (Eb & Ep & Erdy).
  { clear -E1 Est. revert s E1 Est. induction l1 as [|f l1 IH]; simpl; intros s E1 Est; [by simplify_eq|].
    destruct (handler_irq f s) as [u|] eqn:Eu; [|done]. simpl in E1.
    destruct (handler_keeps_frame _ _ _ Est Eu) as [Hc Es].
    destruct (IH u E1 Hc) as (-> & -> & ->). by rewrite Es. }
  split; [done|]. split; [done|]. split; [done|]. split; [unfold spi0_rx_get_frame; by rewrite Erdy, Ef, Eb, Ep|].
  assert ((RelDone, s2) = (RelDone, spi0_rx_release_frame s1)) as [= ->]; [|done].
  eapply alone_det; [exact Ha|]. apply release_alone; rewrite ?Eb, ?Ep; [done|lia].
Qed.

Definition late_bytes : list (event (list Z * list Z)) :=
  replicate 3 EvMain ++ [EvIrq ([0xAA; 1], [])] ++ replicate 30 EvMain ++ [EvIrq ([0xAA], [])].

Lemma ready_frame_owned_witness :
  exists t before after s1,
    run_schedule release_step handler_irq late_bytes (RelWipe 0) isr_demo = Some (RelDone, t) /\
    received late_bytes = before ++ after /\ irqs handler_irq before isr_demo = Some s1 /\
    spi0_rx_get_frame s1 = Some (rx_buf isr_demo, 21) /\
    irqs handler_irq after (spi0_rx_release_frame s1) = Some t.
Proof.
  apply (ready_frame_owned late_bytes isr_demo (rx_buf isr_demo) 21).
  - apply isr_demo_reachable.
  - vm_compute. reflexivity.
  - repeat constructor; done.
  - vm_compute. discriminate.
Defined.

(** ** Queueing a response while another waits *)

(** [memcpy(spi0_tx.buf, frame, len)] after [k] bytes *)
Definition queue_copied (k : nat) (frame : list Z) (s : isr) : isr :=
  s <| tx_buf := overwrite (take k frame) (tx_buf s) |>.

Lemma load_tx_full n pos s tx :
  (pos + n = 16)%nat -> length tx = pos -> 16 < tx_len s ->
  load_tx n pos s tx = (16%nat, tx ++ (byte_at (tx_buf s) <$> seq pos n)).
Proof.
  revert pos tx. induction n as [|n IH]; intros pos tx Hn Hl Ht; cbn [load_tx].
  - rewrite app_nil_r. f_equal. lia.
  - rewrite (proj2 (Z.ltb_lt _ _)), (proj2 (Nat.ltb_lt _ _)) by (unfold TX_FIFO_DEPTH; lia).
    cbn [andb]. rewrite IH; [|lia|rewrite length_app; simpl; lia|done].
    by rewrite <- app_assoc.
Qed.

(** An interrupt inside the copy of a second response sends a frame made of
    both: spi0_tx_queue_response does not clear response_pending first. *)
Theorem second_response_torn (k : nat) (frame rx : list Z) (s s' : isr) (rx' tx' : list Z)
    (W : isr_wf s) (Hpend : response_pending s = true) (Hlong : 16 < tx_len s)
    (Hk : (k <= 16)%nat) (Hf : (16 <= length frame)%nat)
    (E : spi0_handler rx [] (queue_copied k frame s) = Some (s', rx', tx')) :
  tx' = take k frame ++ slice k (16 - k) (tx_buf s).
Proof.
  destruct W as [_ _ Lt _ _]. unfold spi0_handler in E.
  destruct (drain_rx 256 rx (queue_copied k frame s)) as [[s1 rest]|] eqn:Ed; [|done].
  cbn [mbind option_bind] in E. apply drain_rx_tx in Ed as [Eb El Ep _].
  change (response_pending _) with (response_pending s) in Ep at 2. simpl in El, Eb.
  rewrite Ep, Hpend, (load_tx_full 16 0 s1 []) in E by (done || lia). rewrite El in E.
  rewrite (proj2 (Z.leb_gt _ _)) in E by lia.
  assert (tx' = [] ++ (byte_at (tx_buf s1) <$> seq 0 16)) as -> by congruence.
  assert (length (take k frame) = k) as Lk by (rewrite length_take; lia).
  cbn [app]. rewrite Eb, byte_at_seq_take by (rewrite overwrite_length; lia).
  unfold overwrite, slice. rewrite take_app, Lk, (take_ge (take k frame)) by lia. done.
Qed.
