(* ===== verification/SdrDma.v ===== *)
(** * The SDR capture ring (sdr_dma.c)

    Eight blocks of 512 bytes filled by DMA channel 0 and read by the protocol
    side.  The write and read indices, the count of filled blocks (a uint8_t)
    and the DMA registers the code writes are fields of the state; a completed
    transfer is the call of the interrupt handler with INTS0 bit 0 set. *)

From S2P Require Import Prelude.

Definition SDR_RING_NUM_BLOCKS : Z := 8.
Definition SDR_RING_BLOCK_SIZE : Z := 512.
Definition SDR_RING_BUF_SIZE : Z := SDR_RING_NUM_BLOCKS * SDR_RING_BLOCK_SIZE.

(** control word of a block transfer, with the bits of the file *)
Definition DMA_CTRL_EN : Z := BIT 0.
Definition DMA_CTRL_DATA_SIZE_8 : Z := 0.
Definition DMA_CTRL_INCR_WRITE : Z := BIT 5.
Definition DMA_TREQ_SPI1_RX : Z := 0x0A.
Definition DMA_CTRL_IRQ_QUIET : Z := BIT 21.

Record dma_stats := {
  total_blocks_captured : Z; total_blocks_sent : Z; overruns : Z; underruns : Z
}.
#[export] Instance eta_dma_stats : Eta dma_stats :=
  eta! Build_dma_stats < total_blocks_captured ; total_blocks_sent ; overruns ; underruns >.

Record sdr_dma := {
  sdr_ring_buf : list Z;
  dma_write_block : Z; proto_read_block : Z; blocks_filled : Z;
  dma_running : bool; dma_irq_count : Z;
  stats : dma_stats;
  (* registers: the ring offset the channel writes to, its transfer count and
     control word, the channel enables, the interrupt enables and flags *)
  ch0_write : Z; ch0_trans : Z; ch0_ctrl : Z;
  chan_en0 : Z; inte0 : Z; ints0 : Z;
}.
#[export] Instance eta_sdr_dma : Eta sdr_dma :=
  eta! Build_sdr_dma < sdr_ring_buf ; dma_write_block ; proto_read_block ; blocks_filled ;
    dma_running ; dma_irq_count ; stats ; ch0_write ; ch0_trans ; ch0_ctrl ;
    chan_en0 ; inte0 ; ints0 >.

(** INTS0 is write-one-to-clear *)
Definition clear_ints0 (m : Z) (s : sdr_dma) : sdr_dma := s <| ints0 ::= fun v => Z.ldiff v m |>.

Definition sdr_dma_start_block (block_idx : Z) (s : sdr_dma) : sdr_dma :=
  s <| ch0_write := block_idx * SDR_RING_BLOCK_SIZE |>
    <| ch0_trans := SDR_RING_BLOCK_SIZE |>
    <| ch0_ctrl := Z.lor (Z.lor (Z.lor (Z.lor DMA_CTRL_EN DMA_CTRL_DATA_SIZE_8)
                   DMA_CTRL_INCR_WRITE) (Z.shiftl DMA_TREQ_SPI1_RX 15)) DMA_CTRL_IRQ_QUIET |>
    <| inte0 ::= fun v => Z.lor v 1 |>
    <| chan_en0 ::= fun v => Z.lor v 1 |>.

Definition next_block (i : Z) : Z := (i + 1) mod SDR_RING_NUM_BLOCKS.

Definition sdr_dma_irq_handler (ints : Z) (s : sdr_dma) : sdr_dma :=
  let s := s <| dma_irq_count ::= incr32 |> in
  if has_bits ints 1 then
    let s := clear_ints0 1 s in
    let next_write := next_block (dma_write_block s) in
    let s :=
      if next_write =? proto_read_block s then
        s <| stats ::= fun t => t <| overruns ::= incr32 |> |>
          <| proto_read_block ::= next_block |>
      else s in
    let s := s <| dma_write_block := next_write |>
               <| blocks_filled ::= fun n => u8 (n + 1) |>
               <| stats ::= fun t => t <| total_blocks_captured ::= incr32 |> |> in
    if dma_running s then sdr_dma_start_block next_write s else s
  else s.

Definition sdr_dma_init (s : sdr_dma) : sdr_dma * Z :=
  (s <| sdr_ring_buf := replicate (Z.to_nat SDR_RING_BUF_SIZE) 0 |>
     <| dma_write_block := 0 |> <| proto_read_block := 0 |> <| blocks_filled := 0 |>
     <| dma_running := false |> <| dma_irq_count := 0 |>
     <| stats := Build_dma_stats 0 0 0 0 |>
     <| chan_en0 := 0 |> <| ints0 := 0 |> <| inte0 := 0 |>, 0).

Definition sdr_dma_start (s : sdr_dma) : sdr_dma * Z :=
  if dma_running s then (s, 0) else
  let s := s <| dma_write_block := 0 |> <| proto_read_block := 0 |> <| blocks_filled := 0 |>
             <| dma_running := true |> in
  (sdr_dma_start_block 0 s, 0).

Definition sdr_dma_stop (s : sdr_dma) : sdr_dma :=
  let s := s <| dma_running := false |> <| chan_en0 ::= fun v => Z.ldiff v 1 |>
             <| ch0_ctrl := 0 |> <| inte0 ::= fun v => Z.ldiff v 1 |> in
  let s := clear_ints0 1 s in
  s <| sdr_ring_buf ::= secure_wipe (Z.to_nat SDR_RING_BUF_SIZE) |>.

(** the block index, its size and its bytes *)
Definition sdr_dma_get_block (s : sdr_dma) : option (Z * Z * list Z) * sdr_dma :=
  let underrun := s <| stats ::= fun t => t <| underruns ::= incr32 |> |> in
  if blocks_filled s =? 0 then (None, underrun) else
  let idx := proto_read_block s in
  if SDR_RING_NUM_BLOCKS <=? idx then (None, underrun) else
  (Some (idx, SDR_RING_BLOCK_SIZE,
         slice (Z.to_nat (idx * SDR_RING_BLOCK_SIZE)) (Z.to_nat SDR_RING_BLOCK_SIZE)
               (sdr_ring_buf s)), s).

Definition sdr_dma_release_block (s : sdr_dma) : sdr_dma :=
  if 0 <? blocks_filled s then
    s <| proto_read_block ::= next_block |> <| blocks_filled ::= fun n => u8 (n - 1) |>
      <| stats ::= fun t => t <| total_blocks_sent ::= incr32 |> |>
  else s.

Definition sdr_dma_get_stats (s : sdr_dma) : Z * Z * Z * Z :=
  (total_blocks_captured (stats s), total_blocks_sent (stats s),
   overruns (stats s), underruns (stats s)).
Definition sdr_dma_is_running (s : sdr_dma) : bool := dma_running s.
Definition sdr_dma_blocks_available (s : sdr_dma) : Z := blocks_filled s.

(** ** Invariant *)

(** blocks between the read and the write index *)
Definition unread (s : sdr_dma) : Z :=
  (dma_write_block s - proto_read_block s) mod SDR_RING_NUM_BLOCKS.

Record dma_wf (s : sdr_dma) : Prop := {
  dw_buf : length (sdr_ring_buf s) = 4096%nat;
  dw_write : 0 <= dma_write_block s < 8;
  dw_read : 0 <= proto_read_block s < 8;
  dw_filled : 0 <= blocks_filled s < 256;
}.

(** the count agrees with the indices *)
Definition in_step (s : sdr_dma) : Prop := blocks_filled s = unread s.

Lemma next_block_range i : 0 <= next_block i < 8.
Proof. by apply Z.mod_pos_bound. Qed.

Lemma next_block_cases i : 0 <= i < 8 ->
  (i < 7 /\ next_block i = i + 1) \/ (i = 7 /\ next_block i = 0).
Proof.
  intros Hi. unfold next_block, SDR_RING_NUM_BLOCKS.
  destruct (Z.eq_dec i 7) as [->|]; [by right|]. left. rewrite Z.mod_small; lia.
Qed.

Lemma unread_cases s : dma_wf s ->
  (proto_read_block s <= dma_write_block s /\
     unread s = dma_write_block s - proto_read_block s) \/
  (dma_write_block s < proto_read_block s /\
     unread s = dma_write_block s - proto_read_block s + 8).
Proof.
  intros [_ Hw Hr _]. unfold unread, SDR_RING_NUM_BLOCKS.
  destruct (Z.le_gt_cases (proto_read_block s) (dma_write_block s)).
  - left. split; [done|]. apply Z.mod_small. lia.
  - right. split; [done|]. symmetry. apply (Z.mod_unique_pos _ 8 (-1)); lia.
Qed.

Lemma unread_range s : 0 <= unread s < 8.
Proof. by apply Z.mod_pos_bound. Qed.

Lemma unread_eq s w r n :
  dma_write_block s = w -> proto_read_block s = r -> 0 <= n < 8 ->
  (exists k, w - r = n + 8 * k) -> unread s = n.
Proof.
  intros <- <- Hn [k Ek]. unfold unread, SDR_RING_NUM_BLOCKS.
  symmetry. apply (Z.mod_unique_pos _ 8 k); lia.
Qed.

(** a completed transfer *)
Definition complete (s : sdr_dma) : sdr_dma := sdr_dma_irq_handler 1 s.

(** the handler's test for an overrun *)
Lemma overrun_test s :
  dma_wf s -> (next_block (dma_write_block s) =? proto_read_block s) = (unread s =? 7).
Proof.
  intros W. pose proof W as [_ Hw Hr _].
  destruct (unread_cases s W) as [[? E]|[? E]], (next_block_cases _ Hw) as [[? En]|[? En]];
    rewrite E, En;
    repeat match goal with |- context [?a =? ?b] => destruct (Z.eqb_spec a b) end; done || lia.
Qed.

Lemma complete_fields s :
  dma_wf s ->
  dma_wf (complete s) /\
  dma_running (complete s) = dma_running s /\
  dma_write_block (complete s) = next_block (dma_write_block s) /\
  blocks_filled (complete s) = u8 (blocks_filled s + 1) /\
  sdr_ring_buf (complete s) = sdr_ring_buf s /\
  total_blocks_captured (stats (complete s)) = incr32 (total_blocks_captured (stats s)) /\
  if unread s =? 7
  then proto_read_block (complete s) = next_block (proto_read_block s) /\
       overruns (stats (complete s)) = incr32 (overruns (stats s))
  else proto_read_block (complete s) = proto_read_block s /\
       overruns (stats (complete s)) = overruns (stats s).
Proof.
  intros W. pose proof W as [Lb Hw Hr Hf].
  pose proof (next_block_range (dma_write_block s)).
  pose proof (next_block_range (proto_read_block s)).
  pose proof (u8_range (blocks_filled s + 1)).
  pose proof (overrun_test s W) as Hc.
  unfold complete, sdr_dma_irq_handler. change (has_bits 1 1) with true. cbv iota.
  simpl. rewrite Hc. destruct (unread s =? 7); simpl; destruct (dma_running s) eqn:Er;
    simpl; split_and!; try done; constructor; simpl; done.
Qed.

Lemma release_fields s :
  dma_wf s -> 0 < blocks_filled s ->
  dma_wf (sdr_dma_release_block s) /\
  dma_write_block (sdr_dma_release_block s) = dma_write_block s /\
  proto_read_block (sdr_dma_release_block s) = next_block (proto_read_block s) /\
  blocks_filled (sdr_dma_release_block s) = blocks_filled s - 1.
Proof.
  intros [Lb Hw Hr Hf] Hpos. unfold sdr_dma_release_block.
  rewrite (proj2 (Z.ltb_lt _ _)) by done.
  split_and!; [|done|done|simpl; by apply u8_small; lia].
  constructor; simpl; [done|done|apply next_block_range|apply u8_range].
Qed.

(** ** Properties *)

(** the operations of the capture loop: a completed transfer, a read attempt,
    a release *)
Inductive dma_op := OpComplete | OpGet | OpRelease.
Definition run_op (s : sdr_dma) (o : dma_op) : sdr_dma :=
  match o with
  | OpComplete => complete s
  | OpGet => snd (sdr_dma_get_block s)
  | OpRelease => sdr_dma_release_block s
  end.

(** what a bounded queue of block indices would hold *)
Fixpoint queue_from (i : Z) (n : nat) : list Z :=
  match n with O => [] | S n => i :: queue_from (next_block i) n end.
Definition dma_queue (s : sdr_dma) : list Z :=
  queue_from (proto_read_block s) (Z.to_nat (unread s)).

Lemma queue_from_snoc i n : 0 <= i < 8 ->
  queue_from i (S n) = queue_from i n ++ [(i + Z.of_nat n) mod 8].
Proof.
  revert i. induction n as [|n IH]; intros i Hi.
  - simpl. by rewrite Z.add_0_r, Z.mod_small.
  - change (queue_from i (S (S n))) with (i :: queue_from (next_block i) (S n)).
    rewrite IH by apply next_block_range. simpl. do 3 f_equal.
    unfold next_block, SDR_RING_NUM_BLOCKS. rewrite Zplus_mod_idemp_l. f_equal. lia.
Qed.

(** *** The ring as a lossy queue

    [unread_blocks] are the indices of the captured blocks nobody has read, in
    order; [announced] is the count the reader sees; [filling] is the block the
    channel writes; [lost] counts the overruns. *)
Record capture_queue := { unread_blocks : list Z; announced : Z; filling : Z; lost : Z }.

Definition capture_view (s : sdr_dma) : capture_queue := {|
  unread_blocks := dma_queue s; announced := blocks_filled s;
  filling := dma_write_block s; lost := overruns (stats s) |}.

Definition full (q : capture_queue) : bool := (length (unread_blocks q) =? 7)%nat.

(** A completion appends the block just filled.  On a full queue the oldest
    one is dropped and counted as lost, but announced all the same.  A release
    takes the head; when the count runs ahead of the queue and the queue is
    empty, it passes the block being filled and brings the seven others back. *)
Definition queue_op (q : capture_queue) (o : dma_op) : capture_queue :=
  match o with
  | OpComplete =>
      {| unread_blocks := (if full q then tail (unread_blocks q) else unread_blocks q) ++ [filling q];
         announced := u8 (announced q + 1); filling := next_block (filling q);
         lost := if full q then incr32 (lost q) else lost q |}
  | OpGet => q
  | OpRelease =>
      if 0 <? announced q then
        {| unread_blocks := match unread_blocks q with
                            | [] => queue_from (next_block (filling q)) 7
                            | _ :: t => t
                            end;
           announced := announced q - 1; filling := filling q; lost := lost q |}
      else q
  end.

(** the block a get hands out: the head, or the one being filled when the count
    runs ahead *)
Definition queue_head (q : capture_queue) : option Z :=
  if announced q =? 0 then None else Some (default (filling q) (head (unread_blocks q))).

(** no completion of [ops] finds the queue full *)
Fixpoint fits (q : capture_queue) (ops : list dma_op) : bool :=
  match ops with
  | [] => true
  | o :: ops => match o with OpComplete => negb (full q) | _ => true end && fits (queue_op q o) ops
  end.

Lemma queue_from_length i n : length (queue_from i n) = n.
Proof. revert i. induction n as [|n IH]; intros i; [done|]. simpl. by rewrite IH. Qed.

Lemma dma_queue_length s : length (dma_queue s) = Z.to_nat (unread s).
Proof. apply queue_from_length. Qed.

Lemma full_view s : full (capture_view s) = (unread s =? 7).
Proof.
  unfold full. cbn. rewrite dma_queue_length. pose proof (unread_range s).
  destruct (Nat.eqb_spec (Z.to_nat (unread s)) 7), (Z.eqb_spec (unread s) 7); done || lia.
Qed.

(** the unread distance after a completion and after a release *)
Lemma complete_unread s : dma_wf s ->
  unread (complete s) = if unread s =? 7 then 7 else unread s + 1.
Proof.
  intros W. destruct (complete_fields s W) as (_ & _ & Ew & _ & _ & _ & Er).
  pose proof W as [_ Hw Hr _]. pose proof (unread_cases s W) as Hu. pose proof (unread_range s).
  destruct (Z.eqb_spec (unread s) 7) as [H7|H7]; destruct Er as [Er _];
    apply (unread_eq _ _ _ _ Ew Er); [lia| |lia|].
  - destruct (next_block_cases _ Hw) as [[? ->]|[? ->]],
      (next_block_cases _ Hr) as [[? ->]|[? ->]], Hu as [[? E]|[? E]];
      [exists 0|exists (-1)|exists 1|exists 0|exists (-1)|exists (-2)|exists 0|exists (-1)]; lia.
  - destruct (next_block_cases _ Hw) as [[? ->]|[? ->]], Hu as [[? ->]|[? ->]];
      [exists 0|exists (-1)|exists (-1)|exists (-2)]; lia.
Qed.

Lemma release_unread s : dma_wf s -> 0 < blocks_filled s ->
  unread (sdr_dma_release_block s) = if unread s =? 0 then 7 else unread s - 1.
Proof.
  intros W Hpos. destruct (release_fields s W Hpos) as (_ & Ew & Er & _).
  pose proof W as [_ Hw Hr _]. pose proof (unread_range s).
  destruct (Z.eqb_spec (unread s) 0) as [H0|H0];
    (apply (unread_eq _ _ _ _ Ew Er); [lia|]);
    destruct (next_block_cases _ Hr) as [[? ->]|[? ->]], (unread_cases s W) as [[? E]|[? E]];
    first [exists 0; lia | exists (-1); lia | exists 1; lia | exists (-2); lia].
Qed.

(** the last unread block is the one before the block being filled *)
Lemma queue_end s : dma_wf s -> (proto_read_block s + unread s) mod 8 = dma_write_block s.
Proof.
  intros W. pose proof W as [_ Hw Hr _]. symmetry.
  destruct (unread_cases s W) as [[? ->]|[? ->]].
  - apply (Z.mod_unique_pos _ 8 0); lia.
  - apply (Z.mod_unique_pos _ 8 1); lia.
Qed.

Lemma complete_queue s : dma_wf s ->
  capture_view (complete s) = queue_op (capture_view s) OpComplete.
Proof.
  intros W. pose proof (complete_unread s W) as Eu. pose proof (queue_end s W) as He.
  destruct (complete_fields s W) as (_ & _ & Ew & Ef & _ & _ & Er).
  pose proof W as [_ Hw Hr _]. pose proof (unread_range s).
  unfold capture_view at 1, queue_op. rewrite full_view. cbn -[dma_queue].
  rewrite Ew, Ef. f_equal; [|by case_match; destruct Er].
  unfold dma_queue. rewrite Eu. destruct (Z.eqb_spec (unread s) 7) as [H7|H7]; destruct Er as [-> _].
  - rewrite H7. change (Z.to_nat 7) with (S 6). rewrite queue_from_snoc by apply next_block_range.
    rewrite (queue_from_snoc _ 6) by done. change (S 6) with 7%nat in *.
    replace (queue_from (proto_read_block s) 6) with
      (proto_read_block s :: queue_from (next_block (proto_read_block s)) 5) by done.
    cbn [tail app]. rewrite (queue_from_snoc _ 5) by apply next_block_range.
    rewrite H7 in He.
    assert (forall k, (next_block (proto_read_block s) + k) mod 8 =
      (proto_read_block s + (k + 1)) mod 8) as Hn.
    { intros k. unfold next_block, SDR_RING_NUM_BLOCKS. rewrite Zplus_mod_idemp_l. f_equal. lia. }
    rewrite !Hn. by rewrite <- He.
  - replace (Z.to_nat (unread s + 1)) with (S (Z.to_nat (unread s))) by lia.
    rewrite queue_from_snoc by done. by rewrite Z2Nat.id, He by lia.
Qed.

Lemma release_queue s : dma_wf s ->
  capture_view (sdr_dma_release_block s) = queue_op (capture_view s) OpRelease.
Proof.
  intros W. unfold queue_op. cbn -[dma_queue sdr_dma_release_block].
  destruct (Z.ltb_spec 0 (blocks_filled s)) as [Hpos|Hz].
  - pose proof (release_unread s W Hpos) as Eu.
    destruct (release_fields s W Hpos) as (_ & Ew & Er & Ef). pose proof (unread_range s).
    pose proof W as [_ Hw Hr _]. unfold capture_view, dma_queue. rewrite Ew, Er, Ef, Eu. f_equal.
    + destruct (Z.eqb_spec (unread s) 0) as [H0|H0].
      * assert (proto_read_block s = dma_write_block s) as ->
          by (destruct (unread_cases s W) as [[? E]|[? E]]; lia).
        by rewrite H0.
      * destruct (Z.to_nat (unread s)) as [|n] eqn:En; [lia|].
        replace (Z.to_nat (unread s - 1)) with n by lia. done.
    + unfold sdr_dma_release_block. by rewrite (proj2 (Z.ltb_lt _ _)).
  - unfold sdr_dma_release_block. by rewrite (proj2 (Z.ltb_ge _ _)).
Qed.

Lemma run_op_wf s o : dma_wf s -> dma_wf (run_op s o).
Proof.
  intros W. destruct o; cbn [run_op].
  - by apply complete_fields.
  - unfold sdr_dma_get_block. repeat case_match; cbn [snd]; try done; destruct W; by constructor.
  - destruct (Z.ltb_spec 0 (blocks_filled s)) as [Hpos|Hz]; [by apply release_fields|].
    unfold sdr_dma_release_block. by rewrite (proj2 (Z.ltb_ge _ _)).
Qed.

Lemma run_op_view s o : dma_wf s -> capture_view (run_op s o) = queue_op (capture_view s) o.
Proof.
  intros W. destruct o; cbn [run_op]; [by apply complete_queue| |by apply release_queue].
  unfold sdr_dma_get_block. by repeat case_match.
Qed.

Lemma run_ops_view ops s : dma_wf s ->
  dma_wf (foldl run_op s ops) /\
  capture_view (foldl run_op s ops) = foldl queue_op (capture_view s) ops.
Proof.
  revert s. induction ops as [|o ops IH]; intros s W; [done|]. cbn [foldl].
  rewrite <- run_op_view by done. by apply IH, run_op_wf.
Qed.

(** an operation that does not overrun keeps the count and the indices in step *)
Lemma run_op_in_step s o :
  dma_wf s -> in_step s -> fits (capture_view s) [o] = true -> in_step (run_op s o).
Proof.
  intros W Hin Hf. unfold in_step in *. pose proof (unread_range s).
  destruct o; cbn [run_op] in *.
  - cbn [fits] in Hf. rewrite full_view, andb_true_r in Hf. apply negb_true_iff in Hf.
    destruct (complete_fields s W) as (_ & _ & _ & Ef & _).
    apply Z.eqb_neq in Hf as Hne. rewrite complete_unread, Ef, Hf, u8_small by (done || lia). lia.
  - unfold sdr_dma_get_block. by repeat case_match.
  - destruct (Z.ltb_spec 0 (blocks_filled s)) as [Hpos|Hz].
    + destruct (release_fields s W Hpos) as (_ & _ & _ & Ef). rewrite release_unread, Ef by done.
      rewrite (proj2 (Z.eqb_neq (unread s) 0)) by lia. lia.
    + unfold sdr_dma_release_block. by rewrite (proj2 (Z.ltb_ge _ _)).
Qed.

Lemma run_ops_in_step ops s :
  dma_wf s -> in_step s -> fits (capture_view s) ops = true -> in_step (foldl run_op s ops).
Proof.
  revert s. induction ops as [|o ops IH]; intros s W Hin Hf; [done|]. cbn [foldl].
  cbn [fits] in Hf. apply andb_true_iff in Hf as [Ho Hf].
  apply IH; [by apply run_op_wf| |by rewrite run_op_view].
  apply run_op_in_step; try done. cbn [fits]. by rewrite Ho.
Qed.

(** what sdr_dma_get_block hands out *)
Lemma get_block_view s : dma_wf s ->
  fst (sdr_dma_get_block s) =
    (fun b => (b, SDR_RING_BLOCK_SIZE, slice (Z.to_nat (b * 512)) 512 (sdr_ring_buf s)))
      <$> queue_head (capture_view s) /\
  underruns (stats (snd (sdr_dma_get_block s))) =
    if announced (capture_view s) =? 0 then incr32 (underruns (stats s)) else underruns (stats s).
Proof.
  intros W. pose proof W as [_ Hw Hr _]. unfold sdr_dma_get_block, queue_head.
  cbn -[dma_queue slice]. destruct (Z.eqb_spec (blocks_filled s) 0) as [E|E]; [done|].
  rewrite (proj2 (Z.leb_gt _ _)) by (unfold SDR_RING_NUM_BLOCKS; lia).
  cbn -[dma_queue slice]. split; [|done].
  assert (default (dma_write_block s) (head (dma_queue s)) = proto_read_block s) as ->; [|done].
  unfold dma_queue. destruct (Z.to_nat (unread s)) as [|n] eqn:En; [|done]. cbn.
  pose proof (unread_range s). destruct (unread_cases s W) as [[? Eu]|[? Eu]]; lia.
Qed.


Definition dma_zero : sdr_dma := {|
  sdr_ring_buf := replicate (Z.to_nat SDR_RING_BUF_SIZE) 0;
  dma_write_block := 0; proto_read_block := 0; blocks_filled := 0;
  dma_running := false; dma_irq_count := 0; stats := Build_dma_stats 0 0 0 0;
  ch0_write := 0; ch0_trans := 0; ch0_ctrl := 0; chan_en0 := 0; inte0 := 0; ints0 := 0 |}.

Lemma start_fields s :
  dma_wf s -> dma_running s = false ->
  let s' := fst (sdr_dma_start s) in
  dma_wf s' /\ dma_write_block s' = 0 /\ proto_read_block s' = 0 /\ blocks_filled s' = 0 /\
  stats s' = stats s /\ dma_running s' = true.
Proof.
  intros [Lb Hw Hr Hf] Hrun. unfold sdr_dma_start. rewrite Hrun. cbn [fst].
  split_and!; try done; constructor; simpl; done || lia.
Qed.


(** An overrun breaks the count.  A transfer that completes with seven
    unread blocks drops the oldest block but still increments blocks_filled:
    eight blocks are announced while seven are unread, and after seven
    releases sdr_dma_get_block hands out the very block the DMA channel is
    writing. *)
Theorem overrun_exposes_block_in_progress (s : sdr_dma)
    (W : dma_wf s) (Hin : in_step s) (H7 : unread s = 7) :
  let c := complete s in
  let r := Nat.iter 7 sdr_dma_release_block c in
  unread c = 7 /\ sdr_dma_blocks_available c = 8 /\
  overruns (stats c) = incr32 (overruns (stats s)) /\
  (fun b => fst (fst b)) <$> fst (sdr_dma_get_block r) = Some (dma_write_block c).
Proof.
  intros c r. pose proof W as [Lb Hw Hr Hf]. unfold in_step in Hin.
  destruct (complete_fields s W) as (W' & _ & Ew & Ef & _ & _ & Er).
  rewrite H7 in Er. change (7 =? 7) with true in Er. destruct Er as [Er Eo].
  assert (Ef8 : blocks_filled c = 8) by (subst c; rewrite Ef, u8_small; lia).
  assert (Hu : unread c = 7).
  { subst c. by rewrite complete_unread, H7. }
  assert (Hrel : forall n, (n <= 7)%nat ->
    let r := Nat.iter n sdr_dma_release_block c in
    dma_wf r /\ dma_write_block r = dma_write_block c /\
    blocks_filled r = 8 - Z.of_nat n /\ unread r = 7 - Z.of_nat n).
  { induction n as [|n IH]; intros Hn; cbn zeta.
    - simpl Nat.iter. rewrite Ef8, Hu. split_and!; [exact W'|done|lia|lia].
    - destruct IH as (Wr & Ewr & Efr & Eur); [lia|].
      change (Nat.iter (S n) sdr_dma_release_block c) with
        (sdr_dma_release_block (Nat.iter n sdr_dma_release_block c)).
      set (rn := Nat.iter n sdr_dma_release_block c) in *.
      destruct (release_fields _ Wr ltac:(lia)) as (W1 & Ew1 & Er1 & Ef1).
      split_and!; [done|congruence|lia|].
      pose proof Wr as [_ Hwr Hrr _].
      rewrite release_unread by (done || lia). rewrite (proj2 (Z.eqb_neq _ _)) by lia. lia. }
  split_and!; [done|exact Ef8|exact Eo|].
  destruct (Hrel 7%nat ltac:(lia)) as (Wr & Ewr & Efr & Eur). fold r in Wr, Ewr, Efr, Eur.
  unfold sdr_dma_get_block. rewrite Efr. change (8 - Z.of_nat 7 =? 0) with false. cbv iota.
  pose proof Wr as [_ Hwr Hrr _].
  rewrite (proj2 (Z.leb_gt _ _)) by (unfold SDR_RING_NUM_BLOCKS; lia).
  change (Some (proto_read_block r) = Some (dma_write_block c)). f_equal.
  clearbody r. destruct (unread_cases r Wr); lia.
Qed.

Lemma overrun_exposes_block_in_progress_witness :
  sdr_dma_blocks_available (complete (Nat.iter 7 complete (fst (sdr_dma_start dma_zero)))) = 8.
Proof.
  apply (overrun_exposes_block_in_progress (Nat.iter 7 complete (fst (sdr_dma_start dma_zero)))).
  - assert (forall n, dma_wf (Nat.iter n complete (fst (sdr_dma_start dma_zero)))) as H.
    { induction n as [|n IH]; [|by apply complete_fields].
      apply start_fields; [constructor; simpl; try lia; vm_compute; reflexivity|done]. }
    apply H.
  - vm_compute. reflexivity.
  - vm_compute. reflexivity.
Defined.

(** Capture with no reader.  After sdr_dma_start and [n] completed
    transfers, [min n 7] blocks are unread and all later ones are overruns,
    but blocks_filled is [n] modulo 256: whenever [n] is a multiple of 256 the
    reader is told there is nothing to read. *)
Theorem unattended_capture (s0 : sdr_dma) (n : nat)
    (W0 : dma_wf s0) (Hrun : dma_running s0 = false)
    (Ho : 0 <= overruns (stats s0) < 4294967296) :
  let s := Nat.iter n complete (fst (sdr_dma_start s0)) in
  unread s = Z.min (Z.of_nat n) 7 /\ blocks_filled s = Z.of_nat n mod 256 /\
  overruns (stats s) = u32 (overruns (stats s0) + Z.max 0 (Z.of_nat n - 7)).
Proof.
  intros s.
  enough (dma_wf s /\ unread s = Z.min (Z.of_nat n) 7 /\ blocks_filled s = Z.of_nat n mod 256 /\
    overruns (stats s) = u32 (overruns (stats s0) + Z.max 0 (Z.of_nat n - 7))) by tauto.
  destruct (start_fields s0 W0 Hrun) as (Ws & Ew & Er & Ef & Es & _).
  subst s. induction n as [|n (W & Hu & Hf & Hov)].
  - simpl Nat.iter. rewrite Ef, Es, u32_small by lia.
    split_and!; [done|by apply (unread_eq _ _ _ _ Ew Er); [lia|exists 0]|done|lia].
  - change (Nat.iter (S n) complete (fst (sdr_dma_start s0))) with
      (complete (Nat.iter n complete (fst (sdr_dma_start s0)))).
    set (s := Nat.iter n complete (fst (sdr_dma_start s0))) in *.
    destruct (complete_fields s W) as (W' & _ & Ew' & Ef' & _ & _ & Er').
    pose proof W as [_ Hw Hr _]. pose proof (unread_cases s W) as Hc.
    split; [done|]. rewrite Ef', Hf. unfold u8. rewrite Zplus_mod_idemp_l.
    destruct (Z.eqb_spec (unread s) 7) as [H7|H7]; destruct Er' as [Er' Eo'].
    + split_and!; [|f_equal; lia|].
      * apply (unread_eq _ _ _ _ Ew' Er'); [lia|].
        destruct (next_block_cases _ Hw) as [[? ->]|[? ->]],
          (next_block_cases _ Hr) as [[? ->]|[? ->]], Hc as [[? E]|[? E]];
          [exists 0|exists (-1)|exists 1|exists 0|exists (-1)|exists (-2)|exists 0|exists (-1)]; lia.
      * rewrite Eo', Hov. unfold incr32, u32. rewrite Zplus_mod_idemp_l. f_equal. lia.
    + split_and!; [|f_equal; lia|rewrite Eo', Hov; f_equal; lia].
      apply (unread_eq _ _ _ _ Ew' Er'); [lia|].
      destruct (next_block_cases _ Hw) as [[? ->]|[? ->]], Hc as [[? E]|[? E]];
        [exists 0|exists (-1)|exists (-1)|exists (-2)]; lia.
Qed.

Lemma unattended_capture_witness :
  sdr_dma_blocks_available (Nat.iter 256 complete (fst (sdr_dma_start dma_zero))) = 0 /\
  fst (sdr_dma_get_block (Nat.iter 256 complete (fst (sdr_dma_start dma_zero)))) = None /\
  unread (Nat.iter 256 complete (fst (sdr_dma_start dma_zero))) = 7.
Proof.
  split; [vm_compute; reflexivity|]. split; [vm_compute; reflexivity|].
  apply (unattended_capture dma_zero 256).
  - constructor; simpl; lia.
  - reflexivity.
  - simpl. lia.
Defined.
