(* ===== verification/DmaPreempt.v ===== *)
(** * Releasing a capture block, preempted by the DMA interrupt

    sdr_dma_release_block tests blocks_filled, loads and stores
    proto_read_block, decrements the count and counts the block, while the
    interrupt handler of sdr_dma.c increments the count and, when it overtakes
    the reader, stores proto_read_block too.  As long as it does not, the five
    accesses are one; when it does, what is lost depends on where it falls. *)

From S2P Require Import Prelude Interleave SdrDma.

(** ** Micro-steps *)

Inductive release_pc :=
| RbTest             (* if (__atomic_load_n(&blocks_filled) > 0) *)
| RbLoad             (* proto_read_block + 1 ... *)
| RbStore (r : Z)    (* proto_read_block = ... *)
| RbSub              (* __atomic_sub_fetch(&blocks_filled, 1) *)
| RbCount            (* dma_stats.total_blocks_sent++ *)
| RbDone.

Definition release_step (pc : release_pc) (s : sdr_dma) : option (release_pc * sdr_dma) :=
  match pc with
  | RbTest => Some (if 0 <? blocks_filled s then RbLoad else RbDone, s)
  | RbLoad => Some (RbStore (proto_read_block s), s)
  | RbStore r => Some (RbSub, s <| proto_read_block := next_block r |>)
  | RbSub => Some (RbCount, s <| blocks_filled ::= fun n => u8 (n - 1) |>)
  | RbCount => Some (RbDone, s <| stats ::= fun t => t <| total_blocks_sent ::= incr32 |> |>)
  | RbDone => Some (RbDone, s)
  end.

(** an interrupt is the value of INTS0 it finds *)
Definition dma_irq (ints : Z) (s : sdr_dma) : option sdr_dma := Some (sdr_dma_irq_handler ints s).

Definition released (pc : release_pc) : Prop :=
  match pc with RbDone => True | _ => False end.

(** ** The handler behind the reader *)

Definition set_reader (r n sent : Z) (s : sdr_dma) : sdr_dma :=
  s <| proto_read_block := r |> <| blocks_filled := n |>
    <| stats ::= fun t => t <| total_blocks_sent := sent |> |>.

(** what an interrupt adds to the count *)
Definition captured (ints n : Z) : Z := if has_bits ints 1 then u8 (n + 1) else n.

Lemma irq_no_overrun ints s :
  dma_wf s -> unread s < 7 ->
  let s' := sdr_dma_irq_handler ints s in
  dma_wf s' /\ proto_read_block s' = proto_read_block s /\
  blocks_filled s' = captured ints (blocks_filled s) /\
  unread s' = unread s + if has_bits ints 1 then 1 else 0.
Proof.
  intros W Hu s'. subst s'. unfold captured. destruct (has_bits ints 1) eqn:Eb.
  - assert (sdr_dma_irq_handler ints s = complete s) as ->
      by (unfold complete, sdr_dma_irq_handler; by rewrite Eb).
    destruct (complete_fields s W) as (Wc & _ & Ew & Ef & _ & _ & Er).
    rewrite (proj2 (Z.eqb_neq _ _)) in Er by lia. destruct Er as [Er _].
    split_and!; [done..|]. pose proof W as [_ Hw Hr _].
    apply (unread_eq _ _ _ _ Ew Er); [pose proof (unread_range s); lia|].
    destruct (next_block_cases _ Hw) as [[? ->]|[? ->]], (unread_cases s W) as [[? ->]|[? ->]];
      [exists 0|exists (-1)|exists (-1)|exists (-2)]; lia.
  - unfold sdr_dma_irq_handler. rewrite Eb. simpl. split_and!; [by destruct W|done..|].
    rewrite Z.add_0_r. done.
Qed.

(** Ahead of an interrupt or behind it, the reader's stores are the same, as
    long as the writer does not reach either index. *)
Lemma irq_set_reader ints r n sent s :
  next_block (dma_write_block s) <> proto_read_block s -> next_block (dma_write_block s) <> r ->
  sdr_dma_irq_handler ints (set_reader r n sent s) =
  set_reader r (captured ints n) sent (sdr_dma_irq_handler ints s).
Proof.
  intros H1 H2. unfold sdr_dma_irq_handler, captured.
  destruct s as [buf w r0 f run c [? ? ? ?] ? ? ? ? ? ?].
  destruct (has_bits ints 1); [|done]. simpl in *.
  rewrite (proj2 (Z.eqb_neq _ _) H1), (proj2 (Z.eqb_neq _ _) H2). by destruct run.
Qed.

Lemma irq_sent ints s : total_blocks_sent (stats (sdr_dma_irq_handler ints s)) = total_blocks_sent (stats s).
Proof.
  unfold sdr_dma_irq_handler. destruct s as [buf w r0 f run c [? ? ? ?] ? ? ? ? ? ?]. simpl.
  destruct (has_bits ints 1); [|done]. simpl. by destruct (_ =? _), run.
Qed.

Lemma advance_reader s :
  dma_wf s -> 0 < unread s ->
  dma_wf (s <| proto_read_block ::= next_block |>) /\
  unread (s <| proto_read_block ::= next_block |>) = unread s - 1.
Proof.
  intros W Hu. pose proof W as [Lb Hw Hr Hf]. split.
  - constructor; simpl; [done|done|apply next_block_range|done].
  - apply (unread_eq _ (dma_write_block s) (next_block (proto_read_block s))); [done|done| |].
    { pose proof (unread_range s). lia. }
    destruct (next_block_cases _ Hr) as [[? ->]|[? ->]], (unread_cases s W) as [[? ->]|[? ->]];
      [exists 0|exists (-1)|exists 1|exists 0]; lia.
Qed.

(** ** Without overruns the release is atomic *)

Definition release_at (pc : release_pc) (s : sdr_dma) : Prop :=
  match pc with
  | RbTest | RbCount | RbDone => in_step s
  | RbLoad => in_step s /\ 0 < unread s
  | RbStore r => in_step s /\ 0 < unread s /\ r = proto_read_block s
  | RbSub => blocks_filled s = unread s + 1
  end.

Definition release_ok (l : list Z) (pc : release_pc) (s : sdr_dma) : Prop :=
  dma_wf s /\ unread s + Z.of_nat (length l) <= 7 /\ release_at pc s.

Definition release_work (pc : release_pc) (s : sdr_dma) : Z :=
  match pc with
  | RbTest => 5 | RbLoad => 4 | RbStore _ => 3 | RbSub => 2 | RbCount => 1 | RbDone => 0
  end.

Lemma block_release_ok_irq ints l pc s :
  release_ok (ints :: l) pc s ->
  exists s', dma_irq ints s = Some s' /\ release_ok l pc s' /\
    release_work pc s' <= release_work pc s + 0.
Proof.
  intros (W & Hu & Hpc). cbn [length] in Hu.
  destruct (irq_no_overrun ints s W ltac:(lia)) as (W' & Er & Ef & Eu).
  exists (sdr_dma_irq_handler ints s). split; [done|]. split; [|by destruct pc].
  pose proof (unread_range s). unfold captured in Ef.
  split; [done|]. split; [destruct (has_bits ints 1); lia|].
  assert (blocks_filled s < 255 -> blocks_filled (sdr_dma_irq_handler ints s) - unread (sdr_dma_irq_handler ints s)
    = blocks_filled s - unread s) as Hd.
  { intros Hs. destruct W. rewrite Ef, Eu. destruct (has_bits ints 1); [rewrite u8_small by lia|]; lia. }
  unfold release_at, in_step in *. destruct pc; destruct (has_bits ints 1); rewrite ?Er; lia.
Qed.

Lemma block_release_ok_step l pc s :
  release_ok l pc s ->
  exists pc' s', release_step pc s = Some (pc', s') /\ release_ok l pc' s' /\
    (released pc \/ release_work pc' s' <= release_work pc s - 1).
Proof.
  intros (W & Hu & Hpc). pose proof (unread_range s) as Hr.
  destruct pc as [| |r| | |]; simpl in Hpc |- *; unfold in_step in *.
  - eexists _, s. split; [reflexivity|]. split; [split; [done|split; [done|]]|].
    + destruct (Z.ltb_spec 0 (blocks_filled s)); simpl; unfold in_step; [lia|done].
    + right. destruct (0 <? _); simpl; lia.
  - eexists _, s. split; [reflexivity|]. split; [|simpl; lia].
    split; [done|]. split; [done|]. by destruct Hpc.
  - destruct Hpc as (Hin & Hpos & ->). destruct (advance_reader s W Hpos) as [W' Eu].
    eexists _, _. split; [reflexivity|]. split; [|simpl; lia].
    change (s <| proto_read_block := next_block (proto_read_block s) |>)
      with (s <| proto_read_block ::= next_block |>).
    split; [done|]. rewrite Eu. split; [lia|]. simpl. rewrite Eu. lia.
  - eexists _, _. split; [reflexivity|]. split; [|simpl; lia].
    split; [destruct W; constructor; simpl; try done; apply u8_range|].
    change (unread (s <| blocks_filled ::= fun n => u8 (n - 1) |>)) with (unread s).
    split; [done|]. simpl. unfold in_step. simpl.
    change (unread (s <| blocks_filled ::= fun n => u8 (n - 1) |>)) with (unread s).
    rewrite u8_small; lia.
  - eexists _, _. split; [reflexivity|]. split; [|simpl; lia].
    split; [by destruct W|]. done.
  - exists RbDone, s. split; [done|]. split; [|by left]. by split.
Qed.

Lemma set_reader_self s :
  set_reader (proto_read_block s) (blocks_filled s) (total_blocks_sent (stats s)) s = s.
Proof. by destruct s as [? ? ? ? ? ? [] ? ? ? ? ? ?]. Qed.

Lemma captured_sub ints n : captured ints (u8 (n - 1)) = u8 (captured ints n - 1).
Proof.
  unfold captured. destruct (has_bits ints 1); [|done]. unfold u8.
  rewrite Zplus_mod_idemp_l, Zminus_mod_idemp_l. f_equal. lia.
Qed.

(** Every access that does not end the release may be moved behind the
    interrupt that follows it. *)
Lemma block_release_step_later ints l pc s pc' s' s1 :
  release_ok (ints :: l) pc s -> ~ released pc' -> release_step pc s = Some (pc', s') ->
  dma_irq ints s = Some s1 ->
  exists u, dma_irq ints s' = Some u /\ release_step pc s1 = Some (pc', u).
Proof.
  intros (W & Hu & Hpc) Hnf E E1. unfold dma_irq in *. simplify_eq. cbn [length] in Hu.
  destruct (irq_no_overrun ints s W ltac:(lia)) as (_ & Er & Ef & _).
  pose proof (overrun_test s W) as Ht. rewrite (proj2 (Z.eqb_neq (unread s) 7)) in Ht by lia.
  apply Z.eqb_neq in Ht. set (w := sdr_dma_irq_handler ints s) in *.
  assert (Hmove : forall r n, next_block (dma_write_block s) <> r ->
    sdr_dma_irq_handler ints (set_reader r n (total_blocks_sent (stats s)) s) =
    set_reader r (captured ints n) (total_blocks_sent (stats w)) w).
  { intros r n Hr. rewrite irq_set_reader by done. by rewrite <- (irq_sent ints s). }
  pose proof (unread_range s) as Hr.
  destruct pc as [| |r| | |]; simpl in E, Hpc |- *; injection E as <- <-; try done.
  - eexists. split; [reflexivity|]. fold w. rewrite Ef. unfold in_step in Hpc. unfold captured.
    destruct (Z.ltb_spec 0 (blocks_filled s)); [|done].
    rewrite (proj2 (Z.ltb_lt _ _)); [done|].
    destruct (has_bits ints 1); [rewrite u8_small; lia|done].
  - eexists. split; [reflexivity|]. fold w. by rewrite Er.
  - destruct Hpc as (Hin & Hpos & ->). eexists. split; [reflexivity|].
    replace (s <| proto_read_block := next_block (proto_read_block s) |>)
      with (set_reader (next_block (proto_read_block s)) (blocks_filled s) (total_blocks_sent (stats s)) s)
      by by destruct s as [? ? ? ? ? ? [] ? ? ? ? ? ?].
    rewrite Hmove, <- Ef.
    + by destruct w as [? ? ? ? ? ? [] ? ? ? ? ? ?].
    + destruct W as [? Hw Hrd ?]. pose proof (unread_cases s) as Hc.
      destruct (next_block_cases _ Hw) as [[? ->]|[? ->]], (next_block_cases _ Hrd) as [[? ->]|[? ->]];
        destruct Hc as [[? Ec]|[? Ec]]; try (by constructor); lia.
  - eexists. split; [reflexivity|].
    replace (s <| blocks_filled ::= fun n => u8 (n - 1) |>)
      with (set_reader (proto_read_block s) (u8 (blocks_filled s - 1)) (total_blocks_sent (stats s)) s)
      by by destruct s as [? ? ? ? ? ? [] ? ? ? ? ? ?].
    rewrite Hmove, captured_sub, <- Ef, <- Er by done.
    by destruct w as [? ? ? ? ? ? [] ? ? ? ? ? ?].
Qed.

Lemma block_release_linearizable :
  linearizable release_step dma_irq released release_ok release_work 0.
Proof.
  constructor.
  - intros []; simpl; auto.
  - by intros [] s Hf.
  - apply block_release_ok_irq.
  - apply block_release_ok_step.
  - intros l [] s _ Hw; simpl in *; done || lia.
  - apply block_release_step_later.
Qed.

Lemma block_release_alone s :
  alone release_step released RbTest s (RbDone, sdr_dma_release_block s).
Proof.
  unfold sdr_dma_release_block. eapply alone_step; [by intros []|reflexivity|].
  destruct (0 <? blocks_filled s); [|by constructor].
  do 4 (eapply alone_step; [by intros []|reflexivity|]).
  by constructor.
Qed.

(** ** Properties *)

(** C37: releasing a block is atomic as long as the writer does not catch up.
    From a capture state whose count agrees with its indices, under any
    schedule of at most as many interrupts as there are free blocks that gives
    sdr_dma_release_block its five accesses, the outcome is that of some of
    the interrupts, the whole release, and the remaining interrupts: no update
    of the indices or of the count is lost. *)
Theorem release_atomic (l : list (event Z)) (s : sdr_dma)
    (W : dma_wf s) (Hin : in_step s) (Hfree : unread s + Z.of_nat (length (received l)) <= 7)
    (Hturns : (5 <= main_steps l)%nat) :
  exists before after s1,
    received l = before ++ after /\ irqs dma_irq before s = Some s1 /\
    run_schedule release_step dma_irq l RbTest s =
      t ← irqs dma_irq after (sdr_dma_release_block s1); Some (RbDone, t).
Proof.
  assert (Hok : release_ok (received l) RbTest s) by done.
  destruct (run_schedule_total _ _ _ _ _ _ block_release_linearizable l _ _ Hok)
    as (pc & t & Er & _ & Hd).
  destruct pc; try (destruct Hd; simpl; lia).
  destruct (run_schedule_linear _ _ _ _ _ _ block_release_linearizable l _ _ _ _ Er I Hok)
    as (l1 & l2 & s1 & s2 & El & E1 & Ha & E2).
  exists l1, l2, s1. split; [done|]. split; [done|].
  assert ((RbDone, s2) = (RbDone, sdr_dma_release_block s1)) as [= ->]
    by (eapply alone_det; [exact Ha|apply block_release_alone]).
  by rewrite Er, E2.
Qed.

Lemma release_atomic_witness :
  exists before after s1,
    [1; 1] = before ++ after /\
    irqs dma_irq before (Nat.iter 5 complete (fst (sdr_dma_start dma_zero))) = Some s1 /\
    run_schedule release_step dma_irq [EvMain; EvMain; EvIrq 1; EvMain; EvMain; EvIrq 1; EvMain]
      RbTest (Nat.iter 5 complete (fst (sdr_dma_start dma_zero))) =
      t ← irqs dma_irq after (sdr_dma_release_block s1); Some (RbDone, t).
Proof.
  apply (release_atomic [EvMain; EvMain; EvIrq 1; EvMain; EvMain; EvIrq 1; EvMain]).
  - assert (forall n, dma_wf (Nat.iter n complete (fst (sdr_dma_start dma_zero)))) as H.
    { induction n as [|n IH]; [|by apply complete_fields].
      apply start_fields; [constructor; simpl; try lia; vm_compute; reflexivity|done]. }
    apply H.
  - vm_compute. reflexivity.
  - vm_compute. discriminate.
  - simpl. lia.
Defined.

Ltac unfold_irq :=
  unfold sdr_dma_irq_handler; change (has_bits 1 1) with true; cbv iota zeta;
  cbn -[next_block incr32 u8].

(** When the writer does catch up, with seven blocks unread, the place of the
    interrupt decides.  Between the load and the store of proto_read_block the
    main loop overwrites the handler's advance: the state is that of the
    release before the interrupt, with one overrun counted that did not happen.
    After sdr_dma_get_block and before the release, the handler has already
    dropped the block being sent, and the release drops the next one, which
    nobody has read: it is counted as sent and the host never gets it. *)
Theorem release_overtaken (s : sdr_dma) (W : dma_wf s) (Hin : in_step s) (H7 : unread s = 7) :
  run_schedule release_step dma_irq [EvMain; EvMain; EvIrq 1; EvMain; EvMain; EvMain] RbTest s =
    Some (RbDone, (sdr_dma_irq_handler 1 (sdr_dma_release_block s))
                    <| stats ::= fun t => t <| overruns ::= incr32 |> |>) /\
  let late := sdr_dma_release_block (sdr_dma_irq_handler 1 s) in
  fst <$> (fst <$> fst (sdr_dma_get_block s)) = Some (proto_read_block s) /\
  proto_read_block late = next_block (next_block (proto_read_block s)) /\
  total_blocks_sent (stats late) = incr32 (total_blocks_sent (stats s)).
Proof.
  pose proof W as [_ Hw Hr _]. pose proof (overrun_test s W) as Ht.
  rewrite H7 in Ht. apply Z.eqb_eq in Ht. unfold in_step in Hin. rewrite H7 in Hin.
  assert (Hne : next_block (next_block (proto_read_block s)) <> next_block (proto_read_block s) /\
    next_block (proto_read_block s) <> proto_read_block s).
  { pose proof (next_block_range (proto_read_block s)) as Hn.
    destruct (next_block_cases _ Hr) as [[? E]|[? E]], (next_block_cases _ Hn) as [[? E']|[? E']];
      rewrite ?E', ?E in *; lia. }
  destruct Hne as [_ Hne]. clear W H7.
  destruct s as [buf w r f run c [cap sent ov un] a1 a2 a3 a4 a5 a6]. simpl in Ht, Hin, Hne, Hr.
  subst f. assert (Er : (next_block w =? r) = true) by by apply Z.eqb_eq.
  assert (En : (next_block w =? next_block r) = false) by (apply Z.eqb_neq; congruence).
  split.
  - cbn -[next_block incr32 u8 sdr_dma_irq_handler]. unfold_irq. rewrite Er. simpl.
    rewrite En. by destruct run.
  - split; [|split].
    + unfold sdr_dma_get_block. cbn -[next_block incr32 slice]. 
      by rewrite (proj2 (Z.leb_gt _ _)) by (unfold SDR_RING_NUM_BLOCKS; lia).
    + unfold_irq. rewrite Er. by destruct run.
    + unfold_irq. rewrite Er. by destruct run.
Qed.

Lemma release_overtaken_witness :
  let s := Nat.iter 7 complete (fst (sdr_dma_start dma_zero)) in
  proto_read_block s = 0 /\
  proto_read_block (sdr_dma_release_block (sdr_dma_irq_handler 1 s)) = 2.
Proof.
  cbv zeta. split; [vm_compute; reflexivity|].
  transitivity (next_block (next_block (proto_read_block (Nat.iter 7 complete (fst (sdr_dma_start dma_zero)))))).
  - apply (release_overtaken (Nat.iter 7 complete (fst (sdr_dma_start dma_zero)))).
    + assert (forall n, dma_wf (Nat.iter n complete (fst (sdr_dma_start dma_zero)))) as H.
      { induction n as [|n IH]; [|by apply complete_fields].
        apply start_fields; [constructor; simpl; try lia; vm_compute; reflexivity|done]. }
      apply H.
    + vm_compute. reflexivity.
    + vm_compute. reflexivity.
  - vm_compute. reflexivity.
Defined.
