(* ===== verification/Watchdog.v ===== *)
(** * The watchdog driver (watchdog.c)

    The registers the driver uses, its operations, and the timer itself as far
    as the driver documents it: it counts down from WD_LOAD in microseconds
    while enabled, and at zero resets the chip, which leaves WD_REASON_TIMER
    and the scratch registers behind. *)

From S2P Require Import Prelude.

Definition WD_CTRL_ENABLE : Z := BIT 0.
Definition WD_CTRL_PAUSE_DBG0 : Z := BIT 1.
Definition WD_CTRL_PAUSE_DBG1 : Z := BIT 2.
Definition WD_CTRL_PAUSE_JTAG : Z := BIT 3.
Definition WD_REASON_FORCE : Z := BIT 0.
Definition WD_REASON_TIMER : Z := BIT 1.
Definition WD_TIMEOUT_US : Z := 5000000.
Definition WD_MAGIC_VALUE : Z := 0xA7EC1001.
Definition WD_SCRATCH_BOD_MAGIC : Z := 0xB047B00F.

(** [wd_load] is the counter: writing WD_LOAD reloads it *)
Record wd := { wd_ctrl : Z; wd_load : Z; wd_reason : Z; wd_scratch : list Z }.
#[export] Instance eta_wd : Eta wd := eta! Build_wd < wd_ctrl ; wd_load ; wd_reason ; wd_scratch >.

Definition wd_wf (s : wd) : Prop := length (wd_scratch s) = 8%nat.
Definition scratch_at (i : nat) (s : wd) : Z := nth i (wd_scratch s) 0.
Definition scratch_put (i : nat) (v : Z) (s : wd) : wd := s <| wd_scratch ::= <[i := v]> |>.

(** ** The driver *)

Definition watchdog_init (s : wd) : bool * wd :=
  let '(wd_reset, s) :=
    if has_bits (wd_reason s) WD_REASON_TIMER then
      let s := s <| wd_reason := 0 |> in
      (true, if scratch_at 0 s =? WD_MAGIC_VALUE then scratch_put 0 0 s else s)
    else (false, s) in
  let s := if has_bits (wd_reason s) WD_REASON_FORCE then s <| wd_reason := 0 |> else s in
  let s := s <| wd_load := WD_TIMEOUT_US |> in
  (wd_reset, s <| wd_ctrl := Z.lor (Z.lor WD_CTRL_ENABLE WD_CTRL_PAUSE_JTAG) WD_CTRL_PAUSE_DBG0 |>).

Definition watchdog_feed (s : wd) : wd := s <| wd_load := WD_TIMEOUT_US |>.
Definition watchdog_kick (s : wd) : wd := watchdog_feed s.

(** [sticky]: the enable bit cannot be cleared, the case the function checks *)
Definition watchdog_disable (sticky : bool) (s : wd) : Z * wd :=
  let s := s <| wd_ctrl := if sticky then Z.land (wd_ctrl s) WD_CTRL_ENABLE else 0 |> in
  if has_bits (wd_ctrl s) WD_CTRL_ENABLE then (-1, s <| wd_load := 0xFFFFFFFE |>) else (0, s).

(** the state in which the function waits for the reset *)
Definition watchdog_reboot (intentional : bool) (s : wd) : wd :=
  let s := if intentional then scratch_put 0 WD_MAGIC_VALUE s else s in
  s <| wd_ctrl ::= fun c => Z.lor c WD_CTRL_ENABLE |> <| wd_load := 1 |>.

Definition watchdog_enable_bark (s : wd) : wd :=
  s <| wd_ctrl ::= fun c =>
    Z.lor c (Z.lor (Z.lor WD_CTRL_ENABLE WD_CTRL_PAUSE_DBG0) WD_CTRL_PAUSE_JTAG) |>.

Definition watchdog_get_reason (s : wd) : Z := wd_reason s.

Definition watchdog_get_scratch (index : Z) (s : wd) : Z :=
  if 7 <? index then 0 else scratch_at (Z.to_nat index) s.
Definition watchdog_set_scratch (index val : Z) (s : wd) : wd :=
  if 7 <? index then s else scratch_put (Z.to_nat index) val s.

Definition watchdog_mark_brownout (s : wd) : wd := scratch_put 7 WD_SCRATCH_BOD_MAGIC s.
Definition watchdog_check_brownout (s : wd) : bool * wd :=
  if scratch_at 7 s =? WD_SCRATCH_BOD_MAGIC then (true, scratch_put 7 0 s) else (false, s).

(** ** The timer *)

(** the registers after the timer expired and the chip came up again *)
Definition wd_bite (s : wd) : wd :=
  s <| wd_ctrl := 0 |> <| wd_load := 0 |> <| wd_reason := WD_REASON_TIMER |>.

(** [us] microseconds pass: [inl] if the counter lasts, [inr] after a reset *)
Definition wd_elapse (us : Z) (s : wd) : wd + wd :=
  if negb (has_bits (wd_ctrl s) WD_CTRL_ENABLE) then inl s
  else if us <? wd_load s then inl (s <| wd_load ::= fun c => c - us |>)
  else inr (wd_bite s).

(** the main loop: a kick, then the rest of the iteration *)
Fixpoint run_loop (durations : list Z) (s : wd) : wd + wd :=
  match durations with
  | [] => inl s
  | us :: l =>
      match wd_elapse us (watchdog_kick s) with
      | inl s => run_loop l s
      | inr s => inr s
      end
  end.

(** ** Lemmas *)

Lemma scratch_put_at i v s : wd_wf s -> (i < 8)%nat -> scratch_at i (scratch_put i v s) = v.
Proof.
  intros W Hi. unfold scratch_at, scratch_put, wd_wf in *. simpl.
  apply nth_lookup_Some. apply list_lookup_insert_eq. lia.
Qed.

Lemma scratch_put_ne i j v s : i <> j -> scratch_at j (scratch_put i v s) = scratch_at j s.
Proof.
  intros Hi. unfold scratch_at, scratch_put. simpl.
  rewrite !nth_lookup. by rewrite list_lookup_insert_ne.
Qed.

Lemma init_ctrl s : wd_ctrl (snd (watchdog_init s)) = 11.
Proof. unfold watchdog_init. by repeat case_match; simplify_eq. Qed.

Lemma run_loop_app l1 l2 s :
  run_loop (l1 ++ l2) s = match run_loop l1 s with inl s => run_loop l2 s | inr s => inr s end.
Proof.
  revert s. induction l1 as [|us l1 IH]; intros s; simpl; [done|].
  destruct (wd_elapse us (watchdog_kick s)); auto.
Qed.

(** ** Properties *)

(** The watchdog guards the main loop exactly.  Once watchdog_init has run,
    a main loop whose iterations all finish in less than five seconds is never
    reset; and the first iteration that takes five seconds or more resets the
    chip, whatever came before, leaving the timer reason, and the next
    watchdog_init reports a watchdog reset. *)
Theorem watchdog_guards_loop (s : wd) (before after : list Z) (us : Z)
    (Hb : Forall (fun d => 0 <= d < WD_TIMEOUT_US) before) (Hus : WD_TIMEOUT_US <= us) :
  let s0 := snd (watchdog_init s) in
  (exists s1, run_loop before s0 = inl s1) /\
  exists s2, run_loop (before ++ us :: after) s0 = inr s2 /\
    wd_reason s2 = WD_REASON_TIMER /\ fst (watchdog_init s2) = true.
Proof.
  intros s0.
  assert (H : exists s1, run_loop before s0 = inl s1 /\ wd_ctrl s1 = 11).
  { pose proof (init_ctrl s) as Hc. fold s0 in Hc. clearbody s0. revert s0 Hc.
    induction Hb as [|d l Hd Hl IH]; intros s0 Hc; [by exists s0|].
    cbn [run_loop]. unfold wd_elapse, watchdog_kick, watchdog_feed. simpl. rewrite Hc.
    change (negb (has_bits 11 WD_CTRL_ENABLE)) with false. cbv iota.
    rewrite (proj2 (Z.ltb_lt _ _)) by apply Hd. by apply IH. }
  destruct H as (s1 & E1 & Hc). split; [by exists s1|].
  rewrite run_loop_app, E1. cbn [run_loop]. unfold wd_elapse, watchdog_kick, watchdog_feed.
  simpl. rewrite Hc. change (negb (has_bits 11 WD_CTRL_ENABLE)) with false. cbv iota.
  rewrite (proj2 (Z.ltb_ge _ _)) by done. eexists. split; [reflexivity|]. split; [done|].
  unfold watchdog_init. simpl. change (has_bits WD_REASON_TIMER WD_REASON_TIMER) with true.
  cbv iota. by repeat case_match; simplify_eq.
Qed.

Definition wd_cold : wd := Build_wd 0 0 0 (replicate 8 0).

Lemma watchdog_guards_loop_witness :
  exists s1, run_loop [1000; 1000; 4999999] (snd (watchdog_init wd_cold)) = inl s1.
Proof.
  apply (watchdog_guards_loop wd_cold [1000; 1000; 4999999] [] 5000000).
  - repeat (apply Forall_cons; split; [unfold WD_TIMEOUT_US; lia|]). apply Forall_nil. exact I.
  - unfold WD_TIMEOUT_US. lia.
Defined.

(** A reboot on request is not told apart from a watchdog bite.  After
    watchdog_reboot(true), the reset and watchdog_init, the function reports a
    watchdog reset and has erased the marker from scratch register 0, exactly
    as after a bite of a hung main loop; the other scratch registers survive,
    and watchdog_enable_bark changes nothing after watchdog_init. *)
Theorem intentional_reboot_looks_like_bite (s : wd) (W : wd_wf s) :
  let after_reboot := watchdog_init (wd_bite (watchdog_reboot true s)) in
  let after_bite := watchdog_init (wd_bite (scratch_put 0 0 s)) in
  after_reboot = after_bite /\ fst after_reboot = true /\
  (forall i, (0 < i < 8)%nat -> scratch_at i (snd after_reboot) = scratch_at i s) /\
  watchdog_enable_bark (snd after_reboot) = snd after_reboot.
Proof.
  unfold watchdog_init, wd_bite, watchdog_reboot.
  change (has_bits (wd_reason (_ <| wd_reason := WD_REASON_TIMER |>)) WD_REASON_TIMER) with true.
  cbv iota zeta. unfold scratch_at, scratch_put, wd_wf in *.
  destruct s as [c l r sc]. simpl in *.
  do 9 (destruct sc as [|? sc]; try done). simpl. split_and!; try done.
  intros i Hi. do 8 (destruct i as [|i]; [by (lia || done)|]). lia.
Qed.

Lemma intentional_reboot_looks_like_bite_witness :
  fst (watchdog_init (wd_bite (watchdog_reboot true wd_cold))) = true.
Proof. apply (intentional_reboot_looks_like_bite wd_cold). reflexivity. Defined.

(** The brownout marker is reported once after a reset, and survives it:
    marked, reset, checked gives true, and a second check gives false.  The
    scratch accessors touch nothing outside registers 0 to 7. *)
Theorem brownout_marker_roundtrip (s : wd) (W : wd_wf s) (index v : Z) (Hi : 0 <= index) :
  let s1 := wd_bite (watchdog_mark_brownout s) in
  let s2 := snd (watchdog_check_brownout (snd (watchdog_init s1))) in
  fst (watchdog_check_brownout (snd (watchdog_init s1))) = true /\
  fst (watchdog_check_brownout s2) = false /\
  (watchdog_get_scratch index (watchdog_set_scratch index v s) =
     if index <=? 7 then v else 0) /\
  (7 < index -> watchdog_set_scratch index v s = s).
Proof.
  destruct s as [c l r sc]. unfold wd_wf in W. simpl in W.
  split; [|split; [|split]].
  - do 9 (destruct sc as [|? sc]; try done). unfold watchdog_init, watchdog_check_brownout.
    unfold scratch_at. simpl. destruct (_ =? WD_MAGIC_VALUE); reflexivity.
  - do 9 (destruct sc as [|? sc]; try done). unfold watchdog_init, watchdog_check_brownout.
    unfold scratch_at. simpl. destruct (_ =? WD_MAGIC_VALUE); reflexivity.
  - unfold watchdog_get_scratch, watchdog_set_scratch.
    destruct (Z.ltb_spec 7 index) as [H|H].
    + by rewrite (proj2 (Z.leb_gt _ _)).
    + rewrite (proj2 (Z.leb_le _ _)) by done. apply scratch_put_at; [done|lia].
  - intros H7. unfold watchdog_set_scratch. by rewrite (proj2 (Z.ltb_lt _ _)).
Qed.

Lemma brownout_marker_roundtrip_witness :
  fst (watchdog_check_brownout (snd (watchdog_init (wd_bite (watchdog_mark_brownout wd_cold))))) = true.
Proof. apply (brownout_marker_roundtrip wd_cold eq_refl 3 9). lia. Defined.
