(* ===== verification/SleepWake.v ===== *)
(** * The sleep state machine (sleep_wake.c)

    The module's state, the head of the SPI receive ring it watches, and the
    ordered calls into the SDK (clocks, FIFO, Core 1) it makes.  The time and
    the ring head are inputs of a step: [now] is the millisecond clock, [head]
    the value the activity check reads, and [head'] the value the tracker reset
    reads a little later in the same call. *)

From S2P Require Import Prelude Watchdog.

Inductive sleep_state := SLEEP_IDLE | SLEEP_LIGHT | SLEEP_DEEP.
#[export] Instance sleep_state_eq_dec : EqDecision sleep_state.
Proof. solve_decision. Defined.

Definition SLEEP_IDLE_TIMEOUT_MS : Z := 5000.
Definition SLEEP_LIGHT_TIMEOUT_MS : Z := 30000.

(** calls into the SDK; the clocks in kHz *)
Inductive sdk_call :=
| SysClock (khz : Z)
| PeriClock (khz : Z)
| FifoPush (v : Z)
| LaunchCore1.

Record sleep := {
  sw_state : sleep_state;
  last_activity_ms : Z; last_process_ms : Z; idle_count : Z;
  force_wake_pending : bool;
  last_head : Z;                  (* static in check_spi_activity *)
  sdk : list sdk_call;
  sw_wd : wd;
}.
#[export] Instance eta_sleep : Eta sleep :=
  eta! Build_sleep < sw_state ; last_activity_ms ; last_process_ms ; idle_count ;
    force_wake_pending ; last_head ; sdk ; sw_wd >.

Definition sdk_do (c : sdk_call) (s : sleep) : sleep := s <| sdk ::= fun t => t ++ [c] |>.

Definition sleep_wake_init (now : Z) (s : sleep) : sleep :=
  s <| sw_state := SLEEP_IDLE |> <| last_activity_ms := now |>
    <| last_process_ms := now |> <| idle_count := 0 |> <| force_wake_pending := false |>.

Definition check_spi_activity (head : Z) (s : sleep) : bool * sleep :=
  if negb (head =? last_head s) then (true, s <| last_head := head |>) else (false, s).

Definition reset_spi_activity_tracker (head : Z) (s : sleep) : sleep :=
  snd (check_spi_activity head s).

Definition enter_light_sleep (head : Z) (s : sleep) : sleep :=
  let s := reset_spi_activity_tracker head s in
  sdk_do (PeriClock 48000) (sdk_do (SysClock 48000) s).

Definition exit_light_sleep (s : sleep) : sleep :=
  sdk_do (PeriClock 48000) (sdk_do (SysClock 150000) s).

Definition enter_deep_sleep (head : Z) (s : sleep) : sleep :=
  sdk_do (FifoPush 0xDEAD0000) (reset_spi_activity_tracker head s).

Definition exit_deep_sleep (s : sleep) : sleep :=
  let s := exit_light_sleep s in
  sdk_do LaunchCore1 (s <| sw_wd ::= watchdog_kick |>).

(** leaving whatever sleep state the machine is in *)
Definition wake (s : sleep) : sleep :=
  match sw_state s with
  | SLEEP_DEEP => exit_deep_sleep s
  | SLEEP_LIGHT => exit_light_sleep s
  | SLEEP_IDLE => s
  end.

Definition sleep_wake_process (now head head' : Z) (s : sleep) : sleep_state * sleep :=
  let idle_ms := u32 (now - last_activity_ms s) in
  let '(has_activity, s) := check_spi_activity head s in
  if force_wake_pending s then
    let s := wake (s <| force_wake_pending := false |>) in
    let s := s <| sw_state := SLEEP_IDLE |> <| idle_count := 0 |> <| last_activity_ms := now |> in
    (sw_state s, s)
  else if has_activity then
    let s := s <| last_activity_ms := now |> <| idle_count := 0 |> in
    let s := (wake s) <| sw_state := SLEEP_IDLE |> in
    (sw_state s, s)
  else
    let s := s <| idle_count ::= incr32 |> in
    let s :=
      match sw_state s with
      | SLEEP_IDLE =>
          if SLEEP_IDLE_TIMEOUT_MS <=? idle_ms
          then (enter_light_sleep head' s) <| sw_state := SLEEP_LIGHT |> <| idle_count := 0 |>
          else s
      | SLEEP_LIGHT =>
          if SLEEP_LIGHT_TIMEOUT_MS <=? idle_ms
          then (enter_deep_sleep head' s) <| sw_state := SLEEP_DEEP |> <| idle_count := 0 |>
          else s
      | SLEEP_DEEP => s
      end in
    let s := s <| last_process_ms := now |> in
    (sw_state s, s).

Definition sleep_wake_get_state (s : sleep) : sleep_state := sw_state s.
Definition sleep_wake_force_wake (s : sleep) : sleep := s <| force_wake_pending := true |>.
Definition sleep_wake_get_idle_ms (now : Z) (s : sleep) : Z := u32 (now - last_activity_ms s).

(** ** What the calls add up to *)

(** the system clock after the calls [t], which started at [khz] *)
Fixpoint sys_khz (khz : Z) (t : list sdk_call) : Z :=
  match t with
  | [] => khz
  | SysClock k :: t => sys_khz k t
  | _ :: t => sys_khz khz t
  end.

Definition is_launch (c : sdk_call) : bool := match c with LaunchCore1 => true | _ => false end.
Definition is_halt (c : sdk_call) : bool := match c with FifoPush _ => true | _ => false end.
Definition halts (s : sleep) : nat := length (filter is_halt (sdk s)).
Definition launches (s : sleep) : nat := length (filter is_launch (sdk s)).

Lemma sys_khz_app khz t u : sys_khz khz (t ++ u) = sys_khz (sys_khz khz t) u.
Proof. revert khz. induction t as [|c t IH]; intros khz; [done|]. destruct c; simpl; auto. Qed.

Inductive sleep_step (s : sleep) : sleep -> Prop :=
| step_process now head head' : sleep_step s (snd (sleep_wake_process now head head' s))
| step_force : sleep_step s (sleep_wake_force_wake s).

Definition sleep_ok (s : sleep) : Prop :=
  sys_khz 150000 (sdk s) = (if decide (sw_state s = SLEEP_IDLE) then 150000 else 48000) /\
  halts s = (launches s + if decide (sw_state s = SLEEP_DEEP) then 1 else 0)%nat.

Lemma check_spi_activity_spec head s :
  fst (check_spi_activity head s) = negb (head =? last_head s) /\
  snd (check_spi_activity head s) = s <| last_head := head |>.
Proof.
  unfold check_spi_activity. destruct (Z.eqb_spec head (last_head s)) as [->|]; [|done].
  split; [done|]. by destruct s.
Qed.

Lemma check_spi_activity_eq head s :
  check_spi_activity head s = (negb (head =? last_head s), s <| last_head := head |>).
Proof. destruct (check_spi_activity_spec head s) as [<- <-]. by destruct (check_spi_activity _ _). Qed.

Lemma count_app (f : sdk_call -> bool) (t u : list sdk_call) :
  length (filter f (t ++ u)) = (length (filter f t) + length (filter f u))%nat.
Proof. by rewrite filter_app, length_app. Qed.

Ltac sleep_calls := unfold sleep_ok, halts, launches, exit_deep_sleep, exit_light_sleep,
  enter_deep_sleep, enter_light_sleep, reset_spi_activity_tracker, sdk_do in *;
  rewrite ?check_spi_activity_eq; simpl in *; rewrite ?sys_khz_app, ?count_app; simpl.

(** the states a call of [wake] and a change of state leave *)
Lemma wake_ok s : sleep_ok s -> sleep_ok ((wake s) <| sw_state := SLEEP_IDLE |>).
Proof.
  intros [Hk Hc]. unfold wake. destruct (sw_state s) eqn:Es; sleep_calls; rewrite ?Es in *;
    simpl in *; split; try done; lia.
Qed.

Lemma sleep_step_ok s s' : sleep_ok s -> sleep_step s s' -> sleep_ok s'.
Proof.
  intros Hok [now head head'|]; [|done].
  unfold sleep_wake_process. cbv zeta. rewrite check_spi_activity_eq. cbv iota beta.
  assert (sleep_ok (s <| last_head := head |>)) as H1 by done. revert H1.
  generalize (s <| last_head := head |>). intros s1 H1.
  destruct (force_wake_pending s1).
  { pose (s2 := s1 <| force_wake_pending := false |>). exact (wake_ok s2 H1). }
  destruct (negb _).
  { pose (s2 := s1 <| last_activity_ms := now |> <| idle_count := 0 |>). exact (wake_ok s2 H1). }
  destruct H1 as [Hk Hc]. simpl. destruct (sw_state s1) eqn:Es; simpl in *.
  - case_match; sleep_calls; rewrite ?Es in *; simpl in *; split; try done; lia.
  - case_match; sleep_calls; rewrite ?Es in *; simpl in *; split; try done; lia.
  - sleep_calls. by rewrite Es.
Qed.

(** ** Properties *)

Definition sleep_boot (now : Z) (w : wd) : sleep :=
  sleep_wake_init now (Build_sleep SLEEP_IDLE 0 0 0 false 0 [] w).

(** The clock follows the state.  In every run of sleep_wake_process and
    sleep_wake_force_wake the system clock is 150 MHz exactly when the state
    is SLEEP_IDLE and 48 MHz otherwise, and every halt message sent to Core 1
    is matched by one relaunch, but for the one of the current deep sleep. *)
Theorem sleep_clock_follows_state (now : Z) (w : wd) (s : sleep)
    (Hr : rtc sleep_step (sleep_boot now w) s) :
  sys_khz 150000 (sdk s) = (if decide (sw_state s = SLEEP_IDLE) then 150000 else 48000) /\
  halts s = (launches s + if decide (sw_state s = SLEEP_DEEP) then 1 else 0)%nat.
Proof.
  assert (sleep_ok (sleep_boot now w)) as H0 by done.
  revert H0. generalize dependent (sleep_boot now w). intros s0 Hr H0. revert H0.
  induction Hr as [s|s s1 s2 Hs Hr IH]; intros H0; [exact H0|].
  apply IH. by eapply sleep_step_ok.
Qed.

Lemma sleep_clock_follows_state_witness :
  sys_khz 150000 (sdk (snd (sleep_wake_process 6000 0 0 (sleep_boot 0 wd_cold)))) = 48000.
Proof.
  apply (sleep_clock_follows_state 0 wd_cold
    (snd (sleep_wake_process 6000 0 0 (sleep_boot 0 wd_cold)))).
  apply rtc_once. apply step_process.
Defined.

(** When the machine sleeps and when it wakes.  A pending force wake or a
    moved ring head always gives SLEEP_IDLE; with neither, the machine leaves
    SLEEP_IDLE exactly when 5000 ms have passed since the last activity, and
    SLEEP_LIGHT exactly when 30000 ms have, one state per call, with the
    millisecond clock allowed to wrap; and leaving deep sleep reloads the
    watchdog. *)
Theorem sleep_transitions (now head head' : Z) (s : sleep)
    (Hnow : 0 <= now < 4294967296) (Hlast : 0 <= last_activity_ms s < 4294967296) :
  let elapsed := if last_activity_ms s <=? now then now - last_activity_ms s
                 else now - last_activity_ms s + 4294967296 in
  let r := sleep_wake_process now head head' s in
  fst r = sw_state (snd r) /\
  fst r = (if force_wake_pending s || negb (head =? last_head s) then SLEEP_IDLE else
           match sw_state s with
           | SLEEP_IDLE => if 5000 <=? elapsed then SLEEP_LIGHT else SLEEP_IDLE
           | SLEEP_LIGHT => if 30000 <=? elapsed then SLEEP_DEEP else SLEEP_LIGHT
           | SLEEP_DEEP => SLEEP_DEEP
           end) /\
  (sw_state s = SLEEP_DEEP -> fst r = SLEEP_IDLE -> wd_load (sw_wd (snd r)) = WD_TIMEOUT_US).
Proof.
  intros elapsed r. assert (He : u32 (now - last_activity_ms s) = elapsed).
  { subst elapsed. unfold u32. destruct (Z.leb_spec (last_activity_ms s) now).
    - apply Z.mod_small. lia.
    - symmetry. apply (Z.mod_unique_pos _ _ (-1)); lia. }
  subst r. unfold sleep_wake_process. cbv zeta. rewrite check_spi_activity_eq, He. cbv iota beta.
  clearbody elapsed. simpl. destruct (force_wake_pending s); simpl.
  { split_and!; [done|done|]. intros Hd _. unfold wake. simpl. by rewrite Hd. }
  destruct (negb _); simpl.
  { split_and!; [done|done|]. intros Hd _. unfold wake. simpl. by rewrite Hd. }
  unfold SLEEP_IDLE_TIMEOUT_MS, SLEEP_LIGHT_TIMEOUT_MS.
  destruct (sw_state s) eqn:Es; simpl; repeat case_match; simpl; rewrite ?Es; split_and!; done.
Qed.

Lemma sleep_transitions_witness :
  fst (sleep_wake_process 2704 0 0 (sleep_boot 4294965000 wd_cold)) = SLEEP_LIGHT.
Proof.
  pose proof (sleep_transitions 2704 0 0 (sleep_boot 4294965000 wd_cold)) as H.
  destruct H as (_ & E & _); [lia|simpl; lia|]. exact E.
Defined.

(** calls that all read the same ring head *)
Fixpoint poll (head : Z) (times : list Z) (s : sleep) : sleep :=
  match times with
  | [] => s
  | now :: l => poll head l (snd (sleep_wake_process now head head s))
  end.

(** A byte can be slept through.  If bytes arrive after the activity check
    but before the tracker reset of the same call (the head moves from [head]
    to [head']), the machine goes to sleep with the new head recorded as seen:
    however often it polls afterwards, it stays asleep until further bytes
    come or a wake is forced. *)
Theorem wake_lost_in_tracker_reset (now head head' : Z) (times : list Z) (s : sleep)
    (Hst : sw_state s = SLEEP_IDLE) (Hf : force_wake_pending s = false)
    (Hh : last_head s = head) (Hidle : 5000 <= sleep_wake_get_idle_ms now s) :
  let s1 := snd (sleep_wake_process now head head' s) in
  sw_state s1 = SLEEP_LIGHT /\ sw_state (poll head' times s1) <> SLEEP_IDLE.
Proof.
  intros s1.
  assert (H1 : sw_state s1 = SLEEP_LIGHT /\ force_wake_pending s1 = false /\ last_head s1 = head').
  { subst s1. unfold sleep_wake_process. cbv zeta. rewrite check_spi_activity_eq.
    unfold sleep_wake_get_idle_ms in Hidle. simpl. rewrite Hf, Hh, Z.eqb_refl. simpl.
    rewrite Hst, (proj2 (Z.leb_le _ _)) by done. sleep_calls. done. }
  clearbody s1. destruct H1 as (E1 & E2 & E3). split; [done|].
  assert (Hne : sw_state s1 <> SLEEP_IDLE) by congruence. clear E1.
  revert s1 E2 E3 Hne. induction times as [|t l IH]; intros s1 E2 E3 Hne; [done|].
  cbn [poll]. apply IH; unfold sleep_wake_process; cbv zeta; rewrite check_spi_activity_eq;
    simpl; rewrite E2, E3, Z.eqb_refl; simpl; destruct (sw_state s1) eqn:Es; simpl;
    repeat case_match; sleep_calls; rewrite ?Es; done.
Qed.

Lemma wake_lost_in_tracker_reset_witness :
  sw_state (poll 12 [5001; 5002; 40000] (snd (sleep_wake_process 5000 0 12 (sleep_boot 0 wd_cold))))
    <> SLEEP_IDLE.
Proof.
  apply (wake_lost_in_tracker_reset 5000 0 12 [5001; 5002; 40000] (sleep_boot 0 wd_cold)).
  - reflexivity.
  - reflexivity.
  - reflexivity.
  - vm_compute. discriminate.
Defined.
