(* ===== verification/Battery.v ===== *)
(** * Battery and temperature monitor (battery_monitor.c)

    ADC conversions with oversampling, the fixed-point voltage and temperature
    conversions with their 32-bit intermediates, the charge curve, the brownout
    hysteresis, and the power state machine.  A conversion takes the word the
    ADC_RESULT register holds when it completes. *)

From S2P Require Import Prelude.

(** ** ADC *)

Definition ADC_CS_TS_EN : Z := BIT 1.
Definition ADC_CS_START_ONCE : Z := BIT 2.

(** the value of one conversion and the control word it leaves *)
Definition adc_read_channel (channel result cs : Z) : Z * Z :=
  let cs := Z.ldiff cs (Z.shiftl 0x1F 12) in
  let cs := Z.lor cs (Z.shiftl channel 12) in
  let cs := if channel =? 4 then Z.lor cs ADC_CS_TS_EN else Z.ldiff cs ADC_CS_TS_EN in
  let cs := Z.lor cs ADC_CS_START_ONCE in
  (u16 (Z.land result 0xFFF), cs).

Definition sample_count (samples : Z) : Z :=
  if samples <? 1 then 1 else if 16 <? samples then 16 else samples.

(** [results] are the words successive conversions produce *)
Definition adc_read_channel_averaged (channel samples : Z) (results : list Z) (cs : Z) : Z * Z :=
  let n := sample_count samples in
  let '(sum, cs) := foldl (fun acc r =>
      let '(sum, cs) := acc in
      let '(v, cs) := adc_read_channel channel r cs in (u32 (sum + v), cs))
    (0, cs) (take (Z.to_nat n) results) in
  (u16 (sum / n), cs).

(** ** Voltage *)

Definition VBAT_SCALE_NUM : Z := 3300 * 133000.
Definition VBAT_SCALE_DEN : Z := 4095 * 33000.

Definition vbat_of_raw (adc_raw : Z) : Z := u16 (u32 (u32 (adc_raw * 29260) + 4504) / 9009).

Definition battery_read_voltage_mv (results : list Z) (cs : Z) : Z * Z :=
  let '(adc_raw, cs) := adc_read_channel_averaged 0 8 results cs in (vbat_of_raw adc_raw, cs).

Definition battery_get_percent (vbat_mv : Z) : Z :=
  if 4200 <=? vbat_mv then 100
  else if vbat_mv <=? 3000 then 0
  else if 3700 <=? vbat_mv then u8 (u32 (u32 (vbat_mv - 3700) * 50) / 500 + 50)
  else if 3300 <=? vbat_mv then u8 (u32 (u32 (vbat_mv - 3300) * 40) / 400 + 10)
  else u8 (u32 (u32 (vbat_mv - 3000) * 10) / 300).

Definition battery_is_low (vbat_mv : Z) : bool := vbat_mv <? 3300.
Definition battery_is_critical (vbat_mv : Z) : bool := vbat_mv <? 3000.

(** ** Temperature: signed division truncates towards zero *)

Definition temp_of_raw (adc_raw : Z) : Z :=
  let v_temp_uv := adc_raw * 806 in
  let delta_uv := v_temp_uv - 706000 in
  let delta_dc := Z.quot delta_uv 1721 in
  s16 (270 - delta_dc).

Definition temperature_read_dc10 (results : list Z) (cs : Z) : Z * Z :=
  let '(adc_raw, cs) := adc_read_channel_averaged 4 8 results cs in (temp_of_raw adc_raw, cs).

Definition temperature_is_overtemp (temp_dc10 : Z) : bool := 850 <? temp_dc10.
Definition temperature_is_critical (temp_dc10 : Z) : bool := 1050 <? temp_dc10.

(** ** One reading *)

Definition BROWNOUT_THRESHOLD_MV : Z := 2800.
Definition BROWNOUT_HYSTERESIS_MV : Z := 200.

Record reading := { vbat_mv : Z; temp_dc10 : Z; batt_pct : Z; flags : Z }.

Definition flag (b : bool) (n f : Z) : Z := if b then Z.lor f (BIT n) else f.

(** [vs] and [ts] are the conversions of the two channels *)
Definition battery_monitor_read (vs ts : list Z) (cs : Z) : reading * Z :=
  let '(vbat, cs) := battery_read_voltage_mv vs cs in
  let '(temp, cs) := temperature_read_dc10 ts cs in
  let pct := battery_get_percent vbat in
  let f := flag (battery_is_low vbat) 0 0 in
  let f := flag (battery_is_critical vbat) 1 f in
  let f := flag (temperature_is_overtemp temp) 2 f in
  let f := flag (temperature_is_critical temp) 3 f in
  let f := flag (vbat <? BROWNOUT_THRESHOLD_MV) 4 f in
  ({| vbat_mv := vbat; temp_dc10 := temp; batt_pct := pct; flags := f |}, cs).

(** the persistent flag behind the pointer; the result is the new flag *)
Definition battery_is_brownout (vbat_mv : Z) (brownout_active : bool) : bool :=
  if brownout_active then negb (BROWNOUT_THRESHOLD_MV + BROWNOUT_HYSTERESIS_MV <=? vbat_mv)
  else vbat_mv <? BROWNOUT_THRESHOLD_MV.

(** ** Power states *)

Inductive power_state :=
| POWER_STATE_ACTIVE | POWER_STATE_IDLE | POWER_STATE_SLEEP | POWER_STATE_SHUTDOWN.
#[export] Instance power_state_eq_dec : EqDecision power_state.
Proof. solve_decision. Defined.

Record power := { current_power_state : power_state; brownout_flag : bool }.
#[export] Instance eta_power : Eta power := eta! Build_power < current_power_state ; brownout_flag >.

Definition power_boot : power := Build_power POWER_STATE_ACTIVE false.

Definition power_state_update (vbat_mv temp_dc10 : Z) (has_activity : bool) (p : power)
    : power_state * power :=
  let is_brownout := battery_is_brownout vbat_mv (brownout_flag p) in
  let p := p <| brownout_flag := is_brownout |> in
  let is_critical := battery_is_critical vbat_mv in
  let is_overtemp_crit := temperature_is_critical temp_dc10 in
  let is_low_batt := battery_is_low vbat_mv in
  let next :=
    match current_power_state p with
    | POWER_STATE_ACTIVE =>
        if is_critical || is_brownout || is_overtemp_crit then POWER_STATE_SHUTDOWN
        else if is_low_batt && negb has_activity then POWER_STATE_SLEEP
        else POWER_STATE_ACTIVE
    | POWER_STATE_IDLE =>
        if is_critical || is_brownout || is_overtemp_crit then POWER_STATE_SHUTDOWN
        else if is_low_batt then POWER_STATE_SLEEP
        else if has_activity then POWER_STATE_ACTIVE
        else POWER_STATE_IDLE
    | POWER_STATE_SLEEP =>
        if is_critical || is_brownout || is_overtemp_crit then POWER_STATE_SHUTDOWN
        else if has_activity then POWER_STATE_ACTIVE
        else POWER_STATE_SLEEP
    | POWER_STATE_SHUTDOWN => POWER_STATE_SHUTDOWN
    end in
  (next, p <| current_power_state := next |>).

Definition power_state_get (p : power) : power_state := current_power_state p.
Definition power_state_set (s : power_state) (p : power) : power := p <| current_power_state := s |>.

(** ** Lemmas *)

Lemma land_fff_range r : 0 <= Z.land r 0xFFF < 4096.
Proof. change 0xFFF with (Z.ones 12). rewrite Z.land_ones by lia. by apply Z.mod_pos_bound. Qed.

Lemma adc_read_channel_range ch r cs : 0 <= fst (adc_read_channel ch r cs) < 4096.
Proof. cbn [adc_read_channel fst]. pose proof (land_fff_range r). rewrite u16_small; lia. Qed.

Definition adc_sum (l : list Z) : Z := foldr (fun r a => Z.land r 0xFFF + a) 0 l.

(** the running 32-bit sum does not wrap *)
Lemma averaged_sum ch l sum cs :
  0 <= sum -> sum + 4096 * Z.of_nat (length l) < 4294967296 ->
  fst (foldl (fun acc r =>
      let '(sum, cs) := acc in
      let '(v, cs) := adc_read_channel ch r cs in (u32 (sum + v), cs)) (sum, cs) l)
  = sum + adc_sum l.
Proof.
  revert sum cs. induction l as [|r l IH]; intros sum cs Hs Hb; [simpl; lia|].
  simpl length in Hb. pose proof (land_fff_range r).
  cbn [foldl]. destruct (adc_read_channel ch r cs) as [v cs'] eqn:E.
  apply (f_equal fst) in E. cbn [adc_read_channel fst] in E. rewrite u16_small in E by lia. subst v.
  rewrite u32_small, IH by lia. cbn [adc_sum foldr]. fold (adc_sum l). lia.
Qed.

Lemma adc_sum_bounds l lo hi :
  Forall (fun r => lo <= Z.land r 0xFFF <= hi) l ->
  lo * Z.of_nat (length l) <= adc_sum l <= hi * Z.of_nat (length l).
Proof. induction 1 as [|r l Hr _ IH]; [simpl; lia|]. cbn [adc_sum foldr]. fold (adc_sum l). simpl length. lia. Qed.

(** the average lies between the bounds of the samples *)
Lemma averaged_bounds ch samples results cs lo hi :
  0 <= lo -> hi < 4096 -> (Z.to_nat (sample_count samples) <= length results)%nat ->
  Forall (fun r => lo <= Z.land r 0xFFF <= hi) results ->
  lo <= fst (adc_read_channel_averaged ch samples results cs) <= hi.
Proof.
  intros Hlo Hhi Hlen Hr. unfold adc_read_channel_averaged. cbv zeta.
  set (n := sample_count samples) in *.
  assert (1 <= n <= 16) as Hn by (subst n; unfold sample_count; repeat case_match; lia).
  assert (length (take (Z.to_nat n) results) = Z.to_nat n) as Hl by (rewrite length_take; lia).
  pose proof (averaged_sum ch (take (Z.to_nat n) results) 0 cs ltac:(lia) ltac:(lia)) as Hsum.
  pose proof (adc_sum_bounds (take (Z.to_nat n) results) lo hi (Forall_take _ _ _ Hr)) as Hb.
  destruct (foldl _ _ _) as [sum cs']. cbn [fst] in *. rewrite Hl in Hb.
  assert (lo <= sum / n <= hi).
  { split; [apply Z.div_le_lower_bound; lia|]. apply Z.div_le_upper_bound; lia. }
  rewrite u16_small; lia.
Qed.

Lemma averaged_range ch samples results cs :
  (Z.to_nat (sample_count samples) <= length results)%nat ->
  0 <= fst (adc_read_channel_averaged ch samples results cs) <= 4095.
Proof.
  intros Hl. apply averaged_bounds; [lia|lia|done|].
  apply Forall_forall. intros r _. pose proof (land_fff_range r). lia.
Qed.

Lemma vbat_of_raw_eq raw : 0 <= raw <= 4095 -> vbat_of_raw raw = (raw * 29260 + 4504) / 9009.
Proof.
  intros Hr. unfold vbat_of_raw. rewrite (u32_small (raw * 29260)), u32_small by lia.
  apply u16_small. split; [apply Z.div_pos; lia|apply Z.div_lt_upper_bound; lia].
Qed.

Lemma temp_of_raw_eq raw : 0 <= raw <= 4095 ->
  temp_of_raw raw = 270 - Z.quot (raw * 806 - 706000) 1721 /\ -1238 <= temp_of_raw raw <= 680.
Proof.
  intros Hr. unfold temp_of_raw. cbv zeta.
  assert (-410 <= Z.quot (raw * 806 - 706000) 1721 <= 1508) as Hq.
  { pose proof (Z.quot_rem' (raw * 806 - 706000) 1721) as E.
    destruct (Z.le_gt_cases 0 (raw * 806 - 706000)).
    - pose proof (Z.rem_bound_pos (raw * 806 - 706000) 1721 ltac:(lia) ltac:(lia)). lia.
    - pose proof (Z.rem_bound_pos_neg (raw * 806 - 706000) 1721 ltac:(lia) ltac:(lia)). lia. }
  set (q := Z.quot _ _) in *. unfold s16. destruct (Z.le_gt_cases 0 (270 - q)).
  - rewrite u16_small by lia. rewrite (proj2 (Z.ltb_lt _ _)) by lia. lia.
  - unfold u16. replace ((270 - q) mod 65536) with (270 - q + 65536)
      by (apply (Z.mod_unique_pos _ _ (-1)); lia).
    rewrite (proj2 (Z.ltb_ge _ _)) by lia. lia.
Qed.

Lemma percent_cases v : 0 <= v < 65536 ->
  battery_get_percent v =
    if 4200 <=? v then 100 else if v <=? 3000 then 0
    else if 3700 <=? v then (v - 3700) * 50 / 500 + 50
    else if 3300 <=? v then (v - 3300) * 40 / 400 + 10 else (v - 3000) * 10 / 300.
Proof.
  intros Hv. unfold battery_get_percent. repeat case_match; try done;
    rewrite (u32_small (v - _)), u32_small by lia; apply u8_small;
    match goal with |- context [?a / ?b] =>
      assert (0 <= a / b <= 100) by (split; [apply Z.div_pos; lia|apply Z.div_le_upper_bound; lia]);
      assert (b = 500 -> a / b <= 50) by (intros Eb; apply Z.div_le_upper_bound; lia)
    end; lia.
Qed.

(** ** Properties *)

(** The battery voltage is right to half a millivolt.  Whatever the eight
    conversions return, no 32-bit intermediate overflows, the average lies
    between the smallest and the largest sample, and the result is the exact
    divider formula 3300*133000/(4095*33000) applied to it, rounded to nearest. *)
Theorem battery_voltage_rounded (results : list Z) (cs lo hi : Z)
    (Hlen : (8 <= length results)%nat) (Hlo : 0 <= lo) (Hhi : hi <= 4095)
    (Hs : Forall (fun r => lo <= Z.land r 0xFFF <= hi) results) :
  exists raw, lo <= raw <= hi /\
    let mv := fst (battery_read_voltage_mv results cs) in
    2 * Z.abs (mv * VBAT_SCALE_DEN - raw * VBAT_SCALE_NUM) <= VBAT_SCALE_DEN /\
    0 <= mv <= 13300.
Proof.
  unfold battery_read_voltage_mv.
  pose proof (averaged_bounds 0 8 results cs lo hi Hlo ltac:(lia) Hlen Hs) as Hr.
  destruct (adc_read_channel_averaged 0 8 results cs) as [raw cs']. cbn [fst] in *.
  exists raw. split; [done|]. cbv zeta. rewrite vbat_of_raw_eq by lia.
  pose proof (Z.div_mod (raw * 29260 + 4504) 9009 ltac:(lia)) as E.
  pose proof (Z.mod_pos_bound (raw * 29260 + 4504) 9009 ltac:(lia)) as Hm.
  unfold VBAT_SCALE_DEN, VBAT_SCALE_NUM. lia.
Qed.

Lemma battery_voltage_rounded_witness :
  exists raw, 1200 <= raw <= 1210 /\
    let mv := fst (battery_read_voltage_mv [1200; 1210; 1205; 1205; 1204; 1206; 1203; 1207] 0) in
    2 * Z.abs (mv * VBAT_SCALE_DEN - raw * VBAT_SCALE_NUM) <= VBAT_SCALE_DEN /\
    0 <= mv <= 13300.
Proof.
  apply battery_voltage_rounded; [simpl; lia|lia|lia|].
  repeat (apply Forall_cons; split; [vm_compute; split; discriminate|]). apply Forall_nil. exact I.
Defined.

(** The charge curve is monotone, stays within 0 and 100, meets the four
    documented points, and the uint8_t cast never truncates. *)
Theorem battery_percent_monotone (v w : Z) (Hv : 0 <= v) (Hvw : v <= w) (Hw : w < 65536) :
  0 <= battery_get_percent v <= battery_get_percent w /\ battery_get_percent w <= 100 /\
  battery_get_percent 4200 = 100 /\ battery_get_percent 3700 = 50 /\
  battery_get_percent 3300 = 10 /\ battery_get_percent 3000 = 0.
Proof.
  rewrite (percent_cases v), (percent_cases w) by lia.
  split; [|split; [|done]]; repeat case_match; Z.to_euclidean_division_equations; lia.
Qed.

Lemma battery_percent_monotone_witness :
  0 <= battery_get_percent 3050 <= battery_get_percent 3650.
Proof. apply (battery_percent_monotone 3050 3650); lia. Defined.

(** a run of readings through the hysteresis *)
Fixpoint brownout_run (readings : list Z) (b : bool) : bool :=
  match readings with
  | [] => b
  | v :: l => brownout_run l (battery_is_brownout v b)
  end.

(** The brownout flag is a hysteresis.  After any run of readings the flag
    tells which threshold was crossed last: it is set exactly when some reading
    was below 2800 mV and every later one below 3000 mV (or it was set before
    and none reached 3000 mV); so readings between 2800 and 2999 mV never
    change it. *)
Theorem brownout_hysteresis (readings : list Z) (b : bool) :
  brownout_run readings b = true <->
  (b = true /\ Forall (fun v => v < 3000) readings) \/
  (exists l v l', readings = l ++ v :: l' /\ v < 2800 /\ Forall (fun v => v < 3000) l').
Proof.
  revert b. induction readings as [|v l IH]; intros b; cbn [brownout_run].
  - split; [intros ->; by left|]. intros [[H _]|(l1 & v & l2 & E & _)]; [done|].
    by destruct l1.
  - rewrite IH. unfold battery_is_brownout, BROWNOUT_THRESHOLD_MV, BROWNOUT_HYSTERESIS_MV.
    split.
    + intros [[H Hl]|(l1 & w & l2 & -> & Hw & Hl)].
      * destruct b.
        -- left. split; [done|]. apply negb_true_iff, Z.leb_gt in H. constructor; [lia|done].
        -- right. exists [], v, l. apply Z.ltb_lt in H. done.
      * right. exists (v :: l1), w, l2. done.
    + intros [[-> Hl]|(l1 & w & l2 & E & Hw & Hl)].
      * apply Forall_cons in Hl as [Hv Hl]. left. split; [|done].
        apply negb_true_iff, Z.leb_gt. lia.
      * destruct l1 as [|x l1]; simplify_eq/=.
        -- left. split; [|done]. destruct b; [apply negb_true_iff, Z.leb_gt; lia|by apply Z.ltb_lt].
        -- right. by exists l1, w, l2.
Qed.

(** a run of the power state machine: voltage, temperature, activity *)
Fixpoint power_run (inputs : list (Z * Z * bool)) (p : power) : power :=
  match inputs with
  | [] => p
  | (v, t, a) :: l => power_run l (snd (power_state_update v t a p))
  end.

Definition fatal (i : Z * Z * bool) : bool :=
  let '(v, t, _) := i in (v <? 3000) || (1050 <? t).

Definition power_ok (p : power) : Prop :=
  current_power_state p <> POWER_STATE_IDLE /\
  (brownout_flag p = true -> current_power_state p = POWER_STATE_SHUTDOWN).

Lemma power_update_ok v t a p :
  power_ok p ->
  power_ok (snd (power_state_update v t a p)) /\
  (current_power_state (snd (power_state_update v t a p)) = POWER_STATE_SHUTDOWN <->
   current_power_state p = POWER_STATE_SHUTDOWN \/ fatal (v, t, a) = true).
Proof.
  intros [Hi Hb]. destruct p as [st bf]. simpl in *.
  unfold power_ok, power_state_update, battery_is_brownout, battery_is_critical,
    temperature_is_critical, battery_is_low, BROWNOUT_THRESHOLD_MV, BROWNOUT_HYSTERESIS_MV, fatal. simpl.
  destruct st; [|done| |].
  - destruct bf; [by discriminate Hb|].
    destruct (Z.ltb_spec v 3000); simpl; [split_and!; naive_solver|].
    rewrite (proj2 (Z.ltb_ge v 2800)) by lia. simpl.
    destruct (1050 <? t); simpl; [split_and!; naive_solver|].
    destruct ((v <? 3300) && negb a); simpl; split_and!; naive_solver.
  - destruct bf; [by discriminate Hb|].
    destruct (Z.ltb_spec v 3000); simpl; [split_and!; naive_solver|].
    rewrite (proj2 (Z.ltb_ge v 2800)) by lia. simpl.
    destruct (1050 <? t); simpl; [split_and!; naive_solver|].
    destruct a; simpl; split_and!; naive_solver.
  - split_and!; naive_solver.
Qed.

(** The power state machine shuts down exactly when it must, and for good.
    From boot, after any run of inputs the state is SHUTDOWN if and only if
    some input so far had less than 3000 mV or more than 105.0 degrees; the
    brownout test adds nothing to the critical-voltage test; and SLEEP and
    ACTIVE are the only other states, IDLE being unreachable. *)
Theorem power_shutdown_exact (inputs : list (Z * Z * bool)) :
  let p := power_run inputs power_boot in
  (power_state_get p = POWER_STATE_SHUTDOWN <-> existsb fatal inputs = true) /\
  power_state_get p <> POWER_STATE_IDLE.
Proof.
  cbv zeta. unfold power_state_get.
  enough (forall p, power_ok p ->
    (current_power_state (power_run inputs p) = POWER_STATE_SHUTDOWN <->
     current_power_state p = POWER_STATE_SHUTDOWN \/ existsb fatal inputs = true) /\
    power_ok (power_run inputs p)) as H.
  { destruct (H power_boot) as [H1 [H2 _]]; [done|]. split; [|done]. rewrite H1. naive_solver. }
  induction inputs as [|[[v t] a] l IH]; intros p Hp; cbn [power_run existsb].
  - split; [naive_solver|done].
  - destruct (power_update_ok v t a p Hp) as [Hp' Hs]. destruct (IH _ Hp') as [H1 H2].
    split; [|done]. rewrite H1, Hs, orb_true_iff. tauto.
Qed.

(** The overtemperature protection cannot fire.  The converted temperature
    is in whole degrees although every threshold is in tenths (the documented
    slope would need the difference times ten): for every possible sensor
    reading the result is at most 680, so neither overtemperature flag of
    battery_monitor_read is ever set and no reading makes the power state
    machine shut down for its temperature. *)
Theorem overtemp_unreachable (vs ts : list Z) (cs : Z)
    (Hv : (8 <= length vs)%nat) (Ht : (8 <= length ts)%nat) :
  let r := fst (battery_monitor_read vs ts cs) in
  temp_dc10 r <= 680 /\
  Z.testbit (flags r) 2 = false /\ Z.testbit (flags r) 3 = false /\
  temperature_is_critical (temp_dc10 r) = false /\
  (exists raw, 0 <= raw <= 4095 /\ temp_dc10 r = 270 - Z.quot (raw * 806 - 706000) 1721).
Proof.
  unfold battery_monitor_read, battery_read_voltage_mv, temperature_read_dc10.
  destruct (adc_read_channel_averaged 0 8 vs cs) as [v c1] eqn:Ev.
  pose proof (averaged_range 4 8 ts c1 Ht) as Hr.
  destruct (adc_read_channel_averaged 4 8 ts c1) as [raw c2] eqn:Et. cbn [fst] in Hr.
  destruct (temp_of_raw_eq raw Hr) as [E B]. cbn [fst temp_dc10 flags].
  unfold temperature_is_overtemp, temperature_is_critical.
  rewrite (proj2 (Z.ltb_ge 850 _)), (proj2 (Z.ltb_ge 1050 _)) by lia. unfold flag.
  split_and!; [lia| | |done|by exists raw].
  - repeat case_match; reflexivity.
  - repeat case_match; reflexivity.
Qed.

Lemma overtemp_unreachable_witness :
  temp_dc10 (fst (battery_monitor_read (replicate 8 1300) (replicate 8 752) 0)) = 328 /\
  temp_dc10 (fst (battery_monitor_read (replicate 8 1300) (replicate 8 752) 0)) <= 680.
Proof.
  split; [vm_compute; reflexivity|].
  apply (overtemp_unreachable (replicate 8 1300) (replicate 8 752) 0); simpl; lia.
Defined.
