(* ===== verification/PeriphPower.v ===== *)
(** * Peripheral power rails (peripheral_power.c)

    Six switchable rails, each with its state and its enable pin.  The state
    carries the levels of the pins and the ordered list of what the module does
    to the outside: pin writes, waits and event callbacks. *)

From S2P Require Import Prelude.

Definition POWER_RAIL_COUNT : Z := 6.
Definition POWER_RAIL_SDR_1V8 : Z := 0.
Definition POWER_RAIL_SDR_1V1 : Z := 1.
Definition POWER_RAIL_SDR_3V3 : Z := 2.
Definition POWER_RAIL_NFC : Z := 3.
Definition POWER_RAIL_SUBGHZ : Z := 4.
Definition POWER_RAIL_SDIO : Z := 5.

Inductive rail_state :=
| POWER_RAIL_OFF | POWER_RAIL_RAMPING | POWER_RAIL_STABLE | POWER_RAIL_FAULT.
#[export] Instance rail_state_eq_dec : EqDecision rail_state.
Proof. solve_decision. Defined.

Record rail_config := { gpio_pin : Z; active_high : bool; ramp_ms : Z; current_ma : Z }.

Definition rail_configs : list rail_config :=
  [Build_rail_config 18 true 5 500; Build_rail_config 19 true 5 300;
   Build_rail_config 20 true 5 200; Build_rail_config 22 true 50 150;
   Build_rail_config 23 true 50 50; Build_rail_config 24 true 20 500].
Definition rail_config_0 : rail_config := Build_rail_config 0 true 0 0.
Definition config_of (rail : Z) : rail_config := nth (Z.to_nat rail) rail_configs rail_config_0.

Inductive pp_event :=
| PinWrite (pin : Z) (level : bool)
| PinOutput (pin : Z)
| Wait (ms : Z)
| Notify (rail : Z) (st : rail_state).

Record rails := {
  states : list rail_state;
  event_callback : bool;          (* registered or not *)
  initialized : bool;
  pins : gmap Z bool;
  done : list pp_event;
}.
#[export] Instance eta_rails : Eta rails :=
  eta! Build_rails < states ; event_callback ; initialized ; pins ; done >.

Definition rails_bss : rails := {|
  states := replicate 6 POWER_RAIL_OFF; event_callback := false; initialized := false;
  pins := ∅; done := [] |}.

Definition emit (e : pp_event) (s : rails) : rails := s <| done ::= fun t => t ++ [e] |>.
Definition state_of (rail : Z) (s : rails) : rail_state :=
  nth (Z.to_nat rail) (states s) POWER_RAIL_FAULT.
Definition set_state (rail : Z) (st : rail_state) (s : rails) : rails :=
  s <| states ::= <[Z.to_nat rail := st]> |>.

Definition set_rail_gpio (rail : Z) (on : bool) (s : rails) : rails :=
  let cfg := config_of rail in
  let level := if active_high cfg then on else negb on in
  emit (PinWrite (gpio_pin cfg) level) (s <| pins ::= <[gpio_pin cfg := level]> |>).

Definition notify_event (rail : Z) (st : rail_state) (s : rails) : rails :=
  if event_callback s then emit (Notify rail st) s else s.

Definition init_rail (s : rails) (rail : Z) : rails :=
  let s := set_rail_gpio rail false s in
  let s := emit (PinOutput (gpio_pin (config_of rail))) s in
  set_state rail POWER_RAIL_OFF s.

Definition peripheral_power_init (s : rails) : Z * rails :=
  let s := foldl init_rail s (seqZ 0 POWER_RAIL_COUNT) in
  (0, s <| event_callback := false |> <| initialized := true |>).

Definition rail_bad (rail : Z) : bool := (rail <? 0) || (POWER_RAIL_COUNT <=? rail).

Definition peripheral_power_on (rail : Z) (s : rails) : Z * rails :=
  if rail_bad rail then (-1, s) else
  if negb (initialized s) then (-1, s) else
  if decide (state_of rail s = POWER_RAIL_STABLE) then (0, s) else
  if decide (state_of rail s = POWER_RAIL_RAMPING) then (-1, s) else
  let s := set_rail_gpio rail true s in
  let s := set_state rail POWER_RAIL_RAMPING s in
  let s := notify_event rail POWER_RAIL_RAMPING s in
  let s := emit (Wait (ramp_ms (config_of rail))) s in
  let s := set_state rail POWER_RAIL_STABLE s in
  (0, notify_event rail POWER_RAIL_STABLE s).

Definition peripheral_power_off (rail : Z) (s : rails) : Z * rails :=
  if rail_bad rail then (-1, s) else
  if negb (initialized s) then (-1, s) else
  if decide (state_of rail s = POWER_RAIL_OFF) then (0, s) else
  let s := set_rail_gpio rail false s in
  let s := set_state rail POWER_RAIL_OFF s in
  (0, notify_event rail POWER_RAIL_OFF s).

(** the roll-back of each [goto fail] path, in its order *)
Definition off_all (l : list Z) (s : rails) : rails :=
  foldl (fun s r => snd (peripheral_power_off r s)) s l.

Definition peripheral_power_on_sequence (s : rails) : Z * rails :=
  if negb (initialized s) then (-1, s) else
  let '(result, s) := peripheral_power_on POWER_RAIL_SDR_1V8 s in
  if negb (result =? 0) then (result, s) else
  let '(result, s) := peripheral_power_on POWER_RAIL_SDR_1V1 s in
  if negb (result =? 0) then (result, off_all [POWER_RAIL_SDR_1V8] s) else
  let '(result, s) := peripheral_power_on POWER_RAIL_SDR_3V3 s in
  if negb (result =? 0) then (result, off_all [POWER_RAIL_SDR_1V1; POWER_RAIL_SDR_1V8] s) else
  let '(result, s) := peripheral_power_on POWER_RAIL_NFC s in
  if negb (result =? 0) then
    (result, off_all [POWER_RAIL_SDR_3V3; POWER_RAIL_SDR_1V1; POWER_RAIL_SDR_1V8] s) else
  let '(result, s) := peripheral_power_on POWER_RAIL_SUBGHZ s in
  if negb (result =? 0) then
    (result, off_all [POWER_RAIL_NFC; POWER_RAIL_SDR_3V3; POWER_RAIL_SDR_1V1;
                      POWER_RAIL_SDR_1V8] s) else
  let '(result, s) := peripheral_power_on POWER_RAIL_SDIO s in
  if negb (result =? 0) then
    (result, off_all [POWER_RAIL_SUBGHZ; POWER_RAIL_NFC; POWER_RAIL_SDR_3V3;
                      POWER_RAIL_SDR_1V1; POWER_RAIL_SDR_1V8] s) else
  (0, s).

Definition off_wait (s : rails) (rail : Z) : rails :=
  emit (Wait 5) (snd (peripheral_power_off rail s)).

Definition peripheral_power_off_sequence (s : rails) : Z * rails :=
  if negb (initialized s) then (-1, s) else
  let s := foldl off_wait s [POWER_RAIL_SDIO; POWER_RAIL_SUBGHZ; POWER_RAIL_NFC;
                             POWER_RAIL_SDR_3V3; POWER_RAIL_SDR_1V1] in
  (0, snd (peripheral_power_off POWER_RAIL_SDR_1V8 s)).

Definition peripheral_power_get_state (rail : Z) (s : rails) : rail_state :=
  if rail_bad rail then POWER_RAIL_FAULT else state_of rail s.

Definition peripheral_power_set_event_callback (cb : bool) (s : rails) : rails :=
  s <| event_callback := cb |>.

Definition peripheral_power_all_on (s : rails) : bool :=
  forallb (fun r => bool_decide (state_of r s = POWER_RAIL_STABLE)) (seqZ 0 POWER_RAIL_COUNT).
Definition peripheral_power_all_off (s : rails) : bool :=
  forallb (fun r => bool_decide (state_of r s = POWER_RAIL_OFF)) (seqZ 0 POWER_RAIL_COUNT).
Definition peripheral_power_get_config (rail : Z) : option rail_config :=
  if rail_bad rail then None else Some (config_of rail).

(** ** The invariant *)

(** after initialisation: every rail is off or stable, and its pin agrees *)
Record rails_ok (s : rails) : Prop := {
  ro_init : initialized s = true;
  ro_len : length (states s) = 6%nat;
  ro_rail : forall r, 0 <= r < 6 ->
    (state_of r s = POWER_RAIL_OFF /\ pins s !! gpio_pin (config_of r) = Some false) \/
    (state_of r s = POWER_RAIL_STABLE /\ pins s !! gpio_pin (config_of r) = Some true);
}.

Lemma rail_cases r : 0 <= r < 6 -> r = 0 \/ r = 1 \/ r = 2 \/ r = 3 \/ r = 4 \/ r = 5.
Proof. lia. Qed.

Lemma pin_inj r r' : 0 <= r < 6 -> 0 <= r' < 6 ->
  gpio_pin (config_of r) = gpio_pin (config_of r') -> r = r'.
Proof.
  intros Hr Hr'. destruct (rail_cases r Hr) as [->|[->|[->|[->|[->| ->]]]]],
    (rail_cases r' Hr') as [->|[->|[->|[->|[->| ->]]]]]; vm_compute; congruence.
Qed.

Lemma config_active r : 0 <= r < 6 -> active_high (config_of r) = true.
Proof. intros Hr. by destruct (rail_cases r Hr) as [->|[->|[->|[->|[->| ->]]]]]. Qed.

Lemma rail_good r : 0 <= r < 6 -> rail_bad r = false.
Proof. intros. unfold rail_bad, POWER_RAIL_COUNT. lia. Qed.

Lemma state_of_set r r' st s :
  length (states s) = 6%nat -> 0 <= r < 6 -> 0 <= r' < 6 ->
  state_of r' (set_state r st s) = if decide (r = r') then st else state_of r' s.
Proof.
  intros Hl Hr Hr'. unfold state_of, set_state. simpl. rewrite !nth_lookup.
  destruct (decide (r = r')) as [->|].
  - by rewrite list_lookup_insert_eq by lia.
  - by rewrite list_lookup_insert_ne by lia.
Qed.

(** what one operation did: [ev] was appended to the trace *)
Record switched (r : Z) (st : rail_state) (ev : list pp_event) (s s' : rails) : Prop := {
  sw_ok : rails_ok s';
  sw_self : state_of r s' = st;
  sw_others : forall r', 0 <= r' < 6 -> r' <> r -> state_of r' s' = state_of r' s;
  sw_cb : event_callback s' = event_callback s;
  sw_done : done s' = done s ++ ev;
}.

Definition note (cb : bool) (r : Z) (st : rail_state) : list pp_event :=
  if cb then [Notify r st] else [].

Definition on_events (cb : bool) (r : Z) : list pp_event :=
  PinWrite (gpio_pin (config_of r)) true :: note cb r POWER_RAIL_RAMPING ++
  Wait (ramp_ms (config_of r)) :: note cb r POWER_RAIL_STABLE.
Definition off_events (cb : bool) (r : Z) : list pp_event :=
  PinWrite (gpio_pin (config_of r)) false :: note cb r POWER_RAIL_OFF.

Lemma notify_event_eq r st s :
  notify_event r st s = s <| done ::= fun t => t ++ note (event_callback s) r st |>.
Proof.
  unfold notify_event, note. destruct (event_callback s) eqn:E; [done|].
  destruct s. unfold update. simpl. by rewrite app_nil_r.
Qed.

(** the invariant after rail [r] is put in state [st] with its pin at [b] *)
Lemma rails_ok_switch r st b s s' :
  0 <= r < 6 -> rails_ok s ->
  (st = POWER_RAIL_OFF /\ b = false) \/ (st = POWER_RAIL_STABLE /\ b = true) ->
  initialized s' = true -> states s' = <[Z.to_nat r := st]> (states s) ->
  pins s' = <[gpio_pin (config_of r) := b]> (pins s) -> rails_ok s'.
Proof.
  intros Hr [Hi Hl Hs] Hb Ei Es Ep. constructor; [done|by rewrite Es, length_insert|].
  intros r' Hr'. pose proof (state_of_set r r' st s Hl Hr Hr') as E.
  replace (state_of r' s') with (state_of r' (set_state r st s))
    by (unfold state_of, set_state; simpl; by rewrite Es).
  rewrite E, Ep. destruct (decide (r = r')) as [->|Hne].
  - rewrite lookup_insert_eq. destruct Hb as [[-> ->]|[-> ->]]; auto.
  - rewrite lookup_insert_ne; [by apply Hs|]. intros Eq. by apply Hne, pin_inj.
Qed.

Lemma power_on_ok r s :
  0 <= r < 6 -> rails_ok s ->
  exists ev, fst (peripheral_power_on r s) = 0 /\
    switched r POWER_RAIL_STABLE ev s (snd (peripheral_power_on r s)) /\
    ev = if decide (state_of r s = POWER_RAIL_STABLE) then [] else on_events (event_callback s) r.
Proof.
  intros Hr W. pose proof W as [Hi Hl Hs]. unfold peripheral_power_on.
  rewrite rail_good, Hi by done. cbn [negb].
  destruct (decide (state_of r s = POWER_RAIL_STABLE)) as [E|E].
  { exists []. split; [done|]. split; [constructor; try done; by rewrite app_nil_r|done]. }
  destruct (Hs r Hr) as [[Eo Ep]|[E' _]]; [|done].
  destruct (decide _) as [E'|_]; [by rewrite Eo in E'|]. cbn [fst snd].
  rewrite !notify_event_eq. exists (on_events (event_callback s) r). split; [done|].
  split; [|done]. unfold set_rail_gpio. rewrite config_active by done.
  assert (Est : forall s1, states s1 = states s -> forall r', 0 <= r' < 6 ->
    state_of r' (set_state r POWER_RAIL_STABLE (set_state r POWER_RAIL_RAMPING s1)) =
      if decide (r = r') then POWER_RAIL_STABLE else state_of r' s).
  { intros s1 E1 r' Hr'. rewrite !state_of_set by (simpl; rewrite ?length_insert, ?E1; lia).
    case_decide; [done|]. unfold state_of. by rewrite E1. }
  constructor.
  - apply (rails_ok_switch r POWER_RAIL_STABLE true s); try done; [by right|].
    simpl. by rewrite list_insert_insert_eq.
  - transitivity (state_of r (set_state r POWER_RAIL_STABLE (set_state r POWER_RAIL_RAMPING s)));
      [done|]. rewrite Est by done. by rewrite decide_True.
  - intros r' Hr' Hne.
    transitivity (state_of r' (set_state r POWER_RAIL_STABLE (set_state r POWER_RAIL_RAMPING s)));
      [done|]. rewrite Est by done. by rewrite decide_False.
  - done.
  - simpl. unfold on_events. by rewrite <- !app_assoc.
Qed.

Lemma power_off_ok r s :
  0 <= r < 6 -> rails_ok s ->
  exists ev, fst (peripheral_power_off r s) = 0 /\
    switched r POWER_RAIL_OFF ev s (snd (peripheral_power_off r s)) /\
    ev = if decide (state_of r s = POWER_RAIL_OFF) then [] else off_events (event_callback s) r.
Proof.
  intros Hr W. pose proof W as [Hi Hl Hs]. unfold peripheral_power_off.
  rewrite rail_good, Hi by done. cbn [negb].
  destruct (decide (state_of r s = POWER_RAIL_OFF)) as [E|E].
  { exists []. split; [done|]. split; [constructor; try done; by rewrite app_nil_r|done]. }
  cbn [fst snd]. rewrite !notify_event_eq. exists (off_events (event_callback s) r).
  split; [done|]. split; [|done]. unfold set_rail_gpio. rewrite config_active by done.
  constructor.
  - apply (rails_ok_switch r POWER_RAIL_OFF false s); try done. by left.
  - transitivity (state_of r (set_state r POWER_RAIL_OFF s)); [done|].
    rewrite state_of_set by done. by rewrite decide_True.
  - intros r' Hr' Hne. transitivity (state_of r' (set_state r POWER_RAIL_OFF s)); [done|].
    rewrite state_of_set by done. by rewrite decide_False.
  - done.
  - simpl. unfold off_events. by rewrite <- !app_assoc.
Qed.

(** ** Sequences *)

Definition on_all (l : list Z) (s : rails) : rails :=
  foldl (fun s r => snd (peripheral_power_on r s)) s l.

Section Sweep.
Context (f : Z -> rails -> Z * rails) (st : rail_state) (ev : bool -> Z -> list pp_event).
Hypothesis f_ok : forall r s, 0 <= r < 6 -> rails_ok s ->
  exists e, fst (f r s) = 0 /\ switched r st e s (snd (f r s)) /\
    e = if decide (state_of r s = st) then [] else ev (event_callback s) r.

(** switching the rails of [l] one after another *)
Lemma sweep l s :
  rails_ok s -> NoDup l -> Forall (fun r => 0 <= r < 6) l ->
  let s' := foldl (fun s r => snd (f r s)) s l in
  rails_ok s' /\ event_callback s' = event_callback s /\
  (forall r, 0 <= r < 6 -> state_of r s' = if decide (r ∈ l) then st else state_of r s) /\
  done s' = done s ++ concat ((fun r => if decide (state_of r s = st) then []
                                        else ev (event_callback s) r) <$> l).
Proof.
  revert s. induction l as [|r l IH]; intros s W Hnd Hl; cbn [foldl].
  - split_and!; [done|done| |simpl; by rewrite app_nil_r].
    intros r Hr. rewrite decide_False by (by apply not_elem_of_nil). done.
  - apply NoDup_cons in Hnd as [Hnin Hnd]. apply Forall_cons in Hl as [Hr Hl].
    destruct (f_ok r s Hr W) as (e & _ & [W1 Eself Eoth Ecb Ed] & Ee).
    destruct (IH (snd (f r s)) W1 Hnd Hl) as (W' & Ecb' & Est & Ed').
    split_and!; [exact W'|congruence| |].
    + intros r' Hr'. rewrite Est by done. destruct (decide (r' = r)) as [->|Hne].
      * rewrite decide_False by done. rewrite decide_True by (apply elem_of_cons; auto). done.
      * rewrite (Eoth r') by done. destruct (decide (r' ∈ l)).
        -- by rewrite decide_True by (apply elem_of_cons; auto).
        -- rewrite decide_False; [done|]. rewrite elem_of_cons. tauto.
    + rewrite Ed', Ed, Ee, <- app_assoc. f_equal. cbn [fmap list_fmap concat]. f_equal. f_equal.
      apply list_fmap_ext. intros i x Hx. rewrite Ecb.
      assert (x ∈ l) by (by eapply list_elem_of_lookup_2).
      rewrite (Eoth x); [done| |by intros ->].
      by apply (proj1 (Forall_forall _ _) Hl).
Qed.
End Sweep.

Lemma on_sequence_eq s :
  rails_ok s -> peripheral_power_on_sequence s = (0, on_all (seqZ 0 6) s).
Proof.
  intros W. unfold peripheral_power_on_sequence. rewrite (ro_init s W). cbn [negb].
  unfold on_all. change (seqZ 0 6) with [0; 1; 2; 3; 4; 5]. cbn [foldl].
  unfold POWER_RAIL_SDR_1V8, POWER_RAIL_SDR_1V1, POWER_RAIL_SDR_3V3, POWER_RAIL_NFC,
    POWER_RAIL_SUBGHZ, POWER_RAIL_SDIO.
  do 6 (match goal with |- context [peripheral_power_on ?r ?s0] =>
    destruct (power_on_ok r s0 ltac:(lia) ltac:(assumption)) as (? & ? & [? _ _ _ _] & _);
    destruct (peripheral_power_on r s0) as [? ?]; cbn [fst snd] in *; subst;
    change (negb (0 =? 0)) with false; cbv iota end).
  done.
Qed.

Lemma off_sequence_eq s :
  rails_ok s ->
  exists s', peripheral_power_off_sequence s = (0, s') /\ rails_ok s' /\
    event_callback s' = event_callback s /\
    forall r, 0 <= r < 6 -> state_of r s' = POWER_RAIL_OFF.
Proof.
  intros W. unfold peripheral_power_off_sequence. rewrite (ro_init s W). cbn [negb].
  eexists. split; [reflexivity|].
  unfold POWER_RAIL_SDR_1V8, POWER_RAIL_SDR_1V1, POWER_RAIL_SDR_3V3, POWER_RAIL_NFC,
    POWER_RAIL_SUBGHZ, POWER_RAIL_SDIO.
  assert (H : forall l s, rails_ok s -> Forall (fun r => 0 <= r < 6) l ->
    let s' := foldl off_wait s l in
    rails_ok s' /\ event_callback s' = event_callback s /\
    forall r, 0 <= r < 6 -> state_of r s' = if decide (r ∈ l) then POWER_RAIL_OFF else state_of r s).
  { induction l as [|r l IH]; intros s0 W0 Hl; cbn [foldl].
    { split_and!; [done|done|]. intros r Hr. by rewrite decide_False by (by apply not_elem_of_nil). }
    apply Forall_cons in Hl as [Hr Hl].
    destruct (power_off_ok r s0 Hr W0) as (e & _ & [W1 Eself Eoth Ecb _] & _).
    assert (rails_ok (off_wait s0 r)) as W2 by (destruct W1; by constructor).
    destruct (IH _ W2 Hl) as (W' & Ecb' & Est). split_and!; [done|exact (eq_trans Ecb' Ecb)|].
    intros r' Hr'. rewrite Est by done. change (state_of r' (off_wait s0 r))
      with (state_of r' (snd (peripheral_power_off r s0))).
    destruct (decide (r' ∈ l)).
    - by rewrite decide_True by (apply elem_of_cons; auto).
    - destruct (decide (r' = r)) as [->|Hne].
      + by rewrite decide_True by (apply elem_of_cons; auto).
      + rewrite (Eoth r') by done. rewrite decide_False; [done|]. rewrite elem_of_cons. tauto. }
  destruct (H [5; 4; 3; 2; 1] s W) as (W5 & Ecb5 & Est5);
    [by repeat (apply Forall_cons; split; [lia|])|].
  destruct (power_off_ok 0 (foldl off_wait s [5; 4; 3; 2; 1]) ltac:(lia) W5)
    as (e & _ & [W6 Eself Eoth Ecb _] & _).
  split_and!; [exact W6|congruence|].
  intros r Hr. destruct (decide (r = 0)) as [->|Hne]; [exact Eself|].
  rewrite (Eoth r) by done. rewrite Est5 by done. rewrite decide_True; [done|].
  rewrite !elem_of_cons. destruct (rail_cases r Hr) as [->|[->|[->|[->|[->| ->]]]]]; tauto.
Qed.

Lemma all_on_ok s :
  (forall r, 0 <= r < 6 -> state_of r s = POWER_RAIL_STABLE) -> peripheral_power_all_on s = true.
Proof.
  intros H. unfold peripheral_power_all_on. apply forallb_forall. intros r Hr.
  apply list_elem_of_In, elem_of_seqZ in Hr. apply bool_decide_eq_true. apply H.
  unfold POWER_RAIL_COUNT in Hr. lia.
Qed.

Lemma all_off_ok s :
  (forall r, 0 <= r < 6 -> state_of r s = POWER_RAIL_OFF) -> peripheral_power_all_off s = true.
Proof.
  intros H. unfold peripheral_power_all_off. apply forallb_forall. intros r Hr.
  apply list_elem_of_In, elem_of_seqZ in Hr. apply bool_decide_eq_true. apply H.
  unfold POWER_RAIL_COUNT in Hr. lia.
Qed.

Lemma init_ok s :
  length (states s) = 6%nat ->
  rails_ok (snd (peripheral_power_init s)) /\
  forall r, 0 <= r < 6 -> state_of r (snd (peripheral_power_init s)) = POWER_RAIL_OFF.
Proof.
  intros Hl. unfold peripheral_power_init. cbn [snd].
  destruct s as [st cb ini pn dn]. simpl in Hl. do 7 (destruct st as [|? st]; try done).
  assert (H : forall k, 0 <= k < 6 ->
    state_of k (snd (peripheral_power_init (Build_rails [r; r0; r1; r2; r3; r4] cb ini pn dn))) = POWER_RAIL_OFF).
  { intros k Hk. by destruct (rail_cases k Hk) as [->|[->|[->|[->|[->| ->]]]]]. }
  split; [|exact H]. constructor; [done|done|]. intros k Hk. left. split; [by apply H|].
  destruct (rail_cases k Hk) as [->|[->|[->|[->|[->| ->]]]]]; simpl;
    repeat (rewrite lookup_insert_ne by done); by rewrite lookup_insert_eq.
Qed.

(** ** Every sequence of calls *)

Inductive pp_op :=
| OpInit
| OpOn (rail : Z)
| OpOff (rail : Z)
| OpOnSequence
| OpOffSequence
| OpCallback (registered : bool).

Definition pp_step (s : rails) (o : pp_op) : rails :=
  match o with
  | OpInit => snd (peripheral_power_init s)
  | OpOn r => snd (peripheral_power_on r s)
  | OpOff r => snd (peripheral_power_off r s)
  | OpOnSequence => snd (peripheral_power_on_sequence s)
  | OpOffSequence => snd (peripheral_power_off_sequence s)
  | OpCallback b => peripheral_power_set_event_callback b s
  end.

Definition booted (ops : list pp_op) : rails :=
  foldl pp_step (snd (peripheral_power_init rails_bss)) ops.

Lemma rail_bad_spec r : rail_bad r = true \/ 0 <= r < 6.
Proof. unfold rail_bad, POWER_RAIL_COUNT. lia. Qed.

Lemma sequence_rails : NoDup (seqZ 0 6) /\ Forall (fun r => 0 <= r < 6) (seqZ 0 6).
Proof.
  split; [apply NoDup_seqZ|]. apply Forall_forall. intros r Hr.
  apply elem_of_seqZ in Hr. lia.
Qed.

(** the whole effect of [peripheral_power_on_sequence] *)
Lemma on_sequence_ok s :
  rails_ok s ->
  exists s', peripheral_power_on_sequence s = (0, s') /\ rails_ok s' /\
    event_callback s' = event_callback s /\
    (forall r, 0 <= r < 6 -> state_of r s' = POWER_RAIL_STABLE) /\
    done s' = done s ++ concat ((fun r => if decide (state_of r s = POWER_RAIL_STABLE) then []
                                          else on_events (event_callback s) r) <$> seqZ 0 6).
Proof.
  intros W. eexists. split; [by apply on_sequence_eq|].
  destruct sequence_rails as [Hnd Hl].
  destruct (sweep peripheral_power_on POWER_RAIL_STABLE on_events power_on_ok (seqZ 0 6) s W Hnd Hl)
    as (W' & Ecb & Est & Ed).
  split_and!; [done|done| |done]. intros r Hr. unfold on_all. rewrite (Est r Hr).
  rewrite decide_True; [done|]. apply elem_of_seqZ. lia.
Qed.

Lemma pp_step_ok s o : rails_ok s -> rails_ok (pp_step s o).
Proof.
  intros W. destruct o as [|r|r| | |b]; cbn [pp_step].
  - apply init_ok, W.
  - destruct (rail_bad_spec r) as [Hb|Hr]; [by unfold peripheral_power_on; rewrite Hb|].
    by destruct (power_on_ok r s Hr W) as (e & _ & [] & _).
  - destruct (rail_bad_spec r) as [Hb|Hr]; [by unfold peripheral_power_off; rewrite Hb|].
    by destruct (power_off_ok r s Hr W) as (e & _ & [] & _).
  - by destruct (on_sequence_ok s W) as (s' & -> & ? & _).
  - by destruct (off_sequence_eq s W) as (s' & -> & ? & _).
  - destruct W. by constructor.
Qed.

Lemma booted_ok ops : rails_ok (booted ops).
Proof.
  unfold booted. generalize (proj1 (init_ok rails_bss eq_refl)).
  generalize (snd (peripheral_power_init rails_bss)).
  induction ops as [|o ops IH]; intros s W; [done|]. cbn [foldl]. by apply IH, pp_step_ok.
Qed.

(** after [peripheral_power_init] and any sequence of calls of the module,
    whatever rail numbers they are given, every rail is off with its enable pin
    low or stable with its enable pin high (never ramping or faulted); a single
    switch of a valid rail then succeeds, drives only that rail and leaves the
    others; a switch of an invalid rail returns -1 and changes nothing; and the
    power-up and power-down sequences succeed with all six rails on, and all
    six off. *)
Theorem rails_follow_pins (ops : list pp_op) :
  let s := booted ops in
  rails_ok s /\
  (forall r, 0 <= r < 6 ->
     fst (peripheral_power_on r s) = 0 /\
     peripheral_power_get_state r (snd (peripheral_power_on r s)) = POWER_RAIL_STABLE /\
     fst (peripheral_power_off r s) = 0 /\
     peripheral_power_get_state r (snd (peripheral_power_off r s)) = POWER_RAIL_OFF /\
     forall r', 0 <= r' < 6 -> r' <> r ->
       state_of r' (snd (peripheral_power_on r s)) = state_of r' s /\
       state_of r' (snd (peripheral_power_off r s)) = state_of r' s) /\
  (forall r, r < 0 \/ 6 <= r ->
     peripheral_power_on r s = (-1, s) /\ peripheral_power_off r s = (-1, s) /\
     peripheral_power_get_state r s = POWER_RAIL_FAULT) /\
  fst (peripheral_power_on_sequence s) = 0 /\
  peripheral_power_all_on (snd (peripheral_power_on_sequence s)) = true /\
  fst (peripheral_power_off_sequence s) = 0 /\
  peripheral_power_all_off (snd (peripheral_power_off_sequence s)) = true.
Proof.
  intros s. pose proof (booted_ok ops) as W. fold s in W. clearbody s.
  destruct (on_sequence_ok s W) as (s1 & E1 & _ & _ & A1 & _).
  destruct (off_sequence_eq s W) as (s2 & E2 & _ & _ & A2).
  rewrite E1, E2. cbn [fst snd].
  split_and!; [done| | |done|by apply all_on_ok|done|by apply all_off_ok].
  - intros r Hr. destruct (power_on_ok r s Hr W) as (e & -> & [_ S1 O1 _ _] & _).
    destruct (power_off_ok r s Hr W) as (e' & -> & [_ S2 O2 _ _] & _).
    unfold peripheral_power_get_state. rewrite rail_good by done.
    split_and!; [done|done|done|done|]. intros r' Hr' Hne. by rewrite O1, O2.
  - intros r Hr. assert (rail_bad r = true) as Hb
      by (unfold rail_bad, POWER_RAIL_COUNT; lia).
    unfold peripheral_power_on, peripheral_power_off, peripheral_power_get_state.
    by rewrite Hb.
Qed.

Definition waited (l : list pp_event) : Z :=
  foldr (fun e n => match e with Wait ms => ms + n | _ => n end) 0 l.

(** With every rail off the power-up sequence drives the enable pins high in
    the documented order (1.8 V, 1.1 V, 3.3 V, NFC, sub-GHz, SDIO), each once
    and each followed by its own ramp delay before the next pin moves, 135 ms
    in all; a callback sees each rail ramp and then become stable, in the same
    order.  Run again it does nothing at all. *)
Theorem power_up_order (s : rails)
    (W : rails_ok s) (Hoff : forall r, 0 <= r < 6 -> state_of r s = POWER_RAIL_OFF) :
  let s' := snd (peripheral_power_on_sequence s) in
  (exists t, done s' = done s ++ t /\ waited t = 135 /\
     t = concat (on_events (event_callback s) <$> seqZ 0 6) /\
     omap (fun e => match e with PinWrite p l => Some (p, l) | _ => None end) t =
       [(18, true); (19, true); (20, true); (22, true); (23, true); (24, true)]) /\
  done (snd (peripheral_power_on_sequence s')) = done s'.
Proof.
  destruct (on_sequence_ok s W) as (s1 & E1 & W1 & _ & A1 & D1). rewrite E1. cbn [fst snd].
  destruct (on_sequence_ok s1 W1) as (s2 & E2 & _ & _ & _ & D2). rewrite E2. cbn [snd]. split.
  - exists (concat (on_events (event_callback s) <$> seqZ 0 6)).
    rewrite D1. split_and!.
    + f_equal. f_equal. apply list_fmap_ext. intros i x Hx.
      apply list_elem_of_lookup_2, elem_of_seqZ in Hx. by rewrite decide_False by (rewrite Hoff by lia; done).
    + by destruct (event_callback s).
    + done.
    + by destruct (event_callback s).
  - rewrite D2. rewrite <- app_nil_r. f_equal.
    apply (eq_trans (y := concat ((fun _ => []) <$> seqZ 0 6))); [|done].
    f_equal. apply list_fmap_ext. intros i x Hx.
    apply list_elem_of_lookup_2, elem_of_seqZ in Hx.
    by rewrite decide_True by (apply A1; lia).
Qed.

Lemma power_up_order_witness :
  let s := booted [OpCallback true] in
  exists t, done (snd (peripheral_power_on_sequence s)) = done s ++ t /\ waited t = 135.
Proof.
  destruct (power_up_order (booted [OpCallback true])) as [(t & E & H & _) _].
  - apply booted_ok.
  - intros r Hr. by destruct (rail_cases r Hr) as [->|[->|[->|[->|[->| ->]]]]].
  - by exists t.
Defined.
