(* ===== verification/Kernel.v ===== *)
(** * What the Linux driver uses of the kernel

    The kernel is not part of the repository.  Its FIFO is the interface
    [Kfifo], with the documented behaviour of kfifo_in and kfifo_out as laws
    and a list implementation as an instance; the ioctl number encoding is
    [IoctlAbi]; allocation and the SPI bus are the environment [env] of a
    call.  The calls a driver function makes are recorded in order. *)

From S2P Require Import Prelude.

(** ** Error numbers *)

Definition EINTR_RESTART : Z := 512.        (* ERESTARTSYS *)
Definition EAGAIN : Z := 11.
Definition ENOMEM : Z := 12.
Definition EFAULT : Z := 14.
Definition EBUSY : Z := 16.
Definition ENODEV : Z := 19.
Definition EINVAL : Z := 22.
Definition ENOTTY : Z := 25.
Definition EBADMSG : Z := 74.
Definition EMSGSIZE : Z := 90.

(** ** kfifo *)

(** [kfifo_in] copies as many bytes as there is room for and [kfifo_out] as
    many as there are; both return the number (for [kfifo_out], the bytes). *)
Class Kfifo := {
  kfifo : Type;
  kfifo_alloc : nat -> kfifo;
  kfifo_size : kfifo -> nat;
  kfifo_data : kfifo -> list Z;
  kfifo_in : list Z -> kfifo -> nat * kfifo;
  kfifo_out : nat -> kfifo -> list Z * kfifo;
  kfifo_alloc_size : forall n, kfifo_size (kfifo_alloc n) = n;
  kfifo_alloc_data : forall n, kfifo_data (kfifo_alloc n) = [];
  kfifo_in_count : forall l f,
    fst (kfifo_in l f) = Nat.min (length l) (kfifo_size f - length (kfifo_data f));
  kfifo_in_data : forall l f,
    kfifo_data (snd (kfifo_in l f)) = kfifo_data f ++ take (fst (kfifo_in l f)) l;
  kfifo_in_size : forall l f, kfifo_size (snd (kfifo_in l f)) = kfifo_size f;
  kfifo_out_bytes : forall n f, fst (kfifo_out n f) = take n (kfifo_data f);
  kfifo_out_data : forall n f, kfifo_data (snd (kfifo_out n f)) = drop n (kfifo_data f);
  kfifo_out_size : forall n f, kfifo_size (snd (kfifo_out n f)) = kfifo_size f;
}.

Section KfifoHelpers.
Context {K : Kfifo}.

Definition kfifo_len (f : kfifo) : Z := Z.of_nat (length (kfifo_data f)).
Definition kfifo_is_empty (f : kfifo) : bool := kfifo_len f =? 0.
Definition kfifo_avail (f : kfifo) : Z := Z.of_nat (kfifo_size f) - kfifo_len f.

(** what [kfifo_in] appends *)
Definition kfifo_fits (l : list Z) (f : kfifo) : list Z :=
  take (kfifo_size f - length (kfifo_data f)) l.

Lemma kfifo_in_fits l f : kfifo_data (snd (kfifo_in l f)) = kfifo_data f ++ kfifo_fits l f.
Proof.
  rewrite kfifo_in_data, kfifo_in_count. unfold kfifo_fits. f_equal.
  destruct (Nat.min_spec (length l) (kfifo_size f - length (kfifo_data f))) as [[? ->]|[? ->]]; [|done].
  by rewrite !take_ge by lia.
Qed.

Lemma kfifo_fits_all l f :
  (length (kfifo_data f) + length l <= kfifo_size f)%nat -> kfifo_fits l f = l.
Proof. intros. unfold kfifo_fits. by rewrite take_ge by lia. Qed.

Lemma kfifo_in_bound l f :
  (length (kfifo_data f) <= kfifo_size f)%nat ->
  (length (kfifo_data (snd (kfifo_in l f))) <= kfifo_size f)%nat.
Proof.
  intros. rewrite kfifo_in_fits, length_app. unfold kfifo_fits. rewrite length_take. lia.
Qed.
End KfifoHelpers.

(** a kfifo as a list with a capacity *)
#[export] Program Instance list_kfifo : Kfifo := {|
  kfifo := nat * list Z;
  kfifo_alloc n := (n, []);
  kfifo_size := fst;
  kfifo_data := snd;
  kfifo_in l f := let n := Nat.min (length l) (fst f - length (snd f)) in
                  (n, (fst f, snd f ++ take n l));
  kfifo_out n f := (take n (snd f), (fst f, drop n (snd f))) |}.
Solve Obligations with done.

(** ** ioctl numbers *)

(** A command number carries a direction, a type, a number and the size of
    its argument, each of which the kernel's macros read back. *)
Class IoctlAbi := {
  IOC : Z -> Z -> Z -> Z -> Z;
  IOC_DIR : Z -> Z; IOC_TYPE : Z -> Z; IOC_NR : Z -> Z; IOC_SIZE : Z -> Z;
  IOC_decode : forall dir type nr size,
    0 <= dir < 4 -> 0 <= type < 256 -> 0 <= nr < 256 -> 0 <= size < 16384 ->
    IOC_DIR (IOC dir type nr size) = dir /\ IOC_TYPE (IOC dir type nr size) = type /\
    IOC_NR (IOC dir type nr size) = nr /\ IOC_SIZE (IOC dir type nr size) = size;
}.

Definition IOC_NONE : Z := 0.
Definition IOC_WRITE : Z := 1.
Definition IOC_READ : Z := 2.

(** the layout of asm-generic/ioctl.h *)
#[export] Program Instance generic_ioctl : IoctlAbi := {|
  IOC dir type nr size := nr + 256 * type + 65536 * size + 1073741824 * dir;
  IOC_NR c := c mod 256;
  IOC_TYPE c := c / 256 mod 256;
  IOC_SIZE c := c / 65536 mod 16384;
  IOC_DIR c := c / 1073741824 mod 4 |}.
Next Obligation.
  intros dir type nr size Hd Ht Hn Hs. split_and!; Z.to_euclidean_division_equations; lia.
Qed.

(** ** The environment of one call *)

(** [spi_sync tx] is the result of the transfer (0 or a negative error) and
    the bytes clocked in while [tx] was clocked out; [kmalloc i n] the
    contents of the [i]-th allocation of the call, or its failure;
    [kcalloc i] whether its [i]-th array allocation succeeds;
    [dma_alloc_coherent] is [kmalloc] for the DMA buffers. *)
Record env := {
  spi_sync : list Z -> Z * list Z;
  kmalloc : nat -> nat -> option (list Z);
  kcalloc : nat -> bool;
  dma_alloc_coherent : nat -> nat -> option (list Z);
  spi_sync_length : forall tx, length (snd (spi_sync tx)) = length tx;
  spi_sync_bytes : forall tx, bytes (snd (spi_sync tx));
  spi_sync_ret : forall tx, fst (spi_sync tx) <= 0;
  kmalloc_length : forall i n l, kmalloc i n = Some l -> length l = n;
  kmalloc_bytes : forall i n l, kmalloc i n = Some l -> bytes l;
  dma_alloc_length : forall i n l, dma_alloc_coherent i n = Some l -> length l = n;
}.

(** the bus answers [reply tx], padded or cut to the length of [tx]; memory is
    filled with [junk] *)
Definition fit (n : nat) (l : list Z) : list Z := take n l ++ replicate (n - length l) 0.

Lemma fit_length n l : length (fit n l) = n.
Proof. unfold fit. rewrite length_app, length_take, length_replicate. lia. Qed.

Lemma fit_bytes n l : bytes l -> bytes (fit n l).
Proof. intros. unfold fit. apply bytes_app. auto with bytes. Qed.

Definition kmalloc_junk (junk : Z) (_ n : nat) : option (list Z) := Some (replicate n junk).

Lemma kmalloc_junk_length junk i n l : kmalloc_junk junk i n = Some l -> length l = n.
Proof. intros [= <-]. apply length_replicate. Qed.

Lemma kmalloc_junk_bytes junk i n l : byte junk -> kmalloc_junk junk i n = Some l -> bytes l.
Proof. intros Hj [= <-]. by apply bytes_replicate. Qed.

Definition env_of (reply : list Z -> list Z) (junk : Z)
    (Hr : forall tx, bytes (reply tx)) (Hj : byte junk) : env := {|
  spi_sync tx := (0, fit (length tx) (reply tx));
  kmalloc := kmalloc_junk junk;
  kcalloc _ := true;
  dma_alloc_coherent := kmalloc_junk 0;
  spi_sync_length tx := fit_length _ _;
  spi_sync_bytes tx := fit_bytes _ _ (Hr tx);
  spi_sync_ret tx := Z.le_refl 0;
  kmalloc_length := kmalloc_junk_length junk;
  kmalloc_bytes i n l := kmalloc_junk_bytes junk i n l Hj;
  dma_alloc_length := kmalloc_junk_length 0 |}.

(** a bus on which every transfer fails *)
Definition env_dead (err junk : Z) (He : err <= 0) (Hj : byte junk) : env := {|
  spi_sync tx := (err, replicate (length tx) 0);
  kmalloc := kmalloc_junk junk;
  kcalloc _ := true;
  dma_alloc_coherent := kmalloc_junk 0;
  spi_sync_length tx := length_replicate _ _;
  spi_sync_bytes tx := bytes_replicate _ _ byte_0;
  spi_sync_ret tx := He;
  kmalloc_length := kmalloc_junk_length junk;
  kmalloc_bytes i n l := kmalloc_junk_bytes junk i n l Hj;
  dma_alloc_length := kmalloc_junk_length 0 |}.

(** ** Calls into the kernel *)

Inductive kcall :=
| KPmGetSync | KPmPutAutosuspend | KPmPutNoidle | KPmPutSync
| KSpi (tx : list Z)                 (* one spi_sync, with the bytes sent *)
| KGpio (pin : Z) (value : bool)
| KMsleep (ms : Z)
| KWakeRx                            (* wake_up_interruptible(&rx_waitq) *)
| KScheduleSg.                       (* schedule_work(&sg_work) *)

(** net number of runtime-PM references taken *)
Definition pm_delta (c : kcall) : Z :=
  match c with
  | KPmGetSync => 1
  | KPmPutAutosuspend | KPmPutNoidle | KPmPutSync => -1
  | _ => 0
  end.
Definition pm_usage (l : list kcall) : Z := foldr (fun c n => pm_delta c + n) 0 l.

Lemma pm_usage_app l l' : pm_usage (l ++ l') = pm_usage l + pm_usage l'.
Proof. unfold pm_usage. induction l as [|c l IH]; simpl; [done|]. simpl in IH. lia. Qed.

(** the bytes put on the SPI bus, one list per transfer *)
Definition bus_traffic (l : list kcall) : list (list Z) :=
  omap (fun c => match c with KSpi tx => Some tx | _ => None end) l.

(** ** User memory *)

(** [copy_from_user] of [n] bytes at offset [off] of the argument, of which
    [u] is mapped *)
Definition copy_from_user (off n : nat) (u : list Z) : option (list Z) :=
  if (off + n <=? length u)%nat then Some (slice off n u) else None.

Definition s32 (x : Z) : Z := let y := u32 x in if y <? 2147483648 then y else y - 4294967296.
#[global] Arguments s32 : simpl never.
