(* ===== verification/ApexDev.v ===== *)
(** * The Linux driver: state, framing and reception (apex_bridge.c)

    The per-device structure, frame building and validation, the SPI transfer,
    MCU reset and the work item that fetches a frame when the MCU raises
    INT_REQ.  The frame functions work on the C buffers they are given,
    allocated with whatever bytes the heap held; [bridge] keeps the ordered list
    of kernel calls. *)

From S2P Require Import Prelude Crc Frame Kernel.

#[local] Existing Instance apex_frame_crc.

Definition APEX_SPI_SYNC_BYTE : Z := 0xAA.
Definition APEX_SPI_HDR_SIZE : Z := 16.
Definition APEX_SPI_MAX_PAYLOAD : Z := 4092.
Definition APEX_SPI_CRC32_SIZE : Z := 4.
Definition APEX_SPI_FRAME_SIZE_MAX : Z := 4112.
Definition APEX_RX_FIFO_SIZE : Z := 65536.
Definition APEX_TX_FIFO_SIZE : Z := 65536.

(** bit numbers of [flags]; the last two macros of the driver redefine names
    that apex_bridge_regs.h gives to bits of the telemetry flags *)
Definition APEX_FLAG_MCU_READY : Z := 0.
Definition APEX_FLAG_MCU_RESET : Z := 1.
Definition APEX_FLAG_SPI_ERROR : Z := 2.
Definition APEX_FLAG_LOW_BATTERY : Z := 3.

(** ** Frames *)

Definition apex_build_frame (cmd : Z) (payload : option (list Z)) (payload_len : Z)
    (frame_buf : list Z) : Z * list Z :=
  if APEX_SPI_MAX_PAYLOAD <? payload_len then (- EMSGSIZE, frame_buf) else
  let total_len := APEX_SPI_HDR_SIZE + payload_len + APEX_SPI_CRC32_SIZE in
  if Z.of_nat (length frame_buf) <? total_len then (- EMSGSIZE, frame_buf) else
  let n := Z.to_nat payload_len in
  let fb := write_at 0 [APEX_SPI_SYNC_BYTE; cmd] frame_buf in
  let fb := write_at 2 (write_le16 payload_len) fb in
  let fb := write_at 4 (write_le32 0) fb in
  let fb := write_at 8 (write_le64 (apex_crc64 (take 8 fb))) fb in
  let fb := match payload with
            | Some p => if 0 <? payload_len then write_at 16 (take n p) fb else fb
            | None => fb end in
  let fb := write_at (16 + n) (write_le32 (apex_crc32 (slice 16 n fb))) fb in
  (total_len, fb).

(** [inl] is the error, [inr] the command, length and payload *)
Definition apex_validate_frame (frame : list Z) (frame_len : Z) : Z + (Z * Z * list Z) :=
  if frame_len <? APEX_SPI_HDR_SIZE then inl (- EBADMSG) else
  if negb (byte_at frame 0 =? APEX_SPI_SYNC_BYTE) then inl (- EBADMSG) else
  let actual_crc64 := apex_crc64 (take 8 frame) in
  let expected_crc64 := read_le64 (drop 8 frame) in
  if negb (actual_crc64 =? expected_crc64) then inl (- EBADMSG) else
  let len := read_le16 (drop 2 frame) in
  if APEX_SPI_MAX_PAYLOAD <? len then inl (- EBADMSG) else
  if frame_len <? APEX_SPI_HDR_SIZE + len + APEX_SPI_CRC32_SIZE then inl (- EBADMSG) else
  let n := Z.to_nat len in
  if (0 <? len) &&
     negb (apex_crc32 (slice 16 n frame) =? read_le32 (drop (16 + n) frame))
  then inl (- EBADMSG)
  else inr (byte_at frame 1, len, slice 16 n frame).

(** ** The device structure *)

(** descriptor of one scatter-gather buffer, with the bytes of the buffer *)
Record sg_buf := {
  sg_data : list Z;               (* dma_virt *)
  data_len : Z; timestamp_ns : Z; buf_sequence : Z; buf_state : Z;
}.
#[export] Instance eta_sg_buf : Eta sg_buf :=
  eta! Build_sg_buf < sg_data ; data_len ; timestamp_ns ; buf_sequence ; buf_state >.

(** [bufs = None] is a null pointer; [sg_live] counts the coherent buffers
    allocated and not yet freed *)
Record sg_engine := {
  bufs : option (list sg_buf);
  buf_count : Z; buf_size : Z; current_idx : Z; sg_state : Z;
  total_transferred : Z; overruns : Z; errors : Z; frames_rx : Z; frames_crc_err : Z;
  sequence : Z; timeout_ms : Z; continuous : bool;
  sg_live : Z;
}.
#[export] Instance eta_sg_engine : Eta sg_engine :=
  eta! Build_sg_engine < bufs ; buf_count ; buf_size ; current_idx ; sg_state ;
    total_transferred ; overruns ; errors ; frames_rx ; frames_crc_err ; sequence ;
    timeout_ms ; continuous ; sg_live >.

Section Dev.
Context {K : Kfifo}.

Record bridge := {
  rx_fifo : kfifo; tx_fifo : kfifo;
  last_telem : list Z;            (* struct apex_telemetry, 16 bytes *)
  flags : Z;                      (* unsigned long, set_bit/clear_bit *)
  open_count : Z;
  spi_err_count : Z; brownout_count : Z; brownout_prev_flag : Z;
  spi_speed_hz : Z;               (* module parameter *)
  sg : sg_engine;
  klog : list kcall;
}.
#[export] Instance eta_bridge : Eta bridge :=
  eta! Build_bridge < rx_fifo ; tx_fifo ; last_telem ; flags ; open_count ;
    spi_err_count ; brownout_count ; brownout_prev_flag ; spi_speed_hz ; sg ; klog >.

Definition klogged (c : kcall) (d : bridge) : bridge := d <| klog ::= fun t => t ++ [c] |>.
Definition set_bit (n : Z) (d : bridge) : bridge := d <| flags ::= fun f => Z.setbit f n |>.
Definition clear_bit (n : Z) (d : bridge) : bridge := d <| flags ::= fun f => Z.clearbit f n |>.
Definition test_bit (n : Z) (d : bridge) : bool := Z.testbit (flags d) n.

(** ** SPI transfer: the result, the receive buffer and the device *)

Definition apex_spi_xfer (e : env) (tx_buf : list Z) (tx_len : Z) (rx_buf : list Z)
    (d : bridge) : Z * list Z * bridge :=
  if APEX_SPI_FRAME_SIZE_MAX <? tx_len then (- EMSGSIZE, rx_buf, d) else
  let tx := take (Z.to_nat tx_len) tx_buf in
  let (ret, rx) := spi_sync e tx in
  let d := klogged (KSpi tx) d in
  let rx_buf' := overwrite rx rx_buf in
  if ret <? 0 then
    (ret, rx_buf', set_bit APEX_FLAG_SPI_ERROR (d <| spi_err_count ::= fun c => s32 (c + 1) |>))
  else (Z.min tx_len (Z.of_nat (length rx_buf)), rx_buf', d).

(** ** MCU reset *)

Definition GPIO_HOST_RDY : Z := 9.
Definition GPIO_MCU_RESET : Z := 10.

Definition apex_mcu_reset_assert (d : bridge) : bridge :=
  klogged (KMsleep 10) (set_bit APEX_FLAG_MCU_RESET (klogged (KGpio GPIO_MCU_RESET false) d)).

Definition apex_mcu_reset_release (d : bridge) : bridge :=
  let d := clear_bit APEX_FLAG_MCU_RESET (klogged (KGpio GPIO_MCU_RESET true) d) in
  let d := klogged (KGpio GPIO_HOST_RDY false) (klogged (KMsleep 100) d) in
  set_bit APEX_FLAG_MCU_READY d.

(** ** Reception *)

Definition fifo_push (l : list Z) (d : bridge) : bridge :=
  klogged KWakeRx (d <| rx_fifo ::= fun f => snd (kfifo_in l f) |>).

Definition apex_telemetry_flags (telem : list Z) : Z := read_le16 (drop 10 telem).

Definition rx_telemetry (payload : list Z) (d : bridge) : bridge :=
  let d := d <| last_telem := payload |> in
  let new_flags := apex_telemetry_flags (last_telem d) in
  if negb (Z.land new_flags APEX_FLAG_LOW_BATTERY =? 0) then
    let d := set_bit APEX_FLAG_LOW_BATTERY d in
    let prev := brownout_prev_flag d in
    let d := d <| brownout_prev_flag := 1 |> in
    if prev =? 0 then d <| brownout_count ::= fun c => s32 (c + 1) |> else d
  else clear_bit APEX_FLAG_LOW_BATTERY (d <| brownout_prev_flag := 0 |>).

Definition rx_dispatch (cmd payload_len : Z) (payload : list Z) (d : bridge) : bridge :=
  if cmd =? CMD_TELEMETRY then
    if payload_len =? 16 then fifo_push payload (rx_telemetry payload d) else d
  else fifo_push payload d.

Definition apex_rx_work_handler (e : env) (d : bridge) : bridge :=
  let d := klogged KPmGetSync d in
  let d :=
    match kmalloc e 0 4112 with
    | None => d
    | Some rx_frame =>
      match kmalloc e 1 4112 with
      | None => d
      | Some tx_frame =>
        let (ret, tx_frame) := apex_build_frame CMD_NOP None 0 tx_frame in
        if ret <? 0 then d else
        let '(rx_len, rx_frame, d) :=
          apex_spi_xfer e tx_frame APEX_SPI_FRAME_SIZE_MAX rx_frame d in
        if rx_len <? 0 then d else
        match apex_validate_frame rx_frame rx_len with
        | inl _ => d
        | inr (cmd, payload_len, payload) => rx_dispatch cmd payload_len payload d
        end
      end
    end in
  klogged KPmPutAutosuspend d.

End Dev.

#[export] Instance sg_buf_inhabited : Inhabited sg_buf :=
  populate (Build_sg_buf [] 0 0 0 0).

(** ** Frame building and validation *)

(** the builder writes the reference frame at the front of the buffer and
    leaves the rest of the allocation as it was *)
Lemma encode_header_apex cmd len :
  encode_header cmd len = header_head cmd len ++ write_le64 (apex_crc64 (header_head cmd len)).
Proof. reflexivity. Qed.

#[local] Opaque apex_crc64 apex_crc32.

Lemma apex_build_frame_gen cmd payload n buf :
  (n <= 4092)%nat -> (20 + n <= length buf)%nat ->
  (match payload with Some p => (n <= length p)%nat | None => n = 0%nat end) ->
  apex_build_frame cmd payload (Z.of_nat n) buf =
    (20 + Z.of_nat n,
     encode_frame cmd (match payload with Some p => take n p | None => [] end) ++
     drop (20 + n) buf).
Proof.
  intros Hn Hb Hp.
  unfold apex_build_frame, APEX_SPI_MAX_PAYLOAD, APEX_SPI_HDR_SIZE, APEX_SPI_CRC32_SIZE.
  replace (4092 <? Z.of_nat n) with false by lia. replace (_ <? _ + 4) with false by lia.
  rewrite Nat2Z.id. cbv zeta. f_equal; [lia|].
  set (data := match payload with Some p => take n p | None => [] end).
  assert (length data = n) as Hd by (subst data; destruct payload; [rewrite length_take; lia|done]).
  set (f0 := write_at 0 _ buf).
  assert (f0 = [APEX_SPI_SYNC_BYTE; cmd] ++ drop 2 buf) as -> by done.
  rewrite (write_at_next 2) by done. rewrite (write_at_next 4) by done.
  cbn [length Nat.add write_le16 write_le32].
  set (hd := (([APEX_SPI_SYNC_BYTE; cmd] ++ _) ++ _)).
  assert (hd = header_head cmd (Z.of_nat n)) as -> by done.
  rewrite (take_app_length' (header_head _ _)) by done.
  rewrite (write_at_next 8) by done.
  rewrite write_le64_bytes, le_bytes_length, <- write_le64_bytes.
  rewrite <- (encode_header_apex cmd (Z.of_nat n)). cbn [Nat.add].
  set (f1 := match payload with Some _ => _ | None => _ end).
  assert (f1 = (encode_header cmd (Z.of_nat n) ++ data) ++ drop (16 + n) buf) as ->.
  { subst f1. destruct payload as [p|].
    - destruct (Z.ltb_spec 0 (Z.of_nat n)).
      + rewrite (write_at_next 16) by done. by fold data; rewrite Hd.
      + assert (n = 0%nat) as -> by lia. subst data. simpl take. by rewrite app_nil_r.
    - subst n data. by rewrite app_nil_r. }
  rewrite (write_at_next (16 + n)) by (rewrite length_app, encode_header_length; lia).
  replace (slice 16 n _) with data.
  2: { unfold slice. rewrite <- app_assoc, (drop_app_length' (encode_header _ _)) by done.
       by rewrite take_app_length'. }
  unfold encode_frame. rewrite Hd. rewrite !write_le32_bytes, le_bytes_length.
  rewrite <- !app_assoc. do 4 f_equal. lia.
Qed.

(** a frame with any reserved field and checksum bytes [c] *)
Definition wire_frame (cmd : Z) (reserved p c : list Z) : list Z :=
  let head := [APEX_SPI_SYNC_BYTE; cmd] ++ write_le16 (Z.of_nat (length p)) ++ reserved in
  head ++ write_le64 (apex_crc64 head) ++ p ++ c.

Definition wire_shape (cmd : Z) (reserved p c : list Z) : Prop :=
  byte cmd /\ bytes p /\ (length p <= 4092)%nat /\ bytes reserved /\
  length reserved = 4%nat /\ length c = 4%nat.

Definition wire_ok (cmd : Z) (reserved p c : list Z) : Prop :=
  byte cmd /\ bytes p /\ (length p <= 4092)%nat /\ bytes reserved /\
  length reserved = 4%nat /\ length c = 4%nat /\ (p <> [] -> c = write_le32 (apex_crc32 p)).

Lemma encode_frame_wire cmd p :
  encode_frame cmd p = wire_frame cmd (write_le32 0) p (write_le32 (apex_crc32 p)).
Proof.
  unfold encode_frame. rewrite encode_header_apex. unfold wire_frame. cbv zeta.
  by rewrite <- app_assoc.
Qed.

Lemma wire_ok_shape cmd reserved p c : wire_ok cmd reserved p c -> wire_shape cmd reserved p c.
Proof. unfold wire_ok, wire_shape. tauto. Qed.

Lemma wire_frame_read cmd reserved p c rest :
  wire_shape cmd reserved p c ->
  let f := wire_frame cmd reserved p c ++ rest in
  let head := [APEX_SPI_SYNC_BYTE; cmd] ++ write_le16 (Z.of_nat (length p)) ++ reserved in
  byte_at f 0 = APEX_SPI_SYNC_BYTE /\ byte_at f 1 = cmd /\ take 8 f = head /\
  read_le64 (drop 8 f) = apex_crc64 head /\
  read_le16 (drop 2 f) = Z.of_nat (length p) /\
  slice 16 (length p) f = p /\ drop (16 + length p) f = c ++ rest.
Proof.
  intros (Hc & Hb & Hp & Hr & Lr & Lc) f head.
  assert (f = head ++ write_le64 (apex_crc64 head) ++ p ++ c ++ rest) as E
    by (subst f; unfold wire_frame; cbv zeta; fold head; rewrite <- !app_assoc; done).
  assert (length head = 8%nat) as Lh by (subst head; rewrite !length_app; simpl; lia).
  assert (bytes head) as Bh.
  { subst head. rewrite write_le16_bytes, !bytes_app.
    split_and!; [|apply le_bytes_bytes|done]. by repeat (apply Forall_cons; split). }
  assert (length (write_le64 (apex_crc64 head)) = 8%nat) as L8
    by (by rewrite write_le64_bytes, le_bytes_length).
  assert (drop 16 f = p ++ c ++ rest) as E16
    by (rewrite E, app_assoc; apply drop_app_length'; by rewrite length_app, Lh, L8).
  split_and!.
  - by rewrite E.
  - by rewrite E.
  - rewrite E. by apply take_app_length'.
  - rewrite E, drop_app_length' by done. by apply read_write_le64, apex_crc64_range.
  - rewrite E. subst head. rewrite <- app_assoc.
    change (drop 2 ([?a; ?b] ++ ?l)) with l. rewrite <- app_assoc. apply read_write_le16. lia.
  - unfold slice. rewrite E16. by apply take_app_length'.
  - rewrite <- drop_drop, E16. by apply drop_app_length'.
Qed.

(** frames of the other end are accepted, whatever follows them *)
Lemma apex_validate_wire cmd reserved p c rest n :
  wire_ok cmd reserved p c -> 20 + Z.of_nat (length p) <= n ->
  apex_validate_frame (wire_frame cmd reserved p c ++ rest) n = inr (cmd, Z.of_nat (length p), p).
Proof.
  intros W Hn. pose proof W as (Hc & Hb & Hp & Hr & Lr & Lc & Hcrc).
  destruct (wire_frame_read cmd reserved p c rest (wire_ok_shape _ _ _ _ W)) as (E0 & E1 & E8 & Ec & El & Es & Ed).
  unfold apex_validate_frame, APEX_SPI_HDR_SIZE, APEX_SPI_MAX_PAYLOAD, APEX_SPI_CRC32_SIZE.
  cbv zeta. rewrite E0, E1, E8, Ec, El, Nat2Z.id, Es, Ed, !Z.eqb_refl. cbn [negb].
  replace (n <? 16) with false by lia. replace (4092 <? _) with false by lia.
  replace (n <? _) with false by lia.
  destruct p as [|x p]; [done|]. rewrite Hcrc by done.
  rewrite read_write_le32 by (by apply apex_crc32_range).
  rewrite Z.eqb_refl. cbn [negb]. by rewrite andb_false_r.
Qed.

Lemma encode_wire_ok cmd p :
  byte cmd -> bytes p -> (length p <= 4092)%nat ->
  wire_ok cmd (write_le32 0) p (write_le32 (apex_crc32 p)).
Proof.
  intros. unfold wire_ok. rewrite !write_le32_bytes.
  split_and!; (done || apply le_bytes_bytes).
Qed.

Lemma apex_validate_encode cmd p rest n :
  byte cmd -> bytes p -> (length p <= 4092)%nat -> 20 + Z.of_nat (length p) <= n ->
  apex_validate_frame (encode_frame cmd p ++ rest) n = inr (cmd, Z.of_nat (length p), p).
Proof. intros. rewrite encode_frame_wire. by apply apex_validate_wire; [apply encode_wire_ok|]. Qed.

(** frames hit on the link are not, however many bytes arrived *)
Lemma apex_validate_corrupted cmd p bad rest n :
  byte cmd -> bytes p -> (length p <= 4092)%nat -> corrupted_frame cmd p bad ->
  apex_validate_frame (bad ++ rest) n = inl (- EBADMSG).
Proof.
  intros Hc Hp Hl. unfold apex_validate_frame, APEX_SPI_HDR_SIZE, APEX_SPI_MAX_PAYLOAD.
  case_match; [done|]. intros [h Hh|q c Hb].
  - destruct (corrupted_header_detected _ _ _ Hc Hh) as (L & Bh & Hbad). case_match; [done|].
    rewrite take_app_le, drop_app_le by lia.
    replace (read_le64 (drop 8 h ++ rest)) with (read_le64 (drop 8 h)).
    2: { unfold read_le64. cbn [foldr seq]. by rewrite !byte_at_app by (rewrite length_drop; lia). }
    rewrite (proj2 (Z.eqb_neq _ _)) by (intros E; by apply Hbad). done.
  - destruct (corrupted_body_detected _ _ _ Hp Hb) as (Lq & Lc & Bq & Bc & Hq & Hbad).
    assert (wire_shape cmd (write_le32 0) q c) as W
      by (unfold wire_shape; rewrite write_le32_bytes; split_and!; try done; [lia|apply le_bytes_bytes]).
    destruct (wire_frame_read cmd _ q c rest W) as (E0 & _ & E8 & Ec & El & Es & Ed).
    assert (encode_header cmd (Z.of_nat (length p)) ++ q ++ c = wire_frame cmd (write_le32 0) q c) as ->
      by (rewrite <- Lq, encode_header_apex; unfold wire_frame; cbv zeta; by rewrite <- app_assoc).
    rewrite E0, E8, Ec, El, Nat2Z.id, Es, Ed, !Z.eqb_refl. cbn [negb].
    case_match; [done|]. case_match; [done|]. destruct q as [|x q]; [done|].
    replace (read_le32 (c ++ rest)) with (read_le32 c)
      by (unfold read_le32; by rewrite !byte_at_app by (rewrite Lc; lia)).
    rewrite (proj2 (Z.eqb_neq _ _)) by (intros E; by apply Hbad). done.
Qed.

Lemma bytes_read_le64 l : bytes l -> length l = 8%nat -> l = write_le64 (read_le64 l).
Proof. intros. symmetry. by apply write_read_le64. Qed.

Lemma split_frame (frame : list Z) n :
  (20 + n <= length frame)%nat ->
  frame = take 8 frame ++ slice 8 8 frame ++ slice 16 n frame ++ slice (16 + n) 4 frame ++
          drop (20 + n) frame.
Proof.
  intros. unfold slice.
  replace (drop (20 + n) frame) with (drop 4 (drop (16 + n) frame)) by (rewrite drop_drop; f_equal; lia).
  rewrite take_drop.
  replace (drop (16 + n) frame) with (drop n (drop 16 frame)) by by rewrite drop_drop.
  rewrite take_drop.
  replace (drop 16 frame) with (drop 8 (drop 8 frame)) by by rewrite drop_drop.
  by rewrite !take_drop.
Qed.

Lemma apex_validate_sound frame n cmd len p :
  bytes frame -> n <= Z.of_nat (length frame) ->
  apex_validate_frame frame n = inr (cmd, len, p) ->
  len = Z.of_nat (length p) /\
  exists reserved c tail, wire_ok cmd reserved p c /\
    take (Z.to_nat n) frame = wire_frame cmd reserved p c ++ tail.
Proof.
  intros Hb Hn. unfold apex_validate_frame, APEX_SPI_HDR_SIZE, APEX_SPI_MAX_PAYLOAD, APEX_SPI_CRC32_SIZE.
  cbv zeta.
  destruct (Z.ltb_spec n 16) as [|Hn16]; [done|].
  destruct (Z.eqb_spec (byte_at frame 0) APEX_SPI_SYNC_BYTE) as [E0|]; [|done]. cbn [negb].
  destruct (Z.eqb_spec (apex_crc64 (take 8 frame)) (read_le64 (drop 8 frame))) as [Ec|]; [|done].
  cbn [negb]. pose proof (read_le16_range (drop 2 frame) (bytes_drop _ _ Hb)) as Hr.
  destruct (Z.ltb_spec 4092 (read_le16 (drop 2 frame))) as [|Hmax]; [done|].
  set (m := read_le16 (drop 2 frame)) in *.
  destruct (Z.ltb_spec n (16 + m + 4)) as [|Hlen]; [done|].
  destruct ((0 <? m) && _) eqn:Hcrc; [done|]. intros [= <- <- <-].
  assert (length (slice 16 (Z.to_nat m) frame) = Z.to_nat m) as Lp by (apply slice_length; lia).
  split; [lia|].
  exists (slice 4 4 frame), (slice (16 + Z.to_nat m) 4 frame),
    (take (Z.to_nat n - (20 + Z.to_nat m)) (drop (20 + Z.to_nat m) frame)).
  assert (length (slice (16 + Z.to_nat m) 4 frame) = 4%nat) as Lc by (apply slice_length; lia).
  assert (bytes (slice (16 + Z.to_nat m) 4 frame)) as Bc by by apply bytes_slice.
  split.
  - split_and!; [by apply byte_at_byte|by apply bytes_slice|lia|by apply bytes_slice
      |apply slice_length; lia|done|].
    intros Hne. destruct (Z.ltb_spec 0 m) as [|Hz].
    + apply negb_false_iff, Z.eqb_eq in Hcrc. rewrite Hcrc.
      rewrite <- (write_read_le32 (slice (16 + Z.to_nat m) 4 frame)) by done.
      f_equal. unfold slice, read_le32. by rewrite !byte_at_take by lia.
    + exfalso. apply Hne, nil_length_inv. lia.
  - rewrite (split_frame frame (Z.to_nat m)) at 1 by lia. unfold wire_frame. cbv zeta. rewrite Lp.
    replace ([APEX_SPI_SYNC_BYTE; byte_at frame 1] ++ _ ++ slice 4 4 frame) with (take 8 frame).
    2: { do 8 (destruct frame as [|? frame]; [simpl in Hn; lia|]).
         unfold byte_at in E0. cbn in E0. subst z.
         unfold bytes in Hb. rewrite !Forall_cons in Hb.
         rewrite Z2Nat.id by lia. subst m. unfold read_le16, byte_at.
         cbn [drop nth]. rewrite write_read_le16 by tauto. done. }
    rewrite Ec.
    replace (write_le64 (read_le64 (drop 8 frame))) with (slice 8 8 frame).
    2: { rewrite (bytes_read_le64 (slice 8 8 frame)) by (apply bytes_slice || apply slice_length; done || lia).
         f_equal. unfold slice, read_le64. cbn [foldr seq]. by rewrite !byte_at_take by lia. }
    assert (length (take 8 frame) = 8%nat) as L0 by (rewrite length_take; lia).
    assert (length (slice 8 8 frame) = 8%nat) as L1 by (apply slice_length; lia).
    rewrite <- !app_assoc. rewrite !take_app_ge by lia. do 5 f_equal. lia.
Qed.

(** C23: [apex_build_frame] on any buffer, whatever it held: a payload that is
    too long or does not fit is refused with -EMSGSIZE and an untouched buffer;
    otherwise the buffer starts with the reference frame and keeps its other
    bytes, and the frame's size is returned. *)
Theorem driver_builds_reference_frame (cmd : Z) (payload buf : list Z) :
  apex_build_frame cmd (Some payload) (Z.of_nat (length payload)) buf =
    if (length payload <=? 4092)%nat && (20 + length payload <=? length buf)%nat
    then (20 + Z.of_nat (length payload), encode_frame cmd payload ++ drop (20 + length payload) buf)
    else (- EMSGSIZE, buf).
Proof.
  destruct (Nat.leb_spec (length payload) 4092); cbn [andb].
  - destruct (Nat.leb_spec (20 + length payload) (length buf)).
    + rewrite (apex_build_frame_gen cmd (Some payload)) by lia. by rewrite take_ge by lia.
    + unfold apex_build_frame, APEX_SPI_MAX_PAYLOAD, APEX_SPI_HDR_SIZE, APEX_SPI_CRC32_SIZE.
      replace (4092 <? _) with false by lia. by replace (_ <? _ + 4) with true by lia.
  - unfold apex_build_frame, APEX_SPI_MAX_PAYLOAD. by replace (4092 <? _) with true by lia.
Qed.

(** C24: the driver accepts exactly the frames of the protocol: a validated
    buffer starts with a frame whose header CRC-64 and, for a non-empty payload,
    CRC-32 are right and the command, length and payload returned are that
    frame's; and every such frame is accepted, whatever follows it.  Its
    reserved field may hold anything, though the header says it must be 0 and
    the firmware rejects other values. *)
Theorem driver_accepts_wire_frames (frame : list Z) (n cmd len : Z) (p : list Z)
    (Hb : bytes frame) (Hn : n <= Z.of_nat (length frame)) :
  apex_validate_frame frame n = inr (cmd, len, p) <->
  len = Z.of_nat (length p) /\
  exists reserved c tail, wire_ok cmd reserved p c /\
    take (Z.to_nat n) frame = wire_frame cmd reserved p c ++ tail.
Proof.
  split; [by apply apex_validate_sound|].
  intros (-> & reserved & c & tail & W & E).
  rewrite <- (take_drop (Z.to_nat n) frame), E, <- app_assoc.
  apply apex_validate_wire; [done|]. destruct W as (_ & _ & _ & _ & Lr & Lc & _).
  apply (f_equal length) in E. unfold wire_frame in E.
  rewrite !length_app, length_take, write_le16_bytes, write_le64_bytes, !le_bytes_length in E.
  simpl in E. lia.
Qed.

Lemma driver_accepts_wire_frames_witness :
  apex_validate_frame (encode_frame CMD_NOP [] ++ [1; 2; 3]) 23 = inr (CMD_NOP, 0, []).
Proof.
  apply (driver_accepts_wire_frames (encode_frame CMD_NOP [] ++ [1; 2; 3]) 23 CMD_NOP 0 []).
  - apply bytesb_bytes. vm_compute. reflexivity.
  - vm_compute. discriminate.
  - split; [reflexivity|]. exists [0; 0; 0; 0], [0; 0; 0; 0], [1; 2; 3]. split.
    + unfold wire_ok, byte, CMD_NOP.
      split_and!; [lia|lia|constructor|simpl; lia|by apply bytesb_bytes|reflexivity|reflexivity|done].
    + vm_compute. reflexivity.
Defined.
