(* ===== verification/SgEngine.v ===== *)
(** * The scatter-gather engine of the driver (apex_bridge.c)

    The ring of DMA buffers, the worker that fills it, its lifecycle and mmap.
    One iteration of the worker's loop is [apex_sg_work_iter]; what the SPI
    controller did in it is an [sg_outcome].  A transfer whose wait timed out
    stays with the controller ([sg_worker]) and completes later, in order.  An
    access through a null or out-of-range buffer is [None]. *)

From S2P Require Import Prelude Crc Frame Kernel ApexDev.

Definition APEX_SG_MAX_BUFS : Z := 64.
Definition APEX_SG_BUF_SIZE_MIN : Z := 4096.
Definition APEX_SG_BUF_SIZE_MAX : Z := 262144.
Definition APEX_SG_BUF_SIZE_ALIGN : Z := 4.
Definition APEX_SG_BUF_FREE : Z := 0.
Definition APEX_SG_BUF_DMA_ACTIVE : Z := 1.
Definition APEX_SG_BUF_READY : Z := 2.
Definition APEX_SG_BUF_USERSPACE : Z := 3.
Definition APEX_SG_STATE_IDLE : Z := 0.
Definition APEX_SG_STATE_RUNNING : Z := 1.
Definition APEX_SG_STATE_ERROR : Z := 2.

(** ** Buffers *)

(** [eng->bufs[idx]] *)
Definition buf_at (idx : Z) (eng : sg_engine) : option sg_buf :=
  l ← bufs eng; if idx <? 0 then None else l !! Z.to_nat idx.

(** [eng->bufs[idx].f = v] *)
Definition buf_update (idx : Z) (f : sg_buf -> sg_buf) (eng : sg_engine) : option sg_engine :=
  l ← bufs eng;
  b ← buf_at idx eng;
  Some (eng <| bufs := Some (<[Z.to_nat idx := f b]> l) |>).

Definition apex_sg_buf_set_state (idx st : Z) (eng : sg_engine) : option sg_engine :=
  if idx <? buf_count eng then buf_update idx (fun b => b <| buf_state := st |>) eng
  else Some eng.

Definition incr64 (x : Z) : Z := u64 (x + 1).

Definition apex_sg_dma_callback (now : Z) (eng : sg_engine) : option sg_engine :=
  let idx := current_idx eng in
  let size := buf_size eng in
  eng ← buf_update idx (fun b => b <| data_len := size |> <| timestamp_ns := now |>
          <| buf_sequence := sequence eng |> <| buf_state := APEX_SG_BUF_READY |>)
          (eng <| sequence ::= incr32 |>);
  Some (eng <| total_transferred ::= fun t => u64 (t + size) |>
            <| frames_rx ::= incr32 |>
            <| current_idx := u32 (idx + 1) mod buf_count eng |>).

(** ** The worker *)

(** The worker's engine, the buffers of the transfers the controller still
    holds, oldest first, and whether sg_buf_complete has been completed.  A
    transfer whose wait timed out is not cancelled: it stays with the controller. *)
Record sg_worker := { wk_eng : sg_engine; wk_queue : list Z; wk_done : bool }.
#[export] Instance eta_sg_worker : Eta sg_worker :=
  eta! Build_sg_worker < wk_eng ; wk_queue ; wk_done >.

Definition sg_worker_of (eng : sg_engine) : sg_worker := Build_sg_worker eng [] false.

(** what the controller does while the worker has submitted a transfer and waits *)
Inductive sg_outcome :=
| SgSubmitFailed                        (* spi_async returned an error *)
| SgCompleted (data : list Z) (now : Z) (* it finishes its oldest transfer *)
| SgTimedOut                            (* it finishes none within timeout_ms *)
| SgLate (data : list Z) (now : Z).     (* it finishes one between two rounds *)

(** The controller finishes its oldest transfer: DMA into the buffer that was
    submitted, then the callback.  With none to finish nothing happens. *)
Definition sg_finish (data : list Z) (now : Z) (w : sg_worker) : option sg_worker :=
  match wk_queue w with
  | [] => Some w
  | idx :: rest =>
      eng ← buf_update idx (fun b => b <| sg_data := data |>) (wk_eng w);
      eng ← apex_sg_dma_callback now eng;
      Some (Build_sg_worker eng rest true)
  end.

(** wait_for_completion, with its timeout: it returns at once when a late
    transfer has already completed *)
Definition sg_wait (o : sg_outcome) (idx : Z) (w : sg_worker) : option sg_worker :=
  if wk_done w then Some w else
  match o with
  | SgCompleted data now => sg_finish data now w
  | _ => eng ← apex_sg_buf_set_state idx APEX_SG_BUF_FREE ((wk_eng w) <| errors ::= incr32 |>);
         Some (w <| wk_eng := eng |>)
  end.

(** the body of [while (eng->state == APEX_SG_STATE_RUNNING)], once *)
Definition apex_sg_work_iter (o : sg_outcome) (w : sg_worker) : option sg_worker :=
  let eng := wk_eng w in
  let idx := current_idx eng in
  buf ← buf_at idx eng;
  if buf_state buf =? APEX_SG_BUF_USERSPACE then
    Some (w <| wk_eng := eng <| overruns ::= incr32 |>
                             <| current_idx := u32 (idx + 1) mod buf_count eng |> |>)
  else
  eng ← apex_sg_buf_set_state idx APEX_SG_BUF_DMA_ACTIVE eng;
  match o with
  | SgSubmitFailed =>
      let eng := eng <| errors ::= incr32 |> in
      eng ← apex_sg_buf_set_state idx APEX_SG_BUF_FREE eng;
      Some (w <| wk_eng := if 100 <? errors eng
                           then eng <| sg_state := APEX_SG_STATE_ERROR |> else eng |>)
  | _ =>
      w ← sg_wait o idx (w <| wk_eng := eng |> <| wk_queue ::= fun q => q ++ [idx] |>);
      let w := w <| wk_done := false |> in           (* reinit_completion *)
      let eng := wk_eng w in
      Some (w <| wk_eng := if negb (continuous eng) && (buf_count eng <=? sequence eng)
                           then eng <| sg_state := APEX_SG_STATE_IDLE |> else eng |>)
  end.

(** the loop over what the controller does next *)
Fixpoint apex_sg_work_handler (os : list sg_outcome) (w : sg_worker) : option sg_worker :=
  if negb (sg_state (wk_eng w) =? APEX_SG_STATE_RUNNING) then Some w else
  match os with
  | [] => Some w
  | SgLate data now :: os => w ← sg_finish data now w; apex_sg_work_handler os w
  | o :: os => w ← apex_sg_work_iter o w; apex_sg_work_handler os w
  end.

(** ** Lifecycle *)

Definition sg_engine_zero : sg_engine :=
  Build_sg_engine None 0 0 0 0 0 0 0 0 0 0 0 false 0.

(** struct apex_sg_config *)
Record sg_config := {
  cfg_buf_count : Z; cfg_buf_size : Z; cfg_timeout_ms : Z; cfg_spi_speed_hz : Z;
  cfg_continuous : Z;
}.

Definition fresh_buf (data : list Z) : sg_buf := Build_sg_buf data 0 0 0 APEX_SG_BUF_FREE.

(** the allocation loop from buffer [i]; [None] when one fails, and the earlier
    ones have been freed *)
Fixpoint sg_alloc (e : env) (size i n : nat) : option (list sg_buf) :=
  match n with
  | O => Some []
  | S n => data ← dma_alloc_coherent e i size;
           l ← sg_alloc e size (S i) n;
           Some (fresh_buf data :: l)
  end.

Section Engine.
Context {K : Kfifo}.

Definition apex_sg_engine_init (d : bridge) : bridge := d <| sg := sg_engine_zero |>.

(** the SDR_STREAM command sent at start and stop; its result is ignored *)
Definition send_stream (enable : Z) (e : env) (d : bridge) : bridge :=
  match kmalloc e 2 4112, kmalloc e 3 4112 with
  | Some frame, Some rx =>
      let (frame_len, frame) := apex_build_frame CMD_SDR_STREAM (Some [enable]) 1 frame in
      if 0 <? frame_len then snd (apex_spi_xfer e frame frame_len rx d) else d
  | _, _ => d
  end.

Definition apex_sg_engine_start (e : env) (c : sg_config) (d : bridge) : Z * bridge :=
  if (cfg_buf_count c <? 2) || (APEX_SG_MAX_BUFS <? cfg_buf_count c) then (- EINVAL, d) else
  if (cfg_buf_size c <? APEX_SG_BUF_SIZE_MIN) || (APEX_SG_BUF_SIZE_MAX <? cfg_buf_size c)
  then (- EINVAL, d) else
  if negb (cfg_buf_size c mod APEX_SG_BUF_SIZE_ALIGN =? 0) then (- EINVAL, d) else
  if negb (sg_state (sg d) =? APEX_SG_STATE_IDLE) then (- EBUSY, d) else
  let no_bufs := d <| sg ::= fun eng => eng <| bufs := None |> |> in
  if negb (kcalloc e 0) then (- ENOMEM, no_bufs) else
  if negb (kcalloc e 1) then (- ENOMEM, no_bufs) else
    match sg_alloc e (Z.to_nat (cfg_buf_size c)) 0 (Z.to_nat (cfg_buf_count c)) with
    | None => (- ENOMEM, no_bufs)
    | Some l =>
      let d := d <| sg ::= fun eng => {|
        bufs := Some l; buf_count := cfg_buf_count c; buf_size := cfg_buf_size c;
        current_idx := 0; sg_state := APEX_SG_STATE_RUNNING; total_transferred := 0;
        overruns := 0; errors := 0; frames_rx := 0; frames_crc_err := 0; sequence := 0;
        timeout_ms := cfg_timeout_ms c; continuous := negb (cfg_continuous c =? 0);
        sg_live := sg_live eng + cfg_buf_count c |} |> in
      let d := if (0 <? cfg_spi_speed_hz c) && (cfg_spi_speed_hz c <=? 50000000)
               then d <| spi_speed_hz := cfg_spi_speed_hz c |> else d in
      (0, klogged KScheduleSg (send_stream 1 e d))
    end.

Definition apex_sg_engine_stop (e : env) (d : bridge) : Z * bridge :=
  if sg_state (sg d) =? APEX_SG_STATE_IDLE then (0, d) else
  let d := d <| sg ::= fun eng => eng <| sg_state := APEX_SG_STATE_IDLE |> |> in
  let d := send_stream 0 e d in
  (0, d <| sg ::= fun eng =>
        match bufs eng with
        | Some _ => eng <| bufs := None |> <| sg_live ::= fun n => n - buf_count eng |>
        | None => eng
        end |>).

Definition PAGE_SHIFT : Z := 12.

(** the result, and how many bytes from the start of buffer 0 are mapped;
    [ret] is what dma_mmap_coherent answers *)
Definition apex_bridge_mmap (vsize pgoff ret : Z) (d : bridge) : Z * Z :=
  if sg_state (sg d) =? APEX_SG_STATE_IDLE then (- ENODEV, 0) else
  let psize := u64 (buf_count (sg d) * buf_size (sg d)) in
  if psize <? vsize then (- EINVAL, 0) else
  if Z.shiftr psize PAGE_SHIFT <=? pgoff then (- EINVAL, 0) else
  if negb (ret =? 0) then (ret, 0) else (0, psize).

End Engine.

(** ** What the worker is to do *)

(** every transfer that is submitted completes in time *)
Definition in_time (o : sg_outcome) : Prop :=
  match o with SgSubmitFailed | SgCompleted _ _ => True | SgTimedOut | SgLate _ _ => False end.

(** for such a run: the frames the controller completes, the final error count
    and the final engine state, for a ring of [N] buffers that has completed
    [k] frames *)
Fixpoint sg_batch (cont : bool) (N : Z) (k : nat) (er : Z) (os : list sg_outcome)
    : list (list Z * Z) * Z * Z :=
  match os with
  | [] => ([], er, APEX_SG_STATE_RUNNING)
  | SgSubmitFailed :: os =>
      if 100 <? incr32 er then ([], incr32 er, APEX_SG_STATE_ERROR)
      else sg_batch cont N k (incr32 er) os
  | SgTimedOut :: os | SgLate _ _ :: os => sg_batch cont N k er os
  | SgCompleted data now :: os =>
      if negb cont && (N <=? Z.of_nat (S k)) then ([(data, now)], er, APEX_SG_STATE_IDLE)
      else let '(ds, er', st) := sg_batch cont N (S k) er os in ((data, now) :: ds, er', st)
  end.

(** the engine after the frames [ds]: a ring of [N] buffers of [S] bytes that
    holds the last [N] of them *)
Record sg_view (N sz : Z) (cont : bool) (tmo live : Z) (ds : list (list Z * Z)) (er st : Z)
    (eng : sg_engine) : Prop := {
  sv_count : buf_count eng = N;
  sv_size : buf_size eng = sz;
  sv_cont : continuous eng = cont;
  sv_timeout : timeout_ms eng = tmo;
  sv_live : sg_live eng = live;
  sv_idx : current_idx eng = Z.of_nat (length ds) mod N;
  sv_seq : sequence eng = u32 (Z.of_nat (length ds));
  sv_frames : frames_rx eng = u32 (Z.of_nat (length ds));
  sv_total : total_transferred eng = u64 (Z.of_nat (length ds) * sz);
  sv_overruns : overruns eng = 0;
  sv_crc : frames_crc_err eng = 0;
  sv_errors : errors eng = er;
  sv_state : sg_state eng = st;
  sv_bufs : exists l, bufs eng = Some l /\ Z.of_nat (length l) = N /\
    Forall (fun b => buf_state b <> APEX_SG_BUF_USERSPACE) l /\
    forall j f, ds !! j = Some f -> (length ds <= j + Z.to_nat N)%nat ->
      exists b, l !! (j mod Z.to_nat N)%nat = Some b /\ sg_data b = fst f /\
        timestamp_ns b = snd f /\ buf_sequence b = u32 (Z.of_nat j) /\ data_len b = sz;
}.

Lemma sg_view_state N sz cont tmo live ds er st st' eng eng' :
  sg_view N sz cont tmo live ds er st eng -> eng' = eng <| sg_state := st' |> ->
  sg_view N sz cont tmo live ds er st' eng'.
Proof. intros [] ->. by constructor. Qed.

Lemma work_stopped os eng : sg_state eng <> APEX_SG_STATE_RUNNING ->
  apex_sg_work_handler os (sg_worker_of eng) = Some (sg_worker_of eng).
Proof.
  intros H%Z.eqb_neq. destruct os; cbn [apex_sg_work_handler wk_eng sg_worker_of]; by rewrite H.
Qed.

Section Worker.
Context (N sz : Z) (cont : bool) (tmo live : Z).
Hypothesis HN : 2 <= N <= 64.

Lemma sg_view_buf ds er st eng :
  sg_view N sz cont tmo live ds er st eng ->
  exists l b, bufs eng = Some l /\ 0 <= current_idx eng < N /\
    l !! Z.to_nat (current_idx eng) = Some b /\ buf_at (current_idx eng) eng = Some b /\
    buf_state b <> APEX_SG_BUF_USERSPACE.
Proof.
  intros V. destruct (sv_bufs _ _ _ _ _ _ _ _ _ V) as (l & El & Ll & Fl & _).
  pose proof (Z.mod_pos_bound (Z.of_nat (length ds)) N ltac:(lia)) as Hi.
  rewrite <- (sv_idx _ _ _ _ _ _ _ _ _ V) in Hi.
  destruct (lookup_lt_is_Some_2 l (Z.to_nat (current_idx eng))) as [b Eb]; [lia|].
  exists l, b. unfold buf_at. rewrite El. cbn [mbind option_bind].
  replace (_ <? 0) with false by lia. split_and!; [done|lia|lia|done|done|].
  by apply (Forall_lookup_1 _ _ _ _ Fl Eb).
Qed.

Lemma buf_at_intro i eng l b :
  bufs eng = Some l -> 0 <= i -> l !! Z.to_nat i = Some b -> buf_at i eng = Some b.
Proof.
  intros El Hi Eb. unfold buf_at. rewrite El. cbn [mbind option_bind].
  by replace (i <? 0) with false by lia.
Qed.

Lemma buf_update_eq idx f eng l b :
  bufs eng = Some l -> buf_at idx eng = Some b ->
  buf_update idx f eng = Some (eng <| bufs := Some (<[Z.to_nat idx := f b]> l) |>).
Proof. intros El Eb. unfold buf_update. by rewrite El, Eb. Qed.

Lemma set_state_eq idx st eng l b :
  buf_count eng = N -> 0 <= idx < N -> bufs eng = Some l -> l !! Z.to_nat idx = Some b ->
  apex_sg_buf_set_state idx st eng =
    Some (eng <| bufs := Some (<[Z.to_nat idx := b <| buf_state := st |>]> l) |>).
Proof.
  intros Ec Hi El Eb. unfold apex_sg_buf_set_state. rewrite Ec.
  replace (_ <? N) with true by lia. rewrite (buf_update_eq _ _ _ l b); [done|done|].
  by apply (buf_at_intro _ _ l); [|lia|].
Qed.

(** changing only the state of the current buffer, and the error count *)
Lemma sg_view_mark ds er er' st eng eng' l b q :
  sg_view N sz cont tmo live ds er st eng -> q <> APEX_SG_BUF_USERSPACE ->
  bufs eng = Some l -> l !! Z.to_nat (current_idx eng) = Some b ->
  eng' = eng <| errors := er' |>
             <| bufs := Some (<[Z.to_nat (current_idx eng) := b <| buf_state := q |>]> l) |> ->
  sg_view N sz cont tmo live ds er' st eng'.
Proof.
  intros V Hq El Eb ->. destruct V as [? ? ? ? ? ? ? ? ? ? ? ? ? (l' & El' & Ll & Fl & Hl)].
  rewrite El in El'. injection El' as <-. constructor; try done.
  eexists. split; [done|]. rewrite length_insert. split; [done|]. split.
  - by apply Forall_insert.
  - intros j f Hj Hwin. destruct (Hl j f Hj Hwin) as (b' & Eb' & ? & ? & ? & ?).
    destruct (decide (j mod Z.to_nat N = Z.to_nat (current_idx eng))%nat) as [Ej|Ej].
    + rewrite Ej in *. rewrite Eb in Eb'. injection Eb' as <-.
      eexists. rewrite list_lookup_insert_eq by (by eapply lookup_lt_Some). split; [done|]. done.
    + exists b'. by rewrite list_lookup_insert_ne by done.
Qed.

Lemma cur_nat (k : nat) : Z.to_nat (Z.of_nat k mod N) = (k mod Z.to_nat N)%nat.
Proof.
  apply Nat2Z.inj. rewrite Nat2Z.inj_mod, !Z2Nat.id; [done|lia|].
  apply Z.mod_pos_bound. lia.
Qed.

(** two of the last [N] frames do not share a buffer *)
Lemma ring_slot_inj (k j : nat) :
  (j < k)%nat -> (k < j + Z.to_nat N)%nat -> (j mod Z.to_nat N <> k mod Z.to_nat N)%nat.
Proof.
  intros Hj Hk E. set (n := Z.to_nat N) in *. assert (n <> 0)%nat by lia.
  pose proof (Nat.div_mod j n ltac:(done)) as Dj. pose proof (Nat.div_mod k n ltac:(done)) as Dk.
  rewrite E in Dj. assert (n * (k / n) < n * (j / n + 1))%nat as H1 by lia.
  apply Nat.mul_lt_mono_pos_l in H1; [|lia].
  assert (n * (j / n) < n * (k / n))%nat as H2 by lia.
  apply Nat.mul_lt_mono_pos_l in H2; lia.
Qed.

Lemma sg_view_complete ds er st eng data now l b :
  sg_view N sz cont tmo live ds er st eng ->
  bufs eng = Some l -> l !! Z.to_nat (current_idx eng) = Some b ->
  exists eng', (eng1 ← buf_update (current_idx eng) (fun b => b <| sg_data := data |>) eng;
                apex_sg_dma_callback now eng1) = Some eng' /\
    sg_view N sz cont tmo live (ds ++ [(data, now)]) er st eng'.
Proof.
  intros V El Eb.
  assert (0 <= current_idx eng < N) as Hi
    by (rewrite (sv_idx _ _ _ _ _ _ _ _ _ V); apply Z.mod_pos_bound; lia).
  assert (buf_at (current_idx eng) eng = Some b) as Ea
    by (unfold buf_at; rewrite El; cbn; by replace (_ <? 0) with false by lia).
  rewrite (buf_update_eq _ _ _ _ _ El Ea). cbn [mbind option_bind].
  set (b1 := b <| sg_data := data |>). set (l1 := <[Z.to_nat (current_idx eng) := b1]> l).
  set (eng1 := eng <| bufs := Some l1 |>).
  assert (l1 !! Z.to_nat (current_idx eng) = Some b1) as Eb1
    by (apply list_lookup_insert_eq; by eapply lookup_lt_Some).
  unfold apex_sg_dma_callback.
  erewrite (buf_update_eq (current_idx eng1) _ (eng1 <| sequence ::= incr32 |>) l1 b1);
    [|done|by unfold buf_at; cbn; replace (_ <? 0) with false by lia].
  cbn [mbind option_bind]. eexists. split; [reflexivity|].
  destruct V as [Vc Vs ? ? ? Vi Vq Vf Vt ? ? ? ? (l' & El' & Ll & Fl & Hl)].
  rewrite El in El'. injection El' as <-.
  assert (length (ds ++ [(data, now)]) = S (length ds)) as Ls
    by (rewrite length_app; simpl; lia).
  constructor; rewrite ?Ls; try done.
  - change (u32 (current_idx eng + 1) mod buf_count eng = Z.of_nat (S (length ds)) mod N).
    rewrite Vi, Vc, u32_small by (pose proof (Z.mod_pos_bound (Z.of_nat (length ds)) N); lia).
    rewrite Zplus_mod_idemp_l. f_equal. lia.
  - change (incr32 (sequence eng) = u32 (Z.of_nat (S (length ds)))).
    rewrite Vq. unfold incr32, u32. rewrite Zplus_mod_idemp_l. f_equal. lia.
  - change (incr32 (frames_rx eng) = u32 (Z.of_nat (S (length ds)))).
    rewrite Vf. unfold incr32, u32. rewrite Zplus_mod_idemp_l. f_equal. lia.
  - change (u64 (total_transferred eng + buf_size eng) = u64 (Z.of_nat (S (length ds)) * sz)).
    rewrite Vt, Vs. unfold u64. rewrite Zplus_mod_idemp_l. f_equal. lia.
  - eexists. split; [reflexivity|]. change (current_idx eng1) with (current_idx eng).
    unfold l1. rewrite list_insert_insert_eq, length_insert. split; [done|]. split.
    + by apply Forall_insert.
    + intros j f Hj Hwin. change (buf_size eng1) with (buf_size eng).
      change (sequence eng1) with (sequence eng). rewrite Vi, cur_nat.
      rewrite Vi, cur_nat in Eb.
      destruct (decide (j = length ds)) as [->|Hne].
      * rewrite lookup_app_r, Nat.sub_diag in Hj by lia. injection Hj as <-.
        eexists. rewrite list_lookup_insert_eq by (by eapply lookup_lt_Some).
        split; [done|]. simpl. by rewrite Vs, Vq.
      * assert (j < length ds)%nat as Hlt
          by (apply lookup_lt_Some in Hj; lia).
        rewrite lookup_app_l in Hj by done.
        rewrite list_lookup_insert_ne by (symmetry; apply ring_slot_inj; lia).
        apply Hl; [done|lia].
Qed.

(** freeing the current buffer after an error *)
Lemma sg_view_free ds er st eng l b :
  sg_view N sz cont tmo live ds er st eng ->
  bufs eng = Some l -> l !! Z.to_nat (current_idx eng) = Some b -> 0 <= current_idx eng < N ->
  exists eng', apex_sg_buf_set_state (current_idx eng) APEX_SG_BUF_FREE
                 (eng <| errors ::= incr32 |>) = Some eng' /\
    errors eng' = incr32 er /\ sg_view N sz cont tmo live ds (incr32 er) st eng'.
Proof.
  intros V El Eb Hi. pose proof (sv_errors _ _ _ _ _ _ _ _ _ V) as Er.
  rewrite (set_state_eq _ _ (eng <| errors ::= incr32 |>) l b)
    by (exact (sv_count _ _ _ _ _ _ _ _ _ V) || done).
  eexists. split; [reflexivity|]. split; [by rewrite <- Er|].
  apply (sg_view_mark ds er (incr32 er) _ _ _ l b APEX_SG_BUF_FREE V); [done..|]. by rewrite <- Er.
Qed.

(** the batch test at the end of a round *)
Lemma sg_view_batch ds er eng :
  sg_view N sz cont tmo live ds er APEX_SG_STATE_RUNNING eng ->
  (cont = false -> Z.of_nat (length ds) <= N) ->
  sg_view N sz cont tmo live ds er
    (if negb cont && (N <=? Z.of_nat (length ds)) then APEX_SG_STATE_IDLE else APEX_SG_STATE_RUNNING)
    (if negb (continuous eng) && (buf_count eng <=? sequence eng)
     then eng <| sg_state := APEX_SG_STATE_IDLE |> else eng).
Proof.
  intros V Hc.
  rewrite (sv_cont _ _ _ _ _ _ _ _ _ V), (sv_count _ _ _ _ _ _ _ _ _ V), (sv_seq _ _ _ _ _ _ _ _ _ V).
  destruct cont; cbn [negb andb]; [exact V|]. rewrite u32_small by (specialize (Hc eq_refl); lia).
  destruct (N <=? _); [by eapply sg_view_state|exact V].
Qed.

(** one round, of a worker none of whose transfers is late *)
Lemma sg_iter_ok o ds er eng :
  in_time o -> sg_view N sz cont tmo live ds er APEX_SG_STATE_RUNNING eng ->
  (cont = false -> Z.of_nat (length ds) < N) ->
  exists eng', apex_sg_work_iter o (sg_worker_of eng) = Some (sg_worker_of eng') /\
    match o with
    | SgCompleted data now =>
        sg_view N sz cont tmo live (ds ++ [(data, now)]) er
          (if negb cont && (N <=? Z.of_nat (S (length ds))) then APEX_SG_STATE_IDLE
           else APEX_SG_STATE_RUNNING) eng'
    | _ =>
        sg_view N sz cont tmo live ds (incr32 er)
          (if 100 <? incr32 er then APEX_SG_STATE_ERROR else APEX_SG_STATE_RUNNING) eng'
    end.
Proof.
  intros Ho V Hc. destruct (sg_view_buf _ _ _ _ V) as (l & b & El & Hi & Eb & Ea & Hu).
  unfold apex_sg_work_iter. cbn [wk_eng sg_worker_of]. cbv zeta. rewrite Ea. cbn [mbind option_bind].
  rewrite (proj2 (Z.eqb_neq _ _) Hu).
  rewrite (set_state_eq _ _ _ l b (sv_count _ _ _ _ _ _ _ _ _ V) Hi El Eb). cbn [mbind option_bind].
  set (b1 := b <| buf_state := APEX_SG_BUF_DMA_ACTIVE |>).
  set (l1 := <[Z.to_nat (current_idx eng) := b1]> l).
  set (eng1 := eng <| bufs := Some l1 |>).
  assert (sg_view N sz cont tmo live ds er APEX_SG_STATE_RUNNING eng1) as V1.
  { apply (sg_view_mark ds er er _ eng _ l b APEX_SG_BUF_DMA_ACTIVE); [done|done|done|done|].
    subst eng1 l1 b1. rewrite <- (sv_errors _ _ _ _ _ _ _ _ _ V). by destruct eng. }
  assert (l1 !! Z.to_nat (current_idx eng) = Some b1) as Eb1
    by (apply list_lookup_insert_eq; by eapply lookup_lt_Some).
  destruct o as [|data now| |]; [| |done..].
  - destruct (sg_view_free _ _ _ eng1 l1 b1 V1 eq_refl Eb1 Hi) as (eng2 & Ef & Ee & V2).
    change (current_idx eng1) with (current_idx eng) in Ef.
    rewrite Ef. cbn [mbind option_bind]. rewrite Ee. eexists. split; [reflexivity|].
    destruct (100 <? incr32 er); [by eapply sg_view_state|exact V2].
  - destruct (sg_view_complete _ _ _ eng1 data now l1 b1 V1 eq_refl Eb1) as (eng3 & E3 & V3).
    change (current_idx eng1) with (current_idx eng) in E3.
    unfold sg_wait, sg_finish, sg_worker_of, update. cbn [wk_queue wk_done wk_eng app mbind option_bind].
    cbn [mbind option_bind] in E3. fold eng1.
    destruct (buf_update _ _ eng1) as [eng2|]; [|done]. cbn [mbind option_bind] in E3 |- *.
    rewrite E3. cbn [mbind option_bind wk_eng].
    eexists. split; [reflexivity|].
    pose proof (sg_view_batch _ _ _ V3) as Hb. rewrite length_app in Hb. simpl length in Hb.
    replace (length ds + 1)%nat with (S (length ds)) in Hb by lia. apply Hb.
    intros Hf. specialize (Hc Hf). lia.
Qed.

(** the whole worker *)
Lemma sg_work_ok os ds er eng :
  Forall in_time os -> sg_view N sz cont tmo live ds er APEX_SG_STATE_RUNNING eng ->
  (cont = false -> Z.of_nat (length ds) < N) ->
  let '(ds', er', st') := sg_batch cont N (length ds) er os in
  exists eng', apex_sg_work_handler os (sg_worker_of eng) = Some (sg_worker_of eng') /\
    sg_view N sz cont tmo live (ds ++ ds') er' st' eng'.
Proof.
  intros Hos. revert ds er eng. induction Hos as [|o os Ho Hos IH]; intros ds er eng V Hc;
    cbn [sg_batch apex_sg_work_handler wk_eng sg_worker_of];
    rewrite (sv_state _ _ _ _ _ _ _ _ _ V); cbn [negb Z.eqb Pos.eqb];
    [exists eng; by rewrite app_nil_r|].
  destruct (sg_iter_ok o ds er eng Ho V Hc) as (eng1 & E1 & V1).
  change (Build_sg_worker eng [] false) with (sg_worker_of eng).
  destruct o as [|data now| |]; [| |done..]; rewrite E1; cbn [mbind option_bind].
  - destruct (100 <? incr32 er); [|by apply IH]. exists eng1. rewrite app_nil_r. split; [|done].
    apply work_stopped; by rewrite (sv_state _ _ _ _ _ _ _ _ _ V1).
  - destruct (negb cont && _) eqn:Hfull.
    + exists eng1. split; [|done].
      apply work_stopped; by rewrite (sv_state _ _ _ _ _ _ _ _ _ V1).
    + pose proof (IH _ _ _ V1) as H. rewrite length_app in H. simpl length in H.
      replace (length ds + 1)%nat with (S (length ds)) in H by lia.
      destruct (sg_batch cont N (S (length ds)) er os) as [[ds' er'] st'].
      destruct H as (eng' & E' & V'); [|by exists eng'; rewrite <- app_assoc in V'].
      intros Hf. rewrite Hf in Hfull. cbn [negb andb] in Hfull. apply Z.leb_gt in Hfull. lia.
Qed.
End Worker.

(** ** The worker stays in its buffers, late transfers or not *)

(** the buffers are there, and the index is one of theirs *)
Definition alive (eng : sg_engine) : Prop :=
  exists l, bufs eng = Some l /\ Z.of_nat (length l) = buf_count eng /\
    2 <= buf_count eng <= 64 /\ 0 <= current_idx eng < buf_count eng.

(** what an access to the buffers keeps *)
Definition kept (eng eng' : sg_engine) : Prop :=
  alive eng' /\ buf_count eng' = buf_count eng /\ sg_state eng' = sg_state eng.

Lemma alive_buf eng idx : alive eng -> 0 <= idx < buf_count eng ->
  exists l b, bufs eng = Some l /\ l !! Z.to_nat idx = Some b /\ buf_at idx eng = Some b.
Proof.
  intros (l & El & Ll & _ & _) Hi. destruct (lookup_lt_is_Some_2 l (Z.to_nat idx)) as [b Eb]; [lia|].
  exists l, b. split_and!; [done..|]. by apply (buf_at_intro _ _ l); [|lia|].
Qed.

Lemma alive_insert eng l idx b :
  alive eng -> bufs eng = Some l -> alive (eng <| bufs := Some (<[Z.to_nat idx := b]> l) |>).
Proof.
  intros (l' & El' & Ll & Hc & Hi) El. rewrite El in El'. injection El' as <-.
  eexists. split; [done|]. by rewrite length_insert.
Qed.

Lemma set_state_kept eng idx st : alive eng -> 0 <= idx < buf_count eng ->
  exists eng', apex_sg_buf_set_state idx st eng = Some eng' /\ kept eng eng'.
Proof.
  intros A Hi. destruct (alive_buf _ _ A Hi) as (l & b & El & Eb & _).
  eexists. split; [by apply (set_state_eq (buf_count eng))|].
  split; [by apply alive_insert|done].
Qed.

Lemma complete_kept eng idx data now : alive eng -> 0 <= idx < buf_count eng ->
  exists eng', (eng ← buf_update idx (fun b => b <| sg_data := data |>) eng;
                apex_sg_dma_callback now eng) = Some eng' /\ kept eng eng'.
Proof.
  intros A Hi. destruct (alive_buf _ _ A Hi) as (l & b & El & _ & Eb).
  rewrite (buf_update_eq _ _ _ _ _ El Eb). cbn [mbind option_bind].
  set (eng1 := eng <| bufs := _ |>). assert (A1 : alive eng1) by by apply alive_insert.
  unfold apex_sg_dma_callback.
  assert (Hc : 0 <= current_idx eng1 < buf_count eng1) by (by destruct A1 as (? & _ & _ & _ & ?)).
  set (eng2 := eng1 <| sequence ::= incr32 |>). assert (A2 : alive eng2) by exact A1.
  destruct (alive_buf eng2 (current_idx eng1) A2 Hc) as (l2 & b2 & El2 & _ & Eb2).
  rewrite (buf_update_eq _ _ _ _ _ El2 Eb2). cbn [mbind option_bind].
  eexists. split; [reflexivity|]. split; [|done].
  destruct (alive_insert eng2 l2 (current_idx eng1)
    (b2 <| data_len := buf_size eng1 |> <| timestamp_ns := now |>
        <| buf_sequence := sequence eng1 |> <| buf_state := APEX_SG_BUF_READY |>) A2 El2)
    as (l3 & El3 & Ll3 & Hc3 & _).
  exists l3. split; [done|]. split; [done|]. split; [done|].
  apply Z.mod_pos_bound. change (buf_count _) with (buf_count eng1). lia.
Qed.

Lemma alive_counters eng eng' : alive eng -> bufs eng' = bufs eng ->
  buf_count eng' = buf_count eng -> current_idx eng' = current_idx eng -> alive eng'.
Proof. intros (l & El & ?) Eb Ec Ei. exists l. by rewrite Eb, Ec, Ei. Qed.

(** so are the buffers of the transfers that are with the controller *)
Record worker_ok (w : sg_worker) : Prop := {
  wo_alive : alive (wk_eng w);
  wo_queue : Forall (fun i => 0 <= i < buf_count (wk_eng w)) (wk_queue w);
}.

Lemma worker_ok_kept w eng q done :
  worker_ok w -> kept (wk_eng w) eng -> Forall (fun i => 0 <= i < buf_count (wk_eng w)) q ->
  worker_ok (Build_sg_worker eng q done).
Proof. intros [A Q] (A' & Ec & _) Hq. constructor; [done|]. cbn. by rewrite Ec. Qed.

Lemma sg_finish_ok data now w : worker_ok w ->
  exists w', sg_finish data now w = Some w' /\ worker_ok w'.
Proof.
  intros W. pose proof W as [A Q]. unfold sg_finish.
  destruct (wk_queue w) as [|idx rest]; [by exists w|]. apply Forall_cons in Q as [Hi Hr].
  destruct (complete_kept _ idx data now A Hi) as (eng' & E & K).
  destruct (buf_update _ _ _) as [eng1|]; [|done]. cbn [mbind option_bind] in *. rewrite E.
  eexists. split; [done|]. by apply (worker_ok_kept w).
Qed.

Lemma free_kept eng idx : alive eng -> 0 <= idx < buf_count eng ->
  exists eng', apex_sg_buf_set_state idx APEX_SG_BUF_FREE (eng <| errors ::= incr32 |>) = Some eng' /\
    kept eng eng'.
Proof.
  intros A Hi. destruct (set_state_kept (eng <| errors ::= incr32 |>) idx APEX_SG_BUF_FREE)
    as (eng' & E & K); [by apply (alive_counters eng)|done|]. by exists eng'.
Qed.

Lemma sg_wait_ok o idx w : worker_ok w -> 0 <= idx < buf_count (wk_eng w) ->
  exists w', sg_wait o idx w = Some w' /\ worker_ok w'.
Proof.
  intros W Hi. unfold sg_wait. destruct (wk_done w); [by exists w|]. pose proof W as [A Q].
  destruct o as [|data now| |]; [|by apply sg_finish_ok|..];
    (destruct (free_kept _ _ A Hi) as (eng & -> & K); eexists; (split; [reflexivity|]);
     by apply (worker_ok_kept w)).
Qed.

Lemma worker_ok_state w eng : worker_ok w ->
  bufs eng = bufs (wk_eng w) -> buf_count eng = buf_count (wk_eng w) ->
  0 <= current_idx eng < buf_count eng -> worker_ok (w <| wk_eng := eng |>).
Proof.
  intros [(l & El & Ll & Hc & _) Q] Eb Ec Hi. constructor; [|cbn; by rewrite Ec].
  exists l. cbn. rewrite Eb, Ec. split_and!; [done|done|lia|lia|lia|lia].
Qed.

Lemma sg_iter_defined o w : worker_ok w ->
  exists w', apex_sg_work_iter o w = Some w' /\ worker_ok w'.
Proof.
  intros W. pose proof W as [A Q]. pose proof A as (l0 & _ & _ & Hc & Hi).
  destruct (alive_buf _ _ A Hi) as (l & b & El & Eb & Ea).
  unfold apex_sg_work_iter. cbv zeta. rewrite Ea. cbn [mbind option_bind].
  destruct (buf_state b =? _).
  { eexists. split; [reflexivity|]. apply worker_ok_state; [done..|]. cbn.
    apply Z.mod_pos_bound. lia. }
  destruct (set_state_kept _ (current_idx (wk_eng w)) APEX_SG_BUF_DMA_ACTIVE A Hi)
    as (eng1 & -> & K1). cbn [mbind option_bind]. pose proof K1 as (A1 & Ec1 & _).
  assert (Hbatch : forall w', worker_ok w' -> forall (f : bool), worker_ok (w' <| wk_done := false |>
     <| wk_eng := if f then (wk_eng w') <| sg_state := APEX_SG_STATE_IDLE |> else wk_eng w' |>)).
  { intros w' [A' Q'] f. by constructor; destruct f. }
  assert (Hwait : forall o', exists w', (w ← sg_wait o' (current_idx (wk_eng w))
       (w <| wk_eng := eng1 |> <| wk_queue ::= fun q => q ++ [current_idx (wk_eng w)] |>);
     let w := w <| wk_done := false |> in
     let eng := wk_eng w in
     Some (w <| wk_eng := if negb (continuous eng) && (buf_count eng <=? sequence eng)
                          then eng <| sg_state := APEX_SG_STATE_IDLE |> else eng |>)) = Some w' /\
     worker_ok w').
  { intros o'. destruct (sg_wait_ok o' (current_idx (wk_eng w))
      (w <| wk_eng := eng1 |> <| wk_queue ::= fun q => q ++ [current_idx (wk_eng w)] |>))
      as (w' & -> & W').
    - apply (worker_ok_kept w eng1 (wk_queue w ++ [current_idx (wk_eng w)])); [done..|].
      apply Forall_app. split; [done|]. by constructor.
    - cbn. by rewrite Ec1.
    - eexists. split; [reflexivity|]. by apply (Hbatch w'). }
  destruct o; [|apply Hwait..].
  destruct (free_kept eng1 (current_idx (wk_eng w)) A1) as (eng2 & E2 & K2); [by rewrite Ec1|].
  rewrite E2. cbn [mbind option_bind]. eexists. split; [reflexivity|].
  destruct K2 as (A2 & Ec2 & _).
  constructor; cbn; destruct (100 <? _); cbn; rewrite ?Ec2, ?Ec1; try done.
Qed.

(** whatever the controller does, late completions included *)
Lemma sg_work_defined os w : worker_ok w ->
  exists w', apex_sg_work_handler os w = Some w' /\ worker_ok w'.
Proof.
  revert w. induction os as [|o os IH]; intros w W; cbn [apex_sg_work_handler];
    (destruct (negb _); [by exists w|]); [by exists w|].
  destruct (sg_iter_defined o w W) as (w1 & E1 & W1).
  destruct o as [| | |data now]; [rewrite E1; by apply IH..|].
  destruct (sg_finish_ok data now w W) as (w2 & -> & W2). by apply IH.
Qed.

(** ** Start and stop *)

Lemma sg_alloc_ok e size i n l :
  sg_alloc e size i n = Some l ->
  length l = n /\ Forall (fun b => buf_state b = APEX_SG_BUF_FREE) l.
Proof.
  revert i l. induction n as [|n IH]; intros i l; cbn [sg_alloc]; [by intros [= <-]|].
  destruct (dma_alloc_coherent e i size) as [data|]; [|done]. cbn [mbind option_bind].
  destruct (sg_alloc e size (S i) n) as [l'|] eqn:E; [|done]. cbn [mbind option_bind].
  intros [= <-]. destruct (IH _ _ E) as [L F]. simpl. split; [by rewrite L|]. by constructor.
Qed.

Section Lifecycle.
Context {K : Kfifo}.

Lemma apex_spi_xfer_sg e tx n rx d : sg (snd (apex_spi_xfer e tx n rx d)) = sg d.
Proof.
  unfold apex_spi_xfer. destruct (_ <? n); [done|]. destruct (spi_sync e _) as [ret rx'].
  by destruct (ret <? 0).
Qed.

Lemma send_stream_sg en e d : sg (send_stream en e d) = sg d.
Proof.
  unfold send_stream. destruct (kmalloc e 2 4112) as [frame|]; [|done].
  destruct (kmalloc e 3 4112) as [rx|]; [|done].
  destruct (apex_build_frame _ _ _ _) as [n fr]. destruct (0 <? n); [|done].
  apply apex_spi_xfer_sg.
Qed.

Definition cfg_ok (c : sg_config) : bool :=
  (2 <=? cfg_buf_count c) && (cfg_buf_count c <=? 64) &&
  (4096 <=? cfg_buf_size c) && (cfg_buf_size c <=? 262144) && (cfg_buf_size c mod 4 =? 0).

Definition cfg_cont (c : sg_config) : bool := negb (cfg_continuous c =? 0).

(** an error code is not 0 *)
Ltac bad_code := let E := fresh in intros E; apply (f_equal fst) in E; discriminate E.

(** a start that returns 0 *)
Lemma start_view e c d d' :
  apex_sg_engine_start e c d = (0, d') ->
  cfg_ok c = true /\ sg_state (sg d) = APEX_SG_STATE_IDLE /\
  sg_view (cfg_buf_count c) (cfg_buf_size c) (cfg_cont c) (cfg_timeout_ms c)
    (sg_live (sg d) + cfg_buf_count c) [] 0 APEX_SG_STATE_RUNNING (sg d').
Proof.
  unfold apex_sg_engine_start, APEX_SG_MAX_BUFS, APEX_SG_BUF_SIZE_MIN, APEX_SG_BUF_SIZE_MAX,
    APEX_SG_BUF_SIZE_ALIGN.
  destruct ((cfg_buf_count c <? 2) || _) eqn:H1; [bad_code|].
  destruct ((cfg_buf_size c <? _) || _) eqn:H2; [bad_code|].
  destruct (negb (_ mod 4 =? 0)) eqn:H3; [bad_code|].
  destruct (negb (sg_state _ =? _)) eqn:H4; [bad_code|].
  destruct (negb (kcalloc e 0)); [bad_code|]. destruct (negb (kcalloc e 1)); [bad_code|].
  destruct (sg_alloc e _ 0 _) as [l|] eqn:El; [|bad_code]. intros E.
  apply negb_false_iff, Z.eqb_eq in H3, H4.
  apply orb_false_iff in H1 as [H1 H1'], H2 as [H2 H2'].
  split; [unfold cfg_ok; rewrite H3; lia|]. split; [done|].
  injection E as <-. unfold klogged. cbn [sg update].
  match goal with |- context [send_stream 1 e ?x] => set (d2 := x) end.
  change (sg (send_stream 1 e d2 <| klog ::= ?f |>)) with (sg (send_stream 1 e d2)).
  rewrite send_stream_sg.
  assert (sg d2 = sg (d <| sg ::= fun eng => {|
        bufs := Some l; buf_count := cfg_buf_count c; buf_size := cfg_buf_size c;
        current_idx := 0; sg_state := APEX_SG_STATE_RUNNING; total_transferred := 0;
        overruns := 0; errors := 0; frames_rx := 0; frames_crc_err := 0; sequence := 0;
        timeout_ms := cfg_timeout_ms c; continuous := negb (cfg_continuous c =? 0);
        sg_live := sg_live eng + cfg_buf_count c |} |>)) as ->
    by (subst d2; by destruct (_ && _)).
  destruct (sg_alloc_ok _ _ _ _ _ El) as [Ll Fl].
  constructor; try done. exists l. split; [done|]. split; [lia|]. split; [|done].
  eapply Forall_impl; [exact Fl|]. by intros b ->.
Qed.

(** the rest of a start: what an error leaves *)
Lemma start_error e c d r d' :
  apex_sg_engine_start e c d = (r, d') -> r <> 0 ->
  (r = - EINVAL /\ cfg_ok c = false \/ r = - EBUSY /\ sg_state (sg d) <> APEX_SG_STATE_IDLE \/
   r = - ENOMEM) /\
  sg_state (sg d') = sg_state (sg d) /\ sg_live (sg d') = sg_live (sg d) /\ klog d' = klog d.
Proof.
  unfold apex_sg_engine_start, cfg_ok, APEX_SG_MAX_BUFS, APEX_SG_BUF_SIZE_MIN,
    APEX_SG_BUF_SIZE_MAX, APEX_SG_BUF_SIZE_ALIGN.
  destruct ((cfg_buf_count c <? 2) || _) eqn:H1; [intros [= <- <-] _; split_and!; try done; left; split; [done|lia]|].
  destruct ((cfg_buf_size c <? _) || _) eqn:H2; [intros [= <- <-] _; split_and!; try done; left; split; [done|lia]|].
  destruct (negb (_ mod 4 =? 0)) eqn:H3;
    [intros [= <- <-] _; split_and!; try done; left; split; [done|];
     apply negb_true_iff in H3; by rewrite H3, andb_false_r|].
  destruct (negb (sg_state _ =? _)) eqn:H4;
    [intros [= <- <-] _; split_and!; try done; right; left; split; [done|];
     apply negb_true_iff, Z.eqb_neq in H4; done|].
  destruct (negb (kcalloc e 0)); [intros [= <- <-] _; split_and!; try done; by right; right|].
  destruct (negb (kcalloc e 1)); [intros [= <- <-] _; split_and!; try done; by right; right|].
  destruct (sg_alloc e _ 0 _) as [l|]; intros [= <- <-] Hne; [done|].
  split_and!; try done; by right; right.
Qed.

Lemma stop_running e d l :
  sg_state (sg d) <> APEX_SG_STATE_IDLE -> bufs (sg d) = Some l ->
  exists d', apex_sg_engine_stop e d = (0, d') /\ bufs (sg d') = None /\
    sg_state (sg d') = APEX_SG_STATE_IDLE /\
    sg_live (sg d') = sg_live (sg d) - buf_count (sg d).
Proof.
  intros Hs Hb. unfold apex_sg_engine_stop. rewrite (proj2 (Z.eqb_neq _ _) Hs).
  eexists. split; [reflexivity|]. cbn [sg update]. unfold update. cbn [sg].
  rewrite !send_stream_sg. cbn [sg]. rewrite Hb. by split_and!.
Qed.

(** the conditions for a start of an idle engine *)
Definition start_ok (e : env) (c : sg_config) : bool :=
  cfg_ok c && kcalloc e 0 && kcalloc e 1 &&
  match sg_alloc e (Z.to_nat (cfg_buf_size c)) 0 (Z.to_nat (cfg_buf_count c)) with
  | Some _ => true | None => false end.

Lemma start_result e c d :
  sg_state (sg d) = APEX_SG_STATE_IDLE ->
  (fst (apex_sg_engine_start e c d) =? 0) = start_ok e c.
Proof.
  intros Hs. unfold apex_sg_engine_start, start_ok, cfg_ok, APEX_SG_MAX_BUFS, APEX_SG_BUF_SIZE_MIN,
    APEX_SG_BUF_SIZE_MAX, APEX_SG_BUF_SIZE_ALIGN. rewrite Hs, Z.eqb_refl. cbn [negb].
  rewrite (Z.ltb_antisym 2), (Z.ltb_antisym _ 64), (Z.ltb_antisym 4096), (Z.ltb_antisym _ 262144).
  destruct (2 <=? _), (_ <=? 64); [|done..]. destruct (4096 <=? _), (_ <=? 262144); [|done..].
  destruct (_ mod 4 =? 0); [|done]. destruct (kcalloc e 0); [|done]. destruct (kcalloc e 1); [|done].
  by destruct (sg_alloc _ _ _ _).
Qed.

(** A session of the engine: start, what the worker does, stop.  A transfer
    that is still with the controller when stop frees its buffer ends in freed
    memory: [None]. *)
Record session := {
  ss_start : env; ss_config : sg_config; ss_work : list sg_outcome; ss_stop : env;
}.

Definition sg_session (s : session) (d : bridge) : option bridge :=
  let (r, d1) := apex_sg_engine_start (ss_start s) (ss_config s) d in
  if r =? 0 then
    w ← apex_sg_work_handler (ss_work s) (sg_worker_of (sg d1));
    match wk_queue w with
    | [] => Some (snd (apex_sg_engine_stop (ss_stop s) (d1 <| sg := wk_eng w |>)))
    | _ => None
    end
  else Some d1.

Definition sg_final_state (s : session) : Z :=
  snd (sg_batch (cfg_cont (ss_config s)) (cfg_buf_count (ss_config s)) 0 0 (ss_work s)).

(** the buffers a session never frees *)
Definition leaked (s : session) : Z :=
  if start_ok (ss_start s) (ss_config s) && (sg_final_state s =? APEX_SG_STATE_IDLE)
  then cfg_buf_count (ss_config s) else 0.

Lemma cfg_ok_count c : cfg_ok c = true -> 2 <= cfg_buf_count c <= 64.
Proof. unfold cfg_ok. lia. Qed.

(** the worker after a successful start *)
Lemma start_work e c d d' os :
  apex_sg_engine_start e c d = (0, d') -> Forall in_time os ->
  let '(ds, er, st) := sg_batch (cfg_cont c) (cfg_buf_count c) 0 0 os in
  exists eng, apex_sg_work_handler os (sg_worker_of (sg d')) = Some (sg_worker_of eng) /\
    sg_view (cfg_buf_count c) (cfg_buf_size c) (cfg_cont c) (cfg_timeout_ms c)
      (sg_live (sg d) + cfg_buf_count c) ds er st eng.
Proof.
  intros E Hos. destruct (start_view _ _ _ _ E) as (Hc & Hs & V). apply cfg_ok_count in Hc.
  exact (sg_work_ok _ _ _ _ _ Hc os [] 0 (sg d') Hos V ltac:(intros _; simpl; lia)).
Qed.

Lemma start_alive e c d d' : apex_sg_engine_start e c d = (0, d') ->
  alive (sg d') /\ sg_state (sg d) = APEX_SG_STATE_IDLE /\
  sg_state (sg d') = APEX_SG_STATE_RUNNING.
Proof.
  intros E. destruct (start_view _ _ _ _ E) as (Hc & Hs & V). apply cfg_ok_count in Hc.
  split; [|split; [done|by destruct V]]. pose proof V as [Ec _ _ _ _ Ei _ _ _ _ _ _ _ (l & El & Ll & _)].
  exists l. rewrite Ec, Ei. split; [done|]. split; [lia|]. split; [lia|].
  apply Z.mod_pos_bound. lia.
Qed.

Lemma sg_session_ok s d :
  sg_state (sg d) = APEX_SG_STATE_IDLE -> Forall in_time (ss_work s) ->
  exists d', sg_session s d = Some d' /\ sg_state (sg d') = APEX_SG_STATE_IDLE /\
    sg_live (sg d') = sg_live (sg d) + leaked s.
Proof.
  intros Hs Hos. unfold sg_session, leaked. rewrite <- (start_result _ _ d Hs).
  destruct (apex_sg_engine_start _ _ d) as [r d1] eqn:E. cbn [fst].
  destruct (Z.eqb_spec r 0) as [->|Hr].
  - pose proof (start_work _ _ _ _ (ss_work s) E Hos) as H. cbn [andb]. unfold sg_final_state.
    destruct (sg_batch _ _ _ _ _) as [[ds er] st]. cbn [snd].
    destruct H as (eng & -> & V). cbn [mbind option_bind wk_queue wk_eng sg_worker_of].
    pose proof (sv_state _ _ _ _ _ _ _ _ _ V) as Es. pose proof (sv_live _ _ _ _ _ _ _ _ _ V) as El.
    pose proof (sv_count _ _ _ _ _ _ _ _ _ V) as Ec.
    destruct (sv_bufs _ _ _ _ _ _ _ _ _ V) as (l & Eb & _).
    destruct (Z.eqb_spec st APEX_SG_STATE_IDLE) as [->|Hne].
    + eexists. split; [reflexivity|]. unfold apex_sg_engine_stop. cbn [sg].
      change (sg (d1 <| sg := eng |>)) with eng. rewrite Es. by cbn.
    + destruct (stop_running (ss_stop s) (d1 <| sg := eng |>) l) as (d' & E' & _ & Es' & El').
      { change (sg (d1 <| sg := eng |>)) with eng. by rewrite Es. }
      { done. }
      rewrite E'. eexists. split; [reflexivity|]. split; [done|].
      change (sg (d1 <| sg := eng |>)) with eng in El'. cbn [snd]. lia.
  - destruct (start_error _ _ _ _ _ E Hr) as (_ & Es & El & _). exists d1. cbn [andb].
    split_and!; [done|congruence|lia].
Qed.

Definition sg_sessions (ss : list session) (d : bridge) : option bridge :=
  foldl (fun o s => d ← o; sg_session s d) (Some d) ss.


(** DMA memory over any number of streaming sessions, each a start, the
    worker's run, in which no transfer times out, and a stop.  Every session ends with the engine idle, and frees
    all it allocated unless it was a single batch that filled all its buffers:
    that one has gone idle by itself, so stop returns at once, the buffers are
    never freed, and mmap answers -ENODEV, so nobody can read them either. *)
Theorem sg_sessions_accounting (ss : list session) (d : bridge)
    (Hidle : sg_state (sg d) = APEX_SG_STATE_IDLE)
    (Hos : Forall (fun s => Forall in_time (ss_work s)) ss) :
  exists d', sg_sessions ss d = Some d' /\ sg_state (sg d') = APEX_SG_STATE_IDLE /\
    sg_live (sg d') = sg_live (sg d) + foldr (fun s n => leaked s + n) 0 ss /\
    (forall s, leaked s <> 0 <->
       start_ok (ss_start s) (ss_config s) = true /\ sg_final_state s = APEX_SG_STATE_IDLE) /\
    forall vsize pgoff ret, apex_bridge_mmap vsize pgoff ret d' = (- ENODEV, 0).
Proof.
  assert (H : exists d', sg_sessions ss d = Some d' /\ sg_state (sg d') = APEX_SG_STATE_IDLE /\
    sg_live (sg d') = sg_live (sg d) + foldr (fun s n => leaked s + n) 0 ss).
  { unfold sg_sessions. revert d Hidle.
    induction Hos as [|s ss Hs0 Hos IH]; intros d Hs; cbn [foldl foldr];
      [exists d; split_and!; [done|done|lia]|].
    destruct (sg_session_ok s d Hs Hs0) as (d1 & E1 & Hs1 & L1). cbn [mbind option_bind]. rewrite E1.
    destruct (IH d1 Hs1) as (d' & E' & Hs' & L'). exists d'. split_and!; [done|done|lia]. }
  destruct H as (d' & E & Hs & L). exists d'. split_and!; [done|done|done| |].
  - intros s. unfold leaked. destruct (start_ok _ _) eqn:Hok; cbn [andb];
      [|split; [done|intros [? _]; done]].
    assert (2 <= cfg_buf_count (ss_config s) <= 64).
    { apply cfg_ok_count. unfold start_ok in Hok. by destruct (cfg_ok _). }
    destruct (Z.eqb_spec (sg_final_state s) APEX_SG_STATE_IDLE); split; [done|lia|done|by intros []].
  - intros. unfold apex_bridge_mmap. by rewrite Hs, Z.eqb_refl.
Qed.
End Lifecycle.

(** ** Instances *)

Definition demo_env : env := env_of (fun _ => []) 0 (fun _ => Forall_nil_2 _) byte_0.
Definition demo_bridge : bridge := {|
  rx_fifo := kfifo_alloc (Z.to_nat APEX_RX_FIFO_SIZE);
  tx_fifo := kfifo_alloc (Z.to_nat APEX_TX_FIFO_SIZE); last_telem := replicate 16 0;
  flags := 0; open_count := 1; spi_err_count := 0; brownout_count := 0; brownout_prev_flag := 0;
  spi_speed_hz := 50000000; sg := sg_engine_zero; klog := [] |}.
Definition demo_config (cont : Z) : sg_config := Build_sg_config 2 4096 100 0 cont.
Definition demo_frames : list sg_outcome :=
  [SgCompleted [1] 10; SgSubmitFailed; SgCompleted [2] 20; SgCompleted [3] 30].

Lemma demo_frames_in_time : Forall in_time demo_frames.
Proof. by repeat constructor. Qed.


(** A transfer that timed out completes during its retry, and every later frame
    is off by one: buffer 0 is announced as frame 0 and then overwritten by the
    frame of the retry, and buffer 1 is announced as frame 1 although nothing
    was written into it; a transfer into it is still with the controller. *)
Lemma timed_out_frames_misplaced :
  exists w l, apex_sg_work_handler [SgTimedOut; SgCompleted [1] 10; SgCompleted [2] 20]
      (sg_worker_of (sg (snd (apex_sg_engine_start demo_env (demo_config 1) demo_bridge)))) = Some w /\
    bufs (wk_eng w) = Some l /\
    (fun b => (buf_state b, buf_sequence b)) <$> l = [(APEX_SG_BUF_READY, 0); (APEX_SG_BUF_READY, 1)] /\
    sg_data <$> l = [[2]; replicate 4096 0] /\ wk_queue w = [1].
Proof. do 2 eexists. split_and!; vm_compute; reflexivity. Qed.

Definition demo_session (cont : Z) : session :=
  Build_session demo_env (demo_config cont) demo_frames demo_env.

Lemma sg_sessions_accounting_witness :
  exists d', sg_sessions [demo_session 0; demo_session 1; demo_session 0] demo_bridge = Some d' /\
    sg_live (sg d') = 4.
Proof.
  destruct (sg_sessions_accounting [demo_session 0; demo_session 1; demo_session 0] demo_bridge
    eq_refl) as (d' & E & _ & L & _); [by repeat (constructor; [apply demo_frames_in_time|])|].
  exists d'. split; [exact E|]. rewrite L. reflexivity.
Defined.
