(* ===== verification/SgRace.v ===== *)
(** * The scatter-gather worker against start, stop and mmap (apex_bridge.c)

    SgEngine takes one round of the worker and one call of stop as a step.
    Here the worker, the completion callback, the holder of sg_lock and mmap
    run at once, and each makes one access at a time.  As long as no wait of
    the worker times out, stop frees the buffers only when nothing uses them,
    and returns; with timeouts it frees them under the controller, and without
    a timeout it waits for a controller that may never answer. *)

From S2P Require Import Prelude Crc Frame Kernel ApexDev SgEngine.

Section Race.
Context {K : Kfifo}.

(** ** State *)

(** where apex_sg_work_handler stands; counters that only the worker touches
    change with the access that follows them *)
Inductive wpc :=
| WOff                            (* neither queued nor running *)
| WQueued                         (* schedule_work *)
| WTest                           (* while (eng->state == APEX_SG_STATE_RUNNING) *)
| WPick                           (* idx = eng->current_idx; buf->desc.state *)
| WSkip (idx : Z)                 (* eng->overruns++; eng->current_idx = ... *)
| WMark (idx : Z)                 (* apex_sg_buf_set_state(.., DMA_ACTIVE) *)
| WSubmit (idx : Z)               (* spi_async *)
| WFree (idx : Z) (failed : bool) (* eng->errors++; apex_sg_buf_set_state(.., FREE) *)
| WGiveUp                         (* if (eng->errors > 100) eng->state = ERROR *)
| WWait (idx : Z)                 (* wait_for_completion, with or without timeout *)
| WReinit                         (* reinit_completion *)
| WBatch.                         (* the single-batch test; eng->state = IDLE *)

(** where the thread that holds sg_lock stands *)
Inductive lpc :=
| LFree
| LStopTest (e : env)             (* if (eng->state == APEX_SG_STATE_IDLE) return *)
| LStopSet (e : env)              (* eng->state = APEX_SG_STATE_IDLE *)
| LStopCancel (e : env)           (* cancel_work_sync *)
| LStopSend (e : env)             (* the stop command to the firmware *)
| LStopFree.                      (* wipe and free the buffers *)

(** [inflight] has the buffers of the transfers submitted and not completed,
    [completions] is the count of sg_buf_complete, [map] an mmap that has
    released sg_lock *)
Record sys := {
  dev : bridge; inflight : list Z; completions : nat; work_at : wpc; lock_at : lpc;
  map_at : option (Z * Z * Z);
}.
#[local] Instance eta_sys : Eta sys :=
  eta! Build_sys < dev ; inflight ; completions ; work_at ; lock_at ; map_at >.

(** the outcome of an access: it must wait, it faults, or the next state *)
Inductive outcome := Blocked | Fault | Next (s : sys).

Definition put_sg (eng : sg_engine) (s : sys) : sys :=
  s <| dev ::= fun d => d <| sg := eng |> |>.

(** an access to the buffers, then at [w] *)
Definition access (r : option sg_engine) (w : wpc) (s : sys) : outcome :=
  match r with None => Fault | Some eng => Next ((put_sg eng s) <| work_at := w |>) end.

(** ** The worker; [ok] is what spi_async answers *)

Definition worker_step (ok : bool) (s : sys) : outcome :=
  let eng := sg (dev s) in
  match work_at s with
  | WOff => Blocked
  | WQueued => Next (s <| work_at := WTest |>)
  | WTest =>
      Next (s <| work_at := if sg_state eng =? APEX_SG_STATE_RUNNING then WPick else WOff |>)
  | WPick =>
      let idx := current_idx eng in
      match buf_at idx eng with
      | None => Fault
      | Some buf => Next (s <| work_at := if buf_state buf =? APEX_SG_BUF_USERSPACE
                                          then WSkip idx else WMark idx |>)
      end
  | WSkip idx =>
      access (Some (eng <| overruns ::= incr32 |>
                        <| current_idx := u32 (idx + 1) mod buf_count eng |>)) WTest s
  | WMark idx => access (apex_sg_buf_set_state idx APEX_SG_BUF_DMA_ACTIVE eng) (WSubmit idx) s
  | WSubmit idx =>
      match buf_at idx eng with
      | None => Fault
      | Some _ =>
          if ok then Next (s <| inflight ::= fun l => l ++ [idx] |> <| work_at := WWait idx |>)
          else Next (s <| work_at := WFree idx true |>)
      end
  | WFree idx failed =>
      access (apex_sg_buf_set_state idx APEX_SG_BUF_FREE (eng <| errors ::= incr32 |>))
        (if failed then WGiveUp else WReinit) s
  | WGiveUp =>
      if 100 <? errors eng
      then access (Some (eng <| sg_state := APEX_SG_STATE_ERROR |>)) WOff s
      else Next (s <| work_at := WTest |>)
  | WWait idx =>
      match completions s with
      | O => Blocked
      | S n => Next (s <| completions := n |> <| work_at := WReinit |>)
      end
  | WReinit => Next (s <| completions := O |> <| work_at := WBatch |>)
  | WBatch =>
      if negb (continuous eng) && (buf_count eng <=? sequence eng)
      then access (Some (eng <| sg_state := APEX_SG_STATE_IDLE |>)) WOff s
      else Next (s <| work_at := WTest |>)
  end.

(** wait_for_completion_timeout gives up *)
Definition timeout_step (s : sys) : outcome :=
  match work_at s, completions s with
  | WWait idx, O =>
      if 0 <? timeout_ms (sg (dev s)) then Next (s <| work_at := WFree idx false |>) else Blocked
  | _, _ => Blocked
  end.

(** the controller finishes its oldest transfer: DMA into the buffer that was
    submitted, then the callback *)
Definition complete_step (data : list Z) (now : Z) (s : sys) : outcome :=
  match inflight s with
  | [] => Blocked
  | idx :: rest =>
      match (eng ← buf_update idx (fun b => b <| sg_data := data |>) (sg (dev s));
             apex_sg_dma_callback now eng) with
      | None => Fault
      | Some eng => Next ((put_sg eng s) <| inflight := rest |> <| completions ::= S |>)
      end
  end.

(** ** The calls *)

Definition stop_free (eng : sg_engine) : sg_engine :=
  match bufs eng with
  | Some _ => eng <| bufs := None |> <| sg_live ::= fun n => n - buf_count eng |>
  | None => eng
  end.

Definition stop_step (s : sys) : outcome :=
  let eng := sg (dev s) in
  match lock_at s with
  | LFree => Blocked
  | LStopTest e =>
      Next (s <| lock_at := if sg_state eng =? APEX_SG_STATE_IDLE then LFree else LStopSet e |>)
  | LStopSet e =>
      Next ((put_sg (eng <| sg_state := APEX_SG_STATE_IDLE |>) s) <| lock_at := LStopCancel e |>)
  | LStopCancel e =>
      match work_at s with
      | WOff => Next (s <| lock_at := LStopSend e |>)
      | WQueued => Next (s <| work_at := WOff |> <| lock_at := LStopSend e |>)
      | _ => Blocked
      end
  | LStopSend e => Next (s <| dev ::= send_stream 0 e |> <| lock_at := LStopFree |>)
  | LStopFree => Next ((put_sg (stop_free eng) s) <| lock_at := LFree |>)
  end.

(** start holds sg_lock from its tests to the end, with no worker to meet *)
Definition start_step (e : env) (c : sg_config) (s : sys) : outcome :=
  match lock_at s with
  | LFree =>
      let (r, d) := apex_sg_engine_start e c (dev s) in
      if r =? 0 then Next (s <| dev := d |> <| completions := O |> <| work_at := WQueued |>)
      else Next (s <| dev := d |>)
  | _ => Blocked
  end.

(** apex_bridge_mmap: the part under sg_lock, then the rest *)
Definition map_step (vsize pgoff : Z) (s : sys) : outcome :=
  match lock_at s, map_at s with
  | LFree, None =>
      if sg_state (sg (dev s)) =? APEX_SG_STATE_IDLE then Next s
      else Next (s <| map_at := Some (vsize, pgoff, u64 (buf_count (sg (dev s)) * buf_size (sg (dev s)))) |>)
  | _, _ => Blocked
  end.
Definition map_pages_step (s : sys) : outcome :=
  match map_at s with
  | None => Blocked
  | Some (vsize, pgoff, psize) =>
      if (psize <? vsize) || (Z.shiftr psize PAGE_SHIFT <=? pgoff)
      then Next (s <| map_at := None |>)
      else match buf_at 0 (sg (dev s)) with
           | None => Fault
           | Some _ => Next (s <| map_at := None |>)
           end
  end.

(** ** Runs *)

Inductive act :=
| AWork (ok : bool) | ATimeout | AComplete (data : list Z) (now : Z)
| ALocked | AStart (e : env) (c : sg_config) | AStop (e : env)
| AMap (vsize pgoff : Z) | AMapPages.

Definition step (a : act) (s : sys) : outcome :=
  match a with
  | AWork ok => worker_step ok s
  | ATimeout => timeout_step s
  | AComplete data now => complete_step data now s
  | ALocked => stop_step s
  | AStart e c => start_step e c s
  | AStop e => match lock_at s with LFree => Next (s <| lock_at := LStopTest e |>) | _ => Blocked end
  | AMap vsize pgoff => map_step vsize pgoff s
  | AMapPages => map_pages_step s
  end.

(** the actions of a run: whether waits may time out, and mmap be called *)
Definition allowed (late maps : bool) (a : act) : bool :=
  match a with ATimeout => late | AMap _ _ | AMapPages => maps | _ => true end.

Definition sg_step (late maps : bool) (s s' : sys) : Prop :=
  exists a, allowed late maps a = true /\ step a s = Next s'.

(** after apex_sg_engine_init *)
Definition sg_boot (d : bridge) : sys :=
  Build_sys (apex_sg_engine_init d) [] 0 WOff LFree None.

Fixpoint steps (l : list act) (s : sys) : outcome :=
  match l with
  | [] => Next s
  | a :: l => match step a s with Next s => steps l s | r => r end
  end.

Lemma steps_run late maps l s s' :
  Forall (fun a => allowed late maps a = true) l -> steps l s = Next s' ->
  rtc (sg_step late maps) s s'.
Proof.
  revert s. induction l as [|a l IH]; simpl; intros s F E.
  - injection E as ->. apply rtc_refl.
  - inversion F; subst. destruct (step a s) as [| |s1] eqn:Es; try done.
    eapply rtc_l; [by exists a|]. by apply IH.
Qed.

(** ** The steps of SgEngine are runs of this system *)

(** the system holds what the worker of SgEngine does *)
Definition worker_at (s : sys) (w : sg_worker) : Prop :=
  sg (dev s) = wk_eng w /\ inflight s = wk_queue w /\
  (completions s =? 0)%nat = negb (wk_done w).

Definition round_acts (o : sg_outcome) (user late : bool) : list act :=
  if user then replicate 3 (AWork true) else
  match o with
  | SgSubmitFailed => replicate 3 (AWork true) ++ AWork false :: replicate 2 (AWork true)
  | _ =>
      replicate 4 (AWork true) ++
      (if late then [] else
       match o with SgCompleted data now => [AComplete data now] | _ => [ATimeout] end) ++
      replicate 3 (AWork true)
  end.

Lemma set_state_buf idx st eng eng' b :
  apex_sg_buf_set_state idx st eng = Some eng' -> buf_at idx eng = Some b ->
  is_Some (buf_at idx eng') /\ timeout_ms eng' = timeout_ms eng /\ current_idx eng' = current_idx eng.
Proof.
  unfold apex_sg_buf_set_state, buf_update, buf_at. intros E Eb.
  destruct (idx <? buf_count eng); [|by simplify_eq; rewrite Eb].
  destruct (bufs eng) as [l|] eqn:El; [|done]. simpl in *. rewrite Eb in E. simplify_eq/=.
  destruct (idx <? 0); [done|]. split; [|done]. apply lookup_lt_is_Some_2.
  rewrite length_insert. by eapply lookup_lt_Some.
Qed.

(** submission: the buffer is marked and the transfer queued *)
Lemma round_mark s l buf eng1 b1 :
  work_at s = WTest -> sg_state (sg (dev s)) = APEX_SG_STATE_RUNNING ->
  buf_at (current_idx (sg (dev s))) (sg (dev s)) = Some buf ->
  (buf_state buf =? APEX_SG_BUF_USERSPACE) = false ->
  apex_sg_buf_set_state (current_idx (sg (dev s))) APEX_SG_BUF_DMA_ACTIVE (sg (dev s)) = Some eng1 ->
  buf_at (current_idx (sg (dev s))) eng1 = Some b1 ->
  steps (replicate 3 (AWork true) ++ l) s =
    steps l ((put_sg eng1 s) <| work_at := WSubmit (current_idx (sg (dev s))) |>) /\
  steps (replicate 4 (AWork true) ++ l) s =
    steps l ((put_sg eng1 s) <| inflight ::= fun l => l ++ [current_idx (sg (dev s))] |>
                             <| work_at := WWait (current_idx (sg (dev s))) |>).
Proof.
  destruct s as [d fl n w p m]. simpl. intros -> Hs Eb Eu E1 Eb1.
  split; cbn; rewrite Hs; cbn; rewrite Eb, Eu; cbn; rewrite E1; cbn; [done|by rewrite Eb1].
Qed.

(** the end of a round, after the wait *)
Lemma round_end s : work_at s = WReinit ->
  exists s', steps (replicate 2 (AWork true)) s = Next s' /\
    worker_at s' (Build_sg_worker
      (let eng := sg (dev s) in
       if negb (continuous eng) && (buf_count eng <=? sequence eng)
       then eng <| sg_state := APEX_SG_STATE_IDLE |> else eng) (inflight s) false) /\
    (work_at s' = WTest \/ work_at s' = WOff).
Proof.
  destruct s as [d fl n w p m]. simpl. intros ->. cbn.
  destruct (negb (continuous (sg d)) && _); eexists; (split; [reflexivity|]);
    (split; [by split_and!|]); [by right|by left].
Qed.

(** a round of the worker is [apex_sg_work_iter], whatever transfers are late *)
Lemma worker_round o s w w' :
  work_at s = WTest -> worker_at s w ->
  sg_state (sg (dev s)) = APEX_SG_STATE_RUNNING ->
  (o = SgTimedOut -> 0 < timeout_ms (sg (dev s))) -> (forall data now, o <> SgLate data now) ->
  apex_sg_work_iter o w = Some w' ->
  exists user s', steps (round_acts o user (wk_done w)) s = Next s' /\ worker_at s' w' /\
    (work_at s' = WTest \/ work_at s' = WOff).
Proof.
  destruct w as [eng q dn]. intros Hw (He & Hq & Hn) Hs Ht Hl E. unfold apex_sg_work_iter in E.
  cbn [wk_eng wk_queue wk_done] in *. subst eng q.
  destruct (buf_at (current_idx (sg (dev s))) (sg (dev s))) as [buf|] eqn:Eb; [|done].
  cbn [mbind option_bind] in E.
  destruct (buf_state buf =? APEX_SG_BUF_USERSPACE) eqn:Eu.
  { exists true. destruct s as [d fl n w p m]. simpl in *. subst w. unfold round_acts. cbn.
    rewrite Hs. cbn. rewrite Eb, Eu. cbn. injection E as <-. eexists. split; [reflexivity|].
    by split; [|left]. }
  exists false. destruct (apex_sg_buf_set_state _ APEX_SG_BUF_DMA_ACTIVE _) as [eng1|] eqn:E1; [|done].
  cbn [mbind option_bind] in E. destruct (set_state_buf _ _ _ _ _ E1 Eb) as ([b1 Eb1] & Et & Ei).
  pose proof (fun l => round_mark s l buf eng1 b1 Hw Hs Eb Eu E1 Eb1) as Hmark.
  destruct o as [|data now| |]; [..|by destruct (Hl data now)]; unfold round_acts.
  - rewrite (proj1 (Hmark _)). destruct s as [d fl n w p m]. simpl in *. cbn. rewrite Eb1. cbn.
    destruct (apex_sg_buf_set_state _ APEX_SG_BUF_FREE _) as [eng2|] eqn:E2; [|done].
    injection E as <-. cbn. destruct (100 <? errors eng2); eexists; (split; [reflexivity|]);
      (split; [by split_and!|]); [by right|by left].
  - rewrite (proj2 (Hmark _)). destruct s as [d fl n w p m]. simpl in *. unfold sg_wait in E.
    cbn [wk_done update] in E. destruct dn.
    + destruct n as [|n]; [done|].
      destruct (round_end (Build_sys (d <| sg := eng1 |>) (fl ++ [current_idx (sg d)]) n WReinit p m)
        eq_refl) as (s' & Es & Hat & Hpc).
      exists s'. injection E as <-. split; [exact Es|]. by split.
    + apply Nat.eqb_eq in Hn as ->. unfold sg_finish in E. cbn [wk_queue wk_eng update] in E.
      unfold update in E. cbn [wk_queue wk_eng] in E.
      destruct (fl ++ [current_idx (sg d)]) as [|i0 rest] eqn:Eq; [by destruct fl|].
      destruct (buf_update _ _ eng1) as [eng2|] eqn:E2; [|done]. cbn [mbind option_bind] in E.
      destruct (apex_sg_dma_callback now eng2) as [eng3|] eqn:E3; [|done]. cbn [mbind option_bind] in E.
      destruct (round_end (Build_sys (d <| sg := eng3 |>) rest 0 WReinit p m) eq_refl)
        as (s' & Es & Hat & Hpc).
      exists s'. injection E as <-. split; [|by split].
      cbn -[complete_step]. unfold complete_step. cbn -[apex_sg_dma_callback buf_update].
      rewrite Eq. cbn -[apex_sg_dma_callback buf_update].
      match goal with |- context [buf_update i0 ?f ?e] =>
        assert (buf_update i0 f e = Some eng2) as -> by exact E2 end.
      cbn -[apex_sg_dma_callback].      rewrite E3. exact Es.
  - rewrite (proj2 (Hmark _)). destruct s as [d fl n w p m]. simpl in *. unfold sg_wait in E.
    cbn [wk_done update] in E. destruct dn.
    + destruct n as [|n]; [done|].
      destruct (round_end (Build_sys (d <| sg := eng1 |>) (fl ++ [current_idx (sg d)]) n WReinit p m)
        eq_refl) as (s' & Es & Hat & Hpc).
      exists s'. injection E as <-. split; [exact Es|]. by split.
    + apply Nat.eqb_eq in Hn as ->.
      destruct (apex_sg_buf_set_state _ APEX_SG_BUF_FREE _) as [eng2|] eqn:E2; [|done].
      cbn [mbind option_bind] in E. injection E as <-.
      destruct (round_end (Build_sys (d <| sg := eng2 |>) (fl ++ [current_idx (sg d)]) 0 WReinit p m)
        eq_refl) as (s' & Es & Hat & Hpc).
      exists s'. split; [|by split]. cbn [steps app step]. unfold timeout_step. cbn.
      rewrite Et, (proj2 (Z.ltb_lt _ _)) by auto. cbn.
      match goal with |- context [apex_sg_buf_set_state ?i ?q ?e] =>
        assert (apex_sg_buf_set_state i q e = Some eng2) as -> by exact E2 end.
      exact Es.
Qed.

(** and an undisturbed stop is [apex_sg_engine_stop] *)
Lemma stop_alone e s : lock_at s = LFree -> work_at s = WOff ->
  exists n s', steps (AStop e :: replicate n ALocked) s = Next s' /\
    dev s' = snd (apex_sg_engine_stop e (dev s)) /\ lock_at s' = LFree.
Proof.
  destruct s as [d fl n w p m]. simpl. intros -> ->. unfold apex_sg_engine_stop.
  destruct (sg_state (sg d) =? APEX_SG_STATE_IDLE) eqn:Es.
  - exists 1%nat. cbn -[send_stream]. rewrite Es. by eexists.
  - exists 5%nat. cbn -[send_stream]. rewrite Es. cbn -[send_stream]. by eexists.
Qed.

(** ** Invariant of the runs in which no wait times out *)

Definition holds_idx (w : wpc) (n : Z) : Prop :=
  match w with
  | WSkip idx | WMark idx | WSubmit idx | WFree idx _ | WWait idx => 0 <= idx < n
  | _ => True
  end.

(** a transfer is in flight, or its completion pending, only while the worker waits *)
Definition flight_ok (w : wpc) (l : list Z) (n : nat) : Prop :=
  match w with
  | WWait idx => (l = [idx] /\ n = 0%nat) \/ (l = [] /\ n = 1%nat)
  | _ => l = [] /\ n = 0%nat
  end.

Definition lock_ok (p : lpc) (w : wpc) (st : Z) : Prop :=
  match p with
  | LFree | LStopTest _ | LStopSet _ => st = APEX_SG_STATE_IDLE -> w = WOff
  | LStopCancel _ => st <> APEX_SG_STATE_RUNNING
  | LStopSend _ | LStopFree => w = WOff
  end.

Record race_inv (s : sys) : Prop := {
  ri_live : work_at s <> WOff -> alive (sg (dev s));
  ri_idx : holds_idx (work_at s) (buf_count (sg (dev s)));
  ri_flight : flight_ok (work_at s) (inflight s) (completions s);
  ri_lock : lock_ok (lock_at s) (work_at s) (sg_state (sg (dev s)));
  ri_map : map_at s = None;
}.

Definition safe (o : outcome) : Prop :=
  match o with Blocked => True | Fault => False | Next s => race_inv s end.

Lemma lock_ok_work p w w' st : lock_ok p w st -> w <> WOff -> lock_ok p w' st.
Proof. destruct p; simpl; tauto. Qed.
Lemma lock_ok_off p st : st <> APEX_SG_STATE_RUNNING -> lock_ok p WOff st.
Proof. by destruct p. Qed.

(** an access keeps the invariant when the next program point is right *)
Lemma access_safe r w s eng : race_inv s -> r = Some eng -> alive eng ->
  buf_count eng = buf_count (sg (dev s)) -> holds_idx w (buf_count (sg (dev s))) ->
  flight_ok w (inflight s) (completions s) -> lock_ok (lock_at s) w (sg_state eng) ->
  safe (access r w s).
Proof. intros [] -> A Ec Hi Hf Hl. constructor; simpl; try done. by rewrite Ec. Qed.

Lemma move_safe w s : race_inv s -> work_at s <> WOff ->
  holds_idx w (buf_count (sg (dev s))) -> flight_ok w (inflight s) (completions s) ->
  race_inv (s <| work_at := w |>).
Proof. intros [] ? ? ?. constructor; simpl; auto. by eapply lock_ok_work. Qed.

Lemma off_safe s : race_inv s -> sg_state (sg (dev s)) <> APEX_SG_STATE_RUNNING ->
  flight_ok WOff (inflight s) (completions s) -> race_inv (s <| work_at := WOff |>).
Proof. intros [] ? ?. constructor; simpl; try done. by apply lock_ok_off. Qed.

Lemma worker_safe ok s : race_inv s -> safe (worker_step ok s).
Proof.
  intros I. pose proof I as [A Hi Hf Hl Hm]. unfold worker_step.
  destruct (work_at s) as [| | | |idx|idx|idx|idx failed| |idx| |] eqn:Ew; [done|..];
    specialize (A ltac:(done)); simpl in Hi, Hf.
  - apply move_safe; rewrite ?Ew; done.
  - simpl. destruct (Z.eqb_spec (sg_state (sg (dev s))) APEX_SG_STATE_RUNNING) as [E|E];
      [apply move_safe; rewrite ?Ew; done|by apply off_safe].
  - destruct (alive_buf _ (current_idx (sg (dev s))) A) as (l & b & _ & _ & ->).
    { by destruct A as (? & _ & _ & _ & ?). }
    pose proof A as (_ & _ & _ & _ & Hc). simpl.
    destruct (_ =? _); apply move_safe; rewrite ?Ew; done.
  - eapply access_safe; try done; simpl; [|by eapply lock_ok_work].
    destruct A as (l & El & Ll & Hc & _). exists l. split; [done|]. split; [done|].
    split; [done|]. apply Z.mod_pos_bound. change (buf_count _) with (buf_count (sg (dev s))). lia.
  - destruct (set_state_kept _ idx APEX_SG_BUF_DMA_ACTIVE A Hi) as (eng & E & A' & Ec & Es).
    eapply access_safe; try done. rewrite Es. by eapply lock_ok_work.
  - destruct (alive_buf _ idx A Hi) as (l & b & _ & _ & ->). destruct Hf as [Ef En].
    destruct ok; [|apply move_safe; rewrite ?Ew; done].
    constructor; simpl; try done; [|by eapply lock_ok_work].
    left. by rewrite Ef.
  - set (eng0 := (sg (dev s)) <| errors ::= incr32 |>).
    assert (A0 : alive eng0) by by eapply alive_counters.
    destruct (set_state_kept eng0 idx APEX_SG_BUF_FREE A0 Hi) as (eng & E & A' & Ec & Es).
    eapply access_safe; try done; [by destruct failed..|]. rewrite Es. by eapply lock_ok_work.
  - destruct (100 <? _); [|apply move_safe; rewrite ?Ew; done].
    eapply access_safe; try done. by apply lock_ok_off.
  - destruct (completions s) as [|n] eqn:En; [done|].
    destruct Hf as [[_ ?]|[Ef [= ->]]]; [done|].
    constructor; simpl; try done. by eapply lock_ok_work.
  - constructor; simpl; try done; [by split; [apply Hf|]|by eapply lock_ok_work].
  - destruct (_ && _); [|apply move_safe; rewrite ?Ew; done].
    eapply access_safe; try done. by apply lock_ok_off.
Qed.

Lemma complete_safe data now s : race_inv s -> safe (complete_step data now s).
Proof.
  intros I. pose proof I as [A Hi Hf Hl Hm]. unfold complete_step.
  destruct (inflight s) as [|idx rest] eqn:Ef; [done|].
  destruct (work_at s) as [| | | |?|?|?|? ?| |j| |] eqn:Ew; simpl in Hf; try by destruct Hf.
  destruct Hf as [[[= -> ->] En]|[? _]]; [|done]. simpl in Hi. specialize (A ltac:(done)).
  destruct (complete_kept _ j data now A Hi) as (eng & -> & A' & Ec & Es).
  constructor; simpl; rewrite ?Ew, ?Ec, ?Es, ?En; simpl; try done. by right.
Qed.

Lemma stop_safe s : race_inv s -> safe (stop_step s).
Proof.
  intros I. pose proof I as [A Hi Hf Hl Hm]. unfold stop_step.
  destruct (lock_at s) as [|e|e|e|e|] eqn:El; [done|..]; simpl in Hl.
  - constructor; simpl; try done. by destruct (_ =? _).
  - constructor; simpl; try done.
  - destruct (work_at s) eqn:Ew; try done; constructor; simpl; rewrite ?Ew; done.
  - constructor; simpl; rewrite ?send_stream_sg, ?Hl; try done. by rewrite Hl in Hf.
  - constructor; simpl; rewrite ?Hl; try done. by rewrite Hl in Hf.
Qed.

Lemma start_busy e c d :
  sg_state (sg d) <> APEX_SG_STATE_IDLE -> snd (apex_sg_engine_start e c d) = d.
Proof.
  intros Hs. unfold apex_sg_engine_start. rewrite (proj2 (Z.eqb_neq _ _) Hs).
  by repeat case_match.
Qed.

Lemma start_refused e c d : sg_state (sg d) <> APEX_SG_STATE_IDLE -> cfg_ok c = true ->
  fst (apex_sg_engine_start e c d) = - EBUSY.
Proof.
  intros Hs Hc. destruct (apex_sg_engine_start e c d) as [r d'] eqn:E.
  pose proof (start_error e c d r d' E) as H.
  unfold apex_sg_engine_start in E. rewrite (proj2 (Z.eqb_neq _ _) Hs) in E. cbn [negb] in E.
  repeat (case_match; simplify_eq/=; try done);
    (destruct H as [[[_ H]|[[? _]|?]] _]; [done|congruence|done..]).
Qed.

Lemma start_safe e c s : race_inv s -> safe (start_step e c s).
Proof.
  intros I. pose proof I as [A Hi Hf Hl Hm]. unfold start_step.
  destruct (lock_at s) eqn:El; try done. simpl in Hl.
  destruct (apex_sg_engine_start e c (dev s)) as [r d] eqn:E.
  destruct (Z.eqb_spec r 0) as [->|Hr].
  - destruct (start_alive _ _ _ _ E) as (A' & Es & Es'). rewrite (Hl Es) in Hf.
    constructor; simpl; rewrite ?El; simpl; try done; [by split; [apply Hf|]|].
    by rewrite Es'.
  - destruct (start_error _ _ _ _ _ E Hr) as (_ & Es & _).
    destruct (decide (sg_state (sg (dev s)) = APEX_SG_STATE_IDLE)) as [Hi'|Hi'].
    + rewrite (Hl Hi') in *. constructor; simpl; rewrite ?El, ?(Hl Hi'); try done.
    + pose proof (start_busy e c (dev s) Hi') as Ed. rewrite E in Ed. simpl in Ed. subst d.
      constructor; simpl; rewrite ?El; done.
Qed.

Lemma step_safe a s : race_inv s -> allowed false false a = true -> safe (step a s).
Proof.
  intros I Ha. destruct a; simpl in Ha |- *; try done.
  - by apply worker_safe.
  - by apply complete_safe.
  - by apply stop_safe.
  - by apply start_safe.
  - destruct I as [? ? ? Hl ?]. destruct (lock_at s) eqn:El; done.
Qed.

Lemma race_inv_run d0 s : rtc (sg_step false false) (sg_boot d0) s -> race_inv s.
Proof.
  apply (rtc_ind_r (R := sg_step false false) race_inv (sg_boot d0)).
  - by constructor.
  - intros s1 s2 _ (a & Ha & E) I. pose proof (step_safe a s1 I Ha) as H. by rewrite E in H.
Qed.

(** ** How long stop may wait *)

Definition worker_left (s : sys) : nat :=
  match work_at s with
  | WOff => 0 | WTest => 1 | WQueued | WBatch | WGiveUp | WSkip _ => 2 | WReinit => 3
  | WFree _ _ => 4 | WWait _ => 5 + length (inflight s) | WSubmit _ => 7 | WMark _ => 8 | WPick => 9
  end.
Definition stop_left (s : sys) : nat :=
  match lock_at s with
  | LStopCancel _ => 3 + worker_left s | LStopSend _ => 2 | LStopFree => 1 | _ => 0
  end.

Definition stopping (s : sys) : Prop :=
  match lock_at s with LStopCancel _ | LStopSend _ | LStopFree => True | _ => False end.

Lemma worker_left_step ok s s' : race_inv s -> sg_state (sg (dev s)) <> APEX_SG_STATE_RUNNING ->
  worker_step ok s = Next s' -> (worker_left s' < worker_left s)%nat /\ lock_at s' = lock_at s.
Proof.
  intros [A Hi Hf Hl Hm] Hs E. unfold worker_step, access in E. unfold worker_left.
  apply Z.eqb_neq in Hs. rewrite Hs in E.
  destruct (work_at s) as [| | | |idx|idx|idx|idx failed| |idx| |] eqn:Ew; try done;
    repeat case_match; simplify_eq/=; try (split; [lia|done]).
  destruct Hf as [-> _]. simpl. split; [lia|done].
Qed.

Lemma complete_left data now s s' : race_inv s -> complete_step data now s = Next s' ->
  (worker_left s' < worker_left s)%nat /\ lock_at s' = lock_at s.
Proof.
  intros [A Hi Hf Hl Hm] E. unfold complete_step in E.
  destruct (inflight s) as [|idx rest] eqn:Ei; [done|].
  destruct (_ ≫= _) as [eng|]; [|done]. injection E as <-. split; [|done].
  unfold worker_left. simpl. rewrite Ei.
  destruct (work_at s); simpl in Hf; try by destruct Hf. simpl. lia.
Qed.

Lemma step_exists a s : race_inv s -> allowed false false a = true -> step a s <> Blocked ->
  exists s', sg_step false false s s'.
Proof.
  intros I Ha Hb. pose proof (step_safe a s I Ha) as H.
  destruct (step a s) as [| |s'] eqn:E; [done..|]. by exists s', a.
Qed.

Lemma worker_moves s : work_at s <> WOff -> (forall idx, work_at s <> WWait idx) ->
  worker_step true s <> Blocked.
Proof.
  unfold worker_step, access. intros Ho Hw.
  destruct (work_at s) as [| | | |?|?|?|? ?| |idx| |]; try done; try by repeat case_match.
  by destruct (Hw idx).
Qed.

Lemma stopping_moves s : race_inv s -> stopping s -> exists s', sg_step false false s s'.
Proof.
  intros I Hs. pose proof I as [A Hi Hf Hl Hm]. unfold stopping in Hs.
  destruct (lock_at s) as [|e|e|e|e|] eqn:El; try done.
  2, 3: by apply (step_exists ALocked); [..|simpl; unfold stop_step; rewrite El].
  assert (Hk : (work_at s = WOff \/ exists idx, work_at s = WWait idx) \/
    (work_at s <> WOff /\ forall idx, work_at s <> WWait idx))
    by (destruct (work_at s); eauto; right; split; done).
  destruct Hk as [[Ew|[idx Ew]]|[Ho Hw]].
  - apply (step_exists ALocked); [done..|]. simpl. unfold stop_step. by rewrite El, Ew.
  - rewrite Ew in Hf. destruct Hf as [[Ei En]|[Ei En]].
    + apply (step_exists (AComplete [] 0)); [done..|]. simpl. unfold complete_step. rewrite Ei.
      by destruct (_ ≫= _).
    + apply (step_exists (AWork true)); [done..|]. simpl. unfold worker_step. by rewrite Ew, En.
  - apply (step_exists (AWork true)); [done..|]. by apply worker_moves.
Qed.

(** with the worker gone, only the owner of sg_lock moves *)
Lemma past_cancel a s s' : race_inv s -> work_at s = WOff -> lock_at s <> LFree ->
  allowed false false a = true -> step a s = Next s' -> a = ALocked.
Proof.
  intros [A Hi Hf Hl Hm] Hw Hk Ha E. rewrite Hw in Hf. destruct Hf as [Ei _].
  destruct a; simpl in Ha, E; try done.
  - unfold worker_step in E. by rewrite Hw in E.
  - unfold complete_step in E. by rewrite Ei in E.
  - unfold start_step in E. by destruct (lock_at s).
  - by destruct (lock_at s).
Qed.

Lemma stopping_left a s s' : race_inv s -> stopping s -> allowed false false a = true ->
  step a s = Next s' -> (stop_left s' < stop_left s)%nat.
Proof.
  intros I Hs Ha E. pose proof I as [A Hi Hf Hl Hm]. unfold stopping in Hs.
  destruct (lock_at s) as [|e|e|e|e|] eqn:El; try done; simpl in Hl.
  - assert (Hw : (worker_left s' < worker_left s)%nat /\ lock_at s' = lock_at s ->
      (stop_left s' < stop_left s)%nat).
    { intros [Hw El']. unfold stop_left. rewrite El', El. lia. }
    destruct a; simpl in Ha, E; try done.
    + by apply Hw, (worker_left_step ok).
    + by apply Hw, (complete_left data now).
    + unfold stop_step in E. rewrite El in E. unfold stop_left. rewrite El.
      destruct (work_at s); simplify_eq/=; lia.
    + unfold start_step in E. by rewrite El in E.
    + by rewrite El in E.
  - assert (a = ALocked) as -> by (eapply past_cancel; [..|exact E]; congruence || done).
    simpl in E. unfold stop_step in E. unfold stop_left. rewrite El in E |- *. simplify_eq/=. lia.
  - assert (a = ALocked) as -> by (eapply past_cancel; [..|exact E]; congruence || done).
    simpl in E. unfold stop_step in E. unfold stop_left. rewrite El in E |- *. simplify_eq/=. lia.
Qed.

(** ** Properties *)

(** C34: stop and the worker keep off each other. From an idle engine, in any
    interleaving of start, stop, the worker and the controller in which no
    wait of the worker times out, no access misses the buffers; at most one
    transfer is in flight, into a buffer that is allocated and that the worker
    waits for; and when stop frees the buffers the worker has left and nothing
    is in flight. *)
Theorem sg_stop_safe (d0 : bridge) (s : sys)
    (Hr : rtc (sg_step false false) (sg_boot d0) s) :
  (forall a, allowed false false a = true -> step a s <> Fault) /\
  (length (inflight s) <= 1)%nat /\
  (forall idx, idx ∈ inflight s -> work_at s = WWait idx /\ 0 <= idx /\
     exists l, bufs (sg (dev s)) = Some l /\ is_Some (l !! Z.to_nat idx)) /\
  (lock_at s = LStopFree -> work_at s = WOff /\ inflight s = []).
Proof.
  apply race_inv_run in Hr as I. pose proof I as [A Hi Hf Hl Hm].
  split; [intros a Ha E; pose proof (step_safe a s I Ha) as H; by rewrite E in H|].
  split; [destruct (work_at s); simpl in Hf; try (by destruct Hf as [-> _]; simpl; lia);
          destruct Hf as [[-> _]|[-> _]]; simpl; lia|].
  split.
  - intros idx Hin. destruct (inflight s) as [|j r] eqn:Ef; [by apply not_elem_of_nil in Hin|].
    destruct (work_at s) as [| | | |?|?|?|? ?| |w| |] eqn:Ew; simpl in Hf; try by destruct Hf.
    destruct Hf as [[[= -> ->] _]|[? _]]; [|done]. apply list_elem_of_singleton in Hin. subst idx.
    simpl in Hi. destruct (alive_buf _ w (A ltac:(done)) Hi) as (l & b & El & Eb & _).
    split; [done|]. split; [lia|]. exists l. by rewrite Eb.
  - intros El. rewrite El in Hl. simpl in Hl. rewrite Hl in Hf. by destruct Hf.
Qed.

(** C35: stop returns, given that the controller answers. Once stop has set the
    state, in any such interleaving, some access is possible, and every access
    brings it nearer to its end, which is at most twelve accesses away: the
    worker does not start another transfer it could have to wait for. *)
Theorem sg_stop_returns (d0 : bridge) (s : sys)
    (Hr : rtc (sg_step false false) (sg_boot d0) s) (Hs : stopping s) :
  (stop_left s <= 12)%nat /\ (exists s', sg_step false false s s') /\
  forall s', sg_step false false s s' -> (stop_left s' < stop_left s)%nat.
Proof.
  apply race_inv_run in Hr as I. pose proof I as [A Hi Hf Hl Hm].
  split; [|split].
  - unfold stop_left, worker_left. destruct (lock_at s); try lia.
    destruct (work_at s); simpl in Hf; try lia.
    destruct Hf as [[-> _]|[-> _]]; simpl; lia.
  - by apply stopping_moves.
  - intros s' (a & Ha & E). by apply (stopping_left a).
Qed.
Lemma steps_app l1 l2 s :
  steps (l1 ++ l2) s = match steps l1 s with Next s => steps l2 s | r => r end.
Proof. revert s. induction l1 as [|a l1 IH]; intros s; simpl; [done|]. by destruct (step a s). Qed.
Lemma steps_fault a s : steps [a] s = Fault -> step a s = Fault.
Proof. simpl. by destruct (step a s). Qed.
End Race.

(** ** Concrete runs *)

Definition demo_config_of (timeout cont : Z) : sg_config := Build_sg_config 2 4096 timeout 0 cont.

(** a start, and the worker up to its wait *)
Definition until_wait (timeout cont : Z) : list act :=
  AStart demo_env (demo_config_of timeout cont) :: replicate 5 (AWork true).
Definition stop_all : list act := AStop demo_env :: replicate 5 ALocked.

Definition booted : sys := sg_boot demo_bridge.

(** what the examples look at: whether sg_lock is free and the buffers are
    gone, the state of the engine, the transfers, the worker and the rest *)
Definition lock_free (s : sys (K := list_kfifo)) : bool :=
  match lock_at s with LFree => true | _ => false end.
Definition no_bufs (s : sys (K := list_kfifo)) : bool :=
  match bufs (sg (dev s)) with None => true | Some _ => false end.
Definition seen (o : outcome) :=
  match o with
  | Next s => Some (lock_free s, no_bufs s, sg_state (sg (dev s)), inflight s,
                    (work_at s, completions s, timeout_ms (sg (dev s)), stop_left s))
  | _ => None
  end.

Lemma seen_run late maps l s r :
  seen (steps l s) = Some r -> forallb (allowed late maps) l = true ->
  exists s', rtc (sg_step late maps) s s' /\ seen (Next s') = Some r /\ steps l s = Next s'.
Proof.
  intros E F. destruct (steps l s) as [| |s'] eqn:Es; try done. exists s'. split; [|done].
  apply (steps_run late maps l); [|done]. apply Forall_forall. intros a Ha.
  rewrite forallb_forall in F. by apply F, list_elem_of_In.
Qed.

(** stop is called while a transfer is in flight *)
Definition stop_in_wait (timeout : Z) : list act :=
  until_wait timeout 1 ++ [AStop demo_env; ALocked; ALocked].

Lemma stop_in_wait_seen timeout : timeout = 0 \/ timeout = 100 ->
  seen (steps (stop_in_wait timeout) booted) =
    Some (false, false, APEX_SG_STATE_IDLE, [0], (WWait 0, 0%nat, timeout, 9%nat)).
Proof. intros [-> | ->]; vm_compute; reflexivity. Qed.

Lemma sg_stop_safe_witness : exists s,
  rtc (sg_step false false) booted s /\ inflight s = [0] /\
  exists l, bufs (sg (dev s)) = Some l /\ is_Some (l !! 0%nat).
Proof.
  destruct (seen_run false false _ _ _ (stop_in_wait_seen 100 ltac:(by right)) eq_refl)
    as (s & Hr & E & _).
  exists s. split; [exact Hr|].
  assert (Ei : inflight s = [0]) by (by injection E).
  split; [exact Ei|]. destruct (sg_stop_safe demo_bridge s Hr) as (_ & _ & Hf & _).
  destruct (Hf 0) as (_ & _ & l & El & Hl); [rewrite Ei; by apply list_elem_of_singleton|].
  exists l. split; [exact El|exact Hl].
Defined.

Lemma sg_stop_returns_witness : exists s s',
  rtc (sg_step false false) booted s /\ sg_step false false s s' /\ (stop_left s' < 9)%nat.
Proof.
  destruct (seen_run false false _ _ _ (stop_in_wait_seen 100 ltac:(by right)) eq_refl)
    as (s & Hr & E & _).
  assert (El : stop_left s = 9%nat) by (by injection E).
  assert (Hs : stopping s).
  { unfold stopping. unfold stop_left in El. by destruct (lock_at s). }
  destruct (sg_stop_returns demo_bridge s Hr Hs) as (_ & [s' Hs'] & Hlt).
  exists s, s'. split; [exact Hr|]. split; [exact Hs'|]. rewrite <- El. by apply Hlt.
Defined.

(** *** What the hypothesis on timeouts is for *)

(** A transfer that timed out is not cancelled.  After stop has freed the
    buffers the controller may still finish it: it writes into freed memory,
    and the callback into a null array. *)
Definition late_run : list act :=
  until_wait 100 1 ++ ATimeout :: [AStop demo_env; ALocked; ALocked] ++
  replicate 4 (AWork true) ++ replicate 3 ALocked.

Lemma late_completion_faults : exists s,
  rtc (sg_step true false) booted s /\ lock_free s = true /\ inflight s = [0] /\
  forall data now, step (AComplete data now) s = Fault.
Proof.
  assert (H : seen (steps late_run booted) =
    Some (true, true, APEX_SG_STATE_IDLE, [0], (WOff, 0%nat, 100, 0%nat)))
    by (vm_compute; reflexivity).
  destruct (seen_run true false _ _ _ H eq_refl) as (s & Hr & E & _). exists s.
  split; [done|]. injection E as Hl Hb _ Hi _ _ _ _. split; [done|]. split; [done|].
  intros data now. simpl. unfold complete_step. rewrite Hi. unfold no_bufs in Hb.
  unfold buf_update. destruct (bufs (sg (dev s))); done.
Qed.

(** With timeout_ms 0 the worker waits without limit, and stop for the worker,
    with sg_lock held: if the controller does not answer nothing moves. *)
Lemma stop_waits_for_controller : exists s,
  rtc (sg_step false false) booted s /\ lock_free s = false /\
  forall a s', step a s = Next s' -> exists data now, a = AComplete data now.
Proof.
  destruct (seen_run false false _ _ _ (stop_in_wait_seen 0 ltac:(by left)) eq_refl)
    as (s & Hr & E & _).
  exists s. split; [done|]. injection E as Hl Hb _ Hi Hw Hc Ht Hn. split; [done|].
  apply race_inv_run in Hr as [_ _ _ _ Hm].
  unfold lock_free in Hl. unfold stop_left in Hn.
  destruct (lock_at s) as [|e|e|e|e|] eqn:El; try done.
  intros a s' Ea. destruct a; simpl in Ea; eauto.
  - unfold worker_step in Ea. by rewrite Hw, Hc in Ea.
  - unfold timeout_step in Ea. by rewrite Hw, Hc, Ht in Ea.
  - unfold stop_step in Ea. by rewrite El, Hw in Ea.
  - unfold start_step in Ea. by rewrite El in Ea.
  - by rewrite El in Ea.
  - unfold map_step in Ea. by rewrite El in Ea.
  - unfold map_pages_step in Ea. by rewrite Hm in Ea.
Qed.

(** *** Accesses outside the lock *)

(** The worker gives up after stop has set the state: the engine is left in the
    error state without buffers.  Every start is refused from then on, and
    mmap, which takes the state for a running engine's, reads the null array. *)
Definition failing_round : list act :=
  replicate 3 (AWork true) ++ AWork false :: replicate 2 (AWork true).
Definition error_run : list act :=
  [AStart demo_env (demo_config_of 100 1); AWork true] ++ concat (replicate 100 failing_round) ++
  take 5 failing_round ++ [AStop demo_env; ALocked; ALocked; AWork true] ++ replicate 3 ALocked.

Lemma error_after_stop : exists s,
  rtc (sg_step false false) booted s /\ lock_free s = true /\
  (forall e c, cfg_ok c = true -> fst (apex_sg_engine_start e c (dev s)) = - EBUSY) /\
  steps [AMap 4096 0; AMapPages] s = Fault.
Proof.
  assert (H : seen (steps error_run booted) =
    Some (true, true, APEX_SG_STATE_ERROR, [], (WOff, 0%nat, 100, 0%nat)))
    by (vm_compute; reflexivity).
  destruct (seen_run false false _ _ _ H ltac:(vm_compute; reflexivity)) as (s & Hr & E & Es).
  exists s. split; [done|]. injection E as Hl Hb Hst Hi _ _ _ _. split; [done|]. split.
  - intros e c Hc. apply start_refused; [by rewrite Hst|done].
  - assert (F : steps (error_run ++ [AMap 4096 0; AMapPages]) booted = Fault)
      by (vm_compute; reflexivity).
    by rewrite steps_app, Es in F.
Qed.

(** apex_bridge_mmap reads the buffer array after it has released sg_lock: a
    stop in between leaves it the null one. *)
Definition map_run : list act :=
  until_wait 100 1 ++ AMap 4096 0 :: [AStop demo_env; ALocked; ALocked; AComplete [1] 10] ++
  replicate 4 (AWork true) ++ replicate 3 ALocked.

Lemma map_races_stop : exists s,
  rtc (sg_step false true) booted s /\ step AMapPages s = Fault.
Proof.
  assert (H : seen (steps map_run booted) =
    Some (true, true, APEX_SG_STATE_IDLE, [], (WOff, 0%nat, 100, 0%nat)))
    by (vm_compute; reflexivity).
  destruct (seen_run false true _ _ _ H eq_refl) as (s & Hr & E & Es). exists s.
  split; [done|].
  assert (F : steps (map_run ++ [AMapPages]) booted = Fault) by (vm_compute; reflexivity).
  rewrite steps_app, Es in F. by apply steps_fault.
Qed.
