(* ===== verification/ApexBridge.v ===== *)
(** * The character device of the driver (apex_bridge.c)

    open, release, read, write, ioctl, poll and the probe, remove and runtime
    power-management callbacks.  User memory is the list of its mapped bytes;
    one call is one definition, run with the environment of that call. *)

From S2P Require Import Prelude Crc Frame Kernel ApexDev SgEngine.

#[local] Existing Instance apex_frame_crc.

(** ** ioctl numbers *)

Section Numbers.
Context {A : IoctlAbi}.

Definition APEX_IOC_MAGIC : Z := 65.        (* 'A' *)
Definition APEX_IOC_SDR_TUNE : Z := IOC IOC_WRITE APEX_IOC_MAGIC 1 8.
Definition APEX_IOC_SDR_STREAM : Z := IOC IOC_WRITE APEX_IOC_MAGIC 2 1.
Definition APEX_IOC_ANT_SELECT : Z := IOC IOC_WRITE APEX_IOC_MAGIC 3 1.
Definition APEX_IOC_CC1101_CFG : Z := IOC IOC_WRITE APEX_IOC_MAGIC 4 2.
Definition APEX_IOC_NFC_TRANSACT : Z := IOC IOC_WRITE APEX_IOC_MAGIC 5 4.
Definition APEX_IOC_GET_TELEMETRY : Z := IOC IOC_READ APEX_IOC_MAGIC 6 16.
Definition APEX_IOC_MCU_RESET : Z := IOC IOC_WRITE APEX_IOC_MAGIC 7 1.
Definition APEX_IOC_GET_STATUS : Z := IOC IOC_READ APEX_IOC_MAGIC 8 4.
Definition APEX_IOC_SG_START : Z := IOC IOC_WRITE APEX_IOC_MAGIC 9 20.
Definition APEX_IOC_SG_STOP : Z := IOC IOC_NONE APEX_IOC_MAGIC 10 0.
Definition APEX_IOC_SG_GET_STATUS : Z := IOC IOC_READ APEX_IOC_MAGIC 11 40.
End Numbers.

Definition APEX_ANT_TERMINATED : Z := 3.
Definition APEX_CC1101_MAX_REG_LEN : Z := 64.
Definition APEX_NFC_MAX_DATA_LEN : Z := 256.

Section Char.
Context {K : Kfifo} {A : IoctlAbi}.

(** ** open and release; [pm_ret] is what pm_runtime_get_sync returns *)

Definition apex_bridge_open (pm_ret : Z) (d : bridge) : Z * bridge :=
  if negb (open_count d =? 0) then (- EBUSY, d) else
  let d := klogged KPmGetSync (d <| open_count := 1 |>) in
  if pm_ret <? 0 then (pm_ret, klogged KPmPutNoidle (d <| open_count := 0 |>)) else (0, d).

Definition apex_bridge_release (d : bridge) : bridge :=
  let d := klogged KPmPutAutosuspend d in
  d <| open_count := 0 |> <| last_telem := replicate 16 0 |>.

(** ** read: [None] when the caller sleeps, to be called again once the FIFO
    is not empty; [signal] when the sleep was interrupted; [room] the bytes
    mapped at the user's buffer *)

Definition apex_bridge_read (e : env) (nonblock signal : bool) (room count : nat)
    (d : bridge) : option (Z * list Z) * bridge :=
  if kfifo_is_empty (rx_fifo d) && nonblock then (Some (- EAGAIN, []), d) else
  if kfifo_is_empty (rx_fifo d) && signal then (Some (- EINTR_RESTART, []), d) else
  if kfifo_is_empty (rx_fifo d) then (None, d) else
  let to_copy := Nat.min count (length (kfifo_data (rx_fifo d))) in
  if (to_copy =? 0)%nat then (Some (0, []), d) else
  match kmalloc e 0 to_copy with
  | None => (Some (- ENOMEM, []), d)
  | Some _ =>
      let (copied, f) := kfifo_out to_copy (rx_fifo d) in
      let d := d <| rx_fifo := f |> in
      if (room <? length copied)%nat then (Some (- EFAULT, []), d)
      else (Some (Z.of_nat (length copied), copied), d)
  end.

(** ** write: the first byte is the command, the rest the payload *)

Definition apex_bridge_write (e : env) (user : list Z) (count : Z) (d : bridge) : Z * bridge :=
  if count <? 1 then (- EINVAL, d) else
  if APEX_SPI_MAX_PAYLOAD <? count then (- EMSGSIZE, d) else
  match kmalloc e 0 (Z.to_nat count) with
  | None => (- ENOMEM, d)
  | Some _ =>
  match copy_from_user 0 (Z.to_nat count) user with
  | None => (- EFAULT, d)
  | Some kbuf =>
  match kmalloc e 1 4112, kmalloc e 2 4112 with
  | Some frame, Some rx_buf =>
      let (frame_len, frame) :=
        apex_build_frame (byte_at kbuf 0) (Some (drop 1 kbuf)) (u16 (count - 1)) frame in
      if frame_len <? 0 then (frame_len, d) else
      let '(ret, rx_buf, d) := apex_spi_xfer e frame frame_len rx_buf d in
      let d :=
        if 0 <? ret then
          match apex_validate_frame rx_buf ret with
          | inr (_, resp_len, resp) => if 0 <? resp_len then fifo_push resp d else d
          | inl _ => d
          end
        else d in
      (count, d)
  | _, _ => (- ENOMEM, d)
  end end end.

(** ** ioctl *)

(** the tail of a command that sends one frame *)
Definition send_frame (e : env) (cmd : Z) (payload frame rx_buf : list Z) (d : bridge)
    : Z * bridge :=
  let (frame_len, frame) :=
    apex_build_frame cmd (Some payload) (Z.of_nat (length payload)) frame in
  if frame_len <? 0 then (frame_len, d) else
  let '(ret, _, d) := apex_spi_xfer e frame frame_len rx_buf d in (ret, d).

(** result, bytes written to the user's argument, device *)
Definition ioctl_result : Type := Z * list Z * bridge.

Definition no_out (r : Z * bridge) : ioctl_result := (fst r, [], snd r).

Definition copy_out (room : nat) (l : list Z) (d : bridge) : ioctl_result :=
  if (room <? length l)%nat then (- EFAULT, [], d) else (0, l, d).

Definition ioctl_cc1101_cfg (e : env) (arg frame rx_buf : list Z) (d : bridge) : Z * bridge :=
  match copy_from_user 0 2 arg with
  | None => (- EFAULT, d)
  | Some cfg =>
      let reg_len := byte_at cfg 1 in
      if (reg_len =? 0) || (APEX_CC1101_MAX_REG_LEN <? reg_len) then (- EINVAL, d) else
      match kmalloc e 2 (2 + Z.to_nat reg_len) with
      | None => (- ENOMEM, d)
      | Some _ =>
          match copy_from_user 2 (Z.to_nat reg_len) arg with
          | None => (- EFAULT, d)
          | Some data =>
              send_frame e CMD_CC1101_CFG ([byte_at cfg 0; reg_len] ++ data) frame rx_buf d
          end
      end
  end.

Definition ioctl_nfc_transact (e : env) (arg frame rx_buf : list Z) (d : bridge) : Z * bridge :=
  match copy_from_user 0 4 arg with
  | None => (- EFAULT, d)
  | Some nfc =>
      let data_len := read_le16 (drop 2 nfc) in
      if APEX_NFC_MAX_DATA_LEN <? data_len then (- EINVAL, d) else
      match kmalloc e 2 (4 + Z.to_nat data_len) with
      | None => (- ENOMEM, d)
      | Some _ =>
          match (if 0 <? data_len then copy_from_user 4 (Z.to_nat data_len) arg else Some []) with
          | None => (- EFAULT, d)
          | Some data =>
              send_frame e CMD_NFC_TRANSACT
                ([byte_at nfc 0; byte_at nfc 1] ++ write_le16 data_len ++ data) frame rx_buf d
          end
      end
  end.

(** struct apex_sg_config *)
Definition sg_config_of (l : list Z) : sg_config :=
  Build_sg_config (read_le32 l) (read_le32 (drop 4 l)) (read_le32 (drop 8 l))
    (read_le32 (drop 12 l)) (byte_at l 16).

(** struct apex_sg_status, the __u64 at its 8-byte offset *)
Definition sg_status_bytes (s : sg_engine) : list Z :=
  write_le32 (sg_state s) ++ write_le32 (buf_count s) ++ write_le32 (buf_size s) ++
  write_le32 0 ++ write_le64 (total_transferred s) ++ write_le32 (overruns s) ++
  write_le32 (errors s) ++ write_le32 (frames_rx s) ++ write_le32 (frames_crc_err s).

Definition bridge_status (d : bridge) : Z :=
  let s := if test_bit APEX_FLAG_MCU_READY d then BIT 0 else 0 in
  let s := if test_bit APEX_FLAG_MCU_RESET d then Z.lor s (BIT 1) else s in
  if test_bit APEX_FLAG_SPI_ERROR d then Z.lor s (BIT 2) else s.

Definition ioctl_mcu_reset (arg : list Z) (d : bridge) : ioctl_result :=
  match copy_from_user 0 1 arg with
  | None => (- EFAULT, [], d)
  | Some r => (0, [], if byte_at r 0 =? 0 then apex_mcu_reset_release d else apex_mcu_reset_assert d)
  end.

Definition ioctl_sg_start (e : env) (arg : list Z) (d : bridge) : ioctl_result :=
  match copy_from_user 0 20 arg with
  | None => (- EFAULT, [], d)
  | Some c => no_out (apex_sg_engine_start e (sg_config_of c) d)
  end.

(** the switch; [arg] holds the mapped bytes at the argument pointer *)
Definition ioctl_switch (e : env) (cmd : Z) (arg frame rx_buf : list Z) (d : bridge)
    : ioctl_result :=
  let with_arg n f := match copy_from_user 0 n arg with
                      | None => (- EFAULT, [], d) | Some l => f l end in
  if cmd =? APEX_IOC_SDR_TUNE then
    with_arg 8%nat (fun tune => no_out (send_frame e CMD_SDR_TUNE tune frame rx_buf d))
  else if cmd =? APEX_IOC_SDR_STREAM then
    with_arg 1%nat (fun enable => no_out (send_frame e CMD_SDR_STREAM enable frame rx_buf d))
  else if cmd =? APEX_IOC_ANT_SELECT then
    with_arg 1%nat (fun ant =>
      if APEX_ANT_TERMINATED <? byte_at ant 0 then (- EINVAL, [], d)
      else no_out (send_frame e CMD_ANT_SELECT ant frame rx_buf d))
  else if cmd =? APEX_IOC_CC1101_CFG then no_out (ioctl_cc1101_cfg e arg frame rx_buf d)
  else if cmd =? APEX_IOC_NFC_TRANSACT then no_out (ioctl_nfc_transact e arg frame rx_buf d)
  else if cmd =? APEX_IOC_GET_TELEMETRY then copy_out (length arg) (last_telem d) d
  else if cmd =? APEX_IOC_MCU_RESET then ioctl_mcu_reset arg d
  else if cmd =? APEX_IOC_GET_STATUS then copy_out (length arg) (write_le32 (bridge_status d)) d
  else if cmd =? APEX_IOC_SG_START then ioctl_sg_start e arg d
  else if cmd =? APEX_IOC_SG_STOP then no_out (apex_sg_engine_stop e d)
  else if cmd =? APEX_IOC_SG_GET_STATUS then copy_out (length arg) (sg_status_bytes (sg d)) d
  else (- ENOTTY, [], d).

(** [accessible] is what access_ok answers for the argument *)
Definition apex_bridge_ioctl (e : env) (cmd : Z) (accessible : bool) (arg : list Z) (d : bridge)
    : ioctl_result :=
  if negb (IOC_TYPE cmd =? APEX_IOC_MAGIC) then (- ENOTTY, [], d) else
  if (IOC_NR cmd <? 1) || (11 <? IOC_NR cmd) then (- ENOTTY, [], d) else
  if has_bits (IOC_DIR cmd) IOC_WRITE && negb accessible then (- EFAULT, [], d) else
  if has_bits (IOC_DIR cmd) IOC_READ && negb accessible then (- EFAULT, [], d) else
  match kmalloc e 0 4112, kmalloc e 1 4112 with
  | Some frame, Some rx_buf => ioctl_switch e cmd arg frame rx_buf d
  | _, _ => (- ENOMEM, [], d)
  end.

(** ** poll *)

Record poll_mask := { EPOLLIN : bool; EPOLLERR : bool; EPOLLHUP : bool; EPOLLPRI : bool;
                      EPOLLOUT : bool }.

Definition apex_bridge_poll (d : bridge) : poll_mask := {|
  EPOLLIN := negb (kfifo_is_empty (rx_fifo d));
  EPOLLERR := test_bit APEX_FLAG_SPI_ERROR d;
  EPOLLHUP := test_bit APEX_FLAG_MCU_RESET d;
  EPOLLPRI := test_bit APEX_FLAG_LOW_BATTERY d;
  EPOLLOUT := 0 <? kfifo_avail (tx_fifo d) |}.

(** ** probe (its successful path), remove and runtime power management *)

Definition bridge_kzalloc (speed : Z) : bridge := {|
  rx_fifo := kfifo_alloc (Z.to_nat APEX_RX_FIFO_SIZE);
  tx_fifo := kfifo_alloc (Z.to_nat APEX_TX_FIFO_SIZE);
  last_telem := replicate 16 0; flags := 0; open_count := 0; spi_err_count := 0;
  brownout_count := 0; brownout_prev_flag := 0; spi_speed_hz := speed;
  sg := sg_engine_zero; klog := [] |}.

(** GPIO requests: INT_REQ in, HOST_RDY high, MCU_RESET low *)
Definition apex_gpio_init (d : bridge) : bridge :=
  set_bit APEX_FLAG_MCU_RESET
    (klogged (KGpio GPIO_MCU_RESET false) (klogged (KGpio GPIO_HOST_RDY true) d)).

Definition apex_bridge_probe (speed : Z) : bridge :=
  let d := apex_gpio_init (bridge_kzalloc speed) in
  let d := klogged KPmGetSync (apex_mcu_reset_release d) in
  apex_sg_engine_init d.

Definition apex_bridge_remove (e : env) (d : bridge) : bridge :=
  let d := klogged KPmPutSync (apex_mcu_reset_assert d) in
  snd (apex_sg_engine_stop e d).

Definition apex_bridge_runtime_idle (suspend_ret : Z) (d : bridge) : Z :=
  if open_count d =? 0 then suspend_ret else - EBUSY.


(** ** What every call keeps *)

(** the device before and after a call that takes [dl] runtime-PM references *)
Record keeps (dl : Z) (d d' : bridge) : Prop := {
  kp_err : test_bit APEX_FLAG_SPI_ERROR d = true -> test_bit APEX_FLAG_SPI_ERROR d' = true;
  kp_size : kfifo_size (rx_fifo d') = kfifo_size (rx_fifo d);
  kp_fit : (length (kfifo_data (rx_fifo d)) <= kfifo_size (rx_fifo d))%nat ->
           (length (kfifo_data (rx_fifo d')) <= kfifo_size (rx_fifo d'))%nat;
  kp_tx : tx_fifo d' = tx_fifo d;
  kp_open : open_count d' = open_count d;
  kp_telem : length (last_telem d) = 16%nat -> length (last_telem d') = 16%nat;
  kp_pm : pm_usage (klog d') = pm_usage (klog d) + dl;
}.

Lemma keeps_refl d : keeps 0 d d.
Proof. constructor; try done. lia. Qed.

Lemma keeps_trans a b d d' d'' : keeps a d d' -> keeps b d' d'' -> keeps (a + b) d d''.
Proof. intros [] []. constructor; try tauto; try congruence. lia. Qed.

Lemma keeps_trans0 d d' d'' : keeps 0 d d' -> keeps 0 d' d'' -> keeps 0 d d''.
Proof. apply (keeps_trans 0 0). Qed.

Lemma keeps_log c d : keeps (pm_delta c) d (klogged c d).
Proof.
  constructor; try done. unfold klogged. cbn. unfold update. cbn.
  rewrite pm_usage_app. unfold pm_usage at 2. cbn. lia.
Qed.

Lemma keeps_log0 c d : pm_delta c = 0 -> keeps 0 d (klogged c d).
Proof. intros <-. apply keeps_log. Qed.

Lemma keeps_set_bit n d : 0 <= n -> keeps 0 d (set_bit n d).
Proof.
  intros Hn. constructor; try done; [|change (klog (set_bit n d)) with (klog d); lia].
  unfold test_bit, set_bit. cbn. unfold update. cbn. intros H.
  by rewrite Z.setbit_eqb, H, orb_true_r by done.
Qed.

Lemma keeps_clear_bit n d : 0 <= n -> n <> APEX_FLAG_SPI_ERROR -> keeps 0 d (clear_bit n d).
Proof.
  intros Hn Hne. constructor; try done; [|change (klog (clear_bit n d)) with (klog d); lia].
  unfold test_bit, clear_bit. cbn. unfold update. cbn. intros H.
  rewrite Z.clearbit_eqb, H by done. by rewrite (proj2 (Z.eqb_neq _ _) Hne).
Qed.

(** fields a call may change freely *)
Lemma keeps_free d d' :
  flags d' = flags d -> rx_fifo d' = rx_fifo d -> tx_fifo d' = tx_fifo d ->
  open_count d' = open_count d -> last_telem d' = last_telem d -> klog d' = klog d ->
  keeps 0 d d'.
Proof. intros Ef Er Et Eo El Ek. constructor; unfold test_bit; rewrite ?Ef, ?Er, ?El, ?Ek; done || lia. Qed.

Lemma keeps_push l d : keeps 0 d (fifo_push l d).
Proof.
  unfold fifo_push. apply (keeps_trans0 _ (d <| rx_fifo ::= fun f => snd (kfifo_in l f) |>));
    [|by apply keeps_log0].
  constructor; try done; [apply kfifo_in_size| |by rewrite Z.add_0_r].
  intros H. unfold update. cbn. rewrite kfifo_in_size. by apply kfifo_in_bound.
Qed.
End Char.

Create HintDb keeps.
#[export] Hint Resolve keeps_refl keeps_log0 keeps_push : keeps.
#[export] Hint Extern 1 (keeps 0 _ (set_bit _ _)) => apply keeps_set_bit; done : keeps.
#[export] Hint Extern 1 (keeps 0 _ (clear_bit _ _)) => apply keeps_clear_bit; done : keeps.

(** peel the outermost change *)
Ltac keeps_step :=
  match goal with
  | |- keeps 0 ?d ?d => apply keeps_refl
  | |- keeps 0 ?d (klogged ?c ?x) => apply (keeps_trans0 _ x); [|by apply keeps_log0]
  | |- keeps 0 ?d (set_bit ?n ?x) => apply (keeps_trans0 _ x); [|by apply keeps_set_bit]
  | |- keeps 0 ?d (clear_bit ?n ?x) => apply (keeps_trans0 _ x); [|by apply keeps_clear_bit]
  | |- keeps 0 ?d (fifo_push ?l ?x) => apply (keeps_trans0 _ x); [|by apply keeps_push]
  | |- keeps 0 ?d (@update _ _ _ _ ?f ?x) => apply (keeps_trans0 _ x); [|by apply keeps_free]
  end.

Section Keeps.
Context {K : Kfifo} {A : IoctlAbi}.

Lemma keeps_xfer e tx n rx d : keeps 0 d (snd (apex_spi_xfer e tx n rx d)).
Proof.
  unfold apex_spi_xfer. destruct (_ <? n); [apply keeps_refl|].
  destruct (spi_sync e _) as [ret rx']. destruct (ret <? 0); cbn [snd]; repeat keeps_step.
Qed.

Lemma keeps_send_stream en e d : keeps 0 d (send_stream en e d).
Proof.
  unfold send_stream. destruct (kmalloc e 2 4112) as [frame|]; [|apply keeps_refl].
  destruct (kmalloc e 3 4112) as [rx|]; [|apply keeps_refl].
  destruct (apex_build_frame _ _ _ _) as [n fr].
  destruct (0 <? n); [apply keeps_xfer|apply keeps_refl].
Qed.

(** a transfer with buffers of the sizes the driver uses *)
Lemma apex_spi_xfer_spec e tx n rx d :
  0 <= n <= 4112 -> (Z.to_nat n <= length tx)%nat -> length rx = 4112%nat ->
  apex_spi_xfer e tx n rx d =
    let t := take (Z.to_nat n) tx in
    let (ret, r) := spi_sync e t in
    let d := klogged (KSpi t) d in
    (if ret <? 0 then ret else n, r ++ drop (Z.to_nat n) rx,
     if ret <? 0 then set_bit APEX_FLAG_SPI_ERROR (d <| spi_err_count ::= fun c => s32 (c + 1) |>)
     else d).
Proof.
  intros Hn Ht Hr. unfold apex_spi_xfer, APEX_SPI_FRAME_SIZE_MAX.
  replace (4112 <? n) with false by lia. cbv zeta.
  pose proof (spi_sync_length e (take (Z.to_nat n) tx)) as Hl. rewrite length_take in Hl.
  destruct (spi_sync e _) as [ret r]. cbn [snd] in Hl. unfold overwrite.
  replace (length r) with (Z.to_nat n) by lia. rewrite Hr.
  destruct (ret <? 0); [done|]. f_equal. f_equal. lia.
Qed.

(** the two frames the work item allocates, and what it gets back *)
Lemma rx_reply_bytes e tx rx :
  bytes rx -> bytes (snd (spi_sync e tx) ++ rx).
Proof. intros. apply bytes_app. split; [apply spi_sync_bytes|done]. Qed.

Lemma build_nop buf : length buf = 4112%nat ->
  apex_build_frame CMD_NOP None 0 buf = (20, encode_frame CMD_NOP [] ++ drop 20 buf).
Proof. intros H. by apply (apex_build_frame_gen CMD_NOP None 0 buf); [lia|rewrite H; lia|]. Qed.

Lemma keeps_rx_telemetry p d : length p = 16%nat -> keeps 0 d (rx_telemetry p d).
Proof.
  intros Hp. unfold rx_telemetry. cbv zeta. apply (keeps_trans0 _ (d <| last_telem := p |>)).
  { constructor; try done. cbn. by rewrite Z.add_0_r. }
  destruct (negb _); [destruct (_ =? 0)|]; repeat keeps_step.
Qed.

Lemma keeps_rx_dispatch cmd n p d : n = Z.of_nat (length p) -> keeps 0 d (rx_dispatch cmd n p d).
Proof.
  intros ->. unfold rx_dispatch. destruct (cmd =? CMD_TELEMETRY); [|repeat keeps_step].
  destruct (Z.eqb_spec (Z.of_nat (length p)) 16); [|apply keeps_refl].
  keeps_step. apply keeps_rx_telemetry. lia.
Qed.

Lemma keeps_rx_work e d : keeps 0 d (apex_rx_work_handler e d).
Proof.
  unfold apex_rx_work_handler. cbv zeta. apply (keeps_trans 1 (-1) _ (klogged KPmGetSync d));
    [exact (keeps_log KPmGetSync d)|].
  set (d1 := klogged KPmGetSync d). change (-1) with (0 + -1).
  eapply (keeps_trans 0 (-1)); [|exact (keeps_log KPmPutAutosuspend _)].
  destruct (kmalloc e 0 4112) as [rx|] eqn:Er; [|apply keeps_refl].
  destruct (kmalloc e 1 4112) as [tx|] eqn:Et; [|apply keeps_refl].
  apply kmalloc_bytes in Er as Br. apply kmalloc_length in Er, Et.
  rewrite build_nop by done. change (20 <? 0) with false. cbv iota.
  assert (Z.to_nat APEX_SPI_FRAME_SIZE_MAX <= length (encode_frame CMD_NOP [] ++ drop 20 tx))%nat as Hl.
  { rewrite length_app, encode_frame_length, length_drop, Et. vm_compute. lia. }
  pose proof (spi_sync_length e (take (Z.to_nat APEX_SPI_FRAME_SIZE_MAX)
    (encode_frame CMD_NOP [] ++ drop 20 tx))) as Lr. rewrite length_take, Nat.min_l in Lr by done.
  pose proof (keeps_xfer e (encode_frame CMD_NOP [] ++ drop 20 tx) APEX_SPI_FRAME_SIZE_MAX rx d1) as Hx.
  rewrite apex_spi_xfer_spec in * by done. cbv zeta in *.
  set (t := take _ _) in *. pose proof (rx_reply_bytes e t (drop (Z.to_nat APEX_SPI_FRAME_SIZE_MAX) rx)
    (bytes_drop _ _ Br)) as Hb.
  destruct (spi_sync e t) as [ret r]. cbn [snd] in *.
  destruct (Z.ltb_spec ret 0); [by replace (ret <? 0) with true by lia|].
  change (APEX_SPI_FRAME_SIZE_MAX <? 0) with false. cbv iota.
  destruct (apex_validate_frame _ _) as [err|[[cmd n] p]] eqn:Ev; [exact Hx|].
  apply (keeps_trans0 _ _ _ Hx), keeps_rx_dispatch.
  apply apex_validate_sound in Ev as [? _]; [done|done|].
  rewrite length_app, Lr. unfold APEX_SPI_FRAME_SIZE_MAX. lia.
Qed.

Lemma keeps_read e nb sg room n d : keeps 0 d (snd (apex_bridge_read e nb sg room n d)).
Proof.
  unfold apex_bridge_read. cbv zeta. destruct (_ && nb); [apply keeps_refl|].
  destruct (_ && sg); [apply keeps_refl|]. destruct (kfifo_is_empty _); [apply keeps_refl|].
  destruct (_ =? 0)%nat; [apply keeps_refl|]. destruct (kmalloc e 0 _); [|apply keeps_refl].
  set (m := Nat.min _ _). pose proof (kfifo_out_size m (rx_fifo d)) as Hs.
  pose proof (kfifo_out_data m (rx_fifo d)) as Hd.
  destruct (kfifo_out m (rx_fifo d)) as [out f]. cbn [snd] in *.
  assert (keeps 0 d (d <| rx_fifo := f |>)).
  { constructor; try done; [|cbn; by rewrite Z.add_0_r].
    intros H. cbn. rewrite Hs, Hd, length_drop. lia. }
  by destruct (room <? _)%nat.
Qed.

Lemma keeps_write e u n d : keeps 0 d (snd (apex_bridge_write e u n d)).
Proof.
  unfold apex_bridge_write. destruct (n <? 1); [apply keeps_refl|].
  destruct (_ <? n); [apply keeps_refl|]. destruct (kmalloc e 0 _); [|apply keeps_refl].
  destruct (copy_from_user _ _ _) as [kbuf|]; [|apply keeps_refl].
  destruct (kmalloc e 1 4112) as [fr|]; [|apply keeps_refl].
  destruct (kmalloc e 2 4112) as [rx|]; [|apply keeps_refl].
  destruct (apex_build_frame _ _ _ _) as [m fr']. destruct (m <? 0); [apply keeps_refl|].
  pose proof (keeps_xfer e fr' m rx d) as Hx.
  destruct (apex_spi_xfer _ _ _ _ _) as [[ret rx'] d1]. cbn [snd] in *.
  destruct (0 <? ret); [|done].
  destruct (apex_validate_frame _ _) as [|[[cm ln] p]]; [done|]. destruct (0 <? ln); [|done].
  by apply (keeps_trans0 _ _ _ Hx), keeps_push.
Qed.

Lemma keeps_send_frame e c p fr rx d : keeps 0 d (snd (send_frame e c p fr rx d)).
Proof.
  unfold send_frame. destruct (apex_build_frame _ _ _ _) as [m fr'].
  destruct (m <? 0); [apply keeps_refl|]. pose proof (keeps_xfer e fr' m rx d) as Hx.
  by destruct (apex_spi_xfer _ _ _ _ _) as [[ret rx'] d1].
Qed.

Lemma keeps_sg_start e c d : keeps 0 d (snd (apex_sg_engine_start e c d)).
Proof.
  unfold apex_sg_engine_start.
  repeat match goal with |- keeps 0 d (snd (if ?b then _ else _)) =>
    destruct b; [cbn [snd]; repeat keeps_step|] end.
  destruct (sg_alloc _ _ _ _); cbn [snd]; repeat keeps_step.
  eapply keeps_trans0; [|apply keeps_send_stream]. destruct (_ && _); repeat keeps_step.
Qed.

Lemma keeps_sg_stop e d : keeps 0 d (snd (apex_sg_engine_stop e d)).
Proof.
  unfold apex_sg_engine_stop. destruct (_ =? _); [apply keeps_refl|]. cbn [snd].
  keeps_step. eapply keeps_trans0; [|apply keeps_send_stream]. repeat keeps_step.
Qed.

Lemma keeps_cc1101 e arg fr rx d : keeps 0 d (snd (ioctl_cc1101_cfg e arg fr rx d)).
Proof.
  unfold ioctl_cc1101_cfg. destruct (copy_from_user 0 2 arg) as [cfg|]; [|apply keeps_refl].
  destruct (_ || _); [apply keeps_refl|]. destruct (kmalloc e 2 _); [|apply keeps_refl].
  destruct (copy_from_user 2 _ arg); [apply keeps_send_frame|apply keeps_refl].
Qed.

Lemma keeps_nfc e arg fr rx d : keeps 0 d (snd (ioctl_nfc_transact e arg fr rx d)).
Proof.
  unfold ioctl_nfc_transact. destruct (copy_from_user 0 4 arg) as [nfc|]; [|apply keeps_refl].
  destruct (_ <? read_le16 _); [apply keeps_refl|]. destruct (kmalloc e 2 _); [|apply keeps_refl].
  destruct (if 0 <? _ then _ else _); [apply keeps_send_frame|apply keeps_refl].
Qed.

Lemma keeps_reset (b : bool) d :
  keeps 0 d (if b then apex_mcu_reset_release d else apex_mcu_reset_assert d).
Proof.
  destruct b; unfold apex_mcu_reset_release, apex_mcu_reset_assert; cbv zeta; repeat keeps_step.
Qed.

Lemma keeps_ioctl e cmd acc arg d : keeps 0 d (snd (apex_bridge_ioctl e cmd acc arg d)).
Proof.
  unfold apex_bridge_ioctl.
  repeat match goal with |- keeps 0 d (snd (if ?b then _ else _)) =>
    destruct b; [apply keeps_refl|] end.
  destruct (kmalloc e 0 4112) as [fr|]; [|apply keeps_refl].
  destruct (kmalloc e 1 4112) as [rx|]; [|apply keeps_refl].
  unfold ioctl_switch, ioctl_mcu_reset, ioctl_sg_start, no_out, copy_out. cbv zeta.
  repeat match goal with
  | |- keeps 0 _ (snd (0, [], if _ then _ else _)) => fail 1
  | |- keeps 0 _ (snd (if ?b then _ else _)) => destruct b
  | |- keeps 0 _ (snd match ?o with Some _ => _ | None => _ end) => destruct o
  end; cbn [fst snd];
  auto using keeps_refl, keeps_send_frame, keeps_cc1101, keeps_nfc, keeps_sg_start, keeps_sg_stop,
    keeps_reset.
Qed.
End Keeps.

(** ** Every history of the driver *)

Section Reach.
Context {K : Kfifo} {A : IoctlAbi}.

(** The interrupt's work item may run at any time; the file operations only
    while the file is open, and release once for each successful open. *)
Inductive drv_step (d : bridge) : bridge -> Prop :=
| StepRxWork e : drv_step d (apex_rx_work_handler e d)
| StepOpen pm_ret : drv_step d (snd (apex_bridge_open pm_ret d))
| StepRelease : open_count d = 1 -> drv_step d (apex_bridge_release d)
| StepRead e nb sig room n :
    open_count d = 1 -> drv_step d (snd (apex_bridge_read e nb sig room n d))
| StepWrite e u n : open_count d = 1 -> drv_step d (snd (apex_bridge_write e u n d))
| StepIoctl e cmd acc arg :
    open_count d = 1 -> drv_step d (snd (apex_bridge_ioctl e cmd acc arg d)).

Record drv_inv (d : bridge) : Prop := {
  di_telem : length (last_telem d) = 16%nat;
  di_size : kfifo_size (rx_fifo d) = Z.to_nat APEX_RX_FIFO_SIZE;
  di_fit : kfifo_len (rx_fifo d) <= APEX_RX_FIFO_SIZE;
  di_tx : tx_fifo d = kfifo_alloc (Z.to_nat APEX_TX_FIFO_SIZE);
  di_open : open_count d = 0 \/ open_count d = 1;
  di_pm : pm_usage (klog d) = 1 + open_count d;
}.

Lemma kfifo_len_fit (f : kfifo) n :
  kfifo_size f = Z.to_nat n -> 0 <= n ->
  (kfifo_len f <= n <-> (length (kfifo_data f) <= kfifo_size f)%nat).
Proof. intros. unfold kfifo_len. lia. Qed.

Lemma keeps_inv d d' : drv_inv d -> keeps 0 d d' -> drv_inv d'.
Proof.
  intros [Ht Hs Hf Hx Ho Hp] [_ Es Ef Et Eo El Ep].
  assert (kfifo_size (rx_fifo d') = Z.to_nat APEX_RX_FIFO_SIZE) as Hs' by congruence.
  constructor; [by apply El|done| |congruence|by rewrite Eo|lia].
  apply (kfifo_len_fit _ _ Hs'); [done|]. apply Ef. by apply (kfifo_len_fit _ _ Hs) in Hf.
Qed.

Lemma drv_step_inv d d' : drv_inv d -> drv_step d d' -> drv_inv d'.
Proof.
  intros W []; [apply (keeps_inv _ _ W), keeps_rx_work| | |apply (keeps_inv _ _ W), keeps_read
    |apply (keeps_inv _ _ W), keeps_write|apply (keeps_inv _ _ W), keeps_ioctl].
  - unfold apex_bridge_open. destruct W as [Ht Hs Hf Hx Ho Hp].
    destruct (Z.eqb_spec (open_count d) 0) as [E0|]; cbn [negb]; [|exact (Build_drv_inv d Ht Hs Hf Hx Ho Hp)].
    destruct (pm_ret <? 0).
    + constructor; [done|done|done|done|by left|].
      change (pm_usage ((klog d ++ [KPmGetSync]) ++ [KPmPutNoidle]) = 1 + 0).
      rewrite !pm_usage_app, Hp, E0. done.
    + constructor; [done|done|done|done|by right|].
      change (pm_usage (klog d ++ [KPmGetSync]) = 1 + 1).
      rewrite pm_usage_app, Hp, E0. done.
  - destruct W as [Ht Hs Hf Hx Ho Hp]. constructor; [done|done|done|done|by left|].
    change (pm_usage (klog d ++ [KPmPutAutosuspend]) = 1 + 0).
    rewrite pm_usage_app, Hp. change (pm_usage [KPmPutAutosuspend]) with (-1). lia.
Qed.

Lemma probe_inv speed : drv_inv (apex_bridge_probe speed).
Proof.
  constructor; try done; [apply kfifo_alloc_size| |by left].
  unfold kfifo_len. change (rx_fifo _) with (kfifo_alloc (Z.to_nat APEX_RX_FIFO_SIZE)).
  by rewrite kfifo_alloc_data.
Qed.

Lemma drv_reach_inv d d' : drv_inv d -> rtc drv_step d d' -> drv_inv d'.
Proof. intros W. induction 1; eauto using drv_step_inv. Qed.

Lemma drv_step_err d d' :
  drv_step d d' -> test_bit APEX_FLAG_SPI_ERROR d = true -> test_bit APEX_FLAG_SPI_ERROR d' = true.
Proof.
  intros []; [apply (kp_err 0), keeps_rx_work| |done|apply (kp_err 0), keeps_read
    |apply (kp_err 0), keeps_write|apply (kp_err 0), keeps_ioctl].
  unfold apex_bridge_open. destruct (negb _); [done|]. by destruct (pm_ret <? 0).
Qed.

Lemma drv_reach_err d d' :
  rtc drv_step d d' -> test_bit APEX_FLAG_SPI_ERROR d = true -> test_bit APEX_FLAG_SPI_ERROR d' = true.
Proof. induction 1; eauto using drv_step_err. Qed.

(** C28: after probe and any history of interrupts, opens, closes and calls with
    any arguments: the telemetry copy keeps its 16 bytes, the receive FIFO never
    holds more than its 64 KiB, the transmit FIFO is never used, so poll always
    reports the device writable; at most one handle is open and a second open
    is refused; and the runtime-PM references are one more than the open
    handles, the one of probe being returned only by remove, so the usage count
    is never 0 and the device is never suspended at runtime. *)
Theorem driver_invariant (speed : Z) (d : bridge)
    (Hr : rtc drv_step (apex_bridge_probe speed) d) :
  length (last_telem d) = 16%nat /\ kfifo_len (rx_fifo d) <= APEX_RX_FIFO_SIZE /\
  EPOLLOUT (apex_bridge_poll d) = true /\
  (open_count d = 0 \/ open_count d = 1) /\
  (open_count d = 1 -> forall pm_ret, apex_bridge_open pm_ret d = (- EBUSY, d)) /\
  pm_usage (klog d) = 1 + open_count d /\ 0 < pm_usage (klog d).
Proof.
  destruct (drv_reach_inv _ _ (probe_inv speed) Hr) as [Ht Hs Hf Hx Ho Hp].
  split_and!; [done|done| |done| |done|lia].
  - unfold apex_bridge_poll, kfifo_avail, kfifo_len. cbn [EPOLLOUT].
    by rewrite Hx, kfifo_alloc_size, kfifo_alloc_data.
  - intros E r. unfold apex_bridge_open. by rewrite E.
Qed.
End Reach.

Lemma driver_invariant_witness :
  pm_usage (klog (snd (apex_bridge_open 0 (apex_bridge_probe 50000000)))) = 2.
Proof.
  apply (driver_invariant 50000000 (snd (apex_bridge_open 0 (apex_bridge_probe 50000000)))).
  apply rtc_once, StepOpen.
Defined.

(** ** Writes and commands *)

Section Calls.
Context {K : Kfifo} {A : IoctlAbi}.

(** the device after a transfer of [t] that returned [ret] *)
Definition after_xfer (t : list Z) (ret : Z) (d : bridge) : bridge :=
  let d := klogged (KSpi t) d in
  if ret <? 0 then
    set_bit APEX_FLAG_SPI_ERROR (d <| spi_err_count ::= fun c => s32 (c + 1) |>)
  else d.

Lemma xfer_encoded e c p tl rx d :
  (length p <= 4092)%nat -> length rx = 4112%nat ->
  let t := encode_frame c p in
  apex_spi_xfer e (t ++ tl) (20 + Z.of_nat (length p)) rx d =
    let (ret, r) := spi_sync e t in
    (if ret <? 0 then ret else 20 + Z.of_nat (length p), r ++ drop (20 + length p) rx,
     after_xfer t ret d).
Proof.
  intros Hp Hrx t. assert (length t = (20 + length p)%nat) as Lt by apply encode_frame_length.
  rewrite apex_spi_xfer_spec by (rewrite ?length_app; lia). cbv zeta.
  replace (Z.to_nat (20 + Z.of_nat (length p))) with (20 + length p)%nat by lia.
  rewrite take_app_length' by done. unfold after_xfer. by destruct (spi_sync e t).
Qed.

Lemma send_frame_spec e c p frame rx d :
  (length p <= 4092)%nat -> length frame = 4112%nat -> length rx = 4112%nat ->
  send_frame e c p frame rx d =
    let t := encode_frame c p in
    let ret := fst (spi_sync e t) in
    (if ret <? 0 then ret else 20 + Z.of_nat (length p), after_xfer t ret d).
Proof.
  intros Hp Hf Hr. unfold send_frame.
  rewrite (apex_build_frame_gen c (Some p) (length p) frame) by lia. rewrite take_ge by lia.
  replace (20 + Z.of_nat (length p) <? 0) with false by lia.
  rewrite xfer_encoded by done. cbv zeta. by destruct (spi_sync e _).
Qed.

Lemma after_xfer_traffic t ret d :
  bus_traffic (klog (after_xfer t ret d)) = bus_traffic (klog d) ++ [t].
Proof.
  assert (klog (after_xfer t ret d) = klog d ++ [KSpi t]) as ->
    by (unfold after_xfer; by destruct (ret <? 0)).
  unfold bus_traffic. by rewrite omap_app.
Qed.

Lemma after_xfer_err t ret d :
  ret < 0 -> test_bit APEX_FLAG_SPI_ERROR (after_xfer t ret d) = true /\
    spi_err_count (after_xfer t ret d) = s32 (spi_err_count d + 1).
Proof.
  intros H. unfold after_xfer. replace (ret <? 0) with true by lia. split; [|done].
  unfold test_bit, set_bit, update. cbn. by rewrite Z.setbit_eq.
Qed.


(** A write reports success whatever happens on the bus: once its
    arguments and allocations are good, it sends the one frame that has the
    first byte as command and the others as payload and returns [count], even
    when the transfer failed; the failure is only visible in the error count
    and in a flag which no later call ever clears, so poll reports an error for
    the rest of the device's life.  And since [count] includes the command byte,
    a payload of the maximal 4092 bytes cannot be written. *)
Theorem write_hides_bus_errors (e : env) (user kbuf frame rx : list Z) (count : Z) (d d' : bridge)
    (Hc : 1 <= count <= 4092) (Hu : count <= Z.of_nat (length user))
    (H0 : kmalloc e 0 (Z.to_nat count) = Some kbuf)
    (H1 : kmalloc e 1 4112 = Some frame) (H2 : kmalloc e 2 4112 = Some rx)
    (Hreach : rtc drv_step (snd (apex_bridge_write e user count d)) d') :
  let payload := slice 1 (Z.to_nat count - 1) user in
  let t := encode_frame (byte_at user 0) payload in
  fst (apex_bridge_write e user count d) = count /\
  bus_traffic (klog (snd (apex_bridge_write e user count d))) = bus_traffic (klog d) ++ [t] /\
  (fst (spi_sync e t) < 0 ->
     spi_err_count (snd (apex_bridge_write e user count d)) = s32 (spi_err_count d + 1) /\
     EPOLLERR (apex_bridge_poll d') = true) /\
  (forall u, fst (apex_bridge_write e u 4093 d) = - EMSGSIZE).
Proof.
  intros payload t.
  assert (exists d1, apex_bridge_write e user count d = (count, d1) /\
    bus_traffic (klog d1) = bus_traffic (klog d) ++ [t] /\
    (fst (spi_sync e t) < 0 -> d1 = after_xfer t (fst (spi_sync e t)) d)) as (d1 & E & Et & Ee).
  2: { rewrite E in *. cbn [fst snd] in *. split_and!; [done|done| |done].
       intros Hneg. destruct (after_xfer_err t _ d Hneg) as [Hbit Hcnt].
       rewrite <- (Ee Hneg) in *. split; [done|]. by apply (drv_reach_err _ _ Hreach). }
  apply kmalloc_length in H0 as L0. apply kmalloc_length in H1 as L1. apply kmalloc_length in H2 as L2.
  unfold apex_bridge_write, APEX_SPI_MAX_PAYLOAD.
  replace (count <? 1) with false by lia. replace (4092 <? count) with false by lia. rewrite H0.
  unfold copy_from_user. replace (0 + Z.to_nat count <=? length user)%nat with true
    by (symmetry; apply Nat.leb_le; lia).
  rewrite H1, H2, u16_small by lia. change (slice 0 (Z.to_nat count) user) with (take (Z.to_nat count) user).
  rewrite byte_at_take by lia.
  assert (drop 1 (take (Z.to_nat count) user) = payload) as ->
    by (unfold payload, slice; by rewrite skipn_firstn_comm).
  assert (length payload = (Z.to_nat count - 1)%nat) as Lp by (apply slice_length; lia).
  replace (count - 1) with (Z.of_nat (length payload)) by lia.
  rewrite (apex_build_frame_gen _ (Some payload) (length payload) frame) by lia.
  rewrite take_ge by lia. replace (20 + Z.of_nat (length payload) <? 0) with false by lia.
  rewrite xfer_encoded by lia. fold t. cbv zeta.
  destruct (spi_sync e t) as [ret r] eqn:Es. cbn [fst].
  destruct (Z.ltb_spec ret 0) as [Hneg|Hpos].
  - replace (0 <? ret) with false by lia. eexists. split; [reflexivity|].
    split; [apply after_xfer_traffic|done].
  - replace (0 <? 20 + Z.of_nat (length payload)) with true by lia.
    destruct (apex_validate_frame _ _) as [|[[rc rl] rp]];
      [|destruct (0 <? rl)]; eexists; (split; [reflexivity|]); (split; [|lia]);
      rewrite <- (after_xfer_traffic t ret d); [done| |done].
    unfold fifo_push, klogged, update. cbn. unfold bus_traffic. by rewrite omap_app, app_nil_r.
Qed.
End Calls.

(** the firmware's NOP answer with one bit of its command changed *)
Definition hit_nop : list Z :=
  ([APEX_SPI_SYNC_BYTE] ++ [0x7F] ++ drop 2 (header_head CMD_NOP 0)) ++ drop 8 (encode_header CMD_NOP 0).
Definition hit_env : env := env_of (fun _ => hit_nop) 0 (fun _ => ltac:(by apply bytesb_bytes)) byte_0.


Definition dead_env : env := env_dead (-110) 0 ltac:(discriminate) byte_0.

Lemma write_hides_bus_errors_witness :
  fst (apex_bridge_write dead_env [CMD_ANT_SELECT; 2] 2 (apex_bridge_probe 50000000)) = 2 /\
  EPOLLERR (apex_bridge_poll
    (snd (apex_bridge_write dead_env [CMD_ANT_SELECT; 2] 2 (apex_bridge_probe 50000000)))) = true.
Proof.
  destruct (write_hides_bus_errors dead_env [CMD_ANT_SELECT; 2] [0; 0] (replicate 4112 0)
    (replicate 4112 0) 2 (apex_bridge_probe 50000000)
    (snd (apex_bridge_write dead_env [CMD_ANT_SELECT; 2] 2 (apex_bridge_probe 50000000))))
    as (E & _ & H & _); try reflexivity.
  - lia.
  - split; [exact E|]. apply H. reflexivity.
Defined.

(** ** ioctl *)

Section Ioctl.
Context {K : Kfifo} {A : IoctlAbi}.

(** the payloads of the commands that the ioctls send *)
Inductive valid_command : Z -> list Z -> Prop :=
| CmdTune p : length p = 8%nat -> valid_command CMD_SDR_TUNE p
| CmdStream b : valid_command CMD_SDR_STREAM [b]
| CmdAnt a : a <= 3 -> valid_command CMD_ANT_SELECT [a]
| CmdCc1101 addr data :
    1 <= Z.of_nat (length data) <= 64 ->
    valid_command CMD_CC1101_CFG ([addr; Z.of_nat (length data)] ++ data)
| CmdNfc c f data :
    Z.of_nat (length data) <= 256 ->
    valid_command CMD_NFC_TRANSACT ([c; f] ++ write_le16 (Z.of_nat (length data)) ++ data).

Lemma valid_command_length c p : valid_command c p -> (length p <= 260)%nat.
Proof. intros []; rewrite ?length_app; simpl; rewrite ?length_app; simpl; lia. Qed.

(** a call that sent nothing, or one command; then [r] and the device are those
    of the transfer *)
Definition sent_one (e : env) (r : Z) (out : list Z) (d d' : bridge) : Prop :=
  bus_traffic (klog d') = bus_traffic (klog d) /\ (r < 0 -> d' = d /\ out = []) \/
  exists c p, valid_command c p /\ out = [] /\
    let t := encode_frame c p in
    let ret := fst (spi_sync e t) in
    r = (if ret <? 0 then ret else 20 + Z.of_nat (length p)) /\ d' = after_xfer t ret d.

Lemma sent_none e r out d : (r < 0 -> out = []) -> sent_one e r out d d.
Proof. intros H. left. split; [done|]. intros Hr. by split; [|apply H]. Qed.

Lemma sent_frame e c p frame rx d :
  valid_command c p -> length frame = 4112%nat -> length rx = 4112%nat ->
  sent_one e (fst (send_frame e c p frame rx d)) [] d (snd (send_frame e c p frame rx d)).
Proof.
  intros Hc Hf Hr. pose proof (valid_command_length c p Hc) as Hp.
  rewrite send_frame_spec by (done || lia). right. by exists c, p.
Qed.

Lemma copy_from_user_some off n u l :
  copy_from_user off n u = Some l -> length l = n /\ l = slice off n u.
Proof.
  unfold copy_from_user. destruct (Nat.leb_spec (off + n) (length u)); [|done].
  intros [= <-]. split; [by apply slice_length|done].
Qed.

Lemma byte_at_2 l : length l = 2%nat -> l = [byte_at l 0; byte_at l 1].
Proof. by do 3 (destruct l as [|? l]; try done). Qed.

Lemma sent_cc1101 e arg frame rx d :
  bytes arg -> length frame = 4112%nat -> length rx = 4112%nat ->
  sent_one e (fst (ioctl_cc1101_cfg e arg frame rx d)) [] d (snd (ioctl_cc1101_cfg e arg frame rx d)).
Proof.
  intros Ha Hf Hr. unfold ioctl_cc1101_cfg.
  destruct (copy_from_user 0 2 arg) as [cfg|] eqn:Ec; [|by apply sent_none].
  apply copy_from_user_some in Ec as [Lc ->].
  destruct ((_ =? 0) || _) eqn:Hlen; [by apply sent_none|].
  destruct (kmalloc e 2 _); [|by apply sent_none].
  destruct (copy_from_user 2 _ arg) as [data|] eqn:Ed; [|by apply sent_none].
  apply copy_from_user_some in Ed as [Ld _]. unfold APEX_CC1101_MAX_REG_LEN in Hlen.
  pose proof (byte_at_byte _ 1 (bytes_slice 0 2 _ Ha)) as Hb. unfold byte in Hb.
  replace (byte_at (slice 0 2 arg) 1) with (Z.of_nat (length data)) by lia.
  apply sent_frame; [|done|done]. constructor. lia.
Qed.

Lemma sent_nfc e arg frame rx d :
  bytes arg -> length frame = 4112%nat -> length rx = 4112%nat ->
  sent_one e (fst (ioctl_nfc_transact e arg frame rx d)) [] d (snd (ioctl_nfc_transact e arg frame rx d)).
Proof.
  intros Ha Hf Hr. unfold ioctl_nfc_transact.
  destruct (copy_from_user 0 4 arg) as [nfc|] eqn:Ec; [|by apply sent_none].
  apply copy_from_user_some in Ec as [Lc ->].
  pose proof (read_le16_range _ (bytes_drop 2 _ (bytes_slice 0 4 _ Ha))) as Hl.
  unfold APEX_NFC_MAX_DATA_LEN. destruct (Z.ltb_spec 256 (read_le16 (drop 2 (slice 0 4 arg))));
    [by apply sent_none|].
  destruct (kmalloc e 2 _); [|by apply sent_none].
  destruct (if 0 <? _ then _ else _) as [data|] eqn:Ed; [|by apply sent_none].
  assert (read_le16 (drop 2 (slice 0 4 arg)) = Z.of_nat (length data)) as El.
  { destruct (Z.ltb_spec 0 (read_le16 (drop 2 (slice 0 4 arg)))).
    - apply copy_from_user_some in Ed as [-> _]. lia.
    - injection Ed as <-. simpl. lia. }
  rewrite El in *. apply sent_frame; [|done|done]. constructor. lia.
Qed.

Lemma reset_traffic (b : bool) d :
  bus_traffic (klog (if b then apex_mcu_reset_release d else apex_mcu_reset_assert d)) =
  bus_traffic (klog d).
Proof.
  destruct b; unfold bus_traffic.
  - change (klog (apex_mcu_reset_release d)) with
      (((klog d ++ [KGpio GPIO_MCU_RESET true]) ++ [KMsleep 100]) ++ [KGpio GPIO_HOST_RDY false]).
    by rewrite !omap_app, !app_nil_r.
  - change (klog (apex_mcu_reset_assert d)) with ((klog d ++ [KGpio GPIO_MCU_RESET false]) ++ [KMsleep 10]).
    by rewrite !omap_app, !app_nil_r.
Qed.

Lemma sent_switch e cmd arg frame rx d r out d' :
  bytes arg -> length frame = 4112%nat -> length rx = 4112%nat ->
  cmd <> APEX_IOC_SG_START -> cmd <> APEX_IOC_SG_STOP ->
  ioctl_switch e cmd arg frame rx d = (r, out, d') -> sent_one e r out d d'.
Proof.
  intros Ha Hf Hr Hstart Hstop. unfold ioctl_switch, ioctl_mcu_reset, ioctl_sg_start. cbv zeta.
  assert (Hcp : forall n f, (forall l, length l = n -> l = slice 0 n arg -> f l = (r, out, d') -> sent_one e r out d d') ->
    match copy_from_user 0 n arg with None => (- EFAULT, [], d) | Some l => f l end = (r, out, d') ->
    sent_one e r out d d').
  { intros n f H. destruct (copy_from_user 0 n arg) as [l|] eqn:E; [|intros [= <- <- <-]; by apply sent_none].
    apply copy_from_user_some in E as [L El]. by apply H. }
  assert (Hno : forall q, no_out q = (r, out, d') -> sent_one e (fst q) [] d (snd q) -> sent_one e r out d d')
    by (by intros q [= <- <- <-]).
  assert (Hout : forall room l, copy_out room l d = (r, out, d') -> sent_one e r out d d').
  { intros room l. unfold copy_out. destruct (_ <? _)%nat; intros [= <- <- <-]; by apply sent_none. }
  destruct (cmd =? APEX_IOC_SDR_TUNE).
  { apply Hcp. intros l L _ E. apply (Hno _ E), sent_frame; [by constructor|done|done]. }
  destruct (cmd =? APEX_IOC_SDR_STREAM).
  { apply Hcp. intros l L _ E. apply (Hno _ E), sent_frame; [|done|done].
    destruct l as [|b [|? ?]]; [done| |done]. constructor. }
  destruct (cmd =? APEX_IOC_ANT_SELECT).
  { apply Hcp. intros l L _. unfold APEX_ANT_TERMINATED.
    destruct (Z.ltb_spec 3 (byte_at l 0)); [intros [= <- <- <-]; by apply sent_none|].
    intros E. apply (Hno _ E), sent_frame; [|done|done].
    destruct l as [|b [|? ?]]; [done| |done]. by constructor. }
  destruct (cmd =? APEX_IOC_CC1101_CFG); [intros E; by apply (Hno _ E), sent_cc1101|].
  destruct (cmd =? APEX_IOC_NFC_TRANSACT); [intros E; by apply (Hno _ E), sent_nfc|].
  destruct (cmd =? APEX_IOC_GET_TELEMETRY); [apply Hout|].
  destruct (cmd =? APEX_IOC_MCU_RESET).
  { apply Hcp. intros l _ _ [= <- <- <-]. left. split; [apply reset_traffic|lia]. }
  destruct (cmd =? APEX_IOC_GET_STATUS); [apply Hout|].
  rewrite (proj2 (Z.eqb_neq _ _) Hstart), (proj2 (Z.eqb_neq _ _) Hstop).
  destruct (cmd =? APEX_IOC_SG_GET_STATUS); [apply Hout|].
  intros [= <- <- <-]. by apply sent_none.
Qed.

(** *** The two calls of the scatter-gather engine *)

(** the numbers of the driver decode to their fields, and differ *)
Lemma ioc_fields dir nr size : 0 <= dir < 4 -> 0 <= nr < 256 -> 0 <= size < 16384 ->
  IOC_DIR (IOC dir APEX_IOC_MAGIC nr size) = dir /\
  IOC_TYPE (IOC dir APEX_IOC_MAGIC nr size) = APEX_IOC_MAGIC /\
  IOC_NR (IOC dir APEX_IOC_MAGIC nr size) = nr /\
  IOC_SIZE (IOC dir APEX_IOC_MAGIC nr size) = size.
Proof. intros. by apply IOC_decode. Qed.

Lemma ioc_neq dir nr size dir' nr' size' :
  0 <= dir < 4 -> 0 <= nr < 256 -> 0 <= size < 16384 ->
  0 <= dir' < 4 -> 0 <= nr' < 256 -> 0 <= size' < 16384 ->
  nr <> nr' \/ size <> size' ->
  (IOC dir APEX_IOC_MAGIC nr size =? IOC dir' APEX_IOC_MAGIC nr' size') = false.
Proof.
  intros H1 H2 H3 H4 H5 H6 Hne. apply Z.eqb_neq. intros E.
  destruct (ioc_fields dir nr size H1 H2 H3) as (_ & _ & N & S).
  destruct (ioc_fields dir' nr' size' H4 H5 H6) as (_ & _ & N' & S').
  rewrite E in N, S. lia.
Qed.

Lemma switch_sg_start e arg frame rx d :
  ioctl_switch e APEX_IOC_SG_START arg frame rx d = ioctl_sg_start e arg d.
Proof.
  unfold ioctl_switch, APEX_IOC_SDR_TUNE, APEX_IOC_SDR_STREAM, APEX_IOC_ANT_SELECT,
    APEX_IOC_CC1101_CFG, APEX_IOC_NFC_TRANSACT, APEX_IOC_GET_TELEMETRY, APEX_IOC_MCU_RESET,
    APEX_IOC_GET_STATUS, APEX_IOC_SG_START, APEX_IOC_SG_STOP.
  rewrite !ioc_neq by (unfold IOC_WRITE, IOC_READ, IOC_NONE; lia). by rewrite Z.eqb_refl.
Qed.

Lemma switch_sg_stop e arg frame rx d :
  ioctl_switch e APEX_IOC_SG_STOP arg frame rx d = no_out (apex_sg_engine_stop e d).
Proof.
  unfold ioctl_switch, APEX_IOC_SDR_TUNE, APEX_IOC_SDR_STREAM, APEX_IOC_ANT_SELECT,
    APEX_IOC_CC1101_CFG, APEX_IOC_NFC_TRANSACT, APEX_IOC_GET_TELEMETRY, APEX_IOC_MCU_RESET,
    APEX_IOC_GET_STATUS, APEX_IOC_SG_START, APEX_IOC_SG_STOP.
  rewrite !ioc_neq by (unfold IOC_WRITE, IOC_READ, IOC_NONE; lia). by rewrite Z.eqb_refl.
Qed.

Lemma send_stream_traffic b e d :
  bus_traffic (klog (send_stream b e d)) = bus_traffic (klog d) \/
  bus_traffic (klog (send_stream b e d)) = bus_traffic (klog d) ++ [encode_frame CMD_SDR_STREAM [b]].
Proof.
  unfold send_stream. destruct (kmalloc e 2 4112) as [fr|] eqn:E2; [|by left].
  destruct (kmalloc e 3 4112) as [rx|] eqn:E3; [|by left]. apply kmalloc_length in E2, E3.
  pose proof (apex_build_frame_gen CMD_SDR_STREAM (Some [b]) 1 fr) as Hb.
  change (Z.of_nat 1) with 1 in Hb. rewrite Hb by (simpl; lia). change (0 <? 20 + 1) with true. cbv iota.
  change (take 1 [b]) with [b]. change (20 + 1) with (20 + Z.of_nat (length [b])).
  rewrite xfer_encoded by (done || simpl; lia). cbv zeta. right.
  destruct (spi_sync e _) as [ret r]. apply after_xfer_traffic.
Qed.

(** what a start without memory leaves: the buffers of an earlier batch, which
    has stopped by itself, are no longer referenced *)
Definition forget_bufs (d : bridge) : bridge := d <| sg ::= fun eng => eng <| bufs := None |> |>.

Lemma start_traffic e c d r d' : apex_sg_engine_start e c d = (r, d') ->
  (r < 0 /\ (d' = d \/ r = - ENOMEM /\ d' = forget_bufs d)) \/
  (r = 0 /\ (bus_traffic (klog d') = bus_traffic (klog d) \/
             bus_traffic (klog d') = bus_traffic (klog d) ++ [encode_frame CMD_SDR_STREAM [1]])).
Proof.
  unfold apex_sg_engine_start, forget_bufs.
  repeat match goal with |- (if ?b then _ else _) = _ -> _ =>
    destruct b; [intros [= <- <-]; left; (split; [done|]); by first [left; reflexivity|right]|] end.
  destruct (sg_alloc _ _ _ _) as [l|]; [|intros [= <- <-]; left; (split; [done|]); by right].
  intros [= <- <-]. right. split; [done|].
  match goal with |- context [send_stream 1 e ?x] => set (d2 := x) end.
  assert (klog d2 = klog d) as <- by (subst d2; by destruct (_ && _)).
  change (klog (klogged KScheduleSg ?x)) with (klog x ++ [KScheduleSg]).
  unfold bus_traffic at 1 3. rewrite omap_app, app_nil_r. apply send_stream_traffic.
Qed.

Lemma stop_traffic e d : fst (apex_sg_engine_stop e d) = 0 /\
  (bus_traffic (klog (snd (apex_sg_engine_stop e d))) = bus_traffic (klog d) \/
   bus_traffic (klog (snd (apex_sg_engine_stop e d))) =
     bus_traffic (klog d) ++ [encode_frame CMD_SDR_STREAM [0]]).
Proof.
  unfold apex_sg_engine_stop. destruct (_ =? _); [split; [done|by left]|]. split; [done|].
  exact (send_stream_traffic 0 e (d <| sg ::= fun eng => eng <| sg_state := APEX_SG_STATE_IDLE |> |>)).
Qed.

(** C25: every ioctl puts at most one frame on the bus, with a command and
    payload well formed as the firmware requires.  If it puts none, an error
    writes nothing to the user and leaves the device as it was, but for a
    scatter-gather start without memory, which drops the engine's reference to
    its buffers.  If it puts one, nothing is written to the user either, and the
    device is changed by that transfer only: the call returns the frame's size,
    or the bus error after counting it and setting the error flag.  The stream
    command that SG_START and SG_STOP send, when memory allows, is
    the exception: they return 0 whatever the bus answers. *)
Theorem ioctl_sends_one_command (e : env) (cmd : Z) (accessible : bool) (arg : list Z)
    (d d' : bridge) (r : Z) (out : list Z) (Harg : bytes arg)
    (E : apex_bridge_ioctl e cmd accessible arg d = (r, out, d')) :
  bus_traffic (klog d') = bus_traffic (klog d) /\
    (r < 0 -> out = [] /\
       (d' = d \/ cmd = APEX_IOC_SG_START /\ r = - ENOMEM /\ d' = forget_bufs d)) \/
  exists c p, valid_command c p /\ out = [] /\
    bus_traffic (klog d') = bus_traffic (klog d) ++ [encode_frame c p] /\
    let ret := fst (spi_sync e (encode_frame c p)) in
    (r = (if ret <? 0 then ret else 20 + Z.of_nat (length p)) /\
       d' = after_xfer (encode_frame c p) ret d \/
     cmd = APEX_IOC_SG_START /\ c = CMD_SDR_STREAM /\ p = [1] /\ r = 0 \/
     cmd = APEX_IOC_SG_STOP /\ c = CMD_SDR_STREAM /\ p = [0] /\ r = 0).
Proof.
  assert (Hnone : forall k, (k, [], d) = (r, out, d') ->
    bus_traffic (klog d') = bus_traffic (klog d) /\
    (r < 0 -> out = [] /\ (d' = d \/ cmd = APEX_IOC_SG_START /\ r = - ENOMEM /\ d' = forget_bufs d)))
    by (intros k [= <- <- <-]; split; [done|]; intros _; split; [done|by left]).
  revert E. unfold apex_bridge_ioctl.
  do 4 match goal with |- (if ?b then _ else _) = _ -> _ =>
    destruct b; [intros E; left; by eapply Hnone|] end.
  destruct (kmalloc e 0 4112) as [fr|] eqn:E0; [|intros E; left; by eapply Hnone].
  destruct (kmalloc e 1 4112) as [rx|] eqn:E1; [|intros E; left; by eapply Hnone].
  apply kmalloc_length in E0, E1.
  destruct (decide (cmd = APEX_IOC_SG_START)) as [->|Hstart]; [|destruct (decide (cmd = APEX_IOC_SG_STOP)) as [->|Hstop]].
  - rewrite switch_sg_start. unfold ioctl_sg_start.
    destruct (copy_from_user 0 20 arg) as [c|]; [|intros E; left; by eapply Hnone].
    unfold no_out. destruct (apex_sg_engine_start e (sg_config_of c) d) as [k d1] eqn:Es.
    intros [= <- <- <-]. apply start_traffic in Es as [[Hk Hd]|[-> [Ht|Ht]]].
    + left. split; [by destruct Hd as [->|[_ ->]]|]. intros _. split; [done|].
      destruct Hd as [?|[? ?]]; [by left|by right].
    + left. split; [done|cbn; lia].
    + right. exists CMD_SDR_STREAM, [1]. split; [constructor|]. split_and!; [done..|]. by right; left.
  - rewrite switch_sg_stop. unfold no_out. intros [= <- <- <-].
    destruct (stop_traffic e d) as [-> [Ht|Ht]]; [left; split; [done|cbn; lia]|].
    right. exists CMD_SDR_STREAM, [0]. split; [constructor|]. split_and!; [done..|]. by right; right.
  - intros E. apply sent_switch in E as [[Ht He]|(c & p & Hc & Ho & Er & Ed)]; try done.
    + left. split; [done|]. intros Hr. destruct (He Hr). split; [done|by left].
    + right. exists c, p. split_and!; [done|done|by rewrite Ed; apply after_xfer_traffic|by left].
Qed.
End Ioctl.

Lemma ioctl_sends_one_command_witness :
  bus_traffic (klog (snd (apex_bridge_ioctl demo_env APEX_IOC_CC1101_CFG true [16; 2; 7; 8] demo_bridge)))
    = bus_traffic (klog demo_bridge) ++ [encode_frame CMD_CC1101_CFG [16; 2; 7; 8]].
Proof.
  destruct (apex_bridge_ioctl demo_env APEX_IOC_CC1101_CFG true [16; 2; 7; 8] demo_bridge)
    as [[r out] d'] eqn:E. cbn [snd].
  destruct (ioctl_sends_one_command demo_env APEX_IOC_CC1101_CFG true [16; 2; 7; 8] demo_bridge
    d' r out) as [[H _]|(c & p & Hv & _ & H & _)]; [by apply bytesb_bytes|exact E| |].
  - exfalso. revert H. replace d' with
      (snd (apex_bridge_ioctl demo_env APEX_IOC_CC1101_CFG true [16; 2; 7; 8] demo_bridge))
      by (by rewrite E). vm_compute. discriminate.
  - replace d' with
      (snd (apex_bridge_ioctl demo_env APEX_IOC_CC1101_CFG true [16; 2; 7; 8] demo_bridge))
      by (by rewrite E). vm_compute. reflexivity.
Defined.

(** ** Sessions *)

Section Session.
Context {K : Kfifo}.

(** Closing the device wipes the telemetry copy, so that a new user cannot
    read the previous one's, but not the receive FIFO: the first read of the
    next session returns the bytes the previous session left, up to the size
    asked for. *)
Theorem rx_data_survives_close (d : bridge) (e : env) (pm_ret : Z) (nonblock signal : bool)
    (room n : nat) (kbuf : list Z)
    (Hpm : 0 <= pm_ret) (Hdata : kfifo_data (rx_fifo d) <> []) (Hn : (0 < n <= room)%nat)
    (Hk : kmalloc e 0 (Nat.min n (length (kfifo_data (rx_fifo d)))) = Some kbuf) :
  let d1 := apex_bridge_release d in
  let d2 := snd (apex_bridge_open pm_ret d1) in
  last_telem d2 = replicate 16 0 /\ open_count d2 = 1 /\
  let leak := take n (kfifo_data (rx_fifo d)) in
  leak <> [] /\
  fst (apex_bridge_read e nonblock signal room n d2) = Some (Z.of_nat (length leak), leak).
Proof.
  intros d1 d2.
  assert (d2 = klogged KPmGetSync (d1 <| open_count := 1 |>)) as ->.
  { subst d2. unfold apex_bridge_open. change (open_count d1) with 0. cbn [negb Z.eqb].
    by replace (pm_ret <? 0) with false by lia. }
  split_and!; [done|done|]. intros leak.
  set (d2 := klogged _ _). assert (rx_fifo d2 = rx_fifo d) as Er by done.
  assert (kfifo_data (rx_fifo d) = kfifo_data (rx_fifo d2)) as Ed by by rewrite Er.
  destruct (kfifo_data (rx_fifo d)) as [|b l] eqn:El; [done|]. split; [by destruct n; [lia|]|].
  unfold apex_bridge_read, kfifo_is_empty, kfifo_len. rewrite <- Ed.
  change (Z.of_nat (length (b :: l)) =? 0) with false. cbn [andb]. cbv zeta.
  set (m := Nat.min n (length (b :: l))) in *.
  assert (0 < m)%nat by (subst m; simpl; lia).
  rewrite (proj2 (Nat.eqb_neq m 0)) by lia. rewrite Hk.
  pose proof (kfifo_out_bytes m (rx_fifo d2)) as Ho. rewrite <- Ed in Ho.
  destruct (kfifo_out m (rx_fifo d2)) as [out f]. cbn [fst] in Ho. subst out.
  assert (take m (b :: l) = leak) as -> by (subst m leak; by rewrite take_min || (rewrite <- firstn_firstn, firstn_all; done)).
  replace (room <? length leak)%nat with false; [done|].
  symmetry. apply Nat.ltb_ge. subst leak. rewrite length_take. lia.
Qed.
End Session.

Lemma rx_data_survives_close_witness :
  fst (apex_bridge_read demo_env true false 8 8
    (snd (apex_bridge_open 0 (apex_bridge_release (fifo_push [1; 2; 3] demo_bridge)))))
  = Some (3, [1; 2; 3]).
Proof.
  apply (rx_data_survives_close (fifo_push [1; 2; 3] demo_bridge) demo_env 0 true false 8 8
    (replicate 3 0)); [lia|discriminate|lia|reflexivity].
Defined.
