(* ===== verification/DriverThreads.v ===== *)
(** * Threads of the driver and the receive lock (apex_bridge.c)

    The receive work item, read(), write() and ioctl() run concurrently and
    share the telemetry snapshot and the receive FIFO.  Each is a sequence of
    accesses here: taking rx_lock, the copy byte by byte, releasing it.  The
    sections under the lock are proved to act as whole operations; the two
    accesses outside it, the emptiness test of read() and the wipe of
    release(), are shown not to. *)

From S2P Require Import Prelude Crc Frame Kernel ApexDev SgEngine ApexBridge.

Section Threads.
Context {K : Kfifo}.

(** ** State *)

(** [rx_lock] holds the thread that owns the spinlock; [ops] is a ghost: the
    operations of the lock sections that have ended, oldest first. *)
Inductive rx_op :=
| OpTelemetry (p : list Z)        (* store, flags and push of a snapshot *)
| OpPush (p : list Z)             (* push of another payload *)
| OpSnapshot (t : list Z)         (* the snapshot copied out *)
| OpTake (n : nat) (l : list Z).  (* up to n bytes taken out of the FIFO *)

Record shared := { rx_lock : option nat; dev : bridge; ops : list rx_op }.
#[local] Instance eta_shared : Eta shared := eta! Build_shared < rx_lock ; dev ; ops >.

(** a call of read(): the allocator, O_NONBLOCK, whether a signal ends the wait,
    the mapped room at the buffer, the count *)
Record read_call := {
  rc_env : env; rc_nonblock : bool; rc_signal : bool; rc_room : nat; rc_count : nat
}.

(** where a thread stands *)
Inductive tpc :=
| TIdle
(* apex_rx_work_handler, CMD_TELEMETRY *)
| TelemLock (p : list Z) | TelemCopy (p : list Z) (i : nat) | TelemRest (p : list Z)
| TelemUnlock (p : list Z)
(* the other pushes of apex_rx_work_handler and apex_bridge_write *)
| PushLock (p : list Z) | PushIn (p : list Z) | PushUnlock (p : list Z)
(* APEX_IOC_GET_TELEMETRY *)
| GetLock | GetCopy (acc : list Z) | GetUnlock (acc : list Z) | GetDone (acc : list Z)
(* apex_bridge_read *)
| ReadTest (c : read_call) | ReadLock (c : read_call) | ReadOut (c : read_call)
| ReadUnlock (c : read_call) (r : Z * list Z) | ReadCopy (c : read_call) (l : list Z)
| ReadDone (r : Z * list Z)
(* apex_bridge_release: memzero_explicit(&dev->last_telem) *)
| Wipe (i : nat).

Definition lock (t : nat) (next : tpc) (s : shared) : option (tpc * shared) :=
  match rx_lock s with
  | None => Some (next, s <| rx_lock := Some t |>)
  | Some _ => None
  end.
Definition unlock (o : list rx_op) (next : tpc) (s : shared) : option (tpc * shared) :=
  Some (next, s <| rx_lock := None |> <| ops ::= fun l => l ++ o |>).

Definition store_telem (i : nat) (b : Z) (s : shared) : shared :=
  s <| dev ::= fun d => d <| last_telem ::= fun l => <[i := b]> l |> |>.

(** One access of thread [t] in each function; [None] when it must wait. *)

(** case APEX_CMD_TELEMETRY of apex_rx_work_handler *)
Definition telem_step (t : nat) (pc : tpc) (s : shared) : option (tpc * shared) :=
  let d := dev s in
  match pc with
  | TelemLock p => lock t (TelemCopy p 0) s
  | TelemCopy p i =>
      if (i <? 16)%nat then Some (TelemCopy p (S i), store_telem i (byte_at p i) s)
      else Some (TelemRest p, s)
  | TelemRest p =>
      Some (TelemUnlock p, s <| dev := fifo_push p (rx_telemetry (last_telem d) d) |>)
  | TelemUnlock p => unlock [OpTelemetry p] TIdle s
  | _ => None
  end.

(** the other cases of apex_rx_work_handler, and the push of apex_bridge_write *)
Definition push_step (t : nat) (pc : tpc) (s : shared) : option (tpc * shared) :=
  match pc with
  | PushLock p => lock t (PushIn p) s
  | PushIn p => Some (PushUnlock p, s <| dev := fifo_push p (dev s) |>)
  | PushUnlock p => unlock [OpPush p] TIdle s
  | _ => None
  end.

(** case APEX_IOC_GET_TELEMETRY of apex_bridge_ioctl *)
Definition get_step (t : nat) (pc : tpc) (s : shared) : option (tpc * shared) :=
  match pc with
  | GetLock => lock t (GetCopy []) s
  | GetCopy acc =>
      if (length acc <? 16)%nat
      then Some (GetCopy (acc ++ [byte_at (last_telem (dev s)) (length acc)]), s)
      else Some (GetUnlock acc, s)
  | GetUnlock acc => unlock [OpSnapshot acc] (GetDone acc) s
  | _ => None
  end.

(** apex_bridge_read *)
Definition read_step (t : nat) (pc : tpc) (s : shared) : option (tpc * shared) :=
  let d := dev s in
  match pc with
  | ReadTest c =>
      if kfifo_is_empty (rx_fifo d)
      then if rc_nonblock c then Some (ReadDone (- EAGAIN, []), s)
           else if rc_signal c then Some (ReadDone (- EINTR_RESTART, []), s) else None
      else Some (ReadLock c, s)
  | ReadLock c => lock t (ReadOut c) s
  | ReadOut c =>
      let to_copy := Nat.min (rc_count c) (length (kfifo_data (rx_fifo d))) in
      if (to_copy =? 0)%nat then Some (ReadUnlock c (0, []), s) else
      match kmalloc (rc_env c) 0 to_copy with
      | None => Some (ReadUnlock c (- ENOMEM, []), s)
      | Some _ =>
          let (copied, f) := kfifo_out to_copy (rx_fifo d) in
          Some (ReadUnlock c (Z.of_nat (length copied), copied), s <| dev := d <| rx_fifo := f |> |>)
      end
  | ReadUnlock c r =>
      let next := if 0 <? fst r then ReadCopy c (snd r) else ReadDone r in
      unlock (if 0 <? fst r then [OpTake (length (snd r)) (snd r)] else []) next s
  | ReadCopy c l =>
      if (rc_room c <? length l)%nat then Some (ReadDone (- EFAULT, []), s)
      else Some (ReadDone (Z.of_nat (length l), l), s)
  | _ => None
  end.

(** memzero_explicit in apex_bridge_release *)
Definition wipe_step (pc : tpc) (s : shared) : option (tpc * shared) :=
  match pc with
  | Wipe i => if (i <? 16)%nat then Some (Wipe (S i), store_telem i 0 s) else Some (TIdle, s)
  | _ => None
  end.

Definition tstep (t : nat) (pc : tpc) (s : shared) : option (tpc * shared) :=
  match pc with
  | TIdle | GetDone _ | ReadDone _ => None
  | TelemLock _ | TelemCopy _ _ | TelemRest _ | TelemUnlock _ => telem_step t pc s
  | PushLock _ | PushIn _ | PushUnlock _ => push_step t pc s
  | GetLock | GetCopy _ | GetUnlock _ => get_step t pc s
  | ReadTest _ | ReadLock _ | ReadOut _ | ReadUnlock _ _ | ReadCopy _ _ => read_step t pc s
  | Wipe _ => wipe_step pc s
  end.

(** ** Runs: any thread takes the next access, or an idle one starts a call;
    [closing] says whether the last descriptor may be closed in the run *)

Definition entry (closing : bool) (pc : tpc) : bool :=
  match pc with
  | TelemLock p => (length p =? 16)%nat
  | PushLock _ | GetLock | ReadTest _ => true
  | Wipe 0 => closing
  | _ => false
  end.
Definition returned (pc : tpc) : bool :=
  match pc with TIdle | GetDone _ | ReadDone _ => true | _ => false end.

Inductive sys_step (closing : bool) : shared * list tpc -> shared * list tpc -> Prop :=
| sys_access t pc s pc' s' ths :
    ths !! t = Some pc -> tstep t pc s = Some (pc', s') ->
    sys_step closing (s, ths) (s', <[t := pc']> ths)
| sys_call t pc pc' s ths :
    ths !! t = Some pc -> returned pc = true -> entry closing pc' = true ->
    sys_step closing (s, ths) (s, <[t := pc']> ths).

(** ** The operations as a whole *)

Inductive atomic_op : rx_op -> bridge -> bridge -> Prop :=
| atomic_telemetry p d : length p = 16%nat ->
    atomic_op (OpTelemetry p) d (fifo_push p (rx_telemetry p d))
| atomic_push p d : atomic_op (OpPush p) d (fifo_push p d)
| atomic_snapshot d : atomic_op (OpSnapshot (last_telem d)) d d
| atomic_take n d : (0 < n)%nat -> (n <= length (kfifo_data (rx_fifo d)))%nat ->
    atomic_op (OpTake n (take n (kfifo_data (rx_fifo d)))) d
      (d <| rx_fifo ::= fun f => snd (kfifo_out n f) |>).

Inductive atomic_run (d0 : bridge) : list rx_op -> bridge -> Prop :=
| atomic_nil : atomic_run d0 [] d0
| atomic_snoc l o d d' : atomic_run d0 l d -> atomic_op o d d' -> atomic_run d0 (l ++ [o]) d'.

(** ** Invariant *)

Definition in_section (pc : tpc) : Prop :=
  match pc with
  | TelemCopy _ _ | TelemRest _ | TelemUnlock _ | PushIn _ | PushUnlock _
  | GetCopy _ | GetUnlock _ | ReadOut _ | ReadUnlock _ _ => True
  | _ => False
  end.

(** what the owner of the lock has done to [d], the device at the lock *)
Definition section_of (pc : tpc) (d d' : bridge) : Prop :=
  match pc with
  | TelemCopy p i => length p = 16%nat /\ (i <= 16)%nat /\
      d' = d <| last_telem := take i p ++ drop i (last_telem d) |>
  | TelemRest p => length p = 16%nat /\ d' = d <| last_telem := p |>
  | TelemUnlock p => length p = 16%nat /\ d' = fifo_push p (rx_telemetry p d)
  | PushIn _ | ReadOut _ => d' = d
  | PushUnlock p => d' = fifo_push p d
  | GetCopy acc => d' = d /\ acc = take (length acc) (last_telem d) /\ (length acc <= 16)%nat
  | GetUnlock acc => d' = d /\ acc = last_telem d
  | ReadUnlock c r =>
      (fst r <= 0 /\ snd r = [] /\ d' = d) \/
      (0 < fst r /\ atomic_op (OpTake (length (snd r)) (snd r)) d d')
  | _ => False
  end.

(** what a thread outside the lock sections may hold *)
Definition pc_ok (l : list rx_op) (pc : tpc) : Prop :=
  match pc with
  | TelemLock p => length p = 16%nat
  | GetDone acc => OpSnapshot acc ∈ l
  | ReadCopy _ r => OpTake (length r) r ∈ l
  | ReadDone (n, r) => n <= 0 /\ r = [] \/ n = Z.of_nat (length r) /\ OpTake (length r) r ∈ l
  | Wipe _ => False
  | _ => True
  end.

Definition all_threads (P : nat -> tpc -> Prop) (ths : list tpc) : Prop :=
  forall t pc, ths !! t = Some pc -> P t pc.

Record sys_inv (d0 : bridge) (c : shared * list tpc) (d : bridge) : Prop := {
  si_run : atomic_run d0 (ops (fst c)) d;
  si_telem : length (last_telem d) = 16%nat;
  si_pc : all_threads (fun _ pc => pc_ok (ops (fst c)) pc) (snd c);
  si_out : all_threads (fun t pc => rx_lock (fst c) <> Some t -> ~ in_section pc) (snd c);
  si_lock : match rx_lock (fst c) with
            | None => dev (fst c) = d
            | Some t => exists pc, snd c !! t = Some pc /\ in_section pc /\
                section_of pc d (dev (fst c))
            end;
}.

Lemma rx_telemetry_stored p d :
  rx_telemetry p (d <| last_telem := p |>) = rx_telemetry p d.
Proof. unfold rx_telemetry. by destruct d. Qed.

Lemma rx_telemetry_telem p d : last_telem (rx_telemetry p d) = p.
Proof. unfold rx_telemetry. cbv zeta. by repeat case_match. Qed.

Lemma atomic_op_telem o d d' :
  length (last_telem d) = 16%nat -> atomic_op o d d' -> length (last_telem d') = 16%nat.
Proof.
  intros Hl H. destruct H; simpl; try done. by rewrite rx_telemetry_telem.
Qed.

(** An access outside the sections changes neither the device nor the lock. *)
Lemma tstep_outside t pc s pc' s' :
  tstep t pc s = Some (pc', s') -> ~ in_section pc -> (forall i, pc <> Wipe i) ->
  (s' = s /\ ~ in_section pc' /\ (pc_ok (ops s) pc -> pc_ok (ops s) pc')) \/
  (rx_lock s = None /\ s' = s <| rx_lock := Some t |> /\ in_section pc' /\
   forall d, pc_ok (ops s) pc -> dev s = d -> section_of pc' d (dev s')).
Proof.
  intros E Hout Hw. destruct pc; simpl in E, Hout; try done; unfold lock in E.
  all: try (destruct (rx_lock s) eqn:El; [done|]; simplify_eq; right;
    split; [done|]; split; [done|]; split; [done|]; intros d Hp Hd; simpl in *; subst; try done).
  - split; [done|]. split; [lia|]. by destruct (dev s).
  - split; [done|]. split; [done|lia].
  - left. repeat case_match; simplify_eq; split_and!; try done; intros _; by left.
  - left. case_match; simplify_eq; split_and!; try done; intros Ho; [by left|by right].
  - by destruct (Hw i).
Qed.

(** the end of a section: the operation it was *)
Definition section_ends (d : bridge) (s s' : shared) (pc' : tpc) : Prop :=
  ~ in_section pc' /\ rx_lock s' = None /\ dev s' = dev s /\ pc_ok (ops s') pc' /\
  ((ops s' = ops s /\ dev s = d) \/
   exists o, ops s' = ops s ++ [o] /\ atomic_op o d (dev s)).

Lemma section_ends_op o d s pc' :
  ~ in_section pc' -> pc_ok (ops s ++ [o]) pc' -> atomic_op o d (dev s) ->
  section_ends d s (s <| rx_lock := None |> <| ops ::= fun l => l ++ [o] |>) pc'.
Proof. intros. split; [done|]. split; [done|]. split; [done|]. split; [done|]. right. by exists o. Qed.

Lemma read_out_section c s d :
  dev s = d -> exists pc' s', forall t, tstep t (ReadOut c) s = Some (pc', s') /\
    in_section pc' /\ ops s' = ops s /\ rx_lock s' = rx_lock s /\ section_of pc' d (dev s').
Proof.
  intros <-. cbn [tstep read_step]. cbv zeta.
  set (n := Nat.min (rc_count c) (length (kfifo_data (rx_fifo (dev s))))).
  destruct (Nat.eqb_spec n 0) as [E|E]; [eexists _, s; intros; split; [reflexivity|]|].
  { split_and!; try done. by left. }
  destruct (kmalloc (rc_env c) 0 n) as [kb|].
  2: { eexists _, s; intros; split; [reflexivity|]. split_and!; try done. by left. }
  pose proof (kfifo_out_bytes n (rx_fifo (dev s))) as Eb.
  destruct (kfifo_out n (rx_fifo (dev s))) as [l f] eqn:Ef. simpl in Eb.
  eexists _, _; intros; split; [reflexivity|]. split; [done|]. split; [done|]. split; [done|].
  assert (length l = n) as Ln by (rewrite Eb, length_take; lia).
  right. simpl. split; [lia|]. rewrite Ln.
  replace ((dev s) <| rx_fifo := f |>) with ((dev s) <| rx_fifo ::= fun f => snd (kfifo_out n f) |>)
    by (unfold update; simpl; by rewrite Ef).
  rewrite Eb. apply atomic_take; lia.
Qed.

Lemma tstep_section t pc s pc' s' d :
  tstep t pc s = Some (pc', s') -> rx_lock s = Some t -> in_section pc ->
  section_of pc d (dev s) -> length (last_telem d) = 16%nat ->
  (in_section pc' /\ ops s' = ops s /\ rx_lock s' = Some t /\ section_of pc' d (dev s')) \/
  section_ends d s s' pc'.
Proof.
  intros E Hl Hin Hs Hlen. destruct pc as [ |p|p i|p|p|p|p|p| |acc|acc|acc|c|c|c|c r|c l|r|i];
    simpl in Hin; try done.
  - destruct Hs as (Lp & Hi & Ed). simpl in E. left. case_match eqn:En; simplify_eq.
    + apply Nat.ltb_lt in En. split; [done|]. split; [done|]. split; [done|].
      split; [done|]. split; [lia|]. rewrite <- copy_step by lia.
      unfold store_telem. cbn [dev update]. simpl. by rewrite Ed.
    + apply Nat.ltb_ge in En. split; [done|]. split; [done|]. split; [done|]. split; [done|].
      rewrite Ed, take_ge, drop_ge, app_nil_r by lia. done.
  - destruct Hs as (Lp & Ed). simpl in E. simplify_eq. left.
    split; [done|]. split; [done|]. split; [done|]. split; [done|].
    simpl. rewrite Ed. simpl. by rewrite rx_telemetry_stored.
  - destruct Hs as (Lp & Ed). injection E as <- <-. right.
    apply section_ends_op; [by intros []|done|]. rewrite Ed. by constructor.
  - simpl in E, Hs. simplify_eq. left. split; [done|]. split; [done|]. split; [done|]. done.
  - injection E as <- <-. right. apply section_ends_op; [by intros []|done|].
    simpl in Hs. rewrite Hs. constructor.
  - destruct Hs as (Ed & Ea & La). simpl in E. left. case_match eqn:En; simplify_eq.
    + apply Nat.ltb_lt in En. split; [done|]. split; [done|]. split; [done|]. split; [done|].
      rewrite length_app. simpl length. rewrite Nat.add_1_r. split; [|lia].
      rewrite take_S_byte by lia. by rewrite <- Ea.
    + apply Nat.ltb_ge in En. split; [done|]. split; [done|]. split; [done|]. split; [done|].
      rewrite Ea. apply take_ge. lia.
  - destruct Hs as (Ed & Ea). injection E as <- <-. right.
    apply section_ends_op; [by intros []|simpl; set_solver|]. rewrite Ed, Ea. constructor.
  - simpl in Hs. destruct (read_out_section c s d Hs) as (pc1 & s1 & H).
    destruct (H t) as (E1 & ? & ? & El & ?). rewrite E in E1. injection E1 as -> ->. left.
    by rewrite El.
  - simpl in Hs. cbn [tstep read_step] in E. cbv zeta in E. right.
    destruct Hs as [(Hr & Er & Ed)|[Hr Ho]].
    + rewrite (proj2 (Z.ltb_ge _ _)) in E by done. injection E as <- <-.
      destruct r as [n r]. simpl in *.
      split; [by intros []|]. split; [done|]. split; [done|]. split; [by left|].
      left. split; [apply app_nil_r|done].
    + rewrite (proj2 (Z.ltb_lt _ _)) in E by done. injection E as <- <-.
      apply section_ends_op; [by intros []|simpl; set_solver|done].
Qed.

Lemma pc_ok_app l o pc : pc_ok l pc -> pc_ok (l ++ o) pc.
Proof. destruct pc; simpl; repeat case_match; rewrite ?elem_of_app; tauto. Qed.

Lemma pc_ok_section l pc : in_section pc -> pc_ok l pc.
Proof. by destruct pc. Qed.

Lemma in_section_dec pc : in_section pc \/ ~ in_section pc.
Proof. destruct pc; simpl; auto. Qed.

(** a thread moves and the others stay *)
Lemma all_threads_insert P t pc' ths :
  P t pc' -> (forall u pc, u <> t -> ths !! u = Some pc -> P u pc) ->
  all_threads P (<[t := pc']> ths).
Proof.
  intros Ht Ho u pc. destruct (decide (u = t)) as [->|Hne].
  - intros E. pose proof (lookup_lt_Some _ _ _ E) as Hlt. rewrite length_insert in Hlt.
    rewrite list_lookup_insert_eq in E by done. by injection E as <-.
  - rewrite list_lookup_insert_ne by done. by apply Ho.
Qed.

Lemma sys_call_inv d0 t pc pc' s ths d :
  ths !! t = Some pc -> returned pc = true -> entry false pc' = true ->
  sys_inv d0 (s, ths) d -> sys_inv d0 (s, <[t := pc']> ths) d.
Proof.
  intros Et Hr He [R T P O L]. cbn [fst snd] in *.
  assert (~ in_section pc' /\ pc_ok (ops s) pc') as [Hs Hp].
  { destruct pc'; simpl in He |- *; try done; [|by split; [intros []|]..|by destruct i].
    apply Nat.eqb_eq in He. by split; [intros []|]. }
  constructor; cbn [fst snd]; [done|done| | |].
  - apply all_threads_insert; [done|]. eauto.
  - apply all_threads_insert; [done|]. eauto.
  - destruct (rx_lock s) as [u|]; [|done]. destruct L as (pcu & Eu & Hu & Lu).
    assert (u <> t) by (intros ->; simplify_eq; by destruct pc).
    exists pcu. by rewrite list_lookup_insert_ne.
Qed.

Lemma sys_access_inv d0 t pc s pc' s' ths d :
  ths !! t = Some pc -> tstep t pc s = Some (pc', s') ->
  sys_inv d0 (s, ths) d -> exists d', sys_inv d0 (s', <[t := pc']> ths) d'.
Proof.
  intros Et E [R T P O L]. cbn [fst snd] in *.
  assert (Hlt : (t < length ths)%nat) by by eapply lookup_lt_Some.
  destruct (in_section_dec pc) as [Hin|Hout].
  - destruct (decide (rx_lock s = Some t)) as [El|Hne]; [|by destruct (O t pc Et Hne)].
    rewrite El in L. destruct L as (pc1 & E1 & _ & Ls). rewrite Et in E1. injection E1 as <-.
    destruct (tstep_section _ _ _ _ _ _ E El Hin Ls T)
      as [(Hin' & Eo & El' & Ls')|(Hout' & El' & Ed & Hp' & Ho)].
    + exists d. constructor; cbn [fst snd]; [by rewrite Eo|done| | |].
      * rewrite Eo. apply all_threads_insert; [by apply pc_ok_section|]. eauto.
      * rewrite El'. apply all_threads_insert; [done|]. intros u pcu Hu Eu _. apply (O u pcu Eu). by rewrite El; intros [= ->].
      * rewrite El'. exists pc'. by rewrite list_lookup_insert_eq.
    + assert (Hmono : forall pcu, pc_ok (ops s) pcu -> pc_ok (ops s') pcu).
      { intros pcu. destruct Ho as [[-> _]|(o & -> & _)]; [done|apply pc_ok_app]. }
      exists (dev s). constructor; cbn [fst snd].
      * destruct Ho as [[-> <-]|(o & -> & Ho)]; [done|]. by econstructor.
      * destruct Ho as [[_ ->]|(o & _ & Ho)]; [done|]. by eapply atomic_op_telem.
      * apply all_threads_insert; [done|]. eauto.
      * rewrite El'. apply all_threads_insert; [done|]. intros u pcu Hu Eu _. apply (O u pcu Eu). by rewrite El; intros [= ->].
      * by rewrite El', Ed.
  - assert (Hw : forall i, pc <> Wipe i) by (intros i ->; by apply (P t) in Et).
    destruct (tstep_outside _ _ _ _ _ E Hout Hw) as [(-> & Ho' & Hp')|(El & -> & Hin' & Hs')].
    + exists d. constructor; cbn [fst snd]; [done|done| | |].
      * apply all_threads_insert; [apply Hp'; exact (P t pc Et)|]. intros u pcu _. apply P.
      * apply all_threads_insert; [done|]. intros u pcu _. apply O.
      * destruct (rx_lock s) as [u|]; [|done]. destruct L as (pcu & Eu & Hu & Lu).
        assert (u <> t) by (intros ->; rewrite Et in Eu; by injection Eu as <-).
        exists pcu. by rewrite list_lookup_insert_ne.
    + rewrite El in L. exists d. constructor; cbn [fst snd]; [done|done| | |].
      * apply all_threads_insert; [by apply pc_ok_section|]. eauto.
      * apply all_threads_insert; [done|]. intros u pcu Hu Eu _. apply (O u pcu Eu). by rewrite El.
      * simpl. exists pc'. rewrite list_lookup_insert_eq by done. split_and!; [done..|].
        apply (Hs' d); [by apply (P t)|done].
Qed.

Definition sys_start (d0 : bridge) (n : nat) : shared * list tpc :=
  (Build_shared None d0 [], replicate n TIdle).

Lemma sys_start_inv d0 n : length (last_telem d0) = 16%nat -> sys_inv d0 (sys_start d0 n) d0.
Proof.
  intros Hl. constructor; simpl; [constructor|done| | |done].
  - intros t pc E. by apply lookup_replicate in E as [-> _].
  - intros t pc E _. apply lookup_replicate in E as [-> _]. by intros [].
Qed.

Lemma sys_run_inv d0 n c :
  length (last_telem d0) = 16%nat -> rtc (sys_step false) (sys_start d0 n) c ->
  exists d, sys_inv d0 c d.
Proof.
  intros Hl Hr. apply (rtc_ind_r (R:=sys_step false) (fun c => exists d, sys_inv d0 c d) (sys_start d0 n));
    [exists d0; by apply sys_start_inv| |done].
  intros c1 c2 _ Hs [d I]. destruct Hs; [by eapply sys_access_inv|].
  exists d. by eapply sys_call_inv.
Qed.
(** Runs to evaluate: whose turn it is, or which call a thread starts. *)
Inductive turn := Turn (t : nat) | Call (t : nat) (pc : tpc).

Definition take_turn (closing : bool) (e : turn) (c : shared * list tpc)
    : option (shared * list tpc) :=
  match e with
  | Turn t =>
      pc ← snd c !! t;
      '(pc, s) ← tstep t pc (fst c);
      Some (s, <[t := pc]> (snd c))
  | Call t pc' =>
      pc ← snd c !! t;
      if returned pc && entry closing pc' then Some (fst c, <[t := pc']> (snd c)) else None
  end.

Fixpoint take_turns (closing : bool) (l : list turn) (c : shared * list tpc)
    : option (shared * list tpc) :=
  match l with
  | [] => Some c
  | e :: l => c ← take_turn closing e c; take_turns closing l c
  end.

Lemma take_turn_step closing e c c' :
  take_turn closing e c = Some c' -> sys_step closing c c'.
Proof.
  destruct c as [s ths], e as [t|t pc']; simpl; intros E.
  - destruct (ths !! t) as [pc|] eqn:Et; [|done]. simpl in E.
    destruct (tstep t pc s) as [[pc' s']|] eqn:Es; [|done]. simpl in E. injection E as <-.
    by eapply sys_access.
  - destruct (ths !! t) as [pc|] eqn:Et; [|done]. simpl in E.
    case_match eqn:Eb; [|done]. apply andb_true_iff in Eb as [Hr He]. injection E as <-.
    by eapply sys_call.
Qed.

Lemma take_turns_run closing l c c' :
  take_turns closing l c = Some c' -> rtc (sys_step closing) c c'.
Proof.
  revert c. induction l as [|e l IH]; simpl; intros c E; [by injection E as <-; apply rtc_refl|].
  destruct (take_turn closing e c) as [c1|] eqn:E1; [|done]. simpl in E.
  eapply rtc_l; [by eapply take_turn_step|]. by apply IH.
Qed.

(** ** What the operations add up to *)

Fixpoint taken (l : list rx_op) : list Z :=
  match l with
  | [] => []
  | OpTake _ r :: l => r ++ taken l
  | _ :: l => taken l
  end.

(** the bytes of the pushes that found room, in order *)
Fixpoint accepted (l : list rx_op) (f : kfifo) : list Z :=
  match l with
  | [] => []
  | (OpTelemetry p | OpPush p) :: l => kfifo_fits p f ++ accepted l (snd (kfifo_in p f))
  | OpTake n _ :: l => accepted l (snd (kfifo_out n f))
  | OpSnapshot _ :: l => accepted l f
  end.

Lemma rx_telemetry_fifo p d : rx_fifo (rx_telemetry p d) = rx_fifo d.
Proof. unfold rx_telemetry. cbv zeta. by repeat case_match. Qed.

Inductive fifo_run : kfifo -> list rx_op -> kfifo -> Prop :=
| fifo_nil f : fifo_run f [] f
| fifo_telemetry p l f f' : fifo_run (snd (kfifo_in p f)) l f' -> fifo_run f (OpTelemetry p :: l) f'
| fifo_push_op p l f f' : fifo_run (snd (kfifo_in p f)) l f' -> fifo_run f (OpPush p :: l) f'
| fifo_take n l f f' : fifo_run (snd (kfifo_out n f)) l f' ->
    fifo_run f (OpTake n (take n (kfifo_data f)) :: l) f'
| fifo_snapshot t l f f' : fifo_run f l f' -> fifo_run f (OpSnapshot t :: l) f'.
#[local] Hint Constructors fifo_run : core.

Lemma fifo_run_snoc f l f' o d d' :
  fifo_run f l f' -> rx_fifo d = f' -> atomic_op o d d' -> fifo_run f (l ++ [o]) (rx_fifo d').
Proof.
  intros H Hd Ho. induction H; simpl; auto. subst f.
  destruct Ho; simpl; auto; rewrite ?rx_telemetry_fifo; auto.
Qed.

Lemma atomic_fifo d0 l d : atomic_run d0 l d -> fifo_run (rx_fifo d0) l (rx_fifo d).
Proof. induction 1 as [|l o d d' H IH Ho]; [auto|]. by eapply fifo_run_snoc. Qed.

Lemma fifo_run_stream f l f' :
  fifo_run f l f' -> taken l ++ kfifo_data f' = kfifo_data f ++ accepted l f.
Proof.
  induction 1 as [f|p l f f' _ IH|p l f f' _ IH|n l f f' _ IH|t l f f' _ IH]; simpl.
  - by rewrite app_nil_r.
  - by rewrite IH, kfifo_in_fits, <- app_assoc.
  - by rewrite IH, kfifo_in_fits, <- app_assoc.
  - by rewrite <- app_assoc, IH, kfifo_out_data, app_assoc, take_drop.
  - done.
Qed.

(** a snapshot received whole, or the first *)
Definition whole (d0 : bridge) (l : list rx_op) (t : list Z) : Prop :=
  t = last_telem d0 \/ OpTelemetry t ∈ l.

Lemma whole_app d0 l o t : whole d0 l t -> whole d0 (l ++ o) t.
Proof. unfold whole. rewrite elem_of_app. tauto. Qed.

Lemma atomic_snapshots d0 l d :
  atomic_run d0 l d -> whole d0 l (last_telem d) /\ forall t, OpSnapshot t ∈ l -> whole d0 l t.
Proof.
  induction 1 as [|l o d d' H [IHd IHl] Ho].
  { split; [by left|]. intros t Ht. by apply not_elem_of_nil in Ht. }
  assert (whole d0 (l ++ [o]) (last_telem d')) as Hd.
  { destruct Ho; try by apply whole_app.
    right. simpl. rewrite rx_telemetry_telem. apply elem_of_app. right. by apply list_elem_of_singleton. }
  split; [done|]. intros t [Ht|Ht]%elem_of_app; [by apply whole_app, IHl|].
  apply list_elem_of_singleton in Ht. subst o. inversion Ho; by subst.
Qed.

(** ** The lock and the FIFO in any run, closed descriptors included *)

(** what the owner of the lock has done to the FIFO [f] *)
Definition fifo_section (pc : tpc) (f f' : kfifo) : Prop :=
  match pc with
  | TelemUnlock p | PushUnlock p => f' = snd (kfifo_in p f)
  | ReadUnlock _ r =>
      (fst r <= 0 /\ f' = f) \/
      (0 < fst r /\ f' = snd (kfifo_out (length (snd r)) f) /\
       snd r = take (length (snd r)) (kfifo_data f))
  | _ => f' = f
  end.

Record fifo_inv (f0 : kfifo) (c : shared * list tpc) (f : kfifo) : Prop := {
  fi_run : fifo_run f0 (ops (fst c)) f;
  fi_out : all_threads (fun t pc => rx_lock (fst c) <> Some t -> ~ in_section pc) (snd c);
  fi_lock : match rx_lock (fst c) with
            | None => rx_fifo (dev (fst c)) = f
            | Some t => exists pc, snd c !! t = Some pc /\ in_section pc /\
                fifo_section pc f (rx_fifo (dev (fst c)))
            end;
}.

Lemma fifo_run_op f l f' o f'' :
  fifo_run f l f' -> fifo_run f' [o] f'' -> fifo_run f (l ++ [o]) f''.
Proof. intros H Ho. induction H; simpl; auto. Qed.

(** outside the sections an access leaves the FIFO, the lock and the log alone,
    or takes the free lock *)
Lemma tstep_fifo_outside t pc s pc' s' :
  tstep t pc s = Some (pc', s') -> ~ in_section pc ->
  rx_fifo (dev s') = rx_fifo (dev s) /\ ops s' = ops s /\
  ((rx_lock s' = rx_lock s /\ ~ in_section pc') \/
   (rx_lock s = None /\ rx_lock s' = Some t /\ in_section pc' /\
    fifo_section pc' (rx_fifo (dev s)) (rx_fifo (dev s)))).
Proof.
  intros E Hout. destruct pc; simpl in E, Hout; try done; unfold lock in E.
  all: try (destruct (rx_lock s) eqn:El; [done|]; simplify_eq; split; [done|]; split; [done|];
    by right).
  all: split_and!; repeat case_match; simplify_eq; try done; left; split_and!; try done; by intros [].
Qed.

Lemma fifo_run_take l f : l = take (length l) (kfifo_data f) ->
  fifo_run f [OpTake (length l) l] (snd (kfifo_out (length l) f)).
Proof. intros E. rewrite E at 2. apply fifo_take. auto. Qed.

Lemma tstep_fifo_section t pc s pc' s' f :
  tstep t pc s = Some (pc', s') -> rx_lock s = Some t -> in_section pc ->
  fifo_section pc f (rx_fifo (dev s)) ->
  (in_section pc' /\ ops s' = ops s /\ rx_lock s' = Some t /\ fifo_section pc' f (rx_fifo (dev s'))) \/
  (~ in_section pc' /\ rx_lock s' = None /\ rx_fifo (dev s') = rx_fifo (dev s) /\
   ((ops s' = ops s /\ rx_fifo (dev s) = f) \/
    exists o, ops s' = ops s ++ [o] /\ fifo_run f [o] (rx_fifo (dev s)))).
Proof.
  intros E Hl Hin Hs. destruct pc as [ |p|p i|p|p|p|p|p| |acc|acc|acc|c|c|c|c r|c l|r|i];
    simpl in Hin; try done; simpl in Hs.
  - simpl in E. left. case_match; simplify_eq; by split_and!.
  - injection E as <- <-. left. split_and!; try done.
    change (snd (kfifo_in p (rx_fifo (rx_telemetry (last_telem (dev s)) (dev s)))) =
            snd (kfifo_in p f)).
    by rewrite rx_telemetry_fifo, Hs.
  - injection E as <- <-. right. split; [by intros []|]. split_and!; [done..|]. right.
    eexists. split; [done|]. rewrite Hs. auto.
  - injection E as <- <-. left. split_and!; try done. simpl. by rewrite Hs.
  - injection E as <- <-. right. split; [by intros []|]. split_and!; [done..|]. right.
    eexists. split; [done|]. rewrite Hs. auto.
  - simpl in E. left. case_match; simplify_eq; by split_and!.
  - injection E as <- <-. right. split; [by intros []|]. split_and!; [done..|]. right.
    eexists. split; [done|]. rewrite Hs. auto.
  - left. cbn [tstep read_step] in E. cbv zeta in E.
    set (n := Nat.min (rc_count c) (length (kfifo_data (rx_fifo (dev s))))) in *.
    destruct (Nat.eqb_spec n 0); [injection E as <- <-; split_and!; try done; by left|].
    destruct (kmalloc (rc_env c) 0 n); [|injection E as <- <-; split_and!; try done; by left].
    pose proof (kfifo_out_bytes n (rx_fifo (dev s))) as Eb.
    destruct (kfifo_out n (rx_fifo (dev s))) as [lo f1] eqn:Ef. injection E as <- <-.
    simpl in Eb. assert (length lo = n) as Ln by (rewrite Eb, length_take; lia).
    split_and!; try done. right. simpl. split; [lia|]. by rewrite Ln, <- Hs, Ef.
  - cbn [tstep read_step] in E. cbv zeta in E. right.
    destruct Hs as [[Hr Ed]|(Hr & Ed & Er)].
    + rewrite (proj2 (Z.ltb_ge _ _)) in E by done. injection E as <- <-.
      split; [by intros []|]. split_and!; [done..|]. left. split; [apply app_nil_r|done].
    + rewrite (proj2 (Z.ltb_lt _ _)) in E by done. injection E as <- <-.
      split; [by intros []|]. split_and!; [done..|]. right. eexists. split; [done|].
      rewrite Ed. by apply fifo_run_take.
Qed.

Lemma fifo_access_inv f0 t pc s pc' s' ths f :
  ths !! t = Some pc -> tstep t pc s = Some (pc', s') ->
  fifo_inv f0 (s, ths) f -> exists f', fifo_inv f0 (s', <[t := pc']> ths) f'.
Proof.
  intros Et E [R O L]. cbn [fst snd] in *.
  assert (Hlt : (t < length ths)%nat) by by eapply lookup_lt_Some.
  destruct (in_section_dec pc) as [Hin|Hout].
  - destruct (decide (rx_lock s = Some t)) as [El|Hne]; [|by destruct (O t pc Et Hne)].
    rewrite El in L. destruct L as (pc1 & E1 & _ & Ls). rewrite Et in E1. injection E1 as <-.
    assert (Hothers : forall l' u pcu, u <> t -> ths !! u = Some pcu -> l' <> Some u -> ~ in_section pcu)
      by (intros l' u pcu Hu Eu _; apply (O u pcu Eu); by rewrite El; intros [= ->]).
    destruct (tstep_fifo_section _ _ _ _ _ _ E El Hin Ls)
      as [(Hin' & Eo & El' & Ls')|(Hout' & El' & Ed & Ho)].
    + exists f. constructor; cbn [fst snd]; [by rewrite Eo| |].
      * apply all_threads_insert; [by rewrite El'|]. eauto.
      * rewrite El'. exists pc'. by rewrite list_lookup_insert_eq.
    + exists (rx_fifo (dev s)). constructor; cbn [fst snd].
      * destruct Ho as [[-> ->]|(o & -> & Ho)]; [done|]. by eapply fifo_run_op.
      * apply all_threads_insert; [done|]. eauto.
      * by rewrite El', Ed.
  - destruct (tstep_fifo_outside _ _ _ _ _ E Hout) as (Ed & Eo & [[El Ho']|(El & El' & Hin' & Hs')]).
    + exists f. constructor; cbn [fst snd]; [by rewrite Eo| |].
      * apply all_threads_insert; [done|]. rewrite El. intros u pcu _. apply O.
      * rewrite El. destruct (rx_lock s) as [u|]; [|by rewrite Ed].
        destruct L as (pcu & Eu & Hu & Lu).
        assert (u <> t) by (intros ->; rewrite Et in Eu; by injection Eu as <-).
        exists pcu. by rewrite list_lookup_insert_ne, Ed.
    + rewrite El in L. exists f. constructor; cbn [fst snd]; [by rewrite Eo| |].
      * apply all_threads_insert; [by rewrite El'|]. intros u pcu _ Eu _. apply (O u pcu Eu). by rewrite El.
      * rewrite El'. exists pc'. rewrite list_lookup_insert_eq by done. rewrite Ed, <- L. done.
Qed.

Lemma fifo_call_inv closing f0 t pc pc' s ths f :
  ths !! t = Some pc -> returned pc = true -> entry closing pc' = true ->
  fifo_inv f0 (s, ths) f -> fifo_inv f0 (s, <[t := pc']> ths) f.
Proof.
  intros Et Hr He [R O L]. cbn [fst snd] in *.
  assert (~ in_section pc') as Hs by (by destruct pc'; simpl in He |- *; try done; intros []).
  constructor; cbn [fst snd]; [done|apply all_threads_insert; [done|]; eauto|].
  destruct (rx_lock s) as [u|]; [|done]. destruct L as (pcu & Eu & Hu & Lu).
  assert (u <> t) by (intros ->; simplify_eq; by destruct pc).
  exists pcu. by rewrite list_lookup_insert_ne.
Qed.

(** ** What each reader is given *)

(** a reader takes a piece under the lock, and returns [k] for it *)
Inductive read_event := Took (t : nat) (l : list Z) | Gave (t : nat) (k : Z) (l : list Z).

Definition read_events (t : nat) (pc pc' : tpc) : list read_event :=
  match pc, pc' with
  | ReadUnlock c r, _ => if 0 <? fst r then [Took t (snd r)] else []
  | ReadCopy c l, ReadDone r => [Gave t (fst r) l]
  | _, _ => []
  end.

(** the runs, with what the readers did in them *)
Inductive sys_run (closing : bool) (d0 : bridge) (n : nat) : list read_event -> shared * list tpc -> Prop :=
| run_start : sys_run closing d0 n [] (sys_start d0 n)
| run_access ev t pc s pc' s' ths :
    sys_run closing d0 n ev (s, ths) -> ths !! t = Some pc -> tstep t pc s = Some (pc', s') ->
    sys_run closing d0 n (ev ++ read_events t pc pc') (s', <[t := pc']> ths)
| run_call ev t pc pc' s ths :
    sys_run closing d0 n ev (s, ths) -> ths !! t = Some pc -> returned pc = true ->
    entry closing pc' = true -> sys_run closing d0 n ev (s, <[t := pc']> ths).

Lemma sys_run_events closing d0 n c :
  rtc (sys_step closing) (sys_start d0 n) c -> exists ev, sys_run closing d0 n ev c.
Proof.
  intros Hr. apply (rtc_ind_r (R:=sys_step closing) (fun c => exists ev, sys_run closing d0 n ev c)
    (sys_start d0 n)); [eexists; apply run_start| |done].
  intros c1 c2 _ [] [ev Hev]; eexists; [by eapply run_access|by eapply run_call].
Qed.

Lemma run_fifo_inv closing d0 n ev c :
  sys_run closing d0 n ev c -> exists f, fifo_inv (rx_fifo d0) c f.
Proof.
  induction 1 as [|ev t pc s pc' s' ths _ [f I] Et E|ev t pc pc' s ths _ [f I] Et Hr He].
  - exists (rx_fifo d0). constructor; simpl; [constructor| |done].
    intros t pc E _. apply lookup_replicate in E as [-> _]. by intros [].
  - by eapply fifo_access_inv.
  - exists f. by eapply fifo_call_inv.
Qed.

(** all the pieces, those of thread [t], and the results of thread [t] *)
Definition pieces (ev : list read_event) : list (list Z) :=
  omap (fun e => match e with Took _ l => Some l | _ => None end) ev.
Definition pieces_of (t : nat) (ev : list read_event) : list (list Z) :=
  omap (fun e => match e with Took u l => if decide (u = t) then Some l else None | _ => None end) ev.
Definition results_of (t : nat) (ev : list read_event) : list (Z * list Z) :=
  omap (fun e => match e with Gave u k l => if decide (u = t) then Some (k, l) else None | _ => None end) ev.

(** the piece a thread has taken and not yet returned *)
Definition in_hand (pc : tpc) : list (list Z) := match pc with ReadCopy _ l => [l] | _ => [] end.

(** a result is the length of its piece, or -EFAULT *)
Definition result_ok (r : Z * list Z) : Prop :=
  fst r = Z.of_nat (length (snd r)) \/ fst r = - EFAULT.

Record reads_inv (ev : list read_event) (c : shared * list tpc) : Prop := {
  ri_taken : taken (ops (fst c)) = concat (pieces ev);
  ri_pieces : all_threads (fun t pc => pieces_of t ev = (snd <$> results_of t ev) ++ in_hand pc) (snd c);
  ri_results : forall t, Forall result_ok (results_of t ev);
  ri_last : all_threads (fun t pc => forall k l, pc = ReadDone (k, l) -> 0 < k ->
    last (results_of t ev) = Some (k, l)) (snd c);
}.

Lemma taken_app l o : taken (l ++ o) = taken l ++ taken o.
Proof. induction l as [|[p|p|t|n r] l IH]; simpl; [done|exact IH..|]. by rewrite IH, app_assoc. Qed.

(** events of one thread leave the others' alone *)
Lemma events_other t u pc pc' : u <> t ->
  pieces_of u (read_events t pc pc') = [] /\ results_of u (read_events t pc pc') = [].
Proof.
  intros Hne. unfold read_events. repeat case_match; try done; simpl;
    by rewrite decide_False by done.
Qed.

(** what an access does to the log and to its own thread's pieces *)
Lemma tstep_reads t pc s pc' s' : tstep t pc s = Some (pc', s') ->
  let ev := read_events t pc pc' in
  taken (ops s') = taken (ops s) ++ concat (pieces ev) /\
  in_hand pc ++ pieces_of t ev = (snd <$> results_of t ev) ++ in_hand pc' /\
  Forall result_ok (results_of t ev) /\
  (forall k l, pc' = ReadDone (k, l) -> 0 < k -> last (results_of t ev) = Some (k, l)).
Proof.
  intros E. destruct pc as [ |p|p i|p|p|p|p|p| |acc|acc|acc|c|c|c|c r|c l|r|i]; try done.
  all: try (simpl in E; unfold lock, unlock in E; repeat case_match; simplify_eq;
    split_and!; simpl; rewrite ?taken_app, ?app_nil_r; try done;
    by intros ? ? [= <- <-]).
  - cbn [tstep read_step] in E. cbv zeta in E. injection E as <- <-. simpl.
    destruct (Z.ltb_spec 0 (fst r)); simpl; rewrite taken_app; simpl;
      rewrite ?decide_True by done; rewrite ?app_nil_r; split_and!; try done.
    intros k l [= ->] Hk. simpl in *. lia.
  - simpl in E. unfold read_events. case_match; injection E as <- <-; simpl;
      rewrite decide_True, app_nil_r by done; split_and!; try done;
      try (intros k l' [= <- <-] Hk; done); constructor; try done; [by right|by left].
Qed.

Lemma reads_run_inv closing d0 n ev c : sys_run closing d0 n ev c -> reads_inv ev c.
Proof.
  induction 1 as [|ev t pc s pc' s' ths _ [Tk P R L] Et E|ev t pc pc' s ths _ [Tk P R L] Et Hr He].
  - constructor; simpl; [done| |constructor|].
    + intros t pc E. by apply lookup_replicate in E as [-> _].
    + intros t pc E k l ->. by apply lookup_replicate in E as [? _].
  - cbn [fst snd] in *. destruct (tstep_reads _ _ _ _ _ E) as (Ht & Hp & Hres & Hl).
    assert (Happ : forall u, pieces_of u (ev ++ read_events t pc pc') =
        pieces_of u ev ++ pieces_of u (read_events t pc pc') /\
      results_of u (ev ++ read_events t pc pc') =
        results_of u ev ++ results_of u (read_events t pc pc')) by (intros; by split; apply omap_app).
    assert (Hoth : forall u, u <> t -> pieces_of u (ev ++ read_events t pc pc') = pieces_of u ev /\
      results_of u (ev ++ read_events t pc pc') = results_of u ev).
    { intros u Hu. destruct (events_other t u pc pc' Hu) as [E1 E2].
      destruct (Happ u) as [-> ->]. by rewrite E1, E2, !app_nil_r. }
    constructor; cbn [fst snd].
    + unfold pieces in *. by rewrite omap_app, concat_app, Ht, Tk.
    + apply all_threads_insert.
      * destruct (Happ t) as [-> ->]. rewrite (P t pc Et), <- app_assoc, Hp, fmap_app. by rewrite app_assoc.
      * intros u pcu Hu Eu. destruct (Hoth u Hu) as [-> ->]. by apply P.
    + intros u. destruct (Happ u) as [_ ->]. apply Forall_app. split; [done|].
      destruct (decide (u = t)) as [->|Hu]; [done|]. by rewrite (proj2 (events_other t u pc pc' Hu)).
    + apply all_threads_insert.
      * intros k l -> Hk. destruct (Happ t) as [_ ->]. by rewrite last_app, (Hl k l).
      * intros u pcu Hu Eu. destruct (Hoth u Hu) as [_ ->]. by apply (L u).
  - cbn [fst snd] in *. constructor; cbn [fst snd]; [done| |done|].
    + apply all_threads_insert; [|by eauto]. rewrite (P t pc Et). f_equal. by destruct pc, pc'.
    + apply all_threads_insert; [|by eauto]. intros k l ->. done.
Qed.

(** ** Properties *)

(** C29: the sections of rx_lock exclude each other, in every run of the receive
    work, read(), write(), GET_TELEMETRY and release() on any number of threads.
    As long as the last descriptor is not closed, they also act as whole
    operations: whenever the lock is free the device is what the finished
    operations make of it in their order, and a thread that has returned from
    GET_TELEMETRY holds a snapshot that was received whole, or the first one,
    never a mix of two.  release(), whose wipe takes no lock, is left out of the
    second part because it breaks it ([wipe_tears_snapshot]). *)
Theorem lock_sections_atomic (closing : bool) (d0 : bridge) (n : nat) (s : shared) (ths : list tpc)
    (H0 : length (last_telem d0) = 16%nat)
    (Hr : rtc (sys_step closing) (sys_start d0 n) (s, ths)) :
  (forall t u pct pcu, ths !! t = Some pct -> ths !! u = Some pcu ->
     in_section pct -> in_section pcu -> t = u) /\
  (closing = false ->
     (rx_lock s = None -> atomic_run d0 (ops s) (dev s)) /\
     (forall t acc, ths !! t = Some (GetDone acc) -> whole d0 (ops s) acc)).
Proof.
  split.
  - apply sys_run_events in Hr as [ev Hr]. destruct (run_fifo_inv _ _ _ _ _ Hr) as [f [_ O _]].
    cbn [fst snd] in *. intros t u pct pcu Et Eu Ht Hu.
    destruct (decide (rx_lock s = Some t)) as [El|Hne]; [|by destruct (O t pct Et Hne)].
    destruct (decide (rx_lock s = Some u)) as [El'|Hne]; [congruence|by destruct (O u pcu Eu Hne)].
  - intros ->. destruct (sys_run_inv _ _ _ H0 Hr) as [d [R T P O L]]. cbn [fst snd] in *. split.
    + intros El. rewrite El in L. by subst d.
    + intros t acc Et. apply (atomic_snapshots _ _ _ R). by apply (P t) in Et.
Qed.

(** C30: concurrent readers share one stream, in every run, closes included.
    The pieces the readers took, in the order they held the lock, followed by
    the bytes still queued, are the bytes queued at the start followed by those
    of the accepted pushes: no byte is taken twice, or skipped.  Each thread
    returns its pieces one by one in the order it took them, each exactly once:
    the results of its finished calls are those pieces, with at most the last
    one still in hand.  A result is the length of its piece, which the caller
    then has, or -EFAULT when the user's buffer is too small: that piece is lost. *)
Theorem readers_share_stream (closing : bool) (d0 : bridge) (n : nat)
    (ev : list read_event) (s : shared) (ths : list tpc)
    (Hr : sys_run closing d0 n ev (s, ths)) :
  (rx_lock s = None ->
     concat (pieces ev) ++ kfifo_data (rx_fifo (dev s)) =
       kfifo_data (rx_fifo d0) ++ accepted (ops s) (rx_fifo d0)) /\
  (forall t pc, ths !! t = Some pc ->
     pieces_of t ev = (snd <$> results_of t ev) ++ in_hand pc) /\
  (forall t k l, (k, l) ∈ results_of t ev -> k = Z.of_nat (length l) \/ k = - EFAULT) /\
  (forall t k l, ths !! t = Some (ReadDone (k, l)) -> 0 < k ->
     last (results_of t ev) = Some (k, l)).
Proof.
  destruct (reads_run_inv _ _ _ _ _ Hr) as [Tk P R L]. cbn [fst snd] in *. split_and!.
  - intros Hfree. destruct (run_fifo_inv _ _ _ _ _ Hr) as [f [Hf _ Hl]]. cbn [fst snd] in *.
    rewrite Hfree in Hl. subst f. rewrite <- Tk. by apply fifo_run_stream.
  - exact P.
  - intros t k l Hin. exact (proj1 (Forall_forall _ _) (R t) _ Hin).
  - intros t k l Et Hk. by apply (L t _ Et k l).
Qed.
End Threads.

(** ** Concrete runs *)

Definition read_16 : read_call := Build_read_call dead_env false false 16 16.
Definition ones : list Z := replicate 16 1.
Definition driver0 : bridge (K := list_kfifo) := bridge_kzalloc 1000000.

(** a snapshot is stored while another thread waits to copy it out *)
Definition store_and_get : list turn :=
  [Call 0 (TelemLock ones); Turn 0; Call 1 GetLock] ++ replicate 19 (Turn 0) ++ replicate 19 (Turn 1).

Lemma store_and_get_result :
  (fun c => (snd c !! 1%nat, rx_lock (fst c))) <$> take_turns false store_and_get (sys_start driver0 2) =
    Some (Some (GetDone ones), None).
Proof. vm_compute. reflexivity. Qed.

Lemma lock_sections_atomic_witness :
  exists s ths, take_turns false store_and_get (sys_start driver0 2) = Some (s, ths) /\
    ths !! 1%nat = Some (GetDone ones) /\ atomic_run driver0 (ops s) (dev s) /\
    whole driver0 (ops s) ones.
Proof.
  pose proof store_and_get_result as H.
  destruct (take_turns false store_and_get (sys_start driver0 2)) as [[s ths]|] eqn:E; [|done].
  injection H as H1 H2. exists s, ths. split; [done|]. split; [done|].
  destruct (lock_sections_atomic false driver0 2 s ths) as (_ & Ha).
  - reflexivity.
  - by apply take_turns_run in E.
  - destruct (Ha eq_refl) as [Hd Hw]. split; [by apply Hd|]. by apply (Hw 1%nat).
Defined.

(** two readers and four bytes: both find the FIFO not empty, one takes it all *)
Definition two_readers : list turn :=
  [Call 0 (PushLock [1; 2; 3; 4])] ++ replicate 3 (Turn 0) ++
  [Call 1 (ReadTest read_16); Call 2 (ReadTest read_16); Turn 1; Turn 2] ++
  replicate 4 (Turn 1) ++ replicate 3 (Turn 2).

Definition reads_of (c : shared (K := list_kfifo) * list tpc) : list (Z * list Z) :=
  omap (fun pc => match pc with ReadDone r => Some r | _ => None end) (snd c).

Lemma two_readers_result :
  (fun c => (reads_of c, rx_lock (fst c), taken (ops (fst c)))) <$>
    take_turns false two_readers (sys_start driver0 3) =
    Some ([(4, [1; 2; 3; 4]); (0, [])], None, [1; 2; 3; 4]).
Proof. vm_compute. reflexivity. Qed.

Lemma readers_share_stream_witness :
  exists ev s ths, sys_run false driver0 3 ev (s, ths) /\
    ths !! 1%nat = Some (ReadDone (4, [1; 2; 3; 4])) /\
    pieces_of 1 ev = snd <$> results_of 1 ev /\ last (results_of 1 ev) = Some (4, [1; 2; 3; 4]) /\
    concat (pieces ev) ++ kfifo_data (rx_fifo (dev s)) = accepted (ops s) (rx_fifo driver0).
Proof.
  assert (H : (fun c => (snd c !! 1%nat, rx_lock (fst c))) <$>
      take_turns false two_readers (sys_start driver0 3) =
    Some (Some (ReadDone (4, [1; 2; 3; 4])), None)) by (vm_compute; reflexivity).
  destruct (take_turns false two_readers (sys_start driver0 3)) as [[s ths]|] eqn:E; [|done].
  injection H as H1 H2. apply take_turns_run, sys_run_events in E as [ev Hev].
  exists ev, s, ths. split; [exact Hev|]. split; [exact H1|].
  destruct (readers_share_stream false driver0 3 ev s ths Hev) as (Hs & Hp & _ & Hl).
  split; [rewrite (Hp _ _ H1); apply app_nil_r|]. split; [by apply Hl|]. exact (Hs H2).
Defined.

(** The emptiness test of read() is outside the lock: a blocking reader with
    room for 16 bytes returns 0, the end-of-file answer, when another takes the
    bytes in between.  apex_bridge_read on its own never does that: on an empty
    FIFO it sleeps. *)
Lemma reader_sees_end_of_file :
  exists c, rtc (sys_step false) (sys_start driver0 3) c /\ (0, []) ∈ reads_of c /\
    fst (apex_bridge_read dead_env false false 16 16 driver0) = None.
Proof.
  pose proof two_readers_result as H.
  destruct (take_turns false two_readers (sys_start driver0 3)) as [c|] eqn:E; [|done].
  injection H as H1 H2 H3. exists c. split; [by apply take_turns_run in E|]. split; [|vm_compute; reflexivity].
  rewrite H1. apply elem_of_cons. right. by apply list_elem_of_singleton.
Qed.

(** The wipe of release() takes no lock: a snapshot that arrives while it runs
    is left half wiped, and the next session reads a snapshot that the firmware
    never sent. *)
Definition wiped_while_stored : list turn :=
  [Call 2 (Wipe 0)] ++ replicate 8 (Turn 2) ++ [Call 0 (TelemLock ones)] ++ replicate 20 (Turn 0) ++
  replicate 9 (Turn 2) ++ [Call 1 GetLock] ++ replicate 19 (Turn 1).

Lemma wipe_tears_snapshot :
  exists s ths, rtc (sys_step true) (sys_start driver0 3) (s, ths) /\
    ths !! 1%nat = Some (GetDone (replicate 8 1 ++ replicate 8 0)) /\
    ~ whole driver0 (ops s) (replicate 8 1 ++ replicate 8 0).
Proof.
  assert (H : (fun c => (snd c !! 1%nat, ops (fst c))) <$>
      take_turns true wiped_while_stored (sys_start driver0 3) =
    Some (Some (GetDone (replicate 8 1 ++ replicate 8 0)),
          [OpTelemetry ones; OpSnapshot (replicate 8 1 ++ replicate 8 0)]))
    by (vm_compute; reflexivity).
  destruct (take_turns true wiped_while_stored (sys_start driver0 3)) as [[s ths]|] eqn:E; [|done].
  injection H as H1 H2. exists s, ths. split; [by apply take_turns_run in E|]. split; [done|].
  cbn [fst] in H2. rewrite H2. intros [Hw|Hw]; [done|].
  apply elem_of_cons in Hw as [[=]|Hw]. by apply list_elem_of_singleton in Hw.
Qed.
