(* ===== verification/ApexSysfs.v ===== *)
(** * The sysfs attributes of the driver (apex_bridge.c)

    Each [_show] function is the text it prints for a device: decimal numbers
    as stdpp's [pretty] writes them, hexadecimal ones with [hex]. *)

From stdpp Require Import strings pretty.
From S2P Require Import Prelude Crc Frame Kernel ApexDev SgEngine.

Open Scope string_scope.

Definition newline : string := String (Ascii.ascii_of_nat 10) EmptyString.

(** "%d\n" and "%u\n" of a value that is in range *)
Definition line (v : Z) : string := pretty v +:+ newline.

Definition hex_digit (v : Z) : string :=
  match String.get (Z.to_nat v) "0123456789abcdef" with
  | Some c => String c EmptyString
  | None => EmptyString
  end.

(** the [n] low hexadecimal digits of [v] *)
Fixpoint hex (n : nat) (v : Z) : string :=
  match n with
  | O => EmptyString
  | S k => hex k (v / 16) +:+ hex_digit (v mod 16)
  end.

Section Sysfs.
Context {K : Kfifo}.

(** fields of struct apex_telemetry *)
Definition telem_le16 (off : nat) (d : bridge) : Z := read_le16 (drop off (last_telem d)).

Definition rssi_dbm_x10_show (d : bridge) : string := line (s16 (telem_le16 0 d)).
Definition temp_c_x10_show (d : bridge) : string := line (s16 (telem_le16 2 d)).
Definition vbat_mv_show (d : bridge) : string := line (telem_le16 4 d).
Definition cc1101_rssi_x10_show (d : bridge) : string := line (s16 (telem_le16 6 d)).
Definition nfc_field_mv_show (d : bridge) : string := line (telem_le16 8 d).
Definition mcu_flags_show (d : bridge) : string := "0x" +:+ hex 4 (telem_le16 10 d) +:+ newline.
Definition uptime_ms_show (d : bridge) : string := line (read_le32 (drop 12 (last_telem d))).

Definition driver_status (d : bridge) : Z :=
  let status := if test_bit APEX_FLAG_MCU_READY d then BIT 0 else 0 in
  let status := if test_bit APEX_FLAG_MCU_RESET d then Z.lor status (BIT 1) else status in
  if test_bit APEX_FLAG_SPI_ERROR d then Z.lor status (BIT 2) else status.
Definition driver_status_show (d : bridge) : string := "0x" +:+ hex 8 (driver_status d) +:+ newline.

(** atomic_t is an int, printed with %u *)
Definition spi_errors_show (d : bridge) : string := line (u32 (spi_err_count d)).
Definition brownout_count_show (d : bridge) : string := line (u32 (brownout_count d)).
Definition rx_fifo_count_show (d : bridge) : string := line (kfifo_len (rx_fifo d)).
Definition tx_fifo_count_show (d : bridge) : string := line (kfifo_len (tx_fifo d)).
Definition low_battery_show (d : bridge) : string :=
  line (if test_bit APEX_FLAG_LOW_BATTERY d then 1 else 0).

Definition sg_state_show (d : bridge) : string :=
  ((if (sg_state (sg d) =? APEX_SG_STATE_IDLE)%Z then "idle"
   else if (sg_state (sg d) =? APEX_SG_STATE_RUNNING)%Z then "running"
   else if (sg_state (sg d) =? APEX_SG_STATE_ERROR)%Z then "error"
   else "unknown")) +:+ newline.
Definition sg_total_bytes_show (d : bridge) : string := line (total_transferred (sg d)).
Definition sg_overruns_show (d : bridge) : string := line (overruns (sg d)).
Definition sg_errors_show (d : bridge) : string := line (errors (sg d)).
Definition sg_frames_rx_show (d : bridge) : string := line (frames_rx (sg d)).
Definition sg_buf_count_show (d : bridge) : string := line (buf_count (sg d)).
Definition sg_buf_size_show (d : bridge) : string := line (buf_size (sg d)).
Definition sg_frames_crc_err_show (d : bridge) : string := line (frames_crc_err (sg d)).

Definition apex_bridge_attrs : list (string * (bridge -> string)) :=
  [("rssi_dbm_x10", rssi_dbm_x10_show); ("temp_c_x10", temp_c_x10_show);
   ("vbat_mv", vbat_mv_show); ("cc1101_rssi_x10", cc1101_rssi_x10_show);
   ("nfc_field_mv", nfc_field_mv_show); ("mcu_flags", mcu_flags_show);
   ("uptime_ms", uptime_ms_show); ("driver_status", driver_status_show);
   ("spi_errors", spi_errors_show); ("rx_fifo_count", rx_fifo_count_show);
   ("tx_fifo_count", tx_fifo_count_show); ("brownout_count", brownout_count_show);
   ("low_battery", low_battery_show); ("sg_state", sg_state_show);
   ("sg_total_bytes", sg_total_bytes_show); ("sg_overruns", sg_overruns_show);
   ("sg_errors", sg_errors_show); ("sg_frames_rx", sg_frames_rx_show);
   ("sg_buf_count", sg_buf_count_show); ("sg_buf_size", sg_buf_size_show);
   ("sg_frames_crc_err", sg_frames_crc_err_show)].

(** what reading the file of that name gives *)
Definition read_attr (name : string) (d : bridge) : option string :=
  r ← list_find (fun a => a.1 = name) apex_bridge_attrs; Some (r.2.2 d).

Lemma attr_names : NoDup (fst <$> apex_bridge_attrs).
Proof. apply (bool_decide_unpack _). vm_compute. exact I. Qed.

Lemma read_attr_lookup i n f d : apex_bridge_attrs !! i = Some (n, f) -> read_attr n d = Some (f d).
Proof.
  intros Hi. unfold read_attr. destruct (list_find _ _) as [[j a]|] eqn:E.
  - apply list_find_Some in E as (Hj & Ha & _).
    assert (i = j) as <-.
    { apply (NoDup_lookup _ _ _ n attr_names); rewrite list_lookup_fmap, ?Hi, ?Hj; [done|].
      cbn. by rewrite Ha. }
    rewrite Hi in Hj. injection Hj as <-. done.
  - rewrite list_find_None, Forall_lookup in E. by destruct (E i _ Hi).
Qed.
End Sysfs.

(** ** Nothing is lost in the text *)

Lemma string_length_app (s t : string) : String.length (s +:+ t) = (String.length s + String.length t)%nat.
Proof.
  induction s as [|a s IH]; [done|].
  change (S (String.length (s +:+ t)) = S (String.length s + String.length t)). by rewrite IH.
Qed.

Lemma string_app_inj (s t u v : string) : String.length s = String.length t ->
  s +:+ u = t +:+ v -> s = t /\ u = v.
Proof.
  revert t. induction s as [|a s IH]; intros [|b t] L H; try done.
  injection L as L. injection H as -> H. by destruct (IH t L H) as [-> ->].
Qed.

Lemma string_app_inj_r (s t u : string) : s +:+ u = t +:+ u -> s = t.
Proof.
  intros H. assert (String.length s = String.length t) as L.
  { apply (f_equal String.length) in H. rewrite !string_length_app in H. lia. }
  by apply (string_app_inj _ _ _ _ L) in H as [-> _].
Qed.

#[export] Instance line_inj : Inj (=) (=) line.
Proof. intros v w H. apply (inj pretty). by eapply string_app_inj_r. Qed.

Lemma hex_digit_length v : (0 <= v < 16)%Z -> String.length (hex_digit v) = 1%nat.
Proof.
  intros Hv. assert (In v (seqZ 0 16)) as H by (apply list_elem_of_In, elem_of_seqZ; lia).
  cbn in H. repeat (destruct H as [<-|H]; [reflexivity|]). done.
Qed.

Lemma hex_digit_inj v w : (0 <= v < 16)%Z -> (0 <= w < 16)%Z -> hex_digit v = hex_digit w -> v = w.
Proof.
  intros Hv Hw.
  assert (In v (seqZ 0 16)) as H1 by (apply list_elem_of_In, elem_of_seqZ; lia).
  assert (In w (seqZ 0 16)) as H2 by (apply list_elem_of_In, elem_of_seqZ; lia).
  cbn in H1, H2. repeat (destruct H1 as [<-|H1]; [repeat (destruct H2 as [<-|H2]; [try done|]); done|]). done.
Qed.

Lemma hex_length n v : String.length (hex n v) = n.
Proof.
  revert v. induction n as [|n IH]; intros v; [done|]. cbn [hex].
  rewrite string_length_app, IH, hex_digit_length by (apply Z.mod_pos_bound; lia). lia.
Qed.

Lemma hex_inj n v w : (0 <= v < 16 ^ Z.of_nat n)%Z -> (0 <= w < 16 ^ Z.of_nat n)%Z ->
  hex n v = hex n w -> v = w.
Proof.
  revert v w. induction n as [|n IH]; intros v w Hv Hw H; [cbn in *; lia|].
  rewrite Nat2Z.inj_succ, Z.pow_succ_r in Hv, Hw by lia. cbn [hex] in H.
  apply string_app_inj in H as [Hh Hd]; [|by rewrite !hex_length].
  apply IH in Hh; [|split; [apply Z.div_pos; lia|apply Z.div_lt_upper_bound; lia]..].
  apply hex_digit_inj in Hd; [|apply Z.mod_pos_bound; lia..].
  rewrite (Z.div_mod v 16), (Z.div_mod w 16) by lia. by rewrite Hh, Hd.
Qed.

Example demo_status_text :
  driver_status_show demo_bridge = "0x00000000" +:+ newline /\
  rssi_dbm_x10_show (demo_bridge <| last_telem := [0xFE; 0xFF; 0; 0; 0; 0; 0; 0; 0; 0; 0; 0; 0; 0; 0; 0] |>)
    = "-2" +:+ newline.
Proof. split; reflexivity. Qed.
