(* ===== verification/SpiSlave.v ===== *)
(** * A chip on an SPI bus, seen from the firmware

    The radio chips are not part of the repository.  [SpiSlave] is what the
    firmware uses of one: edges of its chip select, full-duplex byte
    exchanges, and an input pin it drives.  A driver runs on a [port]: the
    chip and the ordered bus events of the driver.  The datasheet facts a
    theorem needs are further laws, stated where they are used. *)

From S2P Require Import Prelude Board.

Class SpiSlave := {
  slave : Type;
  (** chip select driven low ([true]) or high *)
  sl_cs : bool -> slave -> slave;
  (** the byte clocked in while one is clocked out *)
  sl_xfer : Z -> slave -> Z * slave;
  (** the level of the chip's pin at the [k]-th read since the last edge *)
  sl_pin : nat -> slave -> bool;
  sl_xfer_byte : forall b s, byte (fst (sl_xfer b s));
}.

Section Port.
Context {Sl : SpiSlave}.

Record port := { chip : slave; wire : list bus_event }.
#[export] Instance eta_port : Eta port := eta! Build_port < chip ; wire >.

(** the bus side of apex_cc1101_cs_assert and its siblings *)
Definition cs_assert (p : port) : port :=
  p <| chip ::= sl_cs true |> <| wire ::= fun t => t ++ [CsLow] |>.
Definition cs_release (p : port) : port :=
  p <| chip ::= sl_cs false |> <| wire ::= fun t => t ++ [CsHigh] |>.

Definition spi_xfer (tx_byte : Z) (p : port) : Z * port :=
  let (r, c) := sl_xfer (u8 tx_byte) (chip p) in
  (r, p <| chip := c |> <| wire ::= fun t => t ++ [BusTx (u8 tx_byte)] |>).

Fixpoint spi_xfers (l : list Z) (p : port) : list Z * port :=
  match l with
  | [] => ([], p)
  | b :: l => let (r, p) := spi_xfer b p in let (rs, p) := spi_xfers l p in (r :: rs, p)
  end.

(** one transaction: select, exchange, release *)
Definition transact (l : list Z) (p : port) : list Z * port :=
  let (rs, p) := spi_xfers l (cs_assert p) in (rs, cs_release p).

(** Driver code: a value computed while the port changes. *)
Definition bus (A : Type) : Type := port -> A * port.
#[export] Instance bus_ret : MRet bus := fun A a p => (a, p).
#[export] Instance bus_bind : MBind bus := fun A B f m p => let (a, q) := m p in f a q.

Definition select : bus unit := fun p => (tt, cs_assert p).
Definition release : bus unit := fun p => (tt, cs_release p).
Definition transfer (l : list Z) : bus (list Z) := transact l.

(** poll the chip's pin at most [n] times until it is low *)
Fixpoint pin_low (n k : nat) (c : slave) : bool :=
  match n with O => false | S n => if sl_pin k c then pin_low n (S k) c else true end.
Definition wait_pin_low (n : nat) : bus bool := fun p => (pin_low n 0 (chip p), p).

(** what a transaction puts on the wire *)
Definition frame (l : list Z) : list bus_event := CsLow :: (BusTx <$> (u8 <$> l)) ++ [CsHigh].

Lemma spi_xfers_wire l p :
  wire (snd (spi_xfers l p)) = wire p ++ (BusTx <$> (u8 <$> l)).
Proof.
  revert p. induction l as [|b l IH]; intros p; cbn [spi_xfers]; [by rewrite app_nil_r|].
  unfold spi_xfer. destruct (sl_xfer _ _) as [r c].
  match goal with |- context [spi_xfers l ?q] =>
    specialize (IH q); destruct (spi_xfers l q) as [rs q'] end.
  cbn [snd] in *. rewrite IH. unfold update. cbn. by rewrite <- app_assoc.
Qed.

Lemma transact_wire l p : wire (snd (transact l p)) = wire p ++ frame l.
Proof.
  unfold transact. pose proof (spi_xfers_wire l (cs_assert p)) as H.
  destruct (spi_xfers l (cs_assert p)) as [rs q]. cbn [snd] in *.
  unfold cs_release, update. cbn. rewrite H. unfold cs_assert, update, frame. cbn.
  by rewrite <- !app_assoc.
Qed.

Lemma spi_xfers_length l p : length (fst (spi_xfers l p)) = length l.
Proof.
  revert p. induction l as [|b l IH]; intros p; cbn [spi_xfers]; [done|].
  unfold spi_xfer. destruct (sl_xfer _ _) as [r c].
  match goal with |- context [spi_xfers l ?q] =>
    specialize (IH q); destruct (spi_xfers l q) as [rs q'] end.
  simpl in *. by rewrite IH.
Qed.

Lemma spi_xfers_bytes l p : bytes (fst (spi_xfers l p)).
Proof.
  revert p. induction l as [|b l IH]; intros p; cbn [spi_xfers]; [constructor|].
  unfold spi_xfer. pose proof (sl_xfer_byte (u8 b) (chip p)) as Hb.
  destruct (sl_xfer _ _) as [r c].
  match goal with |- context [spi_xfers l ?q] =>
    specialize (IH q); destruct (spi_xfers l q) as [rs q'] end.
  by constructor.
Qed.

Lemma transact_bytes l p : bytes (fst (transact l p)) /\ length (fst (transact l p)) = length l.
Proof.
  unfold transact. pose proof (spi_xfers_bytes l (cs_assert p)).
  pose proof (spi_xfers_length l (cs_assert p)).
  by destruct (spi_xfers l (cs_assert p)).
Qed.

(** ** Traces

    [traces m T]: the code [m] only appends to the bus events, and the result
    and the appended events satisfy [T], whatever the chip answers. *)
Definition traces {A} (m : bus A) (T : A -> list bus_event -> Prop) : Prop :=
  forall p, exists t, wire (snd (m p)) = wire p ++ t /\ T (fst (m p)) t.

Lemma traces_ret {A} (a : A) (T : A -> list bus_event -> Prop) : T a [] -> traces (mret a) T.
Proof. intros H p. exists []. by rewrite app_nil_r. Qed.

Lemma traces_bind {A B} (m : bus A) (f : A -> bus B) T (V : B -> list bus_event -> Prop) :
  traces m T -> (forall a t, T a t -> traces (f a) (fun b u => V b (t ++ u))) ->
  traces (m ≫= f) V.
Proof.
  intros Hm Hf p. unfold mbind, bus_bind. destruct (Hm p) as (t & Et & Ht).
  destruct (m p) as [a q]. destruct (Hf a t Ht q) as (u & Eu & Hu).
  exists (t ++ u). cbn [fst snd] in *. by rewrite Eu, Et, app_assoc.
Qed.

Lemma traces_if {A} (b : bool) (m n : bus A) T :
  (b = true -> traces m T) -> (b = false -> traces n T) -> traces (if b then m else n) T.
Proof. destruct b; auto. Qed.

Lemma traces_weaken {A} (m : bus A) (T U : A -> list bus_event -> Prop) :
  traces m T -> (forall a t, T a t -> U a t) -> traces m U.
Proof. intros H HU p. destruct (H p) as (t & E & Ht). eauto. Qed.

Lemma traces_select : traces select (fun _ t => t = [CsLow]).
Proof. intros p. by exists [CsLow]. Qed.
Lemma traces_release : traces release (fun _ t => t = [CsHigh]).
Proof. intros p. by exists [CsHigh]. Qed.
Lemma traces_wait n : traces (wait_pin_low n) (fun _ t => t = []).
Proof. intros p. exists []. by rewrite app_nil_r. Qed.
Lemma traces_transfer l : traces (transfer l)
  (fun rs t => t = frame l /\ bytes rs /\ length rs = length l).
Proof.
  intros p. exists (frame l). split; [apply transact_wire|].
  split; [done|apply transact_bytes].
Qed.

Lemma transfer_traces {A} l (g : list Z -> A) :
  traces (rs ← transfer l; mret (g rs)) (fun _ t => t = frame l).
Proof.
  eapply traces_bind; [apply traces_transfer|].
  intros rs t (-> & _). apply traces_ret. apply app_nil_r.
Qed.

(** ** The chip a run leaves behind *)
Definition ensures {A} (P : slave -> Prop) (m : bus A) (Q : A -> slave -> Prop) : Prop :=
  forall p, P (chip p) -> Q (fst (m p)) (chip (snd (m p))).

Lemma ensures_ret {A} (a : A) (P : slave -> Prop) (Q : A -> slave -> Prop) :
  (forall s, P s -> Q a s) -> ensures P (mret a) Q.
Proof. intros H p. apply H. Qed.

Lemma ensures_bind {A B} P (m : bus A) (f : A -> bus B) R (Q : B -> slave -> Prop) :
  ensures P m R -> (forall a, ensures (R a) (f a) Q) -> ensures P (m ≫= f) Q.
Proof.
  intros Hm Hf p HP. unfold mbind, bus_bind. pose proof (Hm p HP) as H.
  destruct (m p) as [a q]. by apply Hf.
Qed.

Lemma ensures_any {A} P (m : bus A) : ensures P m (fun _ _ => True).
Proof. by intros p. Qed.

Lemma ensures_pre {A} (P P' : slave -> Prop) (m : bus A) Q :
  (forall s, P s -> P' s) -> ensures P' m Q -> ensures P m Q.
Proof. intros HP H p Hp. apply H, HP, Hp. Qed.

Definition chip_after (l : list Z) (s : slave) : slave :=
  sl_cs false (foldl (fun s b => snd (sl_xfer (u8 b) s)) (sl_cs true s) l).

Lemma spi_xfers_chip l p :
  chip (snd (spi_xfers l p)) = foldl (fun s b => snd (sl_xfer (u8 b) s)) (chip p) l.
Proof.
  revert p. induction l as [|b l IH]; intros p; [done|]. cbn [spi_xfers foldl].
  unfold spi_xfer. destruct (sl_xfer _ _) as [r c].
  match goal with |- context [spi_xfers l ?q] =>
    specialize (IH q); destruct (spi_xfers l q) as [rs q'] end.
  exact IH.
Qed.

Lemma transfer_chip l p : chip (snd (transfer l p)) = chip_after l (chip p).
Proof.
  unfold transfer, transact. pose proof (spi_xfers_chip l (cs_assert p)) as H.
  destruct (spi_xfers l (cs_assert p)) as [rs q]. unfold chip_after, cs_release, update.
  cbn in *. by rewrite H.
Qed.

(** a transaction whose answer is only mapped *)
Lemma bind_transfer_chip {A} l (g : list Z -> A) p :
  chip (snd ((rs ← transfer l; mret (g rs)) p)) = chip_after l (chip p).
Proof.
  rewrite <- transfer_chip. unfold mbind, bus_bind. by destruct (transfer l p).
Qed.
End Port.

#[global] Arguments port : clear implicits.
#[global] Arguments port {Sl}.
#[global] Typeclasses Opaque bus.
