(* ===== verification/Cc1101.v ===== *)
(** * CC1101 sub-GHz radio (cc1101_init.c)

    The driver of the CC1101 on SPI1: configuration tables, register access,
    initialisation, band selection, modes, FIFOs and readings.  The chip is a
    [SpiSlave]; code is a [bus] computation and its theorems speak of the
    events it puts on the bus and, under the chip's documented decoding of
    header bytes, of the chip it leaves behind. *)

From S2P Require Import Prelude Board SpiSlave.

Definition CC1101_SYNC1 : Z := 0x04.
Definition CC1101_SYNC0 : Z := 0x05.
Definition CC1101_SRES : Z := 0x30.
Definition CC1101_SCAL : Z := 0x33.
Definition CC1101_SRX : Z := 0x34.
Definition CC1101_STX : Z := 0x35.
Definition CC1101_SIDLE : Z := 0x36.
Definition CC1101_SPWD : Z := 0x39.
Definition CC1101_SFRX : Z := 0x3A.
Definition CC1101_SFTX : Z := 0x3B.
Definition CC1101_PARTNUM : Z := 0x30.
Definition CC1101_VERSION : Z := 0x31.
Definition CC1101_LQI : Z := 0x33.
Definition CC1101_RSSI : Z := 0x34.
Definition CC1101_MARCSTATE : Z := 0x35.
Definition CC1101_PKTSTATUS : Z := 0x38.
Definition CC1101_TXBYTES : Z := 0x3A.
Definition CC1101_RXBYTES : Z := 0x3B.
(** CC1101_PATABLE of cc1101_init.h, which the C file uses without
    including the header *)
Definition CC1101_PATABLE : Z := 0x3E.

Definition WRITE_SINGLE (addr : Z) : Z := Z.land addr 0x3F.
Definition WRITE_BURST (addr : Z) : Z := Z.lor (Z.land addr 0x3F) 0x40.
Definition READ_SINGLE (addr : Z) : Z := Z.lor (Z.land addr 0x3F) 0x80.
Definition STROBE (cmd : Z) : Z := Z.land cmd 0x3F.

(** struct cc1101_reg_entry: address and value *)
Definition cc1101_config_868mhz : list (Z * Z) :=
  [(0x00, 0x0B); (0x01, 0x2E); (0x02, 0x06); (0x03, 0x07); (0x04, 0xD3);
   (0x05, 0x91); (0x06, 0xFF); (0x07, 0x04); (0x08, 0x05); (0x09, 0x00);
   (0x0A, 0x00); (0x0B, 0x0C); (0x0C, 0x00); (0x0D, 0x21); (0x0E, 0x62);
   (0x0F, 0x76); (0x10, 0x0D); (0x11, 0x55); (0x12, 0x13); (0x13, 0x22);
   (0x14, 0x22); (0x15, 0x63); (0x16, 0x07); (0x17, 0x30); (0x18, 0x18);
   (0x19, 0x16); (0x1A, 0x6C); (0x1B, 0x03); (0x1C, 0x40); (0x1D, 0x91);
   (0x1E, 0x87); (0x1F, 0x6B); (0x20, 0xFB); (0x21, 0x56); (0x22, 0x10);
   (0x23, 0xE9); (0x24, 0x2A); (0x25, 0x00); (0x26, 0x1F); (0x27, 0x41);
   (0x28, 0x00)].
Definition cc1101_config_433mhz : list (Z * Z) :=
  [(0x00, 0x0B); (0x01, 0x2E); (0x02, 0x06); (0x03, 0x07); (0x04, 0xD3);
   (0x05, 0x91); (0x06, 0xFF); (0x07, 0x04); (0x08, 0x05); (0x09, 0x00);
   (0x0A, 0x00); (0x0B, 0x0C); (0x0C, 0x00); (0x0D, 0x10); (0x0E, 0xA7);
   (0x0F, 0x62); (0x10, 0x0D); (0x11, 0x55); (0x12, 0x13); (0x13, 0x22);
   (0x14, 0x22); (0x15, 0x63); (0x16, 0x07); (0x17, 0x30); (0x18, 0x18);
   (0x19, 0x16); (0x1A, 0x6C); (0x1B, 0x03); (0x1C, 0x40); (0x1D, 0x91);
   (0x1E, 0x87); (0x1F, 0x6B); (0x20, 0xFB); (0x21, 0x56); (0x22, 0x10);
   (0x23, 0xE9); (0x24, 0x2A); (0x25, 0x00); (0x26, 0x1F); (0x27, 0x41);
   (0x28, 0x00)].
Definition cc1101_config_915mhz : list (Z * Z) :=
  [(0x00, 0x0B); (0x01, 0x2E); (0x02, 0x06); (0x03, 0x07); (0x04, 0xD3);
   (0x05, 0x91); (0x06, 0xFF); (0x07, 0x04); (0x08, 0x05); (0x09, 0x00);
   (0x0A, 0x00); (0x0B, 0x0C); (0x0C, 0x00); (0x0D, 0x23); (0x0E, 0x31);
   (0x0F, 0x3B); (0x10, 0x0D); (0x11, 0x55); (0x12, 0x13); (0x13, 0x22);
   (0x14, 0x22); (0x15, 0x63); (0x16, 0x07); (0x17, 0x30); (0x18, 0x18);
   (0x19, 0x16); (0x1A, 0x6C); (0x1B, 0x03); (0x1C, 0x40); (0x1D, 0x91);
   (0x1E, 0x87); (0x1F, 0x6B); (0x20, 0xFB); (0x21, 0x56); (0x22, 0x10);
   (0x23, 0xE9); (0x24, 0x2A); (0x25, 0x00); (0x26, 0x1F); (0x27, 0x41);
   (0x28, 0x00)].

Definition CC1101_BAND_433 : Z := 0.
Definition CC1101_BAND_868 : Z := 1.
Definition CC1101_BAND_915 : Z := 2.

Section Driver.
Context {Sl : SpiSlave}.

Definition cc1101_write_reg (addr val : Z) : bus unit :=
  _ ← transfer [WRITE_SINGLE addr; val]; mret tt.

Definition cc1101_read_reg (addr : Z) : bus Z :=
  rs ← transfer [READ_SINGLE addr; 0x00]; mret (byte_at rs 1).

Definition cc1101_read_status (addr : Z) : bus Z :=
  rs ← transfer [READ_SINGLE addr; 0x00]; mret (byte_at rs 1).

Definition cc1101_strobe (cmd : Z) : bus Z :=
  rs ← transfer [STROBE cmd]; mret (byte_at rs 0).

(** apex_cc1101_read_burst of rp2350b_init.c *)
Definition apex_cc1101_read_burst (addr len : Z) : bus (list Z) :=
  rs ← transfer (Z.lor addr 0xC0 :: replicate (Z.to_nat len) 0x00); mret (drop 1 rs).

(** the loop over MARCSTATE: whether IDLE was read within [n] polls *)
Fixpoint wait_marc_idle (n : nat) : bus bool :=
  match n with
  | O => mret false
  | S n =>
    marcstate ← cc1101_read_status CC1101_MARCSTATE;
    if Z.land marcstate 0x1F =? 0x01 then mret true else wait_marc_idle n
  end.

Fixpoint write_table (table : list (Z * Z)) : bus unit :=
  match table with
  | [] => mret tt
  | (addr, val) :: table => _ ← cc1101_write_reg addr val; write_table table
  end.

Definition write_patable : bus unit :=
  _ ← transfer (WRITE_BURST 0x3E :: replicate 8 0x60); mret tt.

(** steps 4 to 8 of cc1101_init, also the second half of cc1101_set_band *)
Definition cc1101_configure (table : list (Z * Z)) : bus Z :=
  _ ← write_table table;
  _ ← write_patable;
  _ ← cc1101_strobe CC1101_SCAL;
  idle ← wait_marc_idle 1000;
  if negb idle then mret (-4) else
  partnum ← cc1101_read_status CC1101_PARTNUM;
  if negb (partnum =? 0x00) then mret (-1) else
  _ ← cc1101_strobe CC1101_SIDLE;
  mret 0.

Definition cc1101_init : bus Z :=
  _ ← select;
  ready ← wait_pin_low 3000;
  if negb ready then mret (-2) else
  _ ← release;
  _ ← cc1101_strobe CC1101_SRES;
  _ ← select;
  ready ← wait_pin_low 3000;
  if negb ready then _ ← release; mret (-3) else
  _ ← release;
  cc1101_configure cc1101_config_868mhz.

Definition band_table (band : Z) : option (list (Z * Z)) :=
  if band =? CC1101_BAND_433 then Some cc1101_config_433mhz
  else if band =? CC1101_BAND_868 then Some cc1101_config_868mhz
  else if band =? CC1101_BAND_915 then Some cc1101_config_915mhz
  else None.

Definition cc1101_set_band (band : Z) : bus Z :=
  match band_table band with
  | None => mret (-1)
  | Some table =>
    _ ← cc1101_strobe CC1101_SIDLE;
    idle ← wait_marc_idle 1000;
    if negb idle then mret (-4) else
    _ ← cc1101_strobe CC1101_SFRX;
    _ ← cc1101_strobe CC1101_SFTX;
    cc1101_configure table
  end.

Definition cc1101_enter_rx : bus unit :=
  _ ← cc1101_strobe CC1101_SFRX; _ ← cc1101_strobe CC1101_SRX; mret tt.
Definition cc1101_enter_tx : bus unit :=
  _ ← cc1101_strobe CC1101_SFTX; _ ← cc1101_strobe CC1101_STX; mret tt.
Definition cc1101_enter_idle : bus unit := _ ← cc1101_strobe CC1101_SIDLE; mret tt.
Definition cc1101_enter_sleep : bus unit :=
  _ ← cc1101_strobe CC1101_SIDLE;
  _ ← wait_marc_idle 1000;
  _ ← cc1101_strobe CC1101_SPWD;
  mret tt.

(** A buffer pointer is [None] (NULL) or the memory it points to. *)
Definition cc1101_write_tx_fifo (data : option (nat -> Z)) (len : Z) : bus unit :=
  match data with
  | None => mret tt
  | Some data =>
    if len =? 0 then mret tt else
    let len := if 64 <? len then 64 else len in
    _ ← transfer (Z.lor 0x3F 0x40 :: (data <$> seq 0 (Z.to_nat len))); mret tt
  end.

(** the bytes stored at [data[0]], [data[1]], ... *)
Definition cc1101_read_rx_fifo (data_null : bool) (len : Z) : bus (list Z) :=
  if data_null || (len =? 0) then mret [] else
  let len := if 64 <? len then 64 else len in
  rs ← transfer (Z.lor 0x3F 0xC0 :: replicate (Z.to_nat len) 0x00);
  mret (tail rs).

(** [/] of C truncates *)
Definition cc1101_get_rssi_dbm (rssi_dec : Z) : Z :=
  if 128 <=? rssi_dec then s16 ((rssi_dec - 256) ÷ 2 - 74) else s16 (rssi_dec ÷ 2 - 74).

Definition cc1101_get_rssi_x10 : bus Z :=
  rssi_raw ← cc1101_read_status CC1101_RSSI;
  mret (s16 (cc1101_get_rssi_dbm rssi_raw * 10)).

Definition cc1101_get_marcstate : bus Z :=
  v ← cc1101_read_status CC1101_MARCSTATE; mret (Z.land v 0x1F).
Definition cc1101_get_partnum : bus Z := cc1101_read_status CC1101_PARTNUM.
Definition cc1101_get_version : bus Z := cc1101_read_status CC1101_VERSION.
Definition cc1101_get_rx_bytes : bus Z := cc1101_read_status CC1101_RXBYTES.
Definition cc1101_get_tx_bytes : bus Z := cc1101_read_status CC1101_TXBYTES.
Definition cc1101_get_pkt_status : bus Z := cc1101_read_status CC1101_PKTSTATUS.
Definition cc1101_get_lqi : bus Z := cc1101_read_status CC1101_LQI.

Definition cc1101_set_sync_word (sync_hi sync_lo : Z) : bus unit :=
  _ ← cc1101_write_reg CC1101_SYNC1 sync_hi; cc1101_write_reg CC1101_SYNC0 sync_lo.

Definition pa_val (power_dbm : Z) : Z :=
  if power_dbm <=? -30 then 0x03
  else if power_dbm <=? -20 then 0x17
  else if power_dbm <=? -15 then 0x1D
  else if power_dbm <=? -10 then 0x26
  else if power_dbm <=? 0 then 0x50
  else if power_dbm <=? 5 then 0x86
  else if power_dbm <=? 7 then 0xA0
  else 0xC0.

Definition cc1101_set_tx_power (power_dbm : Z) : bus unit :=
  _ ← transfer [WRITE_SINGLE CC1101_PATABLE; pa_val power_dbm]; mret tt.

Definition cc1101_read_config_reg (addr : Z) : bus Z :=
  if addr <=? 0x2E then cc1101_read_reg addr
  else if (0x30 <=? addr) && (addr <=? 0x3D) then cc1101_read_status addr
  else mret 0xFF.

(** ** What initialisation puts on the bus *)

Definition marc_poll : list bus_event := frame [0xB5; 0x00].
Definition status_frame (addr : Z) : list bus_event := frame [READ_SINGLE addr; 0x00].
Definition table_frames (table : list (Z * Z)) : list bus_event :=
  concat ((fun e => frame [WRITE_SINGLE e.1; e.2]) <$> table).
Definition polls (k : nat) : list bus_event := concat (replicate k marc_poll).
Definition configure_frames (table : list (Z * Z)) : list bus_event :=
  table_frames table ++ frame (0x7E :: replicate 8 0x60) ++ frame [0x33].

(** the runs of cc1101_configure, by return code *)
Inductive configure_trace (table : list (Z * Z)) : Z -> list bus_event -> Prop :=
| conf_stuck :
    configure_trace table (-4) (configure_frames table ++ polls 1000)
| conf_wrong_part k : (1 <= k <= 1000)%nat ->
    configure_trace table (-1) (configure_frames table ++ polls k ++ frame [0xB0; 0x00])
| conf_ok k : (1 <= k <= 1000)%nat ->
    configure_trace table 0
      (configure_frames table ++ polls k ++ frame [0xB0; 0x00] ++ frame [0x36]).

Inductive init_trace : Z -> list bus_event -> Prop :=
| init_not_ready : init_trace (-2) [CsLow]
| init_no_reset : init_trace (-3) ([CsLow; CsHigh] ++ frame [0x30] ++ [CsLow; CsHigh])
| init_configured r t : configure_trace cc1101_config_868mhz r t ->
    init_trace r ([CsLow; CsHigh] ++ frame [0x30] ++ [CsLow; CsHigh] ++ t).

Inductive set_band_trace (band : Z) : Z -> list bus_event -> Prop :=
| band_invalid : band_table band = None -> set_band_trace band (-1) []
| band_stuck table : band_table band = Some table ->
    set_band_trace band (-4) (frame [0x36] ++ polls 1000)
| band_configured table k r t : band_table band = Some table -> (1 <= k <= 1000)%nat ->
    configure_trace table r t ->
    set_band_trace band r (frame [0x36] ++ polls k ++ frame [0x3A] ++ frame [0x3B] ++ t).

(** ** Traces of the pieces *)

Lemma strobe_traces cmd : traces (cc1101_strobe cmd) (fun _ t => t = frame [STROBE cmd]).
Proof. apply transfer_traces. Qed.

Lemma read_status_traces addr : traces (cc1101_read_status addr)
  (fun v t => t = status_frame addr /\ byte v).
Proof.
  eapply traces_bind; [apply traces_transfer|]. intros rs t (-> & Hb & _).
  apply traces_ret. split; [apply app_nil_r|by apply byte_at_byte].
Qed.

Lemma wait_marc_idle_traces n : traces (wait_marc_idle n)
  (fun idle t => exists k, t = polls k /\
     if (idle : bool) then (1 <= k <= n)%nat else k = n).
Proof.
  induction n as [|n IH]; [by apply traces_ret; exists O|].
  eapply traces_bind; [apply read_status_traces|]. intros v t (-> & _).
  apply traces_if; intros _.
  - apply traces_ret. exists 1%nat. split; [done|lia].
  - eapply traces_weaken; [exact IH|].
    intros idle t (k & -> & Hk). exists (S k). split; [done|destruct idle; lia].
Qed.

Lemma write_table_traces table :
  traces (write_table table) (fun _ t => t = table_frames table).
Proof.
  induction table as [|[a v] table IH]; [by apply traces_ret|].
  eapply traces_bind; [apply transfer_traces|]. intros _ t ->.
  eapply traces_weaken; [exact IH|]. by intros _ t ->.
Qed.

Ltac step H := eapply traces_bind; [apply H|].

Lemma configure_traces table :
  traces (cc1101_configure table) (configure_trace table).
Proof.
  unfold cc1101_configure.
  step write_table_traces. intros _ t ->.
  step (transfer_traces (A := unit)). intros _ t ->.
  step strobe_traces. intros _ t ->.
  step wait_marc_idle_traces. intros idle t (k & -> & Hk).
  destruct idle; cbn [negb].
  - step read_status_traces. intros v t (-> & _). apply traces_if; intros _.
    + apply traces_ret. pose proof (conf_wrong_part table k Hk) as H.
      unfold configure_frames in H. rewrite <- !app_assoc in H. by rewrite app_nil_r.
    + step strobe_traces. intros _ t ->. apply traces_ret.
      pose proof (conf_ok table k Hk) as H.
      unfold configure_frames in H. rewrite <- !app_assoc in H. by rewrite app_nil_r.
  - subst k. apply traces_ret. pose proof (conf_stuck table) as H.
    unfold configure_frames in H. rewrite <- !app_assoc in H. by rewrite app_nil_r.
Qed.

Lemma init_traces : traces cc1101_init init_trace.
Proof.
  unfold cc1101_init.
  step traces_select. intros _ t ->.
  step traces_wait. intros ready t ->. destruct ready; [|apply traces_ret; constructor].
  step traces_release. intros _ t ->.
  step strobe_traces. intros _ t ->.
  step traces_select. intros _ t ->.
  step traces_wait. intros ready t ->. cbn [negb]. destruct ready.
  - step traces_release. intros _ t ->.
    eapply traces_weaken; [apply configure_traces|]. intros r t H. by apply init_configured.
  - step traces_release. intros _ t ->. apply traces_ret. constructor.
Qed.

Lemma set_band_traces band : traces (cc1101_set_band band) (set_band_trace band).
Proof.
  unfold cc1101_set_band. destruct (band_table band) as [table|] eqn:E;
    [|apply traces_ret; by constructor].
  step strobe_traces. intros _ t ->.
  step wait_marc_idle_traces. intros idle t (k & -> & Hk). destruct idle; cbn [negb].
  - step strobe_traces. intros _ t ->. step strobe_traces. intros _ t ->.
    eapply traces_weaken; [apply configure_traces|]. intros r t H.
    by apply (band_configured band table).
  - subst k. apply traces_ret. rewrite app_nil_r. by apply (band_stuck band table).
Qed.

(** ** What the chip does with the driver's header bytes

    The chip's documentation: an address between 0x30 and 0x3D whose burst
    bit (bit 6) is clear is a command strobe, executed at once, whatever the
    read bit says; the byte after it is the next header, and a lone header
    0x00 starts a register write that the release of CSn abandons.  Only SRES
    changes the configuration registers, to their reset values. *)
Class Cc1101Chip := {
  config : slave -> Z -> Z;
  reset_value : Z -> Z;
  strobe : Z -> slave -> slave;
  header_strobes : forall h s, byte h -> Z.testbit h 6 = false ->
    0x30 <= Z.land h 0x3F <= 0x3D ->
    snd (sl_xfer h (sl_cs true s)) = strobe (Z.land h 0x3F) (sl_cs true s);
  select_keeps : forall b s a, config (sl_cs b s) a = config s a;
  strobe_resets : forall s a, config (strobe 0x30 s) a = reset_value a;
  strobe_keeps : forall cmd s a, cmd <> 0x30 -> config (strobe cmd s) a = config s a;
  header_keeps : forall cmd s a,
    config (snd (sl_xfer 0x00 (strobe cmd s))) a = config (strobe cmd s) a;
}.

Context {Ch : Cc1101Chip}.

Lemma status_header addr : 0x30 <= addr <= 0x3D ->
  byte (READ_SINGLE addr) /\ Z.testbit (READ_SINGLE addr) 6 = false /\
  Z.land (READ_SINGLE addr) 0x3F = addr.
Proof.
  intros H. assert (In addr (seqZ 0x30 14)) as Hin.
  { apply list_elem_of_In, elem_of_seqZ. lia. }
  unfold byte. cbn in Hin.
  repeat destruct Hin as [<-|Hin]; try (split_and!; (done || reflexivity)).
Qed.

Lemma read_status_chip addr p : 0x30 <= addr <= 0x3D ->
  chip (snd (cc1101_read_status addr p)) =
  sl_cs false (snd (sl_xfer 0x00 (strobe addr (sl_cs true (chip p))))).
Proof.
  intros H. unfold cc1101_read_status. rewrite bind_transfer_chip.
  unfold chip_after. cbn [foldl]. destruct (status_header addr H) as (Hb & H6 & Ha).
  rewrite (u8_small (READ_SINGLE addr)) by exact Hb.
  rewrite header_strobes by (rewrite ?Ha; done). by rewrite Ha.
Qed.

Lemma partnum_read_resets P : ensures P (cc1101_read_status CC1101_PARTNUM)
  (fun _ s => forall a, config s a = reset_value a).
Proof.
  intros p _ a. rewrite read_status_chip by (unfold CC1101_PARTNUM; lia).
  by rewrite select_keeps, header_keeps, strobe_resets.
Qed.

Lemma idle_strobe_keeps : ensures (fun s => forall a, config s a = reset_value a)
  (cc1101_strobe CC1101_SIDLE) (fun _ s => forall a, config s a = reset_value a).
Proof.
  intros p Hp a. unfold cc1101_strobe. rewrite bind_transfer_chip. unfold chip_after.
  cbn [foldl]. rewrite select_keeps.
  change (u8 (STROBE CC1101_SIDLE)) with 0x36.
  rewrite header_strobes by done. change (Z.land 0x36 0x3F) with 0x36.
  by rewrite strobe_keeps, select_keeps.
Qed.

Ltac skip := eapply ensures_bind; [apply (ensures_any (fun _ => True))|intros ?].

Definition left_reset (r : Z) (s : slave) : Prop :=
  r = 0 -> forall a, config s a = reset_value a.

Lemma configure_leaves_reset table :
  ensures (fun _ => True) (cc1101_configure table) left_reset.
Proof.
  unfold cc1101_configure. skip. skip. skip. skip.
  destruct a2; cbn [negb]; [|by apply ensures_ret].
  eapply ensures_bind; [apply partnum_read_resets|]. intros v.
  destruct (negb (v =? 0)); [by apply ensures_ret|].
  eapply ensures_bind; [apply idle_strobe_keeps|]. intros x.
  by apply ensures_ret; intros s Hs _.
Qed.

Lemma init_leaves_reset : ensures (fun _ => True) cc1101_init left_reset.
Proof.
  unfold cc1101_init. skip. skip. destruct a0; cbn [negb]; [|by apply ensures_ret].
  skip. skip. skip. skip. destruct a3; cbn [negb].
  - skip. apply configure_leaves_reset.
  - skip. by apply ensures_ret.
Qed.

Lemma set_band_leaves_reset band : ensures (fun _ => True) (cc1101_set_band band) left_reset.
Proof.
  unfold cc1101_set_band. destruct (band_table band); [|by apply ensures_ret].
  skip. skip. destruct a0; cbn [negb]; [|by apply ensures_ret].
  skip. skip. apply configure_leaves_reset.
Qed.
End Driver.

(** ** Properties *)

(** A chip that follows the documented decoding, for the concrete runs: its
    registers, the header of an access in progress, and the last strobe.  It
    answers every poll as an idle CC1101. *)
Record radio := { r_regs : list Z; r_hdr : option Z; r_last : Z }.
#[export] Instance eta_radio : Eta radio := eta! Build_radio < r_regs ; r_hdr ; r_last >.

Definition radio_reset : list Z := replicate 47 0x29.
Definition radio_strobe (cmd : Z) (s : radio) : radio :=
  {| r_regs := if cmd =? 0x30 then radio_reset else r_regs s;
     r_hdr := None; r_last := cmd |}.
Definition radio_xfer (b : Z) (s : radio) : Z * radio :=
  match r_hdr s with
  | None =>
    (if r_last s =? 0x35 then 1 else 0,
     if negb (Z.testbit b 6) && (0x30 <=? Z.land b 0x3F) && (Z.land b 0x3F <=? 0x3D)
     then radio_strobe (Z.land b 0x3F) s else (s <| r_hdr := Some b |>))
  | Some h => (0, if h <? 0x40 then (s <| r_regs ::= <[Z.to_nat h := b]> |> <| r_hdr := None |>)
                  else s)
  end.

#[local] Instance radio_slave : SpiSlave.
Proof.
  refine {| slave := radio; sl_cs := fun _ s => (s <| r_hdr := None |>);
            sl_xfer := radio_xfer; sl_pin := fun _ _ => false |}.
  intros b s. unfold radio_xfer. destruct (r_hdr s); [done|].
  by destruct (r_last s =? 0x35).
Defined.

#[local] Instance radio_chip : Cc1101Chip.
Proof.
  refine {| config := fun s a => byte_at (r_regs (s : radio)) (Z.to_nat a);
            reset_value := fun a => byte_at radio_reset (Z.to_nat a);
            strobe := radio_strobe |}.
  - intros h s _ Hb Ha. cbn. unfold radio_xfer. cbn. rewrite Hb. cbn [negb andb].
    by rewrite (proj2 (Z.leb_le _ _) (proj1 Ha)), (proj2 (Z.leb_le _ _) (proj2 Ha)).
  - done.
  - done.
  - intros cmd s a Hc. cbn. by rewrite (proj2 (Z.eqb_neq _ _) Hc).
  - done.
Defined.

Definition radio_on : port := {| chip := {| r_regs := radio_reset; r_hdr := None; r_last := 0 |};
                                 wire := [] |}.

Example radio_init_returns_0 : fst (cc1101_init radio_on) = 0.
Proof. vm_compute. reflexivity. Qed.

(** cc1101_init and cc1101_set_band return on every chip, after at most
    1000 polls of MARCSTATE in each wait, with one of their documented codes,
    and what they put on the bus is determined by that code and the number of
    polls: the chip select pulses, the reset strobe, the 41 registers in order,
    PATABLE, SCAL, the polls, the PARTNUM read and SIDLE.  The code -2 is
    returned with the chip select still asserted. *)
Theorem cc1101_init_terminates {Sl : SpiSlave} (p : port) (band : Z) :
  (exists t, init_trace (fst (cc1101_init p)) t /\
     wire (snd (cc1101_init p)) = wire p ++ t) /\
  (exists t, set_band_trace band (fst (cc1101_set_band band p)) t /\
     wire (snd (cc1101_set_band band p)) = wire p ++ t) /\
  In (fst (cc1101_init p)) [0; -1; -2; -3; -4] /\
  In (fst (cc1101_set_band band p)) [0; -1; -4].
Proof.
  destruct (init_traces p) as (t & Et & Ht).
  destruct (set_band_traces band p) as (u & Eu & Hu).
  split_and!; [by exists t|by exists u| |].
  - destruct Ht as [| |r t' Hc]; [simpl; tauto..|]. destruct Hc; simpl; tauto.
  - destruct Hu as [| |table k r u' _ _ Hc]; [simpl; tauto..|]. destruct Hc; simpl; tauto.
Qed.

(** C38: The driver reads a status register with the header of a single read,
    without the burst bit, so a chip that follows its documentation executes
    the command strobe of the same address instead: the MARCSTATE poll is STX,
    reading RSSI is SRX, and reading PARTNUM is SRES.  Hence whenever
    cc1101_init or cc1101_set_band reports success, every configuration
    register holds its reset value again, not the value of the table just
    written. *)
Theorem cc1101_init_undone {Sl : SpiSlave} {Ch : Cc1101Chip} (p : port) (band a : Z)
  (Hinit : fst (cc1101_init p) = 0) (Hband : fst (cc1101_set_band band p) = 0) :
  config (chip (snd (cc1101_init p))) a = reset_value a /\
  config (chip (snd (cc1101_set_band band p))) a = reset_value a /\
  chip (snd (cc1101_get_rssi_x10 p)) =
    sl_cs false (snd (sl_xfer 0x00 (strobe CC1101_SRX (sl_cs true (chip p))))) /\
  chip (snd (cc1101_get_marcstate p)) =
    sl_cs false (snd (sl_xfer 0x00 (strobe CC1101_STX (sl_cs true (chip p))))).
Proof.
  split_and!; [by apply init_leaves_reset|by apply set_band_leaves_reset|..].
  - unfold cc1101_get_rssi_x10, mbind, bus_bind.
    rewrite <- (read_status_chip CC1101_RSSI) by (unfold CC1101_RSSI; lia).
    by destruct (cc1101_read_status CC1101_RSSI p).
  - unfold cc1101_get_marcstate, mbind, bus_bind.
    rewrite <- (read_status_chip CC1101_MARCSTATE) by (unfold CC1101_MARCSTATE; lia).
    by destruct (cc1101_read_status CC1101_MARCSTATE p).
Qed.

Lemma cc1101_init_undone_witness :
  fst (cc1101_init radio_on) = 0 /\
  config (chip (snd (cc1101_init radio_on))) 0x0D = reset_value 0x0D /\
  config (chip (snd (cc1101_set_band 2 radio_on))) 0x0D = reset_value 0x0D.
Proof.
  assert (Hi : fst (cc1101_init radio_on) = 0) by (vm_compute; reflexivity).
  assert (Hb : fst (cc1101_set_band 2 radio_on) = 0) by (vm_compute; reflexivity).
  split; [exact Hi|].
  destruct (cc1101_init_undone radio_on 2 0x0D Hi Hb) as (H1 & H2 & _).
  split; [exact H1|exact H2].
Defined.

Definition freq_word (table : list (Z * Z)) : Z :=
  let v i := snd (nth i table (0, 0)) in 65536 * v 13%nat + 256 * v 14%nat + v 15%nat.

(** nominal carrier in Hz; the synthesiser's is [freq_word * 26 MHz / 2^16] *)
Definition nominal_hz (band : Z) : Z :=
  if band =? 0 then 433000000 else if band =? 1 then 868000000 else 915000000.

(** Each valid band selects a table that sets the registers 0x00 to 0x28
    once each, in order, to byte values; the three tables differ only in the
    FREQ registers, whose carrier is within 200 Hz of the band's.  An invalid
    band selects nothing and reaches the chip with nothing. *)
Theorem band_tables_tuned {Sl : SpiSlave} (band : Z) (p : port) :
  match band_table band with
  | Some table =>
      0 <= band <= 2 /\ table.*1 = seqZ 0 41 /\ bytes (table.*2) /\
      Z.abs (freq_word table * 26000000 - nominal_hz band * 65536) < 200 * 65536 /\
      (forall i, i ∉ [13; 14; 15]%nat -> table !! i = cc1101_config_868mhz !! i)
  | None => (band < 0 \/ 2 < band) /\ cc1101_set_band band p = (-1, p)
  end.
Proof.
  destruct (band_table band) as [table|] eqn:E.
  - assert (In (band, table) [(0, cc1101_config_433mhz); (1, cc1101_config_868mhz);
                              (2, cc1101_config_915mhz)]) as Hin.
    { unfold band_table, CC1101_BAND_433, CC1101_BAND_868, CC1101_BAND_915 in E.
      destruct (Z.eqb_spec band 0) as [->|]; [injection E as <-; simpl; tauto|].
      destruct (Z.eqb_spec band 1) as [->|]; [injection E as <-; simpl; tauto|].
      destruct (Z.eqb_spec band 2) as [->|]; [injection E as <-; simpl; tauto|done]. }
    assert (0 <= band <= 2 /\ table.*1 = seqZ 0 41 /\ bytesb (table.*2) = true /\
      Z.abs (freq_word table * 26000000 - nominal_hz band * 65536) < 200 * 65536 /\
      take 13 table = take 13 cc1101_config_868mhz /\
      drop 16 table = drop 16 cc1101_config_868mhz) as (H1 & H2 & H3 & H4 & H5 & H6).
    { destruct Hin as [[= <- <-]|[[= <- <-]|[[= <- <-]|[]]]]; split_and!;
        try lia; vm_compute; reflexivity. }
    split; [done|]. split; [done|]. split; [by apply bytesb_bytes|]. split; [done|].
    intros i Hi. destruct (decide (i < 13)%nat).
    { by rewrite <- (lookup_take_lt table 13), H5, lookup_take_lt by done. }
    assert (16 <= i)%nat as Hge.
    { destruct (decide (i = 13 \/ i = 14 \/ i = 15)%nat) as [Hd|]; [|lia].
      exfalso. apply Hi, list_elem_of_In. simpl. lia. }
    replace i with (16 + (i - 16))%nat by lia. by rewrite <- !lookup_drop, H6.
  - unfold band_table, CC1101_BAND_433, CC1101_BAND_868, CC1101_BAND_915 in E.
    split; [|by unfold cc1101_set_band, band_table, CC1101_BAND_433, CC1101_BAND_868,
              CC1101_BAND_915; rewrite E].
    repeat (case_match; [done|]). lia.
Qed.

(** The RSSI conversion of every byte is within half a dB of the chip's
    two's complement half-dB reading, lies between -138 and -11 dBm, and its
    tenfold value does not overflow the int16_t of telemetry; a FIFO write of
    any length puts at most 64 data bytes on the bus, in one burst. *)
Theorem cc1101_rssi_and_fifo_bounds {Sl : SpiSlave} (r len : Z) (data : nat -> Z) (p : port)
  (Hr : byte r) (Hlen : byte len) :
  let dbm := cc1101_get_rssi_dbm r in
  -138 <= dbm <= -11 /\
  Z.abs (2 * dbm - ((if r <? 128 then r else r - 256) - 148)) <= 1 /\
  s16 (dbm * 10) = dbm * 10 /\
  wire (snd (cc1101_write_tx_fifo (Some data) len p)) = wire p ++
    (if len =? 0 then [] else frame (0x7F :: (data <$> seq 0 (Z.to_nat (Z.min len 64))))).
Proof.
  unfold byte in *. cbv zeta.
  assert (H : -138 <= cc1101_get_rssi_dbm r <= -11 /\
    Z.abs (2 * cc1101_get_rssi_dbm r - ((if r <? 128 then r else r - 256) - 148)) <= 1).
  { unfold cc1101_get_rssi_dbm.
    assert (Hs : forall x, -32768 <= x < 32768 -> s16 x = x).
    { intros x Hx. rewrite <- (s16_u16 x Hx) at 2. unfold s16, u16. by rewrite Z.mod_mod. }
    destruct (Z.leb_spec 128 r); destruct (Z.ltb_spec r 128); try lia.
    - rewrite Hs; pose proof (Z.quot_rem' (r - 256) 2);
        pose proof (Z.rem_bound_pos_neg (r - 256) 2); lia.
    - rewrite Hs; pose proof (Z.quot_rem' r 2); pose proof (Z.rem_bound_pos_pos r 2); lia. }
  destruct H as [H1 H2]. split; [done|]. split; [done|]. split.
  - rewrite <- (s16_u16 (cc1101_get_rssi_dbm r * 10)) at 2 by lia.
    unfold s16, u16. by rewrite Z.mod_mod.
  - unfold cc1101_write_tx_fifo. destruct (len =? 0) eqn:E; [by rewrite app_nil_r|].
    replace (if 64 <? len then 64 else len) with (Z.min len 64)
      by (destruct (Z.ltb_spec 64 len); lia).
    destruct (transfer_traces (Z.lor 0x3F 0x40 :: (data <$> seq 0 (Z.to_nat (Z.min len 64))))
      (fun _ => tt) p) as (t & Et & ->). exact Et.
Qed.

Lemma cc1101_rssi_and_fifo_bounds_witness :
  cc1101_get_rssi_dbm 0x80 = -138 /\ -138 <= cc1101_get_rssi_dbm 0x80 <= -11.
Proof.
  split; [reflexivity|].
  assert (Hb : forall x, (0 <=? x) && (x <? 256) = true -> byte x) by (unfold byte; intros; lia).
  exact (proj1 (cc1101_rssi_and_fifo_bounds 0x80 70 (fun _ => 0) radio_on
                  (Hb 0x80 eq_refl) (Hb 70 eq_refl))).
Defined.
