(* ===== verification/St25r3916.v ===== *)
(** * ST25R3916 NFC controller (st25r3916_init.c)

    The driver of the NFC chip on SPI2: register access and direct commands
    (with the SPI2 routines of rp2350b_init.c below them), the initialisation
    sequence, field control, measurements and the transaction with a tag.
    The chip is a [SpiSlave]; delays do not appear on its bus and are left
    out. *)

From S2P Require Import Prelude Board SpiSlave.

Definition REG_IC_IDENTITY : Z := 0x00.
Definition REG_OP_CTRL : Z := 0x04.
Definition REG_IRQ_STATUS1 : Z := 0x04.
Definition REG_IRQ_STATUS2 : Z := 0x05.
Definition REG_IRQ_STATUS3 : Z := 0x06.
Definition REG_IRQ_STATUS4 : Z := 0x07.
Definition REG_IRQ_STATUS5 : Z := 0x08.
Definition REG_NUM_TX_BYTES1 : Z := 0x26.
Definition REG_NUM_TX_BYTES2 : Z := 0x27.
Definition REG_NUM_TX_BYTES3 : Z := 0x28.
Definition REG_NUM_RX_BYTES1 : Z := 0x2A.
Definition REG_NUM_RX_BYTES2 : Z := 0x2B.
Definition REG_TX_FIFO : Z := 0x1F.
Definition REG_RX_FIFO : Z := 0x1F.
Definition REG_RSSI : Z := 0x3A.
Definition REG_OBSV_CONF1 : Z := 0x3B.

Definition CMD_SET_DEFAULT : Z := 0xC1.
Definition CMD_INITIALIZE_DPO : Z := 0xC3.
Definition CMD_CLEAR_IRQS : Z := 0xC4.
Definition CMD_MEASURE_VDD : Z := 0xC5.
Definition CMD_TX_ON : Z := 0xC6.
Definition CMD_TX_OFF : Z := 0xC7.
Definition CMD_CALIBRATE_ANTENNA : Z := 0xC8.
Definition CMD_MEASURE_AMPLITUDE : Z := 0xC9.
Definition CMD_GOTO_SLEEP : Z := 0xD1.

Definition IRQ1_OSC : Z := BIT 0.
Definition IRQ1_NFCA : Z := BIT 2.
Definition IRQ1_TXE : Z := BIT 6.
Definition IRQ1_RXE : Z := BIT 7.
Definition IRQ2_RXS : Z := BIT 4.
Definition IRQ3_CRC : Z := BIT 2.
Definition IRQ3_EON : Z := BIT 3.
Definition IRQ3_EOF : Z := BIT 4.

Definition NFC_CMD_REQA : Z := 0x26.
Definition NFC_CMD_WUPA : Z := 0x52.
Definition FIFO_SIZE : Z := 512.

(** the register writes of st25r3916_init between SET_DEFAULT and the first
    CLEAR_IRQS, in order *)
Definition init_regs : list (Z * Z) :=
  [ (0x3E, 0x18);                                    (* OSC_CONF *)
    (0x02, 0x01); (0x03, 0x00);                      (* IO_CONF1, IO_CONF2 *)
    (REG_OP_CTRL, 0x00);
    (0x05, 0x01); (0x06, 0x00); (0x07, 0x0D);        (* MODE_DEF, BIT_RATE, ISO14443A *)
    (0x12, 0x12); (0x13, 0x2D); (0x14, 0x01); (0x15, 0x00);  (* RX_CONF1..4 *)
    (0x34, 0x00);                                    (* AGC_CONFIG *)
    (0x35, 0x02); (0x36, 0xFF); (0x37, 0xFF); (0x38, 0xFF);  (* AM_CONFIG, AM_GRANGE *)
    (0x16, 0x08); (0x17, 0x40);                      (* TX_DRIVER, TX_CURRENT *)
    (0x1B, 0x00); (0x1C, 0x00);                      (* CORR_CONF1, CORR_CONF2 *)
    (0x1D, 0x0A); (0x1E, 0x0A); (0x1F, 0x0A); (0x20, 0x21);  (* timers *)
    (0x2F, 0x00); (0x30, 0x00); (0x31, 0x00); (0x32, 0x00);  (* wake-up, sleep timers *)
    (0x3F, 0x00);                                    (* VREG_CONF *)
    (0x21, Z.lor (Z.lor (Z.lor IRQ1_OSC IRQ1_TXE) IRQ1_RXE) IRQ1_NFCA);
    (0x22, IRQ2_RXS);
    (0x23, Z.lor IRQ3_EON IRQ3_EOF);
    (0x24, 0x00); (0x25, 0x00) ].                    (* IRQ_MASK1..5 *)

Section Driver.
Context {Sl : SpiSlave}.

(** *** SPI2 access (rp2350b_init.c) *)

Definition apex_nfc_write_register (addr val : Z) : bus unit :=
  _ ← transfer [Z.land addr 0x7F; val]; mret tt.
Definition apex_nfc_read_register (addr : Z) : bus Z :=
  rs ← transfer [Z.lor addr 0x80; 0x00]; mret (byte_at rs 1).

(** *** Register access and direct commands *)

Definition st25r3916_write_reg (addr val : Z) : bus unit :=
  if 0x3F <? addr then mret tt else apex_nfc_write_register addr val.
Definition st25r3916_read_reg (addr : Z) : bus Z :=
  if 0x3F <? addr then mret 0xFF else apex_nfc_read_register addr.

Fixpoint write_regs (l : list (Z * Z)) : bus unit :=
  match l with
  | [] => mret tt
  | (addr, val) :: l => _ ← st25r3916_write_reg addr val; write_regs l
  end.

(** [values] is [None] for a NULL pointer *)
Definition st25r3916_write_multiple_regs (start_addr : Z) (values : option (nat -> Z))
    (len : Z) : bus unit :=
  match values with
  | None => mret tt
  | Some values =>
    if len =? 0 then mret tt else
    if 0x40 <? start_addr + len then mret tt else
    write_regs ((fun i => (u8 (start_addr + Z.of_nat i), values i)) <$> seq 0 (Z.to_nat len))
  end.

Definition st25r3916_send_command (cmd : Z) : bus unit :=
  if (cmd <? 0xC1) || (0xD3 <? cmd) then mret tt else
  _ ← transfer [Z.lor cmd 0x80]; mret tt.

(** The flags say which of the five pointers are not NULL; a register whose
    pointer is NULL is not read, and its variable keeps its value. *)
Definition read_irq (wanted : bool) (reg old : Z) : bus Z :=
  if wanted then st25r3916_read_reg reg else mret old.
Definition st25r3916_clear_interrupts (w1 w2 w3 w4 w5 : bool) (i1 i2 i3 : Z)
    : bus (Z * Z * Z) :=
  i1 ← read_irq w1 REG_IRQ_STATUS1 i1;
  i2 ← read_irq w2 REG_IRQ_STATUS2 i2;
  i3 ← read_irq w3 REG_IRQ_STATUS3 i3;
  _ ← read_irq w4 REG_IRQ_STATUS4 0;
  _ ← read_irq w5 REG_IRQ_STATUS5 0;
  _ ← st25r3916_send_command CMD_CLEAR_IRQS;
  mret (i1, i2, i3).

Definition clear_irq1 (i1 : Z) : bus Z :=
  iq ← st25r3916_clear_interrupts true false false false false i1 0 0;
  mret (fst (fst iq)).

(** the end of st25r3916_init: antenna calibration, and the oscillator *)
Definition init_calibrate : bus Z :=
  _ ← write_regs [(0x0B, 0x05); (0x0C, 0x07)];
  _ ← st25r3916_send_command CMD_CALIBRATE_ANTENNA;
  _ ← st25r3916_write_reg REG_OP_CTRL 0x03;
  irq1 ← clear_irq1 0;
  irq1 ← (if has_bits irq1 IRQ1_OSC then mret irq1 else clear_irq1 irq1);
  if negb (has_bits irq1 IRQ1_OSC) then mret (-2) else
  _ ← st25r3916_send_command CMD_INITIALIZE_DPO;
  mret 0.

Definition st25r3916_init : bus Z :=
  ic_id ← st25r3916_read_reg REG_IC_IDENTITY;
  if negb (ic_id =? 0x39) && negb (ic_id =? 0x89) then mret (-1) else
  _ ← st25r3916_send_command CMD_SET_DEFAULT;
  _ ← write_regs init_regs;
  _ ← st25r3916_send_command CMD_CLEAR_IRQS;
  init_calibrate.

Definition st25r3916_iso14443a_reqa : bus Z :=
  _ ← st25r3916_send_command CMD_CLEAR_IRQS;
  _ ← write_regs [(REG_NUM_TX_BYTES1, 0x01); (REG_NUM_TX_BYTES2, 0x00);
                  (REG_NUM_TX_BYTES3, 0x00); (REG_TX_FIFO, 0x26)];
  _ ← st25r3916_send_command CMD_TX_ON;
  irq1 ← clear_irq1 0;
  mret (if has_bits irq1 IRQ1_RXE then 0 else -1).

Definition st25r3916_field_on : bus unit := st25r3916_send_command CMD_TX_ON.
Definition st25r3916_field_off : bus unit := st25r3916_send_command CMD_TX_OFF.

(** [(uint16_t)((uint32_t)result * 5000 / 255)] *)
Definition scale_5000 (result : Z) : Z := u16 (u32 (result * 5000) / 255).

Definition st25r3916_measure_vdd : bus Z :=
  _ ← st25r3916_send_command CMD_MEASURE_VDD;
  result ← st25r3916_read_reg REG_OBSV_CONF1;
  mret (scale_5000 result).

Definition st25r3916_get_rssi : bus Z := st25r3916_read_reg REG_RSSI.

Definition st25r3916_sleep : bus unit :=
  _ ← st25r3916_field_off;
  _ ← st25r3916_write_reg REG_OP_CTRL 0x00;
  st25r3916_send_command CMD_GOTO_SLEEP.

Definition st25r3916_stop_polling : bus unit :=
  _ ← st25r3916_field_off;
  _ ← st25r3916_write_reg REG_OP_CTRL 0x00;
  st25r3916_send_command CMD_CLEAR_IRQS.

Definition st25r3916_start_polling : bus unit :=
  _ ← st25r3916_send_command CMD_CLEAR_IRQS;
  _ ← st25r3916_write_reg REG_OP_CTRL 0x03;
  st25r3916_send_command CMD_TX_ON.

Fixpoint wait_amplitude (n : nat) : bus unit :=
  match n with
  | O => mret tt
  | S n =>
    irq1 ← st25r3916_read_reg REG_IRQ_STATUS1;
    if has_bits irq1 0x01 then mret tt else wait_amplitude n
  end.

Definition st25r3916_get_field_strength_mv : bus Z :=
  _ ← st25r3916_send_command CMD_MEASURE_AMPLITUDE;
  _ ← wait_amplitude 5000;
  result ← st25r3916_read_reg REG_RSSI;
  mret (scale_5000 result).

(** *** st25r3916_transact *)

(** [timeout_ms * 1500U], with the default of 100 ms *)
Definition timeout_count (timeout_ms : Z) : Z :=
  u32 ((if timeout_ms =? 0 then 100 else timeout_ms) * 1500).

(** steps 1 to 4: clear interrupts, byte count, FIFO, TX_ON *)
Definition short_frame (cmd : Z) : bool := (cmd =? NFC_CMD_REQA) || (cmd =? NFC_CMD_WUPA).

Definition transact_setup (cmd : Z) (tx_data : option (nat -> Z)) (tx_len : Z) : bus unit :=
  _ ← st25r3916_send_command CMD_CLEAR_IRQS;
  _ ← (if (0 <? tx_len) || short_frame cmd then
         let n := if 0 <? tx_len then tx_len else 1 in
         write_regs [(REG_NUM_TX_BYTES1, u8 (Z.land n 0xFF));
                     (REG_NUM_TX_BYTES2, u8 (Z.land (Z.shiftr n 8) 0xFF));
                     (REG_NUM_TX_BYTES3, 0x00)]
       else mret tt);
  _ ← (match tx_data with
       | Some tx_data =>
         if 0 <? tx_len
         then write_regs ((fun i => (REG_TX_FIFO, tx_data i)) <$> seq 0 (Z.to_nat tx_len))
         else if short_frame cmd then st25r3916_write_reg REG_TX_FIFO cmd else mret tt
       | None => if short_frame cmd then st25r3916_write_reg REG_TX_FIFO cmd else mret tt
       end);
  st25r3916_send_command CMD_TX_ON.

(** how the waiting loop was left *)
Inductive rx_wait := Received | CrcError | TimedOut.

(** step 5, with the three status bytes of the last poll *)
Fixpoint wait_rx (n : nat) (iq : Z * Z * Z) : bus (rx_wait * (Z * Z * Z)) :=
  match n with
  | O => mret (TimedOut, iq)
  | S n =>
    irq1 ← st25r3916_read_reg REG_IRQ_STATUS1;
    irq2 ← st25r3916_read_reg REG_IRQ_STATUS2;
    irq3 ← st25r3916_read_reg REG_IRQ_STATUS3;
    if has_bits irq1 IRQ1_RXE then mret (Received, (irq1, irq2, irq3)) else
    if has_bits irq3 IRQ3_CRC then mret (CrcError, (irq1, irq2, irq3)) else
    wait_rx n (irq1, irq2, irq3)
  end.

Fixpoint read_fifo (n : nat) : bus (list Z) :=
  match n with
  | O => mret []
  | S n => b ← st25r3916_read_reg REG_RX_FIFO; bs ← read_fifo n; mret (b :: bs)
  end.

(** step 6: the bytes stored in [rx_data] *)
Definition read_response (rx_len : Z) : bus (list Z) :=
  lo ← st25r3916_read_reg REG_NUM_RX_BYTES1;
  hi ← st25r3916_read_reg REG_NUM_RX_BYTES2;
  let rx_bytes := Z.lor (Z.land lo 0xFF) (Z.shiftl (Z.land hi 0xFF) 8) in
  let rx_bytes := if FIFO_SIZE <? rx_bytes then FIFO_SIZE else rx_bytes in
  let rx_bytes := if rx_len <? rx_bytes then rx_len else rx_bytes in
  read_fifo (Z.to_nat rx_bytes).

(** what a call gives back: the code, the bytes written to [rx_data], and
    [*rx_len] *)
Record reply := { r_ret : Z; r_data : list Z; r_len : option Z }.

Definition is_null {A} (ptr : option A) : bool :=
  match ptr with Some _ => false | None => true end.

(** [rx_null]: [rx_data] is NULL; [rx_len]: [*rx_len], if not NULL *)
Definition bad_params (tx_data : option (nat -> Z)) (tx_len : Z) (rx_null : bool)
    (rx_len : option Z) : bool :=
  ((0 <? tx_len) && is_null tx_data) ||
  (match rx_len with Some n => (0 <? n) && rx_null | None => false end) ||
  (negb rx_null && is_null rx_len).

Definition st25r3916_transact (cmd : Z) (tx_data : option (nat -> Z)) (tx_len : Z)
    (rx_null : bool) (rx_len : option Z) (timeout_ms : Z) : bus reply :=
  let fail (ret : Z) : reply := {| r_ret := ret; r_data := []; r_len := rx_len |} in
  if bad_params tx_data tx_len rx_null rx_len then mret (fail (-3)) else
  let tx_len := if FIFO_SIZE <? tx_len then FIFO_SIZE else tx_len in
  _ ← transact_setup cmd tx_data tx_len;
  w ← wait_rx (Z.to_nat (timeout_count timeout_ms)) (0, 0, 0);
  match w with
  | (CrcError, _) =>
    _ ← st25r3916_send_command CMD_CLEAR_IRQS;
    _ ← st25r3916_send_command CMD_TX_OFF;
    mret (fail (-2))
  | (_, (irq1, irq2, irq3)) =>
    iq ← st25r3916_clear_interrupts true true true false false irq1 irq2 irq3;
    let irq1 := fst (fst iq) in
    if negb (has_bits irq1 IRQ1_RXE) then
      _ ← st25r3916_send_command CMD_TX_OFF;
      mret (fail (-1))
    else
      match rx_null, rx_len with
      | false, Some n =>
        data ← read_response n;
        _ ← st25r3916_send_command CMD_TX_OFF;
        mret {| r_ret := 0; r_data := data; r_len := Some (Z.of_nat (length data)) |}
      | _, _ =>
        _ ← st25r3916_send_command CMD_TX_OFF;
        mret (fail 0)
      end
  end.

(** ** Bus traffic *)

Definition rd (addr : Z) : list bus_event := frame [Z.lor addr 0x80; 0x00].
Definition wr (e : Z * Z) : list bus_event := frame [Z.land e.1 0x7F; e.2].
Definition cm (cmd : Z) : list bus_event := frame [cmd].
Definition poll3 : list bus_event := rd 0x04 ++ rd 0x05 ++ rd 0x06.
Definition polls (k : nat) : list bus_event := concat (replicate k poll3).
Definition writes (l : list (Z * Z)) : list bus_event := concat (wr <$> l).

Definition setup_frames (cmd : Z) (tx_data : option (nat -> Z)) (tx_len : Z) : list bus_event :=
  let len16 n := writes [(0x26, n mod 256); (0x27, n / 256); (0x28, 0)] in
  cm 0xC4 ++
  (match tx_data with
   | Some d =>
     if 0 <? tx_len
     then len16 tx_len ++ writes ((fun i => (0x1F, d i)) <$> seq 0 (Z.to_nat tx_len))
     else if short_frame cmd then len16 1 ++ wr (0x1F, cmd) else []
   | None => if short_frame cmd then len16 1 ++ wr (0x1F, cmd) else []
   end) ++ cm 0xC6.

(** the runs of a transaction: [setup] on the bus, at most [n] polls, and
    whatever happens the field is switched off last *)
Inductive run (n : nat) (setup : list bus_event) (rx_null : bool) (rx_len : option Z)
    : reply -> list bus_event -> Prop :=
| run_crc k : (1 <= k <= n)%nat ->
    run n setup rx_null rx_len {| r_ret := -2; r_data := []; r_len := rx_len |}
      (setup ++ polls k ++ cm 0xC4 ++ cm 0xC7)
| run_timeout k : (k <= n)%nat ->
    run n setup rx_null rx_len {| r_ret := -1; r_data := []; r_len := rx_len |}
      (setup ++ polls k ++ poll3 ++ cm 0xC4 ++ cm 0xC7)
| run_done k : (k <= n)%nat -> rx_null = true ->
    run n setup rx_null rx_len {| r_ret := 0; r_data := []; r_len := rx_len |}
      (setup ++ polls k ++ poll3 ++ cm 0xC4 ++ cm 0xC7)
| run_data k d m : (k <= n)%nat -> rx_null = false -> rx_len = Some m ->
    bytes d -> Z.of_nat (length d) <= Z.min 512 m ->
    run n setup rx_null rx_len
      {| r_ret := 0; r_data := d; r_len := Some (Z.of_nat (length d)) |}
      (setup ++ polls k ++ poll3 ++ cm 0xC4 ++ rd 0x2A ++ rd 0x2B ++
       concat (replicate (length d) (rd 0x1F)) ++ cm 0xC7).

(** the runs of st25r3916_init *)
Definition init_frames : list bus_event :=
  rd 0x00 ++ cm 0xC1 ++ writes init_regs ++ cm 0xC4 ++ writes [(0x0B, 0x05); (0x0C, 0x07)] ++
  cm 0xC8 ++ wr (0x04, 0x03) ++ rd 0x04 ++ cm 0xC4.
Inductive init_run : Z -> list bus_event -> Prop :=
| init_absent : init_run (-1) (rd 0x00)
| init_no_osc : init_run (-2) (init_frames ++ rd 0x04 ++ cm 0xC4)
| init_ok : init_run 0 (init_frames ++ cm 0xC3)
| init_ok_late : init_run 0 (init_frames ++ rd 0x04 ++ cm 0xC4 ++ cm 0xC3).

Lemma read_reg_traces addr : addr <= 0x3F ->
  traces (st25r3916_read_reg addr) (fun v t => t = rd addr /\ byte v).
Proof.
  intros H. unfold st25r3916_read_reg. rewrite (proj2 (Z.ltb_ge _ _) H).
  eapply traces_bind; [apply traces_transfer|]. intros rs t (-> & Hb & _).
  apply traces_ret. split; [apply app_nil_r|by apply byte_at_byte].
Qed.

Lemma write_reg_traces addr val : addr <= 0x3F ->
  traces (st25r3916_write_reg addr val) (fun _ t => t = wr (addr, val)).
Proof.
  intros H. unfold st25r3916_write_reg. rewrite (proj2 (Z.ltb_ge _ _) H).
  apply transfer_traces.
Qed.

Lemma command_traces cmd : 0xC1 <= cmd <= 0xD3 -> Z.lor cmd 0x80 = cmd ->
  traces (st25r3916_send_command cmd) (fun _ t => t = cm cmd).
Proof.
  intros H E. unfold st25r3916_send_command.
  rewrite (proj2 (Z.ltb_ge _ _) (proj1 H)), (proj2 (Z.ltb_ge _ _) (proj2 H)), E.
  apply transfer_traces.
Qed.

Lemma write_regs_traces l : Forall (fun e => e.1 <= 0x3F) l ->
  traces (write_regs l) (fun _ t => t = writes l).
Proof.
  induction 1 as [|[a v] l Ha _ IH]; [by apply traces_ret|].
  eapply traces_bind; [by apply write_reg_traces|]. intros _ t ->.
  eapply traces_weaken; [exact IH|]. by intros _ t ->.
Qed.

Ltac cmd := eapply traces_bind; [apply command_traces; [done|reflexivity]|]; intros _ ? ->.
Ltac rdr := eapply traces_bind; [apply read_reg_traces; done|]; intros ? ? [-> ?].

Lemma clear3_traces i1 i2 i3 :
  traces (st25r3916_clear_interrupts true true true false false i1 i2 i3)
    (fun _ t => t = poll3 ++ cm 0xC4).
Proof.
  unfold st25r3916_clear_interrupts, read_irq. rdr. rdr. rdr.
  eapply traces_bind; [by apply traces_ret with (T := fun _ t => t = [])|]. intros _ ? ->.
  eapply traces_bind; [by apply traces_ret with (T := fun _ t => t = [])|]. intros _ ? ->.
  cmd. apply traces_ret. by rewrite app_nil_r.
Qed.

Lemma clear1_traces i1 : traces (clear_irq1 i1) (fun _ t => t = rd 0x04 ++ cm 0xC4).
Proof.
  unfold clear_irq1.
  assert (traces (st25r3916_clear_interrupts true false false false false i1 0 0)
    (fun _ t => t = rd 0x04 ++ cm 0xC4)) as H.
  { unfold st25r3916_clear_interrupts, read_irq. rdr.
    do 4 (eapply traces_bind; [by apply traces_ret with (T := fun _ t => t = [])|];
          intros ? ? ->).
    cmd. apply traces_ret. by rewrite app_nil_r. }
  eapply traces_bind; [exact H|]. intros iq t ->. apply traces_ret. by rewrite app_nil_r.
Qed.

Lemma init_regs_low : Forall (fun e => e.1 <= 0x3F) init_regs.
Proof. repeat constructor; done. Qed.

Lemma nfc_init_traces : traces st25r3916_init init_run.
Proof.
  unfold st25r3916_init, init_calibrate. rdr. apply traces_if; intros _; [apply traces_ret, init_absent|].
  cmd. eapply traces_bind; [apply write_regs_traces, init_regs_low|]. intros _ ? ->.
  cmd. eapply traces_bind; [apply write_regs_traces; repeat constructor; done|].
  intros _ ? ->. cmd.
  eapply traces_bind; [apply write_reg_traces; done|]. intros _ ? ->.
  eapply traces_bind; [apply clear1_traces|]. intros irq1 ? ->.
  destruct (has_bits irq1 IRQ1_OSC) eqn:E.
  - eapply traces_bind; [by apply traces_ret with (T := fun v t => v = irq1 /\ t = [])|].
    intros v ? [Ev ->]. rewrite Ev, E. cbn [negb]. cmd. apply traces_ret.
    pose proof init_ok as Hr. unfold init_frames in Hr. by rewrite <- !app_assoc in Hr.
  - eapply traces_bind; [apply clear1_traces|]. intros v ? ->.
    apply traces_if; intros _; [apply traces_ret|cmd; apply traces_ret].
    + pose proof init_no_osc as Hr. unfold init_frames in Hr. by rewrite <- !app_assoc in Hr.
    + pose proof init_ok_late as Hr. unfold init_frames in Hr. by rewrite <- !app_assoc in Hr.
Qed.

Lemma wait_rx_traces n iq : traces (wait_rx n iq) (fun w t => exists k, t = polls k /\
  match fst w with TimedOut => k = n | _ => (1 <= k <= n)%nat end).
Proof.
  revert iq. induction n as [|n IH]; intros iq; [by apply traces_ret; exists O|].
  cbn [wait_rx]. rdr. rdr. rdr.
  repeat (apply traces_if; intros _; [apply traces_ret; exists 1%nat; split; [done|simpl; lia]|]).
  eapply traces_weaken; [apply IH|]. intros [w i] t (k & -> & Hk). exists (S k).
  split; [|destruct w; simpl in *; lia].
  unfold polls, poll3. cbn [replicate concat]. by rewrite <- !app_assoc.
Qed.

Lemma read_fifo_traces n : traces (read_fifo n)
  (fun d t => t = concat (replicate n (rd 0x1F)) /\ bytes d /\ length d = n).
Proof.
  induction n as [|n IH]; [apply traces_ret; split_and!; done || constructor|].
  cbn [read_fifo]. rdr.
  eapply traces_bind; [exact IH|]. intros d t (-> & Hd & Hl). apply traces_ret.
  split; [by rewrite app_nil_r|]. split; [by constructor|by rewrite <- Hl].
Qed.

Lemma read_response_traces m : 0 <= m -> traces (read_response m)
  (fun d t => t = rd 0x2A ++ rd 0x2B ++ concat (replicate (length d) (rd 0x1F)) /\
     bytes d /\ Z.of_nat (length d) <= Z.min 512 m).
Proof.
  intros Hm. unfold read_response.
  eapply traces_bind; [by apply read_reg_traces|]. intros a ? [-> ?].
  eapply traces_bind; [by apply read_reg_traces|]. intros a0 ? [-> ?].
  eapply traces_weaken; [apply read_fifo_traces|].
  intros d t (-> & Hd & Hl). rewrite Hl. split; [done|]. split; [done|].
  unfold FIFO_SIZE. generalize (Z.lor (Z.land a 0xFF) (Z.shiftl (Z.land a0 0xFF) 8)).
  intros x. destruct (Z.ltb_spec 512 x); destruct (Z.ltb_spec m (if 512 <? x then 512 else x)).
  all: repeat case_match; lia.
Qed.

Lemma len16_regs n : 0 <= n <= 512 ->
  [(REG_NUM_TX_BYTES1, u8 (Z.land n 0xFF));
   (REG_NUM_TX_BYTES2, u8 (Z.land (Z.shiftr n 8) 0xFF)); (REG_NUM_TX_BYTES3, 0x00)] =
  [(0x26, n mod 256); (0x27, n / 256); (0x28, 0)].
Proof.
  intros H. change 0xFF with (Z.ones 8). rewrite !Z.land_ones by lia.
  rewrite Z.shiftr_div_pow2 by lia. change (2 ^ 8) with 256. unfold u8.
  assert (0 <= n / 256 < 256) by (split; [apply Z.div_pos|apply Z.div_lt_upper_bound]; lia).
  rewrite !Z.mod_mod by lia. by rewrite (Z.mod_small (n / 256)).
Qed.

Lemma setup_traces cmd tx_data tx_len : 0 <= tx_len <= 512 ->
  (tx_data = None -> tx_len = 0) ->
  traces (transact_setup cmd tx_data tx_len)
    (fun _ t => t = setup_frames cmd tx_data tx_len).
Proof.
  intros Hl Hd. unfold transact_setup, setup_frames. cmd.
  destruct (Z.ltb_spec 0 tx_len).
  - destruct tx_data as [d|]; [|specialize (Hd eq_refl); lia]. cbn [orb].
    rewrite len16_regs by lia.
    eapply traces_bind; [apply write_regs_traces; repeat constructor; done|]. intros _ ? ->.
    eapply traces_bind.
    { apply write_regs_traces. apply Forall_fmap, Forall_forall. by intros. }
    intros _ ? ->. eapply traces_weaken; [by apply command_traces|].
    intros _ ? ->. by rewrite <- !app_assoc.
  - replace tx_len with 0 by lia. cbn [orb].
    destruct (short_frame cmd) eqn:E.
    + rewrite len16_regs by lia.
      eapply traces_bind; [apply write_regs_traces; repeat constructor; done|]. intros _ ? ->.
      destruct tx_data; (eapply traces_bind; [by apply write_reg_traces|]; intros _ ? ->;
        eapply traces_weaken; [by apply command_traces|]; intros _ ? ->;
        by rewrite <- !app_assoc).
    + eapply traces_bind; [by apply traces_ret with (T := fun _ t => t = [])|]. intros _ ? ->.
      destruct tx_data; (eapply traces_bind; [by apply traces_ret with (T := fun _ t => t = [])|];
        intros _ ? ->; eapply traces_weaken; [by apply command_traces|]; by intros _ ? ->).
Qed.

Lemma good_params tx_data tx_len rx_null rx_len :
  bad_params tx_data tx_len rx_null rx_len = false -> 0 <= tx_len ->
  (tx_data = None -> tx_len = 0) /\ (rx_null = false -> is_Some rx_len).
Proof.
  unfold bad_params. intros H Ht. apply orb_false_iff in H as [H H3].
  apply orb_false_iff in H as [H1 _]. split.
  - intros ->. simpl in H1. rewrite andb_true_r in H1. lia.
  - intros ->. destruct rx_len; [by eexists|done].
Qed.

(** the clamped length *)
Definition clamp (tx_len : Z) : Z := if FIFO_SIZE <? tx_len then FIFO_SIZE else tx_len.

Lemma transact_traces cmd tx_data tx_len rx_null rx_len timeout_ms :
  bad_params tx_data tx_len rx_null rx_len = false -> 0 <= tx_len ->
  (forall m, rx_len = Some m -> 0 <= m) ->
  traces (st25r3916_transact cmd tx_data tx_len rx_null rx_len timeout_ms)
    (run (Z.to_nat (timeout_count timeout_ms)) (setup_frames cmd tx_data (clamp tx_len))
         rx_null rx_len).
Proof.
  intros Hp Ht Hr. destruct (good_params _ _ _ _ Hp Ht) as [Hd Hn].
  unfold st25r3916_transact. rewrite Hp. fold (clamp tx_len).
  set (n := Z.to_nat (timeout_count timeout_ms)).
  eapply traces_bind.
  { apply setup_traces; unfold clamp, FIFO_SIZE; [destruct (Z.ltb_spec 512 tx_len); lia|].
    intros E. by rewrite (Hd E). }
  intros _ ? ->.
  eapply traces_bind; [apply wait_rx_traces|]. intros [w [[i1 i2] i3]] ? (k & -> & Hk).
  assert (Hdone : w <> CrcError -> (k <= n)%nat).
  { simpl in Hk. destruct w; lia || (intros; lia). }
  destruct w; simpl in Hk.
  2:{ cmd. cmd. apply traces_ret. rewrite app_nil_r. by apply run_crc. }
  all: eapply traces_bind; [apply clear3_traces|]; intros iq ? ->.
  all: apply traces_if; intros _;
    [cmd; apply traces_ret; rewrite app_nil_r, <- app_assoc; apply run_timeout; by apply Hdone|].
  all: destruct rx_null, rx_len as [m|];
    try (cmd; apply traces_ret; rewrite app_nil_r, <- app_assoc; apply run_done;
         [by apply Hdone|done]);
    try (by destruct (Hn eq_refl)).
  all: eapply traces_bind; [apply read_response_traces; by apply Hr|];
    intros d ? (-> & Hb & Hl); cmd; apply traces_ret; rewrite app_nil_r, <- !app_assoc;
    apply (run_data n _ false (Some m) k d m); auto.
Qed.

(** *** A chip that raises RXE once per response

    st25r3916_init.h: the interrupt status registers are "read to clear".
    Reading RXE as set therefore leaves the chip [quiet]: until the next
    command, reads of the status registers find RXE clear. *)
Class NfcIrq := {
  quiet : slave -> Prop;
  rxe_read_clears : forall p,
    has_bits (fst (st25r3916_read_reg REG_IRQ_STATUS1 p)) IRQ1_RXE = true ->
    quiet (chip (snd (st25r3916_read_reg REG_IRQ_STATUS1 p)));
  quiet_reads : forall p reg, In reg [REG_IRQ_STATUS1; REG_IRQ_STATUS2; REG_IRQ_STATUS3] ->
    quiet (chip p) -> quiet (chip (snd (st25r3916_read_reg reg p)));
  quiet_no_rxe : forall p, quiet (chip p) ->
    has_bits (fst (st25r3916_read_reg REG_IRQ_STATUS1 p)) IRQ1_RXE = false;
}.

Context {Nq : NfcIrq}.

Lemma wait_rx_quiet n iq p : fst (fst (wait_rx n iq p)) = Received ->
  quiet (chip (snd (wait_rx n iq p))).
Proof.
  revert iq p. induction n as [|n IH]; intros iq p; [done|].
  cbn [wait_rx]. unfold mbind, bus_bind, mret, bus_ret.
  pose proof (rxe_read_clears p) as Hc. destruct (st25r3916_read_reg _ p) as [i1 p1].
  pose proof (quiet_reads p1 REG_IRQ_STATUS2) as H2.
  destruct (st25r3916_read_reg _ p1) as [i2 p2].
  pose proof (quiet_reads p2 REG_IRQ_STATUS3) as H3.
  destruct (st25r3916_read_reg _ p2) as [i3 p3]. cbn [fst snd] in *.
  destruct (has_bits i1 IRQ1_RXE).
  - intros _. simpl. apply H3; [simpl; tauto|]. apply H2; [simpl; tauto|by apply Hc].
  - destruct (has_bits i3 IRQ3_CRC); [done|]. apply IH.
Qed.

Lemma clear_quiet i1 i2 i3 p : quiet (chip p) ->
  has_bits (fst (fst (fst (st25r3916_clear_interrupts true true true false false i1 i2 i3 p))))
    IRQ1_RXE = false.
Proof.
  intros Hq. unfold st25r3916_clear_interrupts, read_irq, mbind, bus_bind, mret, bus_ret.
  pose proof (quiet_no_rxe p Hq) as H.
  destruct (st25r3916_read_reg _ p) as [j1 p1]. destruct (st25r3916_read_reg _ p1) as [j2 p2].
  destruct (st25r3916_read_reg _ p2) as [j3 p3]. by destruct (st25r3916_send_command _ p3).
Qed.

Lemma received_reported_timeout cmd tx_data tx_len rx_null rx_len timeout_ms p :
  bad_params tx_data tx_len rx_null rx_len = false ->
  let q := snd (transact_setup cmd tx_data (clamp tx_len) p) in
  fst (fst (wait_rx (Z.to_nat (timeout_count timeout_ms)) (0, 0, 0) q)) = Received ->
  fst (st25r3916_transact cmd tx_data tx_len rx_null rx_len timeout_ms p) =
    {| r_ret := -1; r_data := []; r_len := rx_len |}.
Proof.
  intros Hp q Hw. unfold st25r3916_transact. rewrite Hp. fold (clamp tx_len).
  pose proof (wait_rx_quiet _ _ _ Hw) as Hq. revert q Hw Hq.
  unfold mbind, bus_bind, mret, bus_ret.
  destruct (transact_setup _ _ _ p) as [u q]. cbn [fst snd].
  destruct (wait_rx _ _ q) as [[w [[i1 i2] i3]] r]. cbn [fst snd]. intros -> Hq.
  pose proof (clear_quiet i1 i2 i3 r Hq) as Hc.
  destruct (st25r3916_clear_interrupts _ _ _ _ _ i1 i2 i3 r) as [iq r']. cbn [fst] in Hc.
  rewrite Hc. cbn [negb]. by destruct (st25r3916_send_command CMD_TX_OFF r').
Qed.
End Driver.

(** ** Properties *)

(** A chip for the concrete runs: the header of the access in progress and
    the interrupt flags.  A tag answers every transmission at once. *)
Record tag := { t_hdr : option Z; t_irq : Z }.
#[export] Instance eta_tag : Eta tag := eta! Build_tag < t_hdr ; t_irq >.

Definition tag_xfer (b : Z) (s : tag) : Z * tag :=
  match t_hdr s with
  | None => (0, (if b =? 0xC6 then (s <| t_irq := 0x80 |>) else s) <| t_hdr := Some b |>)
  | Some h =>
    if h =? 0x84 then (u8 (t_irq s), (s <| t_irq := 0 |>))
    else (if h =? 0xAA then 2 else 0, s)
  end.

#[local] Instance tag_slave : SpiSlave.
Proof.
  refine {| slave := tag; sl_cs := fun _ s => (s <| t_hdr := None |>);
            sl_xfer := tag_xfer; sl_pin := fun _ _ => false |}.
  intros b s. unfold tag_xfer. destruct (t_hdr s) as [h|]; [|done].
  destruct (h =? 0x84); [apply u8_range|]. by destruct (h =? 0xAA).
Defined.

#[local] Instance tag_irq : NfcIrq.
Proof.
  refine {| quiet := fun s => t_irq (s : tag) = 0 |}.
  - done.
  - intros p reg Hr Hq. destruct p as [[h i] w]. cbn in Hq. subst i.
    simpl in Hr. destruct Hr as [<-|[<-|[<-|[]]]]; reflexivity.
  - intros p Hq. destruct p as [[h i] w]. cbn in Hq. by subst i.
Defined.

Definition tag_on : port := {| chip := {| t_hdr := None; t_irq := 0 |}; wire := [] |}.

(** St25r3916_transact returns on every chip, after at most
    timeout_ms * 1500 (modulo 2^32) polls.  It is refused with -3 and no bus
    traffic exactly when a buffer and its length do not agree.  Otherwise its
    traffic is that of one of the documented runs: interrupts cleared, byte
    count and FIFO written once, TX_ON, the polls, and in every case, errors
    included, the RF field switched off by the last command; the data returned
    fits the FIFO and the caller's buffer. *)
Theorem nfc_transact_terminates {Sl : SpiSlave} (cmd tx_len timeout_ms : Z)
  (tx_data : option (nat -> Z)) (rx_null : bool) (rx_len : option Z) (p : port)
  (Htx : 0 <= tx_len) (Hrx : forall m, rx_len = Some m -> 0 <= m) :
  let res := st25r3916_transact cmd tx_data tx_len rx_null rx_len timeout_ms p in
  (r_ret (fst res) = -3 <-> bad_params tx_data tx_len rx_null rx_len = true) /\
  if bad_params tx_data tx_len rx_null rx_len then snd res = p
  else exists t t',
    run (Z.to_nat (timeout_count timeout_ms)) (setup_frames cmd tx_data (clamp tx_len))
        rx_null rx_len (fst res) t /\
    wire (snd res) = wire p ++ t /\ t = t' ++ cm CMD_TX_OFF.
Proof.
  cbv zeta. destruct (bad_params tx_data tx_len rx_null rx_len) eqn:E.
  - unfold st25r3916_transact. rewrite E. done.
  - destruct (transact_traces cmd tx_data tx_len rx_null rx_len timeout_ms E Htx Hrx p)
      as (t & Et & Hr).
    split; [split; [|done]; destruct Hr; done|].
    assert (exists t', t = t' ++ cm CMD_TX_OFF) as (t' & E').
    { destruct Hr; rewrite ?app_assoc; eauto. }
    by exists t, t'.
Qed.

Lemma nfc_transact_terminates_witness :
  bad_params None 0 false (Some 4) = false /\
  r_ret (fst (st25r3916_transact 0x26 None 0 false (Some 4) 1 tag_on)) <> -3.
Proof.
  assert (H0 : 0 <= 0) by lia.
  assert (Hm : forall m, Some 4 = Some m -> 0 <= m) by (intros m [= <-]; lia).
  destruct (nfc_transact_terminates 0x26 0 1 None false (Some 4) tag_on H0 Hm) as [H _].
  split; [reflexivity|]. intros Hr. by apply H in Hr.
Defined.

(** The interrupt registers are read-to-clear, and the transaction reads
    them again after its waiting loop, into the variable it then tests.  So
    when the loop sees the response of a tag (RXE), st25r3916_transact reports
    a timeout: -1, no data, and the length of the caller untouched. *)
Theorem nfc_response_reported_timeout {Sl : SpiSlave} {Nq : NfcIrq}
  (cmd tx_len timeout_ms : Z) (tx_data : option (nat -> Z)) (rx_null : bool)
  (rx_len : option Z) (p : port)
  (Hp : bad_params tx_data tx_len rx_null rx_len = false)
  (Hrxe : fst (fst (wait_rx (Z.to_nat (timeout_count timeout_ms)) (0, 0, 0)
                     (snd (transact_setup cmd tx_data (clamp tx_len) p)))) = Received) :
  fst (st25r3916_transact cmd tx_data tx_len rx_null rx_len timeout_ms p) =
    {| r_ret := -1; r_data := []; r_len := rx_len |}.
Proof. by apply received_reported_timeout. Qed.

Lemma nfc_response_reported_timeout_witness :
  fst (st25r3916_transact NFC_CMD_REQA None 0 false (Some 16) 1 tag_on) =
    {| r_ret := -1; r_data := []; r_len := Some 16 |}.
Proof.
  apply (nfc_response_reported_timeout NFC_CMD_REQA 0 1 None false (Some 16) tag_on);
    vm_compute; reflexivity.
Defined.

(** St25r3916_init returns on every chip with 0, -1 (identity not 0x39 or
    0x89: nothing is written to the chip) or -2 (oscillator flag missing in
    two reads), and its bus traffic is exactly that of the code. *)
Theorem nfc_init_runs {Sl : SpiSlave} (p : port) :
  exists t, init_run (fst (st25r3916_init p)) t /\
    wire (snd (st25r3916_init p)) = wire p ++ t.
Proof. destruct (nfc_init_traces p) as (t & E & H). by exists t. Qed.

(** The measurements of VDD and field strength never exceed 5000 mV and do
    not overflow, and the poll count of a transaction is timeout_ms * 1500 up
    to 2863311 ms, where it wraps: 2863312 ms waits for 704 polls. *)
Theorem nfc_numeric_bounds {Sl : SpiSlave} (p : port) (timeout_ms : Z)
  (Hms : 1 <= timeout_ms <= 2863311) :
  0 <= fst (st25r3916_measure_vdd p) <= 5000 /\
  0 <= fst (st25r3916_get_field_strength_mv p) <= 5000 /\
  timeout_count timeout_ms = timeout_ms * 1500 /\
  timeout_count 0 = 150000 /\ timeout_count 2863312 = 704.
Proof.
  assert (Hs : forall v, byte v -> 0 <= scale_5000 v <= 5000).
  { unfold byte. intros v Hv. unfold scale_5000. rewrite (u32_small (v * 5000)) by lia.
    assert (0 <= v * 5000 / 255 <= 5000).
    { split; [apply Z.div_pos; lia|]. apply Z.div_le_upper_bound; lia. }
    rewrite u16_small; lia. }
  assert (Hr : forall reg q, reg <= 0x3F -> byte (fst (st25r3916_read_reg reg q))).
  { intros reg q Hreg. by destruct (read_reg_traces reg Hreg q) as (t & _ & _ & Hb). }
  split; [|split].
  - unfold st25r3916_measure_vdd, mbind, bus_bind, mret, bus_ret.
    destruct (st25r3916_send_command _ p) as [u q]. pose proof (Hr REG_OBSV_CONF1 q) as H.
    destruct (st25r3916_read_reg _ q). by apply Hs, H.
  - unfold st25r3916_get_field_strength_mv, mbind, bus_bind, mret, bus_ret.
    destruct (st25r3916_send_command _ p) as [u q]. destruct (wait_amplitude _ q) as [u' q'].
    pose proof (Hr REG_RSSI q') as H. destruct (st25r3916_read_reg _ q'). by apply Hs, H.
  - unfold timeout_count. rewrite (proj2 (Z.eqb_neq timeout_ms 0)) by lia.
    rewrite u32_small by lia. split; [done|]. split; reflexivity.
Qed.

Lemma nfc_numeric_bounds_witness :
  1 <= 20 <= 2863311 /\ timeout_count 20 = 30000.
Proof.
  split; [lia|]. assert (H : 1 <= 20 <= 2863311) by lia.
  exact (proj1 (proj2 (proj2 (nfc_numeric_bounds tag_on 20 H)))).
Defined.
