(* ===== verification/Lms7002m.v ===== *)
(** * LMS7002M SDR transceiver (lms7002m_driver.c, lms7002m_driver.h)

    The driver state is [lms7002m_driver], a record of records as in the
    header.  The platform (SPI transfer, delay, timestamp) is not in the
    repository: it is the class [LmsPlatform].  A function of the driver is an
    [io] computation over the driver state, the platform and the commands
    sent.  The pointers to the driver and to the results are taken to be valid,
    so the NULL tests do not appear; a buffer pointer is an [option].

    [None] stands for a wait that is still running when the fuel of
    [wait_for_bitmask], one poll per millisecond of its timeout and one more,
    is used up; [lms_waits_terminate] shows that this does not happen. *)

From S2P Require Import Prelude.

(** ** Constants *)

Definition VCO_MIN_HZ : Z := 1880000000.
Definition VCO_MAX_HZ : Z := 5800000000.
Definition VCO_H_THRESHOLD_HZ : Z := 3720000000.
Definition REF_CLK_HZ : Z := 30720000.
Definition FREQ_MIN : Z := 100000.
Definition FREQ_MAX : Z := 3800000000.
Definition SAMPLE_RATE_MIN : Z := 100000.
Definition SAMPLE_RATE_MAX : Z := 10000000.
Definition PLL_INT_MIN : Z := 1.
Definition PLL_INT_MAX : Z := 255.
Definition LNA_GAIN_MAX : Z := 730.
Definition TIA_GAIN_FIXED : Z := 120.
Definition PGA_GAIN_MAX : Z := 310.
Definition RX_GAIN_TOTAL_MAX : Z := 1160.
Definition TX_GAIN_MAX : Z := 520.
Definition FIFO_DEPTH : Z := 4096.
Definition RESET_TIMEOUT_MS : Z := 50.
Definition PLL_LOCK_TIMEOUT_MS : Z := 100.
Definition DC_CAL_TIMEOUT_MS : Z := 500.
Definition IQ_CAL_TIMEOUT_MS : Z := 1000.

Definition R_TOP : Z := 0x0020.
Definition R_REV : Z := 0x0021.
Definition R_RESET : Z := 0x0022.
Definition SXR_PLL_INT : Z := 0x0110.
Definition SXR_PLL_FRAC_H : Z := 0x0111.
Definition SXR_PLL_FRAC_L : Z := 0x0112.
Definition SXR_DIV : Z := 0x0113.
Definition SXR_VCO_CTRL : Z := 0x0114.
Definition SXT_PLL_INT : Z := 0x0120.
Definition SXT_PLL_FRAC_H : Z := 0x0121.
Definition SXT_PLL_FRAC_L : Z := 0x0122.
Definition SXT_DIV : Z := 0x0123.
Definition SXT_VCO_CTRL : Z := 0x0124.
Definition RX_GAIN_LNA : Z := 0x0130.
Definition RX_GAIN_PGA : Z := 0x0131.
Definition R_TX_GAIN : Z := 0x0140.
Definition ADC_DECIMATION : Z := 0x0150.
Definition DAC_INTERPOLATION : Z := 0x0151.
Definition FIFO_CTRL : Z := 0x0160.
Definition FIFO_STATUS : Z := 0x0161.
Definition STREAM_CTRL : Z := 0x0162.
Definition CAL_CTRL : Z := 0x0170.
Definition CAL_STATUS : Z := 0x0171.
Definition CAL_RESULT_H : Z := 0x0172.
Definition CAL_RESULT_L : Z := 0x0173.

Definition LMS_OK : Z := 0.
Definition ERR_SPI : Z := -2.
Definition ERR_INVALID_PARAM : Z := -3.
Definition ERR_TIMEOUT : Z := -4.
Definition ERR_CALIBRATION : Z := -5.
Definition ERR_NOT_INITIALIZED : Z := -6.
Definition ERR_PLL_LOCK : Z := -7.

(** enum lms7002m_channel *)
Definition CH_A : Z := 0.
Definition CH_B : Z := 1.
Definition CH_COUNT : Z := 2.

(** ** Driver state *)

Record lms7002m_pll_config := { nint : Z; nfrac : Z; div_out : Z; vco_high : bool }.
Record lms7002m_gain_config :=
  { lna_gain : Z; tia_enable : bool; pga_gain : Z; tx_gain : Z }.
Record lms7002m_rate_config := { sample_rate : Z; decimation : Z; interpolation : Z }.
Record lms7002m_fifo_config := { watermark : Z; enabled : bool; format : Z }.
Record lms7002m_cal_result := {
  dc_complete : bool; iq_gain_complete : bool; iq_phase_complete : bool;
  dc_offset_i : Z; dc_offset_q : Z; iq_gain_corr : Z; iq_phase_corr : Z }.

Record lms7002m_driver := {
  initialized : bool;
  active_channel : Z;
  rx_pll : lms7002m_pll_config;
  tx_pll : lms7002m_pll_config;
  rx_gain_cfg : lms7002m_gain_config;
  tx_gain_cfg : lms7002m_gain_config;
  rate : lms7002m_rate_config;
  fifo : lms7002m_fifo_config;
  cal : lms7002m_cal_result;
  rx_frequency_hz : Z;
  tx_frequency_hz : Z;
  spi_speed_hz : Z }.

#[export] Instance eta_gain : Eta lms7002m_gain_config :=
  eta! Build_lms7002m_gain_config < lna_gain ; tia_enable ; pga_gain ; tx_gain >.
#[export] Instance eta_rate : Eta lms7002m_rate_config :=
  eta! Build_lms7002m_rate_config < sample_rate ; decimation ; interpolation >.
#[export] Instance eta_fifo : Eta lms7002m_fifo_config :=
  eta! Build_lms7002m_fifo_config < watermark ; enabled ; format >.
#[export] Instance eta_cal : Eta lms7002m_cal_result :=
  eta! Build_lms7002m_cal_result < dc_complete ; iq_gain_complete ; iq_phase_complete ;
    dc_offset_i ; dc_offset_q ; iq_gain_corr ; iq_phase_corr >.
#[export] Instance eta_driver : Eta lms7002m_driver :=
  eta! Build_lms7002m_driver < initialized ; active_channel ; rx_pll ; tx_pll ;
    rx_gain_cfg ; tx_gain_cfg ; rate ; fifo ; cal ; rx_frequency_hz ; tx_frequency_hz ;
    spi_speed_hz >.

Definition pll0 : lms7002m_pll_config :=
  {| nint := 0; nfrac := 0; div_out := 0; vco_high := false |}.
Definition gain0 : lms7002m_gain_config :=
  {| lna_gain := 0; tia_enable := false; pga_gain := 0; tx_gain := 0 |}.
(** [memset(drv, 0, sizeof( *drv))] *)
Definition driver0 : lms7002m_driver := {|
  initialized := false; active_channel := CH_A; rx_pll := pll0; tx_pll := pll0;
  rx_gain_cfg := gain0; tx_gain_cfg := gain0;
  rate := {| sample_rate := 0; decimation := 0; interpolation := 0 |};
  fifo := {| watermark := 0; enabled := false; format := 0 |};
  cal := {| dc_complete := false; iq_gain_complete := false; iq_phase_complete := false;
            dc_offset_i := 0; dc_offset_q := 0; iq_gain_corr := 0; iq_phase_corr := 0 |};
  rx_frequency_hz := 0; tx_frequency_hz := 0; spi_speed_hz := 0 |}.

Class LmsPlatform := {
  platform : Type;
  platform_spi_xfer : Z -> platform -> Z * platform;
  platform_delay_ms : Z -> platform -> platform;
  platform_timestamp_ms : platform -> Z;
}.

(** ** Register words *)

Definition lms7002m_cmd_write (addr data : Z) : Z :=
  Z.lor (Z.shiftl (Z.land addr 0x3FFF) 16) data.
Definition lms7002m_cmd_read (addr : Z) : Z :=
  u32 (Z.shiftl (Z.lor (Z.land addr 0x3FFF) 0x8000) 16).

(** ** PLL parameters *)

(** the first of the divisors whose VCO frequency is in range *)
Fixpoint find_div (fuel : nat) (freq_hz div : Z) : option Z :=
  match fuel with
  | O => None
  | S fuel =>
    if 32 <? div then None else
    let vco_freq := u64 (freq_hz * div) in
    if (VCO_MIN_HZ <=? vco_freq) && (vco_freq <=? VCO_MAX_HZ) then Some div
    else find_div fuel freq_hz (div * 2)
  end.

(** [(nint, nfrac, div_out)], or [None] for LMS7002M_ERR_INVALID_PARAM *)
Definition lms7002m_calculate_pll_params (freq_hz ref_clk : Z) : option (Z * Z * Z) :=
  if (freq_hz <? FREQ_MIN) || (FREQ_MAX <? freq_hz) then None else
  if ref_clk =? 0 then None else
  div ← find_div 7 freq_hz 1;
  let vco_freq := u64 (freq_hz * div) in
  let pll_ratio := u64 (Z.shiftl vco_freq 24) / ref_clk in
  let nint_val := u32 (Z.shiftr pll_ratio 24) in
  let nfrac_val := Z.land pll_ratio 0x00FFFFFF in
  if (nint_val <? PLL_INT_MIN) || (PLL_INT_MAX <? nint_val) then None else
  let nfrac_val := if 0x7FFFFF <? nfrac_val then 0x7FFFFF else nfrac_val in
  Some (nint_val, nfrac_val, div).

(** the decimation or interpolation factor of a sample rate *)
Definition rate_factor (rate : Z) : Z :=
  if 5000000 <=? rate then 1 else if 2500000 <=? rate then 2
  else if 1250000 <=? rate then 4 else if 625000 <=? rate then 8
  else if 312500 <=? rate then 16 else 32.

(** the LNA and PGA gains of lms7002m_set_rx_gain *)
Definition split_gain (tia : bool) (gain_db_x10 : Z) : Z * Z :=
  let remaining := if tia then gain_db_x10 - TIA_GAIN_FIXED else gain_db_x10 in
  let remaining := if remaining <? 0 then 0 else remaining in
  if remaining <=? LNA_GAIN_MAX then (u8 (remaining ÷ 10), 0)
  else
    let remaining := remaining - LNA_GAIN_MAX in
    let remaining := if PGA_GAIN_MAX <? remaining then PGA_GAIN_MAX else remaining in
    (LNA_GAIN_MAX ÷ 10, u8 (remaining ÷ 10)).

Section Driver.
Context {Pf : LmsPlatform}.

Record st := { drv : lms7002m_driver; plat : platform; sent : list Z }.
#[export] Instance eta_st : Eta st := eta! Build_st < drv ; plat ; sent >.

Definition io (A : Type) : Type := st -> option (A * st).
#[export] Instance io_ret : MRet io := fun A a s => Some (a, s).
#[export] Instance io_bind : MBind io :=
  fun A B f m s => match m s with Some (a, s) => f a s | None => None end.

Definition get {A} (f : lms7002m_driver -> A) : io A := fun s => Some (f (drv s), s).
Definition set (f : lms7002m_driver -> lms7002m_driver) : io unit :=
  fun s => Some (tt, s <| drv ::= f |>).
(** [ret = m; if (ret != LMS7002M_OK) return ret; k] *)
Definition checked (m k : io Z) : io Z :=
  ret ← m; if ret =? LMS_OK then k else mret ret.

Definition spi_xfer (tx_data : Z) : io Z := fun s =>
  let (r, p) := platform_spi_xfer tx_data (plat s) in
  Some (u32 r, s <| plat := p |> <| sent ::= fun l => l ++ [tx_data] |>).
Definition delay_ms (ms : Z) : io unit := fun s =>
  Some (tt, s <| plat ::= platform_delay_ms ms |>).
Definition timestamp_ms : io Z := fun s => Some (u32 (platform_timestamp_ms (plat s)), s).

(** *** Register access *)

Definition lms7002m_spi_read (addr : Z) : io Z :=
  init ← get initialized;
  if negb init then mret ERR_NOT_INITIALIZED else
  resp ← spi_xfer (lms7002m_cmd_read addr);
  mret (s16 (Z.land resp 0xFFFF)).

Definition lms7002m_spi_write (addr data : Z) : io Z :=
  _ ← spi_xfer (lms7002m_cmd_write addr (u16 data)); mret LMS_OK.

(** the words read, and the return value *)
Fixpoint read_regs (n : nat) (addr : Z) : io (list Z * Z) :=
  match n with
  | O => mret ([], LMS_OK)
  | S n =>
    val ← lms7002m_spi_read (u16 addr);
    if val <? 0 then mret ([], val) else
    rest ← read_regs n (addr + 1);
    mret (u16 val :: rest.1, rest.2)
  end.

Definition lms7002m_spi_read_burst (start_addr : Z) (buf_null : bool) (num_regs : Z)
    : io (list Z * Z) :=
  if buf_null then mret ([], ERR_INVALID_PARAM) else
  if (num_regs =? 0) || (0x4000 <? start_addr + num_regs) then mret ([], ERR_INVALID_PARAM)
  else r ← read_regs (Z.to_nat num_regs) start_addr;
       mret (r.1, if r.2 =? LMS_OK then num_regs else r.2).

Fixpoint write_regs (n : nat) (addr : Z) (data : nat -> Z) : io Z :=
  match n with
  | O => mret LMS_OK
  | S n => checked (lms7002m_spi_write (u16 addr) (data O))
             (write_regs n (addr + 1) (fun i => data (S i)))
  end.

Definition lms7002m_spi_write_burst (start_addr : Z) (data : option (nat -> Z)) (num_regs : Z)
    : io Z :=
  match data with
  | None => mret ERR_INVALID_PARAM
  | Some data =>
    if (num_regs =? 0) || (0x4000 <? start_addr + num_regs) then mret ERR_INVALID_PARAM
    else checked (write_regs (Z.to_nat num_regs) start_addr data) (mret num_regs)
  end.

(** *** Waiting *)

Fixpoint wait_loop (fuel : nat) (start addr mask value timeout_ms : Z) : io Z :=
  match fuel with
  | O => fun _ => None
  | S fuel =>
    reg_val ← lms7002m_spi_read addr;
    if reg_val <? 0 then mret reg_val else
    if u16 (Z.land reg_val mask) =? value then mret LMS_OK else
    now ← timestamp_ms;
    if timeout_ms <=? u32 (now - start) then mret ERR_TIMEOUT else
    _ ← delay_ms 1;
    wait_loop fuel start addr mask value timeout_ms
  end.

Definition wait_for_bitmask (addr mask value timeout_ms : Z) : io Z :=
  start ← timestamp_ms;
  wait_loop (S (Z.to_nat timeout_ms)) start addr mask value timeout_ms.

(** *** Reset, channel, initialisation *)

Definition lms7002m_reset : io Z :=
  checked (lms7002m_spi_write R_RESET 0x0001)
    (_ ← delay_ms 10;
     checked (lms7002m_spi_write R_RESET 0x0000)
       (_ ← delay_ms RESET_TIMEOUT_MS; mret LMS_OK)).

Definition lms7002m_set_channel (ch : Z) : io unit :=
  if CH_COUNT <=? ch then mret tt else
  _ ← set (fun d => (d <| active_channel := ch |>));
  _ ← lms7002m_spi_write R_TOP (if ch =? CH_B then 0x0002 else 0x0001);
  mret tt.

Definition lms7002m_get_channel : io Z := get active_channel.

Definition set_defaults (d : lms7002m_driver) : lms7002m_driver :=
  d <| active_channel := CH_A |>
    <| rx_gain_cfg ::= fun g => g <| lna_gain := 0 |> <| tia_enable := true |>
                                  <| pga_gain := 0 |> |>
    <| tx_gain_cfg ::= fun g => (g <| tx_gain := 0 |>) |>
    <| rate := {| sample_rate := 2000000; decimation := 4; interpolation := 4 |} |>
    <| fifo := {| watermark := FIFO_DEPTH / 2; enabled := false; format := 0 |} |>.

Definition lms7002m_init (speed : Z) : io Z :=
  if 20000000 <? speed then mret ERR_INVALID_PARAM else
  _ ← set (fun _ => (driver0 <| spi_speed_hz := speed |>));
  checked lms7002m_reset
    (rev ← lms7002m_spi_read R_REV;
     if rev <? 0 then mret ERR_SPI else
     _ ← set set_defaults;
     checked (lms7002m_spi_write R_TOP 0x0001)
       (_ ← set (fun d => (d <| initialized := true |>)); mret LMS_OK)).

(** *** Streaming *)

Definition lms7002m_start_rx : io Z :=
  init ← get initialized;
  if negb init then mret ERR_NOT_INITIALIZED else
  fmt ← get (fun d => format (fifo d));
  checked (lms7002m_spi_write FIFO_CTRL (Z.lor 0x0001 (u16 (Z.shiftl fmt 1))))
    (_ ← set (fun d => (d <| fifo ::= fun f => (f <| enabled := true |>) |>));
     checked (lms7002m_spi_write STREAM_CTRL 0x0001) (mret LMS_OK)).

Definition lms7002m_stop_rx : io unit :=
  init ← get initialized;
  if negb init then mret tt else
  _ ← lms7002m_spi_write STREAM_CTRL 0x0000;
  _ ← lms7002m_spi_write FIFO_CTRL 0x0000;
  set (fun d => (d <| fifo ::= fun f => (f <| enabled := false |>) |>)).

Definition lms7002m_start_tx : io Z :=
  init ← get initialized;
  if negb init then mret ERR_NOT_INITIALIZED else
  checked (lms7002m_spi_write STREAM_CTRL 0x0002) (mret LMS_OK).

Definition lms7002m_stop_tx : io unit :=
  init ← get initialized;
  if negb init then mret tt else
  _ ← lms7002m_spi_write STREAM_CTRL 0x0000; mret tt.

Definition lms7002m_deinit : io unit :=
  init ← get initialized;
  if negb init then mret tt else
  _ ← lms7002m_stop_rx;
  _ ← lms7002m_stop_tx;
  _ ← set (fun d => (d <| fifo ::= fun f => (f <| enabled := false |>) |>));
  _ ← lms7002m_spi_write FIFO_CTRL 0x0000;
  _ ← lms7002m_spi_write R_TOP 0x0000;
  set (fun d => (d <| initialized := false |>)).

(** *** Tuning *)

Definition bad_tuning (freq_hz sample_rate ch : Z) : bool :=
  (freq_hz <? FREQ_MIN) || (FREQ_MAX <? freq_hz) ||
  ((sample_rate <? SAMPLE_RATE_MIN) || (SAMPLE_RATE_MAX <? sample_rate)) ||
  (CH_COUNT <=? ch).

Definition frac_h (nfrac : Z) : Z := u16 (Z.land (Z.shiftr nfrac 16) 0xFF).
Definition frac_l (nfrac : Z) : Z := u16 (Z.land nfrac 0xFFFF).
Definition is_vco_high (freq_hz div : Z) : bool := VCO_H_THRESHOLD_HZ <=? u64 (freq_hz * div).

Definition lms7002m_configure_rx (freq_hz sample_rate ch : Z) : io Z :=
  init ← get initialized;
  if negb init then mret ERR_NOT_INITIALIZED else
  if bad_tuning freq_hz sample_rate ch then mret ERR_INVALID_PARAM else
  match lms7002m_calculate_pll_params freq_hz REF_CLK_HZ with
  | None => mret ERR_INVALID_PARAM
  | Some (ni, nf, dv) =>
    _ ← lms7002m_set_channel ch;
    checked (lms7002m_spi_write SXR_PLL_INT ni)
    (checked (lms7002m_spi_write SXR_PLL_FRAC_H (frac_h nf))
    (checked (lms7002m_spi_write SXR_PLL_FRAC_L (frac_l nf))
    (checked (lms7002m_spi_write SXR_DIV dv)
    (checked (lms7002m_spi_write SXR_VCO_CTRL 0x0001)
    (ret ← wait_for_bitmask SXR_VCO_CTRL 0x0002 0x0002 PLL_LOCK_TIMEOUT_MS;
     if negb (ret =? LMS_OK) then mret ERR_PLL_LOCK else
     checked (lms7002m_spi_write ADC_DECIMATION (rate_factor sample_rate))
     (_ ← set (fun d => d <| rx_frequency_hz := freq_hz |>
        <| rx_pll := {| nint := ni; nfrac := nf; div_out := dv;
                        vco_high := is_vco_high freq_hz dv |} |>
        <| rate ::= fun r => {| sample_rate := sample_rate;
             decimation := rate_factor sample_rate; interpolation := interpolation r |} |>);
      mret LMS_OK))))))
  end.

Definition lms7002m_configure_tx (freq_hz sample_rate ch : Z) : io Z :=
  init ← get initialized;
  if negb init then mret ERR_NOT_INITIALIZED else
  if bad_tuning freq_hz sample_rate ch then mret ERR_INVALID_PARAM else
  match lms7002m_calculate_pll_params freq_hz REF_CLK_HZ with
  | None => mret ERR_INVALID_PARAM
  | Some (ni, nf, dv) =>
    _ ← lms7002m_set_channel ch;
    checked (lms7002m_spi_write SXT_PLL_INT ni)
    (checked (lms7002m_spi_write SXT_PLL_FRAC_H (frac_h nf))
    (checked (lms7002m_spi_write SXT_PLL_FRAC_L (frac_l nf))
    (checked (lms7002m_spi_write SXT_DIV dv)
    (checked (lms7002m_spi_write SXT_VCO_CTRL 0x0001)
    (ret ← wait_for_bitmask SXT_VCO_CTRL 0x0002 0x0002 PLL_LOCK_TIMEOUT_MS;
     if negb (ret =? LMS_OK) then mret ERR_PLL_LOCK else
     checked (lms7002m_spi_write DAC_INTERPOLATION (rate_factor sample_rate))
     (_ ← set (fun d => d <| tx_frequency_hz := freq_hz |>
        <| tx_pll := {| nint := ni; nfrac := nf; div_out := dv;
                        vco_high := is_vco_high freq_hz dv |} |>
        <| rate ::= fun r => (r <| interpolation := rate_factor sample_rate |>) |>);
      mret LMS_OK))))))
  end.

(** *** Gain *)

Definition lms7002m_set_rx_gain (gain_db_x10 : Z) : io Z :=
  init ← get initialized;
  if negb init then mret ERR_NOT_INITIALIZED else
  if (gain_db_x10 <? 0) || (RX_GAIN_TOTAL_MAX <? gain_db_x10) then mret ERR_INVALID_PARAM else
  tia ← get (fun d => tia_enable (rx_gain_cfg d));
  let (lna, pga) := split_gain tia gain_db_x10 in
  checked (lms7002m_spi_write RX_GAIN_LNA lna)
  (checked (lms7002m_spi_write RX_GAIN_PGA pga)
  (_ ← set (fun d => (d <| rx_gain_cfg ::= fun g => (g <| lna_gain := lna |> <| pga_gain := pga |>) |>));
   mret LMS_OK)).

Definition lms7002m_set_tx_gain (gain_db_x10 : Z) : io Z :=
  init ← get initialized;
  if negb init then mret ERR_NOT_INITIALIZED else
  if (gain_db_x10 <? 0) || (TX_GAIN_MAX <? gain_db_x10) then mret ERR_INVALID_PARAM else
  let idx := u8 (gain_db_x10 ÷ 10) in
  checked (lms7002m_spi_write R_TX_GAIN idx)
  (_ ← set (fun d => (d <| tx_gain_cfg ::= fun g => (g <| tx_gain := idx |>) |>)); mret LMS_OK).

(** *** Calibration *)

Definition lms7002m_calibrate_dc (ch timeout_ms : Z) : io Z :=
  init ← get initialized;
  if negb init then mret ERR_NOT_INITIALIZED else
  if CH_COUNT <=? ch then mret ERR_INVALID_PARAM else
  _ ← lms7002m_set_channel ch;
  checked (lms7002m_spi_write CAL_CTRL 0x0001)
  (ret ← wait_for_bitmask CAL_STATUS 0x0001 0x0001
           (if timeout_ms =? 0 then DC_CAL_TIMEOUT_MS else timeout_ms);
   if negb (ret =? LMS_OK) then mret ERR_CALIBRATION else
   result_h ← lms7002m_spi_read CAL_RESULT_H;
   result_l ← lms7002m_spi_read CAL_RESULT_L;
   if (result_h <? 0) || (result_l <? 0) then mret ERR_SPI else
   _ ← set (fun d => (d <| cal ::= fun c => c
      <| dc_offset_i := s16 (Z.lor (Z.shiftl result_h 8)
                                   (Z.land (Z.shiftr result_l 8) 0xFF)) |>
      <| dc_offset_q := s16 (Z.land result_l 0xFF -
                             (if has_bits result_l 0x80 then 0x100 else 0)) |>
      <| dc_complete := true |> |>));
   _ ← lms7002m_spi_write CAL_CTRL 0x0000;
   mret LMS_OK).

(** the direction is not used *)
Definition lms7002m_calibrate_iq (ch timeout_ms : Z) : io Z :=
  init ← get initialized;
  if negb init then mret ERR_NOT_INITIALIZED else
  if CH_COUNT <=? ch then mret ERR_INVALID_PARAM else
  let timeout := if timeout_ms =? 0 then IQ_CAL_TIMEOUT_MS else timeout_ms in
  _ ← lms7002m_set_channel ch;
  checked (lms7002m_spi_write CAL_CTRL 0x0006)
  (ret ← wait_for_bitmask CAL_STATUS 0x0002 0x0002 timeout;
   if negb (ret =? LMS_OK) then mret ERR_CALIBRATION else
   ret ← wait_for_bitmask CAL_STATUS 0x0004 0x0004 timeout;
   if negb (ret =? LMS_OK) then mret ERR_CALIBRATION else
   result_h ← lms7002m_spi_read CAL_RESULT_H;
   result_l ← lms7002m_spi_read CAL_RESULT_L;
   if (result_h <? 0) || (result_l <? 0) then mret ERR_SPI else
   _ ← set (fun d => (d <| cal ::= fun c => c
      <| iq_gain_corr := s16 (Z.land result_h 0x3FF) |>
      <| iq_phase_corr := s16 (Z.land result_l 0x1FF) |>
      <| iq_gain_complete := true |> <| iq_phase_complete := true |> |>));
   _ ← lms7002m_spi_write CAL_CTRL 0x0000;
   mret LMS_OK).

(** *** Status and FIFO *)

(** an error code, or [*fifo_fill] and [*pll_locked] *)
Definition lms7002m_get_status : io (Z + Z * bool) :=
  init ← get initialized;
  if negb init then mret (inl ERR_NOT_INITIALIZED) else
  status ← lms7002m_spi_read FIFO_STATUS;
  if status <? 0 then mret (inl status) else
  mret (inr (u16 (Z.land status 0x0FFF), has_bits status 0x8000)).

(** the samples stored in the buffer, I and Q alternating, and [LMS_OK] or the
    negative value that ended the loop *)
Fixpoint read_samples (n : nat) : io (list Z * Z) :=
  match n with
  | O => mret ([], LMS_OK)
  | S n =>
    i_val ← lms7002m_spi_read FIFO_STATUS;
    if i_val <? 0 then mret ([], i_val) else
    q_val ← lms7002m_spi_read FIFO_STATUS;
    if q_val <? 0 then mret ([s16 i_val], q_val) else
    rest ← read_samples n;
    mret (s16 i_val :: s16 q_val :: rest.1, rest.2)
  end.

Definition lms7002m_read_fifo (buf_null : bool) (num_samples : Z) : io (list Z * Z) :=
  init ← get initialized;
  if negb init then mret ([], ERR_NOT_INITIALIZED) else
  if buf_null || (num_samples =? 0) then mret ([], ERR_INVALID_PARAM) else
  status ← lms7002m_get_status;
  match status with
  | inl ret => mret ([], ret)
  | inr (fifo_fill, _) =>
    let n := if fifo_fill <? num_samples then fifo_fill else num_samples in
    r ← read_samples (Z.to_nat n);
    mret (r.1, if r.2 =? LMS_OK then n else r.2)
  end.

Fixpoint write_samples (n : nat) (buf : nat -> Z) : io Z :=
  match n with
  | O => mret LMS_OK
  | S n =>
    checked (lms7002m_spi_write FIFO_STATUS (u16 (buf 0%nat)))
    (checked (lms7002m_spi_write FIFO_STATUS (u16 (buf 1%nat)))
    (write_samples n (fun i => buf (2 + i)%nat)))
  end.

Definition lms7002m_write_fifo (buf : option (nat -> Z)) (num_samples : Z) : io Z :=
  init ← get initialized;
  if negb init then mret ERR_NOT_INITIALIZED else
  match buf with
  | None => mret ERR_INVALID_PARAM
  | Some buf =>
    if num_samples =? 0 then mret ERR_INVALID_PARAM
    else checked (write_samples (Z.to_nat num_samples) buf) (mret num_samples)
  end.

(** ** The calls of a client *)

Inductive call :=
| CInit (speed : Z) | CDeinit | CReset | CSetChannel (ch : Z)
| CConfigureRx (freq_hz rate ch : Z) | CConfigureTx (freq_hz rate ch : Z)
| CSetRxGain (g : Z) | CSetTxGain (g : Z)
| CStartRx | CStopRx | CStartTx | CStopTx
| CCalibrateDc (ch timeout : Z) | CCalibrateIq (ch timeout : Z)
| CReadFifo (null : bool) (n : Z) | CWriteFifo (buf : option (nat -> Z)) (n : Z)
| CGetStatus
| CRead (addr : Z) | CWrite (addr data : Z)
| CReadBurst (addr : Z) (null : bool) (n : Z)
| CWriteBurst (addr : Z) (data : option (nat -> Z)) (n : Z).

Definition silent (m : io unit) : io Z := _ ← m; mret LMS_OK.
Definition second (m : io (list Z * Z)) : io Z := r ← m; mret r.2.

Definition run_call (c : call) : io Z :=
  match c with
  | CInit speed => lms7002m_init speed
  | CDeinit => silent lms7002m_deinit
  | CReset => lms7002m_reset
  | CSetChannel ch => silent (lms7002m_set_channel ch)
  | CConfigureRx f r ch => lms7002m_configure_rx f r ch
  | CConfigureTx f r ch => lms7002m_configure_tx f r ch
  | CSetRxGain g => lms7002m_set_rx_gain g
  | CSetTxGain g => lms7002m_set_tx_gain g
  | CStartRx => lms7002m_start_rx
  | CStopRx => silent lms7002m_stop_rx
  | CStartTx => lms7002m_start_tx
  | CStopTx => silent lms7002m_stop_tx
  | CCalibrateDc ch t => lms7002m_calibrate_dc ch t
  | CCalibrateIq ch t => lms7002m_calibrate_iq ch t
  | CReadFifo b n => second (lms7002m_read_fifo b n)
  | CWriteFifo b n => lms7002m_write_fifo b n
  | CGetStatus => r ← lms7002m_get_status; mret (match r with inl e => e | inr _ => LMS_OK end)
  | CRead a => lms7002m_spi_read a
  | CWrite a d => lms7002m_spi_write a d
  | CReadBurst a b n => second (lms7002m_spi_read_burst a b n)
  | CWriteBurst a d n => lms7002m_spi_write_burst a d n
  end.

(** the calls that need an initialised driver, with valid parameters *)
Definition needs_init (c : call) : bool :=
  match c with
  | CInit _ | CDeinit | CReset | CSetChannel _ | CStopRx | CStopTx
  | CWrite _ _ | CReadBurst _ _ _ | CWriteBurst _ _ _ => false
  | _ => true
  end.

(** states a client can reach from a driver that is not initialised *)
Inductive reachable (s0 : st) : st -> Prop :=
| reach_start : reachable s0 s0
| reach_call s c ret s' :
    reachable s0 s -> run_call c s = Some (ret, s') -> reachable s0 s'.

(** ** Symbolic execution *)

Definition keeps_uninit {A} (m : io A) : Prop :=
  forall s a s', initialized (drv s) = false -> m s = Some (a, s') ->
    initialized (drv s') = false.

Lemma ku_ret {A} (a : A) : keeps_uninit (mret a).
Proof. by intros s b s' H [= _ <-]. Qed.
Lemma ku_bind {A B} (m : io A) (f : A -> io B) :
  keeps_uninit m -> (forall a, keeps_uninit (f a)) -> keeps_uninit (m ≫= f).
Proof.
  intros Hm Hf s b s' H. unfold mbind, io_bind.
  destruct (m s) as [[a t]|] eqn:E; [|done]. intros E'.
  eapply Hf; [|exact E']. by eapply Hm.
Qed.
Lemma ku_checked m k : keeps_uninit m -> keeps_uninit k -> keeps_uninit (checked m k).
Proof. intros Hm Hk. apply ku_bind; [done|]. intros a. destruct (a =? LMS_OK); [done|apply ku_ret]. Qed.
Lemma ku_get {A} (f : lms7002m_driver -> A) : keeps_uninit (get f).
Proof. by intros s a s' H [= _ <-]. Qed.
Lemma ku_set f : (forall d, initialized d = false -> initialized (f d) = false) ->
  keeps_uninit (set f).
Proof. intros Hf s a s' H [= _ <-]. by apply Hf. Qed.
Lemma ku_write a d : keeps_uninit (lms7002m_spi_write a d).
Proof.
  intros s r s' H. unfold lms7002m_spi_write, mbind, io_bind, spi_xfer.
  destruct (platform_spi_xfer _ _). intros [= _ <-]. exact H.
Qed.
Lemma ku_delay ms : keeps_uninit (delay_ms ms).
Proof. by intros s a s' H [= _ <-]. Qed.

(** A computation that tests [initialized] first does nothing but return. *)
Lemma guarded {A} (m : io A) (a : A) s : initialized (drv s) = false ->
  (init ← get initialized; if negb init then mret a else m) s = Some (a, s).
Proof. intros H. unfold mbind, io_bind, get. by rewrite H. Qed.

Lemma ku_guarded {A} (m : io A) (a : A) :
  keeps_uninit (init ← get initialized; if negb init then mret a else m).
Proof. intros s b s' H. rewrite guarded by done. by intros [= _ <-]. Qed.

(** A register write changes only the platform and the commands sent. *)
Definition wrote (addr data : Z) (s : st) : st :=
  let cmd := lms7002m_cmd_write addr (u16 data) in
  s <| plat := (platform_spi_xfer cmd (plat s)).2 |> <| sent ::= fun l => l ++ [cmd] |>.

Lemma run_write addr data s : lms7002m_spi_write addr data s = Some (LMS_OK, wrote addr data s).
Proof.
  unfold lms7002m_spi_write, mbind, io_bind, spi_xfer, wrote.
  by destruct (platform_spi_xfer _ _).
Qed.
Lemma checked_write addr data k s :
  checked (lms7002m_spi_write addr data) k s = k (wrote addr data s).
Proof. unfold checked, mbind, io_bind. by rewrite run_write. Qed.
Lemma bind_write {A} addr data (f : Z -> io A) s :
  (lms7002m_spi_write addr data ≫= f) s = f LMS_OK (wrote addr data s).
Proof. unfold mbind, io_bind. by rewrite run_write. Qed.

Definition reset_done (s : st) : st :=
  (wrote R_RESET 0x0000 ((wrote R_RESET 0x0001 s) <| plat ::= platform_delay_ms 10 |>))
    <| plat ::= platform_delay_ms RESET_TIMEOUT_MS |>.

Lemma run_reset s : lms7002m_reset s = Some (LMS_OK, reset_done s).
Proof.
  unfold lms7002m_reset. rewrite checked_write. unfold mbind at 1, io_bind at 1, delay_ms at 1.
  rewrite checked_write. reflexivity.
Qed.

(** what lms7002m_init does: the read of the revision register is refused
    because [initialized] is still the false that memset wrote *)
Lemma run_init speed s : lms7002m_init speed s =
  if 20000000 <? speed then Some (ERR_INVALID_PARAM, s)
  else Some (ERR_SPI, reset_done (s <| drv := (driver0 <| spi_speed_hz := speed |>) |>)).
Proof.
  unfold lms7002m_init. destruct (20000000 <? speed); [done|].
  unfold mbind at 1, io_bind at 1, set at 1.
  unfold checked at 1, mbind at 1, io_bind at 1. rewrite run_reset. cbn [LMS_OK Z.eqb].
  unfold lms7002m_spi_read, mbind, io_bind, get. reflexivity.
Qed.

Lemma ku_read addr : keeps_uninit (lms7002m_spi_read addr).
Proof. apply ku_guarded. Qed.

Lemma ku_write_regs n addr data : keeps_uninit (write_regs n addr data).
Proof.
  revert addr data. induction n as [|n IH]; intros addr data; [apply ku_ret|].
  by apply ku_checked; [apply ku_write|].
Qed.
Lemma ku_read_regs n addr : keeps_uninit (read_regs n addr).
Proof.
  revert addr. induction n as [|n IH]; intros addr; [apply ku_ret|].
  apply ku_bind; [apply ku_read|]. intros v. destruct (v <? 0); [apply ku_ret|].
  apply ku_bind; [apply IH|]. intros; apply ku_ret.
Qed.
Lemma ku_set_channel ch : keeps_uninit (lms7002m_set_channel ch).
Proof.
  unfold lms7002m_set_channel. destruct (CH_COUNT <=? ch); [apply ku_ret|].
  apply ku_bind; [by apply ku_set|]. intros _. apply ku_bind; [apply ku_write|].
  intros; apply ku_ret.
Qed.

Lemma ku_call c : keeps_uninit (run_call c).
Proof.
  destruct c; cbn [run_call]; try apply ku_guarded;
    try (apply ku_bind; [apply ku_guarded|intros; apply ku_ret]).
  - intros s a s' H. rewrite run_init. destruct (20000000 <? speed); by intros [= _ <-].
  - intros s a s' H. rewrite run_reset. by intros [= _ <-].
  - apply ku_bind; [apply ku_set_channel|intros; apply ku_ret].
  - apply ku_write.
  - apply ku_bind; [|intros; apply ku_ret]. unfold lms7002m_spi_read_burst.
    destruct null; [apply ku_ret|]. destruct (_ || _); [apply ku_ret|].
    apply ku_bind; [apply ku_read_regs|intros; apply ku_ret].
  - unfold lms7002m_spi_write_burst. destruct data; [|apply ku_ret].
    destruct (_ || _); [apply ku_ret|]. apply ku_checked; [apply ku_write_regs|apply ku_ret].
Qed.

Lemma reachable_uninit s0 s : initialized (drv s0) = false -> reachable s0 s ->
  initialized (drv s) = false.
Proof. intros H0 Hr. induction Hr as [|s c ret s' _ IH E]; [done|]. by eapply ku_call. Qed.

Lemma needs_init_refused c s : initialized (drv s) = false -> needs_init c = true ->
  run_call c s = Some (ERR_NOT_INITIALIZED, s).
Proof.
  intros H Hc. destruct c; try done; cbn [run_call]; try by apply guarded.
  - unfold second, mbind at 1, io_bind at 1. unfold lms7002m_read_fifo.
    by rewrite guarded by done.
  - unfold mbind at 1, io_bind at 1. unfold lms7002m_get_status. by rewrite guarded by done.
Qed.
End Driver.

(** ** Arithmetic *)

Lemma find_div_spec f : FREQ_MIN <= f <= FREQ_MAX ->
  match find_div 7 f 1 with
  | Some dv => In dv [1; 2; 4; 8; 16; 32] /\ VCO_MIN_HZ <= f * dv <= VCO_MAX_HZ /\
               (forall d, In d [1; 2; 4; 8; 16; 32] -> d < dv -> f * d < VCO_MIN_HZ)
  | None => f < 58750000
  end.
Proof.
  unfold FREQ_MIN, FREQ_MAX, VCO_MIN_HZ, VCO_MAX_HZ. intros Hf.
  cbn [find_div].
  repeat match goal with |- context [32 <? ?t] =>
    let v := eval vm_compute in (32 <? t) in change (32 <? t) with v end.
  cbv match.
  rewrite !u64_small by lia. unfold VCO_MIN_HZ, VCO_MAX_HZ.
  repeat match goal with |- context [(?a <=? ?b) && (?b <=? ?c)] =>
    destruct (Z.leb_spec a b); cbn [andb];
    [destruct (Z.leb_spec b c); [|exfalso; lia]|] end.
  all: try (split; [simpl; tauto|]; split; [lia|]; intros d Hd Hlt; simpl in Hd; lia).
  lia.
Qed.

(** [f * dv * 2^24 / ref] split into [nint] and [nfrac] *)
Lemma calculate_eq f : FREQ_MIN <= f <= FREQ_MAX ->
  lms7002m_calculate_pll_params f REF_CLK_HZ =
  dv ← find_div 7 f 1;
  let q := f * dv * 2 ^ 24 / REF_CLK_HZ in
  Some (q / 2 ^ 24, Z.min (q mod 2 ^ 24) 0x7FFFFF, dv).
Proof.
  intros Hf. pose proof (find_div_spec f Hf) as Hd. unfold lms7002m_calculate_pll_params.
  rewrite (proj2 (Z.ltb_ge _ _) (proj1 Hf)), (proj2 (Z.ltb_ge _ _) (proj2 Hf)).
  cbn [orb]. change (REF_CLK_HZ =? 0) with false. cbn [orb].
  destruct (find_div 7 f 1) as [dv|]; [|done]. destruct Hd as (_ & Hv & _).
  unfold mbind, option_bind. unfold VCO_MIN_HZ, VCO_MAX_HZ, FREQ_MIN, FREQ_MAX in *.
  rewrite Z.shiftl_mul_pow2, Z.shiftr_div_pow2 by lia.
  rewrite (u64_small (f * dv)) by lia. rewrite (u64_small (f * dv * 2 ^ 24)) by lia.
  change 0x00FFFFFF with (Z.ones 24). rewrite Z.land_ones by lia.
  set (q := f * dv * 2 ^ 24 / REF_CLK_HZ).
  assert (61 <= q / 2 ^ 24 <= 188) as Hq.
  { unfold q. rewrite Z.div_div by (unfold REF_CLK_HZ; lia). unfold REF_CLK_HZ.
    split; [apply Z.div_le_lower_bound; lia|].
    enough (f * dv * 2 ^ 24 / (30720000 * 2 ^ 24) < 189) by lia.
    apply Z.div_lt_upper_bound; lia. }
  rewrite u32_small by lia. unfold PLL_INT_MIN, PLL_INT_MAX.
  rewrite (proj2 (Z.ltb_ge (q / 2 ^ 24) 1)), (proj2 (Z.ltb_ge 255 (q / 2 ^ 24))) by lia.
  cbn [orb]. do 2 f_equal. f_equal. destruct (Z.ltb_spec 0x7FFFFF (q mod 2 ^ 24)); lia.
Qed.

(** For every frequency, lms7002m_calculate_pll_params succeeds exactly
    from 58.75 MHz to 3.8 GHz, although the documented range starts at
    100 kHz.  It takes the smallest divisor that brings the VCO into its
    range, and the integer part fits its register.  The carrier is exact to
    one step of the 24-bit fraction when that fraction is below one half, and
    only then: otherwise the fraction is cut to 0x7FFFFF and the carrier is too
    low by up to half the reference clock.  At 433 MHz it is 1 MHz too low. *)
Theorem pll_params_exact_below_half (f : Z) :
  match lms7002m_calculate_pll_params f REF_CLK_HZ with
  | None => f < 58750000 \/ 3800000000 < f
  | Some (ni, nf, dv) =>
      58750000 <= f <= 3800000000 /\
      In dv [1; 2; 4; 8; 16; 32] /\ VCO_MIN_HZ <= f * dv <= VCO_MAX_HZ /\
      (forall d, In d [1; 2; 4; 8; 16; 32] -> d < dv -> f * d < VCO_MIN_HZ) /\
      PLL_INT_MIN <= ni <= PLL_INT_MAX /\ 0 <= nf <= 0x7FFFFF /\
      let missed := f * dv * 2 ^ 24 - REF_CLK_HZ * (ni * 2 ^ 24 + nf) in
      0 <= missed <= REF_CLK_HZ * (2 ^ 23 + 1) /\
      (missed < REF_CLK_HZ <-> (f * dv * 2 ^ 24 / REF_CLK_HZ) mod 2 ^ 24 < 2 ^ 23)
  end /\
  lms7002m_calculate_pll_params 433000000 REF_CLK_HZ = Some (112, 0x7FFFFF, 8) /\
  REF_CLK_HZ * (112 * 2 ^ 24 + 0x7FFFFF) < 432000000 * 8 * 2 ^ 24.
Proof.
  split; [|split; [vm_compute; reflexivity|reflexivity]].
  destruct (decide (FREQ_MIN <= f <= FREQ_MAX)) as [Hf|Hf].
  - rewrite calculate_eq by done. pose proof (find_div_spec f Hf) as Hd.
    destruct (find_div 7 f 1) as [dv|]; cbn; [|by left].
    destruct Hd as (Hin & Hv & Hmin). unfold FREQ_MIN, FREQ_MAX in Hf.
    set (a := f * dv * 2 ^ 24) in *. set (q := a / REF_CLK_HZ).
    pose proof (Z.div_mod q (2 ^ 24)) as Eq. pose proof (Z.mod_pos_bound q (2 ^ 24)).
    pose proof (Z.div_mod a REF_CLK_HZ) as Ea. fold q in Ea.
    pose proof (Z.mod_pos_bound a REF_CLK_HZ) as Hr.
    unfold VCO_MIN_HZ, VCO_MAX_HZ, PLL_INT_MIN, PLL_INT_MAX, REF_CLK_HZ in *.
    assert (58750000 <= f) by (simpl in Hin; lia).
    split; [lia|]. split; [done|]. split; [lia|]. split; [done|].
    change (2 ^ 24) with 16777216 in *. change (2 ^ 23) with 8388608 in *. unfold a in *.
    split; [lia|]. split; [lia|]. split; lia.
  - unfold lms7002m_calculate_pll_params. unfold FREQ_MIN, FREQ_MAX in *.
    destruct (Z.ltb_spec f 100000); [left; lia|]. destruct (Z.ltb_spec 3800000000 f); [|lia].
    by right.
Qed.

(** The distribution of the receive gain: every accepted gain gives an LNA
    index of at most 73 and a PGA index of at most 31, so no register value is
    truncated.  With the TIA on, a request of 12 dB or more is met to within
    less than 1 dB from below, and a smaller one still gives 12 dB; with the
    TIA off, requests above 104 dB are cut to 104 dB. *)
Theorem rx_gain_split (g : Z) (tia : bool) (Hg : 0 <= g <= RX_GAIN_TOTAL_MAX) :
  let (lna, pga) := split_gain tia g in
  let total := 10 * lna + 10 * pga + (if tia then TIA_GAIN_FIXED else 0) in
  0 <= lna <= 73 /\ 0 <= pga <= 31 /\ (0 < pga -> lna = 73) /\
  (if tia then if g <? 120 then total = 120 else g - 10 < total <= g
   else if g <=? 1040 then g - 10 < total <= g else total = 1040).
Proof.
  unfold split_gain, LNA_GAIN_MAX, PGA_GAIN_MAX, TIA_GAIN_FIXED, RX_GAIN_TOTAL_MAX in *.
  assert (H : forall x, 0 <= x <= 1160 -> x ÷ 10 = x / 10 /\ u8 (x / 10) = x / 10 /\
    10 * (x / 10) <= x < 10 * (x / 10) + 10).
  { intros x Hx. pose proof (Z.div_mod x 10). pose proof (Z.mod_pos_bound x 10).
    split; [apply Z.quot_div_nonneg; lia|]. split; [apply u8_small; lia|lia]. }
  change (730 ÷ 10) with 73. cbv zeta.
  pose proof (H (g - 120)) as H1. pose proof (H g) as H2. pose proof (H (g - 120 - 730)) as H3.
  pose proof (H (g - 730)) as H4.
  destruct tia.
  - destruct (Z.ltb_spec (g - 120) 0); destruct (Z.ltb_spec g 120); try lia.
    + change (u8 (0 ÷ 10)) with 0. simpl. lia.
    + destruct (Z.leb_spec (g - 120) 730).
      * destruct H1 as (-> & -> & ?); lia.
      * destruct (Z.ltb_spec 310 (g - 120 - 730)); [lia|].
        destruct H3 as (-> & -> & ?); lia.
  - destruct (Z.ltb_spec g 0); [lia|]. destruct (Z.leb_spec g 730).
    + destruct H2 as (-> & -> & ?); [lia|]. destruct (Z.leb_spec g 1040); lia.
    + destruct (Z.ltb_spec 310 (g - 730)); destruct (Z.leb_spec g 1040); try lia.
      * change (u8 (310 ÷ 10)) with 31. lia.
      * destruct H4 as (-> & -> & ?); lia.
Qed.

Lemma rx_gain_split_witness : split_gain true 900 = (73, 5) /\ 0 <= 73 <= 73.
Proof.
  split; [reflexivity|]. assert (H : 0 <= 900 <= RX_GAIN_TOTAL_MAX) by (unfold RX_GAIN_TOTAL_MAX; lia).
  exact (proj1 (rx_gain_split 900 true H)).
Defined.

(** *** What every call does on a driver that is not initialised *)

Section Uninitialised.
Context {Pf : LmsPlatform}.

(** num_regs is a uint16_t *)
Definition call_typed (c : call) : Prop :=
  match c with CReadBurst _ _ n | CWriteBurst _ _ n => 0 <= n < 65536 | _ => True end.

Definition bad_burst (addr n : Z) : bool := (n =? 0) || (0x4000 <? addr + n).

(** the return value *)
Definition uninit_ret (c : call) : Z :=
  match c with
  | CInit speed => if 20000000 <? speed then ERR_INVALID_PARAM else ERR_SPI
  | CReset | CSetChannel _ | CDeinit | CStopRx | CStopTx | CWrite _ _ => LMS_OK
  | CReadBurst a null n => if null || bad_burst a n then ERR_INVALID_PARAM else ERR_NOT_INITIALIZED
  | CWriteBurst a (Some _) n => if bad_burst a n then ERR_INVALID_PARAM else n
  | CWriteBurst _ None _ => ERR_INVALID_PARAM
  | _ => ERR_NOT_INITIALIZED
  end.

(** the commands that still go to the chip *)
Definition reset_pulse : list Z := [lms7002m_cmd_write R_RESET 1; lms7002m_cmd_write R_RESET 0].
Definition uninit_sent (c : call) : list Z :=
  match c with
  | CInit speed => if 20000000 <? speed then [] else reset_pulse
  | CReset => reset_pulse
  | CSetChannel ch => if CH_COUNT <=? ch then []
                      else [lms7002m_cmd_write R_TOP (if ch =? CH_B then 2 else 1)]
  | CWrite a d => [lms7002m_cmd_write a (u16 d)]
  | CWriteBurst a (Some data) n =>
      if bad_burst a n then []
      else (fun i => lms7002m_cmd_write (u16 (a + Z.of_nat i)) (u16 (data i))) <$> seq 0 (Z.to_nat n)
  | _ => []
  end.

(** the driver afterwards *)
Definition uninit_drv (c : call) (d : lms7002m_driver) : lms7002m_driver :=
  match c with
  | CInit speed => if 20000000 <? speed then d else (driver0 <| spi_speed_hz := speed |>)
  | CSetChannel ch => if CH_COUNT <=? ch then d else (d <| active_channel := ch |>)
  | _ => d
  end.

Lemma wrote_sent addr data s :
  sent (wrote addr data s) = sent s ++ [lms7002m_cmd_write addr (u16 data)].
Proof. done. Qed.

Lemma run_write_regs n addr data s :
  exists s', write_regs n addr data s = Some (LMS_OK, s') /\ drv s' = drv s /\
    sent s' = sent s ++
      ((fun i => lms7002m_cmd_write (u16 (addr + Z.of_nat i)) (u16 (data i))) <$> seq 0 n).
Proof.
  revert addr data s. induction n as [|n IH]; intros addr data s; cbn [write_regs].
  - exists s. by rewrite app_nil_r.
  - rewrite checked_write.
    destruct (IH (addr + 1) (fun i => data (S i)) (wrote (u16 addr) (data 0%nat) s))
      as (s' & E & Ed & Es).
    exists s'. rewrite E, Ed, Es, wrote_sent. split_and!; [done|done|].
    rewrite <- app_assoc. f_equal. cbn [seq fmap list_fmap app]. f_equal.
    + by rewrite Z.add_0_r.
    + rewrite <- (seq_shift n 0), <- (list_fmap_compose S). apply list_fmap_ext. intros i x _. cbn.
      do 2 f_equal. lia.
Qed.

Lemma reset_done_sent s : sent (reset_done s) = sent s ++ reset_pulse.
Proof. unfold reset_done, wrote, update, reset_pulse. cbn. by rewrite <- app_assoc. Qed.

Lemma guarded_silent m s : initialized (drv s) = false ->
  silent (init ← get initialized; if negb init then mret tt else m) s = Some (LMS_OK, s).
Proof. intros H. unfold silent, mbind at 1, io_bind at 1. by rewrite guarded. Qed.

(** the calls that test initialized before anything else *)
Lemma idle_calls c s : initialized (drv s) = false ->
  (needs_init c = true \/ c = CDeinit \/ c = CStopRx \/ c = CStopTx) ->
  run_call c s = Some (uninit_ret c, s) /\ uninit_sent c = [] /\ uninit_drv c (drv s) = drv s.
Proof.
  intros H [Hc|[->|[->| ->]]].
  - rewrite needs_init_refused by done. by destruct c.
  - split; [by apply guarded_silent|done].
  - split; [by apply guarded_silent|done].
  - split; [by apply guarded_silent|done].
Qed.

Lemma burst_read_refused addr null n s : initialized (drv s) = false -> 0 <= n ->
  run_call (CReadBurst addr null n) s = Some (uninit_ret (CReadBurst addr null n), s).
Proof.
  intros H Hn. cbn [run_call uninit_ret]. unfold second, mbind at 1, io_bind at 1.
  unfold lms7002m_spi_read_burst. fold (bad_burst addr n).
  destruct null; [done|]. destruct (bad_burst addr n) eqn:Eb; [done|].
  apply orb_false_iff in Eb as [Hz%Z.eqb_neq _].
  destruct (Z.to_nat n) as [|k] eqn:En; [lia|]. cbn [read_regs].
  assert (lms7002m_spi_read (u16 addr) s = Some (ERR_NOT_INITIALIZED, s)) as E
    by by apply guarded.
  unfold mbind, io_bind. by rewrite E.
Qed.

Lemma uninit_call c s : initialized (drv s) = false -> call_typed c ->
  exists s', run_call c s = Some (uninit_ret c, s') /\
    sent s' = sent s ++ uninit_sent c /\ drv s' = uninit_drv c (drv s) /\
    (uninit_sent c = [] -> uninit_drv c (drv s) = drv s -> s' = s).
Proof.
  intros H T.
  assert (needs_init c = true \/ c = CDeinit \/ c = CStopRx \/ c = CStopTx ->
    exists s', run_call c s = Some (uninit_ret c, s') /\ sent s' = sent s ++ uninit_sent c /\
      drv s' = uninit_drv c (drv s) /\ (uninit_sent c = [] -> uninit_drv c (drv s) = drv s -> s' = s))
    as Hidle.
  { intros Hc. destruct (idle_calls c s H Hc) as (E & Es & Ed). exists s.
    rewrite E, Es, Ed. by rewrite app_nil_r. }
  destruct c; try (apply Hidle; tauto); clear Hidle; cbn [uninit_sent uninit_drv uninit_ret].
  - cbn [run_call]. rewrite run_init. destruct (20000000 <? speed); eexists; (split; [done|]).
    + by rewrite app_nil_r.
    + by rewrite reset_done_sent.
  - cbn [run_call]. rewrite run_reset. eexists. split; [done|]. by rewrite reset_done_sent.
  - cbn [run_call]. unfold silent, lms7002m_set_channel. destruct (CH_COUNT <=? ch).
    + eexists. split; [done|]. by rewrite app_nil_r.
    + unfold mbind, io_bind, set. rewrite run_write. eexists. split; [done|].
      rewrite wrote_sent. by destruct (ch =? CH_B).
  - cbn [run_call]. rewrite run_write. eexists. split; [done|]. by rewrite wrote_sent.
  - rewrite burst_read_refused by (done || apply T). eexists. split; [done|]. by rewrite app_nil_r.
  - cbn [run_call]. unfold lms7002m_spi_write_burst. destruct data as [data|];
      [|eexists; split; [done|]; by rewrite app_nil_r].
    fold (bad_burst addr n). destruct (bad_burst addr n) eqn:Eb;
      [eexists; split; [done|]; by rewrite app_nil_r|].
    destruct (run_write_regs (Z.to_nat n) addr data s) as (s' & E & Ed & Es). exists s'.
    unfold checked, mbind, io_bind. rewrite E. change (LMS_OK =? LMS_OK) with true.
    split_and!; [done|done|done|]. apply orb_false_iff in Eb as [Hz%Z.eqb_neq _].
    destruct (Z.to_nat n) as [|k] eqn:En; [cbn in T; lia|done].
Qed.

End Uninitialised.

(** C40: The driver can never be initialised.  lms7002m_init clears the driver
    and then reads the revision register through lms7002m_spi_read, which
    refuses to run before initialisation: init returns LMS7002M_ERR_SPI on
    every chip that answers or not, having only pulsed the reset register.  So
    initialized is false in every state that any sequence of calls reaches,
    and there every call has the fixed outcome of [uninit_ret], [uninit_sent]
    and [uninit_drv]: tuning, gain, streaming start, calibration, FIFO, status
    and register reads return LMS7002M_ERR_NOT_INITIALIZED and touch nothing;
    stop and deinit do nothing; reset, set_channel, register write and burst
    write report success and still drive the chip. *)
Theorem lms_never_initialized {Pf : LmsPlatform} (s0 s : st) (c : call)
  (H0 : initialized (drv s0) = false) (Hr : reachable s0 s) (Hc : call_typed c) :
  initialized (drv s) = false /\
  (needs_init c = true -> run_call c s = Some (ERR_NOT_INITIALIZED, s)) /\
  exists s', run_call c s = Some (uninit_ret c, s') /\
    sent s' = sent s ++ uninit_sent c /\ drv s' = uninit_drv c (drv s) /\
    (uninit_sent c = [] -> uninit_drv c (drv s) = drv s -> s' = s).
Proof.
  pose proof (reachable_uninit s0 s H0 Hr) as H.
  split; [done|]. split; [by apply needs_init_refused|]. by apply uninit_call.
Qed.

(** A platform whose clock counts its own delays and on which every register
    reads as the low half of the command. *)
#[local] Instance clock_platform : LmsPlatform := {|
  platform := Z;
  platform_spi_xfer := fun tx p => (tx, p);
  platform_delay_ms := fun ms p => p + ms;
  platform_timestamp_ms := fun p => p |}.

Definition cold : st := {| drv := driver0; plat := 0; sent := [] |}.

(** after a reset, a failed initialisation at 10 MHz and a channel change *)
Definition next (c : call) (s : st) : st := (default (0, s) (run_call c s)).2.
Definition stuck : st := next (CSetChannel 1) (next (CInit 10000000) (next CReset cold)).

Lemma reach_next s0 s c : reachable s0 s -> run_call c s <> None -> reachable s0 (next c s).
Proof.
  intros H Hn. unfold next. destruct (run_call c s) as [[r s']|] eqn:E; [|done].
  by eapply reach_call.
Qed.

Lemma lms_never_initialized_witness :
  reachable cold stuck /\ length (sent stuck) = 5%nat /\
  run_call (CConfigureRx 915000000 2000000 0) stuck = Some (ERR_NOT_INITIALIZED, stuck) /\
  exists s', run_call (CWriteBurst R_TOP (Some Z.of_nat) 2) stuck = Some (2, s') /\
    sent s' = sent stuck ++ [lms7002m_cmd_write R_TOP 0; lms7002m_cmd_write (R_TOP + 1) 1].
Proof.
  assert (Hr : reachable cold stuck)
    by (repeat (apply reach_next; [|vm_compute; discriminate]); apply reach_start).
  split; [exact Hr|]. split; [vm_compute; reflexivity|]. split.
  - apply (lms_never_initialized cold stuck (CConfigureRx 915000000 2000000 0) eq_refl Hr I).
    reflexivity.
  - assert (T : call_typed (CWriteBurst R_TOP (Some Z.of_nat) 2)) by (cbn; lia).
    destruct (lms_never_initialized cold stuck _ eq_refl Hr T) as (_ & _ & s' & E & Es & _).
    exists s'. split; [exact E|exact Es].
Defined.

Section Reads.
Context {Pf : LmsPlatform}.

Lemma run_read addr s : initialized (drv s) = true ->
  exists v s', lms7002m_spi_read addr s = Some (s16 v, s') /\ 0 <= v < 65536 /\
    drv s' = drv s /\ v = Z.land (u32 (platform_spi_xfer (lms7002m_cmd_read addr) (plat s)).1) 0xFFFF.
Proof.
  intros H. unfold lms7002m_spi_read, mbind, io_bind, get. rewrite H. cbn [negb].
  unfold spi_xfer. destruct (platform_spi_xfer _ _) as [r p].
  eexists (Z.land (u32 r) 0xFFFF), _. split; [reflexivity|]. split; [|done].
  change 0xFFFF with (Z.ones 16). rewrite Z.land_ones by lia.
  apply Z.mod_pos_bound. lia.
Qed.

(** The wait polls once more whenever it does not return, so after [n] polls
    the clock has advanced by at least [n] milliseconds. *)
Variable clock : platform -> Z.
Hypothesis timestamp_is_clock : forall p, platform_timestamp_ms p = clock p.
Hypothesis xfer_time : forall tx p,
  clock p <= clock (platform_spi_xfer tx p).2 <= clock p + 1000.
Hypothesis delay_time : forall ms p, 0 <= ms ->
  clock p + ms <= clock (platform_delay_ms ms p) <= clock p + ms + 1000.

Lemma read_time addr s v s' : lms7002m_spi_read addr s = Some (v, s') ->
  clock (plat s) <= clock (plat s') <= clock (plat s) + 1000.
Proof.
  unfold lms7002m_spi_read, mbind, io_bind, get. destruct (initialized (drv s)); cbn [negb].
  - unfold spi_xfer. pose proof (xfer_time (lms7002m_cmd_read addr) (plat s)) as H.
    destruct (platform_spi_xfer _ _) as [r p]. by intros [= _ <-].
  - intros [= _ <-]. lia.
Qed.

Lemma read_some addr s : exists v s', lms7002m_spi_read addr s = Some (v, s').
Proof.
  unfold lms7002m_spi_read, mbind, io_bind, get. destruct (initialized (drv s)); cbn [negb].
  - unfold spi_xfer. destruct (platform_spi_xfer _ _). eauto.
  - eauto.
Qed.

Lemma elapsed now start : 0 <= now - start < 2 ^ 32 -> u32 (u32 now - u32 start) = now - start.
Proof. intros H. unfold u32. rewrite <- Zminus_mod. by apply Z.mod_small. Qed.

Lemma wait_loop_terminates n start addr mask value timeout s :
  0 <= timeout <= 2 ^ 32 - 5000 ->
  timeout <= Z.of_nat n + (clock (plat s) - start) ->
  0 <= clock (plat s) - start <= timeout + 2500 ->
  is_Some (wait_loop (S n) (u32 start) addr mask value timeout s).
Proof.
  intros Ht. revert s. induction n as [|n IH]; intros s Hn He.
  all: cbn [wait_loop]; unfold mbind at 1, io_bind at 1.
  all: destruct (read_some addr s) as (v & s1 & E); rewrite E; cbv iota beta.
  all: pose proof (read_time addr s v s1 E) as Hc.
  all: destruct (v <? 0); [by eexists|].
  all: destruct (u16 (Z.land v mask) =? value); [by eexists|].
  all: unfold mbind at 1, io_bind at 1, timestamp_ms; rewrite timestamp_is_clock.
  all: rewrite elapsed by lia.
  all: destruct (Z.leb_spec timeout (clock (plat s1) - start)); [by eexists|].
  { exfalso. lia. }
  unfold mbind at 1, io_bind at 1, delay_ms. pose proof (delay_time 1 (plat s1)).
  apply IH; unfold update; cbn; lia.
Qed.

Lemma wait_terminates addr mask value timeout s : 0 <= timeout <= 2 ^ 32 - 5000 ->
  is_Some (wait_for_bitmask addr mask value timeout s).
Proof.
  intros Ht. unfold wait_for_bitmask, mbind, io_bind, timestamp_ms.
  rewrite timestamp_is_clock. apply wait_loop_terminates; lia.
Qed.

(** computations that always return *)
Definition total {A} (m : io A) : Prop := forall s, is_Some (m s).
Lemma total_ret {A} (a : A) : total (mret a).
Proof. intros s. by eexists. Qed.
Lemma total_bind {A B} (m : io A) (f : A -> io B) :
  total m -> (forall a, total (f a)) -> total (m ≫= f).
Proof.
  intros Hm Hf s. unfold mbind, io_bind. destruct (Hm s) as [[a t] ->]. apply Hf.
Qed.
Lemma total_get {A} (f : lms7002m_driver -> A) : total (get f).
Proof. intros s. by eexists. Qed.
Lemma total_set f : total (set f).
Proof. intros s. by eexists. Qed.
Lemma total_write a d : total (lms7002m_spi_write a d).
Proof. intros s. rewrite run_write. by eexists. Qed.
Lemma total_read a : total (lms7002m_spi_read a).
Proof. intros s. destruct (read_some a s) as (v & s' & ->). by eexists. Qed.
Lemma total_checked m k : total m -> total k -> total (checked m k).
Proof. intros Hm Hk. apply total_bind; [done|]. intros a. destruct (a =? LMS_OK); [done|apply total_ret]. Qed.
Lemma total_guarded {A} (m : io A) (a : A) : total m ->
  total (init ← get initialized; if negb init then mret a else m).
Proof. intros H. apply total_bind; [apply total_get|]. intros []; [exact H|apply total_ret]. Qed.
Lemma total_wait addr mask value timeout : 0 <= timeout <= 2 ^ 32 - 5000 ->
  total (wait_for_bitmask addr mask value timeout).
Proof. intros H s. by apply wait_terminates. Qed.
Lemma total_set_channel ch : total (lms7002m_set_channel ch).
Proof.
  unfold lms7002m_set_channel. destruct (CH_COUNT <=? ch); [apply total_ret|].
  apply total_bind; [apply total_set|]. intros _.
  apply total_bind; [apply total_write|]. intros; apply total_ret.
Qed.

Ltac tot := repeat first
  [ apply total_ret | apply total_set | apply total_get | apply total_write
  | apply total_read | apply total_set_channel
  | apply total_wait; unfold PLL_LOCK_TIMEOUT_MS, DC_CAL_TIMEOUT_MS, IQ_CAL_TIMEOUT_MS;
    repeat case_match; lia
  | apply total_checked | apply total_bind; [|intros ?]
  | match goal with |- total (if ?b then _ else _) => destruct b end
  | match goal with |- total (match ?x with _ => _ end) => destruct x as [[[??]?]|] end ].

Lemma configure_rx_total f r ch : total (lms7002m_configure_rx f r ch).
Proof. unfold lms7002m_configure_rx. tot. Qed.
Lemma configure_tx_total f r ch : total (lms7002m_configure_tx f r ch).
Proof. unfold lms7002m_configure_tx. tot. Qed.
Lemma calibrate_dc_total ch t : 0 <= t <= 2 ^ 32 - 5000 -> total (lms7002m_calibrate_dc ch t).
Proof. intros H. unfold lms7002m_calibrate_dc. tot. Qed.
Lemma calibrate_iq_total ch t : 0 <= t <= 2 ^ 32 - 5000 -> total (lms7002m_calibrate_iq ch t).
Proof. intros H. unfold lms7002m_calibrate_iq. tot. Qed.
End Reads.

(** The waits of the driver terminate on a platform whose timestamp is a
    clock that every delay advances by at least the delay asked for, each SPI
    transfer and each delay taking at most a second more than it should: tuning
    and, for timeouts up to five seconds short of 2^32 ms, calibration return on every chip and
    from every driver state, after at most one poll per millisecond of timeout
    and one more, also when the 32-bit timestamp wraps. *)
Theorem lms_waits_terminate {Pf : LmsPlatform} (clock : platform -> Z)
  (Hclock : forall p, platform_timestamp_ms p = clock p)
  (Hxfer : forall tx p, clock p <= clock (platform_spi_xfer tx p).2 <= clock p + 1000)
  (Hdelay : forall ms p, 0 <= ms ->
     clock p + ms <= clock (platform_delay_ms ms p) <= clock p + ms + 1000)
  (freq_hz rate ch timeout : Z) (Ht : 0 <= timeout <= 2 ^ 32 - 5000) (s : st) :
  is_Some (lms7002m_configure_rx freq_hz rate ch s) /\
  is_Some (lms7002m_configure_tx freq_hz rate ch s) /\
  is_Some (lms7002m_calibrate_dc ch timeout s) /\
  is_Some (lms7002m_calibrate_iq ch timeout s).
Proof.
  split_and!.
  - by apply (configure_rx_total clock).
  - by apply (configure_tx_total clock).
  - by apply (calibrate_dc_total clock).
  - by apply (calibrate_iq_total clock).
Qed.

(** an initialised driver, to run the calls behind the guard *)
Definition warm : st :=
  {| drv := (driver0 <| initialized := true |>); plat := 2 ^ 32 - 20; sent := [] |}.

Lemma lms_waits_terminate_witness :
  is_Some (lms7002m_configure_rx 915000000 2000000 0 warm) /\
  fst <$> lms7002m_calibrate_dc 0 50 warm = Some ERR_CALIBRATION.
Proof.
  assert (Ht : 0 <= 50 <= 2 ^ 32 - 5000) by lia.
  assert (Hx : forall tx p, p <= (platform_spi_xfer (LmsPlatform := clock_platform) tx p).2
                              <= p + 1000) by (intros tx p; unfold clock_platform; cbn; lia).
  assert (Hd : forall ms p, 0 <= ms ->
    p + ms <= platform_delay_ms (LmsPlatform := clock_platform) ms p <= p + ms + 1000)
    by (intros ms p H; unfold clock_platform; cbn; lia).
  destruct (lms_waits_terminate (Pf := clock_platform) (fun p => p) (fun p => eq_refl)
    Hx Hd 915000000 2000000 0 50 Ht warm) as (H1 & _).
  split; [exact H1|vm_compute; reflexivity].
Defined.

Section Signs.
Context {Pf : LmsPlatform}.

Lemma read_value addr s v s' : initialized (drv s) = true ->
  lms7002m_spi_read addr s = Some (v, s') ->
  -32768 <= v < 32768 /\ initialized (drv s') = true.
Proof.
  intros Hi E. destruct (run_read addr s Hi) as (w & t & E' & _ & Hd & _).
  rewrite E in E'. injection E' as -> ->. split; [apply s16_range|by rewrite Hd].
Qed.

Lemma get_status_bounds fill locked s s' : initialized (drv s) = true ->
  lms7002m_get_status s = Some (inr (fill, locked), s') ->
  locked = false /\ 0 <= fill < 4096 /\ initialized (drv s') = true.
Proof.
  intros Hi. unfold lms7002m_get_status, mbind, io_bind, get at 1. rewrite Hi. cbn [negb].
  destruct (lms7002m_spi_read FIFO_STATUS s) as [[v t]|] eqn:E; [|done].
  destruct (read_value _ _ _ _ Hi E) as [Hv Ht].
  destruct (Z.ltb_spec v 0); [done|]. intros [= <- <- <-]. split_and!; try done.
  - change 0x8000 with (BIT 15). rewrite has_BIT by lia.
    destruct (Z.eq_dec v 0) as [->|]; [apply Z.bits_0|].
    apply Z.bits_above_log2; [lia|]. apply Z.log2_lt_pow2; lia.
  - change 0x0FFF with (Z.ones 12). rewrite Z.land_ones by lia. unfold u16.
    pose proof (Z.mod_pos_bound v (2 ^ 12)). rewrite Z.mod_small; lia.
  - change 0x0FFF with (Z.ones 12). rewrite Z.land_ones by lia. unfold u16.
    pose proof (Z.mod_pos_bound v (2 ^ 12)). rewrite Z.mod_small; lia.
Qed.

Lemma s16_nonneg v : 0 <= v < 32768 -> s16 v = v.
Proof. intros H. unfold s16. rewrite u16_small by lia. by rewrite (proj2 (Z.ltb_lt _ _)) by lia. Qed.

Lemma read_samples_nonneg n s l ret s' : initialized (drv s) = true ->
  read_samples n s = Some ((l, ret), s') -> Forall (fun x => 0 <= x < 0x8000) l.
Proof.
  revert s l ret s'. induction n as [|n IH]; intros s l ret s' Hi.
  { intros [= <- _ _]. constructor. }
  cbn [read_samples]. unfold mbind at 1, io_bind at 1.
  destruct (lms7002m_spi_read FIFO_STATUS s) as [[i t]|] eqn:Ei; [|done].
  destruct (read_value _ _ _ _ Hi Ei) as [Hiv Ht]. destruct (Z.ltb_spec i 0).
  { intros [= <- _ _]. constructor. }
  unfold mbind at 1, io_bind at 1.
  destruct (lms7002m_spi_read FIFO_STATUS t) as [[q u]|] eqn:Eq; [|done].
  destruct (read_value _ _ _ _ Ht Eq) as [Hqv Hu]. destruct (Z.ltb_spec q 0).
  { intros [= <- _ _]. constructor; [rewrite s16_nonneg; lia|constructor]. }
  unfold mbind at 1, io_bind at 1.
  destruct (read_samples n u) as [[[l' r'] w]|] eqn:Er; [|done].
  intros [= <- _ _]. cbn [fst]. constructor; [rewrite s16_nonneg; lia|].
  constructor; [rewrite s16_nonneg; lia|]. by eapply IH.
Qed.
End Signs.

(** A register read is sign-extended, and the sign is taken for an error.
    A word with bit 15 set is never delivered: a read of it returns a negative
    number, a status word with the lock flag (bit 15) makes get_status fail
    and so *pll_locked is false whenever get_status succeeds, and
    every sample that lms7002m_read_fifo stores is non-negative: the first
    negative sample ends the read with the sample as its error code. *)
Theorem lms_negative_words_lost {Pf : LmsPlatform} (addr n : Z) (s : st)
  (Hi : initialized (drv s) = true) :
  let v := Z.land (u32 (platform_spi_xfer (lms7002m_cmd_read addr) (plat s)).1) 0xFFFF in
  (exists s', lms7002m_spi_read addr s = Some (if v <? 0x8000 then v else v - 0x10000, s')) /\
  (forall fill locked s', lms7002m_get_status s = Some (inr (fill, locked), s') ->
     locked = false /\ 0 <= fill < 4096) /\
  (forall l ret s', lms7002m_read_fifo false n s = Some ((l, ret), s') ->
     Forall (fun x => 0 <= x < 0x8000) l).
Proof.
  split; [|split].
  - destruct (run_read addr s Hi) as (v & s' & E & Hv & _ & ->). exists s'. rewrite E.
    unfold s16, u16. by rewrite (Z.mod_small _ _ Hv).
  - intros fill locked s' E. destruct (get_status_bounds fill locked s s' Hi E) as (? & ? & _).
    by split.
  - intros l ret s'. unfold lms7002m_read_fifo, mbind, io_bind, get at 1. rewrite Hi.
    cbn [negb orb]. destruct (n =? 0); [intros [= <- _ _]; constructor|].
    destruct (lms7002m_get_status s) as [[[e|[fill locked]] t]|] eqn:E; [| |done].
    { intros [= <- _ _]. constructor. }
    destruct (get_status_bounds fill locked s t Hi E) as (_ & _ & Ht).
    destruct (read_samples _ t) as [[[l' r'] u]|] eqn:Er; [|done].
    intros [= <- _ _]. cbn [fst]. by eapply read_samples_nonneg.
Qed.

Lemma lms_negative_words_lost_witness :
  exists s', lms7002m_spi_read 0x0161 warm = Some (0, s').
Proof.
  assert (Hi : initialized (drv warm) = true) by reflexivity.
  exact (proj1 (lms_negative_words_lost 0x0161 4 warm Hi)).
Defined.
