(* ===== verification/RegisterMaps.v ===== *)
(** * Register and pin maps

    The tables of constants that the drivers and the board share: the pins of
    board_pins.h and their copy in rp2350b_init.c, the registers of the radio,
    NFC and SDR chips, of the SPI blocks on both sides and of the DMA
    controller.  A table is a list of names and values in the order of the
    file.  The lemmas say which tables are copies of each other, which
    addresses and pins are used twice, that the fields of a register do not
    overlap, and what that means for the operations of the other files. *)

From stdpp Require Import strings list.
From S2P Require Import Prelude Board SpiSlave PeriphPower SdrDma Cc1101 St25r3916 Lms7002m.
Open Scope string_scope.
Open Scope Z_scope.

(** ** Tables *)

Definition table := list (string * Z).

Definition values (t : table) : list Z := snd <$> t.
Definition value_of (n : string) (t : table) : option Z :=
  snd <$> List.find (fun e => bool_decide (fst e = n)) t.
Definition names_at (v : Z) (t : table) : list string := fst <$> filter (fun e => snd e = v) t.
(** entries under one address *)
Definition aliases (t : table) : list (Z * list string) :=
  (fun v => (v, names_at v t)) <$>
    filter (fun v => (1 < length (names_at v t))%nat) (remove_dups (values t)).
Definition GENMASK (h l : Z) : Z := Z.shiftl (2 ^ (h - l + 1) - 1) l.

(** masks that overlap no other *)
Fixpoint disjoint_masks (l : list Z) : bool :=
  match l with
  | [] => true
  | m :: l => forallb (fun k => Z.land m k =? 0) l && disjoint_masks l
  end.

Lemma disjoint_masks_spec l i j m k :
  disjoint_masks l = true -> (i < j)%nat -> l !! i = Some m -> l !! j = Some k -> Z.land m k = 0.
Proof.
  revert i j. induction l as [|a l IH]; intros [|i] [|j] D L Hi Hj; try done || lia; simpl in *.
  - apply andb_prop in D as [D _]. simplify_eq. rewrite forallb_forall in D.
    apply Z.eqb_eq, D. apply list_elem_of_In. by eapply list_elem_of_lookup_2.
  - apply andb_prop in D as [_ D]. eapply (IH i j); done || lia.
Qed.

(** ** Pins: board_pins.h and rp2350b_init.c *)
Module Pins.
Definition board_pins : list (string * Z) :=
  [("SPI0_RX", 16); ("SPI0_CSN", 17); ("SPI0_SCK", 18); ("SPI0_TX", 19); ("INT_REQ", 20);
   ("HOST_RDY", 21); ("MCU_RUN", 24); ("ANT_SEL0", 2); ("ANT_SEL1", 3); ("SDR_SPI_SCK", 27);
   ("SDR_SPI_TX", 28); ("SDR_SPI_RX", 29); ("SDR_SPI_CSN", 30); ("SDR_RESET", 31);
   ("SDR_GPIO0", 32); ("SDR_GPIO1", 33); ("SDR_LNA_EN", 34); ("CC_SPI_SCK", 8);
   ("CC_SPI_TX", 9); ("CC_SPI_RX", 12); ("CC_SPI_CSN", 10); ("CC_GDO0", 13); ("CC_GDO2", 14);
   ("NFC_SPI_SCK", 40); ("NFC_SPI_TX", 41); ("NFC_SPI_RX", 42); ("NFC_SPI_CSN", 43);
   ("NFC_IRQ", 44); ("I2C_SDA", 46); ("I2C_SCL", 47); ("ADC_VBAT", 0); ("ADC_TEMP", 4);
   ("UART_TX", 0); ("UART_RX", 1)].

Definition init_pins : list (string * Z) :=
  [("SPI0_RX", 16); ("SPI0_CSN", 17); ("SPI0_SCK", 18); ("SPI0_TX", 19); ("INT_REQ", 20);
   ("HOST_RDY", 21); ("MCU_RUN", 24); ("ANT_SEL0", 2); ("ANT_SEL1", 3); ("SDR_SPI_SCK", 27);
   ("SDR_SPI_TX", 28); ("SDR_SPI_RX", 29); ("SDR_SPI_CSN", 30); ("SDR_RESET", 31);
   ("SDR_GPIO0", 32); ("SDR_GPIO1", 33); ("SDR_LNA_EN", 34); ("CC_SPI_SCK", 8);
   ("CC_SPI_TX", 9); ("CC_SPI_RX", 12); ("CC_SPI_CSN", 10); ("CC_GDO0", 13); ("CC_GDO2", 14);
   ("NFC_SPI_SCK", 40); ("NFC_SPI_TX", 41); ("NFC_SPI_RX", 42); ("NFC_SPI_CSN", 43);
   ("NFC_IRQ", 44); ("I2C_SDA", 46); ("I2C_SCL", 47); ("ADC_VBAT", 0); ("ADC_TEMP", 4);
   ("UART_TX", 0); ("UART_RX", 1)].

(** the entries that are GPIO numbers *)
Definition gpios (t : table) : table :=
  filter (fun e => e.1 <> "ADC_VBAT" /\ e.1 <> "ADC_TEMP") t.

Lemma one_pin_map : init_pins = board_pins.
Proof. reflexivity. Qed.

Lemma gpios_used_once : NoDup (values (gpios board_pins)).
Proof. apply (bool_decide_unpack _). vm_compute. done. Qed.

(** the pins beyond the 32 bits of the output register, which nothing can move *)
Lemma unreachable_pins :
  fst <$> filter (fun e => 32 <= snd e) (gpios board_pins) =
    ["SDR_GPIO0"; "SDR_GPIO1"; "SDR_LNA_EN"; "NFC_SPI_SCK"; "NFC_SPI_TX"; "NFC_SPI_RX";
     "NFC_SPI_CSN"; "NFC_IRQ"; "I2C_SDA"; "I2C_SCL"].
Proof. reflexivity. Qed.

Lemma unreachable_pin_stuck n b : 32 <= n -> gpio_set n b = None /\ gpio_clear n b = None.
Proof.
  intros H. unfold gpio_set, gpio_clear, shl1.
  by replace (n <? 32) with false by (symmetry; apply Z.ltb_ge; lia); rewrite andb_false_r.
Qed.

(** the enable pins of peripheral_power.c that are signals of the board *)
Definition rail_pins_taken : list (Z * list string) :=
  (fun c => (gpio_pin c, names_at (gpio_pin c) board_pins)) <$> rail_configs.

Lemma rails_drive_the_bridge :
  rail_pins_taken = [(18, ["SPI0_SCK"]); (19, ["SPI0_TX"]); (20, ["INT_REQ"]); (22, []); (23, []);
                     (24, ["MCU_RUN"])].
Proof. reflexivity. Qed.

(** the constants the models use are those of the map *)
Lemma pins_modelled :
  value_of "INT_REQ" board_pins = Some PIN_INT_REQ /\
  value_of "SDR_RESET" board_pins = Some PIN_SDR_RESET /\
  value_of "SDR_GPIO0" board_pins = Some PIN_SDR_GPIO0 /\
  value_of "SDR_GPIO1" board_pins = Some PIN_SDR_GPIO1 /\
  value_of "SDR_LNA_EN" board_pins = Some PIN_SDR_LNA_EN /\
  value_of "CC_SPI_CSN" board_pins = Some PIN_CC_SPI_CSN.
Proof. split_and!; reflexivity. Qed.
End Pins.

(** ** CC1101: cc1101_init.c and its header *)
Module Cc1101Map.
Definition config_registers : list (string * Z) :=
  [("IOCFG2", 0x00); ("IOCFG1", 0x01); ("IOCFG0", 0x02); ("FIFOTHR", 0x03); ("SYNC1", 0x04);
   ("SYNC0", 0x05); ("PKTLEN", 0x06); ("PKTCTRL1", 0x07); ("PKTCTRL0", 0x08); ("ADDR", 0x09);
   ("CHANNR", 0x0A); ("FSCTRL1", 0x0B); ("FSCTRL0", 0x0C); ("FREQ2", 0x0D); ("FREQ1", 0x0E);
   ("FREQ0", 0x0F); ("MDMCFG4", 0x10); ("MDMCFG3", 0x11); ("MDMCFG2", 0x12); ("MDMCFG1", 0x13);
   ("MDMCFG0", 0x14); ("DEVIATN", 0x15); ("MCSM2", 0x16); ("MCSM1", 0x17); ("MCSM0", 0x18);
   ("FOCCFG", 0x19); ("BSCFG", 0x1A); ("AGCCTRL2", 0x1B); ("AGCCTRL1", 0x1C);
   ("AGCCTRL0", 0x1D); ("WOREVT1", 0x1E); ("WOREVT0", 0x1F); ("WORCTRL", 0x20);
   ("FREND1", 0x21); ("FREND0", 0x22); ("FSCAL3", 0x23); ("FSCAL2", 0x24); ("FSCAL1", 0x25);
   ("FSCAL0", 0x26); ("RCCTRL1", 0x27); ("RCCTRL0", 0x28); ("FSTEST", 0x29); ("PTEST", 0x2A);
   ("AGCTEST", 0x2B); ("TEST2", 0x2C); ("TEST1", 0x2D); ("TEST0", 0x2E)].

Definition strobes : list (string * Z) :=
  [("SRES", 0x30); ("SFSTXON", 0x31); ("SXOFF", 0x32); ("SCAL", 0x33); ("SRX", 0x34);
   ("STX", 0x35); ("SIDLE", 0x36); ("SAFC", 0x37); ("SWOR", 0x38); ("SPWD", 0x39);
   ("SFRX", 0x3A); ("SFTX", 0x3B); ("SWORRST", 0x3C); ("SNOP", 0x3D)].

Definition status_registers : list (string * Z) :=
  [("PARTNUM", 0x30); ("VERSION", 0x31); ("FREQEST", 0x32); ("LQI", 0x33); ("RSSI", 0x34);
   ("MARCSTATE", 0x35); ("WORTIME1", 0x36); ("WORTIME0", 0x37); ("PKTSTATUS", 0x38);
   ("VCO_VC_DAC", 0x39); ("TXBYTES", 0x3A); ("RXBYTES", 0x3B); ("RCSTATUS1", 0x3C);
   ("RCSTATUS0", 0x3D)].

Definition header_config_registers : list (string * Z) :=
  [("IOCFG2", 0x00); ("IOCFG1", 0x01); ("IOCFG0", 0x02); ("FIFOTHR", 0x03); ("SYNC1", 0x04);
   ("SYNC0", 0x05); ("PKTLEN", 0x06); ("PKTCTRL1", 0x07); ("PKTCTRL0", 0x08); ("ADDR", 0x09);
   ("CHANNR", 0x0A); ("FSCTRL1", 0x0B); ("FSCTRL0", 0x0C); ("FREQ2", 0x0D); ("FREQ1", 0x0E);
   ("FREQ0", 0x0F); ("MDMCFG4", 0x10); ("MDMCFG3", 0x11); ("MDMCFG2", 0x12); ("MDMCFG1", 0x13);
   ("MDMCFG0", 0x14); ("DEVIATN", 0x15); ("MCSM2", 0x16); ("MCSM1", 0x17); ("MCSM0", 0x18);
   ("FOCCFG", 0x19); ("BSCFG", 0x1A); ("AGCCTRL2", 0x1B); ("AGCCTRL1", 0x1C);
   ("AGCCTRL0", 0x1D); ("WOREVT1", 0x1E); ("WOREVT0", 0x1F); ("WORCTRL", 0x20);
   ("FREND1", 0x21); ("FREND0", 0x22); ("FSCAL3", 0x23); ("FSCAL2", 0x24); ("FSCAL1", 0x25);
   ("FSCAL0", 0x26); ("RCCTRL1", 0x27); ("RCCTRL0", 0x28); ("FSTEST", 0x29); ("PTEST", 0x2A);
   ("AGCTEST", 0x2B); ("TEST2", 0x2C); ("TEST1", 0x2D); ("TEST0", 0x2E)].

Definition header_strobes : list (string * Z) :=
  [("SRES", 0x30); ("SFSTXON", 0x31); ("SXOFF", 0x32); ("SCAL", 0x33); ("SRX", 0x34);
   ("STX", 0x35); ("SIDLE", 0x36); ("SAFC", 0x37); ("SWOR", 0x38); ("SPWD", 0x39);
   ("SFRX", 0x3A); ("SFTX", 0x3B); ("SWORRST", 0x3C); ("SNOP", 0x3D)].

Definition header_status_registers : list (string * Z) :=
  [("PARTNUM", 0x30); ("VERSION", 0x31); ("FREQEST", 0x32); ("LQI", 0x33); ("RSSI", 0x34);
   ("MARCSTATE", 0x35); ("WORTIME1", 0x36); ("WORTIME0", 0x37); ("PKTSTATUS", 0x38);
   ("VCO_VC_DAC", 0x39); ("TXBYTES", 0x3A); ("RXBYTES", 0x3B); ("RCSTATUS1", 0x3C);
   ("RCSTATUS0", 0x3D)].

Definition header_fifos : list (string * Z) :=
  [("PATABLE", 0x3E); ("TXFIFO", 0x3F); ("RXFIFO", 0x3F)].

(** the header declares the registers of the source file *)
Lemma one_register_map :
  header_config_registers = config_registers /\ header_strobes = strobes /\
  header_status_registers = status_registers.
Proof. split_and!; reflexivity. Qed.

(** the configuration registers are 0x00 to 0x2E without a gap; the tables of the
    three bands write the first 41 of them in order, each once *)
Lemma config_contiguous : values config_registers = seqZ 0 47.
Proof. reflexivity. Qed.
Lemma tables_write_config :
  Forall (fun t => fst <$> t = take 41 (values config_registers))
    [cc1101_config_433mhz; cc1101_config_868mhz; cc1101_config_915mhz].
Proof. repeat constructor. Qed.

(** a status register has the address of a strobe, and the single read of
    cc1101_read_status leaves the bit clear that tells the two apart *)
Lemma status_is_strobe a : a ∈ values status_registers ->
  a ∈ values strobes /\ Z.testbit (READ_SINGLE a) 6 = false.
Proof.
  intros H. split; [by vm_compute in H |- *|]. unfold READ_SINGLE.
  rewrite Z.lor_spec, Z.land_spec. change (Z.testbit 0x3F 6) with false.
  change (Z.testbit 0x80 6) with false. by rewrite andb_false_r.
Qed.
End Cc1101Map.

(** ** ST25R3916: st25r3916_init.h *)
Module St25Map.
Definition space_a : list (string * Z) :=
  [("IC_IDENTITY", 0x00); ("IC_VERSION", 0x01); ("IO_CONF1", 0x02); ("IO_CONF2", 0x03);
   ("OP_CTRL", 0x04); ("MODE_DEF", 0x05); ("BIT_RATE", 0x06); ("ISO14443A_MODE", 0x07);
   ("ISO14443B_MODE", 0x08); ("FELICA_MODE", 0x09); ("ISO15693_MODE", 0x0A);
   ("ANT_CAL_TARGET", 0x0B); ("ANT_CAL_TIME", 0x0C); ("ANT_MIN", 0x0D); ("ANT_MAX", 0x0E);
   ("ANT_TUNE", 0x0F); ("ANT_TUNE_MEAS", 0x10); ("AUX_MOD", 0x11); ("RX_CONF1", 0x12);
   ("RX_CONF2", 0x13); ("RX_CONF3", 0x14); ("RX_CONF4", 0x15); ("TX_DRIVER", 0x16);
   ("TX_CURRENT", 0x17); ("TX_CURRENT_SSC", 0x18); ("TX_CURRENT_SSC_HL", 0x19);
   ("TX_CURRENT_SSC_LH", 0x1A); ("CORR_CONF1", 0x1B); ("CORR_CONF2", 0x1C); ("TIMER_EMV", 0x1D);
   ("TIMER1", 0x1E); ("TIMER2", 0x1F); ("TIMER3", 0x20); ("IRQ_MASK1", 0x21);
   ("IRQ_MASK2", 0x22); ("IRQ_MASK3", 0x23); ("IRQ_MASK4", 0x24); ("IRQ_MASK5", 0x25);
   ("NUM_TX_BYTES1", 0x26); ("NUM_TX_BYTES2", 0x27); ("NUM_TX_BYTES3", 0x28);
   ("TX_FIFO_STATUS", 0x29); ("NUM_RX_BYTES1", 0x2A); ("NUM_RX_BYTES2", 0x2B);
   ("NUM_RX_BYTES3", 0x2C); ("RX_FIFO_STATUS", 0x2D); ("COLL_INT_CLEAR", 0x2E);
   ("WUP_TIMER", 0x2F); ("WUP_TIMER_GRAN", 0x30); ("SLP_TIMER", 0x31); ("SLP_TIMER_GRAN", 0x32);
   ("MVT", 0x33); ("AGC_CONFIG", 0x34); ("AM_CONFIG", 0x35); ("AM_GRANGE1", 0x36);
   ("AM_GRANGE2", 0x37); ("AM_GRANGE3", 0x38); ("WUP_COLL", 0x39); ("RSSI", 0x3A);
   ("OBSV_CONF1", 0x3B); ("OBSV_CONF2", 0x3C); ("OBSV_CONF3", 0x3D); ("OSC_CONF", 0x3E);
   ("VREG_CONF", 0x3F); ("TEST_DISC_CONF1", 0x3E); ("TEST_DISC_CONF2", 0x3F);
   ("IRQ_STATUS1", 0x04); ("IRQ_STATUS2", 0x05); ("IRQ_STATUS3", 0x06); ("IRQ_STATUS4", 0x07);
   ("IRQ_STATUS5", 0x08); ("TX_FIFO", 0x1F); ("RX_FIFO", 0x1F)].

Definition space_b : list (string * Z) :=
  [("SPACE_B_CTRL", 0x40); ("EMD_SUP_CONF", 0x01); ("SUBCORR_THRESH", 0x02);
   ("RATS_RESP1", 0x03); ("RATS_RESP2", 0x04); ("PV_ADAPT_LOAD", 0x05); ("DPO_ISO15693", 0x06);
   ("DPO_ISO14443A", 0x07); ("DPO_3", 0x08); ("DPO_I_CODE", 0x09)].

Definition commands : list (string * Z) :=
  [("SET_DEFAULT", 0xC1); ("INITIALIZE", 0xC2); ("INITIALIZE_DPO", 0xC3); ("CLEAR_IRQS", 0xC4);
   ("MEASURE_VDD", 0xC5); ("TX_ON", 0xC6); ("TX_OFF", 0xC7); ("CALIBRATE_ANTENNA", 0xC8);
   ("MEASURE_AMPLITUDE", 0xC9); ("MEASURE_PHASE", 0xCA); ("GOTO_SENSE", 0xD0);
   ("GOTO_SLEEP", 0xD1); ("START_WUP_TIMER", 0xD2); ("START_GP_TIMER", 0xD3);
   ("SPACE_B_ACCESS", 0xFF)].

Definition irq1_bits : list (string * Z) :=
  [("OSC", BIT 0); ("FELICA", BIT 1); ("NFCA", BIT 2); ("NFCB", BIT 3); ("NFCF", BIT 4);
   ("NFCV", BIT 5); ("TXE", BIT 6); ("RXE", BIT 7)].

Definition irq2_bits : list (string * Z) :=
  [("CAC", BIT 0); ("WU_F", BIT 1); ("WU_A", BIT 2); ("WU_S", BIT 3); ("RXS", BIT 4);
   ("RX_F", BIT 5); ("TX_F", BIT 6); ("DCT", BIT 7)].

Definition irq3_bits : list (string * Z) :=
  [("GPP_TIMER", BIT 0); ("LMS", BIT 1); ("CRC", BIT 2); ("EON", BIT 3); ("EOF", BIT 4);
   ("EMD", BIT 5); ("AWU", BIT 6); ("RFD", BIT 7)].

Definition nfc_opcodes : list (string * Z) :=
  [("REQA", 0x26); ("WUPA", 0x52); ("ANTICOL", 0x93); ("SELECT", 0x93); ("HALT", 0x50);
   ("RATS", 0xE0); ("REQB", 0x05); ("ATTRIB", 0x1D)].

(** the access macros *)
Definition st_write_single (addr : Z) : Z := Z.land addr 0x3F.
Definition st_write_burst (addr : Z) : Z := Z.lor (Z.land addr 0x3F) 0x40.
Definition st_read_single (addr : Z) : Z := Z.lor (Z.land addr 0x3F) 0x80.
Definition st_read_burst (addr : Z) : Z := Z.lor (Z.land addr 0x3F) 0xC0.
Definition st_direct_cmd (cmd : Z) : Z := Z.land cmd 0xFF.

(** addresses given to two registers: the interrupt statuses are those of the
    operation control, the mode and the bit rate *)
Lemma registers_shared :
  aliases space_a =
    [(0x3E, ["OSC_CONF"; "TEST_DISC_CONF1"]); (0x3F, ["VREG_CONF"; "TEST_DISC_CONF2"]);
     (0x04, ["OP_CTRL"; "IRQ_STATUS1"]); (0x05, ["MODE_DEF"; "IRQ_STATUS2"]);
     (0x06, ["BIT_RATE"; "IRQ_STATUS3"]); (0x07, ["ISO14443A_MODE"; "IRQ_STATUS4"]);
     (0x08, ["ISO14443B_MODE"; "IRQ_STATUS5"]); (0x1F, ["TIMER2"; "TX_FIFO"; "RX_FIFO"])].
Proof. vm_compute. reflexivity. Qed.

(** in the encoding the header gives, a direct command is the burst read of a
    register: the read of the interrupt status at 0x04 is CLEAR_IRQS *)
Lemma command_is_burst_read c : 0xC0 <= c < 0x100 -> st_direct_cmd c = st_read_burst c.
Proof.
  intros H.
  assert (F : forallb (fun c => st_direct_cmd c =? st_read_burst c) (seqZ 0xC0 64) = true)
    by (vm_compute; reflexivity).
  rewrite forallb_forall in F. apply Z.eqb_eq, F, list_elem_of_In, elem_of_seqZ. lia.
Qed.

(** the constants of the driver's model are those of the header *)
Lemma registers_modelled :
  value_of "OP_CTRL" space_a = Some REG_OP_CTRL /\ value_of "TX_FIFO" space_a = Some REG_TX_FIFO /\
  value_of "IRQ_STATUS1" space_a = Some REG_IRQ_STATUS1 /\
  value_of "RSSI" space_a = Some REG_RSSI /\ value_of "CLEAR_IRQS" commands = Some CMD_CLEAR_IRQS /\
  value_of "TXE" irq1_bits = Some IRQ1_TXE /\ value_of "RXS" irq2_bits = Some IRQ2_RXS /\
  value_of "CRC" irq3_bits = Some IRQ3_CRC /\ value_of "REQA" nfc_opcodes = Some NFC_CMD_REQA.
Proof. split_and!; reflexivity. Qed.

(** each status bit has one meaning *)
Lemma irq_bits_disjoint :
  Forall (fun t => disjoint_masks (values t) = true) [irq1_bits; irq2_bits; irq3_bits].
Proof. repeat constructor. Qed.
End St25Map.

(** ** LMS7002M: lms7002m_driver.h *)
Module LmsMap.
Definition limits : list (string * Z) :=
  [("REF_CLK_HZ", 30720000); ("FREQ_MIN", 100000); ("FREQ_MAX", 3800000000);
   ("VCO_L_MIN", 1880000000); ("VCO_L_MAX", 3720000000); ("VCO_H_MIN", 3720000000);
   ("VCO_H_MAX", 5800000000); ("SAMPLE_RATE_MIN", 100000); ("SAMPLE_RATE_MAX", 10000000);
   ("PLL_INT_MIN", 1); ("PLL_INT_MAX", 255); ("PLL_FRAC_BITS", 24); ("DIV_MIN", 1);
   ("DIV_MAX", 32); ("LNA_GAIN_MIN", 0); ("LNA_GAIN_MAX", 730); ("TIA_GAIN_FIXED", 120);
   ("PGA_GAIN_MIN", 0); ("PGA_GAIN_MAX", 310); ("RX_GAIN_TOTAL_MAX", 1160);
   ("TX_GAIN_MAX", 520); ("FIFO_DEPTH", 4096); ("SPI_TIMEOUT_MS", 100)].

Definition registers : list (string * Z) :=
  [("TOP", 0x0020); ("REV", 0x0021); ("RESET", 0x0022); ("SXR_PLL_INT", 0x0110);
   ("SXR_PLL_FRAC_H", 0x0111); ("SXR_PLL_FRAC_L", 0x0112); ("SXR_DIV", 0x0113);
   ("SXR_VCO_CTRL", 0x0114); ("SXR_VCOCAP_H", 0x0115); ("SXR_VCOCAP_L", 0x0116);
   ("SXT_PLL_INT", 0x0120); ("SXT_PLL_FRAC_H", 0x0121); ("SXT_PLL_FRAC_L", 0x0122);
   ("SXT_DIV", 0x0123); ("SXT_VCO_CTRL", 0x0124); ("RX_GAIN_LNA", 0x0130);
   ("RX_GAIN_PGA", 0x0131); ("RX_TIA_CTRL", 0x0132); ("RX_DC_OFFSET_I", 0x0133);
   ("RX_DC_OFFSET_Q", 0x0134); ("RX_IQ_CORR_GAIN", 0x0135); ("RX_IQ_CORR_PHASE", 0x0136);
   ("TX_GAIN", 0x0140); ("TX_DC_OFFSET_I", 0x0141); ("TX_DC_OFFSET_Q", 0x0142);
   ("TX_IQ_CORR_GAIN", 0x0143); ("TX_IQ_CORR_PHASE", 0x0144); ("ADC_DECIMATION", 0x0150);
   ("DAC_INTERPOLATION", 0x0151); ("ADC_RATE_H", 0x0152); ("ADC_RATE_L", 0x0153);
   ("FIFO_CTRL", 0x0160); ("FIFO_STATUS", 0x0161); ("STREAM_CTRL", 0x0162);
   ("CAL_CTRL", 0x0170); ("CAL_STATUS", 0x0171); ("CAL_RESULT_H", 0x0172);
   ("CAL_RESULT_L", 0x0173)].

Definition errors : list (string * Z) :=
  [("OK", 0); ("ERR_INIT", -1); ("ERR_SPI", -2); ("ERR_INVALID_PARAM", -3); ("ERR_TIMEOUT", -4);
   ("ERR_CALIBRATION", -5); ("ERR_NOT_INITIALIZED", -6); ("ERR_PLL_LOCK", -7);
   ("ERR_FIFO_OVERRUN", -8)].

Lemma registers_used_once : NoDup (values registers).
Proof. apply (bool_decide_unpack _). vm_compute. done. Qed.

(** every register fits the 14 bits of the command word, which a write of any
    16-bit value and a read carry, told apart by the top bit *)
Lemma command_words a v : a ∈ values registers -> 0 <= v < 65536 ->
  Z.shiftr (lms7002m_cmd_write a v) 16 = a /\ Z.land (lms7002m_cmd_write a v) 0xFFFF = v /\
  Z.land (Z.shiftr (lms7002m_cmd_read a) 16) 0x3FFF = a /\
  Z.testbit (lms7002m_cmd_write a v) 31 = false /\ Z.testbit (lms7002m_cmd_read a) 31 = true.
Proof.
  intros Ha Hv.
  assert (F : forallb (fun a => (0 <=? a) && (a <? 0x4000) && (Z.land a 0x3FFF =? a) &&
      (Z.land (Z.shiftr (lms7002m_cmd_read a) 16) 0x3FFF =? a) &&
      Z.testbit (lms7002m_cmd_read a) 31) (values registers) = true) by (vm_compute; reflexivity).
  rewrite forallb_forall in F. apply list_elem_of_In, F in Ha. clear F.
  rewrite !andb_true_iff, !Z.eqb_eq, Z.leb_le, Z.ltb_lt in Ha.
  destruct Ha as ((((H1 & H2) & E) & R) & T). unfold lms7002m_cmd_write. rewrite E.
  rewrite Z.lor_comm, lor_shiftl_add by lia. change (2 ^ 16) with 65536.
  split_and!; try done.
  - rewrite Z.shiftr_div_pow2 by lia. change (2 ^ 16) with 65536.
    Z.to_euclidean_division_equations. lia.
  - change 0xFFFF with (Z.ones 16). rewrite Z.land_ones by lia. change (2 ^ 16) with 65536.
    Z.to_euclidean_division_equations. lia.
  - rewrite Z.testbit_odd, Z.shiftr_div_pow2 by lia.
    by rewrite Z.div_small by (change (2 ^ 31) with 2147483648; lia).
Qed.

(** the two synthesizers have one layout, 0x10 apart, as far as the transmit one goes *)
Definition window (prefix : string) (t : table) : table :=
  omap (fun e => if String.prefix prefix e.1
                 then Some (String.substring (String.length prefix) (String.length e.1) e.1, e.2)
                 else None) t.
Lemma synthesizers_alike :
  (fun e => (e.1, e.2 + 0x10)) <$> take 5 (window "SXR_" registers) = window "SXT_" registers.
Proof. vm_compute. reflexivity. Qed.

Lemma limits_modelled :
  value_of "FREQ_MIN" limits = Some FREQ_MIN /\ value_of "FREQ_MAX" limits = Some FREQ_MAX /\
  value_of "VCO_L_MIN" limits = Some VCO_MIN_HZ /\ value_of "VCO_H_MAX" limits = Some VCO_MAX_HZ /\
  value_of "VCO_L_MAX" limits = value_of "VCO_H_MIN" limits /\
  value_of "FIFO_DEPTH" limits = Some FIFO_DEPTH /\
  value_of "RX_GAIN_TOTAL_MAX" limits = Some (LNA_GAIN_MAX + TIA_GAIN_FIXED + PGA_GAIN_MAX).
Proof. split_and!; reflexivity. Qed.

(** the errors are -1 to -8, each once *)
Lemma errors_distinct : (fun e => - e) <$> values errors = seqZ 0 9.
Proof. reflexivity. Qed.
End LmsMap.

(** ** The SPI blocks: apex_bridge_regs.h, rp2350b_init.c and spi0_isr.c *)
Module SpiMap.
(** the controller of the RK3576 *)
Definition rk_registers : list (string * Z) :=
  [("RK3576_SPI0_BASE", 0xFE610000); ("CR0", 0x0000); ("CR0_CLK_DIV_SHIFT", 0);
   ("CR0_CLK_DIV_MASK", GENMASK 7 0); ("CR0_SPH", BIT 8); ("CR0_SPO", BIT 9);
   ("CR0_CSM_KEEP", BIT 10); ("CR0_CSM_1CLK", Z.shiftl 0x0 11);
   ("CR0_CSM_2CLK", Z.shiftl 0x1 11); ("CR0_CSM_3CLK", Z.shiftl 0x2 11);
   ("CR0_CSM_MASK", GENMASK 12 11); ("CR0_DFS_8BIT", Z.shiftl 0x0 14);
   ("CR0_DFS_16BIT", Z.shiftl 0x1 14); ("CR0_DFS_32BIT", Z.shiftl 0x2 14);
   ("CR0_DFS_MASK", GENMASK 15 14); ("CR0_BHT_8BIT", BIT 16); ("CR0_HT_SHIFT", 16);
   ("CR0_XFM_TX", Z.shiftl 0x0 18); ("CR0_XFM_RX", Z.shiftl 0x1 18);
   ("CR0_XFM_TXRX", Z.shiftl 0x2 18); ("CR0_XFM_MASK", GENMASK 19 18);
   ("CR0_OPM_MASTER", BIT 20); ("CR0_MBM_DMA", BIT 21); ("CR0_RSD_1CLK", Z.shiftl 0x0 22);
   ("CR0_RSD_2CLK", Z.shiftl 0x1 22); ("CR0_RSD_MASK", GENMASK 23 22);
   ("CR0_SSD_HALF", Z.shiftl 0x0 24); ("CR0_SSD_HIGH", Z.shiftl 0x1 24);
   ("CR0_SSD_MASK", BIT 24); ("CR0_SSE_ENABLE", BIT 25); ("CR0_BEN_MSB", BIT 26);
   ("CR1", 0x0004); ("CR1_NDF_SHIFT", 0); ("CR1_NDF_MASK", GENMASK 15 0); ("SER", 0x0008);
   ("SER_CS0", BIT 0); ("SER_CS1", BIT 1); ("SR", 0x000C); ("SR_DCOL", BIT 0);
   ("SR_TXE", BIT 1); ("SR_RXO", BIT 2); ("SR_TXO", BIT 3); ("SR_BUSY", BIT 4);
   ("SR_TFE", BIT 5); ("SR_TFNF", BIT 6); ("SR_RFNE", BIT 7); ("SR_RFF", BIT 8);
   ("IMR", 0x0010); ("IMR_TXEIM", BIT 0); ("IMR_TXOIM", BIT 1); ("IMR_RXUIM", BIT 2);
   ("IMR_RXOIM", BIT 3); ("IMR_MIM", BIT 4); ("IMR_RIM", BIT 5); ("ISR", 0x0014);
   ("ISR_TXEIS", BIT 0); ("ISR_TXOIS", BIT 1); ("ISR_RXUIS", BIT 2); ("ISR_RXOIS", BIT 3);
   ("ISR_MIS", BIT 4); ("ISR_RIS", BIT 5); ("DR", 0x0060); ("DR_DATA_MASK", GENMASK 31 0);
   ("TXFLR", 0x0074); ("RXFLR", 0x0078); ("RXDMA", 0x0100); ("RXDMA_EN", BIT 0);
   ("TXDMA", 0x0104); ("TXDMA_EN", BIT 0); ("DMARDLR", 0x0118); ("DMATDLR", 0x011C)].

(** its GPIO bank and the lines to the module *)
Definition rk_gpio : list (string * Z) :=
  [("RK3576_GPIO1_BASE", 0xFD510000); ("GPIO1_SWPORTA_DR", 0x0000);
   ("GPIO1_SWPORTA_DDR", 0x0004); ("GPIO1_SWPORTB_DR", 0x000C); ("GPIO1_SWPORTB_DDR", 0x0010);
   ("GPIO1_INTEN", 0x0030); ("GPIO1_INTMASK", 0x0034); ("GPIO1_INTTYPE", 0x0038);
   ("GPIO1_INT_POLARITY", 0x003C); ("GPIO1_INT_STATUS", 0x0040);
   ("GPIO1_INT_RAW_STATUS", 0x0044); ("GPIO1_DEBOUNCE", 0x0048); ("GPIO1_EOI", 0x004C);
   ("GPIO1_PORTA_EOI", 0x0050)].

Definition rk_lines : list (string * Z) :=
  [("GPIO_SPI_MOSI", 0); ("GPIO_SPI_MISO", 1); ("GPIO_SPI_SCK", 2); ("GPIO_SPI_CS", 3);
   ("GPIO_INT_REQ", 8); ("GPIO_HOST_READY", 9); ("GPIO_MCU_RESET", 10); ("INT_REQ_BIT", BIT 8);
   ("HOST_READY_BIT", BIT 9); ("MCU_RESET_BIT", BIT 10)].

(** the PL022 of the RP2350B, as board and interrupt handler declare it *)
Definition ssp_registers : list (string * Z) :=
  [("SSPCR0", 0x000); ("SSPCR1", 0x004); ("SSPDR", 0x008); ("SSPSR", 0x00C); ("SSPCPSR", 0x010);
   ("SSPIMSC", 0x014); ("SSPRIS", 0x018); ("SSPMIS", 0x01C); ("SSPICR", 0x020);
   ("SSPDMACR", 0x024)].

Definition ssp_bits : list (string * Z) :=
  [("SSPCR0_DSS_8BIT", Z.shiftl 0x7 0); ("SSPCR0_FRF_SPI", Z.shiftl 0x0 4);
   ("SSPCR0_CPOL_0", Z.shiftl 0x0 6); ("SSPCR0_CPHA_0", Z.shiftl 0x0 7);
   ("SSPCR0_SCR_SHIFT", 8); ("SSPCR0_SCR_MASK", 0xFF00); ("SSPCR1_LBM", BIT 0);
   ("SSPCR1_SSE", BIT 1); ("SSPCR1_MS", BIT 2); ("SSPCR1_SOD", BIT 3); ("SSPSR_TFE", BIT 0);
   ("SSPSR_TNF", BIT 1); ("SSPSR_RNE", BIT 2); ("SSPSR_RFF", BIT 3); ("SSPSR_BSY", BIT 4)].

Definition isr_ssp_registers : list (string * Z) :=
  [("SSPCR0", 0x000); ("SSPCR1", 0x004); ("SSPDR", 0x008); ("SSPSR", 0x00C); ("SSPCPSR", 0x010);
   ("SSPIMSC", 0x014); ("SSPRIS", 0x018); ("SSPMIS", 0x01C); ("SSPICR", 0x020);
   ("SSPDMACR", 0x024)].

Definition isr_ssp_bits : list (string * Z) :=
  [("SSPSR_TFE", BIT 0); ("SSPSR_TNF", BIT 1); ("SSPSR_RNE", BIT 2); ("SSPSR_RFF", BIT 3);
   ("SSPSR_BSY", BIT 4); ("SSPIMSC_RXIM", BIT 2)].

(** the fields of a register, by their masks *)
Definition masks (names : list string) : list Z :=
  omap (fun n => value_of n rk_registers) names.
Definition cr0_fields : list string :=
  ["CR0_CLK_DIV_MASK"; "CR0_SPH"; "CR0_SPO"; "CR0_CSM_KEEP"; "CR0_CSM_MASK"; "CR0_DFS_MASK";
   "CR0_BHT_8BIT"; "CR0_XFM_MASK"; "CR0_OPM_MASTER"; "CR0_MBM_DMA"; "CR0_RSD_MASK";
   "CR0_SSD_MASK"; "CR0_SSE_ENABLE"; "CR0_BEN_MSB"].

(** fields apart, and every setting inside its field *)
Lemma cr0_fields_disjoint :
  disjoint_masks (masks cr0_fields) = true /\ length (masks cr0_fields) = 14%nat.
Proof. split; reflexivity. Qed.

Definition within (mask : string) (t : table) (settings : list string) : bool :=
  match value_of mask t with
  | None => false
  | Some m => forallb (fun n => match value_of n t with
                                | Some v => Z.ldiff v m =? 0 | None => false end) settings
  end.
Lemma cr0_settings_fit :
  within "CR0_CSM_MASK" rk_registers ["CR0_CSM_1CLK"; "CR0_CSM_2CLK"; "CR0_CSM_3CLK"] = true /\
  within "CR0_DFS_MASK" rk_registers ["CR0_DFS_8BIT"; "CR0_DFS_16BIT"; "CR0_DFS_32BIT"] = true /\
  within "CR0_XFM_MASK" rk_registers ["CR0_XFM_TX"; "CR0_XFM_RX"; "CR0_XFM_TXRX"] = true /\
  within "CR0_RSD_MASK" rk_registers ["CR0_RSD_1CLK"; "CR0_RSD_2CLK"] = true /\
  within "CR0_SSD_MASK" rk_registers ["CR0_SSD_HALF"; "CR0_SSD_HIGH"] = true.
Proof. split_and!; reflexivity. Qed.

(** the bits of the module's lines are those of their pin numbers *)
Lemma line_bits :
  value_of "INT_REQ_BIT" rk_lines = BIT <$> value_of "GPIO_INT_REQ" rk_lines /\
  value_of "HOST_READY_BIT" rk_lines = BIT <$> value_of "GPIO_HOST_READY" rk_lines /\
  value_of "MCU_RESET_BIT" rk_lines = BIT <$> value_of "GPIO_MCU_RESET" rk_lines.
Proof. split_and!; reflexivity. Qed.

(** board and handler declare the same block *)
Lemma one_ssp_block :
  isr_ssp_registers = ssp_registers /\
  Forall (fun n => value_of n isr_ssp_bits = value_of n ssp_bits)
    ["SSPSR_TFE"; "SSPSR_TNF"; "SSPSR_RNE"; "SSPSR_RFF"; "SSPSR_BSY"].
Proof. split; [reflexivity|]. repeat constructor. Qed.
End SpiMap.

(** ** The DMA controller: sdr_dma.c *)
Module DmaMap.
Definition RP2350B_DMA_BASE : Z := 0x50000000.
Definition dma_registers : list (string * Z) :=
  [("CH0_CTRL", RP2350B_DMA_BASE + 0x000); ("CH0_READ_ADDR", RP2350B_DMA_BASE + 0x004);
   ("CH0_WRITE_ADDR", RP2350B_DMA_BASE + 0x008); ("CH0_TRANS_COUNT", RP2350B_DMA_BASE + 0x00C);
   ("CH1_CTRL", RP2350B_DMA_BASE + 0x040); ("CH1_READ_ADDR", RP2350B_DMA_BASE + 0x044);
   ("CH1_WRITE_ADDR", RP2350B_DMA_BASE + 0x048); ("CH1_TRANS_COUNT", RP2350B_DMA_BASE + 0x04C);
   ("INTS", RP2350B_DMA_BASE + 0x240); ("INTE", RP2350B_DMA_BASE + 0x244);
   ("INTF", RP2350B_DMA_BASE + 0x248); ("INTS0", RP2350B_DMA_BASE + 0x240);
   ("INTE0", RP2350B_DMA_BASE + 0x244); ("CHAN_EN", RP2350B_DMA_BASE + 0x230);
   ("CHAN_EN0", RP2350B_DMA_BASE + 0x230)].

Definition ctrl_bits : list (string * Z) :=
  [("EN", BIT 0); ("HIGH_PRIORITY", BIT 1); ("DATA_SIZE_8", Z.shiftl 0 2);
   ("DATA_SIZE_16", BIT 2); ("DATA_SIZE_32", Z.shiftl 2 2); ("INCR_READ", BIT 4);
   ("INCR_WRITE", BIT 5); ("RING_SEL", BIT 6); ("RING_SIZE_4", Z.shiftl 0 8);
   ("RING_SIZE_8", BIT 8); ("RING_SIZE_16", Z.shiftl 2 8); ("RING_SIZE_32", Z.shiftl 3 8);
   ("IRQ_QUIET", BIT 21); ("BSWAP", BIT 22); ("SNIFF_EN", BIT 23)].
Definition CHAIN_TO (ch : Z) : Z := Z.shiftl ch 11.
Definition TREQ_SEL (val : Z) : Z := Z.shiftl val 15.
Definition treq_signals : list (string * Z) :=
  [("SPI1_RX", 0x0A); ("SPI0_TX", 0x06); ("PERMANENT", 0x3F)].

(** the bit fields of CTRL, the size fields by their widest setting *)
Lemma ctrl_fields_disjoint :
  disjoint_masks (GENMASK 3 2 :: GENMASK 9 8 :: CHAIN_TO 15 :: TREQ_SEL 0x3F ::
    omap (fun n => value_of n ctrl_bits)
      ["EN"; "HIGH_PRIORITY"; "INCR_READ"; "INCR_WRITE"; "RING_SEL"; "IRQ_QUIET"; "BSWAP";
       "SNIFF_EN"]) = true.
Proof. reflexivity. Qed.

(** the pacing signal of a control word, whatever else it sets *)
Lemma treq_readable n v w : value_of n treq_signals = Some v ->
  Z.land w (TREQ_SEL 0x3F) = 0 ->
  Z.land (Z.shiftr (Z.lor w (TREQ_SEL v)) 15) 0x3F = v.
Proof.
  intros E Hw. apply Z.bits_inj'. intros i Hi.
  rewrite Z.land_spec, Z.shiftr_spec, Z.lor_spec by done. unfold TREQ_SEL in *.
  rewrite Z.shiftl_spec by lia. replace (i + 15 - 15) with i by lia.
  assert (Hv : Z.testbit v i = Z.testbit v i && Z.testbit 0x3F i).
  { rewrite <- Z.land_spec. f_equal. unfold value_of in E. simpl in E.
    repeat case_bool_decide; simplify_eq/=; reflexivity. }
  assert (Hb : Z.testbit w (i + 15) && Z.testbit 0x3F i = false).
  { rewrite <- (Z.add_simpl_r i 15) at 2. rewrite <- Z.shiftl_spec, <- Z.land_spec by lia.
    by rewrite Hw, Z.testbit_0_l. }
  rewrite andb_orb_distrib_l, Hb, Hv. simpl. by rewrite <- andb_assoc, andb_diag.
Qed.

Lemma dma_modelled :
  value_of "EN" ctrl_bits = Some DMA_CTRL_EN /\
  value_of "INCR_WRITE" ctrl_bits = Some DMA_CTRL_INCR_WRITE /\
  value_of "IRQ_QUIET" ctrl_bits = Some DMA_CTRL_IRQ_QUIET /\
  value_of "SPI1_RX" treq_signals = Some DMA_TREQ_SPI1_RX.
Proof. split_and!; reflexivity. Qed.
End DmaMap.

(** ** The chip: rp2350b_init.c and battery_monitor.c *)
Module SocMap.
Definition bases : list (string * Z) :=
  [("SYSINFO_BASE", 0x40000000); ("SYSCFG_BASE", 0x40004000); ("CLOCKS_BASE", 0x40008000);
   ("RESETS_BASE", 0x4000C000); ("PADS_BANK0_BASE", 0x4001C000); ("IO_BANK0_BASE", 0x40018000);
   ("GPIO_BASE", 0x400D0000); ("SPI0_BASE", 0x48060000); ("SPI1_BASE", 0x48070000);
   ("SPI2_BASE", 0x48090000); ("I2C0_BASE", 0x48040000); ("PIO0_BASE", 0x50200000);
   ("PIO1_BASE", 0x50300000); ("ADC_BASE", 0x50041000); ("NVIC_BASE", 0xE000E100);
   ("SCB_BASE", 0xE000ED00)].

Definition clock_registers : list (string * Z) :=
  [("REF_CFG", 0x00); ("REF_DIV", 0x04); ("SYS_CFG", 0x08); ("SYS_DIV", 0x0C);
   ("PERI_CFG", 0x10); ("CLK_SYS_PLL_SYS", 0x00); ("CLK_SYS_PLL_USB", 0x01)].

Definition reset_bits : list (string * Z) :=
  [("SPI0", BIT 16); ("SPI1", BIT 17); ("SPI2", BIT 18); ("I2C0", BIT 22); ("UART0", BIT 24);
   ("ADC", BIT 28); ("PIO0", BIT 32); ("PIO1", BIT 33); ("PADS_BANK0", BIT 42)].

Definition pll_constants : list (string * Z) :=
  [("XOSC_FREQ_HZ", 12000000); ("SYS_CLK_TARGET_HZ", 150000000);
   ("PLL_SYS_VCO_FREQ_HZ", 1500000000); ("PLL_SYS_REFDIV", 1); ("PLL_SYS_FBDIV", 125);
   ("PLL_SYS_POSTDIV1", 5); ("PLL_SYS_POSTDIV2", 2)].

Definition adc_registers : list (string * Z) :=
  [("CS", 0x00); ("RESULT", 0x04); ("FCS", 0x08); ("FIFO", 0x0C); ("DIV", 0x10)].

Definition adc_cs_bits : list (string * Z) :=
  [("EN", BIT 0); ("TS_EN", BIT 1); ("START_ONCE", BIT 2); ("START_MANY", BIT 3);
   ("READY", BIT 8); ("ERR_STICKY", BIT 10)].

Definition adc_fcs_bits : list (string * Z) :=
  [("DREQ_EN", BIT 0); ("THRESH_SHIFT", 24); ("EMPTY", BIT 8); ("FULL", BIT 9);
   ("LEVEL_SHIFT", 16)].

Lemma bases_distinct : NoDup (values bases).
Proof. apply (bool_decide_unpack _). vm_compute. done. Qed.

(** the reset bits beyond the 32-bit register, which stay asserted *)
Lemma resets_out_of_range :
  fst <$> filter (fun e => 2 ^ 32 <= snd e) reset_bits = ["PIO0"; "PIO1"; "PADS_BANK0"].
Proof. vm_compute. reflexivity. Qed.

(** the dividers give the clock they are named for *)
Definition pll_hz (xosc refdiv fbdiv postdiv1 postdiv2 : Z) : Z :=
  xosc / refdiv * fbdiv / (postdiv1 * postdiv2).
Lemma pll_reaches_target :
  (x ← value_of "XOSC_FREQ_HZ" pll_constants; r ← value_of "PLL_SYS_REFDIV" pll_constants;
   f ← value_of "PLL_SYS_FBDIV" pll_constants; p ← value_of "PLL_SYS_POSTDIV1" pll_constants;
   q ← value_of "PLL_SYS_POSTDIV2" pll_constants; Some (x / r * f, pll_hz x r f p q)) =
  (v ← value_of "PLL_SYS_VCO_FREQ_HZ" pll_constants;
   t ← value_of "SYS_CLK_TARGET_HZ" pll_constants; Some (v, t)).
Proof. reflexivity. Qed.

Lemma adc_bits_disjoint :
  disjoint_masks (values adc_cs_bits) = true /\
  disjoint_masks (omap (fun n => value_of n adc_fcs_bits) ["DREQ_EN"; "EMPTY"; "FULL"]) = true.
Proof. split; reflexivity. Qed.
End SocMap.
