(* ===== verification/AdcCal.v ===== *)
(** * ADC calibration (adc_calibration.c, adc_calibration.h)

    Averaged readings, the calibration record in flash with its checksum, the
    two-point calibration, the corrections, and the self test.  The Pico SDK
    (ADC, flash, timer) is not in the repository: it is the class [PicoSdk]
    with the documented facts the theorems use.  The record is the byte image
    of [struct adc_cal_record] on the target: 24 bytes, with padding at 3 and
    at 21 to 23. *)

From S2P Require Import Prelude.

Class PicoSdk := {
  sdk : Type;
  adc_select_input : Z -> sdk -> sdk;
  adc_read : sdk -> Z * sdk;
  (** [adc_init(); adc_set_temp_sensor_enabled(true)] *)
  adc_setup : sdk -> sdk;
  flash_range_erase : Z -> Z -> sdk -> sdk;
  flash_range_program : Z -> list Z -> sdk -> sdk;
  (** [n] bytes of flash at an offset, through XIP *)
  flash_bytes : Z -> nat -> sdk -> list Z;
  time_us_32 : sdk -> Z;
  adc_12_bits : forall s, 0 <= fst (adc_read s) <= 4095;
}.

(** ** Constants and data *)

Definition ADC_CAL_FLASH_OFFSET : Z := 0x1FF000.
Definition FLASH_SECTOR_SIZE : Z := 4096.
Definition ADC_CAL_REF_MV : Z := 3300.
Definition ADC_CAL_FULL_SCALE : Z := 4095.
Definition ADC_CAL_VBAT_NUMERATOR : Z := 3249700.
Definition ADC_CAL_VBAT_DENOMINATOR : Z := 1000000.
Definition ADC_CAL_VBAT_ROUNDING : Z := 500.
Definition ADC_CAL_CALIBRATION_SAMPLES : Z := 64.
Definition ADC_CAL_MAGIC : Z := 0xADCA.

Record adc_cal_coeffs := {
  vbat_offset_mv : Z; vbat_gain_x1000 : Z; temp_offset_dcx10 : Z; temp_gain_x1000 : Z;
  calibrated : bool; cal_version : Z; reserved : Z }.

Definition nominal : adc_cal_coeffs :=
  {| vbat_offset_mv := 0; vbat_gain_x1000 := 1000; temp_offset_dcx10 := 0;
     temp_gain_x1000 := 1000; calibrated := false; cal_version := 1; reserved := 0 |}.

(** the bytes of [struct adc_cal_coeffs], little-endian *)
Definition coeffs_bytes (c : adc_cal_coeffs) : list Z :=
  le_bytes 2 (u16 (vbat_offset_mv c)) ++ le_bytes 2 (vbat_gain_x1000 c) ++
  le_bytes 2 (u16 (temp_offset_dcx10 c)) ++ le_bytes 2 (temp_gain_x1000 c) ++
  [if calibrated c then 1 else 0; cal_version c] ++ le_bytes 2 (reserved c).

Definition coeffs_of (b : list Z) : adc_cal_coeffs :=
  {| vbat_offset_mv := s16 (le_value (slice 0 2 b));
     vbat_gain_x1000 := le_value (slice 2 2 b);
     temp_offset_dcx10 := s16 (le_value (slice 4 2 b));
     temp_gain_x1000 := le_value (slice 6 2 b);
     calibrated := negb (byte_at b 8 =? 0);
     cal_version := byte_at b 9;
     reserved := le_value (slice 10 2 b) |}.

Definition RECORD_SIZE : nat := 24.

(** the record with every field but the checksum, which memset cleared *)
Definition record_body (c : adc_cal_coeffs) (timestamp : Z) : list Z :=
  le_bytes 2 ADC_CAL_MAGIC ++ [1; 0] ++ coeffs_bytes c ++ le_bytes 4 timestamp.
Definition record_bytes (c : adc_cal_coeffs) (timestamp checksum : Z) : list Z :=
  record_body c timestamp ++ [checksum; 0; 0; 0].

(** [sum += ptr[i]] over all bytes of the struct but the last *)
Definition compute_checksum (record : list Z) : Z :=
  foldl (fun sum b => u8 (sum + b)) 0 (take (RECORD_SIZE - 1) record).

Definition new_record (c : adc_cal_coeffs) (timestamp : Z) : list Z :=
  record_bytes c timestamp (compute_checksum (record_bytes c timestamp 0)).

Definition record_valid (r : list Z) : bool :=
  (le_value (slice 0 2 r) =? ADC_CAL_MAGIC) && (byte_at r 2 =? 1) &&
  (byte_at r 20 =? compute_checksum r) && calibrated (coeffs_of (slice 4 12 r)).

(** ** Corrections *)

Definition apply_vbat (c : adc_cal_coeffs) (raw_mv : Z) : Z :=
  let v := ((raw_mv + vbat_offset_mv c) * vbat_gain_x1000 c) ÷ 1000 in
  let v := if v <? 0 then 0 else v in
  if 65535 <? v then 65535 else v.

Definition apply_temp (c : adc_cal_coeffs) (raw : Z) : Z :=
  s16 ((raw * temp_gain_x1000 c) ÷ 1000 + temp_offset_dcx10 c).

(** [(uint16_t)((raw * NUMERATOR + ROUNDING) / DENOMINATOR)] with 32-bit
    unsigned arithmetic *)
Definition nominal_mv (raw : Z) : Z :=
  u16 (u32 (raw * ADC_CAL_VBAT_NUMERATOR + ADC_CAL_VBAT_ROUNDING) / ADC_CAL_VBAT_DENOMINATOR).

(** the regression: an error code, or offset and gain *)
Definition two_point (vbat_low_mv vbat_high_mv measured_low measured_high : Z) : Z + Z * Z :=
  if measured_high =? measured_low then inl (-2) else
  let gain_x1000 := ((vbat_high_mv - vbat_low_mv) * 1000) ÷ (measured_high - measured_low) in
  let offset_mv := vbat_low_mv - (measured_low * gain_x1000) ÷ 1000 in
  if (gain_x1000 <? 900) || (1100 <? gain_x1000) then inl (-3) else
  if (offset_mv <? -200) || (200 <? offset_mv) then inl (-4) else
  inr (offset_mv, gain_x1000).

Definition bad_voltages (low high : Z) : bool :=
  ((low <? 2800) || (4500 <? low)) || ((high <? 2800) || (4500 <? high)) || (high <=? low).

(** VREF in mV from a reading of the 1.2 V reference *)
Definition vref_of_raw (raw : Z) : Z :=
  if raw =? 0 then 0 else u16 (u32 (1200 * 4095 + raw / 2) / raw).

Section Module_state.
Context {Sdk : PicoSdk}.

Record cal := { coeffs : adc_cal_coeffs; loaded : bool; vref_mv : Z; hw : sdk }.
#[export] Instance eta_cal : Eta cal := eta! Build_cal < coeffs ; loaded ; vref_mv ; hw >.

Fixpoint adc_sum (n : nat) (sum : Z) (h : sdk) : Z * sdk :=
  match n with
  | O => (sum, h)
  | S n => let (v, h) := adc_read h in adc_sum n (u32 (sum + v)) h
  end.

Definition adc_read_channel_averaged (channel num_samples : Z) (h : sdk) : Z * sdk :=
  if (4 <? channel) || (num_samples =? 0) then (0, h) else
  let h := adc_select_input channel h in
  let h := snd (adc_read h) in
  let (sum, h) := adc_sum (Z.to_nat num_samples) 0 h in
  (u16 (sum / num_samples), h).

Definition adc_cal_read_vref_int (h : sdk) : Z * sdk :=
  let (raw, h) := adc_read_channel_averaged 4 16 h in (vref_of_raw raw, h).
Definition adc_cal_compute_vref (h : sdk) : Z * sdk := adc_cal_read_vref_int h.

Definition adc_cal_init (s : cal) : Z * cal :=
  let h := adc_setup (hw s) in
  let r := flash_bytes ADC_CAL_FLASH_OFFSET RECORD_SIZE h in
  let c := if record_valid r then coeffs_of (slice 4 12 r) else nominal in
  let (v, h) := adc_cal_compute_vref h in
  (0, {| coeffs := c; loaded := true; vref_mv := v; hw := h |}).

Definition adc_cal_apply_vbat (s : cal) (raw_mv : Z) : Z :=
  if negb (loaded s) then raw_mv else apply_vbat (coeffs s) raw_mv.
Definition adc_cal_apply_temp (s : cal) (raw : Z) : Z :=
  if negb (loaded s) then raw else apply_temp (coeffs s) raw.

(** what is copied to [*out], if anything *)
Definition adc_cal_get_coeffs (out_null : bool) (s : cal) : option adc_cal_coeffs :=
  if negb out_null && loaded s then Some (coeffs s) else None.

Definition adc_cal_factory_calibrate (vbat_low_mv vbat_high_mv : Z) (s : cal) : Z * cal :=
  if bad_voltages vbat_low_mv vbat_high_mv then (-1, s) else
  let h := adc_select_input 0 (hw s) in
  let h := snd (adc_read h) in
  let (raw_low, h) := adc_read_channel_averaged 0 ADC_CAL_CALIBRATION_SAMPLES h in
  let (raw_high, h) := adc_read_channel_averaged 0 ADC_CAL_CALIBRATION_SAMPLES h in
  match two_point vbat_low_mv vbat_high_mv (nominal_mv raw_low) (nominal_mv raw_high) with
  | inl err => (err, s <| hw := h |>)
  | inr (offset_mv, gain_x1000) =>
    let c := {| vbat_offset_mv := s16 offset_mv; vbat_gain_x1000 := u16 gain_x1000;
                temp_offset_dcx10 := 0; temp_gain_x1000 := 1000;
                calibrated := true; cal_version := 1; reserved := 0 |} in
    let record := new_record c (u32 (time_us_32 h)) in
    let h := flash_range_erase ADC_CAL_FLASH_OFFSET FLASH_SECTOR_SIZE h in
    let h := flash_range_program ADC_CAL_FLASH_OFFSET record h in
    let s := s <| coeffs := c |> <| hw := h |> in
    if decide (flash_bytes ADC_CAL_FLASH_OFFSET RECORD_SIZE h = record) then (0, s)
    else (-5, s)
  end.

(** the battery monitor's cached temperature and voltage are arguments *)
Definition adc_cal_self_test (temp_c_x10 vbat_mv : Z) (s : cal) : Z * cal :=
  let h := adc_setup (hw s) in
  let (vref_raw, h) := adc_read_channel_averaged 4 16 h in
  let s := s <| hw := h |> in
  if (vref_raw <? 1300) || (1700 <? vref_raw) then (-1, s) else
  if (temp_c_x10 <? -400) || (850 <? temp_c_x10) then (-2, s) else
  if (0 <? vbat_mv) && ((vbat_mv <? 2800) || (4500 <? vbat_mv)) then (-3, s) else
  (0, s).
End Module_state.

(** ** The record *)

Definition coeffs_wf (c : adc_cal_coeffs) : Prop :=
  -32768 <= vbat_offset_mv c < 32768 /\ 0 <= vbat_gain_x1000 c < 65536 /\
  -32768 <= temp_offset_dcx10 c < 32768 /\ 0 <= temp_gain_x1000 c < 65536 /\
  byte (cal_version c) /\ 0 <= reserved c < 65536.

Definition sum_bytes (l : list Z) : Z := foldr Z.add 0 l.

Lemma checksum_sum l a :
  0 <= a < 256 -> foldl (fun sum b => u8 (sum + b)) a l = u8 (a + sum_bytes l).
Proof.
  revert a. induction l as [|b l IH]; intros a Ha; cbn [foldl sum_bytes foldr].
  - by rewrite Z.add_0_r, u8_small.
  - rewrite IH by apply u8_range. unfold u8, sum_bytes. rewrite Zplus_mod_idemp_l. f_equal. lia.
Qed.

Lemma compute_checksum_eq r : compute_checksum r = u8 (sum_bytes (take 23 r)).
Proof. unfold compute_checksum. by rewrite checksum_sum by lia. Qed.

Lemma sum_bytes_app l k : sum_bytes (l ++ k) = sum_bytes l + sum_bytes k.
Proof. unfold sum_bytes. induction l; simpl; [done|]. rewrite IHl. lia. Qed.

Lemma coeffs_bytes_length c : length (coeffs_bytes c) = 12%nat.
Proof. reflexivity. Qed.
Lemma record_body_length c ts : length (record_body c ts) = 20%nat.
Proof. reflexivity. Qed.

Lemma record_checksum c ts x :
  compute_checksum (record_bytes c ts x) = u8 (sum_bytes (record_body c ts) + x).
Proof.
  rewrite compute_checksum_eq. unfold record_bytes.
  rewrite take_app_ge by (rewrite record_body_length; lia). rewrite record_body_length.
  change (take (23 - 20) [x; 0; 0; 0]) with [x; 0; 0]. rewrite sum_bytes_app.
  f_equal. unfold sum_bytes. simpl. lia.
Qed.

Lemma le_value_2 v : 0 <= v < 65536 -> le_value (le_bytes 2 v) = v.
Proof. intros. by apply le_value_le_bytes. Qed.

Lemma coeffs_roundtrip c : coeffs_wf c -> coeffs_of (coeffs_bytes c) = c.
Proof.
  intros (H1 & H2 & H3 & H4 & H5 & H6). unfold coeffs_of.
  change (slice 0 2 (coeffs_bytes c)) with (le_bytes 2 (u16 (vbat_offset_mv c))).
  change (slice 2 2 (coeffs_bytes c)) with (le_bytes 2 (vbat_gain_x1000 c)).
  change (slice 4 2 (coeffs_bytes c)) with (le_bytes 2 (u16 (temp_offset_dcx10 c))).
  change (slice 6 2 (coeffs_bytes c)) with (le_bytes 2 (temp_gain_x1000 c)).
  change (slice 10 2 (coeffs_bytes c)) with (le_bytes 2 (reserved c)).
  change (byte_at (coeffs_bytes c) 8) with (if calibrated c then 1 else 0).
  change (byte_at (coeffs_bytes c) 9) with (cal_version c).
  rewrite !le_value_2 by (done || apply u16_range).
  rewrite !s16_u16 by done. destruct c as [? ? ? ? [] ? ?]; reflexivity.
Qed.

Lemma record_coeffs c ts x : slice 4 12 (record_bytes c ts x) = coeffs_bytes c.
Proof. reflexivity. Qed.

Lemma record_valid_iff c ts x : byte x -> calibrated c = true -> coeffs_wf c ->
  record_valid (record_bytes c ts x) =
  (x =? u8 (sum_bytes (record_body c ts) + x)).
Proof.
  intros Hx Hc Hw. unfold record_valid.
  rewrite record_checksum, record_coeffs, coeffs_roundtrip by done.
  change (le_value (slice 0 2 (record_bytes c ts x))) with ADC_CAL_MAGIC.
  change (byte_at (record_bytes c ts x) 2) with 1.
  change (byte_at (record_bytes c ts x) 20) with x. rewrite Hc, andb_true_r. reflexivity.
Qed.

Lemma new_record_valid c ts : calibrated c = true -> coeffs_wf c ->
  record_valid (new_record c ts) = (u8 (sum_bytes (record_body c ts)) =? 0).
Proof.
  intros Hc Hw. unfold new_record. rewrite record_checksum, Z.add_0_r.
  set (S := sum_bytes _). rewrite record_valid_iff by (done || apply u8_range). fold S.
  unfold u8. rewrite Zplus_mod_idemp_r.
  pose proof (Z.div_mod S 256). pose proof (Z.div_mod (S + S) 256).
  pose proof (Z.mod_pos_bound S 256). pose proof (Z.mod_pos_bound (S + S) 256).
  destruct (Z.eqb_spec (S mod 256) 0); destruct (Z.eqb_spec (S mod 256) ((S + S) mod 256)); lia.
Qed.

(** ** The two-point regression *)

Lemma two_point_range lo hi ml mh off gain :
  two_point lo hi ml mh = inr (off, gain) ->
  900 <= gain <= 1100 /\ -200 <= off <= 200 /\ off = lo - (ml * gain) ÷ 1000.
Proof.
  unfold two_point. destruct (mh =? ml); [done|].
  set (g := ((hi - lo) * 1000) ÷ (mh - ml)).
  destruct (Z.ltb_spec g 900), (Z.ltb_spec 1100 g); try done.
  set (o := lo - (ml * g) ÷ 1000). cbn [orb].
  destruct (Z.ltb_spec o (-200)), (Z.ltb_spec 200 o); try done.
  intros [= <- <-]. lia.
Qed.

Lemma factory_cases {Sdk : PicoSdk} lo hi s r s' :
  adc_cal_factory_calibrate lo hi s = (r, s') ->
  (In r [-1; -2; -3; -4] /\ coeffs s' = coeffs s) \/
  (exists off gain ml mh ts, two_point lo hi ml mh = inr (off, gain) /\
     coeffs s' = {| vbat_offset_mv := off; vbat_gain_x1000 := gain; temp_offset_dcx10 := 0;
       temp_gain_x1000 := 1000; calibrated := true; cal_version := 1; reserved := 0 |} /\
     (r = 0 /\ flash_bytes ADC_CAL_FLASH_OFFSET RECORD_SIZE (hw s') =
               new_record (coeffs s') (u32 ts) \/ r = -5)).
Proof.
  unfold adc_cal_factory_calibrate.
  destruct (bad_voltages lo hi); [intros [= <- <-]; left; simpl; tauto|].
  destruct (adc_read_channel_averaged _ _ _) as [rl h1].
  destruct (adc_read_channel_averaged _ _ h1) as [rh h2].
  destruct (two_point lo hi (nominal_mv rl) (nominal_mv rh)) as [e|[off gain]] eqn:E.
  - intros [= <- <-]. left. split; [|done]. revert E. unfold two_point.
    destruct (_ =? _); [intros [= <-]; simpl; tauto|].
    repeat (case_match; [intros [= <-]; simpl; tauto|]). done.
  - destruct (two_point_range _ _ _ _ _ _ E) as (Hg & Ho & _).
    assert (Hs : s16 off = off).
    { rewrite <- (s16_u16 off) at 2 by lia. unfold s16, u16. by rewrite Z.mod_mod. }
    rewrite Hs, u16_small by lia. intros Hr. right.
    exists off, gain, (nominal_mv rl), (nominal_mv rh), (time_us_32 h2). split; [done|].
    destruct (decide _) as [Hd|Hd]; injection Hr as <- <-; (split; [done|]); [left|by right].
    split; [done|]. exact Hd.
Qed.

(** ** Properties *)

(** A Pico whose ADC and flash are plain memory, for the concrete runs: the
    readings still to come, the flash sector, and the clock. *)
Record pico := { p_adc : list Z; p_flash : list Z; p_time : Z }.
#[export] Instance eta_pico : Eta pico := eta! Build_pico < p_adc ; p_flash ; p_time >.

Definition pico_read (s : pico) : Z * pico :=
  match p_adc s with
  | [] => (0, s)
  | v :: l => (Z.land v 4095, (s <| p_adc := l |>))
  end.

#[local] Instance pico_sdk : PicoSdk.
Proof.
  refine {| sdk := pico; adc_select_input := fun _ s => s; adc_read := pico_read;
            adc_setup := fun s => s;
            flash_range_erase := fun _ _ s => (s <| p_flash := replicate 24 255 |>);
            flash_range_program := fun _ d s => (s <| p_flash := d |>);
            flash_bytes := fun _ n s => take n (p_flash s);
            time_us_32 := p_time |}.
  intros s. unfold pico_read. destruct (p_adc s) as [|v l]; [simpl; lia|]. cbn [fst].
  change 4095 with (Z.ones 12). rewrite Z.land_ones by lia.
  pose proof (Z.mod_pos_bound v (2 ^ 12)). change (Z.ones 12) with 4095. lia.
Defined.

(** calibration with 3.3 V read as 1020 and 4.1 V as 1260 *)
Definition bench (time : Z) : cal :=
  {| coeffs := nominal; loaded := true; vref_mv := 3300;
     hw := {| p_adc := 0 :: replicate 65 1020 ++ replicate 65 1260; p_flash := [];
              p_time := time |} |}.

(** A successful factory calibration does not survive a reboot, unless the
    record happens to sum to a multiple of 256.  The stored checksum is
    computed over a range that includes the checksum byte itself, then zero; at
    boot the same sum also counts the stored value, and the two agree only
    when it is zero.  In every other case adc_cal_init falls back to the nominal
    coefficients. *)
Theorem calibration_lost_at_reboot {Sdk : PicoSdk} (lo hi : Z) (s boot : cal)
  (Hsetup : forall h, flash_bytes ADC_CAL_FLASH_OFFSET RECORD_SIZE (adc_setup h) =
                      flash_bytes ADC_CAL_FLASH_OFFSET RECORD_SIZE h)
  (Hok : fst (adc_cal_factory_calibrate lo hi s) = 0)
  (Hflash : hw boot = hw (snd (adc_cal_factory_calibrate lo hi s))) :
  let new := coeffs (snd (adc_cal_factory_calibrate lo hi s)) in
  exists ts, coeffs (snd (adc_cal_init boot)) =
    if u8 (sum_bytes (record_body new (u32 ts))) =? 0 then new else nominal.
Proof.
  destruct (adc_cal_factory_calibrate lo hi s) as [r s'] eqn:E. cbn [fst snd] in *. subst r.
  destruct (factory_cases lo hi s 0 s' E) as [[Hin _]|(off & gain & ml & mh & ts & Ht & Hc & Hf)].
  { exfalso. simpl in Hin. lia. }
  destruct Hf as [[_ Hf]|]; [|done]. exists ts. unfold adc_cal_init.
  rewrite Hsetup, Hflash, Hf. destruct (two_point_range _ _ _ _ _ _ Ht) as (Hg & Ho & _).
  assert (Hw : coeffs_wf (coeffs s')).
  { rewrite Hc. unfold coeffs_wf, byte. simpl. lia. }
  rewrite new_record_valid by (done || by rewrite Hc).
  destruct (adc_cal_compute_vref _) as [v h]. cbn [snd coeffs].
  destruct (u8 _ =? 0); [|done]. unfold new_record. by rewrite record_coeffs, coeffs_roundtrip.
Qed.

Lemma calibration_lost_at_reboot_witness :
  fst (adc_cal_factory_calibrate 3300 4100 (bench 7)) = 0 /\
  exists ts, coeffs (snd (adc_cal_init (snd (adc_cal_factory_calibrate 3300 4100 (bench 7))))) =
    if u8 (sum_bytes (record_body
             (coeffs (snd (adc_cal_factory_calibrate 3300 4100 (bench 7)))) (u32 ts))) =? 0
    then coeffs (snd (adc_cal_factory_calibrate 3300 4100 (bench 7))) else nominal.
Proof.
  assert (Hok : fst (adc_cal_factory_calibrate 3300 4100 (bench 7)) = 0)
    by (vm_compute; reflexivity).
  split; [exact Hok|].
  exact (calibration_lost_at_reboot 3300 4100 (bench 7)
    (snd (adc_cal_factory_calibrate 3300 4100 (bench 7))) (fun h => eq_refl) Hok eq_refl).
Defined.

Example bench_forgets :
  coeffs (snd (adc_cal_init (snd (adc_cal_factory_calibrate 3300 4100 (bench 7))))) = nominal /\
  vbat_gain_x1000 (coeffs (snd (adc_cal_factory_calibrate 3300 4100 (bench 7)))) = 1025.
Proof. vm_compute. done. Qed.

(** The factory calibration reports success or -5 only with a gain between
    0.9 and 1.1 and an offset within 200 mV; any other code leaves the
    coefficients as they were, and equal readings at the two points are always
    refused.  With accepted coefficients no correction overflows 32 bits.  But
    the coefficients solve V = measured * gain + offset, while
    adc_cal_apply_vbat computes (measured + offset) * gain: at the low point
    the result is off by offset * (gain - 1), up to 20 mV, within rounding. *)
Theorem calibration_formula_mismatch (lo hi ml mh off gain : Z)
  (Hv : bad_voltages lo hi = false) (Hm : 0 <= ml < 65536) (Hne : mh <> ml)
  (Hok : two_point lo hi ml mh = inr (off, gain)) :
  let c := {| vbat_offset_mv := off; vbat_gain_x1000 := gain; temp_offset_dcx10 := 0;
              temp_gain_x1000 := 1000; calibrated := true; cal_version := 1; reserved := 0 |} in
  900 <= gain <= 1100 /\ -200 <= off <= 200 /\
  (forall raw, 0 <= raw < 65536 -> s32_ok ((raw + off) * gain)) /\
  Z.abs (1000 * (apply_vbat c ml - lo) - off * (gain - 1000)) < 2000 /\
  two_point lo hi ml ml = inl (-2) /\
  two_point 3300 4180 3182 3982 = inr (-200, 1100) /\
  apply_vbat {| vbat_offset_mv := -200; vbat_gain_x1000 := 1100; temp_offset_dcx10 := 0;
                temp_gain_x1000 := 1000; calibrated := true; cal_version := 1; reserved := 0 |}
    3182 = 3280.
Proof.
  cbv zeta. destruct (two_point_range _ _ _ _ _ _ Hok) as (Hg & Ho & Eo).
  split; [done|]. split; [done|]. split; [unfold s32_ok; intros; nia|].
  split; [|split; [unfold two_point; by rewrite Z.eqb_refl|split; vm_compute; reflexivity]].
  unfold bad_voltages in Hv. assert (2800 <= lo <= 4500) as Hlo.
  { destruct (Z.ltb_spec lo 2800), (Z.ltb_spec 4500 lo); try done; lia. }
  unfold apply_vbat. cbn [vbat_offset_mv vbat_gain_x1000].
  assert (0 <= ml * gain) as Hmg by nia.
  rewrite Z.quot_div_nonneg in Eo by lia.
  pose proof (Z.div_mod (ml * gain) 1000). pose proof (Z.mod_pos_bound (ml * gain) 1000).
  assert (0 <= (ml + off) * gain < 6000000) as Hpos by nia.
  rewrite Z.quot_div_nonneg by lia.
  pose proof (Z.div_mod ((ml + off) * gain) 1000).
  pose proof (Z.mod_pos_bound ((ml + off) * gain) 1000).
  destruct (Z.ltb_spec ((ml + off) * gain / 1000) 0); [exfalso; lia|].
  destruct (Z.ltb_spec 65535 ((ml + off) * gain / 1000)); [exfalso; lia|]. nia.
Qed.

Lemma calibration_formula_mismatch_witness :
  two_point 3300 4100 3315 4095 = inr (-97, 1025) /\ 900 <= 1025 <= 1100.
Proof.
  assert (H1 : bad_voltages 3300 4100 = false) by reflexivity.
  assert (H2 : 0 <= 3315 < 65536) by lia. assert (H3 : 4095 <> 3315) by lia.
  assert (H4 : two_point 3300 4100 3315 4095 = inr (-97, 1025)) by (vm_compute; reflexivity).
  split; [exact H4|].
  exact (proj1 (calibration_formula_mismatch 3300 4100 3315 4095 (-97) 1025 H1 H2 H3 H4)).
Defined.

Section Average.
Context {Sdk : PicoSdk}.

Lemma cal_sum_bounds n sum h : 0 <= sum -> sum + 4095 * Z.of_nat n < 2 ^ 32 ->
  sum <= fst (adc_sum n sum h) <= sum + 4095 * Z.of_nat n.
Proof.
  revert sum h. induction n as [|n IH]; intros sum h H0 H; cbn [adc_sum]; [simpl; lia|].
  pose proof (adc_12_bits h) as Hv. destruct (adc_read h) as [v h']. cbn [fst] in Hv.
  rewrite u32_small by lia. specialize (IH (sum + v) h'). lia.
Qed.

Lemma cal_averaged_bounds channel n h : 0 <= n <= 256 ->
  0 <= fst (adc_read_channel_averaged channel n h) <= 4095.
Proof.
  intros Hn. unfold adc_read_channel_averaged. destruct (4 <? channel); [simpl; lia|].
  destruct (Z.eqb_spec n 0); [simpl; lia|]. cbn [orb].
  match goal with |- context [adc_sum ?k ?s ?g] =>
    pose proof (cal_sum_bounds k s g) as H; destruct (adc_sum k s g) as [sum h'] end.
  cbn [fst] in *. assert (0 <= sum <= 4095 * n) as Hs by lia.
  assert (0 <= sum / n <= 4095).
  { split; [apply Z.div_pos; lia|]. apply Z.div_le_upper_bound; lia. }
  rewrite u16_small; lia.
Qed.
End Average.

(** An averaged reading stays in the 12 bits of the ADC and its 32-bit sum
    does not overflow.  The conversion to millivolts is exact up to a reading
    of 1321 (4292 mV); from 1322 on the 32-bit product wraps, and a cell at
    4.296 V, inside the range that calibration accepts, measures as 1 mV.  The
    VREF computation does not wrap for readings of 75 or more. *)
Theorem adc_conversion_bounds {Sdk : PicoSdk} (channel n raw vraw : Z) (h : sdk)
  (Hn : 0 <= n <= 256) (Hraw : 0 <= raw <= 1321) (Hv : 75 <= vraw <= 4095) :
  0 <= fst (adc_read_channel_averaged channel n h) <= 4095 /\
  nominal_mv raw = (raw * 3249700 + 500) / 1000000 /\ nominal_mv raw <= 4292 /\
  nominal_mv 1322 = 1 /\
  vref_of_raw vraw = (4914000 + vraw / 2) / vraw /\ vref_of_raw 74 = 66405 - 65536.
Proof.
  split; [by apply cal_averaged_bounds|].
  assert (H : nominal_mv raw = (raw * 3249700 + 500) / 1000000 /\ nominal_mv raw <= 4292).
  { unfold nominal_mv, ADC_CAL_VBAT_NUMERATOR, ADC_CAL_VBAT_ROUNDING, ADC_CAL_VBAT_DENOMINATOR.
    rewrite u32_small by lia.
    assert (0 <= (raw * 3249700 + 500) / 1000000 < 4293).
    { split; [apply Z.div_pos; lia|apply Z.div_lt_upper_bound; lia]. }
    rewrite u16_small; lia. }
  destruct H as [H1 H2]. split; [done|]. split; [done|]. split; [reflexivity|].
  split; [|vm_compute; reflexivity]. unfold vref_of_raw.
  rewrite (proj2 (Z.eqb_neq vraw 0)) by lia.
  assert (0 <= vraw / 2 <= 2047).
  { split; [apply Z.div_pos; lia|]. enough (vraw / 2 < 2048) by lia.
    apply Z.div_lt_upper_bound; lia. }
  rewrite u32_small by lia. change (1200 * 4095) with 4914000.
  apply u16_small. split; [apply Z.div_pos; lia|]. apply Z.div_lt_upper_bound; pose proof (Z.mul_div_le vraw 2); lia.
Qed.

Lemma adc_conversion_bounds_witness :
  nominal_mv 1292 = 4198 /\ nominal_mv 1292 <= 4292.
Proof.
  split; [vm_compute; reflexivity|].
  assert (H1 : 0 <= 64 <= 256) by lia. assert (H2 : 0 <= 1292 <= 1321) by lia.
  assert (H3 : 75 <= 1489 <= 4095) by lia.
  exact (proj1 (proj2 (proj2 (adc_conversion_bounds 0 64 1292 1489
    {| p_adc := []; p_flash := []; p_time := 0 |} H1 H2 H3)))).
Defined.
