(* ===== verification/Libapex.v ===== *)
(** * The user-space library (libapex.c, libapex.h)

    libapex wraps the driver's device file.  The operating system below it is
    the class [Posix] (open, close, read, ioctl of one device); the functions
    are modelled over any such system, and [driver_posix] is the one whose
    device is the driver of ApexBridge.v, so that the library's theorems can be
    composed with the driver's.  A handle is a pointer: [None] is NULL, and a
    function gives back the device structure it leaves.  The conversion of the
    gain from [float] happens before the model. *)

From S2P Require Import Prelude Frame Kernel ApexDev ApexBridge Battery.

Definition APEX_OK : Z := 0.
Definition APEX_ERR_INVALID_ARG : Z := -1.
Definition APEX_ERR_IOCTL_FAILED : Z := -4.
Definition APEX_ERR_TIMEOUT : Z := -5.
Definition APEX_ERR_COMM : Z := -6.

Class Posix := {
  system : Type;
  (** a descriptor, or a negative value *)
  sys_open : system -> Z * system;
  sys_close : Z -> system -> system;
  (** return value, and the bytes of the argument afterwards *)
  sys_ioctl : Z -> Z -> list Z -> system -> Z * list Z * system;
  (** return value, and the bytes stored in the buffer *)
  sys_read : Z -> Z -> system -> Z * list Z * system;
  sys_ioctl_length : forall fd cmd arg k,
    length (snd (fst (sys_ioctl fd cmd arg k))) = length arg;
}.

(** struct apex_device *)
Record apex_device := { fd : Z; last_error : Z; device_path : list Z }.
#[export] Instance eta_apex_device : Eta apex_device :=
  eta! Build_apex_device < fd ; last_error ; device_path >.

(** apex_telemetry_t, apex_status_t *)
Record telemetry := {
  rssi_dbm_x10 : Z; temp_c_x10 : Z; vbat_mv : Z; cc1101_rssi_x10 : Z;
  nfc_field_mv : Z; t_flags : Z; uptime_ms : Z }.
Record status := { driver_flags : Z; mcu_ready : bool; mcu_in_reset : bool; spi_error : bool }.
(** apex_cc1101_config_t and apex_nfc_transact_t, [data] 64 and 256 bytes *)
Record cc1101_config := { reg_addr : Z; reg_len : Z; cc_data : list Z }.
Record nfc_txn := { n_cmd : Z; n_flags : Z; data_len : Z; n_data : list Z }.

Section Lib.
Context {A : IoctlAbi}.

(** the command numbers, with the sizes of the structures of libapex.c *)
Definition IOC_SDR_TUNE : Z := IOC IOC_WRITE APEX_IOC_MAGIC 1 8.
Definition IOC_SDR_STREAM : Z := IOC IOC_WRITE APEX_IOC_MAGIC 2 1.
Definition IOC_ANT_SELECT : Z := IOC IOC_WRITE APEX_IOC_MAGIC 3 1.
Definition IOC_CC1101_CFG : Z := IOC IOC_WRITE APEX_IOC_MAGIC 4 66.
Definition IOC_NFC_TRANSACT : Z := IOC IOC_WRITE APEX_IOC_MAGIC 5 260.
Definition IOC_GET_TELEMETRY : Z := IOC IOC_READ APEX_IOC_MAGIC 6 16.
Definition IOC_MCU_RESET : Z := IOC IOC_WRITE APEX_IOC_MAGIC 7 1.
Definition IOC_GET_STATUS : Z := IOC IOC_READ APEX_IOC_MAGIC 8 4.

Context {P : Posix}.

(** *** Devices *)

(** [path] is the path used, [mem] whether calloc succeeds *)
Definition apex_open (mem : bool) (path : list Z) (k : system) : option apex_device * system :=
  if negb mem then (None, k) else
  let (f, k) := sys_open k in
  if f <? 0 then (None, k) else
  let p := take 63 path in
  (Some {| fd := f; last_error := APEX_OK; device_path := p ++ replicate (64 - length p) 0 |}, k).

Definition apex_close (h : option apex_device) (k : system) : system :=
  match h with
  | None => k
  | Some d => if 0 <=? fd d then sys_close (fd d) k else k
  end.

Definition apex_get_fd (h : option apex_device) : Z :=
  match h with None => -1 | Some d => fd d end.
Definition apex_last_error (h : option apex_device) : Z :=
  match h with None => APEX_ERR_INVALID_ARG | Some d => last_error d end.

(** the index into error_strings, [None] for "Unknown error" *)
Definition apex_strerror (error : Z) : option nat :=
  let idx := s32 (- error) in
  if (idx <? 0) || (9 <=? idx) then None else Some (Z.to_nat idx).

(** return value, device, system; [X] is what the function stores through its
    result pointer, if it stores anything *)
Definition result (X : Type) : Type := Z * option X * option apex_device * system.

Definition refused {X} (ret : Z) (h : option apex_device) (k : system) : result X :=
  (ret, None, h, k).

(** [if (!handle || handle->fd < 0) return APEX_ERR_INVALID_ARG] *)
Definition with_dev {X} (h : option apex_device) (k : system)
    (f : apex_device -> result X) : result X :=
  match h with
  | None => refused APEX_ERR_INVALID_ARG h k
  | Some d => if fd d <? 0 then refused APEX_ERR_INVALID_ARG h k else f d
  end.

(** the ioctl, and what follows it: the error path of every function, and on
    success [k arg'] with last_error cleared *)
Definition do_ioctl {X} (d : apex_device) (cmd : Z) (arg : list Z) (k : system)
    (ok : list Z -> Z * option X) : result X :=
  let '(r, arg', k) := sys_ioctl (fd d) cmd arg k in
  if r <? 0 then
    (APEX_ERR_IOCTL_FAILED, None, Some (d <| last_error := APEX_ERR_IOCTL_FAILED |>), k)
  else let (ret, x) := ok arg' in (ret, x, Some (d <| last_error := APEX_OK |>), k).

Definition plain (_ : list Z) : Z * option unit := (APEX_OK, None).

(** *** SDR, antenna, reset *)

Definition apex_sdr_tune (h : option apex_device) (freq_hz bw_khz gain_db_x10 : Z) (k : system)
    : result unit :=
  with_dev h k (fun d =>
    if (freq_hz <? 100000) || (3800000000 <? freq_hz) then refused APEX_ERR_INVALID_ARG h k else
    do_ioctl d IOC_SDR_TUNE
      (write_le32 freq_hz ++ write_le16 bw_khz ++ write_le16 gain_db_x10) k plain).

Definition apex_sdr_stream_start (h : option apex_device) (k : system) : result unit :=
  with_dev h k (fun d => do_ioctl d IOC_SDR_STREAM [1] k plain).
Definition apex_sdr_stream_stop (h : option apex_device) (k : system) : result unit :=
  with_dev h k (fun d => do_ioctl d IOC_SDR_STREAM [0] k plain).

Definition apex_ant_select (h : option apex_device) (ant : Z) (k : system) : result unit :=
  with_dev h k (fun d =>
    if APEX_ANT_TERMINATED <? ant then refused APEX_ERR_INVALID_ARG h k
    else do_ioctl d IOC_ANT_SELECT [u8 ant] k plain).

Definition apex_mcu_reset (h : option apex_device) (assert : bool) (k : system) : result unit :=
  with_dev h k (fun d => do_ioctl d IOC_MCU_RESET [if assert then 1 else 0] k plain).

(** *** CC1101; [stack] is the uninitialised [kcmd.data] *)

Definition bad_cc1101 (cfg : cc1101_config) : bool :=
  (reg_len cfg =? 0) || (64 <? reg_len cfg) || (0x3D <? reg_addr cfg).

Definition apex_cc1101_write_regs (h : option apex_device) (cfg : option cc1101_config)
    (stack : list Z) (k : system) : result unit :=
  with_dev h k (fun d =>
    match cfg with
    | None => refused APEX_ERR_INVALID_ARG h k
    | Some cfg =>
      if bad_cc1101 cfg then refused APEX_ERR_INVALID_ARG h k else
      do_ioctl d IOC_CC1101_CFG
        ([reg_addr cfg; reg_len cfg] ++
         overwrite (take (Z.to_nat (reg_len cfg)) (cc_data cfg)) stack) k plain
    end).

Definition apex_cc1101_set_channel (h : option apex_device) (channel : Z) (stack : list Z)
    (k : system) : result unit :=
  apex_cc1101_write_regs h
    (Some {| reg_addr := 0x0A; reg_len := 1; cc_data := overwrite [channel] stack |}) stack k.

Definition lib_pa_val (power_dbm : Z) : Z :=
  if power_dbm <=? -30 then 0x00 else if power_dbm <=? -20 then 0x01
  else if power_dbm <=? -15 then 0x02 else if power_dbm <=? -10 then 0x34
  else if power_dbm <=? 0 then 0x60 else if power_dbm <=? 5 then 0x84
  else if power_dbm <=? 7 then 0xA0 else 0xC0.

Definition apex_cc1101_set_power (h : option apex_device) (power_dbm : Z) (stack : list Z)
    (k : system) : result unit :=
  apex_cc1101_write_regs h
    (Some {| reg_addr := 0x22; reg_len := 1; cc_data := overwrite [lib_pa_val power_dbm] stack |})
    stack k.

Definition apex_cc1101_read_regs (h : option apex_device) (cfg : option cc1101_config)
    (k : system) : result (list Z) :=
  with_dev h k (fun d =>
    match cfg with
    | None => refused APEX_ERR_INVALID_ARG h k
    | Some cfg =>
      if bad_cc1101 cfg then refused APEX_ERR_INVALID_ARG h k else
      do_ioctl d IOC_CC1101_CFG ([reg_addr cfg; reg_len cfg] ++ replicate 64 0) k
        (fun arg => (APEX_OK, Some (slice 2 (Z.to_nat (reg_len cfg)) arg)))
    end).

Definition apex_cc1101_set_band (h : option apex_device) (band : Z) (k : system) : result unit :=
  with_dev h k (fun d =>
    if (band <? 0) || (2 <? band) then refused APEX_ERR_INVALID_ARG h k else
    do_ioctl d IOC_CC1101_CFG ([0xFF; u8 band] ++ overwrite [u8 band] (replicate 64 0)) k plain).

(** *** NFC: the response that apex_nfc_transact stores in [txn] *)

Definition nfc_response (txn : nfc_txn) (arg : list Z) : nfc_txn :=
  let len := read_le16 (drop 2 arg) in
  if 0 <? len then
    let copy_len := if 256 <? len then 256 else len in
    {| n_cmd := n_cmd txn; n_flags := n_flags txn; data_len := copy_len;
       n_data := overwrite (slice 4 (Z.to_nat copy_len) arg) (n_data txn) |}
  else {| n_cmd := n_cmd txn; n_flags := n_flags txn; data_len := 0; n_data := n_data txn |}.

Definition apex_nfc_transact (h : option apex_device) (txn : option nfc_txn) (stack : list Z)
    (k : system) : result nfc_txn :=
  with_dev h k (fun d =>
    match txn with
    | None => refused APEX_ERR_INVALID_ARG h k
    | Some txn =>
      if 256 <? data_len txn then refused APEX_ERR_INVALID_ARG h k else
      do_ioctl d IOC_NFC_TRANSACT
        ([n_cmd txn; n_flags txn] ++ write_le16 (data_len txn) ++
         overwrite (take (Z.to_nat (data_len txn)) (n_data txn)) stack) k
        (fun arg => (APEX_OK, Some (nfc_response txn arg)))
    end).

Definition zero_txn (cmd flags : Z) : nfc_txn :=
  {| n_cmd := cmd; n_flags := flags; data_len := 0; n_data := replicate 256 0 |}.

Definition apex_nfc_field_on (h : option apex_device) (stack : list Z) (k : system) :=
  apex_nfc_transact h (Some (zero_txn 0x01 0x00)) stack k.
Definition apex_nfc_field_off (h : option apex_device) (stack : list Z) (k : system) :=
  apex_nfc_transact h (Some (zero_txn 0x02 0x00)) stack k.

Definition apex_nfc_poll (h : option apex_device) (timeout_ms : Z) (stack : list Z) (k : system)
    : result unit :=
  with_dev h k (fun _ =>
    let '(ret, txn, h', k) :=
      apex_nfc_transact h (Some (zero_txn 0x03 (if 0 <? timeout_ms then 0x01 else 0x00))) stack k in
    if negb (ret =? APEX_OK) then (apex_last_error h', None, h', k) else
    match txn with
    | Some txn => (if 0 <? data_len txn then APEX_OK else APEX_ERR_TIMEOUT, None, h', k)
    | None => (APEX_ERR_TIMEOUT, None, h', k)
    end).

(** *** Telemetry and status *)

Definition telemetry_of (b : list Z) : telemetry :=
  {| rssi_dbm_x10 := s16 (read_le16 b); temp_c_x10 := s16 (read_le16 (drop 2 b));
     vbat_mv := read_le16 (drop 4 b); cc1101_rssi_x10 := s16 (read_le16 (drop 6 b));
     nfc_field_mv := read_le16 (drop 8 b); t_flags := read_le16 (drop 10 b);
     uptime_ms := read_le32 (drop 12 b) |}.

(** [stack] is the uninitialised [ktelem] *)
Definition apex_get_telemetry (h : option apex_device) (telem_null : bool) (stack : list Z)
    (k : system) : result telemetry :=
  with_dev h k (fun d =>
    if telem_null then refused APEX_ERR_INVALID_ARG h k else
    do_ioctl d IOC_GET_TELEMETRY stack k (fun b => (APEX_OK, Some (telemetry_of b)))).

Definition status_of (drv_flags : Z) : status :=
  {| driver_flags := drv_flags; mcu_ready := has_bits drv_flags 0x01;
     mcu_in_reset := has_bits drv_flags 0x02; spi_error := has_bits drv_flags 0x04 |}.

Definition apex_get_status (h : option apex_device) (status_null : bool) (k : system)
    : result status :=
  with_dev h k (fun d =>
    if status_null then refused APEX_ERR_INVALID_ARG h k else
    do_ioctl d IOC_GET_STATUS [0; 0; 0; 0] k (fun b => (APEX_OK, Some (status_of (read_le32 b))))).

(** the three numbers of the version string, from the telemetry flags *)
Definition version_of (b : list Z) : Z * Z * Z :=
  let f := read_le16 (drop 10 b) in
  (Z.land (Z.shiftr f 8) 0xFF, Z.land (Z.shiftr f 4) 0x0F, Z.land f 0x0F).

(** a buffer shorter than 16 bytes gets an empty string and last_error is kept *)
Definition apex_get_firmware_version (h : option apex_device) (version_null : bool)
    (buf_len : Z) (stack : list Z) (k : system) : result (Z * Z * Z) :=
  with_dev h k (fun d =>
    if version_null || (buf_len =? 0) then refused APEX_ERR_INVALID_ARG h k else
    let '(r, _, k) := sys_ioctl (fd d) IOC_GET_STATUS [0; 0; 0; 0] k in
    if r <? 0 then
      (APEX_ERR_IOCTL_FAILED, None, Some (d <| last_error := APEX_ERR_IOCTL_FAILED |>), k) else
    if buf_len <? 16 then refused APEX_ERR_INVALID_ARG h k else
    do_ioctl d IOC_GET_TELEMETRY stack k (fun b => (APEX_OK, Some (version_of b)))).

(** *** IQ data *)

(** the bytes stored, and [*samples_read] *)
Definition apex_sdr_read_iq (h : option apex_device) (buf_null : bool) (buf_len : Z)
    (k : system) : result (list Z * Z) :=
  with_dev h k (fun d =>
    if buf_null || (buf_len =? 0) then refused APEX_ERR_INVALID_ARG h k else
    let '(n, l, k) := sys_read (fd d) buf_len k in
    if n <? 0 then (APEX_ERR_COMM, Some (l, 0), Some (d <| last_error := APEX_ERR_COMM |>), k)
    else (APEX_OK, Some (l, n), Some (d <| last_error := APEX_OK |>), k)).
End Lib.

(** *** Conveniences *)

Definition apex_battery_percent (mv : Z) : Z :=
  if 4200 <=? mv then 100
  else if mv <=? 3000 then 0
  else if 3700 <=? mv then u8 (u32 (u32 (mv - 3700) * 50) / 500 + 50)
  else if 3300 <=? mv then u8 (u32 (u32 (mv - 3300) * 40) / 400 + 10)
  else u8 (u32 (u32 (mv - 3000) * 10) / 300).

Definition apex_is_low_battery (t : option telemetry) : bool :=
  match t with None => false | Some t => vbat_mv t <? 3300 end.
Definition apex_is_overtemp (t : option telemetry) : bool :=
  match t with None => false | Some t => 850 <? temp_c_x10 t end.

(** ** The library on the driver *)

(** The system whose device file is the driver: one open at a time, every
    argument mapped, errors as -1, a sleep ended by a signal. *)
Section OnDriver.
Context {K : Kfifo} {A : IoctlAbi}.

Definition driver_ioctl (e : env) (_ cmd : Z) (arg : list Z) (d : bridge)
    : Z * list Z * bridge :=
  let '(r, out, d') := apex_bridge_ioctl e cmd true arg d in
  (if r <? 0 then -1 else r, take (length arg) (overwrite out arg), d').

Definition driver_read (e : env) (_ n : Z) (d : bridge) : Z * list Z * bridge :=
  match apex_bridge_read e false true (Z.to_nat n) (Z.to_nat n) d with
  | (Some (r, l), d) => (if r <? 0 then -1 else r, l, d)
  | (None, d) => (-1, [], d)
  end.

#[export] Program Instance driver_posix (e : env) : Posix := {|
  system := bridge;
  sys_open := (fun d => let (r, d) := apex_bridge_open 0 d in (if r <? 0 then -1 else 3, d));
  sys_close := (fun _ d => apex_bridge_release d);
  sys_ioctl := driver_ioctl e;
  sys_read := driver_read e |}.
Next Obligation.
  intros e f cmd arg d. unfold driver_ioctl.
  destruct (apex_bridge_ioctl e cmd true arg d) as [[r out] d']. cbn [fst snd].
  unfold overwrite. rewrite length_take, length_app, length_drop. lia.
Qed.

Definition ret_of {X} {P : Posix} (r : result X) : Z := r.1.1.1.
Definition out_of {X} {P : Posix} (r : result X) : option X := r.1.1.2.
Definition dev_of {X} {P : Posix} (r : result X) : option apex_device := r.1.2.
Definition sys_of {X} {P : Posix} (r : result X) : system := r.2.

(** *** Command numbers *)

(** a number the driver does not have: refused without effect *)
Lemma unknown_ioctl e nr size arg d : nr = 4 /\ size = 66 \/ nr = 5 /\ size = 260 ->
  exists r, apex_bridge_ioctl e (IOC IOC_WRITE APEX_IOC_MAGIC nr size) true arg d = (r, [], d) /\
    r < 0.
Proof.
  intros H. unfold apex_bridge_ioctl.
  destruct (ioc_fields IOC_WRITE nr size) as (-> & -> & -> & _); [done|lia|lia|].
  rewrite Z.eqb_refl. cbn [negb]. rewrite !andb_false_r.
  destruct (_ || _); [by eexists|]. destruct (kmalloc e 0 4112); [|by eexists].
  destruct (kmalloc e 1 4112); [|by eexists]. unfold ioctl_switch, ioctl_mcu_reset, ioctl_sg_start.
  unfold APEX_IOC_SDR_TUNE, APEX_IOC_SDR_STREAM, APEX_IOC_ANT_SELECT, APEX_IOC_CC1101_CFG,
    APEX_IOC_NFC_TRANSACT, APEX_IOC_GET_TELEMETRY, APEX_IOC_MCU_RESET, APEX_IOC_GET_STATUS,
    APEX_IOC_SG_START, APEX_IOC_SG_STOP, APEX_IOC_SG_GET_STATUS.
  rewrite !ioc_neq by (unfold IOC_WRITE, IOC_READ, IOC_NONE; lia). by eexists.
Qed.

Lemma do_ioctl_unknown {X} e dv nr size arg d ok :
  nr = 4 /\ size = 66 \/ nr = 5 /\ size = 260 ->
  do_ioctl (P := driver_posix e) (X := X) dv (IOC IOC_WRITE APEX_IOC_MAGIC nr size) arg d ok =
    (APEX_ERR_IOCTL_FAILED, None, Some (dv <| last_error := APEX_ERR_IOCTL_FAILED |>), d).
Proof.
  intros H. unfold do_ioctl. simpl sys_ioctl. unfold driver_ioctl.
  destruct (unknown_ioctl e nr size arg d H) as (r & -> & Hr).
  by rewrite (proj2 (Z.ltb_lt _ _) Hr).
Qed.

(** a refusal that left the driver alone *)
Definition refused_on {X} (e : env) (d : bridge) (r : result (P := driver_posix e) X) : Prop :=
  In (ret_of r) [APEX_ERR_INVALID_ARG; APEX_ERR_IOCTL_FAILED] /\ out_of r = None /\ sys_of r = d.

Lemma refused_with {X} e h (d : bridge) f :
  (forall dv, h = Some dv -> refused_on (X := X) e d (f dv)) ->
  refused_on e d (with_dev (P := driver_posix e) h d f).
Proof.
  intros H. unfold with_dev, refused, refused_on, ret_of, out_of, sys_of in *.
  destruct h as [dv|]; [|simpl; tauto]. destruct (fd dv <? 0); [simpl; tauto|]. by apply H.
Qed.

Lemma refused_unknown {X} e dv nr size arg d ok :
  nr = 4 /\ size = 66 \/ nr = 5 /\ size = 260 ->
  refused_on (X := X) e d
    (do_ioctl (P := driver_posix e) dv (IOC IOC_WRITE APEX_IOC_MAGIC nr size) arg d ok).
Proof.
  intros H. rewrite do_ioctl_unknown by done. unfold refused_on, ret_of, out_of, sys_of.
  simpl. tauto.
Qed.

Lemma refused_param {X} e h d :
  refused_on (X := X) e d (refused (P := driver_posix e) APEX_ERR_INVALID_ARG h d).
Proof. unfold refused_on, ret_of, out_of, sys_of, refused. simpl. tauto. Qed.

Lemma refused_write e h cfg stack d :
  refused_on e d (apex_cc1101_write_regs (P := driver_posix e) h cfg stack d).
Proof.
  apply refused_with. intros dv _. destruct cfg as [cfg|]; [|apply refused_param].
  destruct (bad_cc1101 cfg); [apply refused_param|]. apply refused_unknown. lia.
Qed.

Lemma refused_nfc e h txn stack d :
  refused_on e d (apex_nfc_transact (P := driver_posix e) h txn stack d).
Proof.
  apply refused_with. intros dv _. destruct txn as [txn|]; [|apply refused_param].
  destruct (256 <? data_len txn); [apply refused_param|]. apply refused_unknown. lia.
Qed.
End OnDriver.

(** The command numbers of libapex.c carry the sizes of its own structures,
    66 and 260 bytes, where the driver's carry 2 and 4.  So on the driver no
    CC1101 or NFC function of the library ever succeeds: whatever the
    arguments and the driver's state, each returns an error, stores nothing
    for its caller, sends nothing and leaves the driver exactly as it was. *)
Theorem libapex_radio_calls_refused {K : Kfifo} {A : IoctlAbi} (e : env)
  (h : option apex_device) (cfg : option cc1101_config) (txn : option nfc_txn)
  (channel power band timeout : Z) (stack : list Z) (d : bridge) :
  refused_on e d (apex_cc1101_write_regs (P := driver_posix e) h cfg stack d) /\
  refused_on e d (apex_cc1101_read_regs (P := driver_posix e) h cfg d) /\
  refused_on e d (apex_cc1101_set_channel (P := driver_posix e) h channel stack d) /\
  refused_on e d (apex_cc1101_set_power (P := driver_posix e) h power stack d) /\
  refused_on e d (apex_cc1101_set_band (P := driver_posix e) h band d) /\
  refused_on e d (apex_nfc_transact (P := driver_posix e) h txn stack d) /\
  refused_on e d (apex_nfc_field_on (P := driver_posix e) h stack d) /\
  refused_on e d (apex_nfc_field_off (P := driver_posix e) h stack d) /\
  ret_of (apex_nfc_poll (P := driver_posix e) h timeout stack d) < 0 /\ sys_of (apex_nfc_poll (P := driver_posix e) h timeout stack d) = d.
Proof.
  split; [apply refused_write|]. split.
  { apply refused_with. intros dv _. destruct cfg as [c|]; [|apply refused_param].
    destruct (bad_cc1101 c); [apply refused_param|]. apply refused_unknown. lia. }
  split; [apply refused_write|]. split; [apply refused_write|]. split.
  { apply refused_with. intros dv _. destruct (_ || _); [apply refused_param|].
    apply refused_unknown. lia. }
  split; [apply refused_nfc|]. split; [apply refused_nfc|]. split; [apply refused_nfc|].
  unfold apex_nfc_poll, with_dev, ret_of, sys_of, refused.
  destruct h as [dv|]; [|done]. destruct (fd dv <? 0) eqn:Ef; [done|].
  unfold apex_nfc_transact, with_dev. rewrite Ef. cbn [zero_txn data_len].
  change (256 <? 0) with false. cbv iota. unfold IOC_NFC_TRANSACT.
  rewrite do_ioctl_unknown by lia. done.
Qed.
