(* ===== verification/System.v ===== *)
(** * The system: library, driver and firmware together

    The components of the other files composed along the SPI link: a call of
    libapex becomes an ioctl of the driver, the driver's frame is what the
    firmware's receive ring holds, and the firmware's telemetry frame is what
    the driver reads back. *)

From S2P Require Import Prelude Crc Frame Ring Board Kernel ApexDev ApexBridge Libapex.
From S2P Require Import SpiProtocol SpiInvariant SpiTx SpiReach SpiTypes SpiRefine.

#[local] Existing Instance apex_frame_crc.
#[local] Opaque apex_crc64 apex_crc32 mcu_crc64 mcu_crc32.

(** ** Commands from the library to the firmware *)

(** the library calls that the driver turns into a frame *)
Inductive lib_call :=
| LTune (freq_hz bw_khz gain_db_x10 : Z)
| LStream (start : bool)
| LAnt (ant : Z).

Definition lib_valid (c : lib_call) : Prop :=
  match c with
  | LTune f bw g => 100000 <= f <= 3800000000 /\ 0 <= bw < 65536 /\ 0 <= g < 65536
  | LStream _ => True
  | LAnt a => 0 <= a <= 3
  end.

Definition lib_frame (c : lib_call) : Z * list Z :=
  match c with
  | LTune f bw g => (CMD_SDR_TUNE, write_le32 f ++ write_le16 bw ++ write_le16 g)
  | LStream b => (CMD_SDR_STREAM, [if b then 1 else 0])
  | LAnt a => (CMD_ANT_SELECT, [a])
  end.
Definition lib_wire (c : lib_call) : list Z := encode_frame (lib_frame c).1 (lib_frame c).2.

(** what the firmware's state owes to the call *)
Definition lib_effect (c : lib_call) (s s' : fw) : Prop :=
  match c with
  | LTune _ _ _ => device_state s' = device_state s /\ hw s' = hw s
  | LStream b => sdr_streaming (device_state s') = b
  | LAnt a => device_state s' = device_state s /\ hw s' = hw s ++ [HwAntennaSelect a]
  end.

Section Calls.
Context {K : Kfifo} {A : IoctlAbi}.

Definition run_lib (e : env) (c : lib_call) (h : option apex_device) (d : bridge)
    : result (P := driver_posix e) unit :=
  match c with
  | LTune f bw g => apex_sdr_tune (P := driver_posix e) h f bw g d
  | LStream true => apex_sdr_stream_start (P := driver_posix e) h d
  | LStream false => apex_sdr_stream_stop (P := driver_posix e) h d
  | LAnt a => apex_ant_select (P := driver_posix e) h a d
  end.

(** an ioctl that passes the driver's checks and gets its two buffers *)
Lemma ioctl_reaches_switch e dir nr size arg d frame rx :
  0 <= dir < 4 -> 1 <= nr <= 11 -> 0 <= size < 16384 ->
  kmalloc e 0 4112 = Some frame -> kmalloc e 1 4112 = Some rx ->
  apex_bridge_ioctl e (IOC dir APEX_IOC_MAGIC nr size) true arg d =
  ioctl_switch e (IOC dir APEX_IOC_MAGIC nr size) arg frame rx d.
Proof.
  intros Hd Hn Hs Hf Hr. unfold apex_bridge_ioctl.
  destruct (ioc_fields dir nr size) as (-> & -> & -> & _); [lia..|].
  rewrite Z.eqb_refl. cbn [negb]. rewrite !andb_false_r.
  rewrite (proj2 (Z.ltb_ge nr 1)), (proj2 (Z.ltb_ge 11 nr)) by lia. by rewrite Hf, Hr.
Qed.

Lemma copy_from_user_all n l : length l = n -> copy_from_user 0 n l = Some l.
Proof.
  intros <-. unfold copy_from_user. cbn [Nat.add]. rewrite Nat.leb_refl.
  unfold slice. by rewrite drop_0, take_ge.
Qed.

(** a command ioctl of the library, on a driver whose transfer succeeds *)
Lemma do_ioctl_sends e dv nr size c p d frame rx :
  0 <= fd dv -> 1 <= nr <= 3 -> 0 <= size < 16384 ->
  kmalloc e 0 4112 = Some frame -> kmalloc e 1 4112 = Some rx ->
  (length p <= 4092)%nat -> 0 <= fst (spi_sync e (encode_frame c p)) ->
  ioctl_switch e (IOC IOC_WRITE APEX_IOC_MAGIC nr size) p frame rx d =
    no_out (send_frame e c p frame rx d) ->
  do_ioctl (P := driver_posix e) dv (IOC IOC_WRITE APEX_IOC_MAGIC nr size) p d plain =
    (APEX_OK, None, Some (dv <| last_error := APEX_OK |>), klogged (KSpi (encode_frame c p)) d).
Proof.
  intros Hfd Hn Hs Hf Hr Hp Hbus Hsw. unfold do_ioctl. simpl sys_ioctl. unfold driver_ioctl.
  rewrite (ioctl_reaches_switch e IOC_WRITE nr size p d frame rx) by (done || lia || (unfold IOC_WRITE; lia)).
  rewrite Hsw, send_frame_spec by (done || by apply (kmalloc_length e) in Hf, Hr).
  cbv zeta. unfold no_out, after_xfer. cbn [fst snd].
  rewrite (proj2 (Z.ltb_ge _ _) Hbus).
  rewrite (proj2 (Z.ltb_ge (20 + Z.of_nat (length p)) 0)) by lia.
  by rewrite (proj2 (Z.ltb_ge (20 + Z.of_nat (length p)) 0)) by lia.
Qed.

Lemma run_lib_sends e c dv d frame rx :
  0 <= fd dv -> lib_valid c ->
  kmalloc e 0 4112 = Some frame -> kmalloc e 1 4112 = Some rx ->
  0 <= fst (spi_sync e (lib_wire c)) ->
  run_lib e c (Some dv) d =
    (APEX_OK, None, Some (dv <| last_error := APEX_OK |>), klogged (KSpi (lib_wire c)) d).
Proof.
  intros Hfd Hc Hf Hr Hbus. unfold run_lib, lib_wire in *.
  assert (Hdev : forall X f, with_dev (P := driver_posix e) (X := X) (Some dv) d f = f dv).
  { intros X f. unfold with_dev. by rewrite (proj2 (Z.ltb_ge _ _) Hfd). }
  destruct c as [f bw g|b|a]; cbn [lib_frame lib_valid fst snd] in *.
  - unfold apex_sdr_tune. rewrite Hdev.
    rewrite (proj2 (Z.ltb_ge f 100000)), (proj2 (Z.ltb_ge 3800000000 f)) by lia. cbn [orb].
    apply (do_ioctl_sends e dv 1 8 CMD_SDR_TUNE _ d frame rx);
      try (done || lia || (simpl; lia)).
    unfold ioctl_switch, ioctl_mcu_reset, ioctl_sg_start. cbv zeta. unfold APEX_IOC_SDR_TUNE at 1. rewrite Z.eqb_refl.
    by rewrite copy_from_user_all.
  - assert (forall v, v = (if b then 1 else 0) ->
      do_ioctl (P := driver_posix e) dv IOC_SDR_STREAM [v] d plain =
      (APEX_OK, None, Some (dv <| last_error := APEX_OK |>),
       klogged (KSpi (encode_frame CMD_SDR_STREAM [if b then 1 else 0])) d)) as H.
    { intros v ->. apply (do_ioctl_sends e dv 2 1 CMD_SDR_STREAM _ d frame rx);
        try (done || lia || (simpl; lia)).
      unfold ioctl_switch, ioctl_mcu_reset, ioctl_sg_start. cbv zeta. unfold APEX_IOC_SDR_TUNE, APEX_IOC_SDR_STREAM.
      rewrite ioc_neq by (unfold IOC_WRITE; lia). rewrite Z.eqb_refl.
      by rewrite copy_from_user_all. }
    destruct b; [unfold apex_sdr_stream_start|unfold apex_sdr_stream_stop]; rewrite Hdev;
      by apply H.
  - unfold apex_ant_select. rewrite Hdev.
    rewrite (proj2 (Z.ltb_ge APEX_ANT_TERMINATED a)) by (unfold APEX_ANT_TERMINATED; lia).
    rewrite u8_small by lia.
    apply (do_ioctl_sends e dv 3 1 CMD_ANT_SELECT _ d frame rx);
      try (done || lia || (simpl; lia)).
    unfold ioctl_switch, ioctl_mcu_reset, ioctl_sg_start. cbv zeta.
    unfold APEX_IOC_SDR_TUNE, APEX_IOC_SDR_STREAM, APEX_IOC_ANT_SELECT.
    rewrite !ioc_neq by (unfold IOC_WRITE; lia). rewrite Z.eqb_refl.
    rewrite copy_from_user_all by done. cbn [byte_at nth].
    by rewrite (proj2 (Z.ltb_ge APEX_ANT_TERMINATED a)) by (unfold APEX_ANT_TERMINATED; lia).
Qed.
End Calls.

(** one frame in the ring of an idle firmware *)
Lemma frame_processed s c p :
  fw_wf s -> state (rx_ctx s) = RX_STATE_IDLE ->
  byte c -> bytes p -> (length p <= 4092)%nat ->
  ring_contents RX_RING_BITS (rx_ring s) = encode_frame c p ->
  exists s', spi_protocol_process s = Some (1, s') /\
    s' ≈ dispatch_command c p (Z.of_nat (length p)) (count_dispatched (count_received s)) /\
    assembling (rx_ctx s') [].
Proof.
  intros W Hi Hc Hp Hl Hring.
  destruct (process_loop_refines (Z.to_nat SPI_RX_BUF_SIZE) 0 s []) as [s' H];
    [done|apply rx_fuel|by apply asm_idle|].
  assert (host_stream [([], (c, p))] = encode_frame c p) as Eh.
  { unfold host_stream. cbn. by rewrite app_nil_r. }
  rewrite Hring, <- Eh, deframe_host_stream in H.
  - exists s'. exact H.
  - constructor; [|constructor]. unfold sendable. cbn [fst snd].
    split_and!; [constructor|exact Hc|exact Hp|exact Hl].
Qed.

Lemma lib_frame_wf c : lib_valid c ->
  byte (lib_frame c).1 /\ bytes (lib_frame c).2 /\ (length (lib_frame c).2 <= 4092)%nat.
Proof.
  destruct c as [f bw g|b|a]; cbn [lib_frame lib_valid fst snd]; intros H; split_and!;
    try (simpl; lia); try done.
  - rewrite !bytes_app, write_le32_bytes, !write_le16_bytes.
    split_and!; apply le_bytes_bytes.
  - destruct b; constructor; try constructor; done.
  - constructor; [unfold byte; lia|constructor].
Qed.

Lemma dispatch_lib c s : lib_valid c ->
  lib_effect c s (dispatch_command (lib_frame c).1 (lib_frame c).2
                    (Z.of_nat (length (lib_frame c).2)) (count_dispatched (count_received s))).
Proof.
  destruct c as [f bw g|b|a]; cbn [lib_frame lib_valid fst snd lib_effect]; intros H.
  - unfold dispatch_command. cbn. unfold handle_cmd_sdr_tune. cbn.
    by destruct (_ || _).
  - unfold dispatch_command. cbn. unfold handle_cmd_sdr_stream. cbn.
    destruct b, (sdr_streaming (device_state s)) eqn:E; cbn; rewrite ?E; cbn; try done;
      by rewrite ?E.
  - unfold dispatch_command. cbn. unfold handle_cmd_ant_select. cbn.
    by rewrite (proj2 (Z.ltb_ge 3 a)) by lia.
Qed.

Lemma effect_obs c s s1 s2 : s1 ≈ s2 -> lib_effect c s s2 -> lib_effect c s s1.
Proof.
  intros H. apply obs_eq_fields in H as (_ & _ & _ & _ & _ & Hd & _ & _ & Hh).
  destruct c; cbn [lib_effect]; by rewrite Hd, ?Hh.
Qed.

(** C6: From the library to the antenna switch.  On a driver that gets its two
    buffers and whose transfer succeeds, each of the three SDR and antenna
    calls of libapex returns APEX_OK having put exactly one frame on the bus; a
    firmware idle with that frame in its receive ring handles it as exactly
    one command and is idle again: the antenna switch is set to the antenna
    asked for, streaming is on or off as asked.  Tuning changes nothing: the
    firmware only counts the command. *)
Theorem library_commands_reach_firmware {K : Kfifo} {A : IoctlAbi} (e : env) (c : lib_call)
  (dv : apex_device) (d : bridge) (s : fw)
  (Hfd : 0 <= fd dv) (Hc : lib_valid c)
  (Hf : is_Some (kmalloc e 0 4112)) (Hr : is_Some (kmalloc e 1 4112))
  (Hbus : 0 <= fst (spi_sync e (lib_wire c)))
  (W : fw_wf s) (Hidle : state (rx_ctx s) = RX_STATE_IDLE)
  (Hring : ring_contents RX_RING_BITS (rx_ring s) = lib_wire c) :
  let r := run_lib e c (Some dv) d in
  ret_of r = APEX_OK /\
  bus_traffic (klog (sys_of r : bridge)) = bus_traffic (klog d) ++ [lib_wire c] /\
  exists s', spi_protocol_process s = Some (1, s') /\ lib_effect c s s' /\
    assembling (rx_ctx s') [].
Proof.
  destruct Hf as [frame Hf], Hr as [rx Hr]. cbv zeta.
  rewrite (run_lib_sends e c dv d frame rx) by done.
  split; [done|]. split.
  { unfold sys_of. cbn [fst snd]. unfold bus_traffic, klogged, update. cbn.
    by rewrite omap_app. }
  destruct (lib_frame_wf c Hc) as (Hcb & Hp & Hl).
  destruct (frame_processed s (lib_frame c).1 (lib_frame c).2) as (s' & E & Eo & Ha); try done.
  exists s'. split; [done|]. split; [|done].
  eapply effect_obs; [exact Eo|by apply dispatch_lib].
Qed.

Definition ok_env : env := env_of (fun _ => []) 0xA5 (fun _ => ltac:(constructor)) ltac:(done).
Definition handle : apex_device := {| fd := 3; last_error := 0; device_path := [] |}.
Definition fw_holding (l : list Z) : fw := default fw_init (rx_isr l fw_init).

Lemma fw_holding_wf l : bytes l -> fw_wf (fw_holding l).
Proof.
  intros Hl. unfold fw_holding. destruct (rx_isr l fw_init) as [s|] eqn:E; [|apply fw_init_wf].
  cbn [default]. apply reachable_wf. by apply (rx_isr_steps l).
Qed.

Lemma library_commands_reach_firmware_witness :
  exists s', spi_protocol_process (fw_holding (lib_wire (LAnt 2))) = Some (1, s') /\
    hw s' = hw (fw_holding (lib_wire (LAnt 2))) ++ [HwAntennaSelect 2].
Proof.
  assert (W : fw_wf (fw_holding (lib_wire (LAnt 2)))).
  { apply fw_holding_wf, bytesb_bytes. vm_compute. reflexivity. }
  assert (Hi : state (rx_ctx (fw_holding (lib_wire (LAnt 2)))) = RX_STATE_IDLE)
    by (vm_compute; reflexivity).
  assert (Hring : ring_contents RX_RING_BITS (rx_ring (fw_holding (lib_wire (LAnt 2)))) =
                  lib_wire (LAnt 2)) by (vm_compute; reflexivity).
  assert (Hfd : 0 <= fd handle) by (unfold handle; simpl; lia).
  assert (Hc : lib_valid (LAnt 2)) by (simpl; lia).
  assert (Hf : is_Some (kmalloc ok_env 0 4112)) by (eexists; reflexivity).
  assert (Hr : is_Some (kmalloc ok_env 1 4112)) by (eexists; reflexivity).
  assert (Hbus : 0 <= fst (spi_sync ok_env (lib_wire (LAnt 2)))) by (simpl; lia).
  destruct (library_commands_reach_firmware ok_env (LAnt 2) handle (apex_bridge_probe 1000000)
    (fw_holding (lib_wire (LAnt 2))) Hfd Hc Hf Hr Hbus W Hi Hring)
    as (_ & _ & s' & E & (_ & Eh) & _).
  exists s'. split; [exact E|exact Eh].
Defined.

(** ** Telemetry from the firmware to the library *)

Lemma telem_flags_range dv : 0 <= telem_flags dv < 65536.
Proof.
  unfold telem_flags, flag_if.
  destruct (sdr_rx_enabled dv), (sdr_tx_enabled dv), (cc1101_rx_active dv),
    (cc1101_tx_active dv), (nfc_active dv), (nfc_tag_present dv), (brownout_active dv);
    vm_compute; split; congruence.
Qed.

Lemma telem_flags_low dv :
  negb (Z.land (telem_flags dv) APEX_FLAG_LOW_BATTERY =? 0) = sdr_rx_enabled dv || sdr_tx_enabled dv.
Proof.
  unfold telem_flags, flag_if.
  destruct (sdr_rx_enabled dv), (sdr_tx_enabled dv), (cc1101_rx_active dv),
    (cc1101_tx_active dv), (nfc_active dv), (nfc_tag_present dv), (brownout_active dv);
    reflexivity.
Qed.

(** what the library reports for a device state *)
Definition reported (dv : device) : telemetry := {|
  rssi_dbm_x10 := last_rssi_dbm_x10 dv; temp_c_x10 := last_temp_c_x10 dv;
  vbat_mv := last_vbat_mv dv; cc1101_rssi_x10 := last_cc_rssi_x10 dv;
  nfc_field_mv := last_nfc_field_mv dv; t_flags := telem_flags dv;
  Libapex.uptime_ms := SpiProtocol.uptime_ms dv |}.

Lemma telemetry_roundtrip dv : device_typed dv -> telemetry_of (telemetry_payload dv) = reported dv.
Proof.
  intros (H1 & H2 & H3 & H4 & H5 & H6). pose proof (telem_flags_range dv) as H7.
  unfold telemetry_of, telemetry_payload.
  assert (L : forall v l, drop 2 (write_le16 v ++ l) = l) by done.
  rewrite <- (drop_drop _ 2 2), <- (drop_drop _ 4 2), <- (drop_drop _ 6 2), <- (drop_drop _ 8 2),
    <- (drop_drop _ 10 2), <- (drop_drop _ 2 2), <- (drop_drop _ 4 2), <- (drop_drop _ 6 2),
    <- (drop_drop _ 8 2), <- (drop_drop _ 2 2), <- (drop_drop _ 4 2), <- (drop_drop _ 6 2),
    <- (drop_drop _ 2 2), <- (drop_drop _ 4 2), <- (drop_drop _ 2 2).
  rewrite !L, !read_write_le16 by (done || apply u16_range).
  rewrite <- (app_nil_r (write_le32 _)), read_write_le32 by done.
  by rewrite !s16_u16.
Qed.

Section Reception.
Context {K : Kfifo} {A : IoctlAbi}.

(** the work handler on a bus that answers with a telemetry frame *)
Lemma rx_work_telemetry e d frame rx p rest :
  kmalloc e 0 4112 = Some rx -> kmalloc e 1 4112 = Some frame ->
  bytes p -> length p = 16%nat ->
  (forall tx, length tx = 4112%nat ->
     0 <= fst (spi_sync e tx) /\ snd (spi_sync e tx) = encode_frame CMD_TELEMETRY p ++ rest) ->
  exists d1, last_telem d1 = last_telem d /\ flags d1 = flags d /\
    apex_rx_work_handler e d = klogged KPmPutAutosuspend (fifo_push p (rx_telemetry p d1)).
Proof.
  intros Hr Hf Hp Lp Hbus. unfold apex_rx_work_handler. rewrite Hr, Hf.
  pose proof (kmalloc_length e _ _ _ Hr) as Lr. pose proof (kmalloc_length e _ _ _ Hf) as Lf.
  pose proof (apex_build_frame_gen CMD_NOP None 0 frame) as Hbuild.
  change (Z.of_nat 0) with 0 in Hbuild. rewrite Hbuild by (done || lia).
  change (20 + 0 <? 0) with false. cbv iota.
  set (tx := encode_frame CMD_NOP [] ++ drop (20 + 0) frame).
  assert (length tx = 4112%nat) as Ltx.
  { subst tx. rewrite length_app, encode_frame_length, length_drop, Lf. reflexivity. }
  rewrite apex_spi_xfer_spec by (unfold APEX_SPI_FRAME_SIZE_MAX; lia). cbv zeta.
  change (Z.to_nat APEX_SPI_FRAME_SIZE_MAX) with 4112%nat. rewrite (take_ge tx) by lia.
  destruct (Hbus tx Ltx) as [H0 Hb]. destruct (spi_sync e tx) as [ret r]. cbn [fst snd] in *.
  subst r. rewrite (proj2 (Z.ltb_ge ret 0)) by lia.
  change (APEX_SPI_FRAME_SIZE_MAX <? 0) with false. cbv iota.
  rewrite <- app_assoc, apex_validate_encode by (done || (rewrite Lp; unfold APEX_SPI_FRAME_SIZE_MAX; lia)).
  rewrite Lp. eexists. split; [|split]; [| |reflexivity]; done.
Qed.

Lemma rx_telemetry_fields p d :
  last_telem (rx_telemetry p d) = p /\
  test_bit APEX_FLAG_LOW_BATTERY (rx_telemetry p d) =
    negb (Z.land (apex_telemetry_flags p) APEX_FLAG_LOW_BATTERY =? 0).
Proof.
  unfold rx_telemetry. cbv zeta.
  change (last_telem (d <| last_telem := p |>)) with p.
  destruct (negb (Z.land (apex_telemetry_flags p) APEX_FLAG_LOW_BATTERY =? 0)).
  - destruct (_ =? 0); (split; [done|]); unfold test_bit; apply Z.setbit_eq; done.
  - split; [done|]. unfold test_bit. apply Z.clearbit_eq.
Qed.
(** a poll that brings the firmware's telemetry leaves it in the driver *)
Lemma rx_work_caches e d mcu rest :
  is_Some (kmalloc e 0 4112) -> is_Some (kmalloc e 1 4112) ->
  (forall tx, length tx = 4112%nat -> 0 <= fst (spi_sync e tx) /\
     snd (spi_sync e tx) =
       encode_frame (crc:=mcu_frame_crc) CMD_TELEMETRY (telemetry_payload mcu) ++ rest) ->
  last_telem (apex_rx_work_handler e d) = telemetry_payload mcu /\
  test_bit APEX_FLAG_LOW_BATTERY (apex_rx_work_handler e d) =
    negb (Z.land (apex_telemetry_flags (telemetry_payload mcu)) APEX_FLAG_LOW_BATTERY =? 0).
Proof.
  intros [b0 H0] [b1 H1] Hbus.
  destruct (rx_work_telemetry e d b1 b0 (telemetry_payload mcu) rest H0 H1)
    as (d1 & _ & _ & E).
  { apply telemetry_payload_bytes. }
  { apply telemetry_payload_length. }
  { intros tx L. rewrite <- encode_frame_agree by (done || apply telemetry_payload_bytes).
    by apply Hbus. }
  destruct (rx_telemetry_fields (telemetry_payload mcu) d1) as [Ht Hl].
  rewrite E. split; [exact Ht|exact Hl].
Qed.

(** an ioctl that copies [l] out to an argument of that size *)
Lemma driver_copies_out e f nr arg l d frame rx :
  1 <= nr <= 11 -> length arg = length l -> 0 <= Z.of_nat (length l) < 16384 ->
  kmalloc e 0 4112 = Some frame -> kmalloc e 1 4112 = Some rx ->
  ioctl_switch e (IOC IOC_READ APEX_IOC_MAGIC nr (Z.of_nat (length l))) arg frame rx d =
    copy_out (length arg) l d ->
  driver_ioctl e f (IOC IOC_READ APEX_IOC_MAGIC nr (Z.of_nat (length l))) arg d = (0, l, d).
Proof.
  intros Hn Hl Hs Hf Hr Hsw. unfold driver_ioctl.
  rewrite (ioctl_reaches_switch e IOC_READ nr _ arg d frame rx)
    by (done || lia || (unfold IOC_READ; lia)).
  rewrite Hsw. unfold copy_out. rewrite Hl, Nat.ltb_irrefl. change (0 <? 0) with false. cbv iota.
  unfold overwrite. by rewrite take_app_length.
Qed.

(** the switch, at a number that is not one of the first ones *)
Ltac at_switch :=
  unfold ioctl_switch, ioctl_mcu_reset, ioctl_sg_start; cbv zeta;
  unfold APEX_IOC_SDR_TUNE, APEX_IOC_SDR_STREAM, APEX_IOC_ANT_SELECT, APEX_IOC_CC1101_CFG,
    APEX_IOC_NFC_TRANSACT, APEX_IOC_GET_TELEMETRY, APEX_IOC_MCU_RESET, APEX_IOC_GET_STATUS;
  rewrite !ioc_neq by (unfold IOC_WRITE, IOC_READ; lia); by rewrite Z.eqb_refl.

Lemma telemetry_ioctl e f d stack :
  length (last_telem d) = 16%nat -> length stack = 16%nat ->
  is_Some (kmalloc e 0 4112) -> is_Some (kmalloc e 1 4112) ->
  driver_ioctl e f IOC_GET_TELEMETRY stack d = (0, last_telem d, d).
Proof.
  intros Hl Hs [b0 H0] [b1 H1]. unfold IOC_GET_TELEMETRY. change 16 with (Z.of_nat 16).
  rewrite <- Hl. apply (driver_copies_out e f 6 stack _ d b0 b1); try done; rewrite ?Hl; try lia.
  change (Z.of_nat 16) with 16. at_switch.
Qed.

Lemma status_ioctl e f d :
  is_Some (kmalloc e 0 4112) -> is_Some (kmalloc e 1 4112) ->
  driver_ioctl e f IOC_GET_STATUS [0; 0; 0; 0] d = (0, write_le32 (bridge_status d), d).
Proof.
  intros [b0 H0] [b1 H1]. unfold IOC_GET_STATUS. change 4 with (Z.of_nat 4) at 1.
  apply (driver_copies_out e f 8 _ (write_le32 (bridge_status d)) d b0 b1); try done.
  change (Z.of_nat (length (write_le32 (bridge_status d)))) with 4. at_switch.
Qed.

(** and the library reports what the driver has *)
Lemma get_telemetry_cached e dv d mcu stack :
  0 <= fd dv -> device_typed mcu -> length stack = 16%nat ->
  is_Some (kmalloc e 0 4112) -> is_Some (kmalloc e 1 4112) ->
  last_telem d = telemetry_payload mcu ->
  apex_get_telemetry (P := driver_posix e) (Some dv) false stack d =
    (APEX_OK, Some (reported mcu), Some (dv <| last_error := APEX_OK |>), d).
Proof.
  intros Hfd Hmcu Hstack H0 H1 El.
  unfold apex_get_telemetry, with_dev. rewrite (proj2 (Z.ltb_ge _ _) Hfd).
  unfold do_ioctl. simpl sys_ioctl.
  rewrite telemetry_ioctl by (done || by rewrite El, telemetry_payload_length).
  change (0 <? 0) with false. cbv iota. by rewrite El, telemetry_roundtrip.
Qed.
End Reception.

(** C7: From the firmware's cache to the application.  When the bus answers the
    driver's poll with the firmware's telemetry frame, apex_get_telemetry
    then returns APEX_OK and exactly the values the firmware has cached, with
    their signs, and the flags word unchanged.  But the driver's LOW_BATTERY flag,
    and with it the brownout count, follows bits 0 and 1 of that word: it is set
    exactly when SDR reception or transmission is active, whatever the battery. *)
Theorem telemetry_end_to_end {K : Kfifo} {A : IoctlAbi} (e : env) (dv : apex_device)
  (d : bridge) (mcu : device) (rest stack : list Z)
  (Hfd : 0 <= fd dv) (Hmcu : device_typed mcu) (Hstack : length stack = 16%nat)
  (Hf : is_Some (kmalloc e 0 4112)) (Hr : is_Some (kmalloc e 1 4112))
  (Hbus : forall tx, length tx = 4112%nat -> 0 <= fst (spi_sync e tx) /\
     snd (spi_sync e tx) =
       encode_frame (crc:=mcu_frame_crc) CMD_TELEMETRY (telemetry_payload mcu) ++ rest) :
  let d' := apex_rx_work_handler e d in
  let r := apex_get_telemetry (P := driver_posix e) (Some dv) false stack d' in
  ret_of r = APEX_OK /\ out_of r = Some (reported mcu) /\ sys_of r = d' /\
  test_bit APEX_FLAG_LOW_BATTERY d' = sdr_rx_enabled mcu || sdr_tx_enabled mcu.
Proof.
  cbv zeta. destruct (rx_work_caches e d mcu rest Hf Hr Hbus) as [El Hl].
  rewrite (get_telemetry_cached e dv _ mcu stack) by done.
  unfold ret_of, out_of, sys_of. cbn [fst snd].
  split; [done|]. split; [done|]. split; [done|].
  rewrite <- telem_flags_low, Hl.
  change (apex_telemetry_flags (telemetry_payload mcu)) with
    (t_flags (telemetry_of (telemetry_payload mcu))). by rewrite telemetry_roundtrip.
Qed.

Definition demo_mcu : device := {|
  sdr_streaming := true; sdr_tx_enabled := false; sdr_rx_enabled := true;
  cc1101_rx_active := false; cc1101_tx_active := false; nfc_active := false;
  nfc_tag_present := false; brownout_active := false; SpiProtocol.uptime_ms := 123456;
  last_rssi_dbm_x10 := -740; last_vbat_mv := 4100; last_temp_c_x10 := -35;
  last_cc_rssi_x10 := -1100; last_nfc_field_mv := 250 |}.

Definition telemetry_reply (_ : list Z) : list Z :=
  encode_frame (crc:=mcu_frame_crc) CMD_TELEMETRY (telemetry_payload demo_mcu).
Lemma telemetry_reply_bytes tx : bytes (telemetry_reply tx).
Proof. apply bytesb_bytes. vm_compute. reflexivity. Qed.
Definition telemetry_env : env := env_of telemetry_reply 0xA5 telemetry_reply_bytes ltac:(done).

Lemma telemetry_env_answers tx : length tx = 4112%nat ->
  0 <= fst (spi_sync telemetry_env tx) /\
  snd (spi_sync telemetry_env tx) =
    encode_frame (crc:=mcu_frame_crc) CMD_TELEMETRY (telemetry_payload demo_mcu) ++ replicate 4076 0.
Proof.
  intros L. split; [simpl; lia|].
  change (snd (spi_sync telemetry_env tx)) with (fit (length tx) (telemetry_reply tx)).
  rewrite L. unfold fit. f_equal.
Qed.

Lemma telemetry_end_to_end_witness :
  out_of (apex_get_telemetry (P := driver_posix telemetry_env) (Some handle) false
    (replicate 16 0) (apex_rx_work_handler telemetry_env (apex_bridge_probe 1000000))) =
    Some (reported demo_mcu) /\
  test_bit APEX_FLAG_LOW_BATTERY
    (apex_rx_work_handler telemetry_env (apex_bridge_probe 1000000)) = true.
Proof.
  assert (Hfd : 0 <= fd handle) by (unfold handle; simpl; lia).
  assert (Hm : device_typed demo_mcu) by (unfold device_typed; simpl; lia).
  assert (Hf : is_Some (kmalloc telemetry_env 0 4112)) by (eexists; reflexivity).
  assert (Hr : is_Some (kmalloc telemetry_env 1 4112)) by (eexists; reflexivity).
  pose proof telemetry_env_answers as Hbus.
  destruct (telemetry_end_to_end telemetry_env handle (apex_bridge_probe 1000000) demo_mcu
    (replicate 4076 0) (replicate 16 0) Hfd Hm eq_refl Hf Hr Hbus) as (_ & H1 & _ & H2).
  split; [exact H1|exact H2].
Defined.
