(* ===== verification/WireLayout.v ===== *)
(** * Structures shared across the wire

    The telemetry record, the frame header, the command payloads and the
    ioctl arguments are C structures declared two to four times: in the
    firmware, in the driver, and twice in libapex.  A declaration is data here,
    with the layout rule of the ABI; the encoders the other files use are shown
    to lay their bytes out as declared, so that a field read through any of the
    declarations is the field that was written. *)

From stdpp Require Import strings.
From S2P Require Import Prelude Libapex System.
From S2P Require Import Crc Frame Board SpiProtocol SpiTypes Kernel ApexDev SgEngine ApexBridge.
Open Scope Z_scope.

(** ** Declarations and their layout *)

Inductive ctype := U8 | U16 | S16 | U32 | U64 | Bool | Bytes (n : nat).

(** bytes of a field, and its natural alignment *)
Definition csize (t : ctype) : nat :=
  match t with U8 | Bool => 1 | U16 | S16 => 2 | U32 => 4 | U64 => 8 | Bytes n => n end.
Definition calign (t : ctype) : nat :=
  match t with U8 | Bool | Bytes _ => 1 | U16 | S16 => 2 | U32 => 4 | U64 => 8 end.

Record struct := { is_packed : bool; members : list (string * ctype) }.

(** the padding before a member of type [t] at offset [off] *)
Definition padding (packed : bool) (off : nat) (t : ctype) : nat :=
  if packed then 0 else (calign t - off mod calign t) mod calign t.

Fixpoint member_offsets (packed : bool) (off : nat) (ms : list (string * ctype))
    : list (string * (nat * nat)) :=
  match ms with
  | [] => []
  | (f, t) :: ms =>
      let off := off + padding packed off t in
      (f, (off, csize t)) :: member_offsets packed (off + csize t) ms
  end%nat.

(** offset and size of every member *)
Definition layout (s : struct) : list (string * (nat * nat)) :=
  member_offsets (is_packed s) 0 (members s).

Definition struct_align (s : struct) : nat :=
  if is_packed s then 1 else foldr (fun m a => Nat.max (calign (snd m)) a) 1%nat (members s).

Definition sizeof (s : struct) : nat :=
  let last := foldr (fun m e => Nat.max (fst (snd m) + snd (snd m)) e) 0%nat (layout s) in
  (last + (struct_align s - last mod struct_align s) mod struct_align s)%nat.

(** a value in memory, little-endian, padding zero *)
Fixpoint encode_members (packed : bool) (off : nat) (ms : list (string * ctype)) (vs : list Z)
    : list Z :=
  match ms, vs with
  | (_, t) :: ms, v :: vs =>
      let pad := padding packed off t in
      replicate pad 0 ++ le_bytes (csize t) v ++
        encode_members packed (off + pad + csize t)%nat ms vs
  | _, _ => []
  end.
Definition encode_struct (s : struct) (vs : list Z) : list Z :=
  encode_members (is_packed s) 0 (members s) vs.

Definition member_at (l : list Z) (m : nat * nat) : Z := le_value (slice (fst m) (snd m) l).

(** the value of a member as the C type has it *)
Definition as_type (t : ctype) (v : Z) : Z := match t with S16 => s16 v | _ => v end.

(** ** The firmware: spi_protocol.h and spi_protocol.c *)
Module Mcu.
Open Scope string_scope.
Definition spi_frame_header : struct := {| is_packed := true; members :=
  [("sync", U8); ("cmd", U8); ("len", U16); ("reserved", U32); ("hdr_crc64", U64)] |}.
Definition spi_telemetry_data : struct := {| is_packed := true; members :=
  [("rssi_dbm_x10", S16); ("temp_c_x10", S16); ("vbat_mv", U16); ("cc1101_rssi_x10", S16);
   ("nfc_field_mv", U16); ("flags", U16); ("uptime_ms", U32)] |}.
Definition telemetry_payload_struct : struct := {| is_packed := true; members :=
  [("rssi_dbm_x10", U16); ("temp_c_x10", U16); ("vbat_mv", U16); ("cc1101_rssi_x10", U16);
   ("nfc_field_mv", U16); ("flags", U16); ("uptime_ms", U32)] |}.
Definition spi_sdr_tune_cmd : struct := {| is_packed := true; members :=
  [("freq_hz", U32); ("bw_khz", U16); ("gain_db_x10", U16)] |}.
Definition sdr_tune_cmd : struct := {| is_packed := true; members :=
  [("freq_hz", U32); ("bw_khz", U16); ("gain_db_x10", U16)] |}.
Definition cc1101_cfg_cmd : struct := {| is_packed := true; members :=
  [("reg_addr", U8); ("reg_len", U8); ("data", Bytes 0)] |}.
Definition nfc_transact_cmd : struct := {| is_packed := true; members :=
  [("cmd", U8); ("flags", U8); ("data_len", U16); ("data", Bytes 0)] |}.
(** opcodes of spi_protocol.c, then those of spi_protocol.h *)
Definition CMDS : list (string * Z) :=
  [("NOP", CMD_NOP); ("SDR_TUNE", CMD_SDR_TUNE); ("SDR_STREAM", CMD_SDR_STREAM);
   ("ANT_SELECT", CMD_ANT_SELECT); ("CC1101_CFG", CMD_CC1101_CFG);
   ("NFC_TRANSACT", CMD_NFC_TRANSACT); ("TELEMETRY", CMD_TELEMETRY);
   ("SDR_IQ_CHUNK", CMD_SDR_IQ_CHUNK)].
Definition SPI_CMD_TELEMETRY_REQ : Z := 0x06.
Definition SPI_CMDS : list (string * Z) :=
  [("NOP", 0xFF); ("SDR_TUNE", 0x01); ("SDR_STREAM", 0x02); ("ANT_SELECT", 0x03);
   ("CC1101_CFG", 0x04); ("NFC_TRANSACT", 0x05); ("TELEMETRY_REQ", SPI_CMD_TELEMETRY_REQ);
   ("TELEMETRY", 0x81); ("SDR_IQ_CHUNK", 0x82)].
Definition TELEM_FLAGS : list (string * Z) :=
  [("SDR_RX_ACTIVE", TELEM_FLAG_SDR_RX_ACTIVE); ("SDR_TX_ACTIVE", TELEM_FLAG_SDR_TX_ACTIVE);
   ("CC1101_RX", TELEM_FLAG_CC1101_RX); ("CC1101_TX", TELEM_FLAG_CC1101_TX);
   ("NFC_ACTIVE", TELEM_FLAG_NFC_ACTIVE); ("NFC_TAG_PRESENT", TELEM_FLAG_NFC_TAG_PRESENT);
   ("OVERTEMP", BIT 6); ("LOW_BATTERY", TELEM_FLAG_LOW_BATTERY); ("SPI_ERR", BIT 8);
   ("DMA_ERR", BIT 9)].
End Mcu.

(** ** The driver: apex_bridge_regs.h *)
Module Host.
Open Scope string_scope.
Definition apex_spi_header : struct := {| is_packed := true; members :=
  [("sync", U8); ("cmd", U8); ("len", U16); ("reserved", U32); ("hdr_crc", U64)] |}.
Definition apex_telemetry : struct := {| is_packed := true; members :=
  [("rssi_dbm_x10", U16); ("temp_c_x10", U16); ("vbat_mv", U16); ("cc1101_rssi_x10", U16);
   ("nfc_field_mv", U16); ("flags", U16); ("uptime_ms", U32)] |}.
Definition apex_sdr_tune_cmd : struct := {| is_packed := true; members :=
  [("freq_hz", U32); ("bw_khz", U16); ("gain_db_x10", U16)] |}.
Definition apex_cc1101_cfg : struct := {| is_packed := true; members :=
  [("reg_addr", U8); ("reg_len", U8); ("data", Bytes 0)] |}.
Definition apex_nfc_transact : struct := {| is_packed := true; members :=
  [("cmd", U8); ("flags", U8); ("data_len", U16); ("data", Bytes 0)] |}.
Definition apex_sg_config : struct := {| is_packed := false; members :=
  [("buf_count", U32); ("buf_size", U32); ("timeout_ms", U32); ("spi_speed_hz", U32);
   ("continuous", U8); ("reserved", Bytes 3)] |}.
Definition apex_sg_buf_desc : struct := {| is_packed := false; members :=
  [("buf_index", U32); ("data_len", U32); ("timestamp_ns", U64); ("sequence", U32);
   ("state", U32)] |}.
Definition apex_sg_status : struct := {| is_packed := false; members :=
  [("state", U32); ("buf_count", U32); ("buf_size", U32); ("total_transferred", U64);
   ("overruns", U32); ("errors", U32); ("frames_rx", U32); ("frames_crc_err", U32)] |}.
Definition APEX_CMDS : list (string * Z) :=
  [("NOP", 0xFF); ("SDR_TUNE", 0x01); ("SDR_STREAM", 0x02); ("ANT_SELECT", 0x03);
   ("CC1101_CFG", 0x04); ("NFC_TRANSACT", 0x05); ("TELEMETRY", 0x81); ("SDR_IQ_CHUNK", 0x82)].
Definition APEX_FLAGS : list (string * Z) :=
  [("SDR_RX_ACTIVE", BIT 0); ("SDR_TX_ACTIVE", BIT 1); ("CC1101_RX", BIT 2); ("CC1101_TX", BIT 3);
   ("NFC_ACTIVE", BIT 4); ("NFC_TAG_PRESENT", BIT 5); ("OVERTEMP", BIT 6); ("LOW_BATTERY", BIT 7);
   ("SPI_ERR", BIT 8); ("DMA_ERR", BIT 9)].
Definition antennas : list (string * Z) :=
  [("MIMO_TX", 0); ("MIMO_RX", 1); ("SUBGHZ", 2); ("TERMINATED", APEX_ANT_TERMINATED)].
End Host.

(** ** The library: libapex.h, and the copies in libapex.c *)
Module Lib.
Open Scope string_scope.
Definition apex_telemetry_t : struct := {| is_packed := false; members :=
  [("rssi_dbm_x10", S16); ("temp_c_x10", S16); ("vbat_mv", U16); ("cc1101_rssi_x10", S16);
   ("nfc_field_mv", U16); ("flags", U16); ("uptime_ms", U32)] |}.
Definition apex_sdr_tune_t : struct := {| is_packed := false; members :=
  [("freq_hz", U32); ("bw_khz", U16); ("gain_db_x10", U16)] |}.
Definition apex_cc1101_config_t : struct := {| is_packed := false; members :=
  [("reg_addr", U8); ("reg_len", U8); ("data", Bytes 64)] |}.
Definition apex_nfc_transact_t : struct := {| is_packed := false; members :=
  [("cmd", U8); ("flags", U8); ("data_len", U16); ("data", Bytes 256)] |}.
Definition apex_status_t : struct := {| is_packed := false; members :=
  [("driver_flags", U32); ("mcu_ready", Bool); ("mcu_in_reset", Bool); ("spi_error", Bool)] |}.
Definition kernel_sdr_tune_cmd : struct := {| is_packed := true; members :=
  [("freq_hz", U32); ("bw_khz", U16); ("gain_db_x10", U16)] |}.
Definition kernel_telemetry : struct := {| is_packed := true; members :=
  [("rssi_dbm_x10", U16); ("temp_c_x10", U16); ("vbat_mv", U16); ("cc1101_rssi_x10", U16);
   ("nfc_field_mv", U16); ("flags", U16); ("uptime_ms", U32)] |}.
Definition kernel_cc1101_cfg : struct := {| is_packed := true; members :=
  [("reg_addr", U8); ("reg_len", U8); ("data", Bytes 64)] |}.
Definition kernel_nfc_transact : struct := {| is_packed := true; members :=
  [("cmd", U8); ("flags", U8); ("data_len", U16); ("data", Bytes 256)] |}.
Definition APEX_TELEM_FLAGS : list (string * Z) :=
  [("SDR_RX_ACTIVE", Z.shiftl 1 0); ("SDR_TX_ACTIVE", Z.shiftl 1 1); ("CC1101_RX", Z.shiftl 1 2);
   ("CC1101_TX", Z.shiftl 1 3); ("NFC_ACTIVE", Z.shiftl 1 4); ("NFC_TAG_PRESENT", Z.shiftl 1 5);
   ("OVERTEMP", Z.shiftl 1 6); ("LOW_BATTERY", Z.shiftl 1 7)].
Definition apex_antenna_t : list (string * Z) :=
  [("MIMO_TX", 0); ("MIMO_RX", 1); ("SUBGHZ", 2); ("TERMINATED", 3)].
Definition pyapex_antennas : list (string * Z) :=
  [("MIMO_TX", 0); ("MIMO_RX", 1); ("SUBGHZ", 2); ("TERMINATED", 3)].
End Lib.

(** ** Every member is where the layout says *)

Lemma encode_members_read packed off ms vs i f o z v t :
  member_offsets packed off ms !! i = Some (f, (o, z)) -> vs !! i = Some v ->
  snd <$> ms !! i = Some t -> 0 <= v < 2 ^ (8 * Z.of_nat (csize t)) -> length vs = length ms ->
  (off <= o)%nat /\ le_value (slice (o - off) z (encode_members packed off ms vs)) = v.
Proof.
  revert off vs i. induction ms as [|[g u] ms IH]; intros off [|w vs] i Ho Hv Ht Hb Hl; try done.
  simpl in Ho. destruct i as [|i]; simpl in *; simplify_eq/=.
  - split; [lia|]. unfold slice.
    replace (off + padding packed off t - off)%nat with (padding packed off t) by lia.
    rewrite drop_app_length' by (by rewrite length_replicate).
    rewrite take_app_length' by (by rewrite le_bytes_length).
    by apply le_value_le_bytes.
  - destruct (IH (off + padding packed off u + csize u)%nat vs i Ho Hv Ht Hb) as [Hle E]; [lia|].
    split; [lia|]. rewrite <- E. f_equal. unfold slice. f_equal.
    rewrite !drop_app, length_replicate, le_bytes_length.
    rewrite drop_ge by (rewrite length_replicate; lia).
    rewrite drop_ge by (rewrite le_bytes_length; lia). simpl. f_equal. lia.
Qed.

Definition fits_type (t : ctype) (v : Z) : Prop := 0 <= v < 2 ^ (8 * Z.of_nat (csize t)).

(** every member of an encoded structure reads back *)
Lemma encode_struct_read s vs i f m t v :
  length vs = length (members s) -> layout s !! i = Some (f, m) -> vs !! i = Some v ->
  snd <$> members s !! i = Some t -> fits_type t v ->
  member_at (encode_struct s vs) m = v.
Proof.
  intros Hl Ho Hv Ht Hb. destruct m as [o z].
  destruct (encode_members_read (is_packed s) 0 (members s) vs i f o z v t Ho Hv Ht Hb Hl) as [_ E].
  unfold member_at, encode_struct. by rewrite Nat.sub_0_r in E.
Qed.

(** the values of the members, read through a declaration with signed fields *)
Definition read_struct (s : struct) (l : list Z) : list Z :=
  zip_with (fun m o => as_type (snd m) (member_at l (snd o))) (members s) (layout s).

Lemma member_offsets_length packed off ms : length (member_offsets packed off ms) = length ms.
Proof. revert off. induction ms as [|[f t] ms IH]; intros off; simpl; auto. Qed.

(** a value written through one declaration and read through another with the same layout *)
Lemma read_struct_encoded s s' vs :
  layout s = layout s' -> length (members s) = length (members s') ->
  Forall2 fits_type (snd <$> members s') vs ->
  read_struct s (encode_struct s' vs) = zip_with (fun m => as_type (snd m)) (members s) vs.
Proof.
  intros El Lm F. pose proof (Forall2_length _ _ _ F) as L. rewrite length_fmap in L.
  apply list_eq. intros i. unfold read_struct. rewrite !lookup_zip_with, El.
  destruct (members s !! i) as [[f t]|] eqn:Em; [|done]. simpl.
  apply lookup_lt_Some in Em as Hi.
  destruct (lookup_lt_is_Some_2 (layout s') i) as [[g m] Eo].
  { unfold layout. rewrite member_offsets_length. lia. }
  destruct (lookup_lt_is_Some_2 vs i) as [v Ev]; [lia|].
  destruct (lookup_lt_is_Some_2 (snd <$> members s') i) as [u Eu];
    [rewrite length_fmap; lia|].
  rewrite Eo, Ev. simpl. do 2 f_equal.
  eapply encode_struct_read; try done; [by rewrite <- list_lookup_fmap|].
  by eapply Forall2_lookup_lr in F.
Qed.

(** ** The encoders lay out the declared structures *)

Definition telemetry_members (dv : device) : list Z :=
  [u16 (last_rssi_dbm_x10 dv); u16 (last_temp_c_x10 dv); last_vbat_mv dv;
   u16 (last_cc_rssi_x10 dv); last_nfc_field_mv dv; telem_flags dv; uptime_ms dv].

Lemma telemetry_encoded dv :
  telemetry_payload dv = encode_struct Mcu.telemetry_payload_struct (telemetry_members dv).
Proof. unfold telemetry_payload. by rewrite !write_le16_bytes, write_le32_bytes. Qed.

Lemma header_encoded (crc : FrameCrc) cmd len :
  byte cmd ->
  encode_header cmd len = encode_struct Mcu.spi_frame_header
    [SPI_SYNC_BYTE; cmd; len; 0; frame_crc64 (header_head cmd len)].
Proof.
  intros Hc. unfold encode_header, header_head at 1.
  rewrite write_le16_bytes, write_le32_bytes, write_le64_bytes.
  rewrite <- (u8_small cmd) at 1 by done. reflexivity.
Qed.

Definition status_members (e : sg_engine) : list Z :=
  [sg_state e; buf_count e; buf_size e; total_transferred e; overruns e; errors e;
   frames_rx e; frames_crc_err e].

Lemma sg_status_encoded e :
  sg_status_bytes e = encode_struct Host.apex_sg_status (status_members e).
Proof.
  unfold sg_status_bytes. change (write_le32 0) with (replicate 4 0).
  by rewrite !write_le32_bytes, write_le64_bytes.
Qed.

Lemma telemetry_fits dv : device_typed dv ->
  Forall2 fits_type (snd <$> members Mcu.telemetry_payload_struct) (telemetry_members dv).
Proof.
  intros (H1 & H2 & H3 & H4 & H5 & H6). pose proof (telem_flags_range dv) as H7.
  unfold telemetry_members. simpl.
  repeat (apply Forall2_cons; split); unfold fits_type; simpl; try done; apply u16_range.
Qed.

(** through a declaration with signed members *)
Lemma telemetry_signed dv s : device_typed dv ->
  members s = members Lib.apex_telemetry_t -> layout s = layout Mcu.telemetry_payload_struct ->
  read_struct s (telemetry_payload dv) =
    [last_rssi_dbm_x10 dv; last_temp_c_x10 dv; last_vbat_mv dv; last_cc_rssi_x10 dv;
     last_nfc_field_mv dv; telem_flags dv; uptime_ms dv].
Proof.
  intros Hdv Em El. rewrite telemetry_encoded, read_struct_encoded;
    [|done|by rewrite Em|by apply telemetry_fits].
  destruct Hdv as (H1 & H2 & H3 & H4 & H5 & H6).
  rewrite Em. simpl. by rewrite !s16_u16.
Qed.

Lemma sg_config_encoded n size timeout speed cont r :
  Forall2 fits_type (snd <$> members Host.apex_sg_config) [n; size; timeout; speed; cont; r] ->
  sg_config_of (encode_struct Host.apex_sg_config [n; size; timeout; speed; cont; r]) =
    Build_sg_config n size timeout speed cont.
Proof.
  simpl. rewrite !Forall2_cons. unfold fits_type. simpl.
  intros (H1 & H2 & H3 & H4 & H5 & _).
  unfold encode_struct, sg_config_of. cbn [encode_members members Host.apex_sg_config is_packed].
  change (padding false _ _) with 0%nat. cbn [replicate app csize].
  rewrite <- !write_le32_bytes.
  assert (L : forall v l, drop 4 (write_le32 v ++ l) = l) by done.
  rewrite <- (drop_drop _ 4 8), <- (drop_drop _ 4 4), !L, !read_write_le32 by done.
  f_equal. cbn [write_le32 app le_bytes byte_at nth]. apply u8_small. lia.
Qed.

(** ** Properties *)

(** C8: one telemetry record in five declarations. For any values the firmware
    can hold, its payload read through the declaration libapex exports, or the
    one of spi_protocol.h, gives those values with their sign, and through the
    three unsigned ones the same bits; tune commands are declared alike five
    times; the configuration the driver parses for a stream is the declared
    structure, and every member of the status it returns is at its declared
    offset, the 64-bit one behind its padding. *)
Theorem wire_structs_read_back (dv : device) (Hdv : device_typed dv) :
  Forall (fun s => sizeof s = length (telemetry_payload dv) /\
      read_struct s (telemetry_payload dv) =
        [last_rssi_dbm_x10 dv; last_temp_c_x10 dv; last_vbat_mv dv; last_cc_rssi_x10 dv;
         last_nfc_field_mv dv; telem_flags dv; uptime_ms dv])
    [Mcu.spi_telemetry_data; Lib.apex_telemetry_t] /\
  Forall (fun s => sizeof s = length (telemetry_payload dv) /\
      read_struct s (telemetry_payload dv) = telemetry_members dv)
    [Mcu.telemetry_payload_struct; Host.apex_telemetry; Lib.kernel_telemetry] /\
  Forall (fun s => layout s = layout Lib.apex_sdr_tune_t /\ sizeof s = 8%nat)
    [Mcu.spi_sdr_tune_cmd; Mcu.sdr_tune_cmd; Host.apex_sdr_tune_cmd; Lib.kernel_sdr_tune_cmd] /\
  (forall n size timeout speed cont r,
     Forall2 fits_type (snd <$> members Host.apex_sg_config) [n; size; timeout; speed; cont; r] ->
     sg_config_of (encode_struct Host.apex_sg_config [n; size; timeout; speed; cont; r]) =
       Build_sg_config n size timeout speed cont) /\
  (forall e, Forall2 fits_type (snd <$> members Host.apex_sg_status) (status_members e) ->
     sizeof Host.apex_sg_status = length (sg_status_bytes e) /\
     read_struct Host.apex_sg_status (sg_status_bytes e) = status_members e).
Proof.
  pose proof (telemetry_fits dv Hdv) as F. rewrite !Forall_cons.
  split_and!; try done; try apply Forall_nil_2.
  1,2: by apply telemetry_signed.
  1,2,3: rewrite telemetry_encoded, read_struct_encoded by done; reflexivity.
  - intros * HF. by apply sg_config_encoded.
  - intros e He. split; [done|]. by rewrite sg_status_encoded, read_struct_encoded.
Qed.

Lemma wire_structs_read_back_witness :
  device_typed demo_mcu /\
  read_struct Lib.apex_telemetry_t (telemetry_payload demo_mcu) =
    [-740; -35; 4100; -1100; 250; telem_flags demo_mcu; 123456].
Proof.
  assert (H : device_typed demo_mcu) by (unfold device_typed; simpl; lia).
  split; [exact H|].
  destruct (wire_structs_read_back demo_mcu H) as [F _].
  apply Forall_cons in F as [_ F]. apply Forall_cons in F as [[_ E] _]. exact E.
Defined.

(** the statuses a telemetry word shows through a table of flags *)
Definition shown_flags (table : list (string * Z)) (word : Z) : list bool :=
  (fun m => negb (Z.land word (snd m) =? 0)) <$> table.

(** The constants the two processors and the library each declare again.
    Opcodes, antenna numbers and status flags agree; read through any of the
    three flag tables a telemetry word of the firmware shows the state of the
    radios and the brownout flag and nothing else, so over-temperature, SPI and
    DMA errors are declared and never reported, whatever the temperature; and
    the request for telemetry that spi_protocol.h declares is a command the
    dispatcher ignores. *)
Theorem wire_constants_shared (dv : device) (payload : list Z) (len : Z) (s : fw) :
  Host.APEX_CMDS = Mcu.CMDS /\
  Mcu.SPI_CMDS = take 6 Mcu.CMDS ++
    ("TELEMETRY_REQ"%string, Mcu.SPI_CMD_TELEMETRY_REQ) :: drop 6 Mcu.CMDS /\
  Lib.apex_antenna_t = Host.antennas /\ Lib.pyapex_antennas = Host.antennas /\
  Forall (fun t => shown_flags t (telem_flags dv) = take (length t)
      [sdr_rx_enabled dv; sdr_tx_enabled dv; cc1101_rx_active dv; cc1101_tx_active dv;
       nfc_active dv; nfc_tag_present dv; false; brownout_active dv; false; false])
    [Mcu.TELEM_FLAGS; Host.APEX_FLAGS; Lib.APEX_TELEM_FLAGS] /\
  apex_is_overtemp (Some (reported dv)) = (850 <? last_temp_c_x10 dv) /\
  dispatch_command Mcu.SPI_CMD_TELEMETRY_REQ payload len s = s.
Proof.
  split_and!; try reflexivity. rewrite !Forall_cons. unfold telem_flags, flag_if.
  destruct (sdr_rx_enabled dv), (sdr_tx_enabled dv), (cc1101_rx_active dv),
    (cc1101_tx_active dv), (nfc_active dv), (nfc_tag_present dv), (brownout_active dv);
    split_and!; vm_compute; done || constructor.
Qed.
