(* ===== verification/SysfsSystem.v ===== *)
(** * From the firmware to sysfs (apex_bridge.c, spi_protocol.c)

    What the attribute files of the driver show once it has received the
    firmware's telemetry. *)

From S2P Require Import Prelude Crc Frame Kernel ApexDev ApexBridge ApexSysfs.
From S2P Require Import SpiProtocol SpiTx SpiTypes Libapex System.
From stdpp Require Import strings pretty.

#[local] Open Scope Z_scope.

Section Shown.
Context {K : Kfifo}.

Lemma telemetry_fields (d : bridge) (mcu : device) : device_typed mcu ->
  last_telem d = telemetry_payload mcu ->
  rssi_dbm_x10_show d = line (last_rssi_dbm_x10 mcu) /\
  temp_c_x10_show d = line (last_temp_c_x10 mcu) /\
  vbat_mv_show d = line (last_vbat_mv mcu) /\
  cc1101_rssi_x10_show d = line (last_cc_rssi_x10 mcu) /\
  nfc_field_mv_show d = line (last_nfc_field_mv mcu) /\
  mcu_flags_show d = ("0x" +:+ hex 4 (telem_flags mcu) +:+ newline)%string /\
  uptime_ms_show d = line (SpiProtocol.uptime_ms mcu).
Proof.
  intros Hm El. pose proof (telemetry_roundtrip mcu Hm) as R.
  unfold telemetry_of, reported in R.
  pose proof (f_equal rssi_dbm_x10 R) as R1. pose proof (f_equal temp_c_x10 R) as R2.
  pose proof (f_equal vbat_mv R) as R3. pose proof (f_equal cc1101_rssi_x10 R) as R4.
  pose proof (f_equal nfc_field_mv R) as R5. pose proof (f_equal t_flags R) as R6.
  pose proof (f_equal Libapex.uptime_ms R) as R7.
  cbn [rssi_dbm_x10 temp_c_x10 vbat_mv cc1101_rssi_x10 nfc_field_mv t_flags Libapex.uptime_ms] in *.
  unfold rssi_dbm_x10_show, temp_c_x10_show, vbat_mv_show, cc1101_rssi_x10_show,
    nfc_field_mv_show, mcu_flags_show, uptime_ms_show, telem_le16. rewrite El.
  rewrite drop_0, R1, R2, R3, R4, R5, R6, R7. by split_and!.
Qed.
End Shown.

(** C9: The attribute files show what the firmware measured.  When the bus answers
    the driver's poll with the firmware's telemetry frame, the seven telemetry
    files then read as the cached values, in decimal with their signs and the
    flags as four hexadecimal digits; no two values read alike, so a reader gets
    back exactly what was sent.  But low_battery reads 1 exactly when the SDR is
    receiving or transmitting. *)
Theorem sysfs_shows_firmware {K : Kfifo} (e : env) (d : bridge) (mcu : device) (rest : list Z)
  (Hmcu : device_typed mcu)
  (Hf : is_Some (kmalloc e 0 4112)) (Hr : is_Some (kmalloc e 1 4112))
  (Hbus : forall tx, length tx = 4112%nat -> 0 <= fst (spi_sync e tx) /\
     snd (spi_sync e tx) =
       encode_frame (crc:=mcu_frame_crc) CMD_TELEMETRY (telemetry_payload mcu) ++ rest) :
  let d' := apex_rx_work_handler e d in
  let number v := Some (pretty v +:+ newline)%string in
  (read_attr "rssi_dbm_x10" d' = number (last_rssi_dbm_x10 mcu) /\
   read_attr "temp_c_x10" d' = number (last_temp_c_x10 mcu) /\
   read_attr "vbat_mv" d' = number (last_vbat_mv mcu) /\
   read_attr "cc1101_rssi_x10" d' = number (last_cc_rssi_x10 mcu) /\
   read_attr "nfc_field_mv" d' = number (last_nfc_field_mv mcu) /\
   read_attr "uptime_ms" d' = number (SpiProtocol.uptime_ms mcu) /\
   read_attr "mcu_flags" d' = Some ("0x" +:+ hex 4 (telem_flags mcu) +:+ newline)%string) /\
  (forall v w, number v = number w -> v = w) /\
  (forall v w, 0 <= v < 65536 -> 0 <= w < 65536 -> hex 4 v = hex 4 w -> v = w) /\
  read_attr "low_battery" d' =
    number (if sdr_rx_enabled mcu || sdr_tx_enabled mcu then 1 else 0).
Proof.
  cbv zeta. destruct (rx_work_caches e d mcu rest Hf Hr Hbus) as [El Hl].
  destruct (telemetry_fields _ mcu Hmcu El) as (H1 & H2 & H3 & H4 & H5 & H6 & H7).
  rewrite !(read_attr_lookup 0 "rssi_dbm_x10" rssi_dbm_x10_show) by done.
  rewrite !(read_attr_lookup 1 "temp_c_x10" temp_c_x10_show) by done.
  rewrite !(read_attr_lookup 2 "vbat_mv" vbat_mv_show) by done.
  rewrite !(read_attr_lookup 3 "cc1101_rssi_x10" cc1101_rssi_x10_show) by done.
  rewrite !(read_attr_lookup 4 "nfc_field_mv" nfc_field_mv_show) by done.
  rewrite !(read_attr_lookup 5 "mcu_flags" mcu_flags_show) by done.
  rewrite !(read_attr_lookup 6 "uptime_ms" uptime_ms_show) by done.
  rewrite !(read_attr_lookup 12 "low_battery" low_battery_show) by done.
  split; [split_and!; by f_equal|].
  split; [intros v w [= H]; exact (inj line _ _ H)|].
  split; [intros v w Hv Hw; by apply (hex_inj 4)|].
  unfold low_battery_show. rewrite Hl, <- telem_flags_low.
  change (apex_telemetry_flags (telemetry_payload mcu)) with
    (t_flags (telemetry_of (telemetry_payload mcu))). by rewrite telemetry_roundtrip.
Qed.

Lemma sysfs_shows_firmware_witness :
  let d' := apex_rx_work_handler telemetry_env (apex_bridge_probe 1000000) in
  read_attr "cc1101_rssi_x10" d' = Some ("-1100" +:+ newline)%string /\
  read_attr "low_battery" d' = Some ("1" +:+ newline)%string.
Proof.
  assert (Hm : device_typed demo_mcu) by (unfold device_typed; simpl; lia).
  assert (Hf : is_Some (kmalloc telemetry_env 0 4112)) by (eexists; reflexivity).
  assert (Hr : is_Some (kmalloc telemetry_env 1 4112)) by (eexists; reflexivity).
  destruct (sysfs_shows_firmware telemetry_env (apex_bridge_probe 1000000) demo_mcu
    (replicate 4076 0) Hm Hf Hr telemetry_env_answers)
    as ((_ & _ & _ & H4 & _) & _ & _ & H8).
  cbv zeta. split; [etransitivity; [exact H4|reflexivity]|etransitivity; [exact H8|reflexivity]].
Defined.
