(* ===== verification/Pyapex.v ===== *)
(** * The Python bindings (pyapex.c)

    The extension module over the functions of Libapex.v.  What CPython does
    to an argument is the interface [PyArg], with the documented behaviour of
    the format units as laws; a conversion may run Python code (an __index__
    method), so a call carries what that code did to the object.  Memory that
    a C function reads before writing it is part of the call.  A C function
    that leaves the defined behaviour of C is [Undefined]. *)

From S2P Require Import Prelude Frame Kernel ApexDev ApexBridge Libapex.
From Stdlib Require Import SpecFloat.
From stdpp Require Import strings pretty.
Open Scope Z_scope.

(** ** What the module uses of CPython *)

(** the format units, and the C values they store *)
Inductive fmt := FI | FH | FB | Fi | Fn | Fd | Fp | Fy | Fs.

Definition cval (f : fmt) : Type :=
  match f with Fd => spec_float | Fp => bool | Fy | Fs => list Z | _ => Z end.

Definition cval_ok (f : fmt) : cval f -> Prop :=
  match f with
  | FI => fun v => 0 <= v < 4294967296
  | FH => fun v => 0 <= v < 65536
  | FB => fun v => 0 <= v < 256
  | Fi => fun v => -2147483648 <= v < 2147483648
  | Fn => fun v => -9223372036854775808 <= v < 9223372036854775808
  | Fy | Fs => bytes
  | Fd | Fp => fun _ => True
  end.

Definition int_in (lo hi z : Z) : bool := (lo <=? z) && (z <? hi).

(** [I], [H] and [B] store the low bits whatever the value; [i] and [n] check it *)
Class PyArg := {
  pyobj : Type;
  pyexn : Type;
  TypeError : pyexn; OverflowError : pyexn;
  convert : forall f, pyobj -> pyexn + cval f;
  convert_ok : forall f o v, convert f o = inr v -> cval_ok f v;
  py_int : Z -> pyobj; py_float : spec_float -> pyobj; py_bytes : list Z -> pyobj;
  convert_I : forall z, convert FI (py_int z) = inr (u32 z);
  convert_H : forall z, convert FH (py_int z) = inr (u16 z);
  convert_B : forall z, convert FB (py_int z) = inr (u8 z);
  convert_i : forall z, convert Fi (py_int z) =
    if int_in (-2147483648) 2147483648 z then inr z else inl OverflowError;
  convert_n : forall z, convert Fn (py_int z) =
    if int_in (-9223372036854775808) 9223372036854775808 z then inr z else inl OverflowError;
  convert_d : forall x, convert Fd (py_float x) = inr x;
  convert_float_I : forall x, convert FI (py_float x) = inl TypeError;
  convert_y : forall l, bytes l -> convert Fy (py_bytes l) = inr l;
}.

(** *** The immutable built-in types, as an instance *)

Inductive builtin :=
| BNone | BBool (b : bool) | BInt (z : Z) | BFloat (x : spec_float)
| BStr (utf8 : list Z) | BBytes (l : list Z).
Inductive builtin_exn := ETypeError | EOverflowError | EValueError.

Definition int_value (o : builtin) : option Z :=
  match o with BBool b => Some (if b then 1 else 0) | BInt z => Some z | _ => None end.

Definition float_of_int (z : Z) : builtin_exn + spec_float :=
  match binary_normalize 53 1024 z 0 false with
  | S754_infinity _ => inl EOverflowError
  | x => inr x
  end.

Definition convert_int (k : Z -> builtin_exn + Z) (o : builtin) : builtin_exn + Z :=
  match int_value o with None => inl ETypeError | Some z => k z end.
Definition checked (lo hi z : Z) : builtin_exn + Z :=
  if int_in lo hi z then inr z else inl EOverflowError.

Definition truth (o : builtin) : bool :=
  match o with
  | BNone => false | BBool b => b | BInt z => negb (z =? 0)
  | BFloat x => match x with S754_zero _ => false | _ => true end
  | BStr l | BBytes l => match l with [] => false | _ => true end
  end.

Definition builtin_convert (f : fmt) : builtin -> builtin_exn + cval f :=
  match f with
  | FI => convert_int (fun z => inr (u32 z))
  | FH => convert_int (fun z => inr (u16 z))
  | FB => convert_int (fun z => inr (u8 z))
  | Fi => convert_int (checked (-2147483648) 2147483648)
  | Fn => convert_int (checked (-9223372036854775808) 9223372036854775808)
  | Fd => fun o =>
      match o with
      | BFloat x => inr x
      | _ => match int_value o with None => inl ETypeError | Some z => float_of_int z end
      end
  | Fp => fun o => inr (truth o)
  | Fy => fun o => match o with BBytes l => inr (u8 <$> l) | _ => inl ETypeError end
  | Fs => fun o =>
      match o with
      | BStr l => if existsb (fun b => u8 b =? 0) l then inl EValueError else inr (u8 <$> l)
      | _ => inl ETypeError
      end
  end.

Lemma fmap_u8_bytes l : bytes (u8 <$> l).
Proof. apply Forall_fmap, Forall_true. intros x. apply u8_range. Qed.

Lemma fmap_u8_id l : bytes l -> u8 <$> l = l.
Proof. induction 1 as [|b l Hb _ IH]; [done|]. cbn. by rewrite IH, u8_small. Qed.

Lemma builtin_convert_ok f o v : builtin_convert f o = inr v -> cval_ok f v.
Proof.
  assert (I : forall k w, convert_int k o = inr w -> exists z, k z = inr w).
  { intros k w. unfold convert_int. destruct (int_value o); [by eexists|done]. }
  assert (C : forall lo hi z w, checked lo hi z = inr w -> lo <= w < hi).
  { intros lo hi z w. unfold checked, int_in. destruct (_ && _) eqn:E; [|done].
    intros [= <-]. lia. }
  destruct f; cbn [builtin_convert cval_ok].
  - intros [z [= <-]]%I. apply u32_range.
  - intros [z [= <-]]%I. apply u16_range.
  - intros [z [= <-]]%I. apply u8_range.
  - intros [z H]%I. by apply C in H.
  - intros [z H]%I. by apply C in H.
  - done.
  - done.
  - destruct o; try done. intros [= <-]. apply fmap_u8_bytes.
  - destruct o; try done. destruct (existsb _ _); [done|]. intros [= <-]. apply fmap_u8_bytes.
Qed.

#[local] Obligation Tactic := try done.
#[export] Program Instance builtin_arg : PyArg := {|
  pyobj := builtin; pyexn := builtin_exn;
  TypeError := ETypeError; OverflowError := EOverflowError;
  convert := builtin_convert; convert_ok := builtin_convert_ok;
  py_int := BInt; py_float := BFloat; py_bytes := BBytes |}.
Next Obligation. intros l Hl. cbn. by rewrite fmap_u8_id. Qed.

(** *** PyArg_ParseTuple *)

Section Parse.
Context {Y : PyArg}.

Fixpoint cvals (fs : list fmt) : Type :=
  match fs with [] => unit | f :: fs => (cval f * cvals fs)%type end.

Fixpoint convert_all (fs : list fmt) (os : list pyobj) : pyexn + cvals fs :=
  match fs, os with
  | f :: fs, o :: os =>
      match convert f o with
      | inl x => inl x
      | inr v => match convert_all fs os with inl x => inl x | inr vs => inr (v, vs) end
      end
  | [], _ => inr tt
  | _ :: _, [] => inl TypeError
  end.

(** one optional argument, [|] in the format: [None] leaves the variable alone *)
Definition convert_opt (f : fmt) (os : list pyobj) : pyexn + option (cval f) :=
  match os with
  | [] => inr None
  | o :: _ => match convert f o with inl x => inl x | inr v => inr (Some v) end
  end.
End Parse.

(** *** Results and exceptions *)

Inductive dictval := DInt (z : Z) | DBool (b : bool).
Inductive pyret :=
| RNone | RBool (b : bool) | RInt (z : Z) | RBytes (l : list Z) | RStr (s : string)
| RDict (items : list (string * dictval)).

Section Exceptions.
Context {Y : PyArg}.
Inductive pyexc :=
| ArgError (e : pyexn)                      (* what PyArg_ParseTuple raised *)
| AttributeError | ValueError (msg : string) | RuntimeError (msg : string)
| IOError (msg : string) | MemoryError.
Inductive outcome := Ret (v : pyret) | Raise (e : pyexc) | Undefined.
End Exceptions.

(** ** Numbers *)

Definition s8 (x : Z) : Z := let y := u8 x in if y <? 128 then y else y - 256.

(** [(float)gain_db * 10.0f] cut to a uint16_t; [None] where the conversion
    has no defined value *)
Definition to_float (d : spec_float) : spec_float :=
  match d with
  | S754_finite s m e => binary_normalize 24 128 (if s then Z.neg m else Z.pos m) e s
  | _ => d
  end.

Definition to_uint16 (x : spec_float) : option Z :=
  match x with
  | S754_zero _ => Some 0
  | S754_finite s m e =>
      let q := Z.shiftl (Z.pos m) e in
      if s then (if q =? 0 then Some 0 else None)
      else if q <? 65536 then Some q else None
  | _ => None
  end.

Definition gain_x10 (gain_db : spec_float) : option Z :=
  to_uint16 (SFmul 24 128 (to_float gain_db) (binary_normalize 24 128 10 0 false)).

(** the float closest to [z / 10], as a Python program writes it *)
Definition tenths (z : Z) : spec_float :=
  SFdiv 53 1024 (binary_normalize 53 1024 z 0 false) (binary_normalize 53 1024 10 0 false).

(** ** libapex, as this module calls it *)

Definition error_strings : list string :=
  ["Success"; "Invalid argument"; "Device not found"; "Failed to open device"; "ioctl failed";
   "Operation timed out"; "Communication error"; "Device not ready"; "Out of memory"]%string.

Definition strerror_text (error : Z) : string :=
  match apex_strerror error with
  | Some i => nth i error_strings "Unknown error"%string
  | None => "Unknown error"%string
  end.

Definition version_string (v : Z * Z * Z) : string :=
  let '(a, b, c) := v in
  ("GhostBlade v" +:+ pretty (Z.to_N a) +:+ "." +:+ pretty (Z.to_N b) +:+ "." +:+
   pretty (Z.to_N c))%string.

Definition default_device : list Z :=
  (fun a => Z.of_nat (Ascii.nat_of_ascii a)) <$> String.list_ascii_of_string "/dev/apex_bridge0".

Section Module_pyapex.
Context {A : IoctlAbi} {P : Posix} {Y : PyArg}.

(** the gain is converted after the early returns *)
Definition apex_sdr_tune_float (h : option apex_device) (freq_hz bw_khz : Z)
    (gain_db : spec_float) (k : system) : option (result unit) :=
  match gain_x10 gain_db with
  | Some g => Some (apex_sdr_tune h freq_hz bw_khz g k)
  | None =>
      let r := apex_sdr_tune h freq_hz bw_khz 0 k in
      match h with
      | Some d =>
          if (fd d <? 0) || (freq_hz <? 100000) || (3800000000 <? freq_hz) then Some r else None
      | None => Some r
      end
  end.

(** ** One call of a method *)

(** PyApexDeviceObject and the system *)
Definition pst : Type := option apex_device * system.

(** the arguments; the effect on the object of the Python code the conversions
    run; whether malloc and the creation of the result succeed; the bytes that
    happen to be in the local structures and in a fresh allocation *)
Record pycall := {
  c_args : list pyobj;
  c_during : pst -> pst;
  c_malloc : bool; c_new : bool;
  c_cfg : list Z; c_kcmd : list Z; c_ktxn : list Z; c_ktelem : list Z;
  c_heap : nat -> list Z;
  c_cfg_length : length c_cfg = 64%nat;
  c_kcmd_length : length c_kcmd = 64%nat;
  c_ktxn_length : length c_ktxn = 256%nat;
  c_ktelem_length : length c_ktelem = 16%nat;
  c_heap_length : forall n, length (c_heap n) = n;
}.

Definition method : Type := pycall -> pst -> outcome * pst.

(** [if (!self->handle)] *)
Definition opened (f : method) : method := fun c s =>
  match fst s with
  | None => (Raise (RuntimeError "Device not open"), s)
  | Some _ => f c s
  end.

(** PyArg_ParseTuple, and the body that goes on with its values *)
Definition parsed (fs : list fmt) (f : cvals fs -> method) : method := fun c s =>
  if negb (length (c_args c) =? length fs)%nat then (Raise (ArgError TypeError), s) else
  let s := c_during c s in
  match convert_all fs (c_args c) with
  | inl e => (Raise (ArgError e), s)
  | inr v => f v c s
  end.

Definition parsed_opt (u : fmt) (f : option (cval u) -> method) : method := fun c s =>
  if (1 <? length (c_args c))%nat then (Raise (ArgError TypeError), s) else
  let s := c_during c s in
  match convert_opt u (c_args c) with
  | inl e => (Raise (ArgError e), s)
  | inr v => f v c s
  end.

(** [if (ret != APEX_OK) { PyErr_SetString(PyExc_IOError, apex_strerror(ret)); ... }] *)
Definition io {X} (r : result X) (ok : option X -> outcome) : outcome * pst :=
  (if ret_of r =? APEX_OK then ok (out_of r) else Raise (IOError (strerror_text (ret_of r))),
   (dev_of r, sys_of r)).

Definition none {X} (_ : option X) : outcome := Ret RNone.

(** a result object, if there is memory for it *)
Definition new (c : pycall) (v : pyret) : outcome := if c_new c then Ret v else Raise MemoryError.
(** a structure libapex left unwritten would be read uninitialised *)
Definition use {X} (f : X -> outcome) (x : option X) : outcome :=
  match x with Some x => f x | None => Undefined end.

(** *** The methods *)

Definition pyapex_device_close : method := fun _ s =>
  match fst s with
  | Some _ => (Ret RNone, (None, apex_close (fst s) (snd s)))
  | None => (Ret RNone, s)
  end.

Definition pyapex_device_sdr_tune : method := opened (parsed [FI; FH; Fd] (fun v _ s =>
  let '(freq_hz, (bw_khz, (gain_db, _))) := v in
  match apex_sdr_tune_float (fst s) freq_hz bw_khz gain_db (snd s) with
  | Some r => io r none
  | None => (Undefined, s)
  end)).

Definition pyapex_device_sdr_stream_start : method := opened (fun _ s =>
  io (apex_sdr_stream_start (fst s) (snd s)) none).
Definition pyapex_device_sdr_stream_stop : method := opened (fun _ s =>
  io (apex_sdr_stream_stop (fst s) (snd s)) none).

(** [apex_antenna_t] has no negative member: the cast is to unsigned *)
Definition pyapex_device_ant_select : method := opened (parsed [Fi] (fun v _ s =>
  let '(ant, _) := v in io (apex_ant_select (fst s) (u32 ant) (snd s)) none)).

Definition pyapex_device_cc1101_write : method := opened (parsed [FB; Fy] (fun v c s =>
  let '(addr, (data, _)) := v in
  let len := Z.of_nat (length data) in
  if (len =? 0) || (64 <? len) then (Raise (ValueError "Data length must be 1-64"), s) else
  let cfg := {| reg_addr := addr; reg_len := u8 len; cc_data := overwrite data (c_cfg c) |} in
  io (apex_cc1101_write_regs (fst s) (Some cfg) (c_kcmd c) (snd s)) none)).

Definition pyapex_device_cc1101_set_channel : method := opened (parsed [FB] (fun v c s =>
  let '(channel, _) := v in
  io (apex_cc1101_set_channel (fst s) channel (c_kcmd c) (snd s)) none)).

Definition pyapex_device_cc1101_set_power : method := opened (parsed [Fi] (fun v c s =>
  let '(power_dbm, _) := v in
  io (apex_cc1101_set_power (fst s) (s8 power_dbm) (c_kcmd c) (snd s)) none)).

Definition pyapex_device_nfc_transact : method := opened (parsed [FB; FB; Fy] (fun v c s =>
  let '(cmd, (flags, (data, _))) := v in
  let len := Z.of_nat (length data) in
  if 256 <? len then (Raise (ValueError "Data length must be <= 256"), s) else
  let txn := {| n_cmd := cmd; n_flags := flags; data_len := u16 len;
                n_data := overwrite data (replicate 256 0) |} in
  io (apex_nfc_transact (fst s) (Some txn) (c_ktxn c) (snd s))
    (use (fun txn =>
       if 0 <? data_len txn then new c (RBytes (take (Z.to_nat (data_len txn)) (n_data txn)))
       else Ret RNone)))).

Definition telemetry_dict (t : telemetry) : pyret := RDict
  [("rssi_dbm_x10", DInt (rssi_dbm_x10 t)); ("temp_c_x10", DInt (temp_c_x10 t));
   ("vbat_mv", DInt (vbat_mv t)); ("cc1101_rssi_x10", DInt (cc1101_rssi_x10 t));
   ("nfc_field_mv", DInt (nfc_field_mv t)); ("flags", DInt (t_flags t));
   ("uptime_ms", DInt (Libapex.uptime_ms t))]%string.

Definition pyapex_device_get_telemetry : method := opened (fun c s =>
  io (apex_get_telemetry (fst s) false (c_ktelem c) (snd s))
    (use (fun t => new c (telemetry_dict t)))).

Definition pyapex_device_get_status : method := opened (fun c s =>
  io (apex_get_status (fst s) false (snd s))
    (use (fun st => new c (RDict
       [("driver_flags", DInt (driver_flags st)); ("mcu_ready", DBool (mcu_ready st));
        ("mcu_in_reset", DBool (mcu_in_reset st)); ("spi_error", DBool (spi_error st))]%string)))).

Definition pyapex_device_mcu_reset : method := opened (parsed [Fp] (fun v _ s =>
  let '(assert_val, _) := v in io (apex_mcu_reset (fst s) assert_val (snd s)) none)).

(** this one has a message of its own *)
Definition pyapex_device_battery_percent : method := opened (fun c s =>
  let r := apex_get_telemetry (fst s) false (c_ktelem c) (snd s) in
  (if ret_of r =? APEX_OK
   then use (fun t => new c (RInt (apex_battery_percent (vbat_mv t)))) (out_of r)
   else Raise (IOError "Failed to read telemetry"),
   (dev_of r, sys_of r))).

Definition pyapex_device_cc1101_read : method := opened (parsed [FB; FB] (fun v c s =>
  let '(addr, (len, _)) := v in
  if (len =? 0) || (64 <? len) then (Raise (ValueError "Register length must be 1-64"), s) else
  let cfg := {| reg_addr := addr; reg_len := len; cc_data := c_cfg c |} in
  io (apex_cc1101_read_regs (fst s) (Some cfg) (snd s)) (use (fun l => new c (RBytes l))))).

Definition pyapex_device_cc1101_set_band : method := opened (parsed [Fi] (fun v _ s =>
  let '(band, _) := v in io (apex_cc1101_set_band (fst s) band (snd s)) none)).

Definition pyapex_device_sdr_read_iq : method := opened (parsed [Fn] (fun v c s =>
  let '(buf_len, _) := v in
  if (buf_len <=? 0) || (65536 <? buf_len) then
    (Raise (ValueError "Buffer size must be 1-65536"), s) else
  if negb (c_malloc c) then (Raise MemoryError, s) else
  io (apex_sdr_read_iq (fst s) false buf_len (snd s))
    (use (fun '(l, samples_read) =>
       new c (RBytes (take (Z.to_nat samples_read)
                        (overwrite l (c_heap c (Z.to_nat buf_len))))))))).

Definition pyapex_device_nfc_poll : method := opened (parsed_opt FI (fun v c s =>
  let timeout_ms : Z := default 0 v in
  let r := apex_nfc_poll (fst s) timeout_ms (c_ktxn c) (snd s) in
  (if ret_of r =? APEX_OK then Ret (RBool true)
   else if ret_of r =? APEX_ERR_TIMEOUT then Ret (RBool false)
   else Raise (IOError (strerror_text (ret_of r))),
   (dev_of r, sys_of r)))).

Definition pyapex_device_get_firmware_version : method := opened (fun c s =>
  io (apex_get_firmware_version (fst s) false 64 (c_ktelem c) (snd s))
    (use (fun v => new c (RStr (version_string v))))).

(** *** The method table, and a call by name *)

Inductive meth_flags := METH_NOARGS | METH_VARARGS.

Definition pyapex_device_methods : list (string * (meth_flags * method)) := [
  ("close", (METH_NOARGS, pyapex_device_close));
  ("sdr_tune", (METH_VARARGS, pyapex_device_sdr_tune));
  ("sdr_stream_start", (METH_NOARGS, pyapex_device_sdr_stream_start));
  ("sdr_stream_stop", (METH_NOARGS, pyapex_device_sdr_stream_stop));
  ("sdr_read_iq", (METH_VARARGS, pyapex_device_sdr_read_iq));
  ("ant_select", (METH_VARARGS, pyapex_device_ant_select));
  ("cc1101_write", (METH_VARARGS, pyapex_device_cc1101_write));
  ("cc1101_read", (METH_VARARGS, pyapex_device_cc1101_read));
  ("cc1101_set_channel", (METH_VARARGS, pyapex_device_cc1101_set_channel));
  ("cc1101_set_power", (METH_VARARGS, pyapex_device_cc1101_set_power));
  ("cc1101_set_band", (METH_VARARGS, pyapex_device_cc1101_set_band));
  ("nfc_transact", (METH_VARARGS, pyapex_device_nfc_transact));
  ("nfc_poll", (METH_VARARGS, pyapex_device_nfc_poll));
  ("get_telemetry", (METH_NOARGS, pyapex_device_get_telemetry));
  ("get_status", (METH_NOARGS, pyapex_device_get_status));
  ("get_firmware_version", (METH_NOARGS, pyapex_device_get_firmware_version));
  ("mcu_reset", (METH_VARARGS, pyapex_device_mcu_reset));
  ("battery_percent", (METH_NOARGS, pyapex_device_battery_percent))]%string.

(** a METH_NOARGS function called with arguments is not entered *)
Definition enter (m : meth_flags * method) (c : pycall) (s : pst) : outcome * pst :=
  match m, c_args c with
  | (METH_NOARGS, _), _ :: _ => (Raise (ArgError TypeError), s)
  | (_, f), _ => f c s
  end.

Definition call_method (name : string) (c : pycall) (s : pst) : outcome * pst :=
  match List.find (fun m => String.eqb (fst m) name) pyapex_device_methods with
  | Some (_, m) => enter m c s
  | None => (Raise AttributeError, s)
  end.

(** The type has no tp_dealloc of its own: the object's memory is given back,
    its handle is not closed. *)
Definition PyApexDevice_dealloc (s : pst) : system := snd s.

(** *** Module functions; [obj] is whether PyObject_New succeeds *)

Definition pyapex_module_open (args : list pyobj) (obj mem : bool) (k : system)
    : (pyexc + apex_device) * system :=
  if (1 <? length args)%nat then (inl (ArgError TypeError), k) else
  match convert_opt Fs args with
  | inl e => (inl (ArgError e), k)
  | inr path =>
      if negb obj then (inl MemoryError, k) else
      let (h, k) := apex_open mem (default default_device path) k in
      match h with
      | None => (inl (IOError "Failed to open Apex device"), k)
      | Some d => (inr d, k)
      end
  end.

Definition pyapex_module_strerror (args : list pyobj) (ok : bool) : outcome :=
  if negb (length args =? 1)%nat then Raise (ArgError TypeError) else
  match convert_all [Fi] args with
  | inl e => Raise (ArgError e)
  | inr (error, _) => if ok then Ret (RStr (strerror_text error)) else Raise MemoryError
  end.

Definition pyapex_module_battery_percent (args : list pyobj) (ok : bool) : outcome :=
  if negb (length args =? 1)%nat then Raise (ArgError TypeError) else
  match convert_all [FH] args with
  | inl e => Raise (ArgError e)
  | inr (vbat_mv, _) => if ok then Ret (RInt (apex_battery_percent vbat_mv)) else Raise MemoryError
  end.
End Module_pyapex.

(** PyInit_pyapex: the constants of the module, if the type, the module and its
    last entry can be created *)
Definition pyapex_constants : list (string * Z) := [
  ("ANT_MIMO_TX", 0); ("ANT_MIMO_RX", 1); ("ANT_SUBGHZ", 2); ("ANT_TERMINATED", 3);
  ("OK", APEX_OK); ("ERR_INVALID_ARG", APEX_ERR_INVALID_ARG); ("ERR_NO_DEVICE", -2);
  ("ERR_OPEN_FAILED", -3); ("ERR_IOCTL_FAILED", APEX_ERR_IOCTL_FAILED);
  ("ERR_TIMEOUT", APEX_ERR_TIMEOUT); ("ERR_COMM", APEX_ERR_COMM); ("ERR_NOT_READY", -7);
  ("ERR_NOMEM", -8); ("CC1101_BAND_433", 0); ("CC1101_BAND_868", 1);
  ("CC1101_BAND_915", 2)]%string.

Definition PyInit_pyapex (type_ready created added : bool) : option (list (string * Z)) :=
  if type_ready && created && added then Some pyapex_constants else None.
