(* ===== verification/PyapexSafety.v ===== *)
(** * Programs that use the Python bindings

    What any sequence of calls of a device object does to the descriptor it
    holds and to the driver, and what a single call can end in.  A property of
    the methods is proved once, from three facts about the system calls
    ([call_invariant]), for every entry of the method table. *)

From S2P Require Import Prelude Frame Kernel ApexDev ApexBridge Libapex System Pyapex.
From stdpp Require Import strings.
Open Scope Z_scope.

(** ** Programs *)

Section Programs.
Context {A : IoctlAbi} {P : Posix} {Y : PyArg}.

(** What a Python program does with one object: calls, one after the other
    (the interpreter lock is held throughout a call), each of which may run
    further Python code while it converts its arguments.  [R] is what the rest
    of the system may do between calls. *)
Inductive py_reach (R : system -> system -> Prop) : pst -> pst -> Prop :=
| py_start s : py_reach R s s
| py_system s t k : py_reach R s t -> R (snd t) k -> py_reach R s (fst t, k)
| py_call s t name c : py_reach R s t -> py_reach R t (c_during c t) ->
    py_reach R s (snd (call_method name c t)).

(** An invariant of the object and the system: every entry of the method table
    keeps it, where the code the conversions run does. *)
Definition keeps_pst (I : pst -> Prop) (f : method) : Prop :=
  forall c s, I s -> I (c_during c s) -> I (snd (f c s)).

Lemma keeps_opened I f : keeps_pst I f -> keeps_pst I (opened f).
Proof. intros H c s Hs Hd. unfold opened. destruct (fst s); [by apply H|done]. Qed.

Lemma keeps_parsed I fs f :
  (forall v c s, I s -> I (snd (f v c s))) -> keeps_pst I (parsed fs f).
Proof.
  intros H c s Hs Hd. unfold parsed. destruct (negb _); [done|]. cbv zeta.
  destruct (convert_all fs (c_args c)); [done|]. by apply H.
Qed.

Lemma keeps_parsed_opt I u f :
  (forall v c s, I s -> I (snd (f v c s))) -> keeps_pst I (parsed_opt u f).
Proof.
  intros H c s Hs Hd. unfold parsed_opt. destruct (_ <? _)%nat; [done|]. cbv zeta.
  destruct (convert_opt u (c_args c)); [done|]. by apply H.
Qed.

(** what the methods ask of an invariant: that closing keeps it and that the
    functions of libapex, called as the methods call them, keep it *)
Record api_invariant (I : pst -> Prop) : Prop := {
  ai_close : forall d k, I (Some d, k) -> I (None, apex_close (Some d) k);
  ai_tune : forall h k f bw g, I (h, k) ->
    let r := apex_sdr_tune h f bw g k in I (dev_of r, sys_of r);
  ai_start : forall h k, I (h, k) ->
    let r := apex_sdr_stream_start h k in I (dev_of r, sys_of r);
  ai_stop : forall h k, I (h, k) ->
    let r := apex_sdr_stream_stop h k in I (dev_of r, sys_of r);
  ai_ant : forall h k a, I (h, k) -> let r := apex_ant_select h a k in I (dev_of r, sys_of r);
  ai_write : forall h k cfg l, length l = 64%nat -> I (h, k) ->
    let r := apex_cc1101_write_regs h (Some cfg) l k in I (dev_of r, sys_of r);
  ai_read : forall h k cfg, I (h, k) ->
    let r := apex_cc1101_read_regs h (Some cfg) k in I (dev_of r, sys_of r);
  ai_band : forall h k b, I (h, k) ->
    let r := apex_cc1101_set_band h b k in I (dev_of r, sys_of r);
  ai_nfc : forall h k txn l, length l = 256%nat -> I (h, k) ->
    let r := apex_nfc_transact h (Some txn) l k in I (dev_of r, sys_of r);
  ai_telem : forall h k l, length l = 16%nat -> I (h, k) ->
    let r := apex_get_telemetry h false l k in I (dev_of r, sys_of r);
  ai_status : forall h k, I (h, k) ->
    let r := apex_get_status h false k in I (dev_of r, sys_of r);
  ai_reset : forall h k b, I (h, k) -> let r := apex_mcu_reset h b k in I (dev_of r, sys_of r);
  ai_version : forall h k l, length l = 16%nat -> I (h, k) ->
    let r := apex_get_firmware_version h false 64 l k in I (dev_of r, sys_of r);
  ai_iq : forall h k n, 0 < n <= 65536 -> I (h, k) ->
    let r := apex_sdr_read_iq h false n k in I (dev_of r, sys_of r);
}.

Lemma nfc_poll_state h t l k :
  let r := apex_nfc_poll h t l k in
  let r' := apex_nfc_transact h (Some (zero_txn 3 (if 0 <? t then 1 else 0))) l k in
  (dev_of r, sys_of r) = (dev_of r', sys_of r').
Proof.
  unfold apex_nfc_poll, with_dev, dev_of, sys_of, refused. destruct h as [d|]; [|done].
  destruct (fd d <? 0) eqn:E; [unfold apex_nfc_transact, with_dev; by rewrite E|].
  destruct (apex_nfc_transact _ _ _ _) as [[[ret txn] h'] k']. cbn.
  destruct (negb _); [done|]. by destruct txn.
Qed.

Lemma methods_keep I : api_invariant I ->
  Forall (fun m => keeps_pst I (snd (snd m))) pyapex_device_methods.
Proof.
  intros W.
  assert (forall c s, I s -> I (snd (pyapex_device_close c s))) as Hclose.
  { intros c [[d|] k] H; [by apply (ai_close I W)|done]. }
  repeat (apply Forall_cons; split; [cbn [snd]|]); [..|apply Forall_nil; exact Logic.I].
  all: try (intros c s Hs _; by apply Hclose).
  all: apply keeps_opened.
  all: try (apply keeps_parsed; intros v c [h k] Hs; cbn [fst snd]).
  - destruct v as (f & bw & g & []). unfold apex_sdr_tune_float.
    assert (forall x, I (dev_of (apex_sdr_tune h f bw x k), sys_of (apex_sdr_tune h f bw x k))) as H
      by (intros x; by apply (ai_tune I W)).
    destruct (gain_x10 g); [apply H|]. cbv zeta. destruct h as [d|]; [|apply H].
    destruct (_ || _); [apply H|done].
  - intros c [h k] Hs _. by apply (ai_start I W).
  - intros c [h k] Hs _. by apply (ai_stop I W).
  - destruct v as (n & []). destruct (_ || _) eqn:En; [done|]. destruct (negb _); [done|].
    apply (ai_iq I W); [lia|done].
  - destruct v as (a & []). by apply (ai_ant I W).
  - destruct v as (a & data & []). cbv zeta. destruct (_ || _); [done|].
    apply (ai_write I W); [apply c_kcmd_length|done].
  - destruct v as (a & n & []). destruct (_ || _); [done|]. by apply (ai_read I W).
  - destruct v as (ch & []). apply (ai_write I W); [apply c_kcmd_length|done].
  - destruct v as (p & []). apply (ai_write I W); [apply c_kcmd_length|done].
  - destruct v as (b & []). by apply (ai_band I W).
  - destruct v as (cm & fl & data & []). cbv zeta. destruct (256 <? _); [done|].
    apply (ai_nfc I W); [apply c_ktxn_length|done].
  - apply keeps_parsed_opt. intros v c [h k] Hs. cbn [fst snd]. cbv zeta.
    rewrite nfc_poll_state. apply (ai_nfc I W); [apply c_ktxn_length|done].
  - intros c [h k] Hs _. apply (ai_telem I W); [apply c_ktelem_length|done].
  - intros c [h k] Hs _. by apply (ai_status I W).
  - intros c [h k] Hs _. apply (ai_version I W); [apply c_ktelem_length|done].
  - destruct v as (b & []). by apply (ai_reset I W).
  - intros c [h k] Hs _. apply (ai_telem I W); [apply c_ktelem_length|done].
Qed.

Lemma call_keeps I name : api_invariant I -> keeps_pst I (call_method name).
Proof.
  intros W c s Hs Hd. unfold call_method.
  destruct (List.find _ _) as [[nm [fl f]]|] eqn:E; [|done].
  apply List.find_some in E as [E _]. pose proof (methods_keep I W) as HI.
  rewrite List.Forall_forall in HI. specialize (HI _ E). cbn [snd] in HI.
  unfold enter. destruct fl, (c_args c); try (by apply HI). done.
Qed.

Lemma reach_keeps (R : system -> system -> Prop) I s t : api_invariant I ->
  (forall h k k', I (h, k) -> R k k' -> I (h, k')) ->
  py_reach R s t -> I s -> I t.
Proof.
  intros W HR. induction 1 as [|s t k _ IH Hk|s t name c _ IH _ IHd]; intros Hs; [done| |].
  - destruct t as [h k0]. cbn [fst snd] in *. apply (HR h k0 k); [by apply IH|done].
  - apply (call_keeps I name W); [by apply IH|by apply IHd, IH].
Qed.
(** *** From the system calls to the functions *)

(** An invariant that closing, every ioctl whose argument has the size of its
    number, and every bounded read keep, whatever becomes of last_error. *)
Record call_invariant (I : pst -> Prop) : Prop := {
  ci_close : forall d k, I (Some d, k) -> I (None, apex_close (Some d) k);
  ci_ioctl : forall d d' cmd arg k, fd d' = fd d -> IOC_SIZE cmd = Z.of_nat (length arg) ->
    I (Some d, k) -> I (Some d', snd (sys_ioctl (fd d) cmd arg k));
  ci_read : forall d d' n k, fd d' = fd d -> 1 <= n <= 65536 ->
    I (Some d, k) -> I (Some d', snd (sys_read (fd d) n k));
}.

Definition kept {X} (I : pst -> Prop) (r : result X) : Prop := I (dev_of r, sys_of r).

Lemma kept_refused {X} (I : pst -> Prop) ret h k : I (h, k) -> kept I (refused (X := X) ret h k).
Proof. done. Qed.

Lemma kept_with_dev {X} (I : pst -> Prop) h k (f : apex_device -> result X) :
  I (h, k) -> (forall d, h = Some d -> kept I (f d)) -> kept I (with_dev h k f).
Proof.
  intros Hs H. unfold with_dev. destruct h as [d|]; [|done].
  destruct (fd d <? 0); [done|by apply H].
Qed.

Lemma kept_ioctl {X} I d dir nr size arg k (ok : list Z -> Z * option X) :
  call_invariant I -> 0 <= dir < 4 -> 0 <= nr < 256 -> 0 <= size < 16384 ->
  size = Z.of_nat (length arg) -> I (Some d, k) ->
  kept I (do_ioctl d (IOC dir APEX_IOC_MAGIC nr size) arg k ok).
Proof.
  intros W H1 H2 H3 Hl Hs. destruct (ioc_fields dir nr size H1 H2 H3) as (_ & _ & _ & Hz).
  assert (forall d', fd d' = fd d ->
    I (Some d', snd (sys_ioctl (fd d) (IOC dir APEX_IOC_MAGIC nr size) arg k))) as H.
  { intros d' E. apply (ci_ioctl I W); [done|by rewrite Hz|done]. }
  unfold kept, do_ioctl, dev_of, sys_of.
  destruct (sys_ioctl _ _ _ _) as [[r arg'] k']. cbn [snd] in H.
  destruct (r <? 0); [|destruct (ok arg')]; by apply H.
Qed.

Lemma overwrite_take_length n (l stack : list Z) m :
  length stack = m -> (n <= m)%nat -> length (overwrite (take n l) stack) = m.
Proof. intros <- Hn. apply overwrite_length. rewrite length_take. lia. Qed.

Lemma kept_version I h k l : call_invariant I -> length l = 16%nat -> I (h, k) ->
  kept I (apex_get_firmware_version h false 64 l k).
Proof.
  intros W Hl Hs. apply kept_with_dev; [done|]. intros d ->. cbn [orb].
  change (64 =? 0) with false. change (64 <? 16) with false. cbv iota.
  destruct (ioc_fields IOC_READ 8 4) as (_ & _ & _ & Hz); [done..|].
  assert (forall d', fd d' = fd d ->
    I (Some d', snd (sys_ioctl (fd d) IOC_GET_STATUS [0; 0; 0; 0] k))) as H.
  { intros d' E. by apply (ci_ioctl I W). }
  destruct (sys_ioctl _ _ _ _) as [[r a] k']. cbn [snd] in H. destruct (r <? 0); [by apply H|].
  apply kept_ioctl; try done; [by rewrite Hl|by apply H].
Qed.

Lemma kept_iq I h k n : call_invariant I -> 0 < n <= 65536 -> I (h, k) ->
  kept I (apex_sdr_read_iq h false n k).
Proof.
  intros W Hn Hs. apply kept_with_dev; [done|]. intros d ->. cbn [orb].
  rewrite (proj2 (Z.eqb_neq n 0)) by lia.
  assert (forall d', fd d' = fd d -> I (Some d', snd (sys_read (fd d) n k))) as H.
  { intros d' E. apply (ci_read I W); [done|lia|done]. }
  destruct (sys_read _ _ _) as [[m l] k']. cbn [snd] in H. destruct (m <? 0); by apply H.
Qed.

(** the functions with one ioctl; [n] is the size of the buffer in its structure *)
Ltac solve_kept W n :=
  intros; cbv zeta; apply (kept_with_dev _); [assumption|]; intros ? ->;
  repeat match goal with |- kept _ (if ?b then _ else _) =>
    destruct b eqn:?; [by apply kept_refused|] end;
  apply (kept_ioctl _ _ _ _ _ _ _ _ W); try assumption; try done;
  rewrite ?length_app, ?(overwrite_take_length _ _ _ n);
  try assumption; try (unfold bad_cc1101 in *; lia); try (by f_equal).

Lemma api_from_calls I : call_invariant I -> api_invariant I.
Proof.
  intros W. constructor.
  - apply (ci_close I W).
  - unfold apex_sdr_tune, IOC_SDR_TUNE. solve_kept W 64%nat.
  - unfold apex_sdr_stream_start, IOC_SDR_STREAM. solve_kept W 64%nat.
  - unfold apex_sdr_stream_stop, IOC_SDR_STREAM. solve_kept W 64%nat.
  - unfold apex_ant_select, IOC_ANT_SELECT. solve_kept W 64%nat.
  - unfold apex_cc1101_write_regs, IOC_CC1101_CFG. solve_kept W 64%nat.
  - unfold apex_cc1101_read_regs, IOC_CC1101_CFG. solve_kept W 64%nat.
  - unfold apex_cc1101_set_band, IOC_CC1101_CFG. solve_kept W 64%nat.
  - unfold apex_nfc_transact, IOC_NFC_TRANSACT. solve_kept W 256%nat.
  - unfold apex_get_telemetry, IOC_GET_TELEMETRY. solve_kept W 64%nat.
  - unfold apex_get_status, IOC_GET_STATUS. solve_kept W 64%nat.
  - unfold apex_mcu_reset, IOC_MCU_RESET. solve_kept W 64%nat.
  - intros h k l Hl Hs. by apply kept_version.
  - intros h k n Hn Hs. by apply kept_iq.
Qed.
End Programs.

(** ** Use of the descriptor *)

(** the system calls made on the device file *)
Inductive sysev :=
| EvOpen (f : Z) | EvClose (f : Z)
| EvIoctl (f cmd : Z) (arg : nat)           (* [arg] bytes behind the pointer *)
| EvRead (f n : Z).                         (* [n] bytes of buffer *)

(** any system, recording its calls *)
Definition traced (P : Posix) : Posix := {|
  system := list sysev * system;
  sys_open := fun k => let (f, k') := sys_open (snd k) in (f, (fst k ++ [EvOpen f], k'));
  sys_close := fun f k => (fst k ++ [EvClose f], sys_close f (snd k));
  sys_ioctl := fun f cmd arg k =>
    let '(r, arg', k') := sys_ioctl f cmd arg (snd k) in
    (r, arg', (fst k ++ [EvIoctl f cmd (length arg)], k'));
  sys_read := fun f n k =>
    let '(r, l, k') := sys_read f n (snd k) in (r, l, (fst k ++ [EvRead f n], k'));
  sys_ioctl_length := fun f cmd arg k =>
    match sys_ioctl f cmd arg (snd k) as x return
      length (snd (fst x)) = length arg ->
      length (snd (fst (let '(r, arg', k') := x in
                        (r, arg', (fst k ++ [EvIoctl f cmd (length arg)], k'))))) = length arg
    with (r, arg', k') => fun H => H end (sys_ioctl_length f cmd arg (snd k)) |}.

Section Discipline.
Context {A : IoctlAbi} (P : Posix) {Y : PyArg}.
#[local] Instance traced_inst : Posix := traced P.

(** a use of the open descriptor [f]: an ioctl whose argument is as long as its
    number says, or a read into a buffer of that size *)
Definition use_ok (f : Z) (ev : sysev) : Prop :=
  match ev with
  | EvIoctl g cmd n => g = f /\ IOC_SIZE cmd = Z.of_nat n
  | EvRead g n => g = f /\ 1 <= n <= 65536
  | _ => False
  end.

Definition disciplined (f : Z) (s : option apex_device * (list sysev * @system P)) : Prop :=
  exists uses, Forall (use_ok f) uses /\
    fst (snd s) = EvOpen f :: uses ++ match fst s with None => [EvClose f] | Some _ => [] end /\
    match fst s with None => True | Some d => fd d = f end.

(** one more use *)
Lemma disciplined_use f d d' k k' ev : fd d' = fd d -> use_ok (fd d) ev ->
  fst k' = fst k ++ [ev] -> disciplined f (Some d, k) -> disciplined f (Some d', k').
Proof.
  intros Ed Hev Et (uses & Hu & E & Ef). cbn [fst snd] in *. subst f.
  exists (uses ++ [ev]). cbn [fst snd]. split; [apply Forall_app; split; [done|by apply Forall_singleton]|].
  rewrite Et, E, !app_nil_r. by split.
Qed.

Lemma disciplined_calls f : 0 <= f -> call_invariant (disciplined f).
Proof.
  intros Hf. constructor.
  - intros d k (uses & Hu & E & Ef). cbn [fst snd] in *. exists uses.
    cbn [fst snd apex_close]. rewrite Ef, (proj2 (Z.leb_le _ _) Hf). cbn.
    rewrite E, app_nil_r. by split_and!.
  - intros d d' cmd arg k Ed Hz. apply (disciplined_use f d d' k _ (EvIoctl (fd d) cmd (length arg)));
      [done|done|]. cbn [sys_ioctl traced_inst traced]. by destruct (sys_ioctl _ _ _ _) as [[? ?] ?].
  - intros d d' n k Ed Hn. apply (disciplined_use f d d' k _ (EvRead (fd d) n)); [done|done|].
    cbn [sys_read traced_inst traced]. by destruct (sys_read _ _ _) as [[? ?] ?].
Qed.
End Discipline.

Lemma open_inv {A : IoctlAbi} {P : Posix} {Y : PyArg} args obj mem k d k' :
  pyapex_module_open args obj mem k = (inr d, k') ->
  0 <= fd d /\ sys_open k = (fd d, k').
Proof.
  unfold pyapex_module_open, apex_open. destruct (1 <? _)%nat; [done|].
  destruct (convert_opt Fs args); [done|]. destruct obj; [|done]. destruct mem; [|done].
  cbn [negb]. destruct (sys_open k) as [f k1]. destruct (Z.ltb_spec f 0); [done|].
  intros [= <- <-]. cbn [fd]. split; [lia|done].
Qed.

(** the device that a plain open() makes *)
Definition opened_dev (f : Z) : apex_device :=
  {| fd := f; last_error := APEX_OK; device_path := default_device ++ replicate 47 0 |}.

Lemma open_default {A : IoctlAbi} {P : Posix} {Y : PyArg} k f k' :
  sys_open k = (f, k') -> 0 <= f -> pyapex_module_open [] true true k = (inr (opened_dev f), k').
Proof.
  intros E Hf. unfold pyapex_module_open, apex_open. cbn [length Nat.ltb Nat.leb convert_opt negb].
  rewrite E. by rewrite (proj2 (Z.ltb_ge f 0) Hf).
Qed.

Lemma driver_open {K : Kfifo} {A : IoctlAbi} e d :
  sys_open (Posix := driver_posix e) d =
    (if open_count d =? 0 then 3 else -1, snd (apex_bridge_open 0 d)).
Proof. cbn [sys_open driver_posix]. unfold apex_bridge_open. by destruct (open_count d =? 0). Qed.

(** C26: The descriptor a device object holds is used correctly by every program.
    On any operating system, and whatever else happens in it between calls:
    after a successful open, any sequence of method calls, with any arguments,
    including calls a conversion makes back into the object while another call
    is parsing its arguments, makes exactly one open, then only ioctls on that
    descriptor with a buffer of the size the command number states and reads of
    1 to 65536 bytes into a buffer of that size, and, if the object was closed,
    one close and nothing after it: no use after close, no second close. *)
Theorem python_handle_discipline {A : IoctlAbi} (P : Posix) {Y : PyArg}
  (R : list sysev * @system P -> list sysev * @system P -> Prop)
  (args : list pyobj) (obj mem : bool) (k0 : @system P) (d : apex_device)
  (k1 : list sysev * @system P) (t : option apex_device * (list sysev * @system P))
  (HR : forall a b, R a b -> fst a = fst b)
  (Ho : pyapex_module_open (P := traced P) args obj mem ([], k0) = (inr d, k1))
  (Hr : py_reach (P := traced P) R (Some d, k1) t) :
  exists uses, Forall (use_ok (fd d)) uses /\
    fst (snd t) = EvOpen (fd d) :: uses ++
      match fst t with None => [EvClose (fd d)] | Some _ => [] end.
Proof.
  apply (open_inv (P := traced P)) in Ho as [Hf Ho].
  enough (disciplined P (fd d) t) as (uses & Hu & E & _) by by exists uses.
  apply (reach_keeps (P := traced P) R (disciplined P (fd d)) (Some d, k1));
    [by apply api_from_calls, disciplined_calls| |exact Hr|].
  - intros h a b (uses & Hu & E & Ef) H. exists uses. cbn [fst snd] in *. by rewrite <- (HR a b H).
  - exists []. cbn [fst snd]. cbn [sys_open traced] in Ho. destruct (sys_open (snd ([], k0))).
    injection Ho as -> <-. by split_and!.
Qed.

(** a call with these arguments, none of which runs code *)
Definition plain_call {P : Posix} {Y : PyArg} (args : list pyobj) : pycall := {|
  c_args := args; c_during := id; c_malloc := true; c_new := true;
  c_cfg := replicate 64 0; c_kcmd := replicate 64 0; c_ktxn := replicate 256 0;
  c_ktelem := replicate 16 0; c_heap := fun n => replicate n 0;
  c_cfg_length := length_replicate _ _; c_kcmd_length := length_replicate _ _;
  c_ktxn_length := length_replicate _ _; c_ktelem_length := length_replicate _ _;
  c_heap_length := fun n => length_replicate n 0 |}.

Definition during {P : Posix} {Y : PyArg} (g : pst -> pst) (c : pycall) : pycall := {|
  c_args := c_args c; c_during := g; c_malloc := c_malloc c; c_new := c_new c;
  c_cfg := c_cfg c; c_kcmd := c_kcmd c; c_ktxn := c_ktxn c; c_ktelem := c_ktelem c;
  c_heap := c_heap c; c_cfg_length := c_cfg_length c; c_kcmd_length := c_kcmd_length c;
  c_ktxn_length := c_ktxn_length c; c_ktelem_length := c_ktelem_length c;
  c_heap_length := c_heap_length c |}.

(** The argument of mcu_reset closes the device while it is being converted:
    the call that goes on finds no handle, and nothing follows the close. *)
Section Reentrant.
#[local] Hint Extern 0 Posix => exact (traced (driver_posix ok_env)) : typeclass_instances.

Definition close_call (s : pst) : pst := snd (call_method "close" (plain_call []) s).
Definition demo_opened : list sysev * bridge :=
  ([EvOpen 3], snd (apex_bridge_open 0 (ApexBridge.apex_bridge_probe 1000000))).
Definition demo_start : pst := (Some (opened_dev 3), demo_opened).
Definition demo_used : pst := snd (call_method "get_status" (plain_call []) demo_start).
Definition demo_end : pst :=
  snd (call_method "mcu_reset" (during close_call (plain_call [BBool true])) demo_used).

Lemma demo_reach R : py_reach R demo_start demo_end.
Proof.
  apply py_call; [|by apply (py_call R _ _ "close" (plain_call [])); [apply py_start|apply py_start]].
  apply py_call; apply py_start.
Qed.

Lemma python_handle_discipline_witness :
  fst (snd demo_end) = [EvOpen 3; EvIoctl 3 (IOC IOC_READ APEX_IOC_MAGIC 8 4) 4; EvClose 3] /\
  exists uses, Forall (use_ok 3) uses /\
    fst (snd demo_end) = EvOpen 3 :: uses ++ [EvClose 3].
Proof.
  split; [vm_compute; reflexivity|].
  assert (HR : forall a b : list sysev * bridge, a = b -> fst a = fst b) by (by intros a b ->).
  assert (Ho : pyapex_module_open [] true true ([], ApexBridge.apex_bridge_probe 1000000) =
    (inr (opened_dev 3), demo_opened)).
  { apply (open_default (P := traced (driver_posix ok_env)) _ 3); [|lia]. cbn [sys_open traced fst snd]. by rewrite driver_open. }
  destruct (python_handle_discipline (driver_posix ok_env) eq [] true true
    (ApexBridge.apex_bridge_probe 1000000) (opened_dev 3) demo_opened demo_end HR Ho (demo_reach eq))
    as (uses & Hu & E).
  exists uses. split; [exact Hu|]. etransitivity; [exact E|]. vm_compute. reflexivity.
Defined.
End Reentrant.

(** ** One object at a time *)

Section OnDriver.
Context {K : Kfifo} {A : IoctlAbi} {Y : PyArg} (e : env).
#[local] Hint Extern 0 Posix => exact (driver_posix e) : typeclass_instances.

(** between calls the interrupt's work item may run *)
Definition rx_work (d d' : bridge) : Prop := exists e', d' = apex_rx_work_handler e' d.

(** the driver is open exactly while the object holds a handle *)
Definition owns (f : Z) (s : option apex_device * bridge) : Prop :=
  open_count (snd s) = match fst s with Some _ => 1 | None => 0 end /\
  match fst s with Some d => fd d = f | None => True end.

Lemma owns_kept f (dv dv' : apex_device) (d d' : bridge) :
  fd dv' = fd dv -> keeps 0 d d' -> owns f (Some dv, d) -> owns f (Some dv', d').
Proof. intros Ed Hk [Ho Ef]. split; cbn [fst snd] in *; [by rewrite (kp_open _ _ _ Hk)|congruence]. Qed.

Lemma owns_calls f : 0 <= f -> call_invariant (owns f).
Proof.
  intros Hf. constructor.
  - intros dv d [Ho Ef]. cbn [fst snd] in *. split; [|done]. cbn [fst snd apex_close].
    rewrite Ef, (proj2 (Z.leb_le _ _) Hf). done.
  - intros dv dv' cmd arg d Ed _. apply owns_kept; [done|]. cbn [sys_ioctl driver_posix].
    unfold driver_ioctl. pose proof (keeps_ioctl e cmd true arg d) as H.
    by destruct (apex_bridge_ioctl e cmd true arg d) as [[r out] d'].
  - intros dv dv' n d Ed _. apply owns_kept; [done|]. cbn [sys_read driver_posix].
    unfold driver_read. pose proof (keeps_read e false true (Z.to_nat n) (Z.to_nat n) d) as H.
    by destruct (apex_bridge_read _ _ _ _ _ _) as [[[r l]|] d'].
Qed.
End OnDriver.

(** On the driver a device object is the only user of the board, and gives
    it back only by close().  After open() has succeeded, whatever methods the
    program calls and whatever interrupts arrive: if the object still has its
    handle, every further open() raises IOError and changes nothing, also when
    the object has been garbage collected, which does not close the handle; if
    the object was closed, open() succeeds again. *)
Theorem python_object_owns_device {K : Kfifo} {A : IoctlAbi} {Y : PyArg} (e : env)
  (args : list pyobj) (obj mem : bool) (d0 d1 : bridge) (dv : apex_device)
  (t : option apex_device * bridge)
  (Ho : pyapex_module_open (P := driver_posix e) args obj mem d0 = (inr dv, d1))
  (Hr : py_reach (P := driver_posix e) rx_work (Some dv, d1) t) :
  match fst t with
  | Some _ =>
      pyapex_module_open (P := driver_posix e) [] true true
        (PyApexDevice_dealloc (P := driver_posix e) t) =
        (inl (IOError "Failed to open Apex device"), snd t)
  | None =>
      exists d2, pyapex_module_open (P := driver_posix e) [] true true (snd t) =
        (inr (opened_dev 3), d2)
  end.
Proof.
  apply (open_inv (P := driver_posix e)) in Ho as [Hf Ho]. rewrite driver_open in Ho.
  destruct (Z.eqb_spec (open_count d0) 0) as [E0|]; [|injection Ho; lia].
  assert (owns (fd dv) t) as [Hc _].
  { apply (reach_keeps (P := driver_posix e) rx_work (owns (fd dv)) (Some dv, d1));
      [by apply api_from_calls, (owns_calls e)| |exact Hr|].
    - intros h d d' [H1 H2] [e' ->]. split; cbn [fst snd] in *; [|done].
      by rewrite (kp_open _ _ _ (keeps_rx_work e' d)).
    - split; [|done]. cbn [fst snd]. injection Ho as _ <-. unfold apex_bridge_open.
      by rewrite E0. }
  destruct t as [[dv'|] d]; cbn [fst snd] in *; [|eexists].
  - unfold PyApexDevice_dealloc, pyapex_module_open, apex_open. cbn [length Nat.ltb Nat.leb convert_opt negb fst snd].
    pose proof (driver_open e d) as E. rewrite Hc in E. unfold apex_bridge_open in E.
    rewrite Hc in E. cbn [Z.eqb Pos.eqb negb snd] in E. by rewrite E.
  - apply (open_default (P := driver_posix e)); [|done]. rewrite driver_open, Hc. done.
Qed.

Section OwnsWitness.
#[local] Hint Extern 0 Posix => exact (driver_posix ok_env) : typeclass_instances.
Definition board : bridge := ApexBridge.apex_bridge_probe 1000000.
Definition board_opened : bridge := snd (apex_bridge_open 0 board).
Definition held : option apex_device * bridge :=
  snd (call_method "get_status" (plain_call []) (Some (opened_dev 3), board_opened)).
Definition given_back : option apex_device * bridge := snd (call_method "close" (plain_call []) held).

Lemma board_open : pyapex_module_open [] true true board = (inr (opened_dev 3), board_opened).
Proof. apply (open_default (P := driver_posix ok_env)); [by rewrite driver_open|lia]. Qed.

Lemma python_object_owns_device_witness :
  pyapex_module_open [] true true (PyApexDevice_dealloc held) =
    (inl (IOError "Failed to open Apex device"), snd held) /\
  exists d2, pyapex_module_open [] true true (snd given_back) = (inr (opened_dev 3), d2).
Proof.
  assert (H1 : py_reach rx_work (Some (opened_dev 3), board_opened) held)
    by (apply py_call; apply py_start).
  assert (H2 : py_reach rx_work (Some (opened_dev 3), board_opened) given_back)
    by (apply py_call; [exact H1|apply py_start]).
  pose proof (python_object_owns_device ok_env [] true true board board_opened (opened_dev 3)
    held board_open H1) as E1.
  pose proof (python_object_owns_device ok_env [] true true board board_opened (opened_dev 3)
    given_back board_open H2) as E2.
  split; [exact E1|exact E2].
Defined.
End OwnsWitness.

(** ** What a call can end in *)

Section Outcomes.
Context {A : IoctlAbi} {P : Posix} {Y : PyArg}.

(** a function that says APEX_OK has stored its result *)
Definition reports {X} (r : result X) : Prop := ret_of r = APEX_OK -> is_Some (out_of r).

Lemma reports_refused {X} ret h k : ret <> APEX_OK -> reports (refused (X := X) ret h k).
Proof. by intros H E. Qed.

Lemma reports_with_dev {X} h k (f : apex_device -> result X) :
  (forall d, reports (f d)) -> reports (with_dev h k f).
Proof.
  intros H. unfold with_dev. destruct h as [d|]; [|by apply reports_refused].
  destruct (fd d <? 0); [by apply reports_refused|apply H].
Qed.

Lemma reports_ioctl {X} d cmd arg k (ok : list Z -> Z * option X) :
  (forall l, is_Some (snd (ok l))) -> reports (do_ioctl d cmd arg k ok).
Proof.
  intros H. unfold reports, do_ioctl. destruct (sys_ioctl _ _ _ _) as [[r arg'] k'].
  destruct (r <? 0); [done|]. specialize (H arg'). by destruct (ok arg').
Qed.

Ltac solve_reports :=
  apply reports_with_dev; intros ?;
  repeat match goal with |- reports (if ?b then _ else _) =>
    destruct b; [by apply reports_refused|] end;
  apply reports_ioctl; by eexists.

Lemma reports_read h cfg k : reports (apex_cc1101_read_regs h (Some cfg) k).
Proof. solve_reports. Qed.
Lemma reports_nfc h txn l k : reports (apex_nfc_transact h (Some txn) l k).
Proof. solve_reports. Qed.
Lemma reports_telemetry h l k : reports (apex_get_telemetry h false l k).
Proof. solve_reports. Qed.
Lemma reports_status h k : reports (apex_get_status h false k).
Proof. solve_reports. Qed.
Lemma reports_version h l k : reports (apex_get_firmware_version h false 64 l k).
Proof.
  apply reports_with_dev. intros d. cbn [orb]. change (64 =? 0) with false.
  destruct (sys_ioctl _ _ _ _) as [[r a] k']. destruct (r <? 0); [done|].
  change (64 <? 16) with false. apply reports_ioctl. by eexists.
Qed.
Lemma reports_iq h n k : reports (apex_sdr_read_iq h false n k).
Proof.
  apply reports_with_dev. intros d. destruct (_ || _); [by apply reports_refused|].
  destruct (sys_read _ _ _) as [[m l] k']. destruct (m <? 0); [done|]. by eexists.
Qed.

(** a result, or no memory for one *)
Definition fine (o : outcome) : Prop :=
  match o with Ret _ | Raise MemoryError => True | _ => False end.

(** [s] is the state before the call, [s1] after the conversions *)
Definition settled (name : string) (s s1 : pst) (r : outcome * pst) : Prop :=
  match fst r with
  | Ret _ | Raise (IOError _) | Raise MemoryError => True
  | Raise _ => snd r = s \/ snd r = s1
  | Undefined => name = "sdr_tune"%string /\ snd r = s1
  end.

Definition settles (name : string) (f : method) : Prop :=
  forall c s, settled name s (c_during c s) (f c s).

Lemma settled_io {X} name s s1 (r : result X) ok :
  (ret_of r = APEX_OK -> fine (ok (out_of r))) -> settled name s s1 (io r ok).
Proof.
  intros H. unfold settled, io. cbn [fst]. destruct (Z.eqb_spec (ret_of r) APEX_OK) as [E|]; [|done].
  specialize (H E). by destruct (ok (out_of r)) as [v|[]|].
Qed.

Lemma settled_none {X} name s s1 (r : result X) : settled name s s1 (io r none).
Proof. by apply settled_io. Qed.

Lemma settled_use {X} name s s1 (r : result X) f :
  reports r -> (forall x, fine (f x)) -> settled name s s1 (io r (use f)).
Proof. intros Hr Hf. apply settled_io. intros E. destruct (Hr E) as [x ->]. apply Hf. Qed.

Lemma fine_new c v : fine (new c v).
Proof. unfold new. by destruct (c_new c). Qed.

Lemma settles_opened name f : settles name f -> settles name (opened f).
Proof. intros H c s. unfold opened. destruct (fst s); [apply H|by left]. Qed.

Lemma settles_parsed name fs f :
  (forall v c s s0, settled name s0 s (f v c s)) -> settles name (parsed fs f).
Proof.
  intros H c s. unfold parsed. destruct (negb _); [by left|]. cbv zeta.
  destruct (convert_all fs (c_args c)); [by right|apply H].
Qed.

Lemma methods_settle : Forall (fun m => settles (fst m) (snd (snd m))) pyapex_device_methods.
Proof.
  repeat (apply Forall_cons; split; [cbn [fst snd]|]); [..|by apply Forall_nil].
  all: try (apply settles_opened; apply settles_parsed; intros v c [h k] s0; cbn [fst snd]).
  - intros c [[d|] k]; done.
  - destruct v as (f & bw & g & []).
    destruct (apex_sdr_tune_float _ _ _ _ _); [apply settled_none|done].
  - apply settles_opened. intros c s. apply settled_none.
  - apply settles_opened. intros c s. apply settled_none.
  - destruct v as (n & []). destruct (_ || _); [by right|]. destruct (negb _); [done|].
    apply settled_use; [apply reports_iq|]. intros [l m]. apply fine_new.
  - destruct v as (a & []). apply settled_none.
  - destruct v as (a & data & []). cbv zeta. destruct (_ || _); [by right|apply settled_none].
  - destruct v as (a & n & []). destruct (_ || _); [by right|].
    apply settled_use; [apply reports_read|]. intros l. apply fine_new.
  - destruct v as (ch & []). apply settled_none.
  - destruct v as (p & []). apply settled_none.
  - destruct v as (b & []). apply settled_none.
  - destruct v as (cm & fl & data & []). cbv zeta. destruct (256 <? _); [by right|].
    apply settled_use; [apply reports_nfc|]. intros txn. destruct (0 <? _); [apply fine_new|done].
  - apply settles_opened. intros c s. unfold parsed_opt. destruct (_ <? _)%nat; [by left|].
    cbv zeta. destruct (convert_opt _ _); [by right|]. unfold settled. cbn [fst].
    destruct (_ =? APEX_OK); [done|]. by destruct (_ =? APEX_ERR_TIMEOUT).
  - apply settles_opened. intros c s. apply settled_use; [apply reports_telemetry|].
    intros t. apply fine_new.
  - apply settles_opened. intros c s. apply settled_use; [apply reports_status|].
    intros t. apply fine_new.
  - apply settles_opened. intros c s. apply settled_use; [apply reports_version|].
    intros t. apply fine_new.
  - destruct v as (b & []). apply settled_none.
  - apply settles_opened. intros c s. unfold settled. cbn [fst].
    destruct (Z.eqb_spec (ret_of (apex_get_telemetry (fst s) false (c_ktelem c) (snd s))) APEX_OK)
      as [E|]; [|done].
    destruct (reports_telemetry _ _ _ E) as [t ->]. cbn [use]. unfold new. by destruct (c_new c).
Qed.

(** every method but close() starts with the test of the handle *)
Lemma methods_need_handle : Forall (fun m => fst m = "close"%string \/
  forall c k, exists e, snd (snd m) c (None, k) = (Raise e, (None, k))) pyapex_device_methods.
Proof.
  repeat (apply Forall_cons; split; [|]); [..|by apply Forall_nil].
  all: first [by left|right; intros c k; by eexists].
Qed.
End Outcomes.

(** What a call of a method can do, on any system and with any arguments.  It
    returns a value or raises; only an IOError from the library or a
    MemoryError can leave the system changed: a wrong number or type of
    arguments, a value out of range, an unknown method or a closed object make
    no system call at all.  On a closed object every method but close() raises.
    No method reads a structure the library left unwritten; the one operation C
    leaves undefined is the conversion of an out-of-range gain in sdr_tune. *)
Theorem python_call_outcomes {A : IoctlAbi} {P : Posix} {Y : PyArg}
  (name : string) (c : pycall) (s : pst) :
  settled name s (c_during c s) (call_method name c s) /\
  (fst s = None -> name <> "close"%string ->
   exists e, call_method name c s = (Raise e, s)).
Proof.
  unfold call_method. destruct (List.find _ _) as [[nm [fl f]]|] eqn:E.
  2: { split; [by left|]. intros _ _. by eexists. }
  apply List.find_some in E as [Hin En]. cbn [fst] in En. apply String.eqb_eq in En. subst nm.
  pose proof methods_settle as H1. pose proof methods_need_handle as H2.
  rewrite List.Forall_forall in H1, H2. specialize (H1 _ Hin). specialize (H2 _ Hin).
  cbn [fst snd] in *. unfold enter. split.
  - destruct fl, (c_args c); try apply H1. by left.
  - intros Hs Hn. destruct s as [h k]. cbn [fst] in Hs. subst h.
    destruct H2 as [|H2]; [done|]. destruct fl, (c_args c); try apply H2. by eexists.
Qed.

Lemma python_call_outcomes_witness :
  let call := plain_call (P := driver_posix ok_env) (Y := builtin_arg) [BInt 300; BBytes (replicate 65 0)] in
  exists e, call_method (P := driver_posix ok_env) "cc1101_write" call (None, board) =
    (Raise e, (None, board)).
Proof.
  cbv zeta. destruct (python_call_outcomes (P := driver_posix ok_env) "cc1101_write"
    (plain_call (P := driver_posix ok_env) (Y := builtin_arg) [BInt 300; BBytes (replicate 65 0)]) (None, board))
    as [_ H].
  apply H; [reflexivity|discriminate].
Defined.
