(* ===== verification/PyapexSystem.v ===== *)
(** * The Python bindings over the whole system

    The methods of a device object on the driver of ApexBridge.v, and through it
    on the firmware: telemetry, IQ data and tuning, from end to end. *)

From S2P Require Import Prelude Crc Frame Kernel ApexDev ApexBridge Libapex.
From S2P Require Import SpiProtocol SpiTx SpiTypes System Pyapex PyapexSafety.
From Stdlib Require Import SpecFloat.
From stdpp Require Import strings pretty.
Open Scope Z_scope.

#[local] Opaque apex_crc64 apex_crc32 mcu_crc64 mcu_crc32.

(** ** Telemetry *)

Section Telemetry.
Context {K : Kfifo} {A : IoctlAbi} {Y : PyArg}.

(** the three numbers of the version are the telemetry flags *)
Lemma version_of_flags mcu : device_typed mcu ->
  version_of (telemetry_payload mcu) = (0, telem_flags mcu / 16, telem_flags mcu mod 16).
Proof.
  intros Hm. unfold version_of.
  change (read_le16 (drop 10 (telemetry_payload mcu))) with
    (t_flags (telemetry_of (telemetry_payload mcu))).
  rewrite telemetry_roundtrip by done. cbn [reported t_flags]. unfold telem_flags, flag_if.
  destruct (sdr_rx_enabled mcu), (sdr_tx_enabled mcu), (cc1101_rx_active mcu),
    (cc1101_tx_active mcu), (nfc_active mcu), (nfc_tag_present mcu), (brownout_active mcu);
    reflexivity.
Qed.

Lemma get_version_cached (e : env) dv (d : bridge) mcu stack :
  0 <= fd dv -> device_typed mcu -> length stack = 16%nat ->
  is_Some (kmalloc e 0 4112) -> is_Some (kmalloc e 1 4112) ->
  last_telem d = telemetry_payload mcu ->
  apex_get_firmware_version (P := driver_posix e) (Some dv) false 64 stack d =
    (APEX_OK, Some (0, telem_flags mcu / 16, telem_flags mcu mod 16),
     Some (dv <| last_error := APEX_OK |>), d).
Proof.
  intros Hfd Hmcu Hs H0 H1 El.
  unfold apex_get_firmware_version, with_dev. rewrite (proj2 (Z.ltb_ge _ _) Hfd).
  cbn [orb]. change (64 =? 0) with false. change (64 <? 16) with false. cbv iota.
  unfold do_ioctl. simpl sys_ioctl. rewrite status_ioctl by done.
  change (0 <? 0) with false. cbv iota.
  rewrite telemetry_ioctl by (done || by rewrite El, telemetry_payload_length).
  change (0 <? 0) with false. cbv iota. by rewrite El, version_of_flags.
Qed.
End Telemetry.

(** From the firmware to a Python program.  When the bus answers the
    driver's poll with the firmware's telemetry frame, get_telemetry() then
    returns the dictionary of exactly the values the firmware has cached, with
    their signs, battery_percent() the charge of the cached battery voltage, and
    the driver is unchanged.  But get_firmware_version() returns no version: its
    three numbers are 0 and the two halves of the status flags, so the
    "version" changes whenever a radio is switched on or off. *)
Theorem python_telemetry_end_to_end {K : Kfifo} {A : IoctlAbi} {Y : PyArg} (e : env)
  (dv : apex_device) (d : bridge) (mcu : device) (rest : list Z)
  (c : pycall (P := driver_posix e))
  (Hargs : c_args (P := driver_posix e) c = []) (Hnew : c_new (P := driver_posix e) c = true)
  (Hfd : 0 <= fd dv) (Hmcu : device_typed mcu)
  (Hf : is_Some (kmalloc e 0 4112)) (Hr : is_Some (kmalloc e 1 4112))
  (Hbus : forall tx, length tx = 4112%nat -> 0 <= fst (spi_sync e tx) /\
     snd (spi_sync e tx) =
       encode_frame (crc:=mcu_frame_crc) CMD_TELEMETRY (telemetry_payload mcu) ++ rest) :
  let d' := apex_rx_work_handler e d in
  let dv' := dv <| last_error := APEX_OK |> in
  let call name := call_method (P := driver_posix e) name c (Some dv, d') in
  call "get_telemetry"%string =
    (Ret (RDict
      [("rssi_dbm_x10", DInt (last_rssi_dbm_x10 mcu)); ("temp_c_x10", DInt (last_temp_c_x10 mcu));
       ("vbat_mv", DInt (last_vbat_mv mcu)); ("cc1101_rssi_x10", DInt (last_cc_rssi_x10 mcu));
       ("nfc_field_mv", DInt (last_nfc_field_mv mcu)); ("flags", DInt (telem_flags mcu));
       ("uptime_ms", DInt (SpiProtocol.uptime_ms mcu))]%string),
     (Some dv', d')) /\
  call "battery_percent"%string =
    (Ret (RInt (apex_battery_percent (last_vbat_mv mcu))), (Some dv', d')) /\
  call "get_firmware_version"%string =
    (Ret (RStr ("GhostBlade v0." +:+ pretty (Z.to_N (telem_flags mcu / 16)) +:+ "." +:+
       pretty (Z.to_N (telem_flags mcu mod 16)))%string), (Some dv', d')).
Proof.
  cbv zeta. destruct (rx_work_caches e d mcu rest Hf Hr Hbus) as [El _].
  unfold call_method.
  cbn -[apex_get_telemetry apex_get_firmware_version apex_rx_work_handler version_string].
  rewrite Hargs. unfold pyapex_device_get_telemetry, pyapex_device_battery_percent,
    pyapex_device_get_firmware_version, opened, io. cbn [fst snd].
  rewrite !(get_telemetry_cached e dv _ mcu) by (done || apply c_ktelem_length).
  rewrite !(get_version_cached e dv _ mcu) by (done || apply c_ktelem_length).
  unfold ret_of, out_of, dev_of, sys_of, use, new. cbn [fst snd]. by rewrite Hnew.
Qed.

Lemma python_telemetry_end_to_end_witness :
  fst (call_method (P := driver_posix telemetry_env) "get_telemetry"
    (plain_call []) (Some handle, apex_rx_work_handler telemetry_env board)) =
    Ret (RDict
      [("rssi_dbm_x10", DInt (last_rssi_dbm_x10 demo_mcu)); ("temp_c_x10", DInt (last_temp_c_x10 demo_mcu));
       ("vbat_mv", DInt (last_vbat_mv demo_mcu)); ("cc1101_rssi_x10", DInt (last_cc_rssi_x10 demo_mcu));
       ("nfc_field_mv", DInt (last_nfc_field_mv demo_mcu)); ("flags", DInt (telem_flags demo_mcu));
       ("uptime_ms", DInt (SpiProtocol.uptime_ms demo_mcu))]%string) /\
  fst (call_method (P := driver_posix telemetry_env) "get_firmware_version"
    (plain_call []) (Some handle, apex_rx_work_handler telemetry_env board)) =
    Ret (RStr "GhostBlade v0.0.1").
Proof.
  assert (Hfd : 0 <= fd handle) by (unfold handle; simpl; lia).
  assert (Hm : device_typed demo_mcu) by (unfold device_typed; simpl; lia).
  assert (Hf : is_Some (kmalloc telemetry_env 0 4112)) by (eexists; reflexivity).
  assert (Hr : is_Some (kmalloc telemetry_env 1 4112)) by (eexists; reflexivity).
  pose proof telemetry_env_answers as Hbus.
  destruct (python_telemetry_end_to_end telemetry_env handle board demo_mcu
    (replicate 4076 0) (plain_call (P := driver_posix telemetry_env) []) eq_refl eq_refl
    Hfd Hm Hf Hr Hbus) as (E1 & _ & E3).
  rewrite E1, E3. cbn [fst]. split; reflexivity.
Defined.

(** ** IQ data *)

Section ReadIq.
Context {K : Kfifo} {A : IoctlAbi} {Y : PyArg} (e : env).
#[local] Hint Extern 0 Posix => exact (driver_posix e) : typeclass_instances.

(** read() on a FIFO that is not empty *)
Lemma driver_read_some f n (d : bridge) :
  0 < n -> kfifo_data (rx_fifo d) <> [] ->
  is_Some (kmalloc e 0 (Nat.min (Z.to_nat n) (length (kfifo_data (rx_fifo d))))) ->
  let l := take (Z.to_nat n) (kfifo_data (rx_fifo d)) in
  exists f', driver_read e f n d = (Z.of_nat (length l), l, d <| rx_fifo := f' |>) /\
    kfifo_data f' = drop (Z.to_nat n) (kfifo_data (rx_fifo d)).
Proof.
  intros Hn Hne [b Hb]. cbv zeta. set (q := kfifo_data (rx_fifo d)) in *.
  assert (0 < length q)%nat as Hq by (destruct q; [done|simpl; lia]).
  unfold driver_read, apex_bridge_read.
  assert (kfifo_is_empty (rx_fifo d) = false) as ->.
  { unfold kfifo_is_empty, kfifo_len. apply Z.eqb_neq. fold q. lia. }
  cbn [andb]. fold q. cbv zeta. rewrite (proj2 (Nat.eqb_neq _ 0)) by lia. rewrite Hb.
  pose proof (kfifo_out_bytes (Nat.min (Z.to_nat n) (length q)) (rx_fifo d)) as E1.
  pose proof (kfifo_out_data (Nat.min (Z.to_nat n) (length q)) (rx_fifo d)) as E2.
  destruct (kfifo_out _ _) as [out f']. cbn [fst snd] in *. fold q in E1, E2.
  rewrite <- take_take, firstn_all in E1. subst out. rewrite length_take.
  rewrite (proj2 (Nat.ltb_ge _ _)) by lia. rewrite (proj2 (Z.ltb_ge _ 0)) by lia.
  exists f'. split; [done|]. rewrite E2. destruct (Nat.min_spec (Z.to_nat n) (length q)) as [[? ->]|[? ->]]; [done|].
  by rewrite !drop_ge by lia.
Qed.

Lemma read_iq_once n dv (d : bridge) :
  0 < n <= 65536 -> 0 <= fd dv -> kfifo_data (rx_fifo d) <> [] ->
  is_Some (kmalloc e 0 (Nat.min (Z.to_nat n) (length (kfifo_data (rx_fifo d))))) ->
  exists d', call_method "sdr_read_iq" (plain_call [py_int n]) (Some dv, d) =
      (Ret (RBytes (take (Z.to_nat n) (kfifo_data (rx_fifo d)))),
       (Some (dv <| last_error := APEX_OK |>), d')) /\
    kfifo_data (rx_fifo d') = drop (Z.to_nat n) (kfifo_data (rx_fifo d)).
Proof.
  intros Hn Hfd Hne Hk. destruct (driver_read_some (fd dv) n d) as (f' & E & Ef); [lia|done|done|].
  exists (d <| rx_fifo := f' |>). split; [|exact Ef].
  unfold call_method. cbn -[convert apex_sdr_read_iq].
  unfold pyapex_device_sdr_read_iq, opened, parsed. cbn -[convert apex_sdr_read_iq].
  rewrite convert_n. unfold int_in.
  replace ((-9223372036854775808 <=? n) && (n <? 9223372036854775808)) with true by lia.
  replace ((n <=? 0) || (65536 <? n)) with false by lia. cbn [negb fst snd].
  unfold io, apex_sdr_read_iq, with_dev. rewrite (proj2 (Z.ltb_ge _ _) Hfd). cbn [orb].
  rewrite (proj2 (Z.eqb_neq n 0)) by lia. cbn [sys_read driver_posix]. rewrite E.
  set (l := take _ _). rewrite (proj2 (Z.ltb_ge (Z.of_nat (length l)) 0)) by lia.
  unfold ret_of, out_of, dev_of, sys_of, use, new. cbn. rewrite Nat2Z.id.
  unfold overwrite. by rewrite take_app_length.
Qed.

(** successive reads of these sizes *)
Fixpoint read_chunks (ns : list Z) (s : option apex_device * bridge)
    : option (list Z * (option apex_device * bridge)) :=
  match ns with
  | [] => Some ([], s)
  | n :: ns =>
      match call_method "sdr_read_iq" (plain_call [py_int n]) s with
      | (Ret (RBytes l), s) =>
          match read_chunks ns s with Some (l', s) => Some (l ++ l', s) | None => None end
      | _ => None
      end
  end.
End ReadIq.

Definition total (ns : list Z) : Z := foldr Z.add 0 ns.

(** The samples a Python program reads are the driver's receive FIFO, in
    order, with nothing lost, repeated or read from uninitialised memory: reads
    of 1 to 65536 bytes, as many as the FIFO has data for, each return bytes,
    and together they return exactly the first bytes of the FIFO and leave the rest. *)
Theorem python_reads_are_the_fifo {K : Kfifo} {A : IoctlAbi} {Y : PyArg} (e : env)
  (ns : list Z) (dv : apex_device) (d : bridge)
  (Hns : Forall (fun n => 0 < n <= 65536) ns) (Hfd : 0 <= fd dv)
  (Hlen : total ns <= kfifo_len (rx_fifo d)) (Hk : forall n, is_Some (kmalloc e 0 n)) :
  exists dv' d',
    read_chunks e ns (Some dv, d) =
      Some (take (Z.to_nat (total ns)) (kfifo_data (rx_fifo d)), (Some dv', d')) /\
    kfifo_data (rx_fifo d') = drop (Z.to_nat (total ns)) (kfifo_data (rx_fifo d)) /\
    fd dv' = fd dv.
Proof.
  revert dv d Hfd Hlen. induction Hns as [|n ns Hn Hns IH]; intros dv d Hfd Hlen.
  { exists dv, d. by rewrite take_0, drop_0. }
  assert (0 <= total ns) as Ht by (clear -Hns; induction Hns; simpl; lia).
  cbn [total foldr read_chunks] in *. fold (total ns) in *. unfold kfifo_len in *.
  destruct (read_iq_once e n dv d) as (d1 & E & Ed); [done|done| |by apply Hk|].
  { intros H. rewrite H in Hlen. simpl in Hlen. lia. }
  rewrite E.
  cbn [system driver_posix].
  destruct (IH (dv <| last_error := APEX_OK |>) d1) as (dv' & d' & -> & Ed' & Ef).
  { done. }
  { rewrite Ed, length_drop. lia. }
  exists dv', d'. rewrite Ed', Ed, drop_drop, Z2Nat.inj_add by lia. split; [|by split].
  f_equal. f_equal. by rewrite take_take_drop.
Qed.

Definition board_with (l : list Z) : bridge := fifo_push l board_opened.

Lemma python_reads_are_the_fifo_witness :
  exists dv' d',
    read_chunks ok_env [2; 1] (Some (opened_dev 3), board_with [10; 11; 12; 13]) =
      Some ([10; 11; 12], (Some dv', d')) /\
    kfifo_data (rx_fifo d') = [13] /\ fd dv' = 3.
Proof.
  assert (Hns : Forall (fun n => 0 < n <= 65536) [2; 1]) by (repeat constructor; lia).
  assert (Hfd : 0 <= fd (opened_dev 3)) by (simpl; lia).
  assert (Ed : kfifo_data (rx_fifo (board_with [10; 11; 12; 13])) = [10; 11; 12; 13])
    by (vm_compute; reflexivity).
  assert (Hlen : total [2; 1] <= kfifo_len (rx_fifo (board_with [10; 11; 12; 13]))).
  { unfold kfifo_len. rewrite Ed. simpl. lia. }
  assert (Hk : forall n, is_Some (kmalloc ok_env 0 n)) by (intros n; by eexists).
  pose proof (python_reads_are_the_fifo ok_env [2; 1] (opened_dev 3)
    (board_with [10; 11; 12; 13]) Hns Hfd Hlen Hk) as H.
  rewrite Ed in H. exact H.
Defined.

(** ** Tuning *)

Definition exact_gain (g : nat) : bool :=
  match gain_x10 (tenths (Z.of_nat g)) with Some x => x =? Z.of_nat g | None => false end.

(** every tenth of a dB up to 100 dB survives the two roundings and the cut *)
Lemma gain_exact g : 0 <= g <= 1000 -> gain_x10 (tenths g) = Some g.
Proof.
  intros Hg. assert (forallb exact_gain (seq 0 1001) = true) as H by (vm_compute; reflexivity).
  rewrite forallb_forall in H. specialize (H (Z.to_nat g)). unfold exact_gain in H.
  rewrite Z2Nat.id in H by lia. destruct (gain_x10 (tenths g)) as [x|].
  - f_equal. apply Z.eqb_eq, H, in_seq. lia.
  - discriminate H. apply in_seq. lia.
Qed.

(** C27: Tuning from Python.  sdr_tune(freq, bw, gain) with integers and a gain of
    up to 100 dB given in tenths puts exactly one frame on the bus, which carries
    the gain exactly, and frequency and bandwidth reduced modulo 2^32 and 2^16
    without an error: any integer is accepted whose low 32 bits are a frequency
    the library accepts.  A frequency written as a float, as in the usage example
    of the module, raises TypeError and sends nothing. *)
Theorem python_tune_sends_frame {K : Kfifo} {A : IoctlAbi} {Y : PyArg} (e : env)
  (freq bw g : Z) (x : spec_float) (dv : apex_device) (d : bridge)
  (Hfd : 0 <= fd dv) (Hfreq : 100000 <= u32 freq <= 3800000000) (Hg : 0 <= g <= 1000)
  (Hf : is_Some (kmalloc e 0 4112)) (Hr : is_Some (kmalloc e 1 4112))
  (Hbus : 0 <= fst (spi_sync e (lib_wire (LTune (u32 freq) (u16 bw) g)))) :
  let call args := call_method (P := driver_posix e) "sdr_tune"
                     (plain_call (P := driver_posix e) args) (Some dv, d) in
  call [py_int freq; py_int bw; py_float (tenths g)] =
    (Ret RNone, (Some (dv <| last_error := APEX_OK |>),
                 klogged (KSpi (lib_wire (LTune (u32 freq) (u16 bw) g))) d)) /\
  call [py_float x; py_int bw; py_float (tenths g)] = (Raise (ArgError TypeError), (Some dv, d)).
Proof.
  cbv zeta. unfold call_method. cbn -[convert tenths lib_wire].
  unfold pyapex_device_sdr_tune, opened, parsed. cbn -[convert tenths lib_wire apex_sdr_tune_float].
  rewrite convert_I, convert_H, convert_d, convert_float_I. split; [|done].
  unfold apex_sdr_tune_float. rewrite gain_exact by done.
  destruct Hf as [frame Hf], Hr as [rx Hr].
  pose proof (run_lib_sends e (LTune (u32 freq) (u16 bw) g) dv d frame rx Hfd) as H.
  cbn [run_lib] in H. rewrite H; [done| |done|done|done].
  cbn [lib_valid]. pose proof (u16_range bw). lia.
Qed.

Lemma python_tune_sends_frame_witness :
  fst (call_method (P := driver_posix ok_env) "sdr_tune"
    (plain_call [BInt (4294967296 + 868000000); BInt 20000; BFloat (tenths 305)])
    (Some (opened_dev 3), board_opened)) = Ret RNone /\
  fst (call_method (P := driver_posix ok_env) "sdr_tune"
    (plain_call [BFloat (tenths 8680000000); BInt 20000; BFloat (tenths 305)])
    (Some (opened_dev 3), board_opened)) = Raise (ArgError TypeError).
Proof.
  assert (Hfd : 0 <= fd (opened_dev 3)) by (simpl; lia).
  assert (Hfreq : 100000 <= u32 (4294967296 + 868000000) <= 3800000000) by (vm_compute; split; congruence).
  assert (Hg : 0 <= 305 <= 1000) by lia.
  assert (Hf : is_Some (kmalloc ok_env 0 4112)) by (eexists; reflexivity).
  assert (Hr : is_Some (kmalloc ok_env 1 4112)) by (eexists; reflexivity).
  assert (Hbus : 0 <= fst (spi_sync ok_env
    (lib_wire (LTune (u32 (4294967296 + 868000000)) (u16 20000) 305)))) by (simpl; lia).
  destruct (python_tune_sends_frame ok_env (4294967296 + 868000000) 20000 305
    (tenths 8680000000) (opened_dev 3) board_opened Hfd Hfreq Hg Hf Hr Hbus) as [E1 E2].
  split; [exact (f_equal fst E1)|exact (f_equal fst E2)].
Defined.
