(* ===== verification/MainLoop.v ===== *)
(** * The main loop and the linked firmware (main.c, CMakeLists.txt)

    One iteration of [main]'s loop over the protocol handler, the watchdog and
    the timers, and the whole program: iterations interleaved with SPI0
    interrupts.  CMakeLists.txt links both rp2350b_init.c and spi0_isr.c; the
    handler of spi0_isr.c is the strong one, so it is the one that runs.  The
    battery, radio and NFC readings of an iteration are inputs. *)

From S2P Require Import Prelude Crc Frame Ring Board SpiProtocol SpiInvariant SpiTx SpiReach.
From S2P Require Spi0Isr Watchdog Battery.

#[local] Existing Instance mcu_frame_crc.
#[local] Opaque mcu_crc64 mcu_crc32.

Definition TELEMETRY_INTERVAL_MS : Z := 100.
Definition BATTERY_UPDATE_INTERVAL_MS : Z := 1000.

(** what [init_peripherals] found, in [g_state] *)
Record ready := { battery_monitor_ready : bool; cc1101_ready : bool; st25r3916_ready : bool }.

(** the readings of one iteration *)
Record inputs := {
  now : Z;                        (* to_ms_since_boot *)
  in_vbat_mv : Z; in_temp_c_x10 : Z;
  in_cc_rssi_x10 : Z; in_nfc_field_mv : Z }.

Record mcu := {
  proto : fw;
  spi0 : Spi0Isr.isr;
  dog : Watchdog.wd;
  g : ready;
  last_telem_time : Z; last_batt_time : Z;
  main_brownout : bool;           (* the static of the loop *)
  loop_count : Z }.
#[export] Instance eta_mcu : Eta mcu :=
  eta! Build_mcu < proto ; spi0 ; dog ; g ; last_telem_time ; last_batt_time ;
    main_brownout ; loop_count >.

Definition collect_telemetry (g : ready) (i : inputs) (s : fw) : fw :=
  let vbat_mv := if battery_monitor_ready g then in_vbat_mv i else 0 in
  let temp_c_x10 := if battery_monitor_ready g then in_temp_c_x10 i else 0 in
  let cc_rssi_x10 := if cc1101_ready g then u16 (in_cc_rssi_x10 i) else 0 in
  let nfc_field_mv := if st25r3916_ready g then in_nfc_field_mv i else 0 in
  spi_protocol_update_telemetry 0 (u16 temp_c_x10) vbat_mv cc_rssi_x10 nfc_field_mv s.

(** the steps of the loop body, in order *)
Definition loop_battery (i : inputs) (m : mcu) : mcu :=
  if BATTERY_UPDATE_INTERVAL_MS <=? u32 (now i - last_batt_time m)
  then m <| proto ::= collect_telemetry (g m) i |> <| last_batt_time := now i |>
  else m.

Definition loop_telemetry (i : inputs) (m : mcu) : option mcu :=
  if TELEMETRY_INTERVAL_MS <=? u32 (now i - last_telem_time m)
  then s ← spi_protocol_send_telemetry (proto m);
       Some (m <| proto := s |> <| last_telem_time := now i |>)
  else Some m.

Definition loop_brownout (i : inputs) (m : mcu) : mcu :=
  if battery_monitor_ready (g m) then
    let b := Battery.battery_is_brownout (in_vbat_mv i) (main_brownout m) in
    let m := m <| main_brownout := b |> in
    if b then m <| dog ::= Watchdog.watchdog_mark_brownout |>
                <| proto ::= spi_protocol_set_brownout true |>
    else m <| proto ::= spi_protocol_set_brownout false |>
  else m.

Definition main_iteration (i : inputs) (m : mcu) : option mcu :=
  let m := m <| dog ::= Watchdog.watchdog_kick |> in
  '(_, s) ← spi_protocol_process (proto m);
  let m := m <| proto := spi_protocol_tick s |> in
  let m := loop_battery i m in
  m ← loop_telemetry i m;
  let m := loop_brownout i m in
  Some (m <| loop_count ::= incr32 |>).

(** main before the loop; [gpio] is the output word of gpio_init *)
Definition mcu_boot (gpio : Z) (g : ready) (w : Watchdog.wd) : mcu := {|
  proto := call HwIntReqDeassert fw_init; spi0 := Spi0Isr.isr_bss gpio;
  dog := Watchdog.watchdog_enable_bark
    (snd (Watchdog.watchdog_init (snd (Watchdog.watchdog_check_brownout w)))); g := g;
  last_telem_time := 0; last_batt_time := 0; main_brownout := false; loop_count := 0 |}.

(** An interrupt of SPI0 with the bytes [rx] in the receive FIFO and [tx] in
    the transmit FIFO; the last argument is the transmit FIFO it leaves. *)
Inductive event := Irq (rx tx tx' : list Z) | Loop (i : inputs).

Inductive mcu_step (m : mcu) : event -> mcu -> Prop :=
| step_irq rx tx s' rx' tx' : bytes rx ->
    Spi0Isr.spi0_handler rx tx (spi0 m) = Some (s', rx', tx') ->
    mcu_step m (Irq rx tx tx') (m <| spi0 := s' |>)
| step_loop i m' : main_iteration i m = Some m' -> mcu_step m (Loop i) m'.

Inductive mcu_run (m : mcu) : list event -> mcu -> Prop :=
| run_nil : mcu_run m [] m
| run_snoc es e m1 m2 : mcu_run m es m1 -> mcu_step m1 e m2 -> mcu_run m (es ++ [e]) m2.

(** ** The link is dead *)

(** what stays true: the protocol's ring is empty and nothing was ever handled *)
Record cut_off (m : mcu) : Prop := {
  co_wf : fw_wf (proto m);
  co_ring : ring_head (rx_ring (proto m)) = ring_tail (rx_ring (proto m));
  co_frames : frames_dispatched (rx_ctx (proto m)) = 0;
  co_stream : sdr_streaming (device_state (proto m)) = false;
  co_hw : Forall (fun c => c = HwIntReqAssert \/ c = HwIntReqDeassert) (hw (proto m));
  co_tx : Spi0Isr.response_pending (spi0 m) = false }.

Lemma cut_off_proto m s :
  cut_off m -> fw_wf s -> rx_ring s = rx_ring (proto m) ->
  frames_dispatched (rx_ctx s) = frames_dispatched (rx_ctx (proto m)) ->
  sdr_streaming (device_state s) = sdr_streaming (device_state (proto m)) ->
  Forall (fun c => c = HwIntReqAssert \/ c = HwIntReqDeassert) (hw s) ->
  cut_off (m <| proto := s |>).
Proof.
  intros [] W Er Ef Es Hh. constructor; cbn; try done; congruence.
Qed.

Lemma process_empty s : ring_head (rx_ring s) = ring_tail (rx_ring s) ->
  spi_protocol_process s = Some (0, s).
Proof.
  intros E. unfold spi_protocol_process. generalize (Z.to_nat SPI_RX_BUF_SIZE). intros n.
  destruct n; cbn [process_loop]; by rewrite E, Z.eqb_refl.
Qed.

Lemma drain_rx_pending n l s s' l' : Spi0Isr.drain_rx n l s = Some (s', l') ->
  Spi0Isr.response_pending s' = Spi0Isr.response_pending s.
Proof.
  assert (Hb : forall b s s', Spi0Isr.spi0_process_byte b s = Some s' ->
    Spi0Isr.response_pending s' = Spi0Isr.response_pending s).
  { intros b t t' E. unfold Spi0Isr.spi0_process_byte, Spi0Isr.start_frame in E.
    repeat first [case_match | apply bind_Some in E as (? & _ & E)]; simplify_eq; done. }
  revert n s. induction l as [|b l IH]; intros n s.
  { destruct n; cbn [Spi0Isr.drain_rx]; intros E; by simplify_eq. }
  rewrite Spi0Isr.drain_rx_cons.
  destruct (Spi0Isr.spi0_process_byte b s) as [t|] eqn:E; [|done]. cbn [mbind option_bind].
  apply Hb in E. destruct n as [|[|n]]; try (intros E'; simplify_eq; exact E).
  intros H. rewrite (IH _ _ H). exact E.
Qed.

Lemma irq_idle rx tx s s' rx' tx' : Spi0Isr.response_pending s = false ->
  Spi0Isr.spi0_handler rx tx s = Some (s', rx', tx') ->
  Spi0Isr.response_pending s' = false /\ tx' = tx.
Proof.
  intros Hp. unfold Spi0Isr.spi0_handler.
  destruct (Spi0Isr.drain_rx 256 rx s) as [[t l]|] eqn:E; [|done]. cbn [mbind option_bind].
  apply drain_rx_pending in E. rewrite E, Hp. intros E'; simplify_eq; split; congruence.
Qed.

Lemma build_result_cut cmd data s ret s' : build_result cmd data s ret s' ->
  rx_ctx s' = rx_ctx s /\ rx_ring s' = rx_ring s /\ device_state s' = device_state s /\
  (hw s' = hw s \/ hw s' = hw s ++ [HwIntReqAssert]).
Proof. intros []; cbn; auto. Qed.

Lemma loop_battery_cut i m : cut_off m -> cut_off (loop_battery i m).
Proof.
  intros C. unfold loop_battery. case_match; [|done].
  destruct C. constructor; cbn; try done. by apply set_device_wf.
Qed.

Lemma loop_telemetry_cut i m : cut_off m ->
  exists m', loop_telemetry i m = Some m' /\ cut_off m' /\ dog m' = dog m.
Proof.
  intros C. pose proof C as C0. destruct C0. unfold loop_telemetry. case_match; [|by exists m].
  destruct (send_telemetry_spec _ co_wf0) as (ret & s1 & Hb & ->). cbn [mbind option_bind].
  pose proof (build_result_cut _ _ _ _ _ Hb) as (E1 & E2 & E3 & E4).
  eexists; split; [done|]. split; [|done]. constructor; cbn; rewrite ?E1, ?E2, ?E3; try done.
  - apply bump_wf. by eapply build_result_wf.
  - destruct E4 as [-> | ->]; [done|]. apply Forall_app; auto.
Qed.

Lemma loop_brownout_cut i m : cut_off m -> cut_off (loop_brownout i m).
Proof.
  intros []. unfold loop_brownout. repeat case_match; constructor; cbn; try done;
    by apply set_device_wf.
Qed.

Lemma main_iteration_cut i m m' : cut_off m -> main_iteration i m = Some m' -> cut_off m'.
Proof.
  intros C. unfold main_iteration. cbn [proto]. rewrite process_empty by apply C.
  cbn [mbind option_bind].
  match goal with |- context [loop_battery i ?x] => set (m0 := x) end.
  assert (cut_off m0) as C1.
  { destruct C. constructor; cbn; try done. by apply set_device_wf. }
  destruct (loop_telemetry_cut i _ (loop_battery_cut i _ C1)) as (m2 & -> & C2 & _).
  cbn [mbind option_bind]. intros [= <-]. apply (loop_brownout_cut i) in C2.
  destruct C2. by constructor.
Qed.

Lemma mcu_run_cut m es m' : cut_off m -> mcu_run m es m' ->
  cut_off m' /\ forall rx tx tx', Irq rx tx tx' ∈ es -> tx' = tx.
Proof.
  intros C R. induction R as [|es e m1 m2 R [C1 IH] St]; [by split; [|intros ??? ?%elem_of_nil]|].
  destruct St as [rx tx s1 rx1 tx1 Hb E|i m1' E].
  - destruct (irq_idle _ _ _ _ _ _ (co_tx _ C1) E) as [Hp ->].
    split; [destruct C1; by constructor|].
    intros a b c [H|H%list_elem_of_singleton]%elem_of_app; [by eapply IH|congruence].
  - split; [by eapply main_iteration_cut|].
    intros a b c [H|H%list_elem_of_singleton]%elem_of_app; [by eapply IH|done].
Qed.

Lemma mcu_boot_cut gpio g w : cut_off (mcu_boot gpio g w).
Proof.
  constructor; try done.
  - destruct fw_init_wf. by constructor; try apply hw_snoc.
  - repeat (apply Forall_cons; split; [by auto|]). constructor.
Qed.

Lemma loop_battery_dog i m : dog (loop_battery i m) = dog m.
Proof. unfold loop_battery. by case_match. Qed.

Lemma loop_brownout_io i m :
  fw_wf (proto m) -> fw_wf (proto (loop_brownout i m)) /\
  rx_ring (proto (loop_brownout i m)) = rx_ring (proto m) /\
  Watchdog.wd_load (dog (loop_brownout i m)) = Watchdog.wd_load (dog m) /\
  Watchdog.wd_ctrl (dog (loop_brownout i m)) = Watchdog.wd_ctrl (dog m).
Proof.
  intros W. unfold loop_brownout. repeat case_match; cbn; split_and!; try done;
    by apply set_device_wf.
Qed.

Lemma loop_telemetry_io i m : fw_wf (proto m) ->
  exists m', loop_telemetry i m = Some m' /\ fw_wf (proto m') /\
    rx_ring (proto m') = rx_ring (proto m) /\ dog m' = dog m.
Proof.
  intros W. unfold loop_telemetry. case_match; [|by exists m].
  destruct (send_telemetry_spec _ W) as (ret & s1 & Hb & ->). cbn [mbind option_bind].
  pose proof (build_result_cut _ _ _ _ _ Hb) as (_ & E2 & _).
  eexists; split; [done|]. cbn. split_and!; [|done..].
  apply bump_wf. by eapply build_result_wf.
Qed.

Lemma spi_protocol_process_wf s : fw_wf s ->
  exists n s', spi_protocol_process s = Some (n, s') /\ fw_wf s' /\
    ring_contents RX_RING_BITS (rx_ring s') = [].
Proof.
  intros W. destruct (process_loop_wf (Z.to_nat SPI_RX_BUF_SIZE) 0 s W) as (n & s' & E & W' & R & _).
  - apply rx_fuel.
  - by exists n, s'.
Qed.

(** ** Properties *)

(** The loop body always comes to an end.  From any well-formed protocol
    state, whatever bytes are waiting and whatever the sensors read, one
    iteration of main's loop terminates, leaves the receive ring drained and
    the state well formed, and has reloaded the watchdog without changing its
    control bits. *)
Lemma main_iteration_completes (i : inputs) (m : mcu) (W : fw_wf (proto m)) :
  exists m', main_iteration i m = Some m' /\ fw_wf (proto m') /\
    ring_contents RX_RING_BITS (rx_ring (proto m')) = [] /\
    Watchdog.wd_load (dog m') = Watchdog.WD_TIMEOUT_US /\
    Watchdog.wd_ctrl (dog m') = Watchdog.wd_ctrl (dog m) /\
    loop_count m' = incr32 (loop_count m).
Proof.
  assert (forall j a b, loop_telemetry j a = Some b -> loop_count b = loop_count a) as Ht.
  { unfold loop_telemetry. intros j a b. case_match; [|by intros [= <-]].
    destruct (spi_protocol_send_telemetry _); [|done]. by intros [= <-]. }
  assert (forall j a, loop_count (loop_brownout j a) = loop_count a) as Hbr.
  { intros j a. unfold loop_brownout. by repeat case_match. }
  unfold main_iteration. cbn [proto].
  destruct (spi_protocol_process_wf _ W) as (n & s & E & Ws & Er).
  change (proto (m <| dog ::= _ |>)) with (proto m). rewrite E. cbn [mbind option_bind].
  match goal with |- context [loop_battery i ?x] => set (m1 := x) end.
  assert (fw_wf (proto (loop_battery i m1)) /\ rx_ring (proto (loop_battery i m1)) = rx_ring s
    /\ loop_count (loop_battery i m1) = loop_count m) as (W1 & R1 & L1).
  { unfold loop_battery. case_match; cbn; split_and!; try done; by repeat apply set_device_wf. }
  destruct (loop_telemetry_io i _ W1) as (m2 & E2 & W2 & R2 & D2).
  apply Ht in E2 as L2. rewrite E2. cbn [mbind option_bind].
  destruct (loop_brownout_io i m2 W2) as (W3 & R3 & D3 & D4).
  eexists; split; [done|]. cbn. rewrite R3, R2, R1, D3, D4, D2, loop_battery_dog, Hbr, L2, L1.
  split_and!; done.
Qed.

(** C10: the linked firmware is cut off from the host.  Both translation units
    define the SPI0 interrupt handler and the strong one, of spi0_isr.c, is
    linked; it assembles frames in its own buffer, which the main loop never
    reads, while the main loop reads and fills rings that handler never
    touches.  So in every run from boot, whatever the host sends: no interrupt
    puts a byte on the bus, no frame is ever dispatched, no SDR session starts,
    and INT_REQ is the only line the protocol code drives. *)
Theorem linked_link_is_dead (gpio : Z) (g : ready) (w : Watchdog.wd) (es : list event) (m : mcu)
    (R : mcu_run (mcu_boot gpio g w) es m) :
  (forall rx tx tx', Irq rx tx tx' ∈ es -> tx' = tx) /\
  frames_dispatched (rx_ctx (proto m)) = 0 /\
  sdr_streaming (device_state (proto m)) = false /\
  Forall (fun c => c = HwIntReqAssert \/ c = HwIntReqDeassert) (hw (proto m)).
Proof. by destruct (mcu_run_cut _ _ _ (mcu_boot_cut gpio g w) R) as [[] ?]. Qed.

(** ** Witnesses *)

Definition demo_inputs : inputs := {|
  now := 1000; in_vbat_mv := 3700; in_temp_c_x10 := 250; in_cc_rssi_x10 := -740;
  in_nfc_field_mv := 0 |}.
Definition demo_ready : ready :=
  {| battery_monitor_ready := true; cc1101_ready := true; st25r3916_ready := false |}.
Definition demo_wd : Watchdog.wd := {|
  Watchdog.wd_ctrl := 0; Watchdog.wd_load := 0; Watchdog.wd_reason := 0;
  Watchdog.wd_scratch := replicate 8 0 |}.

Definition after_ping : mcu :=
  let m := mcu_boot 0 demo_ready demo_wd in
  match Spi0Isr.spi0_handler (encode_frame (crc:=apex_frame_crc) CMD_NOP []) [] (spi0 m) with
  | Some (s, _, _) => m <| spi0 := s |>
  | None => m
  end.

Lemma main_iteration_completes_witness :
  fw_wf (proto after_ping) /\
  exists m', main_iteration demo_inputs after_ping = Some m' /\ fw_wf (proto m') /\
    ring_contents RX_RING_BITS (rx_ring (proto m')) = [] /\
    Watchdog.wd_load (dog m') = Watchdog.WD_TIMEOUT_US /\
    Watchdog.wd_ctrl (dog m') = Watchdog.wd_ctrl (dog after_ping) /\
    loop_count m' = incr32 (loop_count after_ping).
Proof.
  assert (fw_wf (proto after_ping)) as W.
  { assert (proto after_ping = call HwIntReqDeassert fw_init) as ->.
    { unfold after_ping. by repeat case_match. }
    by apply (co_wf _ (mcu_boot_cut 0 demo_ready demo_wd)). }
  split; [done|]. by apply main_iteration_completes.
Defined.

Lemma linked_link_is_dead_witness :
  exists t m, mcu_run (mcu_boot 0 demo_ready demo_wd)
      [Irq (encode_frame (crc:=apex_frame_crc) CMD_NOP []) [] t; Loop demo_inputs] m /\
  loop_count m = 1 /\ hw (proto m) = [HwIntReqDeassert; HwIntReqDeassert; HwIntReqAssert] /\
  t = [] /\ frames_dispatched (rx_ctx (proto m)) = 0 /\
  sdr_streaming (device_state (proto m)) = false.
Proof.
  assert (is_Some (Spi0Isr.spi0_handler (encode_frame (crc:=apex_frame_crc) CMD_NOP []) []
    (spi0 (mcu_boot 0 demo_ready demo_wd)))) as [[[s' r'] t'] E] by (vm_compute; by eexists).
  set (m1 := (mcu_boot 0 demo_ready demo_wd) <| spi0 := s' |>).
  assert (exists m2, main_iteration demo_inputs m1 = Some m2 /\
    loop_count m2 = 1 /\ hw (proto m2) = [HwIntReqDeassert; HwIntReqDeassert; HwIntReqAssert]) as (m2 & E2 & H1 & H2).
  { eexists. split; [vm_compute; reflexivity|]. split; reflexivity. }
  assert (mcu_run (mcu_boot 0 demo_ready demo_wd)
    [Irq (encode_frame (crc:=apex_frame_crc) CMD_NOP []) [] t'; Loop demo_inputs] m2) as R.
  { apply (run_snoc _ [_] _ m1); [apply (run_snoc _ [] _ (mcu_boot 0 demo_ready demo_wd))|].
    - constructor.
    - apply (step_irq _ _ _ _ r'); [|exact E]. apply bytesb_bytes. vm_compute. reflexivity.
    - by constructor. }
  exists t', m2. split; [exact R|].
  destruct (linked_link_is_dead _ _ _ _ _ R) as (H & ? & ? & _).
  split_and!; try assumption. apply (H (encode_frame (crc:=apex_frame_crc) CMD_NOP [])). left.
Defined.
