(* ===== verification/SocInit.v ===== *)
(** * Power-on initialisation of the RP2350B (rp2350b_init.c)

    rp2350b_init and the functions it calls, as programs over memory-mapped
    registers.  The chip is not part of the repository: it is the class [Soc]
    (what a load returns, what a load and a store do to it), and [SocLaws] are
    the documented facts the theorems use: ordinary registers keep what is
    stored in them, the status bits the code polls come up within [patience]
    loads.  [None] is a poll that is still waiting after [fuel] loads.

    [1UL << n] is undefined in C for [n >= 32] with a 32-bit unsigned long, and
    the code shifts by up to 43: [wide n] is whatever the compiler makes of
    it. *)

From S2P Require Import Prelude Board.

Class Soc := {
  soc : Type;
  (** the value a load of the address returns now, and what the load does *)
  peek : Z -> soc -> Z;
  tick : Z -> soc -> soc;
  poke : Z -> Z -> soc -> soc;
  wide : Z -> Z;
}.

(** ** Addresses *)

Definition CLOCKS_BASE : Z := 0x40008000.
Definition RESETS_BASE : Z := 0x4000C000.
Definition IO_BANK0_BASE : Z := 0x40018000.
Definition GPIO_BASE : Z := 0x400D0000.
Definition SPI0_BASE : Z := 0x48060000.
Definition SPI1_BASE : Z := 0x48070000.
Definition SPI2_BASE : Z := 0x48090000.
Definition PIO0_BASE : Z := 0x50200000.
Definition PIO1_BASE : Z := 0x50300000.
Definition ADC_BASE : Z := 0x50041000.
Definition NVIC_BASE : Z := 0xE000E100.
Definition WATCHDOG_LOAD : Z := 0x40058004.

Definition RESETS_RESET : Z := RESETS_BASE + 0x00.
Definition RESETS_DONE : Z := RESETS_BASE + 0x04.
Definition PLL_STATUS : Z := CLOCKS_BASE + 0x50.
Definition GPIO_OUT : Z := GPIO_BASE + 0x00.
Definition GPIO_OE : Z := GPIO_BASE + 0x10.
Definition SSPCR0 : Z := 0x000.
Definition SSPCR1 : Z := 0x004.
Definition SSPDR : Z := 0x008.
Definition SSPSR : Z := 0x00C.
Definition SSPCPSR : Z := 0x010.
Definition SSPIMSC : Z := 0x014.
Definition SSPSR_RNE : Z := BIT 2.

Definition PIN_ANT_SEL0 : Z := 2.
Definition PIN_ANT_SEL1 : Z := 3.
Definition PIN_CC_GDO0 : Z := 13.
Definition PIN_CC_GDO2 : Z := 14.
Definition PIN_SPI0_RX : Z := 16.
Definition PIN_SPI0_CSN : Z := 17.
Definition PIN_SPI0_SCK : Z := 18.
Definition PIN_SPI0_TX : Z := 19.
Definition PIN_HOST_RDY : Z := 21.
Definition PIN_NFC_SPI_SCK : Z := 40.
Definition PIN_NFC_SPI_TX : Z := 41.
Definition PIN_NFC_SPI_RX : Z := 42.
Definition PIN_NFC_SPI_CSN : Z := 43.
Definition PIN_NFC_IRQ : Z := 44.

Section Init.
Context {Hw : Soc}.

(** ** Programs over registers *)

(** the chip, and the stores made so far, oldest first *)
Record st := { dev : soc; stores : list (Z * Z) }.
#[export] Instance eta_st : Eta st := eta! Build_st < dev ; stores >.

Definition prog (A : Type) : Type := st -> option (A * st).
#[export] Instance prog_ret : MRet prog := fun A a s => Some (a, s).
#[export] Instance prog_bind : MBind prog := fun A B f m s =>
  match m s with Some (a, s) => f a s | None => None end.

Definition load (a : Z) : prog Z := fun s => Some (peek a (dev s), s <| dev ::= tick a |>).
Definition store (a v : Z) : prog unit := fun s =>
  Some (tt, s <| dev ::= poke a (u32 v) |> <| stores ::= fun l => l ++ [(a, u32 v)] |>).
(** [r |= m] and [r &= ~m] *)
Definition set_bits (a m : Z) : prog unit := v ← load a; store a (Z.lor v m).
Definition clear_bits (a m : Z) : prog unit := v ← load a; store a (Z.ldiff v m).

Fixpoint stores_of (l : list (Z * Z)) : prog unit :=
  match l with [] => mret tt | (a, v) :: l => _ ← store a v; stores_of l end.

(** [while (!test(r));] *)
Fixpoint wait_until (fuel : nat) (a : Z) (test : Z -> bool) : prog unit :=
  match fuel with
  | O => fun _ => None
  | S fuel => v ← load a; if test v then mret tt else wait_until fuel a test
  end.

(** [while (SSPSR & RNE) (void)SSPDR;] *)
Fixpoint drain_fifo (fuel : nat) (base : Z) : prog unit :=
  match fuel with
  | O => fun _ => None
  | S fuel =>
    v ← load (base + SSPSR);
    if has_bits v SSPSR_RNE then _ ← load (base + SSPDR); drain_fifo fuel base else mret tt
  end.

(** [1UL << n] *)
Definition pin_mask (n : Z) : Z := if n <? 32 then BIT n else u32 (wide n).
Definition or_pins (l : list Z) : Z := foldr (fun n m => Z.lor (pin_mask n) m) 0 l.

(** ** The functions of rp2350b_init.c *)

Definition watchdog_kick : prog unit := store WATCHDOG_LOAD 5000000.

(** SPI0, SPI1, SPI2, I2C0, ADC, PIO0, PIO1, PADS_BANK0 *)
Definition peripheral_resets : Z := or_pins [16; 17; 18; 22; 28; 32; 33; 42].

Definition clocks_init (fuel : nat) : prog unit :=
  _ ← store (CLOCKS_BASE + 0x00) 0;
  _ ← set_bits RESETS_RESET (BIT 14);
  _ ← clear_bits RESETS_RESET (BIT 14);
  _ ← wait_until fuel RESETS_DONE (fun v => has_bits v (BIT 14));
  _ ← store (CLOCKS_BASE + 0x40) 1;
  _ ← store (CLOCKS_BASE + 0x44) 125;
  _ ← store (CLOCKS_BASE + 0x48) (Z.lor 5 (Z.shiftl 2 4));
  _ ← clear_bits (CLOCKS_BASE + 0x44) (BIT 31);
  _ ← wait_until fuel PLL_STATUS (fun v => has_bits v (BIT 31));
  _ ← store (CLOCKS_BASE + 0x08) 0;
  _ ← store (CLOCKS_BASE + 0x08) 1;
  _ ← store (CLOCKS_BASE + 0x0C) 1;
  _ ← store (CLOCKS_BASE + 0x10) 0;
  _ ← clear_bits RESETS_RESET peripheral_resets;
  wait_until fuel RESETS_DONE (fun v => Z.land v peripheral_resets =? peripheral_resets).

(** the function select register of a pin, as the code addresses it *)
Definition pin_ctrl (pin : Z) : Z := IO_BANK0_BASE + 0x04 * pin + 0x00.

Definition spi_pins : list Z :=
  [PIN_SPI0_RX; PIN_SPI0_CSN; PIN_SPI0_SCK; PIN_SPI0_TX;
   PIN_NFC_SPI_SCK; PIN_NFC_SPI_TX; PIN_NFC_SPI_RX].
Definition sio_pins : list Z :=
  [PIN_ANT_SEL0; PIN_ANT_SEL1; PIN_INT_REQ; PIN_HOST_RDY; PIN_SDR_RESET; PIN_SDR_GPIO0;
   PIN_SDR_GPIO1; PIN_SDR_LNA_EN; PIN_CC_SPI_CSN; PIN_CC_GDO0; PIN_CC_GDO2; PIN_NFC_IRQ].
Definition output_pins : list Z :=
  [PIN_ANT_SEL0; PIN_ANT_SEL1; PIN_INT_REQ; PIN_SDR_RESET; PIN_SDR_GPIO0; PIN_SDR_GPIO1;
   PIN_SDR_LNA_EN; PIN_CC_SPI_CSN; PIN_NFC_SPI_CSN].
Definition high_pins : list Z :=
  [PIN_INT_REQ; PIN_SDR_RESET; PIN_CC_SPI_CSN; PIN_NFC_SPI_CSN].

Definition gpio_init : prog unit :=
  _ ← stores_of ((fun p => (pin_ctrl p, 1)) <$> spi_pins);
  _ ← stores_of ((fun p => (pin_ctrl p, 5)) <$> sio_pins);
  _ ← store GPIO_OE (or_pins output_pins);
  store GPIO_OUT (or_pins high_pins).

Definition spi0_slave_init (fuel : nat) : prog unit :=
  _ ← store (SPI0_BASE + SSPCR1) 0;
  _ ← drain_fifo fuel SPI0_BASE;
  stores_of [(SPI0_BASE + SSPCR0, 0x7); (SPI0_BASE + SSPCPSR, 2);
             (SPI0_BASE + SSPCR1, Z.lor (BIT 2) (BIT 1)); (SPI0_BASE + SSPIMSC, BIT 2)].

(** the bodies of spi1_master_init and spi2_master_init differ in the base *)
Definition spi_master_init (fuel : nat) (base : Z) : prog unit :=
  _ ← store (base + SSPCR1) 0;
  _ ← drain_fifo fuel base;
  stores_of [(base + SSPCR0, Z.lor 0x7 (Z.shiftl 7 8)); (base + SSPCPSR, 2);
             (base + SSPCR1, BIT 1)].
Definition spi1_master_init (fuel : nat) : prog unit := spi_master_init fuel SPI1_BASE.
Definition spi2_master_init (fuel : nat) : prog unit := spi_master_init fuel SPI2_BASE.

Definition pio0_ant_switch_prog : list Z := [0x6002; 0xA042].
Definition pio0_ant_switch_init : prog unit :=
  _ ← stores_of (imap (fun i w => (PIO0_BASE + 0x20 + 4 * Z.of_nat i, w)) pio0_ant_switch_prog);
  _ ← stores_of [(PIO0_BASE + 0xC8, Z.shiftl 1 16); (PIO0_BASE + 0xCC, BIT 28);
    (PIO0_BASE + 0xD0, Z.lor (Z.lor (Z.shiftl 1 23) (Z.shiftl 1 25)) (Z.shiftl 2 29));
    (PIO0_BASE + 0xD4, Z.lor (Z.lor (Z.lor 2 (Z.shiftl 2 5)) (Z.shiftl 2 20)) (Z.shiftl 2 26))];
  set_bits (PIO0_BASE + 0x10) 1.

Definition pio1_cc_tx_prog : list Z := [0x6021; 0xA026].
Definition pio1_cc_tx_init : prog unit :=
  _ ← stores_of (imap (fun i w => (PIO1_BASE + 0x20 + 4 * Z.of_nat i, w)) pio1_cc_tx_prog);
  stores_of [(PIO1_BASE + 0xC8, 150); (PIO1_BASE + 0xCC, BIT 28);
    (PIO1_BASE + 0xD0, Z.lor (Z.shiftl 1 25) (Z.shiftl 1 29));
    (PIO1_BASE + 0xD4, Z.lor (Z.lor (Z.lor 1 (Z.shiftl 1 5)) (Z.shiftl 13 20)) (Z.shiftl 13 26))].

Definition adc_init : prog unit :=
  _ ← clear_bits (ADC_BASE + 0x00) 1;
  _ ← store (ADC_BASE + 0x14) (Z.shiftl 1 24);
  _ ← set_bits (ADC_BASE + 0x04) (BIT 4);
  clear_bits (ADC_BASE + 0x04) 0x7.

Definition nvic_init : prog unit :=
  _ ← set_bits (NVIC_BASE + 0x60 + 4 * (18 / 32)) (BIT (18 mod 32));
  _ ← set_bits (IO_BANK0_BASE + 0xF0 + 4 * (21 / 8)) (BIT (21 mod 8 * 4));
  _ ← set_bits (NVIC_BASE + 0x60 + 4 * (13 / 32)) (BIT (13 mod 32));
  _ ← store (NVIC_BASE + 0x300 + 4 * (18 / 4)) (Z.shiftl 0 4);
  store (NVIC_BASE + 0x300 + 4 * (13 / 4)) (Z.shiftl 1 4).

(** the two CRC table initialisations between the kicks are those of Crc.v *)
Definition rp2350b_init (fuel : nat) : prog unit :=
  _ ← clocks_init fuel;
  _ ← watchdog_kick;
  _ ← gpio_init;
  _ ← watchdog_kick;
  _ ← adc_init;
  _ ← spi1_master_init fuel;
  _ ← watchdog_kick;
  _ ← spi2_master_init fuel;
  _ ← pio0_ant_switch_init;
  _ ← pio1_cc_tx_init;
  _ ← watchdog_kick;
  _ ← spi0_slave_init fuel;
  _ ← nvic_init;
  watchdog_kick.

(** ** The chip as documented *)

Definition status_regs : list Z :=
  [RESETS_DONE; PLL_STATUS; SPI0_BASE + SSPSR; SPI0_BASE + SSPDR; SPI1_BASE + SSPSR;
   SPI1_BASE + SSPDR; SPI2_BASE + SSPSR; SPI2_BASE + SSPDR].
Definition plain (a : Z) : bool := bool_decide (a ∉ status_regs).

(** one round of the drain loop *)
Definition drain_round (base : Z) (d : soc) : soc := tick (base + SSPDR) (tick (base + SSPSR) d).

Class SocLaws := {
  (** a register keeps what is stored in it, and only a store to it changes it *)
  peek_poke a v d : plain a = true -> 0 <= v < 4294967296 -> peek a (poke a v d) = v;
  peek_poke_ne a b v d : plain b = true -> a <> b -> peek b (poke a v d) = peek b d;
  peek_tick a b d : plain b = true -> peek b (tick a d) = peek b d;
  patience : nat;
  (** what is out of reset reports so *)
  resets_done mask d : 0 <= mask < 4294967296 -> Z.land (peek RESETS_RESET d) mask = 0 ->
    exists k, (k < patience)%nat /\
      Z.land (peek RESETS_DONE (Nat.iter k (tick RESETS_DONE) d)) mask = mask;
  (** the PLL locks once its power-down bit is clear *)
  pll_locks d : Z.testbit (peek (CLOCKS_BASE + 0x44) d) 31 = false ->
    exists k, (k < patience)%nat /\
      Z.testbit (peek PLL_STATUS (Nat.iter k (tick PLL_STATUS) d)) 31 = true;
  (** a disabled controller receives nothing new *)
  fifo_drains base d : base ∈ [SPI0_BASE; SPI1_BASE; SPI2_BASE] ->
    peek (base + SSPCR1) d = 0 ->
    exists k, (k < patience)%nat /\
      Z.testbit (peek (base + SSPSR) (Nat.iter k (drain_round base) d)) 2 = false }.

(** ** Symbolic execution *)

Context {Laws : SocLaws}.

Definition agrees (f : Z -> Z) (d : soc) : Prop := forall a, plain a = true -> peek a d = f a.
(** what a program does to the registers: each value stored is a function of
    the register's old value *)
Definition effect : Type := list (Z * (Z -> Z)).
Definition upd (a v : Z) (f : Z -> Z) : Z -> Z := fun b => if b =? a then v else f b.
Definition eff (f : Z -> Z) (l : effect) : Z -> Z :=
  foldl (fun f e => upd (fst e) (u32 (snd e (f (fst e)))) f) f l.

Definition runs (m : prog unit) (f : Z -> Z) (l : effect) : Prop :=
  forall s, agrees f (dev s) -> exists s', m s = Some (tt, s') /\ agrees (eff f l) (dev s').

Lemma eff_app f l1 l2 : eff f (l1 ++ l2) = eff (eff f l1) l2.
Proof. apply foldl_app. Qed.

Lemma eff_frame f l a : a ∉ l.*1 -> eff f l a = f a.
Proof.
  revert f. induction l as [|[b g] l IH]; intros f Ha; [done|]. cbn in *.
  apply not_elem_of_cons in Ha as [Hab Ha]. rewrite IH by done.
  unfold upd. by rewrite (proj2 (Z.eqb_neq a b) Hab).
Qed.

Lemma runs_seq m k f l1 l2 : runs m f l1 -> runs k (eff f l1) l2 -> runs (_ ← m; k) f (l1 ++ l2).
Proof.
  intros Hm Hk s Hs. destruct (Hm s Hs) as (s1 & E1 & H1). destruct (Hk s1 H1) as (s2 & E2 & H2).
  exists s2. unfold mbind, prog_bind. rewrite E1. split; [done|]. by rewrite eff_app.
Qed.

Lemma runs_ret f : runs (mret tt) f [].
Proof. intros s Hs. by exists s. Qed.

Lemma agrees_poke f a v d : plain a = true -> agrees f d -> agrees (upd a (u32 v) f) (poke a (u32 v) d).
Proof.
  intros Ha H b Hb. unfold upd. destruct (Z.eqb_spec b a) as [->|].
  - apply peek_poke; [done|apply u32_range].
  - rewrite peek_poke_ne by done. by apply H.
Qed.

Lemma agrees_tick f a d : agrees f d -> agrees f (tick a d).
Proof. intros H b Hb. rewrite peek_tick by done. by apply H. Qed.

Lemma runs_store f a v : plain a = true -> runs (store a v) f [(a, fun _ => v)].
Proof. intros Ha s Hs. eexists. split; [reflexivity|]. by apply agrees_poke. Qed.

Lemma runs_modify f a (g : Z -> Z) : plain a = true ->
  runs (v ← load a; store a (g v)) f [(a, g)].
Proof.
  intros Ha s Hs. eexists. split; [reflexivity|]. cbn. rewrite Hs by done.
  apply agrees_poke; [done|]. by apply agrees_tick.
Qed.

Lemma runs_stores f l : forallb plain (l.*1) = true ->
  runs (stores_of l) f ((fun e => (fst e, fun _ => snd e)) <$> l).
Proof.
  revert f. induction l as [|[a v] l IH]; intros f; [intros _; apply runs_ret|].
  cbn. intros [Ha Hl]%andb_true_iff.
  apply (runs_seq _ _ _ [(a, fun _ => v)]); [by apply runs_store|by apply IH].
Qed.

Lemma agrees_iter f k (t : soc -> soc) d :
  (forall d, agrees f d -> agrees f (t d)) -> agrees f d -> agrees f (Nat.iter k t d).
Proof. intros Ht. induction k as [|k IH]; cbn; auto. Qed.

Lemma wait_until_spec f a test k : forall fuel s, (k < fuel)%nat -> agrees f (dev s) ->
  test (peek a (Nat.iter k (tick a) (dev s))) = true ->
  exists s', wait_until fuel a test s = Some (tt, s') /\ agrees f (dev s').
Proof.
  induction k as [|k IH]; intros [|fuel] s Hk Hs Ht; try lia; cbn -[Nat.iter].
  - unfold mbind, prog_bind, load. cbn in Ht. rewrite Ht. eexists. split; [done|]. by apply agrees_tick.
  - unfold mbind, prog_bind, load. destruct (test (peek a (dev s))).
    + eexists. split; [done|]. by apply agrees_tick.
    + apply IH; [lia|by apply agrees_tick|]. rewrite Nat.iter_succ_r in Ht. exact Ht.
Qed.

Lemma drain_spec f base k : forall fuel s, (k < fuel)%nat -> agrees f (dev s) ->
  Z.testbit (peek (base + SSPSR) (Nat.iter k (drain_round base) (dev s))) 2 = false ->
  exists s', drain_fifo fuel base s = Some (tt, s') /\ agrees f (dev s').
Proof.
  induction k as [|k IH]; intros [|fuel] s Hk Hs Ht; try lia; cbn -[Nat.iter];
    unfold mbind, prog_bind, load, SSPSR_RNE; rewrite has_BIT by done.
  - cbn in Ht. rewrite Ht. eexists. split; [done|]. by apply agrees_tick.
  - destruct (Z.testbit (peek (base + SSPSR) (dev s)) 2).
    + apply IH; [lia|by do 2 apply agrees_tick|]. rewrite Nat.iter_succ_r in Ht. exact Ht.
    + eexists. split; [done|]. by apply agrees_tick.
Qed.

Lemma runs_wait_done fuel f mask test :
  (patience <= fuel)%nat -> 0 <= mask < 4294967296 -> Z.land (f RESETS_RESET) mask = 0 ->
  (forall v, Z.land v mask = mask -> test v = true) ->
  runs (wait_until fuel RESETS_DONE test) f [].
Proof.
  intros Hf Hr Hm Ht s Hs. destruct (resets_done mask (dev s) Hr) as (k & Hk & Hd).
  { by rewrite Hs. }
  apply (wait_until_spec _ _ _ k); [lia|done|by apply Ht].
Qed.

Lemma runs_wait_pll fuel f :
  (patience <= fuel)%nat -> Z.testbit (f (CLOCKS_BASE + 0x44)) 31 = false ->
  runs (wait_until fuel PLL_STATUS (fun v => has_bits v (BIT 31))) f [].
Proof.
  intros Hf Hm s Hs. destruct (pll_locks (dev s)) as (k & Hk & Hd).
  { by rewrite Hs. }
  apply (wait_until_spec _ _ _ k); [lia|done|by rewrite has_BIT].
Qed.

Lemma runs_drain fuel f base :
  (patience <= fuel)%nat -> base ∈ [SPI0_BASE; SPI1_BASE; SPI2_BASE] ->
  plain (base + SSPCR1) = true -> f (base + SSPCR1) = 0 -> runs (drain_fifo fuel base) f [].
Proof.
  intros Hf Hb Hp H0 s Hs. destruct (fifo_drains base (dev s) Hb) as (k & Hk & Hd).
  { by rewrite Hs. }
  apply (drain_spec _ _ k); [lia|done|done].
Qed.

Lemma pin_mask_range n : 0 <= n -> 0 <= pin_mask n < 4294967296.
Proof.
  intros Hn. unfold pin_mask. destruct (Z.ltb_spec n 32); [|apply u32_range].
  unfold BIT. rewrite Z.shiftl_1_l. change 4294967296 with (2 ^ 32).
  split; [apply Z.pow_nonneg; lia|]. apply Z.pow_lt_mono_r; lia.
Qed.

Lemma or_pins_range l : Forall (fun n => 0 <= n) l -> 0 <= or_pins l < 4294967296.
Proof.
  induction 1 as [|n l Hn Hl IH]; [done|]. change (or_pins (n :: l)) with (Z.lor (pin_mask n) (or_pins l)).
  pose proof (pin_mask_range n Hn) as H.
  assert (Z.lor (pin_mask n) (or_pins l) = u32 (Z.lor (pin_mask n) (or_pins l))) as ->; [|apply u32_range].
  unfold u32. change 4294967296 with (2 ^ 32).
  rewrite <- Z.land_ones, Z.land_lor_distr_l, !Z.land_ones by done.
  rewrite !Z.mod_small by done. done.
Qed.

(** a bit just cleared *)
Lemma cleared v m : Z.land (u32 (Z.ldiff v m)) m = 0.
Proof.
  apply Z.bits_inj'. intros n Hn. unfold u32. change 4294967296 with (2 ^ 32).
  rewrite Z.land_spec, Z.bits_0. destruct (Z.ltb_spec n 32).
  - rewrite Z.mod_pow2_bits_low, Z.ldiff_spec by lia. by destruct (Z.testbit v n), (Z.testbit m n).
  - by rewrite Z.mod_pow2_bits_high by lia.
Qed.

(** *** The effects of the functions *)

Definition stores_eff (l : list (Z * Z)) : effect := (fun e => (fst e, fun _ => snd e)) <$> l.

Definition clocks_eff : effect :=
  [(CLOCKS_BASE, fun _ => 0); (RESETS_RESET, fun v => Z.lor v (BIT 14));
   (RESETS_RESET, fun v => Z.ldiff v (BIT 14));
   (CLOCKS_BASE + 0x40, fun _ => 1); (CLOCKS_BASE + 0x44, fun _ => 125);
   (CLOCKS_BASE + 0x48, fun _ => Z.lor 5 (Z.shiftl 2 4));
   (CLOCKS_BASE + 0x44, fun v => Z.ldiff v (BIT 31));
   (CLOCKS_BASE + 0x08, fun _ => 0); (CLOCKS_BASE + 0x08, fun _ => 1);
   (CLOCKS_BASE + 0x0C, fun _ => 1); (CLOCKS_BASE + 0x10, fun _ => 0);
   (RESETS_RESET, fun v => Z.ldiff v peripheral_resets)].
Definition gpio_eff : effect :=
  stores_eff ((fun p => (pin_ctrl p, 1)) <$> spi_pins) ++
  stores_eff ((fun p => (pin_ctrl p, 5)) <$> sio_pins) ++
  [(GPIO_OE, fun _ => or_pins output_pins); (GPIO_OUT, fun _ => or_pins high_pins)].
Definition adc_eff : effect :=
  [(ADC_BASE, fun v => Z.ldiff v 1); (ADC_BASE + 0x14, fun _ => Z.shiftl 1 24);
   (ADC_BASE + 0x04, fun v => Z.lor v (BIT 4)); (ADC_BASE + 0x04, fun v => Z.ldiff v 0x7)].
Definition spi_master_eff (base : Z) : effect :=
  stores_eff [(base + SSPCR1, 0); (base + SSPCR0, 0x707); (base + SSPCPSR, 2); (base + SSPCR1, 2)].
Definition spi0_eff : effect :=
  stores_eff [(SPI0_BASE + SSPCR1, 0); (SPI0_BASE + SSPCR0, 7); (SPI0_BASE + SSPCPSR, 2);
              (SPI0_BASE + SSPCR1, 6); (SPI0_BASE + SSPIMSC, 4)].
Definition pio0_eff : effect :=
  stores_eff [(PIO0_BASE + 0x20, 0x6002); (PIO0_BASE + 0x24, 0xA042)] ++
  stores_eff [(PIO0_BASE + 0xC8, 0x10000); (PIO0_BASE + 0xCC, 0x10000000);
    (PIO0_BASE + 0xD0, 0x42800000); (PIO0_BASE + 0xD4, 0x8200042)] ++
  [(PIO0_BASE + 0x10, fun v => Z.lor v 1)].
Definition pio1_eff : effect :=
  stores_eff [(PIO1_BASE + 0x20, 0x6021); (PIO1_BASE + 0x24, 0xA026)] ++
  stores_eff [(PIO1_BASE + 0xC8, 150); (PIO1_BASE + 0xCC, 0x10000000);
    (PIO1_BASE + 0xD0, 0x22000000); (PIO1_BASE + 0xD4, 0x34D00021)].
Definition nvic_eff : effect :=
  [(NVIC_BASE + 0x60, fun v => Z.lor v (BIT 18)); (IO_BANK0_BASE + 0xF8, fun v => Z.lor v (BIT 20));
   (NVIC_BASE + 0x60, fun v => Z.lor v (BIT 13)); (NVIC_BASE + 0x310, fun _ => 0);
   (NVIC_BASE + 0x30C, fun _ => 16)].
Definition kick_eff : effect := [(WATCHDOG_LOAD, fun _ => 5000000)].

(** one step of a straight-line program *)
Ltac reg_step := first
  [ apply runs_store; reflexivity
  | apply (runs_modify _ _ (fun v => Z.lor v _)); reflexivity
  | apply (runs_modify _ _ (fun v => Z.ldiff v _)); reflexivity ].
Ltac reg_steps := repeat (apply (runs_seq _ _ _ [(_, _)]); [reg_step|]); try reg_step.

Lemma runs_clocks fuel f : (patience <= fuel)%nat -> runs (clocks_init fuel) f clocks_eff.
Proof.
  intros Hf. unfold clocks_init, clocks_eff, set_bits, clear_bits. do 3 (apply (runs_seq _ _ _ [(_, _)]); [reg_step|]).
  apply (runs_seq _ _ _ []).
  { apply (runs_wait_done _ _ (BIT 14)); [done|done|apply cleared|].
    intros v E. unfold has_bits. by rewrite E. }
  do 4 (apply (runs_seq _ _ _ [(_, _)]); [reg_step|]).
  apply (runs_seq _ _ _ []); [by apply runs_wait_pll|].
  do 5 (apply (runs_seq _ _ _ [(_, _)]); [reg_step|]).
  apply (runs_wait_done _ _ peripheral_resets); [done|apply or_pins_range; repeat (constructor; [done|]); constructor|apply cleared|].
  intros v E. by rewrite E, Z.eqb_refl.
Qed.

Lemma runs_gpio f : runs gpio_init f gpio_eff.
Proof.
  unfold gpio_init, gpio_eff. apply runs_seq; [by apply runs_stores|].
  apply runs_seq; [by apply runs_stores|]. apply (runs_seq _ _ _ [_]); by apply runs_store.
Qed.

Lemma runs_adc f : runs adc_init f adc_eff.
Proof. unfold adc_init, adc_eff, set_bits, clear_bits. reg_steps. Qed.

Lemma runs_nvic f : runs nvic_init f nvic_eff.
Proof. unfold nvic_init, nvic_eff, set_bits. reg_steps. Qed.

Lemma runs_kick f : runs watchdog_kick f kick_eff.
Proof. by apply runs_store. Qed.

Lemma runs_spi_master fuel f base :
  (patience <= fuel)%nat -> base ∈ [SPI1_BASE; SPI2_BASE] ->
  runs (spi_master_init fuel base) f (spi_master_eff base).
Proof.
  intros Hf Hb. unfold spi_master_init, spi_master_eff.
  assert (forallb plain [base + SSPCR1; base + SSPCR0; base + SSPCPSR] = true) as Hp.
  { repeat (apply elem_of_cons in Hb as [->|Hb]; [reflexivity|]). by apply elem_of_nil in Hb. }
  cbn [forallb] in Hp. apply andb_true_iff in Hp as [H1 Hp]. apply andb_true_iff in Hp as [H0 Hp].
  apply andb_true_iff in Hp as [H2 _].
  apply (runs_seq _ _ _ [_]); [by apply runs_store|]. apply (runs_seq _ _ _ []).
  - apply runs_drain; [done|by right|done|]. unfold eff, upd. cbn. by rewrite Z.eqb_refl.
  - apply (runs_stores _ [(base + SSPCR0, 0x707); (base + SSPCPSR, 2); (base + SSPCR1, 2)]).
    cbn [fmap list_fmap forallb fst]. by rewrite H0, H1, H2.
Qed.

Lemma runs_spi0 fuel f : (patience <= fuel)%nat -> runs (spi0_slave_init fuel) f spi0_eff.
Proof.
  intros Hf. unfold spi0_slave_init, spi0_eff.
  apply (runs_seq _ _ _ [_]); [by apply runs_store|]. apply (runs_seq _ _ _ []).
  - apply runs_drain; [done|by left|done|done].
  - by apply (runs_stores _ [(SPI0_BASE + SSPCR0, 7); (SPI0_BASE + SSPCPSR, 2);
      (SPI0_BASE + SSPCR1, 6); (SPI0_BASE + SSPIMSC, 4)]).
Qed.

Lemma runs_pio0 f : runs pio0_ant_switch_init f pio0_eff.
Proof.
  unfold pio0_ant_switch_init, pio0_eff. apply runs_seq; [by apply runs_stores|].
  apply runs_seq; [by apply runs_stores|]. by apply (runs_modify _ _ (fun v => Z.lor v 1)).
Qed.

Lemma runs_pio1 f : runs pio1_cc_tx_init f pio1_eff.
Proof. unfold pio1_cc_tx_init, pio1_eff. apply runs_seq; by apply runs_stores. Qed.

Definition init_eff : effect :=
  clocks_eff ++ kick_eff ++ gpio_eff ++ kick_eff ++ adc_eff ++ spi_master_eff SPI1_BASE ++
  kick_eff ++ spi_master_eff SPI2_BASE ++ pio0_eff ++ pio1_eff ++ kick_eff ++ spi0_eff ++
  nvic_eff ++ kick_eff.

Lemma runs_init fuel f : (patience <= fuel)%nat -> runs (rp2350b_init fuel) f init_eff.
Proof.
  intros Hf. unfold rp2350b_init, init_eff.
  apply runs_seq; [exact (runs_clocks _ _ Hf)|].
  apply runs_seq; [apply runs_kick|].
  apply runs_seq; [apply runs_gpio|].
  apply runs_seq; [apply runs_kick|].
  apply runs_seq; [apply runs_adc|].
  apply runs_seq; [apply (runs_spi_master _ _ SPI1_BASE Hf); set_solver|].
  apply runs_seq; [apply runs_kick|].
  apply runs_seq; [apply (runs_spi_master _ _ SPI2_BASE Hf); set_solver|].
  apply runs_seq; [apply runs_pio0|].
  apply runs_seq; [apply runs_pio1|].
  apply runs_seq; [apply runs_kick|].
  apply runs_seq; [exact (runs_spi0 _ _ Hf)|].
  apply runs_seq; [apply runs_nvic|].
  apply runs_kick.
Qed.

Lemma testbit_u32 v n : 0 <= n < 32 -> Z.testbit (u32 v) n = Z.testbit v n.
Proof. intros Hn. unfold u32. change 4294967296 with (2 ^ 32). apply Z.mod_pow2_bits_low; lia. Qed.

(** pins nothing gives a function to *)
Definition pin_untouched (pin : Z) : bool :=
  bool_decide (pin ∉ spi_pins ++ sio_pins) && (0 <=? pin) && (pin <? 48).

Lemma pin_untouched_frame f pin : pin_untouched pin = true ->
  plain (pin_ctrl pin) = true /\ eff f init_eff (pin_ctrl pin) = f (pin_ctrl pin).
Proof.
  unfold pin_untouched. intros [[H1 H2]%andb_true_iff H3]%andb_true_iff.
  assert (forallb (fun p => negb (bool_decide (p ∉ spi_pins ++ sio_pins)) ||
    (plain (pin_ctrl p) && bool_decide (pin_ctrl p ∉ init_eff.*1))) (seqZ 0 48) = true) as Hall
    by (vm_compute; reflexivity).
  rewrite forallb_forall in Hall. specialize (Hall pin).
  rewrite <- list_elem_of_In, elem_of_seqZ, H1 in Hall. cbn [negb orb] in Hall.
  destruct (andb_prop _ _ (Hall ltac:(lia))) as [Hp He%bool_decide_eq_true].
  split; [done|]. by apply eff_frame.
Qed.

(** bits set, cleared and released, one by one *)
Lemma released_bits x n : 0 <= n < 32 ->
  (x || Z.testbit (BIT 14) n) && negb (Z.testbit (BIT 14) n) && negb (Z.testbit 0x10470000 n) =
  x && bool_decide (n ∉ [14; 16; 17; 18; 22; 28]).
Proof.
  intros Hn. assert (forallb (fun n => forallb (fun x => Bool.eqb
    ((x || Z.testbit (BIT 14) n) && negb (Z.testbit (BIT 14) n) && negb (Z.testbit 0x10470000 n))
    (x && bool_decide (n ∉ [14; 16; 17; 18; 22; 28]))) [true; false]) (seqZ 0 32) = true) as H
    by (vm_compute; reflexivity).
  rewrite forallb_forall in H. specialize (H n).
  rewrite <- list_elem_of_In, elem_of_seqZ, forallb_forall in H.
  apply Bool.eqb_prop, H; [lia|]. destruct x; [by left|right; by left].
Qed.

(** ** Properties *)

(** C39: power-on initialisation runs to the end, and what it leaves.  On a chip
    whose status bits come up, from any register contents, rp2350b_init
    terminates; the three SPI controllers are enabled, SPI0 as a slave with its
    receive interrupt on and the others as 9.375 MHz masters, the watchdog is
    reloaded, the idle levels are on the output pins, and exactly the resets of
    SPI0 to SPI2, I2C0, ADC and the PLL are released.  What it does not do:
    with a shift out of range giving 0, pin 43 (the NFC chip select) never
    becomes an output and the PIO blocks are never released; no pin outside
    the two lists, CC1101 and SDR bus pins and that chip select among them,
    gets a function; the interrupt enable register of the NVIC is never
    written, and the GPIO interrupt keeps the priority of SPI0. *)
Theorem rp2350b_init_completes (fuel : nat) (s : st)
    (Hf : (patience <= fuel)%nat) (Hwide : forall n, wide n = 0) :
  exists s', rp2350b_init fuel s = Some (tt, s') /\
  let d := dev s in let d' := dev s' in
  (peek (SPI0_BASE + SSPCR1) d' = 6 /\ peek (SPI0_BASE + SSPCR0) d' = 7 /\
   peek (SPI0_BASE + SSPIMSC) d' = 4 /\
   forall base, base ∈ [SPI1_BASE; SPI2_BASE] -> peek (base + SSPCR1) d' = 2 /\
     let cr0 := peek (base + SSPCR0) d' in
     150000000 / (peek (base + SSPCPSR) d' * (Z.shiftr cr0 8 + 1)) = 9375000) /\
  peek WATCHDOG_LOAD d' = 5000000 /\
  peek GPIO_OE d' = foldr (fun n m => Z.lor (BIT n) m) 0 [2; 3; 10; 20; 31] /\
  peek GPIO_OUT d' = foldr (fun n m => Z.lor (BIT n) m) 0 [10; 20; 31] /\
  (forall n, 0 <= n < 32 -> Z.testbit (peek RESETS_RESET d') n =
     Z.testbit (peek RESETS_RESET d) n && bool_decide (n ∉ [14; 16; 17; 18; 22; 28])) /\
  (forall pin, pin_untouched pin = true -> peek (pin_ctrl pin) d' = peek (pin_ctrl pin) d) /\
  Forall (fun pin => pin_untouched pin = true) [PIN_NFC_SPI_CSN; 8; 9; 12; 27; 28; 29; 30] /\
  peek NVIC_BASE d' = peek NVIC_BASE d /\
  Z.shiftr (peek (NVIC_BASE + 0x300 + 4 * (13 / 4)) d') (8 * (13 mod 4)) mod 256 = 0.
Proof.
  destruct (runs_init fuel (fun a => peek a (dev s)) Hf s) as (s' & E & H); [done|].
  exists s'. split; [exact E|]. cbv zeta.
  assert (forall a, pin_untouched a = true -> peek (pin_ctrl a) (dev s') = peek (pin_ctrl a) (dev s))
    as Hpins.
  { intros a Ha. destruct (pin_untouched_frame (fun a => peek a (dev s)) a Ha) as [Hp He].
    by rewrite H, He. }
  assert (peripheral_resets = 0x10470000) as Ep by (cbv [peripheral_resets or_pins foldr pin_mask]; by rewrite !Hwide).
  assert (or_pins output_pins = 0x8010040C) as Eo
    by (cbv [output_pins or_pins foldr pin_mask]; rewrite !Hwide; reflexivity).
  assert (or_pins high_pins = 0x80100400) as Eh
    by (cbv [high_pins or_pins foldr pin_mask]; rewrite !Hwide; reflexivity).
  unfold init_eff, clocks_eff, gpio_eff in H. rewrite Ep, Eo, Eh in H.
  split_and!; try (rewrite H by reflexivity; reflexivity); try done; [| |by repeat constructor].
  - intros base Hb. repeat (apply elem_of_cons in Hb as [->|Hb];
      [split; rewrite !H by reflexivity; reflexivity|]). by apply elem_of_nil in Hb.
  - intros n Hn. rewrite H by reflexivity.
    match goal with |- Z.testbit ?e n = _ => assert (e = u32 (Z.ldiff (u32 (Z.ldiff (u32 (Z.lor
      (peek RESETS_RESET (dev s)) (BIT 14))) (BIT 14))) 0x10470000)) as -> by reflexivity end.
    rewrite testbit_u32, Z.ldiff_spec, testbit_u32, Z.ldiff_spec, testbit_u32, Z.lor_spec by lia.
    by apply released_bits.
Qed.

(** the output word rp2350b_init leaves *)
Lemma init_output_word (fuel : nat) (s : st) : (patience <= fuel)%nat -> (forall n, wide n = 0) ->
  exists s', rp2350b_init fuel s = Some (tt, s') /\ peek GPIO_OUT (dev s') = 0x80100400.
Proof.
  intros Hf Hwide. destruct (runs_init fuel (fun a => peek a (dev s)) Hf s) as (s' & E & H); [done|].
  exists s'. split; [exact E|].
  assert (or_pins high_pins = 0x80100400) as Eh
    by (cbv [high_pins or_pins foldr pin_mask]; rewrite !Hwide; reflexivity).
  unfold init_eff, gpio_eff in H. rewrite Eh in H. by rewrite H.
Qed.

Lemma or_pins_testbit l pin : pin ∈ l -> 0 <= pin < 32 -> Z.testbit (or_pins l) pin = true.
Proof.
  intros Hl Hp. induction l as [|n l IH]; [by apply elem_of_nil in Hl|].
  change (or_pins (n :: l)) with (Z.lor (pin_mask n) (or_pins l)). rewrite Z.lor_spec.
  apply elem_of_cons in Hl as [->|Hl]; [|by rewrite IH, orb_true_r].
  unfold pin_mask. rewrite (proj2 (Z.ltb_lt _ _)) by lia. unfold BIT.
  by rewrite Z.shiftl_1_l, Z.pow2_bits_true by lia.
Qed.

Definition chip_after (l : list (Z * Z)) (d : soc) : soc :=
  foldl (fun d e => poke (fst e) (snd e) d) d l.
Definition u32_stores (l : list (Z * Z)) : list (Z * Z) := (fun e => (fst e, u32 (snd e))) <$> l.

Lemma stores_of_run l s : stores_of l s =
  Some (tt, {| dev := chip_after (u32_stores l) (dev s); stores := stores s ++ u32_stores l |}).
Proof.
  revert s. induction l as [|[a v] l IH]; intros s; cbn.
  - rewrite app_nil_r. by destruct s.
  - unfold mbind, prog_bind. cbn. rewrite IH. unfold update. cbn. by rewrite <- app_assoc.
Qed.

Lemma chip_after_frame a l d : plain a = true -> forallb (fun e => negb (fst e =? a)) l = true ->
  peek a (chip_after l d) = peek a d.
Proof.
  intros Ha. revert d. induction l as [|e l IH]; intros d; [done|]. cbn.
  intros [He Hl]%andb_true_iff. etransitivity; [by apply IH|]. apply peek_poke_ne; [done|].
  by apply Z.eqb_neq, negb_true_iff.
Qed.

(** the chip drives the pin to the level *)
Definition drives (pin : Z) (high : bool) (d : soc) : Prop :=
  Z.testbit (peek GPIO_OE d) pin = true /\ Z.testbit (peek GPIO_OUT d) pin = high.

(** the idle levels come one store too late.  gpio_init enables the output
    drivers before it writes the levels: on a chip whose output register is 0,
    as it is out of reset, there is a moment in which INT_REQ, the SDR reset and
    the CC1101 chip select, all active low, are driven low; the next store, the
    last of the function, drives them high. *)
Theorem gpio_init_asserts_before_release (s : st) (Hout : peek GPIO_OUT (dev s) = 0) :
  exists s' l out, gpio_init s = Some (tt, s') /\
    stores s' = stores s ++ l ++ [(GPIO_OUT, out)] /\
    let d1 := chip_after l (dev s) in
    dev s' = poke GPIO_OUT out d1 /\
    forall pin, pin ∈ [PIN_INT_REQ; PIN_SDR_RESET; PIN_CC_SPI_CSN] ->
      drives pin false d1 /\ drives pin true (dev s').
Proof.
  set (l := u32_stores ((fun p => (pin_ctrl p, 1)) <$> spi_pins) ++
    u32_stores ((fun p => (pin_ctrl p, 5)) <$> sio_pins) ++ [(GPIO_OE, u32 (or_pins output_pins))]).
  assert (exists s', gpio_init s = Some (tt, s') /\
    stores s' = stores s ++ l ++ [(GPIO_OUT, u32 (or_pins high_pins))] /\
    dev s' = poke GPIO_OUT (u32 (or_pins high_pins)) (chip_after l (dev s))) as (s' & E & Es & Ed).
  { unfold gpio_init, mbind, prog_bind. rewrite !stores_of_run. cbn [dev stores].
    eexists. split; [reflexivity|]. subst l. split.
    - unfold update. cbn [stores]. by rewrite <- !app_assoc.
    - unfold chip_after. rewrite !foldl_app. reflexivity. }
  exists s', l, (u32 (or_pins high_pins)). cbv zeta. split_and!; try done.
  assert (forall pin, pin ∈ [PIN_INT_REQ; PIN_SDR_RESET; PIN_CC_SPI_CSN] ->
    0 <= pin < 32 /\ pin ∈ output_pins /\ pin ∈ high_pins) as Hpin.
  { intros pin Hp. repeat (apply elem_of_cons in Hp as [->|Hp];
      [split_and!; (done || set_solver)|]). by apply elem_of_nil in Hp. }
  assert (peek GPIO_OE (chip_after l (dev s)) = u32 (or_pins output_pins)) as Hoe.
  { subst l. unfold chip_after. rewrite !foldl_app. cbn [foldl fst snd].
    apply peek_poke; [done|apply u32_range]. }
  assert (peek GPIO_OUT (chip_after l (dev s)) = 0) as Ho.
  { rewrite <- Hout. by apply chip_after_frame. }
  intros pin Hp. destruct (Hpin pin Hp) as (Hr & H1 & H2). unfold drives. rewrite Ed.
  rewrite peek_poke_ne, Hoe, Ho by done. rewrite peek_poke by (done || apply u32_range).
  rewrite !testbit_u32 by done. rewrite !or_pins_testbit by done. by rewrite Z.bits_0.
Qed.
End Init.

(** *** A concrete chip *)

(** Polled bits come up at the third load; the FIFOs hold [level] bytes. *)
Inductive level := L0 | L1 | L2.
Record chip := { mem : gmap Z Z; polls : nat; fifo : level }.
#[export] Instance eta_chip : Eta chip := eta! Build_chip < mem ; polls ; fifo >.

Definition polled (a : Z) : bool := bool_decide (a ∈ [RESETS_DONE; PLL_STATUS]).
Definition sr (a : Z) : bool :=
  bool_decide (a ∈ [SPI0_BASE + SSPSR; SPI1_BASE + SSPSR; SPI2_BASE + SSPSR]).
Definition dr (a : Z) : bool :=
  bool_decide (a ∈ [SPI0_BASE + SSPDR; SPI1_BASE + SSPDR; SPI2_BASE + SSPDR]).

Definition chip_peek (a : Z) (c : chip) : Z :=
  if polled a then (if (2 <=? polls c)%nat then 0xFFFFFFFF else 0)
  else if sr a then (match fifo c with L0 => 2 | _ => 6 end)
  else default 0 (mem c !! a).
Definition chip_tick (a : Z) (c : chip) : chip :=
  if polled a then c <| polls ::= S |>
  else if dr a then c <| fifo ::= fun l => match l with L2 => L1 | _ => L0 end |>
  else c.

#[local] Instance chip_soc : Soc := {|
  soc := chip; peek := chip_peek; tick := chip_tick;
  poke := fun a v c => c <| mem ::= <[a := v]> |>; wide := fun _ => 0 |}.

Lemma plain_chip a : plain a = true -> polled a = false /\ sr a = false /\ dr a = false.
Proof.
  unfold plain, polled, sr, dr. intros H%bool_decide_eq_true. unfold status_regs in H.
  rewrite !bool_decide_eq_false. set_solver.
Qed.

Lemma chip_polls k a c : polled a = true -> polls (Nat.iter k (chip_tick a) c) = (k + polls c)%nat.
Proof.
  intros Ha. induction k as [|k IH]; [done|].
  change (Nat.iter (S k) (chip_tick a) c) with (chip_tick a (Nat.iter k (chip_tick a) c)).
  unfold chip_tick at 1. rewrite Ha. unfold update. cbn [polls]. by rewrite IH.
Qed.

Lemma chip_ready a c : polled a = true -> chip_peek a (Nat.iter 2 (chip_tick a) c) = 0xFFFFFFFF.
Proof. intros Ha. unfold chip_peek. rewrite Ha. by rewrite chip_polls. Qed.

#[local] Program Instance chip_laws : SocLaws (Hw := chip_soc) := {| patience := 3%nat |}.
Next Obligation.
  intros a v d (Hp & Hs & _)%plain_chip _. cbn. unfold chip_peek. rewrite Hp, Hs. cbn.
  by rewrite lookup_insert_eq.
Qed.
Next Obligation.
  intros a b v d (Hp & Hs & _)%plain_chip Hab. cbn. unfold chip_peek. rewrite Hp, Hs. cbn.
  by rewrite lookup_insert_ne.
Qed.
Next Obligation.
  intros a b d (Hp & Hs & _)%plain_chip. cbn. unfold chip_peek. rewrite Hp, Hs.
  unfold chip_tick. by repeat case_match.
Qed.
Next Obligation.
  intros mask d Hm _. exists 2%nat. split; [lia|]. cbn -[Nat.iter]. rewrite chip_ready by done.
  rewrite Z.land_comm. change 0xFFFFFFFF with (Z.ones 32). rewrite Z.land_ones by done.
  by apply Z.mod_small.
Qed.
Next Obligation.
  intros d _. exists 2%nat. split; [lia|]. cbn -[Nat.iter]. by rewrite chip_ready.
Qed.
Next Obligation.
  intros base d Hb _. exists 2%nat. split; [lia|].
  repeat (apply elem_of_cons in Hb as [->|Hb]; [by destruct d as [m p []]|]). by apply elem_of_nil in Hb.
Qed.

Definition cold_chip : st := {| dev := {| mem := {[RESETS_RESET := 0xFFFFFFFF]}; polls := 0; fifo := L2 |};
  stores := [] |}.

Lemma rp2350b_init_completes_witness : exists s' : st,
  rp2350b_init 3 cold_chip = Some (tt, s') /\
  peek (SPI0_BASE + SSPCR1) (dev s') = 6 /\ peek WATCHDOG_LOAD (dev s') = 5000000 /\
  peek GPIO_OUT (dev s') = 0x80100400 /\ Z.testbit (peek RESETS_RESET (dev s')) 16 = false /\
  Z.testbit (peek RESETS_RESET (dev s')) 0 = true.
Proof.
  destruct (rp2350b_init_completes 3 cold_chip) as (s' & E & (H1 & _) & H2 & _ & H3 & H4 & _);
    [apply Nat.le_refl|reflexivity|].
  exists s'. split_and!; [exact E|exact H1|exact H2|rewrite H3; reflexivity| |];
    rewrite H4 by lia; reflexivity.
Defined.

Lemma gpio_init_asserts_before_release_witness : exists s' l out,
  gpio_init cold_chip = Some (tt, s') /\ stores s' = l ++ [(GPIO_OUT, out)] /\
  drives PIN_INT_REQ false (chip_after l (dev cold_chip)) /\ drives PIN_INT_REQ true (dev s').
Proof.
  destruct (gpio_init_asserts_before_release cold_chip eq_refl) as (s' & l & out & E & Es & _ & H).
  exists s', l, out. split; [exact E|]. split; [exact Es|]. apply H. by left.
Defined.
