(* ===== verification/SpiMmio.v ===== *)
(** * The radio buses at the level of registers (rp2350b_init.c)

    The byte exchange and the chip selects of the CC1101 and ST25R3916 buses as
    programs over the registers of SocInit.v, with the waits on the SPI
    controller's status, and the proof that on the documented controller they
    are the exchanges of SpiSlave.v, on which the radio drivers are modelled.
    The controller and the chip on it are the class [SpiController]. *)

From S2P Require Import Prelude Board SocInit SpiSlave.
From S2P Require Cc1101 St25r3916.

Definition SSPSR_TNF : Z := BIT 1.

Section Programs.
Context {Hw : Soc}.

(** apex_cc1101_spi_xfer and apex_nfc_spi_xfer differ in the base *)
Definition spi_xfer_at (fuel : nat) (base tx_byte : Z) : prog Z :=
  _ ← wait_until fuel (base + SSPSR) (fun v => has_bits v SSPSR_TNF);
  _ ← store (base + SSPDR) (u8 tx_byte);
  _ ← wait_until fuel (base + SSPSR) (fun v => has_bits v SSPSR_RNE);
  v ← load (base + SSPDR);
  mret (Z.land v 0xFF).

Definition cs_low (pin : Z) : prog unit := clear_bits GPIO_OUT (pin_mask pin).
Definition cs_high (pin : Z) : prog unit := set_bits GPIO_OUT (pin_mask pin).

Definition apex_cc1101_cs_assert : prog unit := cs_low PIN_CC_SPI_CSN.
Definition apex_cc1101_cs_release : prog unit := cs_high PIN_CC_SPI_CSN.
Definition apex_cc1101_spi_xfer (fuel : nat) : Z -> prog Z := spi_xfer_at fuel SPI1_BASE.
Definition apex_nfc_cs_assert : prog unit := cs_low PIN_NFC_SPI_CSN.
Definition apex_nfc_cs_release : prog unit := cs_high PIN_NFC_SPI_CSN.
Definition apex_nfc_spi_xfer (fuel : nat) : Z -> prog Z := spi_xfer_at fuel SPI2_BASE.

Fixpoint xfers_at (fuel : nat) (base : Z) (l : list Z) : prog (list Z) :=
  match l with
  | [] => mret []
  | b :: l => r ← spi_xfer_at fuel base b; rs ← xfers_at fuel base l; mret (r :: rs)
  end.

(** select, exchange, release: the shape of every access of both drivers *)
Definition transact_at (fuel : nat) (base pin : Z) (l : list Z) : prog (list Z) :=
  _ ← cs_low pin; rs ← xfers_at fuel base l; _ ← cs_high pin; mret rs.

Definition apex_cc1101_write_burst (fuel : nat) (addr : Z) (data : list Z) : prog unit :=
  _ ← apex_cc1101_cs_assert;
  _ ← apex_cc1101_spi_xfer fuel (Z.lor addr 0x40);
  _ ← xfers_at fuel SPI1_BASE data;
  apex_cc1101_cs_release.

Definition apex_cc1101_read_burst (fuel : nat) (addr : Z) (len : nat) : prog (list Z) :=
  _ ← apex_cc1101_cs_assert;
  _ ← apex_cc1101_spi_xfer fuel (Z.lor addr 0xC0);
  data ← xfers_at fuel SPI1_BASE (replicate len 0x00);
  _ ← apex_cc1101_cs_release;
  mret data.

Definition apex_nfc_write_register (fuel : nat) (addr val : Z) : prog unit :=
  _ ← apex_nfc_cs_assert;
  _ ← apex_nfc_spi_xfer fuel (Z.land addr 0x7F);
  _ ← apex_nfc_spi_xfer fuel val;
  apex_nfc_cs_release.

Definition apex_nfc_read_register (fuel : nat) (addr : Z) : prog Z :=
  _ ← apex_nfc_cs_assert;
  _ ← apex_nfc_spi_xfer fuel (Z.lor addr 0x80);
  val ← apex_nfc_spi_xfer fuel 0x00;
  _ ← apex_nfc_cs_release;
  mret val.
End Programs.

(** ** The controller as documented

    Two FIFOs: the bytes written to the data register that have not been
    exchanged with the chip yet ([sending]), and those received in exchange that
    have not been read ([received]).  The exchange takes its time, which passes
    while the status register is polled: TNF tells that there is room to send, RNE
    that something was received.  A write without TNF, a read without RNE and a
    move of the select during an exchange are outside the laws.  The chip's select
    is driven by bit [pin] of the register [out], of which the chip sees the
    edges; [sc_view] is all that matters of the rest of the processor. *)
Class SpiController {Hw : Soc} {Sl : SpiSlave} := {
  attached : soc -> slave;
  sending : soc -> list Z;
  received : soc -> list Z;
}.

Definition fifos {Hw : Soc} {Sl : SpiSlave} {Ct : SpiController} (d : soc)
    : slave * list Z * list Z := (attached d, sending d, received d).
Definition sc_view {Hw : Soc} {Sl : SpiSlave} {Ct : SpiController} (base out : Z) (d : soc)
    : slave * list Z * list Z * Z * Z :=
  (fifos d, peek (base + SSPCR1) d, peek out d).

(** the oldest byte is exchanged with the chip, while there is room for the answer *)
Inductive shift {Sl : SpiSlave} : slave * list Z * list Z -> slave * list Z * list Z -> Prop :=
| shift_byte c b tx rx : (length rx < 8)%nat ->
    shift (c, b :: tx, rx) (snd (sl_xfer b c), tx, rx ++ [fst (sl_xfer b c)]).

Class SpiControllerLaws {Hw : Soc} {Sl : SpiSlave} (Ct : SpiController) (base out pin : Z) := {
  sc_patience : nat;
  sc_time : forall d, peek (base + SSPCR1) d = 2 ->
    rtc shift (fifos d) (fifos (tick (base + SSPSR) d)) /\
    peek (base + SSPCR1) (tick (base + SSPSR) d) = 2 /\
    peek out (tick (base + SSPSR) d) = peek out d;
  sc_room : forall d, peek (base + SSPCR1) d = 2 -> (length (sending d) <= 8)%nat ->
    received d = [] ->
    exists k, (k < sc_patience)%nat /\
      Z.testbit (peek (base + SSPSR) (Nat.iter k (tick (base + SSPSR)) d)) 1 = true;
  sc_room_stays : forall d, peek (base + SSPCR1) d = 2 ->
    Z.testbit (peek (base + SSPSR) d) 1 = true ->
    Z.testbit (peek (base + SSPSR) (tick (base + SSPSR) d)) 1 = true;
  sc_send : forall b d, byte b -> peek (base + SSPCR1) d = 2 ->
    Z.testbit (peek (base + SSPSR) d) 1 = true ->
    sc_view base out (poke (base + SSPDR) b d) =
      (attached d, sending d ++ [b], received d, 2, peek out d);
  sc_ready : forall d, Z.testbit (peek (base + SSPSR) d) 2 = true <-> received d <> [];
  sc_progress : forall d, peek (base + SSPCR1) d = 2 -> sending d <> [] -> received d = [] ->
    exists k, (k < sc_patience)%nat /\ received (Nat.iter k (tick (base + SSPSR)) d) <> [];
  sc_take : forall b l d, sending d = [] -> received d = b :: l -> peek (base + SSPDR) d = b /\
    sc_view base out (tick (base + SSPDR) d) = (attached d, [], l, peek (base + SSPCR1) d, peek out d);
  sc_load : forall d, sending d = [] -> sc_view base out (tick GPIO_OUT d) = sc_view base out d;
  sc_select : forall v d, sending d = [] -> 0 <= v < 4294967296 ->
    sc_view base out (poke out v d) =
      (if Bool.eqb (Z.testbit v pin) (Z.testbit (peek out d) pin) then attached d
       else sl_cs (negb (Z.testbit v pin)) (attached d),
       [], received d, peek (base + SSPCR1) d, v);
  sc_other : forall v d, out <> GPIO_OUT -> sending d = [] ->
    sc_view base out (poke GPIO_OUT v d) = sc_view base out d;
}.

(** a wait ends at the first poll that satisfies the test *)
Lemma wait_iter {Hw : Soc} a test : forall k fuel (s : st), (k < fuel)%nat ->
  test (peek a (Nat.iter k (tick a) (dev s))) = true ->
  exists j, wait_until fuel a test s = Some (tt, s <| dev ::= Nat.iter (S j) (tick a) |>) /\
    test (peek a (Nat.iter j (tick a) (dev s))) = true.
Proof.
  induction k as [|k IH]; intros [|fuel] s Hk Ht; try lia; cbn [wait_until];
    unfold mbind, prog_bind, load.
  - cbn in Ht. rewrite Ht. by exists 0%nat.
  - destruct (test (peek a (dev s))) eqn:E; [by exists 0%nat|]. rewrite Nat.iter_succ_r in Ht.
    destruct (IH fuel (s <| dev ::= tick a |>) ltac:(lia) Ht) as (j & Ej & Et).
    exists (S j). change (dev (s <| dev ::= tick a |>)) with (tick a (dev s)) in Et.
    rewrite <- Nat.iter_succ_r in Et. split; [|exact Et]. rewrite Ej. do 2 f_equal.
    unfold update. cbn [dev]. by rewrite <- Nat.iter_succ_r.
Qed.

Section Refinement.
Context {Hw : Soc} {Sl : SpiSlave} {Ct : SpiController} {base out pin : Z}
  {Laws : SpiControllerLaws Ct base out pin}.
Implicit Types (s : st) (c : slave) (d : soc).

(** the controller is enabled, with nothing to send or to give; the chip is [c]
    and the select register holds [g] *)
Definition resting (c : slave) (g : Z) (s : st) : Prop :=
  sc_view base out (dev s) = (c, [], [], 2, g).

Lemma view_fields d c tx rx e g : sc_view base out d = (c, tx, rx, e, g) ->
  attached d = c /\ sending d = tx /\ received d = rx /\ fifos d = (c, tx, rx) /\
  peek (base + SSPCR1) d = e /\ peek out d = g.
Proof. unfold sc_view, fifos. by intros [= <- <- <- <- <-]. Qed.

(** polling the status: time passes, and the flag for room stays *)
Lemma time_iter k d : peek (base + SSPCR1) d = 2 ->
  rtc shift (fifos d) (fifos (Nat.iter k (tick (base + SSPSR)) d)) /\
  peek (base + SSPCR1) (Nat.iter k (tick (base + SSPSR)) d) = 2 /\
  peek out (Nat.iter k (tick (base + SSPSR)) d) = peek out d.
Proof.
  intros He. induction k as [|k (Hs & E & Eo)]; [by split|]. rewrite Nat.iter_succ.
  destruct (sc_time _ E) as (Hs' & E' & Eo'). split; [by etrans|]. split; [done|]. by rewrite Eo'.
Qed.

(** nothing to send: nothing happens; one byte: it is exchanged, or not yet *)
Lemma shift_none c rx x : rtc shift (c, [], rx) x -> x = (c, [], rx).
Proof. by inversion 1 as [|? ? ? Hs]; [|inversion Hs]. Qed.

Lemma shift_one b c x : rtc shift (c, [b], []) x ->
  x = (c, [b], []) \/ x = (snd (sl_xfer b c), [], [fst (sl_xfer b c)]).
Proof.
  inversion 1 as [|? ? ? Hs Hr]; [by left|]. inversion Hs; subst. right. by apply shift_none in Hr.
Qed.

(** after the wait for room the idle controller is as it was, and has room *)
Lemma wait_room fuel c g s : (sc_patience <= fuel)%nat -> resting c g s ->
  exists s', wait_until fuel (base + SSPSR) (fun v => has_bits v SSPSR_TNF) s = Some (tt, s') /\
    resting c g s' /\ Z.testbit (peek (base + SSPSR) (dev s')) 1 = true.
Proof.
  intros Hf R. destruct (view_fields _ _ _ _ _ _ R) as (_ & Es & Er & Ef & Ee & Eo).
  destruct (sc_room _ Ee ltac:(rewrite Es; simpl; lia) Er) as (k & Hk & E).
  destruct (wait_iter (base + SSPSR) (fun v => has_bits v SSPSR_TNF) k fuel s) as (j & -> & Et);
    [lia|by rewrite (has_BIT _ 1)|].
  rewrite (has_BIT _ 1) in Et by done. eexists. split; [reflexivity|].
  destruct (time_iter (S j) _ Ee) as (Hs & Ee' & Eo'). rewrite Ef in Hs. apply shift_none in Hs.
  split; [by unfold resting, sc_view, update; cbn [dev]; rewrite Hs, Ee', Eo', Eo|].
  unfold update. cbn [dev]. rewrite Nat.iter_succ. apply sc_room_stays; [|done]. by destruct (time_iter j _ Ee) as (_ & ? & _).
Qed.

(** after the wait for an answer the byte has been exchanged *)
Lemma wait_answer fuel b c g s : (sc_patience <= fuel)%nat ->
  sc_view base out (dev s) = (c, [b], [], 2, g) ->
  exists s', wait_until fuel (base + SSPSR) (fun v => has_bits v SSPSR_RNE) s = Some (tt, s') /\
    sc_view base out (dev s') = (snd (sl_xfer b c), [], [fst (sl_xfer b c)], 2, g).
Proof.
  intros Hf V. destruct (view_fields _ _ _ _ _ _ V) as (_ & Es & Er & Ef & Ee & Eo).
  destruct (sc_progress (dev s) Ee) as (k & Hk & E); [by rewrite Es|done|].
  destruct (wait_iter (base + SSPSR) (fun v => has_bits v SSPSR_RNE) k fuel s) as (j & -> & Et);
    [lia|rewrite (has_BIT _ 2) by done; by apply sc_ready|].
  rewrite (has_BIT _ 2) in Et by done. apply sc_ready in Et.
  eexists. split; [reflexivity|]. unfold update. cbn [dev]. rewrite Nat.iter_succ.
  destruct (time_iter j _ Ee) as (Hs & Ej & Oj). rewrite Ef in Hs.
  apply shift_one in Hs as [Hs|Hs]; [unfold fifos in Hs; congruence|].
  destruct (sc_time _ Ej) as (Hs' & Ee' & Eo'). rewrite Hs in Hs'. apply shift_none in Hs'.
  unfold sc_view. by rewrite Hs', Ee', Eo', Oj, Eo.
Qed.

Lemma xfer_refines fuel b c g s : (sc_patience <= fuel)%nat -> resting c g s ->
  exists s', spi_xfer_at fuel base b s = Some (fst (sl_xfer (u8 b) c), s') /\
    resting (snd (sl_xfer (u8 b) c)) g s'.
Proof.
  intros Hf R. unfold spi_xfer_at, mbind, prog_bind.
  destruct (wait_room fuel c g s Hf R) as (s1 & -> & R1 & Room). cbn [store].
  destruct (view_fields _ _ _ _ _ _ R1) as (Ea & Es & Er & _ & Ee & Eo).
  set (s2 := s1 <| dev ::= _ |> <| stores ::= _ |>).
  assert (sc_view base out (dev s2) = (c, [u8 b], [], 2, g)) as V2.
  { change (dev s2) with (poke (base + SSPDR) (u32 (u8 b)) (dev s1)).
    pose proof (u8_range b) as Hb. rewrite (u32_small (u8 b)) by lia.
    rewrite (sc_send (u8 b) (dev s1) Hb Ee Room). by rewrite Ea, Es, Er, Eo. }
  destruct (wait_answer fuel (u8 b) c g s2 Hf V2) as (s3 & -> & V3).
  destruct (view_fields _ _ _ _ _ _ V3) as (Wa & Ws & Wr & _ & We & Wo).
  destruct (sc_take _ _ (dev s3) Ws Wr) as [Ep Ev].
  assert (Z.land (fst (sl_xfer (u8 b) c)) 0xFF = fst (sl_xfer (u8 b) c)) as El.
  { pose proof (sl_xfer_byte (u8 b) c) as Hb. unfold byte in Hb.
    change 255 with (Z.ones 8). rewrite Z.land_ones by lia. by apply Z.mod_small. }
  unfold load. rewrite Ep, El. eexists. split; [reflexivity|].
  unfold resting, update. cbn [dev]. by rewrite Ev, Wa, We, Wo.
Qed.

(** the chip's side of several exchanges *)
Fixpoint exchanges (l : list Z) (c : slave) : list Z * slave :=
  match l with
  | [] => ([], c)
  | b :: l =>
      let (r, c) := sl_xfer (u8 b) c in
      let (rs, c) := exchanges l c in (r :: rs, c)
  end.

Lemma xfers_refine fuel l c g s : (sc_patience <= fuel)%nat -> resting c g s ->
  exists s', xfers_at fuel base l s = Some (fst (exchanges l c), s') /\
    resting (snd (exchanges l c)) g s'.
Proof.
  intros Hf. revert c s. induction l as [|b l IH]; intros c s R; cbn [xfers_at exchanges].
  { by exists s. }
  unfold mbind, prog_bind. destruct (xfer_refines fuel b c g s Hf R) as (s1 & -> & R1).
  destruct (sl_xfer (u8 b) c) as [r c1]. cbn [fst snd] in *.
  destruct (IH c1 s1 R1) as (s2 & -> & R2). destruct (exchanges l c1) as [rs c2].
  by exists s2.
Qed.

(** SpiSlave's exchanges are these *)
Lemma spi_xfers_exchanges l p :
  spi_xfers l p = (fst (exchanges l (chip p)),
    {| chip := snd (exchanges l (chip p)); wire := wire p ++ (BusTx <$> (u8 <$> l)) |}).
Proof.
  revert p. induction l as [|b l IH]; intros p; cbn [spi_xfers exchanges].
  { rewrite app_nil_r. by destruct p. }
  unfold spi_xfer. destruct (sl_xfer _ _) as [r c]. rewrite IH. unfold update. cbn [chip wire].
  destruct (exchanges l c) as [rs c']. cbn [fst snd]. by rewrite <- app_assoc.
Qed.

(** *** The chip selects *)

Lemma cs_low_refines c g s : pin < 32 -> 0 <= pin -> out = GPIO_OUT ->
  Z.testbit g pin = true -> resting c g s ->
  exists s', cs_low pin s = Some (tt, s') /\ resting (sl_cs true c) (u32 (Z.ldiff g (BIT pin))) s'.
Proof.
  intros Hp Hp0 Ho Hg R. pose proof R as V. apply view_fields in V as (Ea & Es & Er & _ & Ee & Eo).
  unfold cs_low, clear_bits, pin_mask, mbind, prog_bind. rewrite (proj2 (Z.ltb_lt _ _) Hp).
  unfold load, store. eexists. split; [reflexivity|]. unfold resting, update. cbn [dev].
  pose proof (sc_load (dev s) Es) as L. rewrite R in L.
  apply view_fields in L as (La & Ls & Lr & _ & Le & Lo).
  rewrite <- Ho at 1. rewrite sc_select by (done || apply u32_range).
  assert (peek GPIO_OUT (dev s) = g) as -> by congruence.
  rewrite La, Lr, Le, Lo, testbit_u32, testbit_clear, Hg by lia. done.
Qed.

Lemma cs_high_refines c g s : pin < 32 -> 0 <= pin -> out = GPIO_OUT ->
  Z.testbit g pin = false -> resting c g s ->
  exists s', cs_high pin s = Some (tt, s') /\ resting (sl_cs false c) (u32 (Z.lor g (BIT pin))) s'.
Proof.
  intros Hp Hp0 Ho Hg R. pose proof R as V. apply view_fields in V as (Ea & Es & Er & _ & Ee & Eo).
  unfold cs_high, set_bits, pin_mask, mbind, prog_bind. rewrite (proj2 (Z.ltb_lt _ _) Hp).
  unfold load, store. eexists. split; [reflexivity|]. unfold resting, update. cbn [dev].
  pose proof (sc_load (dev s) Es) as L. rewrite R in L.
  apply view_fields in L as (La & Ls & Lr & _ & Le & Lo).
  rewrite <- Ho at 1. rewrite sc_select by (done || apply u32_range).
  assert (peek GPIO_OUT (dev s) = g) as -> by congruence.
  rewrite La, Lr, Le, Lo, testbit_u32, testbit_set, Hg by lia. done.
Qed.

(** a select pin that is not in GPIO_OUT: the writes do not reach it *)
Lemma cs_lost n c g s : out <> GPIO_OUT -> resting c g s ->
  (exists s', cs_low n s = Some (tt, s') /\ resting c g s') /\
  (exists s', cs_high n s = Some (tt, s') /\ resting c g s').
Proof.
  intros Ho R. pose proof R as V. apply view_fields in V as (_ & Es & _).
  pose proof (sc_load (dev s) Es) as L. pose proof L as V. rewrite R in V.
  apply view_fields in V as (_ & Ls & _).
  split; (eexists; split; [reflexivity|]); unfold resting, update; cbn [dev];
    by rewrite sc_other, L.
Qed.

(** *** Transactions *)

Lemma transact_refines fuel l c g s p : (sc_patience <= fuel)%nat ->
  pin < 32 -> 0 <= pin -> out = GPIO_OUT -> Z.testbit g pin = true -> chip p = c -> resting c g s ->
  exists s' g', transact_at fuel base pin l s = Some (fst (transact l p), s') /\
    resting (chip (snd (transact l p))) g' s' /\ Z.testbit g' pin = true /\
    forall n, 0 <= n < 32 -> Z.testbit g' n = Z.testbit g n.
Proof.
  intros Hf Hp Hp0 Ho Hg <- R. unfold transact_at, transact, mbind, prog_bind.
  destruct (cs_low_refines _ g s Hp Hp0 Ho Hg R) as (s1 & -> & R1).
  destruct (xfers_refine fuel l _ _ s1 Hf R1) as (s2 & -> & R2).
  assert (Z.testbit (u32 (Z.ldiff g (BIT pin))) pin = false) as Hl
    by (by rewrite testbit_u32, testbit_clear by lia).
  destruct (cs_high_refines _ _ s2 Hp Hp0 Ho Hl R2) as (s3 & -> & R3).
  rewrite spi_xfers_exchanges. exists s3. eexists. split; [reflexivity|]. split; [exact R3|].
  split; [by rewrite testbit_u32, testbit_set by lia|].
  intros n Hn. rewrite testbit_u32 by lia. destruct (Z.eq_dec pin n) as [<-|Hne].
  - by rewrite testbit_set.
  - rewrite testbit_set_ne, testbit_u32, testbit_clear_ne by lia. done.
Qed.
End Refinement.

(** a chip whose select is never driven *)
Definition unselected (Sl : SpiSlave) : SpiSlave := {|
  slave := slave; sl_cs := fun _ c => c; sl_xfer := sl_xfer; sl_pin := sl_pin;
  sl_xfer_byte := sl_xfer_byte |}.

(** ** Conversations *)

Section Conversations.
Context {Hw : Soc} {Sl : SpiSlave}.

Fixpoint conversation_at (fuel : nat) (base pin : Z) (ls : list (list Z)) : prog (list (list Z)) :=
  match ls with
  | [] => mret []
  | l :: ls =>
      r ← transact_at fuel base pin l; rs ← conversation_at fuel base pin ls; mret (r :: rs)
  end.

Fixpoint conversation (ls : list (list Z)) : bus (list (list Z)) :=
  match ls with
  | [] => mret []
  | l :: ls => r ← transfer l; rs ← conversation ls; mret (r :: rs)
  end.

Context {Ct : SpiController} {base out pin : Z} {Laws : SpiControllerLaws Ct base out pin}.

Lemma conversation_refines fuel ls g s p : (sc_patience <= fuel)%nat ->
  pin < 32 -> 0 <= pin -> out = GPIO_OUT -> Z.testbit g pin = true ->
  resting (base := base) (out := out) (SpiSlave.chip p) g s ->
  exists s' g', conversation_at fuel base pin ls s = Some (fst (conversation ls p), s') /\
    resting (base := base) (out := out) (SpiSlave.chip (snd (conversation ls p))) g' s' /\
    Z.testbit g' pin = true /\ forall n, 0 <= n < 32 -> Z.testbit g' n = Z.testbit g n.
Proof.
  intros Hf Hp Hp0 Ho. revert g s p. induction ls as [|l ls IH]; intros g s p Hg R.
  { exists s, g. by split_and!. }
  cbn [conversation_at conversation]. unfold mbind, prog_bind, bus_bind, transfer.
  destruct (transact_refines fuel l (SpiSlave.chip p) g s p Hf Hp Hp0 Ho Hg eq_refl R) as (s1 & g1 & -> & R1 & G1 & E1).
  destruct (transact l p) as [r p1]. cbn [fst snd] in *.
  destruct (IH g1 s1 p1 G1 R1) as (s2 & g2 & -> & R2 & G2 & E2).
  destruct (conversation ls p1) as [rs p2]. exists s2, g2. split_and!; try done.
  intros n Hn. rewrite E2, E1 by done. done.
Qed.

(** the bursts are transactions *)
Lemma write_burst_transact fuel addr data s :
  apex_cc1101_write_burst fuel addr data s =
  match transact_at fuel SPI1_BASE PIN_CC_SPI_CSN (Z.lor addr 0x40 :: data) s with
  | Some (_, s') => Some (tt, s') | None => None end.
Proof.
  unfold apex_cc1101_write_burst, apex_cc1101_spi_xfer, transact_at, apex_cc1101_cs_assert,
    apex_cc1101_cs_release. cbn [xfers_at]. unfold mbind, prog_bind.
  destruct (cs_low _ s) as [[[] s1]|]; [|done]. destruct (spi_xfer_at _ _ _ s1) as [[r s2]|]; [|done].
  destruct (xfers_at _ _ data s2) as [[rs s3]|]; [|done]. cbn. by destruct (cs_high _ s3) as [[[] s4]|].
Qed.

Lemma read_burst_transact fuel addr len s :
  apex_cc1101_read_burst fuel addr len s =
  match transact_at fuel SPI1_BASE PIN_CC_SPI_CSN (Z.lor addr 0xC0 :: replicate len 0) s with
  | Some (rs, s') => Some (drop 1 rs, s') | None => None end.
Proof.
  unfold apex_cc1101_read_burst, apex_cc1101_spi_xfer, transact_at, apex_cc1101_cs_assert,
    apex_cc1101_cs_release. cbn [xfers_at]. unfold mbind, prog_bind.
  destruct (cs_low _ s) as [[[] s1]|]; [|done]. destruct (spi_xfer_at _ _ _ s1) as [[r s2]|]; [|done].
  destruct (xfers_at _ _ _ s2) as [[rs s3]|]; [|done]. cbn. by destruct (cs_high _ s3) as [[[] s4]|].
Qed.
End Conversations.

(** C17: The CC1101 driver's view of its bus is what the registers do.  On the
    documented SPI controller, whose FIFOs may be written only while TNF is set and
    read only while RNE is, with the chip select high and the FIFOs empty:
    any conversation of transactions, each written with the waits on the status
    register that rp2350b_init.c has, terminates, returns the bytes the chip
    model of SpiSlave.v returns, leaves the chip in the state that model leaves
    it, the select high, every other pin as it was, and the controller ready
    for the next one; so do the burst accesses. *)
Theorem cc1101_bus_refined {Hw : Soc} {Sl : SpiSlave} {Ct : SpiController}
  {Laws : SpiControllerLaws Ct SPI1_BASE GPIO_OUT PIN_CC_SPI_CSN}
  (fuel : nat) (ls : list (list Z)) (addr : Z) (data : list Z) (len : nat)
  (g : Z) (s : st) (p : port)
  (Hf : (sc_patience <= fuel)%nat) (Hg : Z.testbit g PIN_CC_SPI_CSN = true)
  (R : resting (base := SPI1_BASE) (out := GPIO_OUT) (SpiSlave.chip p) g s) :
  let rests p' s' := exists g', resting (base := SPI1_BASE) (out := GPIO_OUT) (SpiSlave.chip p') g' s' /\
    forall n, 0 <= n < 32 -> Z.testbit g' n = Z.testbit g n in
  (exists s', conversation_at fuel SPI1_BASE PIN_CC_SPI_CSN ls s =
     Some (fst (conversation ls p), s') /\ rests (snd (conversation ls p)) s') /\
  (exists s', apex_cc1101_read_burst fuel addr len s =
     Some (fst (Cc1101.apex_cc1101_read_burst addr (Z.of_nat len) p), s') /\
     rests (snd (Cc1101.apex_cc1101_read_burst addr (Z.of_nat len) p)) s') /\
  (exists s', apex_cc1101_write_burst fuel addr data s = Some (tt, s') /\
     rests (snd (transact (Z.lor addr 0x40 :: data) p)) s').
Proof.
  cbv zeta. split_and!.
  - destruct (conversation_refines fuel ls g s p Hf) as (s' & g' & E & R' & _ & Eg); try done.
    eauto 6.
  - rewrite read_burst_transact.
    destruct (transact_refines fuel (Z.lor addr 0xC0 :: replicate len 0) (SpiSlave.chip p) g s p Hf)
      as (s' & g' & -> & R' & _ & Eg); try done.
    exists s'. unfold Cc1101.apex_cc1101_read_burst, mbind, bus_bind, transfer. rewrite Nat2Z.id.
    destruct (transact _ p) as [rs p']. eauto.
  - rewrite write_burst_transact.
    destruct (transact_refines fuel (Z.lor addr 0x40 :: data) (SpiSlave.chip p) g s p Hf)
      as (s' & g' & -> & R' & _ & Eg); try done.
    eauto.
Qed.

(** a chip that takes nothing in while it is not selected *)
Lemma silent_transact {Sl : SpiSlave} (c : slave) z l t : (forall b, sl_xfer b c = (z, c)) ->
  exists t', transact (Sl := unselected Sl) l {| SpiSlave.chip := (c : slave (SpiSlave := unselected Sl)); wire := t |} =
    (replicate (length l) z, {| SpiSlave.chip := (c : slave (SpiSlave := unselected Sl)); wire := t' |}).
Proof.
  intros Hz. unfold transact. rewrite spi_xfers_exchanges.
  change (SpiSlave.chip (cs_assert _)) with c.
  assert (exchanges (Sl := unselected Sl) l c = (replicate (length l) z, c)) as ->.
  { induction l as [|b l IH]; [done|]. cbn [exchanges length replicate].
    change (sl_xfer (SpiSlave := unselected Sl) (u8 b) c) with (sl_xfer (SpiSlave := Sl) (u8 b) c).
    by rewrite Hz, IH. }
  by eexists.
Qed.

(** C18: The NFC chip is never selected.  The code drives its select with a shift
    of GPIO_OUT by 43; on a processor where pin 43 is in another register, its
    transactions terminate but their exchanges are with a chip that was not
    selected.  If such a chip leaves the line at [z] and takes nothing in, every
    register reads [z], no write reaches the chip, and unless [z] happens to be
    an identity of the chip, st25r3916_init over such a bus reports that there is
    no chip. *)
Theorem nfc_chip_never_selected {Hw : Soc} {Sl : SpiSlave} {Ct : SpiController} {out pin : Z}
  {Laws : SpiControllerLaws Ct SPI2_BASE out pin}
  (fuel : nat) (addr val z : Z) (c : slave) (g : Z) (s : st) (t : list bus_event)
  (Hf : (sc_patience <= fuel)%nat) (Ho : out <> GPIO_OUT)
  (R : resting (base := SPI2_BASE) (out := out) c g s)
  (Hz : forall b, sl_xfer b c = (z, c)) (Hid : z <> 0x39 /\ z <> 0x89) :
  let silent := {| SpiSlave.chip := c : slave (SpiSlave := unselected Sl); wire := t |} in
  (exists s', apex_nfc_read_register fuel addr s = Some (z, s') /\
     resting (base := SPI2_BASE) (out := out) c g s') /\
  (exists s', apex_nfc_write_register fuel addr val s = Some (tt, s') /\
     resting (base := SPI2_BASE) (out := out) c g s') /\
  fst (St25r3916.st25r3916_init (Sl := unselected Sl) silent) = -1 /\
  SpiSlave.chip (snd (St25r3916.st25r3916_init (Sl := unselected Sl) silent)) = c.
Proof.
  cbv zeta.
  assert (forall b s, resting (base := SPI2_BASE) (out := out) c g s -> exists s', spi_xfer_at fuel SPI2_BASE b s = Some (z, s') /\
    resting (base := SPI2_BASE) (out := out) c g s') as Hx.
  { intros b s0 R0. destruct (xfer_refines fuel b c g s0 Hf R0) as (s' & E & R').
    rewrite Hz in E, R'. by exists s'. }
  destruct (cs_lost (pin := pin) PIN_NFC_SPI_CSN c g s Ho R) as [(s1 & E1 & R1) _].
  assert (exists p, St25r3916.st25r3916_init (Sl := unselected Sl)
    {| SpiSlave.chip := c : slave (SpiSlave := unselected Sl); wire := t |} = (-1, p) /\
    SpiSlave.chip p = c) as (p & Hinit & Hp).
  { unfold St25r3916.st25r3916_init, St25r3916.st25r3916_read_reg, St25r3916.apex_nfc_read_register,
      transfer, mbind, bus_bind.
    change (0x3F <? St25r3916.REG_IC_IDENTITY) with false. cbv iota.
    destruct (silent_transact c z [Z.lor St25r3916.REG_IC_IDENTITY 128; 0] t Hz) as (t' & ->).
    unfold mret, bus_ret. cbn [length replicate byte_at nth].
    unfold byte_at. cbn [nth].
    rewrite (proj2 (Z.eqb_neq z 0x39)), (proj2 (Z.eqb_neq z 0x89)) by tauto. by eexists. }
  split_and!.
  - unfold apex_nfc_read_register, mbind, prog_bind, apex_nfc_cs_assert, apex_nfc_spi_xfer.
    rewrite E1. destruct (Hx (Z.lor addr 0x80) s1 R1) as (s2 & -> & R2).
    destruct (Hx 0 s2 R2) as (s3 & -> & R3).
    destruct (cs_lost (pin := pin) PIN_NFC_SPI_CSN c g s3 Ho R3) as [_ (s4 & E4 & R4)].
    unfold apex_nfc_cs_release. rewrite E4. by exists s4.
  - unfold apex_nfc_write_register, mbind, prog_bind, apex_nfc_cs_assert, apex_nfc_spi_xfer.
    rewrite E1. destruct (Hx (Z.land addr 0x7F) s1 R1) as (s2 & -> & R2).
    destruct (Hx val s2 R2) as (s3 & -> & R3).
    destruct (cs_lost (pin := pin) PIN_NFC_SPI_CSN c g s3 Ho R3) as [_ (s4 & E4 & R4)].
    unfold apex_nfc_cs_release. rewrite E4. by exists s4.
  - by rewrite Hinit.
  - by rewrite Hinit.
Qed.

(** *** A concrete controller, with a chip that echoes while it is selected *)

#[local] Program Instance echo_slave : SpiSlave := {|
  slave := bool * Z;
  sl_cs := fun b s => (b, snd s);
  sl_xfer := fun b s => if (fst s : bool) then (u8 (snd s), (true, b)) else (0xFF, s);
  sl_pin := fun _ _ => false |}.
Next Obligation. intros b [[] x]; cbn; [apply u8_range|unfold byte; lia]. Qed.

Record ctl := { c_regs : gmap Z Z; c_chip : bool * Z; c_txq : list Z; c_rxq : list Z }.

(** TNF, and RNE when a byte was received *)
Definition ctl_peek (base a : Z) (d : ctl) : Z :=
  if a =? base + SSPSR then
    (if (length (c_txq d) <? 8)%nat then 2 else 0) + match c_rxq d with [] => 0 | _ => 4 end
  else if a =? base + SSPDR then hd 0 (c_rxq d) else default 0 (c_regs d !! a).
(** an exchange takes as long as one poll of the status *)
Definition ctl_tick (base a : Z) (d : ctl) : ctl :=
  if a =? base + SSPDR then Build_ctl (c_regs d) (c_chip d) (c_txq d) (tl (c_rxq d))
  else if a =? base + SSPSR then
    match c_txq d with
    | b :: tx =>
        if (length (c_rxq d) <? 8)%nat then
          Build_ctl (c_regs d) (snd (sl_xfer b (c_chip d))) tx
            (c_rxq d ++ [fst (sl_xfer b (c_chip d))])
        else d
    | [] => d
    end
  else d.
Definition ctl_poke (base out pin a v : Z) (d : ctl) : ctl :=
  if a =? base + SSPDR then
    (if (length (c_txq d) <? 8)%nat
     then Build_ctl (c_regs d) (c_chip d) (c_txq d ++ [v]) (c_rxq d) else d)
  else
    Build_ctl (<[a := v]> (c_regs d))
      (if (a =? out) && negb (Bool.eqb (Z.testbit v pin) (Z.testbit (ctl_peek base out d) pin))
       then sl_cs (negb (Z.testbit v pin)) (c_chip d) else c_chip d)
      (c_txq d) (c_rxq d).

Definition ctl_soc (base out pin : Z) : Soc := {|
  soc := ctl; peek := ctl_peek base; tick := ctl_tick base; poke := ctl_poke base out pin;
  wide := fun _ => 0 |}.
Definition ctl_controller (base out pin : Z) : SpiController (Hw := ctl_soc base out pin) :=
  {| attached := c_chip : soc (Soc := ctl_soc base out pin) -> slave; sending := c_txq;
     received := c_rxq |}.

(** registers that are not the controller's *)
Definition apart (base a : Z) : bool :=
  negb (a =? base + SSPSR) && negb (a =? base + SSPDR) && negb (a =? base + SSPCR1).

Lemma ctl_room base d : Z.testbit (ctl_peek base (base + SSPSR) d) 1 = (length (c_txq d) <? 8)%nat.
Proof. unfold ctl_peek. rewrite Z.eqb_refl. destruct (_ <? 8)%nat; by destruct (c_rxq d). Qed.

Lemma ctl_ready base d : Z.testbit (ctl_peek base (base + SSPSR) d) 2 = true <-> c_rxq d <> [].
Proof.
  unfold ctl_peek. rewrite Z.eqb_refl. by destruct (_ <? 8)%nat; destruct (c_rxq d); split.
Qed.

Definition ctl_laws base out pin :
  apart base out = true -> apart base GPIO_OUT = true ->
  SpiControllerLaws (ctl_controller base out pin) base out pin.
Proof.
  intros Ho Hg. apply (Build_SpiControllerLaws _ _ _ base out pin 2%nat);
    unfold sc_view, fifos; cbn [peek poke tick attached sending received ctl_soc ctl_controller];
    unfold apart in *; apply andb_true_iff in Ho as [Ho O3], Hg as [Hg G3];
    apply andb_true_iff in Ho as [O1 O2], Hg as [G1 G2];
    apply negb_true_iff in O1, O2, O3, G1, G2, G3;
    assert ((base + SSPCR1 =? base + SSPSR) = false) as C1 by (unfold SSPCR1, SSPSR; lia);
    assert ((base + SSPCR1 =? base + SSPDR) = false) as C2 by (unfold SSPCR1, SSPDR; lia);
    assert ((base + SSPSR =? base + SSPDR) = false) as C3 by (unfold SSPSR, SSPDR; lia);
    assert ((base + SSPDR =? base + SSPSR) = false) as C4 by (unfold SSPSR, SSPDR; lia).
  - intros d Hd. unfold ctl_tick, ctl_peek in *. rewrite C3, Z.eqb_refl, C1, C2, O1, O2 in *.
    destruct (c_txq d) as [|b tx] eqn:Et; [by rewrite Et|].
    destruct (Nat.ltb_spec (length (c_rxq d)) 8); [|by rewrite Et]. cbn. split; [|done].
    apply rtc_once. by constructor.
  - intros d Hd Hl Hr. destruct (Nat.ltb_spec (length (c_txq d)) 8).
    + exists 0%nat. split; [lia|]. cbn [Nat.iter nat_rect]. rewrite ctl_room. by apply Nat.ltb_lt.
    + exists 1%nat. split; [lia|]. cbn [Nat.iter nat_rect]. rewrite ctl_room. apply Nat.ltb_lt.
      unfold ctl_tick. rewrite C3, Z.eqb_refl, Hr. destruct (c_txq d); simpl in *; lia.
  - intros d Hd. rewrite !ctl_room, !Nat.ltb_lt. unfold ctl_tick. rewrite C3, Z.eqb_refl.
    destruct (c_txq d) as [|b tx] eqn:Et; [by rewrite Et|]. destruct (_ <? 8)%nat; [|by rewrite Et].
    cbn. lia.
  - intros b d Hb Hd Hr. rewrite ctl_room in Hr. unfold ctl_poke, ctl_peek in *.
    rewrite !Z.eqb_refl, Hr, C1, C2, O1, O2 in *. cbn. by rewrite Hd.
  - intros d. apply ctl_ready.
  - intros d Hd Ht Hr. exists 1%nat. split; [lia|]. cbn. unfold ctl_tick. rewrite C3, Z.eqb_refl.
    destruct (c_txq d) as [|b tx]; [done|]. rewrite Hr. done.
  - intros b l d Ht Hd. unfold ctl_tick, ctl_peek. rewrite Z.eqb_refl, C1, C2, C4, O1, O2. cbn.
    by rewrite Hd, Ht.
  - intros d _. unfold ctl_tick. by rewrite G1, G2.
  - intros v d Ht Hv. unfold ctl_poke, ctl_peek. rewrite O2, Z.eqb_refl, O1, C1, C2.
    cbn [c_regs c_chip c_rxq c_txq andb]. rewrite Ht.
    rewrite lookup_insert_eq, lookup_insert_ne by (apply Z.eqb_neq; exact O3). cbn [default].
    by destruct (Bool.eqb _ _).
  - intros v d Hne Ht. unfold ctl_poke, ctl_peek. rewrite G2, O1, O2, C1, C2. cbn [c_regs c_chip c_rxq c_txq].
    rewrite (proj2 (Z.eqb_neq GPIO_OUT out)) by congruence. cbn [andb].
    rewrite !lookup_insert_ne; [done|congruence|apply Z.eqb_neq; exact G3].
Defined.

Definition ctl_state (regs : gmap Z Z) (c : bool * Z) : ctl := Build_ctl regs c [] [].

Lemma cc1101_bus_refined_witness :
  let Hw := ctl_soc SPI1_BASE GPIO_OUT PIN_CC_SPI_CSN in
  let d := ctl_state {[ SPI1_BASE + SSPCR1 := 2; GPIO_OUT := BIT PIN_CC_SPI_CSN ]} (false, 7) in
  let s := Build_st (Hw := Hw) d [] in
  let p := {| SpiSlave.chip := (false, 7) : slave; wire := [] |} in
  option_map fst (conversation_at 2 SPI1_BASE PIN_CC_SPI_CSN [[1; 2]; [3]] s) = Some [[7; 1]; [2]] /\
  exists s', conversation_at 2 SPI1_BASE PIN_CC_SPI_CSN [[1; 2]; [3]] s =
    Some (fst (conversation [[1; 2]; [3]] p), s').
Proof.
  cbv zeta. split; [vm_compute; reflexivity|].
  edestruct (cc1101_bus_refined (Hw := ctl_soc SPI1_BASE GPIO_OUT PIN_CC_SPI_CSN)
    (Ct := ctl_controller SPI1_BASE GPIO_OUT PIN_CC_SPI_CSN)
    (Laws := ctl_laws SPI1_BASE GPIO_OUT PIN_CC_SPI_CSN eq_refl eq_refl)
    2%nat [[1; 2]; [3]] 0x3B [0xAA] 2%nat (BIT PIN_CC_SPI_CSN)
    (Build_st (Hw := ctl_soc SPI1_BASE GPIO_OUT PIN_CC_SPI_CSN)
      (ctl_state {[ SPI1_BASE + SSPCR1 := 2; GPIO_OUT := BIT PIN_CC_SPI_CSN ]} (false, 7)) [])
    (Build_port (Sl := echo_slave) (false, 7) [])) as [(s' & E & _) _];
    [apply le_n|reflexivity|vm_compute; reflexivity|].
  exists s'. exact E.
Defined.

(** the NFC select is a bit of another register *)
Definition GPIO_HI_OUT : Z := GPIO_BASE + 0x14.

Lemma nfc_chip_never_selected_witness :
  let Hw := ctl_soc SPI2_BASE GPIO_HI_OUT 11 in
  let d := ctl_state {[ SPI2_BASE + SSPCR1 := 2 ]} (false, 7) in
  fst (St25r3916.st25r3916_init (Sl := unselected echo_slave)
    {| SpiSlave.chip := (false, 7) : slave (SpiSlave := unselected echo_slave); wire := [] |}) = -1 /\
  exists s', apex_nfc_read_register 2 0x3F (Build_st (Hw := Hw) d []) = Some (0xFF, s').
Proof.
  cbv zeta.
  edestruct (nfc_chip_never_selected (Hw := ctl_soc SPI2_BASE GPIO_HI_OUT 11)
    (Ct := ctl_controller SPI2_BASE GPIO_HI_OUT 11)
    (Laws := ctl_laws SPI2_BASE GPIO_HI_OUT 11 eq_refl eq_refl)
    2%nat 0x3F 0 0xFF (false, 7) 0
    (Build_st (Hw := ctl_soc SPI2_BASE GPIO_HI_OUT 11) (ctl_state {[ SPI2_BASE + SSPCR1 := 2 ]} (false, 7)) [])
    []) as ((s' & E & _) & _ & Ei & _);
    [apply le_n|discriminate|vm_compute; reflexivity|reflexivity|split; discriminate|].
  split; [exact Ei|]. exists s'. exact E.
Defined.
