(* ===== verification/Firmware.v ===== *)
(** * The firmware as a whole (main.c)

    main from power-on: init_peripherals over the register model of SocInit.v
    and the radio drivers on their chips, the watchdog, the launch of core 1
    with the two cores interleaved, the main loop with the readings it takes,
    and the watchdog bark handler.  The loop of MainLoop.v is an abstraction of
    this one.  Functions the headers declare and no file defines (the battery
    monitor's, sdr_dma_process) and the SDK's inter-core FIFO are classes. *)

From S2P Require Import Prelude Crc Frame Ring Board SpiProtocol SpiInvariant SpiTx SpiReach SpiSlave MainLoop.
From S2P Require SocInit SpiMmio Cc1101 St25r3916 SdrDma Watchdog Battery Spi0Isr.

#[local] Existing Instance mcu_frame_crc.
#[local] Opaque mcu_crc64 mcu_crc32.
#[local] Existing Instance Spi0Isr.eta_isr.

(** battery_monitor.h, of whose functions battery_monitor.c defines none *)
Class BatteryMonitor := {
  bm : Type;
  battery_monitor_init : bm -> Z * bm;
  battery_monitor_update : bm -> bm;
  battery_monitor_get_vbat_mv : bm -> Z;
  battery_monitor_get_temp_c_x10 : bm -> Z }.

(** sdr_dma.h's processing function, which sdr_dma.c does not define *)
Class CaptureLoop := { sdr_dma_process : SdrDma.sdr_dma -> SdrDma.sdr_dma }.

(** The SDK's FIFO from core 1 to core 0; [words] are those waiting, oldest
    first.  A push waits while it finds no room. *)
Class Multicore := {
  mc : Type;
  words : mc -> list Z;
  multicore_launch_core1 : mc -> mc;
  multicore_fifo_push : Z -> mc -> option mc;
  multicore_fifo_rvalid : mc -> bool;
  multicore_fifo_pop : mc -> option (Z * mc);
  launch_words s : words (multicore_launch_core1 s) = [];
  push_words w s : words s = [] -> exists s', multicore_fifo_push w s = Some s' /\ words s' = [w];
  rvalid_words s : multicore_fifo_rvalid s = match words s with [] => false | _ => true end;
  pop_words w l s : words s = w :: l ->
    exists s', multicore_fifo_pop s = Some (w, s') /\ words s' = l }.

(** ** The two cores during the launch *)

Definition CORE1_MAGIC : Z := 0xAA55AA55.
Definition CORE1_TIMEOUT_US : Z := 2000000.

Inductive core1_pc := Core1Reset | Core1Entry | Core1Loop.

(** What runs between two observations of core 0: this many steps of core 1,
    and this many microseconds. *)
Record slot := { core1_steps : nat; elapsed : Z }.

Section Launch.
Context {Mc : Multicore} {Cl : CaptureLoop}.

Record duo := { sdk : mc; pc1 : core1_pc; capture : SdrDma.sdr_dma; clock_us : Z }.
#[export] Instance eta_duo : Eta duo := eta! Build_duo < sdk ; pc1 ; capture ; clock_us >.

(** core1_entry, a step at a time *)
Definition core1_entry (d : duo) : duo :=
  match pc1 d with
  | Core1Reset => d
  | Core1Entry =>
      match multicore_fifo_push CORE1_MAGIC (sdk d) with
      | Some s => d <| sdk := s |> <| pc1 := Core1Loop |>
      | None => d
      end
  | Core1Loop => d <| capture ::= sdr_dma_process |>
  end.

Definition time_us_32 (d : duo) : Z := u32 (clock_us d).

Variable pace : nat -> slot.

Definition advance (k : nat) (d : duo) : duo :=
  Nat.iter (core1_steps (pace k)) core1_entry (d <| clock_us ::= Z.add (elapsed (pace k)) |>).

(** the polling loop; [k] numbers the slots, and the result is the first unused *)
Fixpoint await_core1 (fuel k : nat) (core1_start : Z) (d : duo) : option (nat * duo) :=
  match fuel with
  | O => None
  | S fuel =>
      let d := advance k d in
      if multicore_fifo_rvalid (sdk d) then Some (S k, d) else
      let d := advance (S k) d in
      if CORE1_TIMEOUT_US <? u32 (time_us_32 d - core1_start) then Some (S (S k), d)
      else await_core1 fuel (S (S k)) core1_start d
  end.

(** [None] when the fuel is spent; the flag is core1_launched *)
Definition launch_core1 (fuel : nat) (d : duo) : option (bool * duo) :=
  let d := advance 0 (d <| sdk ::= multicore_launch_core1 |> <| pc1 := Core1Entry |>) in
  '(k, d) ← await_core1 fuel 1 (time_us_32 d) d;
  let d := advance k d in
  if multicore_fifo_rvalid (sdk d) then
    '(sig, s) ← multicore_fifo_pop (sdk d);
    Some (sig =? CORE1_MAGIC, d <| sdk := s |>)
  else Some (false, d).

(** *** What the launch does *)

Fixpoint duo_at (k : nat) (d : duo) : duo :=
  match k with O => d | S k => advance k (duo_at k d) end.

(** core 1 has made a step in the first [k] slots *)
Fixpoint started (k : nat) : bool :=
  match k with O => false | S k => started k || (0 <? core1_steps (pace k))%nat end.

(** microseconds in the slots from 1 to [k] *)
Fixpoint waited (k : nat) : Z :=
  match k with O => 0 | S j => waited j + elapsed (pace k) end.

Definition in_launch (b : bool) (d : duo) : Prop :=
  if b then pc1 d = Core1Loop /\ words (sdk d) = [CORE1_MAGIC]
  else pc1 d = Core1Entry /\ words (sdk d) = [].

Lemma core1_quiet n d : in_launch true d ->
  in_launch true (Nat.iter n core1_entry d) /\ clock_us (Nat.iter n core1_entry d) = clock_us d.
Proof.
  intros H. induction n as [|n [[Ip Iw] Ic]]; [done|]. rewrite Nat.iter_succ. revert Ip Iw Ic.
  generalize (Nat.iter n core1_entry d). intros e Ip Iw Ic. unfold core1_entry. by rewrite Ip.
Qed.

Lemma core1_pushes n d : in_launch false d ->
  in_launch true (Nat.iter (S n) core1_entry d) /\
  clock_us (Nat.iter (S n) core1_entry d) = clock_us d.
Proof.
  intros [Hp Hw]. rewrite Nat.iter_succ_r.
  destruct (push_words CORE1_MAGIC (sdk d) Hw) as (s' & E & W).
  assert (core1_entry d = d <| sdk := s' |> <| pc1 := Core1Loop |>) as ->
    by (unfold core1_entry; by rewrite Hp, E).
  exact (core1_quiet n (d <| sdk := s' |> <| pc1 := Core1Loop |>) (conj eq_refl W)).
Qed.

Lemma advance_launch k b d : in_launch b d ->
  in_launch (b || (0 <? core1_steps (pace k))%nat) (advance k d) /\
  clock_us (advance k d) = elapsed (pace k) + clock_us d.
Proof.
  intros H. unfold advance.
  change (elapsed (pace k) + clock_us d) with (clock_us (d <| clock_us ::= Z.add (elapsed (pace k)) |>)).
  assert (in_launch b (d <| clock_us ::= Z.add (elapsed (pace k)) |>)) as H1 by (by destruct b).
  revert H1. generalize (d <| clock_us ::= Z.add (elapsed (pace k)) |>). intros d1 H1.
  destruct b; [by apply core1_quiet|].
  destruct (core1_steps (pace k)) as [|n]; [done|]. by apply core1_pushes.
Qed.

Lemma duo_at_launch k d : in_launch false d -> in_launch (started k) (duo_at k d).
Proof. intros H. induction k as [|k IH]; [done|]. cbn. by apply advance_launch. Qed.

Lemma duo_at_clock k d : in_launch false d ->
  clock_us (duo_at (S k) d) = clock_us (duo_at 1 d) + waited k.
Proof.
  intros H. induction k as [|k IH]; [cbn [waited]; lia|].
  change (duo_at (S (S k)) d) with (advance (S k) (duo_at (S k) d)).
  rewrite (proj2 (advance_launch _ _ _ (duo_at_launch (S k) d H))), IH. cbn [waited]. lia.
Qed.

Lemma valid_started b d : in_launch b d -> multicore_fifo_rvalid (sdk d) = b.
Proof. rewrite rvalid_words. destruct b; intros [_ ->]; done. Qed.

Lemma started_since j k : (j < k)%nat -> (0 < core1_steps (pace j))%nat -> started k = true.
Proof.
  intros Hj Hs. induction k as [|k IH]; [lia|]. cbn [started].
  destruct (Nat.eq_dec j k) as [->|Hne].
  - rewrite (proj2 (Nat.ltb_lt _ _) Hs). apply orb_true_r.
  - by rewrite IH by lia.
Qed.

Lemma never_started k : (forall j, core1_steps (pace j) = 0%nat) -> started k = false.
Proof. intros H. induction k as [|k IH]; [done|]. cbn [started]. by rewrite IH, H. Qed.

(** the timer never stands still, nor jumps over half its range *)
Hypothesis paced : forall k, 1 <= elapsed (pace k) <= 1073741824.

Lemma waited_step j k : (j <= k)%nat -> Z.of_nat (k - j) <= waited k - waited j.
Proof.
  induction 1 as [|k Hk IH]; [replace (j - j)%nat with 0%nat by lia; lia|].
  pose proof (paced (S k)). cbn [waited]. lia.
Qed.

(** Where the loop ends: where core 1 has started, or the time is over. *)
Lemma await_core1_ends fuel k d : in_launch false d ->
  waited k <= CORE1_TIMEOUT_US -> CORE1_TIMEOUT_US - waited k < 2 * Z.of_nat fuel ->
  exists n, await_core1 fuel (S k) (time_us_32 (duo_at 1 d)) (duo_at (S k) d) =
    Some (n, duo_at n d) /\ (k < n)%nat /\
    (started n = true \/ CORE1_TIMEOUT_US < waited (pred n)).
Proof.
  intros H. revert k. induction fuel as [|fuel IH]; intros k Hw Hf; [lia|].
  cbn [await_core1]. change (advance (S k) (duo_at (S k) d)) with (duo_at (S (S k)) d).
  rewrite (valid_started _ _ (duo_at_launch (S (S k)) d H)).
  destruct (started (S (S k))) eqn:Es.
  { exists (S (S k)). split; [done|]. split; [lia|]. by left. }
  change (advance (S (S k)) (duo_at (S (S k)) d)) with (duo_at (S (S (S k))) d).
  pose proof (waited_step 0 (S (S k)) ltac:(lia)) as H0. cbn [waited] in H0.
  pose proof (paced (S k)) as P1. pose proof (paced (S (S k))) as P2.
  assert (u32 (time_us_32 (duo_at (S (S (S k))) d) - time_us_32 (duo_at 1 d)) =
    waited (S (S k))) as ->.
  { unfold time_us_32. rewrite (duo_at_clock (S (S k)) d H). unfold u32.
    rewrite <- Zminus_mod. rewrite Z.add_simpl_l. apply Z.mod_small.
    cbn [waited]. unfold CORE1_TIMEOUT_US in *. lia. }
  destruct (Z.ltb_spec CORE1_TIMEOUT_US (waited (S (S k)))) as [Ht|Ht].
  { exists (S (S (S k))). split; [done|]. split; [lia|]. by right. }
  destruct (IH (S (S k)) Ht) as (n & E & Hn & D); [cbn [waited]; lia|].
  exists n. split; [exact E|]. split; [lia|exact D].
Qed.

(** The launch, for any number of steps of core 1 in any slot. *)
Lemma launch_core1_outcome fuel d : 1000001 <= Z.of_nat fuel ->
  let d0 := d <| sdk ::= multicore_launch_core1 |> <| pc1 := Core1Entry |> in
  exists n d', launch_core1 fuel d = Some (started n, d') /\
    (forall j, (0 < core1_steps (pace j))%nat -> waited j <= CORE1_TIMEOUT_US -> started n = true) /\
    pc1 d' = (if started n then Core1Loop else Core1Entry) /\ words (sdk d') = [].
Proof.
  intros Hf d0. assert (in_launch false d0) as H by (split; [done|apply launch_words]).
  destruct (await_core1_ends fuel 0 d0 H) as (n & E & Hn & D);
    [done|cbn [waited]; unfold CORE1_TIMEOUT_US; lia|].
  unfold launch_core1. fold d0. change (advance 0 d0) with (duo_at 1 d0). rewrite E.
  cbn [mbind option_bind]. change (advance n (duo_at n d0)) with (duo_at (S n) d0).
  pose proof (duo_at_launch (S n) d0 H) as L. rewrite (valid_started _ _ L).
  assert (forall j, (0 < core1_steps (pace j))%nat -> waited j <= CORE1_TIMEOUT_US ->
    started (S n) = true) as Hj.
  { intros j Hs Hw. destruct D as [D|D]; [cbn [started]; by rewrite D|].
    apply (started_since j); [|done]. destruct (le_lt_dec j (pred n)) as [|Hlt]; [lia|].
    pose proof (waited_step (pred n) j ltac:(lia)). lia. }
  exists (S n). destruct (started (S n)) eqn:Es.
  - destruct L as [Lp Lw]. destruct (pop_words _ _ _ Lw) as (s' & -> & W). cbn [mbind option_bind].
    eexists. split; [done|]. by split.
  - destruct L as [Lp Lw]. eexists. split; [done|]. by split.
Qed.
End Launch.

(** ** main *)

(** the members of [g_state] that MainLoop.v's [ready] lacks *)
Record flags := {
  hw_initialized : bool; spi_ready : bool; sdr_dma_ready : bool; core1_launched : bool }.
#[export] Instance eta_flags : Eta flags :=
  eta! Build_flags < hw_initialized ; spi_ready ; sdr_dma_ready ; core1_launched >.
#[export] Instance eta_ready : Eta ready :=
  eta! Build_ready < battery_monitor_ready ; cc1101_ready ; st25r3916_ready >.

Section Main.
Context {Hw : SocInit.Soc} {Cc Nf : SpiSlave} {Bm : BatteryMonitor} {Mc : Multicore}
  {Cl : CaptureLoop}.

Record firmware := {
  m_soc : SocInit.st;
  m_batt : bm;
  m_rf : port (Sl := Cc);           (* the CC1101 and its bus *)
  m_nfc : port (Sl := Nf);          (* the ST25R3916 and its bus *)
  m_duo : duo;                      (* core 1, the capture ring, the FIFO *)
  m_flags : flags;
  m_core : mcu }.
#[export] Instance eta_firmware : Eta firmware :=
  eta! Build_firmware < m_soc ; m_batt ; m_rf ; m_nfc ; m_duo ; m_flags ; m_core >.

(** The battery monitor, the capture ring and the two radios in turn; each sets
    its flag if its initialisation returned 0. *)
Definition init_battery (m : firmware) : firmware :=
  let (ret, b) := battery_monitor_init (m_batt m) in
  let m := m <| m_batt := b |> in
  if ret =? 0 then m <| m_core ::= fun c => c <| g ::= fun r => r <| battery_monitor_ready := true |> |> |>
  else m.
Definition init_sdr_dma (m : firmware) : firmware :=
  let (c, ret) := SdrDma.sdr_dma_init (capture (m_duo m)) in
  let m := m <| m_duo ::= fun d => d <| capture := c |> |> in
  if ret =? 0 then m <| m_flags ::= fun f => f <| sdr_dma_ready := true |> |> else m.
Definition init_cc1101 (m : firmware) : firmware :=
  let (ret, p) := Cc1101.cc1101_init (m_rf m) in
  let m := m <| m_rf := p |> in
  if ret =? 0 then m <| m_core ::= fun c => c <| g ::= fun r => r <| cc1101_ready := true |> |> |>
  else m.
Definition init_st25r3916 (m : firmware) : firmware :=
  let (ret, p) := St25r3916.st25r3916_init (m_nfc m) in
  let m := m <| m_nfc := p |> in
  if ret =? 0 then m <| m_core ::= fun c => c <| g ::= fun r => r <| st25r3916_ready := true |> |> |>
  else m.

(** rp2350b_init reloads the watchdog and leaves the output word *)
Definition init_peripherals (fuel : nat) (m : firmware) : option (Z * firmware) :=
  '(_, s) ← SocInit.rp2350b_init fuel (m_soc m);
  let m := m <| m_soc := s |>
    <| m_core ::= fun c => c <| dog ::= Watchdog.watchdog_kick |>
         <| spi0 ::= fun i => i <| Spi0Isr.isr_gpio := SocInit.peek SocInit.GPIO_OUT (SocInit.dev s) |> |> |>
    <| m_flags ::= fun f => f <| hw_initialized := true |> |> in
  let m := m <| m_core ::= fun c => c <| proto ::= spi_protocol_init |> |>
    <| m_flags ::= fun f => f <| spi_ready := true |> |> in
  Some (0, init_st25r3916 (init_cc1101 (init_sdr_dma (init_battery m)))).

Definition configure_watchdog (m : firmware) : firmware :=
  m <| m_core ::= fun c => c <| dog ::= fun w =>
    let w := snd (Watchdog.watchdog_check_brownout w) in
    let w := snd (Watchdog.watchdog_init w) in
    Watchdog.watchdog_enable_bark w |> |>.

(** main before its loop: in the loop, or waiting for the watchdog to reset *)
Inductive boot_result := InLoop (m : firmware) | Rebooting (m : firmware).

Definition main_boot (pace : nat -> slot) (fuel : nat) (m : firmware) : option boot_result :=
  '(ret, m) ← init_peripherals fuel m;
  if negb (ret =? 0) then Some (Rebooting m) else
  let m := configure_watchdog m in
  '(launched, d) ← launch_core1 pace fuel (m_duo m);
  let m := m <| m_duo := d |> <| m_flags ::= fun f => f <| core1_launched := launched |> |> in
  Some (InLoop (m <| m_core ::= fun c => c <| proto ::= call HwIntReqDeassert |> |>)).

(** *** The loop with its readings *)

Definition read_battery (m : firmware) : Z * Z * firmware :=
  if battery_monitor_ready (g (m_core m)) then
    let m := m <| m_batt ::= battery_monitor_update |> in
    (battery_monitor_get_vbat_mv (m_batt m), battery_monitor_get_temp_c_x10 (m_batt m), m)
  else (0, 0, m).
Definition read_cc1101 (m : firmware) : Z * firmware :=
  if cc1101_ready (g (m_core m)) then
    let (r, p) := Cc1101.cc1101_get_rssi_x10 (m_rf m) in (u16 r, m <| m_rf := p |>)
  else (0, m).
Definition read_st25r3916 (m : firmware) : Z * firmware :=
  if st25r3916_ready (g (m_core m)) then
    let (r, p) := St25r3916.st25r3916_get_field_strength_mv (m_nfc m) in (r, m <| m_nfc := p |>)
  else (0, m).

Definition collect_telemetry (m : firmware) : firmware :=
  let rssi_dbm_x10 := 0 in
  let '(vbat_mv, temp_c_x10, m) := read_battery m in
  let '(cc_rssi_x10, m) := read_cc1101 m in
  let '(nfc_field_mv, m) := read_st25r3916 m in
  m <| m_core ::= fun c => c <| proto ::=
    spi_protocol_update_telemetry rssi_dbm_x10 (u16 temp_c_x10) vbat_mv cc_rssi_x10 nfc_field_mv |> |>.

Definition check_brownout (m : firmware) : firmware :=
  if battery_monitor_ready (g (m_core m)) then
    let vbat := battery_monitor_get_vbat_mv (m_batt m) in
    let b := Battery.battery_is_brownout vbat (main_brownout (m_core m)) in
    let m := m <| m_core ::= fun c => c <| main_brownout := b |> |> in
    if b then m <| m_core ::= fun c => c <| dog ::= Watchdog.watchdog_mark_brownout |>
                 <| proto ::= spi_protocol_set_brownout true |> |>
    else m <| m_core ::= fun c => c <| proto ::= spi_protocol_set_brownout false |> |>
  else m.

Definition loop_body (now : Z) (m : firmware) : option firmware :=
  let m := m <| m_core ::= fun c => c <| dog ::= Watchdog.watchdog_kick |> |> in
  '(_, s) ← spi_protocol_process (proto (m_core m));
  let m := m <| m_core ::= fun c => c <| proto := spi_protocol_tick s |> |> in
  let m :=
    if BATTERY_UPDATE_INTERVAL_MS <=? u32 (now - last_batt_time (m_core m))
    then (collect_telemetry m) <| m_core ::= fun c => c <| last_batt_time := now |> |> else m in
  m ← (if TELEMETRY_INTERVAL_MS <=? u32 (now - last_telem_time (m_core m)) then
         s ← spi_protocol_send_telemetry (proto (m_core m));
         Some (m <| m_core ::= fun c => c <| proto := s |> <| last_telem_time := now |> |>)
       else Some m);
  let m := check_brownout m in
  Some (m <| m_core ::= fun c => c <| loop_count ::= incr32 |> |>).

(** the handler that nothing installs *)
Definition watchdog_bark_handler (m : firmware) : firmware :=
  m <| m_core ::= fun c => c <| proto ::= call HwIntReqDeassert |>
         <| dog ::= Watchdog.watchdog_kick |> |>
    <| m_duo ::= fun d => d <| capture ::= SdrDma.sdr_dma_stop |> |>
    <| m_nfc ::= fun p => snd (St25r3916.st25r3916_stop_polling p) |>
    <| m_rf ::= fun p => snd (Cc1101.cc1101_enter_idle p) |>.

(** ** Runs: interrupts of SPI0, iterations of core 0, steps of core 1 *)
Inductive firm_event := FIrq (rx tx tx' : list Z) | FLoop (now : Z) | FCore1.

Inductive firm_step (m : firmware) : firm_event -> firmware -> Prop :=
| firm_irq rx tx s' rx' tx' : bytes rx ->
    Spi0Isr.spi0_handler rx tx (spi0 (m_core m)) = Some (s', rx', tx') ->
    firm_step m (FIrq rx tx tx') (m <| m_core ::= fun c => c <| spi0 := s' |> |>)
| firm_loop now m' : loop_body now m = Some m' -> firm_step m (FLoop now) m'
| firm_core1 : firm_step m FCore1 (m <| m_duo ::= core1_entry |>).

Inductive firm_run (m : firmware) : list firm_event -> firmware -> Prop :=
| firm_nil : firm_run m [] m
| firm_snoc es e m1 m2 : firm_run m es m1 -> firm_step m1 e m2 -> firm_run m (es ++ [e]) m2.

#[local] Opaque Cc1101.cc1101_get_rssi_x10 St25r3916.st25r3916_get_field_strength_mv
  Cc1101.cc1101_init St25r3916.st25r3916_init SdrDma.sdr_dma_init SocInit.rp2350b_init
  spi_protocol_update_telemetry.

(** ** The abstraction: what an iteration reads is an input *)

Definition battery_due (now : Z) (c : mcu) : bool :=
  BATTERY_UPDATE_INTERVAL_MS <=? u32 (now - last_batt_time c).

Definition readings (t : Z) (m : firmware) : inputs :=
  let b := if battery_due t (m_core m) && battery_monitor_ready (g (m_core m))
           then battery_monitor_update (m_batt m) else m_batt m in
  {| now := t;
     in_vbat_mv := battery_monitor_get_vbat_mv b;
     in_temp_c_x10 := battery_monitor_get_temp_c_x10 b;
     in_cc_rssi_x10 := fst (Cc1101.cc1101_get_rssi_x10 (m_rf m));
     in_nfc_field_mv := fst (St25r3916.st25r3916_get_field_strength_mv (m_nfc m)) |}.

Lemma collect_telemetry_core t m : battery_due t (m_core m) = true ->
  battery_monitor_get_vbat_mv (m_batt (collect_telemetry m)) = in_vbat_mv (readings t m) /\
  m_core (collect_telemetry m) =
    (m_core m) <| proto ::= MainLoop.collect_telemetry (g (m_core m)) (readings t m) |>.
Proof.
  intros Hd. unfold readings. rewrite Hd. clear Hd.
  destruct m as [so ba rf nf du fl [pr sp dg [rb rc rs] lt lb mb lc]].
  unfold collect_telemetry, read_battery, read_cc1101, read_st25r3916, MainLoop.collect_telemetry.
  destruct rb, rc, rs; cbn; destruct (Cc1101.cc1101_get_rssi_x10 rf); cbn;
    by destruct (St25r3916.st25r3916_get_field_strength_mv nf).
Qed.

Lemma check_brownout_core i m : battery_monitor_get_vbat_mv (m_batt m) = in_vbat_mv i ->
  m_core (check_brownout m) = loop_brownout i (m_core m).
Proof. intros E. unfold check_brownout, loop_brownout. rewrite E. by repeat case_match. Qed.

(** one iteration of the firmware is one of MainLoop.v's, on what it read *)
Lemma loop_body_core t m :
  option_map m_core (loop_body t m) = main_iteration (readings t m) (m_core m).
Proof.
  unfold loop_body, main_iteration. cbv zeta.
  change (proto ((m_core m) <| dog ::= Watchdog.watchdog_kick |>)) with (proto (m_core m)).
  change (proto (m_core (m <| m_core ::= _ |>))) with (proto (m_core m)).
  destruct (spi_protocol_process (proto (m_core m))) as [[n s]|]; [|done].
  cbn [mbind option_bind].
  set (m1 := m <| m_core ::= _ |> <| m_core ::= _ |>).
  change ((m_core m) <| dog ::= Watchdog.watchdog_kick |> <| proto := spi_protocol_tick s |>)
    with (m_core m1).
  change (readings t m) with (readings t m1).
  clearbody m1. clear m n s. rename m1 into m.
  assert (exists m2,
    (if BATTERY_UPDATE_INTERVAL_MS <=? u32 (t - last_batt_time (m_core m))
     then (collect_telemetry m) <| m_core ::= fun c => c <| last_batt_time := t |> |> else m) = m2 /\
    battery_monitor_get_vbat_mv (m_batt m2) = in_vbat_mv (readings t m) /\
    m_core m2 = loop_battery (readings t m) (m_core m)) as (m2 & -> & Hv & Hc).
  { eexists. split; [done|]. unfold loop_battery. cbn [now readings].
    fold (battery_due t (m_core m)). destruct (battery_due t (m_core m)) eqn:Hd.
    - destruct (collect_telemetry_core t m Hd) as [Ev Ec]. split; [exact Ev|].
      change (m_core (?a <| m_core ::= ?f |>)) with (f (m_core a)). cbv beta. by rewrite Ec.
    - split; [|done]. unfold readings. by rewrite Hd. }
  unfold loop_telemetry. rewrite <- Hc. cbn [now readings].
  assert (forall m3, battery_monitor_get_vbat_mv (m_batt m3) = in_vbat_mv (readings t m) ->
    m_core ((check_brownout m3) <| m_core ::= fun c => c <| loop_count ::= incr32 |> |>) =
    (loop_brownout (readings t m) (m_core m3)) <| loop_count ::= incr32 |>) as Hb.
  { intros m3 E. exact (f_equal _ (check_brownout_core _ m3 E)). }
  destruct (TELEMETRY_INTERVAL_MS <=? _); [destruct (spi_protocol_send_telemetry _) as [s|]; [|done]|];
    cbn [mbind option_bind option_map]; f_equal; [|exact (Hb m2 Hv)].
  etransitivity; [apply Hb; exact Hv|reflexivity].
Qed.

Lemma loop_body_abs t m m' : loop_body t m = Some m' ->
  main_iteration (readings t m) (m_core m) = Some (m_core m').
Proof. intros E. by rewrite <- loop_body_core, E. Qed.

(** ** Sensors that were not found *)

(** what telemetry says of a sensor whose initialisation failed *)
Record unheard (c : mcu) : Prop := {
  un_battery : battery_monitor_ready (g c) = false ->
    last_vbat_mv (device_state (proto c)) = 0 /\ last_temp_c_x10 (device_state (proto c)) = 0 /\
    brownout_active (device_state (proto c)) = false /\ main_brownout c = false;
  un_cc1101 : cc1101_ready (g c) = false -> last_cc_rssi_x10 (device_state (proto c)) = 0;
  un_nfc : st25r3916_ready (g c) = false -> last_nfc_field_mv (device_state (proto c)) = 0 }.

Lemma unread_same c c' : unheard c -> g c' = g c ->
  device_state (proto c') = device_state (proto c) -> main_brownout c' = main_brownout c -> unheard c'.
Proof. intros [] Eg Ed Eb. constructor; rewrite ?Eg, ?Ed, ?Eb; done. Qed.

Lemma loop_battery_unread i c : unheard c -> unheard (loop_battery i c) /\ g (loop_battery i c) = g c.
Proof.
  intros []. unfold loop_battery. case_match; [|done]. split; [|done].
  constructor; cbn; unfold MainLoop.collect_telemetry; intros E; rewrite ?E; cbn; [|done..].
  destruct (un_battery0 E) as (_ & _ & B1 & B2). done.
Qed.

Lemma loop_telemetry_unread i c c' : cut_off c -> unheard c -> loop_telemetry i c = Some c' ->
  unheard c' /\ g c' = g c.
Proof.
  intros C U. unfold loop_telemetry. case_match; [|by intros [= <-]].
  destruct (send_telemetry_spec _ (co_wf _ C)) as (ret & s1 & Hb & ->). cbn [mbind option_bind].
  destruct (build_result_cut _ _ _ _ _ Hb) as (_ & _ & Ed & _). intros [= <-].
  split; [|done]. by apply (unread_same c).
Qed.

Lemma loop_brownout_unread i c : unheard c ->
  unheard (loop_brownout i c) /\ g (loop_brownout i c) = g c.
Proof.
  intros []. unfold loop_brownout. repeat case_match; split; try done;
    constructor; cbn; intros; by (congruence || auto).
Qed.

Lemma main_iteration_unread i c c' : cut_off c -> unheard c -> main_iteration i c = Some c' ->
  unheard c' /\ g c' = g c.
Proof.
  intros C U. unfold main_iteration. cbn [proto]. rewrite process_empty by apply C.
  cbn [mbind option_bind].
  match goal with |- context [loop_battery i ?x] => set (c0 := x) end.
  assert (cut_off c0) as C0.
  { destruct C. constructor; cbn; try done. by apply set_device_wf. }
  assert (unheard c0) as U0 by (by destruct U).
  destruct (loop_battery_unread i _ U0) as [U1 G1].
  pose proof (loop_battery_cut i _ C0) as C1.
  destruct (loop_telemetry i _) as [c2|] eqn:E; [|done].
  destruct (loop_telemetry_unread _ _ _ C1 U1 E) as [U2 G2].
  destruct (loop_brownout_unread i _ U2) as [U3 G3].
  cbn [mbind option_bind]. intros [= <-]. split; [by apply (unread_same _ _ U3)|].
  cbn. by rewrite G3, G2, G1.
Qed.

(** the loop keeps off the sensors that are not ready *)
Lemma collect_telemetry_devices m :
  g (m_core (collect_telemetry m)) = g (m_core m) /\
  (battery_monitor_ready (g (m_core m)) = false -> m_batt (collect_telemetry m) = m_batt m) /\
  (cc1101_ready (g (m_core m)) = false -> m_rf (collect_telemetry m) = m_rf m) /\
  (st25r3916_ready (g (m_core m)) = false -> m_nfc (collect_telemetry m) = m_nfc m).
Proof.
  destruct m as [so ba rf nf du fl [pr sp dg [rb rc rs] lt lb mb lc]].
  unfold collect_telemetry, read_battery, read_cc1101, read_st25r3916.
  destruct rb, rc, rs; cbn; destruct (Cc1101.cc1101_get_rssi_x10 rf); cbn;
    destruct (St25r3916.st25r3916_get_field_strength_mv nf); by split_and!.
Qed.

(** what an iteration leaves alone, from [m] to [m'] *)
Definition devices_kept (m m' : firmware) : Prop :=
  (battery_monitor_ready (g (m_core m)) = false -> m_batt m' = m_batt m) /\
  (cc1101_ready (g (m_core m)) = false -> m_rf m' = m_rf m) /\
  (st25r3916_ready (g (m_core m)) = false -> m_nfc m' = m_nfc m) /\
  m_flags m' = m_flags m.

Lemma loop_body_devices t m m' : loop_body t m = Some m' -> devices_kept m m'.
Proof.
  assert (forall c, devices_kept m c -> forall f, devices_kept m (c <| m_core ::= f |>)) as Hc by done.
  assert (forall c, devices_kept m c -> devices_kept m (check_brownout c)) as Hb.
  { intros c H. unfold check_brownout. repeat case_match; by repeat apply Hc. }
  unfold loop_body. destruct (spi_protocol_process _) as [[n s]|]; [|done].
  cbn [mbind option_bind].
  set (m1 := m <| m_core ::= _ |> <| m_core ::= _ |>).
  match goal with |- (?e ≫= _) = _ -> _ => destruct e as [m3|] eqn:E3; [|done] end.
  cbn [mbind option_bind]. intros [= <-]. apply Hc, Hb. revert E3.
  match goal with |- context [if BATTERY_UPDATE_INTERVAL_MS <=? ?x then ?a else ?b] =>
    set (m2 := if BATTERY_UPDATE_INTERVAL_MS <=? x then a else b) end.
  assert (devices_kept m m2) as H2.
  { unfold m2. case_match; [|by apply Hc].
    destruct (collect_telemetry_devices m1) as (_ & H1 & H3 & H4).
    assert (m_flags (collect_telemetry m1) = m_flags m1) as Hf.
    { unfold collect_telemetry, read_battery, read_cc1101, read_st25r3916.
      repeat case_match; simplify_eq; done. }
    done. }
  destruct (TELEMETRY_INTERVAL_MS <=? _); [|by intros [= <-]].
  destruct (spi_protocol_send_telemetry _); [|done]. cbn [mbind option_bind]. intros [= <-].
  by apply Hc.
Qed.

(** ** Runs *)

(** what core 0 did *)
Definition on_core0 (es : list firm_event) : list firm_event :=
  List.filter (fun e => match e with FCore1 => false | _ => true end) es.

Definition seen (e : firm_event) (e' : event) : Prop :=
  match e, e' with
  | FIrq rx tx tx', Irq rx1 tx1 tx1' => rx1 = rx /\ tx1 = tx /\ tx1' = tx'
  | FLoop t, Loop i => now i = t
  | _, _ => False
  end.

Lemma firm_run_abs m es m' : firm_run m es m' ->
  exists es', mcu_run (m_core m) es' (m_core m') /\ Forall2 seen (on_core0 es) es'.
Proof.
  induction 1 as [|es e m1 m2 R (es' & IH & HF) St]; [exists []; by split; constructor|].
  unfold on_core0. rewrite List.filter_app. destruct St as [rx tx s1 rx1 tx1 Hb E|t m2 E|].
  - exists (es' ++ [Irq rx tx tx1]). split.
    + eapply run_snoc; [exact IH|]. by eapply step_irq.
    + apply Forall2_app; [exact HF|]. repeat constructor.
  - exists (es' ++ [Loop (readings t m1)]). split.
    + eapply run_snoc; [exact IH|]. apply step_loop. by apply loop_body_abs.
    + apply Forall2_app; [exact HF|]. repeat constructor.
  - exists es'. split; [exact IH|]. by rewrite app_nil_r.
Qed.

Lemma firm_run_unread m es m' : cut_off (m_core m) -> unheard (m_core m) -> firm_run m es m' ->
  cut_off (m_core m') /\ unheard (m_core m') /\ g (m_core m') = g (m_core m) /\ devices_kept m m'.
Proof.
  intros C U. induction 1 as [|es e m1 m2 R (C1 & U1 & G1 & K1) St]; [done|].
  destruct St as [rx tx s1 rx1 tx1 Hb E|t m2 E|].
  - split; [|split; [by apply (unread_same _ _ U1)|split; [exact G1|exact K1]]].
    destruct (irq_idle _ _ _ _ _ _ (co_tx _ C1) E) as [Hp _]. destruct C1. by constructor.
  - pose proof (loop_body_abs _ _ _ E) as Ea.
    destruct (main_iteration_unread _ _ _ C1 U1 Ea) as [U2 G2].
    split_and!; [by eapply main_iteration_cut|done|congruence|].
    pose proof (loop_body_devices _ _ _ E) as (K2 & K3 & K4 & K5). rewrite G1 in K2, K3, K4.
    destruct K1 as (J2 & J3 & J4 & J5).
    split; [intros F; by rewrite K2, J2|]. split; [intros F; by rewrite K3, J3|].
    split; [intros F; by rewrite K4, J4|]. by rewrite K5.
  - split; [exact C1|]. split; [exact U1|]. split; [exact G1|exact K1].
Qed.

(** ** From power-on *)

(** the memory of core 0 as the loader leaves it, and some watchdog registers *)
Definition mcu_bss (w : Watchdog.wd) : mcu := {|
  proto := fw_bss; spi0 := Spi0Isr.isr_bss 0; dog := w;
  g := {| battery_monitor_ready := false; cc1101_ready := false; st25r3916_ready := false |};
  last_telem_time := 0; last_batt_time := 0; main_brownout := false; loop_count := 0 |}.

Definition powered_on (w : Watchdog.wd) (m : firmware) : Prop :=
  m_core m = mcu_bss w /\ m_flags m = Build_flags false false false false.

(** what the initialisations reported *)
Definition found (m : firmware) : ready := {|
  battery_monitor_ready := fst (battery_monitor_init (m_batt m)) =? 0;
  cc1101_ready := fst (Cc1101.cc1101_init (m_rf m)) =? 0;
  st25r3916_ready := fst (St25r3916.st25r3916_init (m_nfc m)) =? 0 |}.

Context {Laws : SocInit.SocLaws}.

Lemma init_peripherals_ends fuel w m : (SocInit.patience <= fuel)%nat ->
  (forall n, SocInit.wide n = 0) -> powered_on w m ->
  exists m', init_peripherals fuel m = Some (0, m') /\
    m_core m' = (mcu_bss w) <| proto := fw_init |> <| dog := Watchdog.watchdog_kick w |>
      <| spi0 := Spi0Isr.isr_bss 0x80100400 |> <| g := found m |> /\
    m_flags m' = Build_flags true true true false /\
    m_duo m' = (m_duo m) <| capture := fst (SdrDma.sdr_dma_init (capture (m_duo m))) |> /\
    m_batt m' = snd (battery_monitor_init (m_batt m)) /\
    m_rf m' = snd (Cc1101.cc1101_init (m_rf m)) /\
    m_nfc m' = snd (St25r3916.st25r3916_init (m_nfc m)).
Proof.
  intros Hf Hwide [Hc Hfl]. unfold init_peripherals.
  destruct (SocInit.init_output_word fuel (m_soc m) Hf Hwide) as (s' & E & Eo).
  rewrite E. cbn [mbind option_bind]. rewrite Eo.
  eexists. split; [done|].
  unfold init_st25r3916, init_cc1101, init_sdr_dma, init_battery, found.
  destruct m as [so ba rf nf du fl co]. cbn in Hc, Hfl. subst co fl. cbn.
  destruct (battery_monitor_init ba) as [r1 b1]. cbn.
  assert (snd (SdrDma.sdr_dma_init (capture du)) = 0) as Ed by reflexivity.
  destruct (r1 =? 0); cbn; destruct (SdrDma.sdr_dma_init (capture du)) as [c2 r2]; cbn in Ed;
    subst r2; cbn; destruct (Cc1101.cc1101_init rf) as [r3 p3]; cbn; destruct (r3 =? 0); cbn;
    destruct (St25r3916.st25r3916_init nf) as [r4 p4]; cbn; by destruct (r4 =? 0).
Qed.

Section Boot.
Context {pace : nat -> slot}.
Hypothesis paced : forall k, 1 <= elapsed (pace k) <= 1073741824.

Lemma main_boot_ends fuel w m : (SocInit.patience <= fuel)%nat -> 1000001 <= Z.of_nat fuel ->
  (forall n, SocInit.wide n = 0) -> powered_on w m ->
  exists n m', main_boot pace fuel m = Some (InLoop m') /\
    m_core m' = mcu_boot 0x80100400 (found m) (Watchdog.watchdog_kick w) /\
    m_flags m' = Build_flags true true true (started pace n) /\
    (forall j, (0 < core1_steps (pace j))%nat -> waited pace j <= CORE1_TIMEOUT_US ->
       started pace n = true) /\
    pc1 (m_duo m') = (if started pace n then Core1Loop else Core1Entry) /\
    m_batt m' = snd (battery_monitor_init (m_batt m)) /\
    m_rf m' = snd (Cc1101.cc1101_init (m_rf m)) /\
    m_nfc m' = snd (St25r3916.st25r3916_init (m_nfc m)).
Proof.
  intros Hp Hf Hwide P. unfold main_boot.
  destruct (init_peripherals_ends fuel w m Hp Hwide P) as (m1 & -> & Hc & Hfl & Hd & Hb & Hr & Hn).
  cbn [mbind option_bind Z.eqb negb].
  destruct (launch_core1_outcome pace paced fuel (m_duo (configure_watchdog m1)) Hf)
    as (n & d & -> & Hj & Hpc & _).
  cbn [mbind option_bind]. exists n. eexists. split; [done|].
  destruct m1 as [so ba rf nf du fl co]. cbn in Hc, Hfl, Hb, Hr, Hn |- *. subst.
  split_and!; done.
Qed.
End Boot.

Lemma boot_unread gpio r w : unheard (mcu_boot gpio r w).
Proof. by constructor. Qed.
End Main.

(** ** Properties *)

(** C16: Launching core 1 always comes to an end, and reports the truth.  For any
    interleaving of the two cores in which the timer advances between two
    observations, by less than half its range, a million rounds of the polling
    loop are enough; core1_launched is set if core 1 makes its first step
    within two seconds, however close to the deadline, and is not if it makes
    none, when it stays at its entry; the signal is taken out of the FIFO. *)
Theorem core1_launch_terminates {Mc : Multicore} {Cl : CaptureLoop} (pace : nat -> slot)
  (fuel : nat) (d : duo) (paced : forall k, 1 <= elapsed (pace k) <= 1073741824)
  (Hf : 1000001 <= Z.of_nat fuel) :
  exists launched d', launch_core1 pace fuel d = Some (launched, d') /\
    (forall j, (0 < core1_steps (pace j))%nat -> waited pace j <= 2000000 -> launched = true) /\
    ((forall j, core1_steps (pace j) = 0%nat) -> launched = false) /\
    pc1 d' = (if launched then Core1Loop else Core1Entry) /\ words (sdk d') = [].
Proof.
  destruct (launch_core1_outcome pace paced fuel d Hf) as (n & d' & E & Hj & Hp & Hw).
  exists (started pace n), d'. split_and!; try done. apply never_started.
Qed.

(** C14: The firmware boots whatever it finds.  From the state the loader leaves,
    on a chip whose status bits come up, and for any battery monitor, radios
    and pace of the two cores: init_peripherals reports success, so the reboot
    branch is never taken; main reaches its loop in MainLoop.v's boot state
    with INT_REQ and the other idle levels on the output word; each sensor is
    ready exactly if its initialisation returned 0; the watchdog is armed for
    five seconds; and core1_launched is set if core 1 starts in time. *)
Theorem firmware_boots {Hw : SocInit.Soc} {Cc Nf : SpiSlave} {Bm : BatteryMonitor}
  {Mc : Multicore} {Cl : CaptureLoop} {Laws : SocInit.SocLaws}
  (pace : nat -> slot) (fuel : nat) (w : Watchdog.wd)
  (m : firmware (Hw := Hw) (Cc := Cc) (Nf := Nf))
  (paced : forall k, 1 <= elapsed (pace k) <= 1073741824)
  (Hpatience : (SocInit.patience <= fuel)%nat) (Hf : 1000001 <= Z.of_nat fuel)
  (Hwide : forall n, SocInit.wide n = 0) (P : powered_on w m) :
  exists m', main_boot pace fuel m = Some (InLoop m') /\
    m_core m' = mcu_boot 0x80100400 (found m) (Watchdog.watchdog_kick w) /\
    (battery_monitor_ready (g (m_core m')) = true <-> fst (battery_monitor_init (m_batt m)) = 0) /\
    (cc1101_ready (g (m_core m')) = true <-> fst (Cc1101.cc1101_init (m_rf m)) = 0) /\
    (st25r3916_ready (g (m_core m')) = true <-> fst (St25r3916.st25r3916_init (m_nfc m)) = 0) /\
    (Watchdog.wd_load (dog (m_core m')) = Watchdog.WD_TIMEOUT_US /\
     Watchdog.wd_ctrl (dog (m_core m')) = 11) /\
    m_flags m' = Build_flags true true true (core1_launched (m_flags m')) /\
    (forall j, (0 < core1_steps (pace j))%nat -> waited pace j <= 2000000 ->
       core1_launched (m_flags m') = true).
Proof.
  destruct (main_boot_ends paced fuel w m Hpatience Hf Hwide P)
    as (n & m' & E & Hc & Hfl & Hj & _). exists m'.
  rewrite Hc, Hfl. split; [exact E|]. split; [done|].
  split_and!; try apply Z.eqb_eq; try done; cbn.
  - unfold Watchdog.watchdog_init. by repeat case_match.
  - by rewrite Watchdog.init_ctrl.
Qed.

(** C15: The firmware's loop is MainLoop.v's.  One iteration, with the reads of the
    battery monitor, the CC1101 and the NFC chip it makes, always completes,
    and moves core 0 as an iteration of MainLoop.v on those readings, the
    receive ring drained and the watchdog reloaded; and every run of the
    firmware, with interrupts and steps of core 1 in any order, is a run of
    MainLoop.v with the same interrupts and times. *)
Theorem firmware_refines_loop {Hw : SocInit.Soc} {Cc Nf : SpiSlave} {Bm : BatteryMonitor}
  {Mc : Multicore} {Cl : CaptureLoop} (t : Z)
  (m m1 : firmware (Hw := Hw) (Cc := Cc) (Nf := Nf)) (es : list firm_event)
  (W : fw_wf (proto (m_core m))) (R : firm_run m es m1) :
  (exists m', loop_body t m = Some m' /\
     main_iteration (readings t m) (m_core m) = Some (m_core m') /\
     fw_wf (proto (m_core m')) /\ ring_contents RX_RING_BITS (rx_ring (proto (m_core m'))) = [] /\
     Watchdog.wd_load (dog (m_core m')) = Watchdog.WD_TIMEOUT_US) /\
  exists es', mcu_run (m_core m) es' (m_core m1) /\ Forall2 seen (on_core0 es) es'.
Proof.
  split; [|by apply firm_run_abs].
  destruct (main_iteration_completes (readings t m) (m_core m) W) as (c & E & Wc & Er & El & _).
  pose proof (loop_body_core t m) as Ea. rewrite E in Ea.
  destruct (loop_body t m) as [m'|]; [|done]. injection Ea as <-. exists m'. by split_and!.
Qed.

(** A sensor that was not found at boot is never touched again.  In every run
    of the firmware from boot, of a battery monitor, CC1101 or NFC chip whose
    initialisation failed the device and its bus stay as that left them, and
    the telemetry cache says 0 for it; without the battery monitor no brownout
    is ever reported either. *)
Theorem missing_sensor_untouched {Hw : SocInit.Soc} {Cc Nf : SpiSlave} {Bm : BatteryMonitor}
  {Mc : Multicore} {Cl : CaptureLoop} {Laws : SocInit.SocLaws}
  (pace : nat -> slot) (fuel : nat) (w : Watchdog.wd)
  (m0 m m' : firmware (Hw := Hw) (Cc := Cc) (Nf := Nf)) (es : list firm_event)
  (paced : forall k, 1 <= elapsed (pace k) <= 1073741824)
  (Hpatience : (SocInit.patience <= fuel)%nat) (Hf : 1000001 <= Z.of_nat fuel)
  (Hwide : forall n, SocInit.wide n = 0) (P : powered_on w m0)
  (B : main_boot pace fuel m0 = Some (InLoop m)) (R : firm_run m es m') :
  let d := device_state (proto (m_core m')) in
  (fst (battery_monitor_init (m_batt m0)) <> 0 ->
     m_batt m' = snd (battery_monitor_init (m_batt m0)) /\
     last_vbat_mv d = 0 /\ last_temp_c_x10 d = 0 /\ brownout_active d = false) /\
  (fst (Cc1101.cc1101_init (m_rf m0)) <> 0 ->
     m_rf m' = snd (Cc1101.cc1101_init (m_rf m0)) /\ last_cc_rssi_x10 d = 0) /\
  (fst (St25r3916.st25r3916_init (m_nfc m0)) <> 0 ->
     m_nfc m' = snd (St25r3916.st25r3916_init (m_nfc m0)) /\ last_nfc_field_mv d = 0).
Proof.
  destruct (main_boot_ends paced fuel w m0 Hpatience Hf Hwide P)
    as (n & m1 & E & Hc & _ & _ & _ & Hb & Hr & Hn). rewrite B in E. injection E as <-.
  destruct (firm_run_unread m es m') as (_ & [U1 U2 U3] & G & K1 & K2 & K3 & _);
    [rewrite Hc; apply mcu_boot_cut|rewrite Hc; apply boot_unread|exact R|].
  rewrite G, Hc in U1, U2, U3. rewrite Hc in K1, K2, K3.
  cbv zeta. split_and!; intros F; apply Z.eqb_neq in F.
  - rewrite (K1 F), Hb. destruct (U1 F) as (? & ? & ? & _). by split_and!.
  - rewrite (K2 F), Hr. split; [done|by apply U2].
  - rewrite (K3 F), Hn. split; [done|by apply U3].
Qed.

(** *** A concrete board

    The chip of SocInit.v, a CC1101 that follows its documentation, the NFC chip
    whose select is never driven, and a battery monitor that reads 3700 mV. *)

#[local] Instance plain_fifo : Multicore.
Proof.
  refine {| mc := list Z; words := fun s => s; multicore_launch_core1 := fun _ => [];
    multicore_fifo_push := fun w s => if (length s <? 4)%nat then Some (s ++ [w]) else None;
    multicore_fifo_rvalid := fun s => match s with [] => false | _ => true end;
    multicore_fifo_pop := fun s => match s with [] => None | w :: l => Some (w, l) end |}.
  - done.
  - intros w s ->. by exists [w].
  - done.
  - intros w l s ->. by exists l.
Defined.
#[local] Instance idle_capture : CaptureLoop := {| sdr_dma_process := fun s => s |}.
#[local] Instance steady_battery : BatteryMonitor := {|
  bm := unit; battery_monitor_init := fun b => (0, b); battery_monitor_update := fun b => b;
  battery_monitor_get_vbat_mv := fun _ => 3700; battery_monitor_get_temp_c_x10 := fun _ => 250 |}.

(** core 1 makes its first step in the fifth slot, and one in each that follows *)
Definition demo_pace (k : nat) : slot :=
  {| core1_steps := if (k <? 5)%nat then 0 else 1; elapsed := 100 |}.
Lemma demo_paced k : 1 <= elapsed (demo_pace k) <= 1073741824.
Proof. by cbn. Qed.

Definition demo_fuel : nat := Z.to_nat 1000001.
Lemma demo_fuel_enough : 1000001 <= Z.of_nat demo_fuel.
Proof. unfold demo_fuel. by rewrite Z2Nat.id. Qed.

Definition demo_duo : duo := {|
  sdk := [7]; pc1 := Core1Reset; capture := SdrDma.dma_zero; clock_us := 4294967000 |}.
Definition demo_board := firmware (Hw := SocInit.chip_soc) (Cc := Cc1101.radio_slave)
  (Nf := SpiMmio.unselected SpiMmio.echo_slave).
Definition demo_firmware : demo_board :=
  Build_firmware (Hw := SocInit.chip_soc) (Cc := Cc1101.radio_slave)
    (Nf := SpiMmio.unselected SpiMmio.echo_slave)
    SocInit.cold_chip tt Cc1101.radio_on
    (Build_port (Sl := SpiMmio.unselected SpiMmio.echo_slave) (false, 7) [])
    demo_duo (Build_flags false false false false) (mcu_bss demo_wd).

Lemma demo_patient : (SocInit.patience (SocLaws := SocInit.chip_laws) <= demo_fuel)%nat.
Proof. apply Nat2Z.inj_le. transitivity 1000001; [done|apply demo_fuel_enough]. Qed.

Lemma core1_launch_terminates_witness :
  exists d', launch_core1 demo_pace demo_fuel demo_duo = Some (true, d') /\ pc1 d' = Core1Loop.
Proof.
  destruct (core1_launch_terminates demo_pace demo_fuel demo_duo demo_paced demo_fuel_enough)
    as (b & d' & E & Hj & _ & Hp & _).
  assert (b = true) as -> by (apply (Hj 5%nat); vm_compute; [repeat constructor|discriminate]).
  exists d'. by split.
Defined.

Lemma firmware_boots_witness : exists m' : demo_board,
  main_boot demo_pace demo_fuel demo_firmware = Some (InLoop m') /\
  cc1101_ready (g (m_core m')) = true /\ st25r3916_ready (g (m_core m')) <> true /\
  core1_launched (m_flags m') = true.
Proof.
  destruct (firmware_boots (Hw := SocInit.chip_soc) (Cc := Cc1101.radio_slave)
    (Nf := SpiMmio.unselected SpiMmio.echo_slave) (Laws := SocInit.chip_laws) demo_pace demo_fuel demo_wd demo_firmware
    demo_paced demo_patient demo_fuel_enough (fun _ => eq_refl) (conj eq_refl eq_refl))
    as (m' & E & _ & _ & Hc & Hn & _ & _ & Hj).
  exists m'. split; [exact E|]. split; [apply Hc; exact Cc1101.radio_init_returns_0|].
  split; [rewrite Hn; vm_compute; discriminate|].
  apply (Hj 5%nat); vm_compute; [repeat constructor|discriminate].
Defined.

Lemma fw_bss_wf : fw_wf fw_bss.
Proof.
  constructor; [constructor; try done; apply bytes_replicate, byte_0| | |by repeat constructor].
  - apply (ring_init_wf RX_RING_BITS); done.
  - apply (ring_init_wf TX_RING_BITS); done.
Qed.

Lemma firmware_refines_loop_witness :
  fw_wf (proto (m_core demo_firmware)) /\ exists m' es',
    loop_body 2000 demo_firmware = Some m' /\
    mcu_run (m_core demo_firmware) es' (m_core m') /\ Forall2 seen [FLoop 2000] es'.
Proof.
  assert (fw_wf (proto (m_core demo_firmware))) as W by apply fw_bss_wf.
  split; [exact W|].
  destruct (loop_body 2000 demo_firmware) as [m'|] eqn:E.
  - destruct (firmware_refines_loop (Hw := SocInit.chip_soc) (Cc := Cc1101.radio_slave)
      (Nf := SpiMmio.unselected SpiMmio.echo_slave) 2000 demo_firmware m' [FLoop 2000] W) as [_ (es' & H1 & H2)].
    { apply (firm_snoc demo_firmware [] _ demo_firmware); [constructor|by constructor]. }
    exists m', es'. by split_and!.
  - exfalso. destruct (firmware_refines_loop (Hw := SocInit.chip_soc) (Cc := Cc1101.radio_slave)
      (Nf := SpiMmio.unselected SpiMmio.echo_slave) 2000 demo_firmware demo_firmware [] W) as [(m' & E' & _) _];
      [constructor|congruence].
Defined.

Lemma missing_sensor_untouched_witness : exists m m' : demo_board,
  main_boot demo_pace demo_fuel demo_firmware = Some (InLoop m) /\
  firm_run m [FLoop 2000] m' /\ last_nfc_field_mv (device_state (proto (m_core m'))) = 0.
Proof.
  destruct (main_boot_ends (Hw := SocInit.chip_soc) (Cc := Cc1101.radio_slave)
    (Nf := SpiMmio.unselected SpiMmio.echo_slave) (Laws := SocInit.chip_laws) demo_paced demo_fuel demo_wd demo_firmware
    demo_patient demo_fuel_enough (fun _ => eq_refl) (conj eq_refl eq_refl))
    as (n & m & E & Hc & _).
  pose proof (loop_body_core 2000 m) as Ea.
  destruct (loop_body 2000 m) as [m'|] eqn:El.
  2:{ exfalso. destruct (main_iteration_completes (readings 2000 m) (m_core m)) as (c & Ec & _).
      - rewrite Hc. apply mcu_boot_cut.
      - rewrite Ec in Ea. discriminate. }
  exists m, m'. assert (firm_run m [FLoop 2000] m') as R
    by (apply (firm_snoc m [] _ m); [constructor|by constructor]).
  split; [exact E|]. split; [exact R|].
  destruct (missing_sensor_untouched (Hw := SocInit.chip_soc) (Cc := Cc1101.radio_slave)
    (Nf := SpiMmio.unselected SpiMmio.echo_slave) (Laws := SocInit.chip_laws) demo_pace demo_fuel demo_wd
    demo_firmware m m' [FLoop 2000] demo_paced demo_patient demo_fuel_enough (fun _ => eq_refl)
    (conj eq_refl eq_refl) E R) as (_ & _ & H).
  apply H. vm_compute. discriminate.
Defined.
