(* ===== verification/ApexProbe.v ===== *)
(** * Probe, remove and the interrupt between them (apex_bridge.c)

    ApexBridge.v has the device that a successful probe leaves.  Here is the
    other side of probe and remove: the resources they take and give back in
    every outcome of the calls that can fail, the runtime suspend and resume
    callbacks, and the interleaving of their steps with the interrupt handler,
    the work item it schedules, the character device's open and release and the
    autosuspend timer.  Dropping the last runtime-PM reference suspends the
    device, and suspending it masks the interrupt.  Resources managed by the
    device core (the GPIOs) are released by it and are left out. *)

From S2P Require Import Prelude Kernel.

(** ** Resources *)

Inductive resource :=
| DevMem | RxFifo | TxFifo | Irq | ChrRegion | Cdev | DevClass | Node | PmRef.
#[export] Instance resource_eq_dec : EqDecision resource.
Proof. solve_decision. Defined.

(** what probe and remove do, in order.  Taking [PmRef] is pm_runtime_enable
    and pm_runtime_get_sync, giving it back is pm_runtime_put_sync. *)
Inductive act := Acquire (r : resource) | Release (r : resource) | PmDisable | CancelRxWork.
#[export] Instance act_eq_dec : EqDecision act.
Proof. solve_decision. Defined.

(** the results of the calls of apex_gpio_init *)
Record gpio_outcomes := {
  gpios_valid : bool; request_int_req : Z; request_host_rdy : Z; request_mcu_reset : Z }.
Definition apex_gpio_init (g : gpio_outcomes) : Z :=
  if negb (gpios_valid g) then - EINVAL
  else if negb (request_int_req g =? 0) then request_int_req g
  else if negb (request_host_rdy g =? 0) then request_host_rdy g
  else request_mcu_reset g.

(** the results of the calls of probe; for class and node, [PTR_ERR] or 0 *)
Record outcomes := {
  kzalloc_ok : bool;
  rx_fifo_alloc : Z; tx_fifo_alloc : Z;
  setup : Z; gpio : gpio_outcomes; irq_number : Z; request_irq : Z;
  alloc_region : Z; cdev_add_ret : Z; class_err : Z; node_err : Z }.

(** the error labels, from the last to the first *)
Definition err_free_dev : list act := [Release DevMem].
Definition err_free_rx_fifo : list act := Release RxFifo :: err_free_dev.
Definition err_free_tx_fifo : list act := Release TxFifo :: err_free_rx_fifo.
Definition err_free_irq : list act := Release Irq :: err_free_tx_fifo.
Definition err_unreg_chrdev : list act := Release ChrRegion :: err_free_irq.
Definition err_del_cdev : list act := Release Cdev :: err_unreg_chrdev.
Definition err_destroy_class : list act := Release DevClass :: err_del_cdev.

(** one step: fail to the label, or go on with what the step acquired *)
Definition step_or (failed : bool) (ret : Z) (label : list act) (got : list act)
    (k : Z * list act) : Z * list act :=
  if failed then (ret, label) else (fst k, got ++ snd k).

Definition apex_bridge_probe (o : outcomes) : Z * list act :=
  step_or (negb (kzalloc_ok o)) (- ENOMEM) [] [Acquire DevMem] (
  step_or (negb (rx_fifo_alloc o =? 0)) (rx_fifo_alloc o) err_free_dev [Acquire RxFifo] (
  step_or (negb (tx_fifo_alloc o =? 0)) (tx_fifo_alloc o) err_free_rx_fifo [Acquire TxFifo] (
  step_or (negb (setup o =? 0)) (setup o) err_free_tx_fifo [] (
  let gpio_ret := apex_gpio_init (gpio o) in
  step_or (negb (gpio_ret =? 0)) gpio_ret err_free_tx_fifo [] (
  step_or (irq_number o <? 0) (irq_number o) err_free_tx_fifo [] (
  step_or (negb (request_irq o =? 0)) (request_irq o) err_free_tx_fifo [Acquire Irq] (
  step_or (alloc_region o <? 0) (alloc_region o) err_free_irq [Acquire ChrRegion] (
  step_or (negb (cdev_add_ret o =? 0)) (cdev_add_ret o) err_unreg_chrdev [Acquire Cdev] (
  step_or (class_err o <? 0) (class_err o) err_del_cdev [Acquire DevClass] (
  step_or (node_err o <? 0) (node_err o) err_destroy_class [Acquire Node] (
  (0, [Acquire PmRef])))))))))))).

Definition apex_bridge_remove : list act :=
  [Release PmRef; PmDisable; CancelRxWork; Release Node; Release DevClass; Release Cdev;
   Release ChrRegion; Release Irq; Release RxFifo; Release TxFifo; Release DevMem].

(** what a probed device holds *)
Definition probed : list resource :=
  [PmRef; Node; DevClass; Cdev; ChrRegion; Irq; TxFifo; RxFifo; DevMem].

(** ** Runtime suspend and resume *)

Record spi_pm := { mode : Z; max_speed_hz : Z; saved_mode : Z; saved_speed : Z;
                   irq_line : Z; irq_disabled : Z (* nesting *) }.
#[export] Instance eta_spi_pm : Eta spi_pm :=
  eta! Build_spi_pm < mode ; max_speed_hz ; saved_mode ; saved_speed ; irq_line ; irq_disabled >.

Definition apex_bridge_runtime_suspend (s : spi_pm) : spi_pm :=
  let s := s <| saved_mode := mode s |> <| saved_speed := max_speed_hz s |> in
  let s := s <| max_speed_hz := 1000000 |> in
  if 0 <=? irq_line s then s <| irq_disabled ::= Z.succ |> else s.

Definition apex_bridge_runtime_resume (s : spi_pm) : spi_pm :=
  let s := s <| mode := saved_mode s |> <| max_speed_hz := saved_speed s |> in
  if 0 <=? irq_line s then s <| irq_disabled ::= Z.pred |> else s.

(** The bus and the interrupt nesting come back as they were. *)
Lemma runtime_pm_roundtrip s :
  let s' := apex_bridge_runtime_resume (apex_bridge_runtime_suspend s) in
  mode s' = mode s /\ max_speed_hz s' = max_speed_hz s /\ irq_disabled s' = irq_disabled s.
Proof.
  unfold apex_bridge_runtime_suspend, apex_bridge_runtime_resume.
  repeat (case_match; cbn in *); split_and!; try done; lia.
Qed.

(** ** The machine: resources, the interrupt, the work item and runtime PM *)

(** the one file handle: apex_bridge_open counts it before it takes its
    runtime-PM reference, apex_bridge_release gives the reference back before
    it resets the count *)
Inductive handle := Closed | Opening | Opened | Closing.
#[export] Instance handle_eq_dec : EqDecision handle.
Proof. solve_decision. Defined.

Record machine := {
  live : list resource;
  pending : bool; working : bool;   (* the work item: queued, running *)
  user : handle;
  pm_on : bool;                     (* runtime PM enabled *)
  pm : spi_pm;                      (* the bus settings and the interrupt's disable depth *)
  dangling : bool }.
#[export] Instance eta_machine : Eta machine :=
  eta! Build_machine < live ; pending ; working ; user ; pm_on ; pm ; dangling >.

Definition open_count (m : machine) : Z := if decide (user m = Closed) then 0 else 1.
(** the runtime-PM usage count: probe's reference, the handle's, the work item's *)
Definition usage (m : machine) : Z :=
  (if decide (PmRef ∈ live m) then 1 else 0) + (if decide (user m = Opened) then 1 else 0) +
  (if working m then 1 else 0).
(** the line is disabled while the depth is positive *)
Definition masked (m : machine) : bool := 0 <? irq_disabled (pm m).

(** the runtime-PM core: it suspends an active device and resumes a suspended
    one, while it is enabled *)
Definition pm_suspend (m : machine) : machine :=
  if pm_on m && negb (masked m) then m <| pm ::= apex_bridge_runtime_suspend |> else m.
Definition pm_resume (m : machine) : machine :=
  if pm_on m && masked m then m <| pm ::= apex_bridge_runtime_resume |> else m.
(** pm_runtime_put_sync: at a usage count of zero the idle callback decides *)
Definition pm_idle (m : machine) : machine :=
  if usage m =? 0 then if open_count m =? 0 then pm_suspend m else m else m.

(** apex_rx_work_handler uses the device structure and its receive FIFO *)
Definition touch (m : machine) : machine :=
  m <| dangling ::= fun b => b || negb (bool_decide (DevMem ∈ live m /\ RxFifo ∈ live m)) |>.
(** it starts with pm_runtime_get_sync and ends with pm_runtime_put_autosuspend *)
Definition work_start (m : machine) : machine :=
  if pending m && negb (working m)
  then pm_resume (touch m <| pending := false |> <| working := true |>) else m.
Definition work_end (m : machine) : machine :=
  if working m then touch m <| working := false |> else m.

(** [None]: something is released that is not held, or taken twice.
    cancel_work_sync waits for a running work item.  The first
    pm_runtime_get_sync resumes a device that never suspended, so its
    enable_irq finds the line enabled and leaves it so. *)
Definition do_act (a : act) (m : machine) : option machine :=
  match a with
  | Acquire r =>
      if decide (r ∈ live m) then None else
      let m := m <| live ::= cons r |> in
      Some (if decide (r = PmRef) then m <| pm_on := true |> else m)
  | Release r =>
      if decide (r ∈ live m) then
        let m := m <| live ::= filter (fun x => x <> r) |> in
        Some (if decide (r = PmRef) then pm_idle m else m)
      else None
  | PmDisable => Some (m <| pm_on := false |>)
  | CancelRxWork => Some (work_end (m <| pending := false |>))
  end.

(** apex_irq_handler runs only while the interrupt is requested and enabled *)
Definition irq (m : machine) : machine :=
  if decide (Irq ∈ live m) then if masked m then m else m <| pending := true |> else m.

(** the next step of the handle; [ret] is what pm_runtime_get_sync returns *)
Definition handle_step (ret : Z) (m : machine) : machine :=
  match user m with
  | Closed => if decide (Node ∈ live m) then m <| user := Opening |> else m
  | Opening => if ret <? 0 then m <| user := Closed |> else pm_resume (m <| user := Opened |>)
  | Opened => m <| user := Closing |>
  | Closing => m <| user := Closed |>
  end.

(** what happens around probe and remove: a falling edge on INT_REQ, the work
    item, the handle, the autosuspend timer *)
Inductive env_event := IrqFires | WorkStarts | WorkEnds | HandleStep (ret : Z) | AutoSuspend.
Definition env_step (e : env_event) (m : machine) : machine :=
  match e with
  | IrqFires => irq m
  | WorkStarts => work_start m
  | WorkEnds => work_end m
  | HandleStep ret => handle_step ret m
  | AutoSuspend => if usage m =? 0 then pm_suspend m else m
  end.

Inductive event := Act (a : act) | Env (e : env_event).
Definition acts (l : list event) : list act :=
  omap (fun e => match e with Act a => Some a | _ => None end) l.

Fixpoint run (l : list event) (m : machine) : option machine :=
  match l with
  | [] => Some m
  | Act a :: l => m ← do_act a m; run l m
  | Env e :: l => run l (env_step e m)
  end.

Definition run_acts (l : list act) (m : machine) : option machine := run (Act <$> l) m.

(** a device that holds [l], on the interrupt line [line] *)
Definition spi_pm_boot (speed line : Z) : spi_pm := {|
  mode := 0; max_speed_hz := speed; saved_mode := 0; saved_speed := 0;
  irq_line := line; irq_disabled := 0 |}.
Definition holding (l : list resource) : machine := {|
  live := l; pending := false; working := false; user := Closed;
  pm_on := bool_decide (PmRef ∈ l); pm := spi_pm_boot 50000000 7; dangling := false |}.

(** ** Properties *)

(** the results in the order of the calls, 0 for success *)
Definition results (o : outcomes) : list Z :=
  [if kzalloc_ok o then 0 else - ENOMEM; rx_fifo_alloc o; tx_fifo_alloc o; setup o;
   apex_gpio_init (gpio o); Z.min 0 (irq_number o); request_irq o; Z.min 0 (alloc_region o);
   cdev_add_ret o; Z.min 0 (class_err o); Z.min 0 (node_err o)].
Definition first_failure (l : list Z) : Z := foldr (fun r k => if r =? 0 then k else r) 0 l.

(** C31: probe leaks nothing and frees nothing twice.  Whatever combination of its
    calls fails, with no interrupt in between, probe returns the error of the
    first call that failed and holds nothing, or 0 and holds every resource;
    and remove gives back everything a successful probe took. *)
Theorem probe_unwinds (o : outcomes) :
  let (ret, l) := apex_bridge_probe o in
  ret = first_failure (results o) /\
  exists m, run_acts l (holding []) = Some m /\
    live m = (if ret =? 0 then probed else []) /\
    exists m', run_acts apex_bridge_remove (holding probed) = Some m' /\ live m' = [].
Proof.
  unfold apex_bridge_probe, step_or. cbv zeta.
  repeat match goal with
  | |- context [if ?b then (?r, _) else _] => destruct b eqn:?
  end; cbn [fst snd app].
  all: split; [unfold results, first_failure; cbn [foldr]; unfold ENOMEM in *; repeat case_match; lia|].
  all: eexists; split; [vm_compute; reflexivity|].
  all: split; [|eexists; split; vm_compute; reflexivity].
  all: cbn [live]; case_match; try reflexivity; unfold ENOMEM in *; lia.
Qed.

(** *** Interleavings of remove with the interrupt *)

(** no interrupt is delivered after the cancellation of the work item and
    before the interrupt is freed; [k] is what is left of remove *)
Fixpoint quiet (l : list event) (k : list act) (m : machine) : Prop :=
  match l with
  | [] => True
  | Act a :: l => match do_act a m with Some m' => quiet l (tail k) m' | None => True end
  | Env e :: l =>
      (e = IrqFires -> masked m = true \/ CancelRxWork ∈ k \/ Release Irq ∉ k) /\
      quiet l k (env_step e m)
  end.

Record remove_inv (k : list act) (m : machine) : Prop := {
  ri_clean : dangling m = false;
  ri_held : CancelRxWork ∈ k -> DevMem ∈ live m /\ RxFifo ∈ live m;
  ri_idle : CancelRxWork ∉ k -> pending m = false /\ working m = false;
  ri_irq : Release Irq ∉ k -> Irq ∉ live m }.

(** memory goes only after the cancellation, and nothing is taken *)
Definition late_frees (k : list act) : Prop :=
  match k with
  | [] => True
  | a :: k => match a with
              | Acquire _ => False
              | Release r => (r = DevMem \/ r = RxFifo) -> CancelRxWork ∉ k
              | PmDisable | CancelRxWork => True
              end
  end.

(** what the work item and remove see of a machine; runtime PM and the handle
    do not change it *)
Definition core (m : machine) := (live m, pending m, working m, dangling m).

Lemma core_suspend m : core (pm_suspend m) = core m.
Proof. unfold pm_suspend. by case_match. Qed.
Lemma core_resume m : core (pm_resume m) = core m.
Proof. unfold pm_resume. by case_match. Qed.
Lemma core_idle m : core (pm_idle m) = core m.
Proof. unfold pm_idle. repeat case_match; by rewrite ?core_suspend. Qed.
Lemma core_handle ret m : core (handle_step ret m) = core m.
Proof. unfold handle_step. repeat case_match; try done; by rewrite core_resume. Qed.

Lemma core_inv k m m' : core m' = core m -> remove_inv k m -> remove_inv k m'.
Proof. intros [= El Ep Ew Ed] [H1 H2 H3 H4]. constructor; rewrite ?El, ?Ep, ?Ew, ?Ed; auto. Qed.

Lemma touch_clean m : DevMem ∈ live m -> RxFifo ∈ live m -> dangling (touch m) = dangling m.
Proof.
  intros H1 H2. unfold touch. cbn.
  rewrite bool_decide_eq_true_2 by done. by rewrite orb_false_r.
Qed.

(** the work item finds its memory while the cancellation is still to come,
    and is not there afterwards *)
Lemma remove_inv_env e k m :
  (e = IrqFires -> masked m = true \/ CancelRxWork ∈ k \/ Release Irq ∉ k) ->
  remove_inv k m -> remove_inv k (env_step e m).
Proof.
  intros Hq W. pose proof W as [H1 H2 H3 H4].
  destruct e as [| | |ret|]; cbn [env_step].
  - unfold irq. case_decide as Hi; [|done]. destruct (masked m) eqn:Em; [done|].
    constructor; cbn; try done. intros Hc. exfalso.
    destruct (Hq eq_refl) as [?|[?|Hr]]; [congruence|done|by apply H4].
  - unfold work_start. destruct (pending m) eqn:Ep; [|done]. destruct (working m) eqn:Ew; [done|].
    cbn [andb negb]. eapply core_inv; [apply core_resume|].
    destruct (decide (CancelRxWork ∈ k)) as [Hc|Hc]; [|by destruct (H3 Hc)].
    destruct (H2 Hc) as [Hd Hx]. pose proof (touch_clean m Hd Hx) as Ed.
    constructor; try done; cbn in *; congruence.
  - unfold work_end. destruct (working m) eqn:Ew; [|done].
    destruct (decide (CancelRxWork ∈ k)) as [Hc|Hc]; [|by destruct (H3 Hc)].
    destruct (H2 Hc) as [Hd Hx]. pose proof (touch_clean m Hd Hx) as Ed.
    constructor; try done; cbn in *; congruence.
  - eapply core_inv; [apply core_handle|done].
  - case_match; [|done]. eapply core_inv; [apply core_suspend|done].
Qed.

Lemma remove_inv_act a k m m' :
  late_frees (a :: k) -> remove_inv (a :: k) m -> do_act a m = Some m' -> remove_inv k m'.
Proof.
  intros Hk W E. destruct a as [r|r| |]; [done| | |].
  - assert (remove_inv k (m <| live ::= filter (fun x => x <> r) |>)) as W'.
    { destruct W as [H1 H2 H3 H4]. constructor; cbn.
      - done.
      - intros Hc. destruct (H2 ltac:(by right)) as [Hd Hx].
        split; apply list_elem_of_filter; split; try done; intros <-; apply Hk; auto.
      - intros Hc. apply H3. by intros [?|?]%elem_of_cons.
      - intros Hi Hl. apply list_elem_of_filter in Hl as [Hne Hl]. apply H4; [|done].
        intros [Hx|?]%elem_of_cons; [by simplify_eq|done]. }
    cbn in E. case_decide; [|done]. case_decide; simplify_eq; [|done].
    eapply core_inv; [apply core_idle|done].
  - cbn in E. simplify_eq. destruct W as [H1 H2 H3 H4]. constructor; cbn; try done.
    + intros Hc. apply H2. by right.
    + intros Hi. apply H3. by intros [?|?]%elem_of_cons.
    + intros Hi. apply H4. by intros [?|?]%elem_of_cons.
  - destruct W as [H1 H2 H3 H4]. destruct (H2 ltac:(by left)) as [Hd Hx].
    cbn in E. simplify_eq. unfold work_end. cbn.
    destruct (working m) eqn:Ew; constructor; cbn; rewrite ?Ew, ?H1; try done.
    + rewrite bool_decide_eq_true_2 by done. done.
    + intros Hi. apply H4. by intros [?|?]%elem_of_cons.
    + intros Hi. apply H4. by intros [?|?]%elem_of_cons.
Qed.

Lemma remove_suffix n : late_frees (drop n apex_bridge_remove).
Proof.
  destruct (decide (n < 11)%nat) as [Hn|]; [|by rewrite drop_ge by (cbn; lia)].
  assert (Forall (fun n => late_frees (drop n apex_bridge_remove)) (seq 0 11)) as H.
  { repeat (apply Forall_cons; split; [cbn; try done; intros [?|?]; try done; intros Hx;
      repeat (apply elem_of_cons in Hx as [?|Hx]; [done|]); by apply elem_of_nil in Hx|]). constructor. }
  rewrite Forall_forall in H. apply H, elem_of_seq. lia.
Qed.

Lemma remove_run l n m m' :
  remove_inv (drop n apex_bridge_remove) m -> acts l = drop n apex_bridge_remove ->
  quiet l (drop n apex_bridge_remove) m -> run l m = Some m' -> dangling m' = false.
Proof.
  revert n m. induction l as [|[a|e] l IH]; intros n m W Ha Hq E; cbn in *.
  - simplify_eq. apply W.
  - pose proof (remove_suffix n) as Hs. rewrite <- Ha in Hs, W, Hq. cbn in Hq.
    destruct (do_act a m) as [m1|] eqn:Ea; [|done]. cbn in E.
    assert (acts l = drop (S n) apex_bridge_remove) as Ha'.
    { replace (S n) with (n + 1)%nat by lia. by rewrite <- drop_drop, <- Ha. }
    apply (IH (S n) m1); rewrite <- ?Ha'; try done. by eapply remove_inv_act.
  - destruct Hq as [Hq1 Hq]. apply (IH n (env_step e m)); try done. by apply remove_inv_env.
Qed.

(** *** A device that is idle when remove drops its reference *)

Record asleep (m : machine) : Prop := {
  as_user : user m = Closed; as_pending : pending m = false; as_working : working m = false;
  as_masked : masked m = true; as_clean : dangling m = false }.

Lemma suspend_masked m : masked m = true -> pm_suspend m = m.
Proof. intros E. unfold pm_suspend. by rewrite E, andb_false_r. Qed.

Lemma asleep_act a m m' : asleep m -> do_act a m = Some m' -> asleep m'.
Proof.
  intros [Hu Hp Hw Hm Hd] E. destruct a as [r|r| |]; cbn in E.
  - case_decide; [done|]. case_decide; simplify_eq; by constructor.
  - case_decide; [|done]. case_decide; simplify_eq; [|by constructor].
    assert (forall x, masked x = true -> pm_idle x = x) as Hi.
    { intros x Hx. unfold pm_idle. repeat case_match; by rewrite ?suspend_masked. }
    rewrite Hi by done. by constructor.
  - simplify_eq. by constructor.
  - simplify_eq. unfold work_end. cbn. rewrite Hw. by constructor.
Qed.

Lemma asleep_run l m m' :
  asleep m -> (forall ret, Env (HandleStep ret) ∉ l) -> run l m = Some m' -> asleep m'.
Proof.
  revert m. induction l as [|[a|e] l IH]; intros m W Hl E; cbn in *.
  - by simplify_eq.
  - destruct (do_act a m) as [m1|] eqn:Ea; [|done]. cbn in E. apply (IH m1); [by eapply asleep_act| |done].
    intros ret H. apply (Hl ret). by right.
  - replace (env_step e m) with m in E; [apply (IH m); try done; intros ret H; apply (Hl ret); by right|].
    destruct W as [Hu Hp Hw Hm Hd]. destruct e as [| | |ret|]; cbn.
    + unfold irq. rewrite Hm. by case_decide.
    + unfold work_start. by rewrite Hp.
    + unfold work_end. by rewrite Hw.
    + exfalso. apply (Hl ret). by left.
    + rewrite suspend_masked by done. by case_match.
Qed.

(** the event [e] happens right after [a] *)
Definition right_after (a : act) (e : env_event) (l : list act) : list event :=
  l ≫= fun b => Act b :: if decide (b = a) then [Env e] else [].

(** a device in use or at rest, after a successful probe *)
Record operating (m : machine) : Prop := {
  op_live : live m = probed; op_clean : dangling m = false; op_on : pm_on m = true }.
(** nobody holds a reference but probe, and nothing is queued *)
Record at_rest (m : machine) : Prop := {
  re_user : user m = Closed; re_pending : pending m = false; re_working : working m = false;
  re_line : 0 <= irq_line (pm m) /\ irq_disabled (pm m) = 0 }.

(** how a probe ends that fails after the interrupt was requested *)
Definition taken : list act := Acquire <$> [DevMem; RxFifo; TxFifo; Irq].
Lemma late_failures o :
  Acquire Irq ∈ snd (apex_bridge_probe o) -> fst (apex_bridge_probe o) <> 0 ->
  snd (apex_bridge_probe o) ∈
    [taken ++ err_free_irq; taken ++ Acquire ChrRegion :: err_unreg_chrdev;
     taken ++ Acquire ChrRegion :: Acquire Cdev :: err_del_cdev;
     taken ++ Acquire ChrRegion :: Acquire Cdev :: Acquire DevClass :: err_destroy_class].
Proof.
  unfold apex_bridge_probe, step_or. cbv zeta. intros Hi Hne.
  repeat match goal with
  | H : context [if ?b then (?r, _) else _] |- _ => destruct b
  end; cbn [fst snd app] in *; try done;
  first [by apply (bool_decide_unpack _) | by apply (bool_decide_pack _) in Hi; vm_compute in Hi].
Qed.

(** C32: remove is safe except in one window, and a device at rest has no such
    window.  In every interleaving of remove with interrupts, the work item,
    the file handle and the autosuspend timer in which no interrupt is
    delivered between the cancellation of the work item and the release of the
    interrupt, the work item never touches freed memory.  A device that is
    closed, with no work queued or running, when remove drops its runtime-PM
    reference is suspended by that, which masks the interrupt: from there on
    every interleaving without an open is safe.  When the work item is still
    running at that point, or a handle is open, the device stays awake, and an
    interrupt in the window queues the work item again, which then runs on the
    freed device.  The same can happen to every probe that fails after the
    interrupt was requested, since its error path cancels nothing. *)
Theorem remove_race_window :
  (forall l m m', operating m -> acts l = apex_bridge_remove ->
     quiet l apex_bridge_remove m -> run l m = Some m' -> dangling m' = false) /\
  (forall l m m', operating m -> at_rest m -> acts l = tail apex_bridge_remove ->
     (forall ret, Env (HandleStep ret) ∉ l) ->
     run (Act (Release PmRef) :: l) m = Some m' -> masked m' = true /\ dangling m' = false) /\
  (forall m, operating m -> at_rest m ->
     (* the work item runs while remove drops its reference *)
     (exists m', run (Env IrqFires :: Env WorkStarts ::
         right_after CancelRxWork IrqFires apex_bridge_remove ++ [Env WorkStarts]) m = Some m' /\
       dangling m' = true) /\
     (* a handle is open *)
     (exists m', run (Env (HandleStep 0) :: Env (HandleStep 0) ::
         right_after CancelRxWork IrqFires apex_bridge_remove ++ [Env WorkStarts]) m = Some m' /\
       dangling m' = true)) /\
  (forall o, Acquire Irq ∈ snd (apex_bridge_probe o) -> fst (apex_bridge_probe o) <> 0 ->
     exists l m, acts l = snd (apex_bridge_probe o) /\
       run l (holding []) = Some m /\ dangling m = true).
Proof.
  split_and!.
  - intros l m m' [Hl Hd _] Ha Hq E. apply (remove_run l 0 m m'); try done.
    assert (CancelRxWork ∈ apex_bridge_remove /\ Release Irq ∈ apex_bridge_remove) as [? ?]
      by (split; by apply (bool_decide_unpack _)).
    constructor; [done| |done|done]. intros _. rewrite Hl. split; by apply (bool_decide_unpack _).
  - intros l m m' [Hl Hd Hon] [Hu Hp Hw [Hi Hz]] Ha Hn E. cbn in E.
    destruct (decide (PmRef ∈ live m)) as [_|Hin]; [|by destruct Hin; rewrite Hl; left].
    rewrite decide_True in E by done. cbn [mbind option_bind] in E.
    assert (asleep (pm_idle (m <| live ::= filter (fun x => x <> PmRef) |>))) as W.
    { unfold pm_idle, usage, open_count, pm_suspend, masked, apex_bridge_runtime_suspend. cbn.
      rewrite Hu, Hw, Hon, Hz. rewrite (decide_False (P := PmRef ∈ _))
        by (intros [? _]%list_elem_of_filter; done). cbn.
      rewrite (decide_False (P := Closed = Opened)), decide_True by done.
      change (0 + 0 + 0 =? 0) with true. change (0 =? 0) with true. cbv iota.
      constructor; try done. unfold masked. cbn.
      rewrite (proj2 (Z.leb_le _ _)) by done. cbn. by rewrite Hz. }
    destruct (asleep_run l _ m' W Hn E). done.
  - intros m [Hl Hd Hon] [Hu Hp Hw [Hi Hz]].
    destruct m as [lv p w u on [md sp smd ssp line dis] dg]; cbn in *; subst.
    split; eexists; split; vm_compute; reflexivity.
  - intros o Hi Hne. exists (right_after (Acquire Irq) IrqFires (snd (apex_bridge_probe o)) ++ [Env WorkStarts]).
      pose proof (late_failures o Hi Hne) as Hl. revert Hl.
    generalize (snd (apex_bridge_probe o)). intros k Hk.
    repeat (apply elem_of_cons in Hk as [->|Hk]; [eexists; split_and!; vm_compute; reflexivity|]).
    by apply elem_of_nil in Hk.
Qed.

(** an idle device that is removed under a storm of interrupts *)
Definition storm : list event :=
  tail apex_bridge_remove ≫= fun b => [Env IrqFires; Env WorkStarts; Act b].
Definition after_storm : machine :=
  default (holding []) (run (Act (Release PmRef) :: storm) (holding probed)).

Lemma remove_race_window_witness :
  masked after_storm = true /\ dangling after_storm = false /\ live after_storm = [].
Proof.
  assert (masked after_storm = true /\ dangling after_storm = false) as [H1 H2].
  { apply (proj1 (proj2 remove_race_window) storm (holding probed)).
    - by constructor.
    - by constructor.
    - vm_compute. reflexivity.
    - intros ret. vm_compute. intros H.
      repeat (apply elem_of_cons in H as [H|H]; [discriminate H|]). by apply elem_of_nil in H.
    - vm_compute. reflexivity. }
  split_and!; [exact H1|exact H2|vm_compute; reflexivity].
Defined.

(** The very first pm_runtime_get_sync resumes a device that never
    suspended: it loads the settings that suspend saves, which probe left
    zero, over those that probe chose. *)
Lemma first_resume_zeroes speed line :
  max_speed_hz (apex_bridge_runtime_resume (spi_pm_boot speed line)) = 0.
Proof. unfold apex_bridge_runtime_resume. by case_match. Qed.
