(* ===== verification/UnitTests.v ===== *)
(** * The copies the unit tests test (src/tests)

    The unit tests link none of the firmware: each has its own copy of the
    logic it checks.  Here are copies of five of them, as the tests have them,
    and what they share with the code: where a copy is exact the tests' verdict
    carries over, where it is not the first difference is stated. *)

From S2P Require Import Prelude Crc Frame Spi0Isr.
From S2P Require SdrDma SleepWake Battery Watchdog Lms7002m.

#[local] Existing Instance mcu_frame_crc.
#[local] Existing Instance Spi0Isr.eta_isr.
#[local] Opaque mcu_crc64 mcu_crc32.

(** ** test_spi0_isr.c *)

Module FrameSim.
Record sim := {
  buf : list Z; pos : Z; state : frame_state; payload_len : Z; ready : bool;
  validated : Z; rej_sync : Z; rej_hdr : Z; rej_pay : Z; rej_len : Z;
  overflows : Z; received : Z }.
#[export] Instance eta_sim : Eta sim :=
  eta! Build_sim < buf ; pos ; state ; payload_len ; ready ; validated ; rej_sync ;
    rej_hdr ; rej_pay ; rej_len ; overflows ; received >.

Definition sim_process_byte (b : Z) (s : sim) : option sim :=
  let s := s <| received ::= incr32 |> in
  let sync := bf ← buf_set (buf s) 0 b;
              Some (s <| buf := bf |> <| pos := 1 |> <| state := FRAME_STATE_HEADER |>) in
  match state s with
  | FRAME_STATE_IDLE =>
      if validate_sync_byte b then sync else Some (s <| rej_sync ::= incr32 |>)
  | FRAME_STATE_HEADER =>
      if pos s <? SPI_HDR_SIZE then
        bf ← buf_set (buf s) (pos s) b;
        let s := s <| buf := bf |> <| pos ::= fun p => u16 (p + 1) |> in
        if pos s =? SPI_HDR_SIZE then
          if negb (validate_header_crc64 (buf s)) then
            Some (s <| rej_hdr ::= incr32 |> <| state := FRAME_STATE_ERROR |>)
          else
            let s := s <| payload_len := extract_payload_length (buf s) |> in
            if SPI_MAX_PAYLOAD <? payload_len s then
              Some (s <| rej_len ::= incr32 |> <| state := FRAME_STATE_ERROR |>)
            else Some (s <| state := FRAME_STATE_PAYLOAD |>)
        else Some s
      else Some s
  | FRAME_STATE_PAYLOAD =>
      let total := SPI_HDR_SIZE + payload_len s + SPI_CRC32_SIZE in
      if pos s <? total then
        bf ← buf_set (buf s) (pos s) b;
        let s := s <| buf := bf |> <| pos ::= fun p => u16 (p + 1) |> in
        if pos s =? total then
          if validate_payload_crc32 (buf s) (payload_len s) then
            Some (s <| validated ::= incr32 |> <| state := FRAME_STATE_COMPLETE |>
                    <| ready := true |>)
          else Some (s <| rej_pay ::= incr32 |> <| state := FRAME_STATE_ERROR |>)
        else Some s
      else Some (s <| state := FRAME_STATE_ERROR |>)
  | FRAME_STATE_COMPLETE => Some (s <| overflows ::= incr32 |>)
  | FRAME_STATE_ERROR => if validate_sync_byte b then sync else Some s
  end.

Definition sim_release_frame (s : sim) : sim :=
  s <| ready := false |> <| pos := 0 |> <| payload_len := 0 |> <| state := FRAME_STATE_IDLE |>.

(** what the copy keeps of the handler's state *)
Definition sim_of (s : isr) : sim := {|
  buf := rx_buf s; pos := rx_pos s; state := rx_st s; payload_len := rx_payload_len s;
  ready := frame_ready s; validated := st_frames_validated s; rej_sync := st_rejected_sync s;
  rej_hdr := st_rejected_hdr_crc s; rej_pay := st_rejected_pay_crc s;
  rej_len := st_rejected_len s; overflows := st_rx_overflows s; received := st_bytes_received s |}.

(** The copy is exact, but for the counter frames_received, which it has and
    never counts: every byte takes both through the same states. *)
Theorem frame_copy_exact (b : Z) (s : isr) :
  option_map sim_of (spi0_process_byte b s) = sim_process_byte b (sim_of s).
Proof.
  destruct s. unfold spi0_process_byte, sim_process_byte, start_frame, sim_of. cbn.
  destruct rx_st; cbn; repeat (case_match; cbn); try done.
  all: try (destruct (buf_set _ _ _); cbn; repeat (case_match; cbn); done).
Qed.
End FrameSim.

(** ** test_sdr_dma.c *)

Module RingSim.
Import SdrDma.

Record sim := {
  wr : Z; rd : Z; filled : Z; captured : Z; sent : Z; lost : Z; missed : Z }.

Definition next (i : Z) : Z := (i + 1) mod SDR_RING_NUM_BLOCKS.

(** sim_dma_isr_handler, without the pattern it fills the block with *)
Definition sim_dma_isr_handler (s : sim) : sim :=
  let next_write := next (wr s) in
  let over := (next_write =? rd s) && (0 <? filled s) in
  let rd' := if over then next (rd s) else rd s in
  let filled' := if over then u8 (filled s - 1) else filled s in
  {| wr := next_write; rd := rd'; filled := u8 (filled' + 1);
     captured := incr32 (captured s); sent := sent s;
     lost := if over then incr32 (lost s) else lost s; missed := missed s |}.
Definition sim_proto_get_block (s : sim) : option Z * sim :=
  if filled s =? 0 then
    (None, {| wr := wr s; rd := rd s; filled := filled s; captured := captured s;
              sent := sent s; lost := lost s; missed := incr32 (missed s) |})
  else (Some (rd s), s).
Definition sim_proto_release_block (s : sim) : sim :=
  if 0 <? filled s then
    {| wr := wr s; rd := next (rd s); filled := u8 (filled s - 1); captured := captured s;
       sent := incr32 (sent s); lost := lost s; missed := missed s |}
  else s.

Definition sim_op (s : sim) (o : dma_op) : sim :=
  match o with
  | OpComplete => sim_dma_isr_handler s
  | OpGet => snd (sim_proto_get_block s)
  | OpRelease => sim_proto_release_block s
  end.

Definition sim_of (s : sdr_dma) : sim := {|
  wr := dma_write_block s; rd := proto_read_block s; filled := blocks_filled s;
  captured := total_blocks_captured (stats s); sent := total_blocks_sent (stats s);
  lost := overruns (stats s); missed := underruns (stats s) |}.

(** The copy counts the block an overrun discards, sdr_dma.c does not.  As long
    as no transfer completes with seven blocks unread, both go through the same
    states; a completion with seven leaves the copy at seven and the firmware
    at eight, one more than the ring holds unread. *)
Theorem ring_copy_until_overrun (s : sdr_dma) (o : dma_op) (W : dma_wf s) (I : in_step s) :
  (o <> OpComplete \/ unread s <> 7 -> sim_of (run_op s o) = sim_op (sim_of s) o) /\
  (unread s = 7 -> filled (sim_op (sim_of s) OpComplete) = 7 /\
     blocks_filled (run_op s OpComplete) = 8 /\ unread (run_op s OpComplete) = 7).
Proof.
  pose proof W as [Lb Hw Hr Hf]. red in I.
  assert (Hc : (next (dma_write_block s) =? proto_read_block s) = (unread s =? 7)).
  { change next with next_block.
    destruct (unread_cases s W) as [[? E]|[? E]], (next_block_cases _ Hw) as [[? En]|[? En]];
      rewrite E, En;
      repeat match goal with |- context [?a =? ?b] => destruct (Z.eqb_spec a b) end; done || lia. }
  destruct (complete_fields s W) as (_ & _ & C1 & C2 & _ & C3 & C4). split.
  - intros Ho. destruct o; cbn [run_op sim_op].
    + destruct Ho as [[]|H7]; [done|]. rewrite (proj2 (Z.eqb_neq _ _) H7) in C4, Hc.
      destruct C4 as [C4 C5]. unfold sim_dma_isr_handler, sim_of. cbn [wr rd filled captured sent lost missed].
      rewrite Hc. cbn [andb]. rewrite C1, C2, C3, C4, C5. f_equal;
      unfold complete, sdr_dma_irq_handler; change (has_bits 1 1) with true; cbn;
        repeat (case_match; cbn); done.
    + unfold sim_proto_get_block, sdr_dma_get_block, sim_of. cbn [filled].
      destruct (blocks_filled s =? 0); [done|].
      destruct (Z.leb_spec SDR_RING_NUM_BLOCKS (proto_read_block s)) as [H8|]; [|done].
      change SDR_RING_NUM_BLOCKS with 8 in H8. lia.
    + unfold sim_proto_release_block, sdr_dma_release_block, sim_of. cbn [filled].
      by destruct (0 <? blocks_filled s).
  - intros H7. rewrite H7 in C4. destruct C4 as [C4 _]. cbn [run_op sim_op].
    unfold sim_dma_isr_handler, sim_of. cbn [filled wr rd]. rewrite Hc, H7, C2, I, H7. cbn [andb Z.eqb].
    split; [done|]. split; [done|].
    unfold unread. rewrite C1, C4. unfold unread in H7. unfold next_block, SDR_RING_NUM_BLOCKS in *.
    rewrite <- Zminus_mod.
    replace (dma_write_block s + 1 - (proto_read_block s + 1))
      with (dma_write_block s - proto_read_block s) by lia. exact H7.
Qed.
End RingSim.

(** ** test_sleep_wake.c *)

Module SleepSim.
Import SleepWake.

Definition sleep_wake_next_state (current : sleep_state) (idle_ms : Z) (has_activity : bool)
    : sleep_state :=
  if has_activity then SLEEP_IDLE else
  match current with
  | SLEEP_IDLE => if SLEEP_IDLE_TIMEOUT_MS <=? idle_ms then SLEEP_LIGHT else SLEEP_IDLE
  | SLEEP_LIGHT => if SLEEP_LIGHT_TIMEOUT_MS <=? idle_ms then SLEEP_DEEP else SLEEP_LIGHT
  | SLEEP_DEEP => SLEEP_DEEP
  end.

(** The pure function of the test is the transition of the module, with a forced
    wake-up, which the test leaves out, as activity. *)
Theorem sleep_copy_exact (now head head' : Z) (s : sleep) :
  fst (sleep_wake_process now head head' s) =
    sleep_wake_next_state (sw_state s) (sleep_wake_get_idle_ms now s)
      (force_wake_pending s || negb (head =? last_head s)) /\
  sw_state (snd (sleep_wake_process now head head' s)) = fst (sleep_wake_process now head head' s).
Proof.
  unfold sleep_wake_process, sleep_wake_next_state, check_spi_activity, sleep_wake_get_idle_ms.
  destruct s as [st la lp ic fw lh sd w]. cbn.
  destruct (head =? lh), fw, st; cbn; repeat (case_match; cbn); done.
Qed.
End SleepSim.

(** ** test_cc1101_lms7002m.c *)

Module PllSim.
Import Lms7002m.

(** the loop over the dividers, with its way out at 32 *)
Fixpoint pick_div (fuel : nat) (freq_hz div : Z) : option Z :=
  match fuel with
  | O => None
  | S fuel =>
      if 32 <? div then Some div else
      let vco_freq := u64 (freq_hz * div) in
      if (VCO_MIN_HZ <=? vco_freq) && (vco_freq <=? VCO_MAX_HZ) then Some div
      else if div =? 32 then (if u64 (freq_hz * 32) <? VCO_MIN_HZ then None else Some div)
      else pick_div fuel freq_hz (div * 2)
  end.

Definition calculate_pll_params (freq_hz ref_clk : Z) : option (Z * Z * Z) :=
  if (freq_hz <? FREQ_MIN) || (FREQ_MAX <? freq_hz) then None else
  if ref_clk =? 0 then None else
  div ← pick_div 7 freq_hz 1;
  let vco_freq := u64 (freq_hz * div) in
  let pll_ratio := u64 (Z.shiftl vco_freq 24) / ref_clk in
  let nint_val := u32 (Z.shiftr pll_ratio 24) in
  let nfrac_val := Z.land pll_ratio 0x00FFFFFF in
  if (nint_val <? PLL_INT_MIN) || (PLL_INT_MAX <? nint_val) then None else
  let nfrac_val := if 0x7FFFFF <? nfrac_val then 0x7FFFFF else nfrac_val in
  Some (nint_val, nfrac_val, div).

(** The replica treats the last divider by itself, and that makes no difference
    at any frequency. *)
Theorem pll_copy_exact (freq_hz ref_clk : Z) :
  calculate_pll_params freq_hz ref_clk = lms7002m_calculate_pll_params freq_hz ref_clk.
Proof.
  unfold calculate_pll_params, lms7002m_calculate_pll_params.
  destruct (Z.ltb_spec freq_hz FREQ_MIN) as [|H1]; [done|].
  destruct (Z.ltb_spec FREQ_MAX freq_hz) as [|H2]; [done|]. cbn [orb].
  case_match; [done|].
  assert (pick_div 7 freq_hz 1 = find_div 7 freq_hz 1) as ->; [|done].
  unfold FREQ_MIN, FREQ_MAX in *. cbn [pick_div find_div].
  repeat match goal with |- context [32 <? ?t] =>
    let v := eval vm_compute in (32 <? t) in change (32 <? t) with v end.
  repeat match goal with |- context [?t =? 32] =>
    let v := eval vm_compute in (t =? 32) in change (t =? 32) with v end.
  cbv match. rewrite !u64_small by lia. unfold VCO_MIN_HZ, VCO_MAX_HZ.
  repeat match goal with |- context [(?a <=? ?b) && (?b <=? ?c)] =>
    destruct (Z.leb_spec a b); cbn [andb];
    [destruct (Z.leb_spec b c); [done|exfalso; lia]|] end.
  by rewrite (proj2 (Z.ltb_lt _ _)) by lia.
Qed.
End PllSim.

(** ** test_power_states.c *)

Module PowerSim.
Import Battery.

Record ctx := {
  st : power_state; idle_timer_ms : Z; idle_duration_ms : Z;
  brownout_active : bool; overtemp_active : bool }.
#[export] Instance eta_ctx : Eta ctx :=
  eta! Build_ctx < st ; idle_timer_ms ; idle_duration_ms ; brownout_active ; overtemp_active >.

Definition power_state_init : ctx := Build_ctx POWER_STATE_ACTIVE 0 0 false false.

Definition enter (p : power_state) (c : ctx) : ctx :=
  c <| st := p |> <| idle_timer_ms := 0 |> <| idle_duration_ms := 0 |>.

Definition sim_power_state_update (vbat_mv temp_c_x10 dt_ms : Z) (c : ctx) : ctx :=
  let c := c <| brownout_active ::= fun b => if b then negb (3300 <? vbat_mv) else vbat_mv <? 3000 |> in
  let c := c <| overtemp_active ::= fun b => if b then negb (temp_c_x10 <? 750) else 850 <? temp_c_x10 |> in
  if brownout_active c then c <| st := POWER_STATE_SHUTDOWN |> else
  if overtemp_active c then c <| st := POWER_STATE_SHUTDOWN |> else
  match st c with
  | POWER_STATE_ACTIVE =>
      let c := c <| idle_timer_ms ::= fun t => u32 (t + dt_ms) |> in
      if vbat_mv <? 3500 then enter POWER_STATE_IDLE c
      else if 5000 <=? idle_timer_ms c then enter POWER_STATE_IDLE c else c
  | POWER_STATE_IDLE =>
      let c := c <| idle_duration_ms ::= fun t => u32 (t + dt_ms) |> in
      if 3700 <? vbat_mv then enter POWER_STATE_ACTIVE c
      else if (vbat_mv <? 3200) || (30000 <=? idle_duration_ms c)
      then enter POWER_STATE_SLEEP c else c
  | POWER_STATE_SLEEP =>
      if 3500 <? vbat_mv then enter POWER_STATE_ACTIVE c
      else if vbat_mv <? 3000 then c <| st := POWER_STATE_SHUTDOWN |> else c
  | POWER_STATE_SHUTDOWN => c
  end.

(** the firmware's states after readings of voltage, temperature and activity *)
Fixpoint updates (l : list (Z * Z * bool)) (p : power) : power :=
  match l with
  | [] => p
  | (v, t, a) :: l => updates l (snd (power_state_update v t a p))
  end.

(** nothing leads into the idle state *)
Lemma never_idle l p : current_power_state p <> POWER_STATE_IDLE ->
  current_power_state (updates l p) <> POWER_STATE_IDLE.
Proof.
  revert p. induction l as [|[[v t] a] l IH]; intros p Hp; [done|]. cbn [updates]. apply IH.
  unfold power_state_update. cbn. destruct (current_power_state p); by repeat case_match.
Qed.

(** The copy is another machine.  After one reading from the start both shut down
    below 3000 mV, but the copy at 85 degrees and the firmware at 105; the copy
    then idles below 3500 mV or after five seconds, and the firmware enters the
    idle state in no run at all. *)
Theorem power_copy_differs (v t dt : Z) (a : bool) (l : list (Z * Z * bool))
  (Hdt : 0 <= dt < 4294967296) :
  let c := st (sim_power_state_update v t dt power_state_init) in
  let p := fst (power_state_update v t a power_boot) in
  (c = POWER_STATE_SHUTDOWN <-> v < 3000 \/ 850 < t) /\
  (p = POWER_STATE_SHUTDOWN <-> v < 3000 \/ 1050 < t) /\
  (c = POWER_STATE_IDLE <-> 3000 <= v /\ t <= 850 /\ (v < 3500 \/ 5000 <= dt)) /\
  current_power_state (updates l power_boot) <> POWER_STATE_IDLE.
Proof.
  cbv zeta. split_and!.
  - unfold sim_power_state_update, enter, power_state_init.
    cbn -[u32 Z.ltb Z.leb Z.add]. rewrite Z.add_0_l, u32_small by lia.
    destruct (Z.ltb_spec v 3000); cbn -[u32 Z.ltb Z.leb Z.add]; [split; [by left|done]|].
    destruct (Z.ltb_spec 850 t); cbn -[u32 Z.ltb Z.leb Z.add]; [split; [by right|done]|].
    destruct (v <? 3500); [|destruct (5000 <=? dt)]; cbn; split; try done; lia.
  - unfold power_state_update, power_boot, battery_is_brownout, battery_is_critical,
      temperature_is_critical, BROWNOUT_THRESHOLD_MV. cbn -[Z.ltb battery_is_low].
    destruct (Z.ltb_spec v 3000), (Z.ltb_spec v 2800), (Z.ltb_spec 1050 t), (battery_is_low v), a;
      cbn; split; try done; lia.
  - unfold sim_power_state_update, enter, power_state_init.
    cbn -[u32 Z.ltb Z.leb Z.add]. rewrite Z.add_0_l, u32_small by lia.
    destruct (Z.ltb_spec v 3000); cbn -[u32 Z.ltb Z.leb Z.add]; [split; [done|lia]|].
    destruct (Z.ltb_spec 850 t); cbn -[u32 Z.ltb Z.leb Z.add]; [split; [done|lia]|].
    destruct (Z.ltb_spec v 3500); [|destruct (Z.leb_spec 5000 dt)]; cbn; split; try done; lia.
  - by apply never_idle.
Qed.
End PowerSim.

(** ** test_watchdog.c *)

Module WatchdogSim.
Import Watchdog.

Definition SIM_SCRATCH_BOD_MAGIC : Z := 0xB07D0001.
Definition SIM_REASON_TIMER : Z := BIT 0.
Definition SIM_REASON_FORCE : Z := BIT 1.
Definition SIM_REASON_BOD : Z := BIT 2.

Definition watchdog_is_brownout_reset (reason_reg scratch_val : Z) : bool :=
  has_bits reason_reg SIM_REASON_BOD || (scratch_val =? SIM_SCRATCH_BOD_MAGIC).

(** The copy has another magic word and the reason bits the other way round: it
    takes no brownout the firmware marks for one, and a bite for a forced
    reset. *)
Theorem watchdog_copy_differs (s : wd) (W : wd_wf s) :
  watchdog_is_brownout_reset (wd_reason (wd_bite (watchdog_mark_brownout s)))
    (scratch_at 7 (wd_bite (watchdog_mark_brownout s))) = false /\
  fst (watchdog_check_brownout (wd_bite (watchdog_mark_brownout s))) = true /\
  wd_reason (wd_bite s) = SIM_REASON_FORCE /\ WD_REASON_FORCE = SIM_REASON_TIMER.
Proof.
  unfold watchdog_check_brownout.
  assert (scratch_at 7 (wd_bite (watchdog_mark_brownout s)) = WD_SCRATCH_BOD_MAGIC) as ->
    by (by apply scratch_put_at; [|lia]).
  done.
Qed.
End WatchdogSim.
